(* ===== verification/_CoqProject ===== *)
-Q . S2P
Prelude.v
RustStr.v
Net.v
Json.v
Types.v
PathScope.v
Policy.v
Ledger.v
Cas.v
Authority.v
Store.v
HttpLab.v
Ipc.v
Broker.v
Lab.v
Shrink.v
Graph.v
Scheduler.v
Planner.v
Spec.v
Claims.v
Snapshot.v
Surface.v
Verifier.v
Sandbox.v
CampaignOci.v
Remains.v
Declared.v
Engine.v
Certificate.v
Daemon.v
Serving.v
World.v
Fixture.v
FixtureLaws.v
FixtureServers.v
Campaign.v
RunLaws.v
Pddl.v
EndToEnd.v
Gate.v
Drivers.v
Service.v
Startup.v
Budget.v
Processes.v
Execution.v
Cli.v
Commands.v
Instances.v
RuntimeInstances.v
Witnesses.v
RuntimeWitnesses.v
DriverWitnesses.v
ServiceWitnesses.v
