(* ===== verification/Prelude.v ===== *)
(** * AROS: a verification development of the repository's Rust crates

    AROS runs declared security campaigns against a target source tree. A
    campaign file states an invariant, the generators that attack it, an oracle
    that judges their output and the evidence it requires. The program snapshots
    the target, runs the generators (in a container or on the host), records what
    it saw in a hash-chained ledger, reproduces the result on a replica and on a
    patched twin, and issues a certificate that can be checked offline. Tools
    asked for by the research worker go through a policy engine and a broker.

    ** The files, and the code they model (paths under src/crates)

    - [Prelude]: results, error propagation, list and boolean lemmas, hint
      databases. [RustStr]: the string operations of Rust's [str] on UTF-8
      bytes. [Net]: [IpAddr] and its textual form; [ipnet] as an interface.
    - [Json] (aros-types/canonical.rs): JSON values, canonicalization; the
      printer, the [Serialize] implementations and the hash functions are the
      classes [JsonLib], [Serialize] and [HashLib].
    - [Types] (aros-types: enums, ids, domain, manifest, tool, events): the data.
    - [PathScope], [Policy] (aros-policy, aros-core/lib.rs): path, shell and
      network scopes, [evaluate], the fixture manifest.
    - [Ledger], [Cas], [Authority] (aros-evidence): the event ledger, the
      content-addressed store, the evidence authorities.
    - [Store] (aros-store): the SQLite tables, statements and transactions.
    - [HttpLab], [Broker], [Shrink], [Graph], [Scheduler], [Planner], [Claims],
      [Snapshot], [Engine], [Certificate] (aros-core): one file per source file;
      [Planner] and [Pddl] hold htn.rs and pddl.rs.
    - [Spec] (aros-types/campaign_spec.rs): campaign specifications.
    - [Declared], [World], [Campaign] (aros-core/campaign_loader.rs): the pure
      decisions of a declared campaign; the world a run acts on and its
      primitives; the run itself, [run_declared_campaign], step by step.
    - [Verifier] (aros-core/verifier.rs): the verifier process and its parent.
      [Fixture], [FixtureLaws], [FixtureServers] (aros-core/engine.rs):
      [run_fixture_campaign] over [World] with the log of what was observed of
      other processes, what an outcome rests on, and the servers it starts.
    - [Ipc] (aros-ipc): messages, frames, the worker's supervisor and its
      sessions as a step relation. [Lab], [Daemon] (aros-api: lab.rs, auth.rs,
      registry.rs, main.rs): the lab runtime, the registry, the worker loop and
      the HTTP handlers. [Serving]: the same handlers taken one lock at a time,
      by any number of threads. [Service] (campaign.rs): fixture campaigns on
      request (for [Serving] the interface [CampaignService]), with their contained
      or waived target. [Startup] (main.rs): from the environment to the first
      request.
    - [Sandbox], [CampaignOci] (aros-sandbox): the container runtime as a program
      whose commands and answers are recorded; probes, reports, providers behind
      the class [SandboxProvider], campaign containers. [Remains]: what a sequence of
      its commands leaves behind, containers started and networks created.
    - [Surface], [Gate], [Drivers] (aros-core: surface.rs, gate.rs, crew.rs,
      eval_pack.rs, the loaders of campaign_loader.rs): the surface map; the
      drivers that run many campaigns over a [Site], a work directory with one
      subdirectory per campaign.
    - [Budget] (aros-core: budget.rs, adapters.rs): permits for experiments,
      optional tools. [Processes] (campaign_loader.rs, verifier.rs, aros-sandbox):
      the loops that wait for a child process, and what is looked for on the host.
      [Execution] (campaign_loader.rs): the processes of a declared campaign as
      calls of [CampaignOci] and [Processes].
    - [Cli], [Commands] (aros-cli/main.rs): the daemon's clients, evidence checking
      and records; every command as a transition of a shell to an exit code and
      lines.
    - [RunLaws], [EndToEnd]: what every step of a run keeps, and the guarantees
      of a whole run. [Instances], [RuntimeInstances], [Witnesses],
      [RuntimeWitnesses], [DriverWitnesses], [ServiceWitnesses]: concrete instances of the
      interfaces and concrete inputs for the theorems.

    ** How code becomes definitions

    A Rust function is a Rocq function of the same name. [Result] is [result]
    with [?] as bind, [Option] is [option]. Mutation is explicit state: the file
    system of the blob store is a map, the database a record of tables in row
    order, a campaign run a computation [M] over the record [World] (source
    trees, blobs, work directory, ledger, the processes that ran). A process of a
    campaign acts on its [Disk], the trees, the blobs and the whole work directory,
    certificate and database included; where a theorem needs that it leaves something
    alone it says so ([processes_keep]). Every
    operation that can fail may fail: the blob store, database statements and file
    writes take a fault as an argument, and the environment of a run decides each
    fault. Integers are [N] or [nat] where the code cannot overflow, with the
    cast written out where it wraps ([as i64], [as u64], [as u32]). Clocks, fresh
    identifiers, processes, sockets and the container runtime belong to the
    environment; crates the program calls (serde_json, blake3, petgraph, ipnet,
    uuid, prost) are type classes with the documented behaviour the theorems
    use, and [Instances] shows that their laws can hold.

    ** What the theorems show

    - Campaign runs ([EndToEnd]): a finished run leaves a certificate that
      checks, unless one of its processes changed one of the two archived files that
      the certificate names; a verdict rests on processes that ran and were logged; which
      processes run where. [Declared]: evidence levels, oracles, generators.
    - Certificates: an accepted release, the coverage of the digest, exactly when
      a certificate is refused.
    - Ledger and stores: append keeps the chain, tampering is found, equal heads
      mean equal histories up to an explicit collision; crash safety and round
      trips of the blob store and the database; appending in the database
      refines appending in memory.
    - Policy and broker: [evaluate] decides a declarative contract, is monotone,
      and bounds what the default manifests admit; every receipt is mediated,
      confined and bound to its output.
    - Parsing and planning: claims, specifications, shrink proofs; the STRIPS
      search returns the network's plan; delta debugging ends in a one-minimal
      input; graph reachability.
    - Fixture campaigns and the verifier: a verified finding rests on the listed
      observations in order; the verifier accepts exactly what it reproduces; with
      the real verifier behind the process boundary the two compose.
    - Worker and daemon: frames arrive in order and bounded, no exchange before
      the handshake; every interleaving of requests keeps the daemon's authority,
      ledger and counters; the worker loop ends. From its start on the daemon
      answers only within what its environment allows; a contained lab is inert;
      a campaign it serves has its target in the container named after its sandbox,
      unless waived, and asks for the removal of everything it started there.
    - Sandbox: what must have been asked of the runtime and answered before a
      target or a generator is started, with which flags, and what is removed.
    - Drivers: what a surface walk finds and how far it goes; every class of a
      gate and every case of a pack is accounted for, what a verdict rests on and
      what a blocked gate does; missed cases reach the next plan.
    - Command line: a campaign that a command ran passes the command that checks
      its evidence, under the same condition on its two archived files; without a
      waiver no fixture campaign starts, and only the container runtime is probed.
      The daemon a command asks is local and asked once; beyond it, only the listener
      of [campaign map --url], fixture campaigns run in the process itself and what
      the processes of declared campaigns do have a say in its outcome.
    - Processes and budgets: every wait for a child to exit ends in its time (the
      end of its output is not bounded, and may never come); never more
      experiments than the manifest allows; the verdict of a declared campaign
      rests on commands of the runtime on an isolated network, or on children of
      the host that ended in their time.

    ** Bounds and fuel

    [Broker] walks directories with the code's own depth limit (16), so its fuel
    (17) never runs out before the limit is reported. [Shrink] uses well-founded
    recursion. The STRIPS search of [Planner] takes fuel, and the theorem about it
    gives the fuel that suffices; [Pddl], [Gate], [Drivers] and [Commands] pass it on, and the
    theorem about [plan_campaigns] says that planning ends for every target. The waits of [Processes] take turns, and
    [turns] is the number that suffices for a time limit. Other
    recursion is structural.

    ** Not modelled

    The bodies of external processes (generators, the regression script, Podman),
    sockets below one request and reply, SQLite below statements, the JSON
    printer, the hash functions. A process of a declared campaign acts on that
    campaign's own disk, not on the directory of another campaign of the same gate,
    pack or crew, nor on the shell's own files. Processes that are only asked for
    their version are recorded where they are started and taken to change nothing.
    The gate and the doctor probe the container runtime by the commands of [Sandbox];
    there the report of the probe is given ([gh_live_oci], [mc_report]), while a
    refused or admitted fixture campaign records the commands. In [Execution] a
    contained or host process whose output never ends counts as one that failed,
    since a run that blocks for ever has no outcome; [Processes] has the block itself.
    Outside [Snapshot], where the text of a path is what is hashed, file names are
    taken to be UTF-8.
    The parsing of command lines (clap), HTTP routing (axum), the Windows branches of
    the platform tests, and tracing output.
    Records of aros-types/domain.rs that no code constructs. *)

From Stdlib Require Export Ascii ZArith Lia.
From stdpp Require Export sorting base tactics option strings gmap fin_maps sets numbers list.

(** ** Results

    Rust's [Result<A, E>]; [?] is the bind of the monad. *)

Inductive result (E A : Type) : Type :=
| Ok (a : A)
| Err (e : E).
Arguments Ok {E A} a.
Arguments Err {E A} e.

#[global] Instance result_ret {E} : MRet (result E) := λ A a, Ok a.
#[global] Instance result_bind {E} : MBind (result E) := λ A B f r,
  match r with
  | Ok a => f a
  | Err e => Err e
  end.
#[global] Instance result_fmap {E} : FMap (result E) := λ A B f r,
  match r with
  | Ok a => Ok (f a)
  | Err e => Err e
  end.

(** [Result::map_err]. *)
Definition map_err {E F A} (f : E → F) (r : result E A) : result F A :=
  match r with
  | Ok a => Ok a
  | Err e => Err (f e)
  end.

(** [Option::ok_or]. *)
Definition ok_or {E A} (o : option A) (e : E) : result E A :=
  match o with
  | Some a => Ok a
  | None => Err e
  end.

(** [Result::ok]. *)
Definition ok {E A} (r : result E A) : option A :=
  match r with
  | Ok a => Some a
  | Err _ => None
  end.

(** [Result::is_ok]. *)
Definition is_ok {E A} (r : result E A) : bool :=
  match r with
  | Ok _ => true
  | Err _ => false
  end.

#[global] Instance result_eq_dec {E A} `{EqDecision E, EqDecision A} :
  EqDecision (result E A).
Proof. solve_decision. Defined.

Lemma Ok_inj {E A} (a b : A) : @Ok E A a = Ok b → a = b.
Proof. congruence. Qed.

Lemma bind_Ok {E A B} (f : A → result E B) (r : result E A) b :
  (r ≫= f) = Ok b ↔ ∃ a, r = Ok a ∧ f a = Ok b.
Proof. destruct r; cbn; naive_solver. Qed.

Lemma bind_Err {E A B} (f : A → result E B) (r : result E A) e :
  (r ≫= f) = Err e ↔ r = Err e ∨ ∃ a, r = Ok a ∧ f a = Err e.
Proof. destruct r; cbn; naive_solver. Qed.

Lemma map_err_Ok {E F A} (f : E → F) (r : result E A) a :
  map_err f r = Ok a ↔ r = Ok a.
Proof. destruct r; cbn; naive_solver. Qed.

Lemma map_err_Err {E F A} (f : E → F) (r : result E A) e :
  map_err f r = Err e ↔ ∃ e', r = Err e' ∧ e = f e'.
Proof. destruct r; cbn; naive_solver. Qed.

Lemma ok_or_Ok {E A} (o : option A) (e : E) a : ok_or o e = Ok a ↔ o = Some a.
Proof. destruct o; simpl; naive_solver. Qed.

(** [Iterator::collect::<Result<Vec<_>, _>>] after a fallible [map]: stops at
    the first error. *)
Fixpoint try_map {E A B} (f : A → result E B) (l : list A) : result E (list B) :=
  match l with
  | [] => Ok []
  | x :: l => y ← f x; ys ← try_map f l; Ok (y :: ys)
  end.

Lemma try_map_Ok {E A B} (f : A → result E B) l ys :
  try_map f l = Ok ys ↔ Forall2 (λ x y, f x = Ok y) l ys.
Proof.
  revert ys. induction l as [|x l IH]; intros ys; simpl.
  - split; [by intros [= <-]|by inversion_clear 1].
  - rewrite bind_Ok. split.
    + intros (y & Hy & (zs & Hzs & [= <-])%bind_Ok). constructor; [done|by apply IH].
    + intros (y & zs & Hy & Hzs & ->)%Forall2_cons_inv_l. exists y. split; [done|].
      apply bind_Ok. exists zs. split; [by apply IH|done].
Qed.

(** ** Machine integers *)

(** Unsigned integers are [N]; this is the value of an [as u<w>] cast. *)
Definition wrap (w : N) (n : N) : N := (n mod 2 ^ w)%N.

Lemma wrap_small w n : (n < 2 ^ w)%N → wrap w n = n.
Proof. apply N.mod_small. Qed.

Lemma wrap_bounds w n : (wrap w n < 2 ^ w)%N.
Proof. apply N.mod_lt. lia. Qed.

(** ** Hint databases and tactics *)

Create HintDb aros discriminated.
Create Rewrite HintDb aros_simp.

(** Split conjunctions of boolean guards, in hypotheses and in the goal. *)
Ltac split_guards :=
  repeat match goal with
  | H : _ && _ = true |- _ => apply andb_true_iff in H; destruct H
  | H : _ || _ = false |- _ => apply orb_false_iff in H; destruct H
  | H : negb _ = true |- _ => apply negb_true_iff in H
  | H : negb _ = false |- _ => apply negb_false_iff in H
  | H : bool_decide _ = true |- _ => apply bool_decide_eq_true_1 in H
  | H : bool_decide _ = false |- _ => apply bool_decide_eq_false_1 in H
  end.

(** Walk through the early returns of a function: case on the condition of the
    outermost [if] or the scrutinee of the outermost [match] in [H]. *)
Ltac early_return H :=
  match type of H with
  | context [if ?b then _ else _] => let E := fresh "G" in destruct b eqn:E
  | context [match ?x with _ => _ end] => let E := fresh "G" in destruct x eqn:E
  end; simplify_eq/=; try done.

Lemma existsb_true_iff {A} (f : A → bool) l :
  existsb f l = true ↔ ∃ x, x ∈ l ∧ f x = true.
Proof.
  rewrite existsb_exists. split; intros (x & Hx & Hf); exists x;
    (split; [by apply list_elem_of_In|done]).
Qed.

Lemma existsb_false_iff {A} (f : A → bool) l :
  existsb f l = false ↔ ∀ x, x ∈ l → f x = false.
Proof.
  split.
  - intros H x Hx. destruct (f x) eqn:E; [|done].
    enough (existsb f l = true) by congruence. apply existsb_true_iff. eauto.
  - intros H. destruct (existsb f l) eqn:E; [|done].
    apply existsb_true_iff in E as (x & Hx & Hf). specialize (H x Hx). congruence.
Qed.

Lemma forallb_true_iff {A} (f : A → bool) l :
  forallb f l = true ↔ ∀ x, x ∈ l → f x = true.
Proof.
  rewrite forallb_forall. split; intros H x Hx; apply H; by apply list_elem_of_In.
Qed.

(** Lists of messages built by guards. *)
Lemma guard_nil {A} (b : bool) (x : A) : (if b then [x] else []) = [] ↔ b = false.
Proof. by destruct b. Qed.

Lemma bool_eq_decide (b : bool) (P : Prop) `{!Decision P} :
  b = bool_decide P ↔ (b = true ↔ P).
Proof. destruct b; case_bool_decide; naive_solver. Qed.

Lemma bool_implies (x y : bool) : (x = false ∨ y = true) ↔ (x = true → y = true).
Proof. destruct x, y; naive_solver. Qed.

#[export] Hint Rewrite @existsb_true_iff @existsb_false_iff @forallb_true_iff
  @map_err_Ok @ok_or_Ok : aros_simp.
