(* ===== verification/RustStr.v ===== *)
(** * Rust string operations

    A Rust [str] is modelled by the sequence of its UTF-8 bytes ([string], one
    [ascii] per byte). Operations whose pattern is an ASCII character or a
    whole string ([contains], [find], [split], [replace], [strip_prefix], ...)
    agree with their byte versions because UTF-8 is self-synchronising;
    operations that look at [char]s ([chars], [trim], [split_whitespace]) go
    through the UTF-8 decoder [decode]. *)

From stdpp Require Import pretty.
From S2P Require Import Prelude.

(** ** Bytes and characters *)

Definition byte_val (c : ascii) : N := N_of_ascii c.

Definition is_ascii_digit (c : ascii) : bool :=
  (48 <=? byte_val c)%N && (byte_val c <=? 57)%N.
Definition is_ascii_lowercase (c : ascii) : bool :=
  (97 <=? byte_val c)%N && (byte_val c <=? 122)%N.
Definition is_ascii_uppercase (c : ascii) : bool :=
  (65 <=? byte_val c)%N && (byte_val c <=? 90)%N.
Definition is_ascii_alphanumeric (c : ascii) : bool :=
  is_ascii_digit c || is_ascii_lowercase c || is_ascii_uppercase c.

(** [char::is_control]: general category Cc. *)
Definition is_control (cp : N) : bool :=
  (cp <=? 31)%N || ((127 <=? cp)%N && (cp <=? 159)%N).

(** [char::is_whitespace]: the White_Space property. *)
Definition is_whitespace (cp : N) : bool :=
  ((9 <=? cp)%N && (cp <=? 13)%N) || (cp =? 32)%N || (cp =? 133)%N || (cp =? 160)%N ||
  (cp =? 5760)%N || ((8192 <=? cp)%N && (cp <=? 8202)%N) || (cp =? 8232)%N ||
  (cp =? 8233)%N || (cp =? 8239)%N || (cp =? 8287)%N || (cp =? 12288)%N.

(** A decoded character: its code point and the bytes that spell it. *)
Definition uchar : Type := N * string.

Definition cont (c : ascii) : N := N.land (byte_val c) 63.
Definition is_cont (c : ascii) : bool := (128 <=? byte_val c)%N && (byte_val c <? 192)%N.

(** The UTF-8 decoder. A [str] is valid UTF-8 by construction; a byte that
    starts no well-formed (shortest-form) sequence decodes to the replacement
    character, so that the function is total. *)
Fixpoint decode (s : string) : list uchar :=
  match s with
  | EmptyString => []
  | String b0 s1 =>
    let n0 := byte_val b0 in
    let rest := decode s1 in
    let stray := (65533%N, String b0 "") :: rest in
    if (n0 <? 128)%N then (n0, String b0 "") :: rest
    else if (n0 <? 192)%N then stray
    else if (n0 <? 224)%N then
      match s1 with
      | String b1 s2 =>
        let cp := N.lor (N.shiftl (N.land n0 31) 6) (cont b1) in
        if is_cont b1 && (128 <=? cp)%N then (cp, String b0 (String b1 "")) :: decode s2
        else stray
      | EmptyString => stray
      end
    else if (n0 <? 240)%N then
      match s1 with
      | String b1 (String b2 s3) =>
        let cp := N.lor (N.shiftl (N.land n0 15) 12) (N.lor (N.shiftl (cont b1) 6) (cont b2)) in
        if is_cont b1 && is_cont b2 && (2048 <=? cp)%N then
          (cp, String b0 (String b1 (String b2 ""))) :: decode s3
        else stray
      | _ => stray
      end
    else
      match s1 with
      | String b1 (String b2 (String b3 s4)) =>
        let cp := N.lor (N.shiftl (N.land n0 7) 18)
                    (N.lor (N.shiftl (cont b1) 12) (N.lor (N.shiftl (cont b2) 6) (cont b3))) in
        if is_cont b1 && is_cont b2 && is_cont b3 && (65536 <=? cp)%N then
          (cp, String b0 (String b1 (String b2 (String b3 "")))) :: decode s4
        else stray
      | _ => stray
      end
  end.

(** [str::chars], as code points. *)
Definition chars (s : string) : list N := (decode s).*1.

(** The bytes of a list of decoded characters. *)
Fixpoint encode_chars (l : list uchar) : string :=
  match l with
  | [] => ""
  | u :: l => u.2 +:+ encode_chars l
  end.

(** ** Lossy decoding *)

(** The width a lead byte announces, with the range its second byte must be in. *)
Definition lead_byte (n : N) : option (nat * N * N) :=
  if (194 <=? n)%N && (n <=? 223)%N then Some (2, 128%N, 191%N)
  else if (n =? 224)%N then Some (3, 160%N, 191%N)
  else if (n =? 237)%N then Some (3, 128%N, 159%N)
  else if (225 <=? n)%N && (n <=? 239)%N then Some (3, 128%N, 191%N)
  else if (n =? 240)%N then Some (4, 144%N, 191%N)
  else if (n =? 244)%N then Some (4, 128%N, 143%N)
  else if (241 <=? n)%N && (n <=? 243)%N then Some (4, 128%N, 191%N)
  else None.

(** Take [n] continuation bytes; what was taken, whether all were there, the rest. *)
Fixpoint take_cont (n : nat) (s : string) : string * bool * string :=
  match n, s with
  | 0, _ => ("", true, s)
  | Datatypes.S n, String c s' =>
    if is_cont c then let '(t, ok, r) := take_cont n s' in (String c t, ok, r) else ("", false, s)
  | _, EmptyString => ("", false, "")
  end.

Definition replacement : string := String "239" (String "191" (String "189" "")).

(** [String::from_utf8_lossy]: every maximal prefix of a character that does not
    complete becomes one replacement character. *)
Fixpoint lossy (fuel : nat) (s : string) : string :=
  match fuel, s with
  | Datatypes.S fuel, String b0 s1 =>
    if (byte_val b0 <? 128)%N then String b0 (lossy fuel s1)
    else
      match lead_byte (byte_val b0), s1 with
      | Some (width, lo, hi), String b1 s2 =>
        if (lo <=? byte_val b1)%N && (byte_val b1 <=? hi)%N then
          let '(t, ok, r) := take_cont (width - 2) s2 in
          (if (ok : bool) then String b0 (String b1 t) else replacement) +:+ lossy fuel r
        else replacement +:+ lossy fuel s1
      | _, _ => replacement +:+ lossy fuel s1
      end
  | _, _ => ""
  end.
Definition from_utf8_lossy (s : string) : string := lossy (String.length s) s.

(** A truncated character, an overlong one and a stray byte. *)
Example from_utf8_lossy_examples :
  from_utf8_lossy (String "226" (String "130" "A")) = replacement +:+ "A" ∧
  from_utf8_lossy (String "192" (String "128" "")) = replacement +:+ replacement ∧
  from_utf8_lossy (String "226" (String "130" (String "172" "x"))) =
    String "226" (String "130" (String "172" "x")).
Proof. by vm_compute. Qed.

(** ** Searching and splitting *)

(** [str::starts_with]. *)
Definition starts_with (s p : string) : bool := String.prefix p s.

(** [str::strip_prefix]; the pattern comes first. *)
Fixpoint strip_prefix (p s : string) : option string :=
  match p, s with
  | EmptyString, _ => Some s
  | String a p, String b s => if Ascii.eqb a b then strip_prefix p s else None
  | String _ _, EmptyString => None
  end.

(** [str::ends_with]. *)
Fixpoint ends_with (s p : string) : bool :=
  String.eqb s p || match s with EmptyString => false | String _ s => ends_with s p end.

(** [str::contains] with a string pattern. *)
Fixpoint contains (s needle : string) : bool :=
  starts_with s needle || match s with EmptyString => false | String _ s => contains s needle end.

(** [str::find] with a string pattern: byte offset of the first occurrence. *)
Fixpoint find_str (s needle : string) : option nat :=
  if starts_with s needle then Some 0
  else match s with EmptyString => None | String _ s => S <$> find_str s needle end.

(** [str::contains] with a [char] pattern. *)
Fixpoint contains_byte (c : ascii) (s : string) : bool :=
  match s with
  | EmptyString => false
  | String a s => Ascii.eqb a c || contains_byte c s
  end.

(** [s.split_once(c)] for a character: the parts around its first occurrence. *)
Fixpoint split_once (c : ascii) (s : string) : option (string * string) :=
  match s with
  | EmptyString => None
  | String a s =>
    if Ascii.eqb a c then Some ("", s)
    else match split_once c s with
         | Some (l, r) => Some (String a l, r)
         | None => None
         end
  end.

(** [s.rsplit_once(c)] for a character: the parts around its last occurrence. *)
Fixpoint rsplit_once (c : ascii) (s : string) : option (string * string) :=
  match s with
  | EmptyString => None
  | String a s =>
    match rsplit_once c s with
    | Some (l, r) => Some (String a l, r)
    | None => if Ascii.eqb a c then Some ("", s) else None
    end
  end.

(** The parts around the first occurrence of a string pattern: [s.split_once(p)]. *)
Fixpoint split_once_str (p s : string) : option (string * string) :=
  match strip_prefix p s with
  | Some r => Some ("", r)
  | None =>
    match s with
    | EmptyString => None
    | String a s => (λ '(l, r), (String a l, r)) <$> split_once_str p s
    end
  end.

(** [str::split] with a byte predicate; always yields at least one piece. *)
Fixpoint split_by (f : ascii → bool) (s : string) : list string :=
  match s with
  | EmptyString => [""]
  | String a s =>
    match split_by f s with
    | p :: ps => if f a then "" :: p :: ps else String a p :: ps
    | [] => []
    end
  end.

Definition split_char (c : ascii) : string → list string := split_by (Ascii.eqb c).

(** [[T]::join] on strings. *)
Fixpoint join (sep : string) (l : list string) : string :=
  match l with
  | [] => ""
  | [x] => x
  | x :: l => x +:+ sep +:+ join sep l
  end.

(** [str::replace] of one ASCII character by a string. *)
Fixpoint replace_char (c : ascii) (r : string) (s : string) : string :=
  match s with
  | EmptyString => ""
  | String a s => if Ascii.eqb a c then r +:+ replace_char c r s
                  else String a (replace_char c r s)
  end.

(** [str::replace] of a non-empty string pattern: leftmost, non-overlapping.
    [skip] counts the bytes of a match still to be dropped. *)
Fixpoint replace_go (pat r : string) (skip : nat) (s : string) : string :=
  match s with
  | EmptyString => ""
  | String a s' =>
    match skip with
    | S skip => replace_go pat r skip s'
    | 0 => if starts_with s pat then r +:+ replace_go pat r (String.length pat - 1) s'
           else String a (replace_go pat r 0 s')
    end
  end.
Definition replace_str (pat r s : string) : string := replace_go pat r 0 s.

(** [str::to_ascii_lowercase]. *)
Definition lower_byte (c : ascii) : ascii :=
  if is_ascii_uppercase c then ascii_of_N (byte_val c + 32) else c.
Fixpoint to_ascii_lowercase (s : string) : string :=
  match s with
  | EmptyString => ""
  | String a s => String (lower_byte a) (to_ascii_lowercase s)
  end.

Fixpoint all_bytes (f : ascii → bool) (s : string) : bool :=
  match s with
  | EmptyString => true
  | String a s => f a && all_bytes f s
  end.

Definition is_ascii (s : string) : bool := all_bytes (λ c, (byte_val c <? 128)%N) s.

(** [str::len], in bytes. *)
Definition str_len (s : string) : nat := String.length s.

Definition is_empty (s : string) : bool :=
  match s with EmptyString => true | _ => false end.

(** [s.as_bytes().get(n)]. *)
Fixpoint byte_at (n : nat) (s : string) : option ascii :=
  match s, n with
  | EmptyString, _ => None
  | String a _, 0 => Some a
  | String _ s, S n => byte_at n s
  end.

(** ** Trimming, lines and words *)

Fixpoint drop_while {A} (f : A → bool) (l : list A) : list A :=
  match l with
  | [] => []
  | x :: l' => if f x then drop_while f l' else l
  end.

Definition ws (u : uchar) : bool := is_whitespace u.1.

(** [str::trim_start], [str::trim_end], [str::trim]. *)
Definition trim_start (s : string) : string := encode_chars (drop_while ws (decode s)).
Definition trim_end (s : string) : string :=
  encode_chars (rev (drop_while ws (rev (decode s)))).
Definition trim (s : string) : string := trim_end (trim_start s).

(** [str::trim_start_matches] and [trim_end_matches] with an ASCII predicate. *)
Fixpoint trim_start_matches (f : ascii → bool) (s : string) : string :=
  match s with
  | EmptyString => ""
  | String a s' => if f a then trim_start_matches f s' else s
  end.
Definition string_rev (s : string) : string := String.rev s.
Definition trim_end_matches (f : ascii → bool) (s : string) : string :=
  string_rev (trim_start_matches f (string_rev s)).
Definition trim_matches (f : ascii → bool) (s : string) : string :=
  trim_end_matches f (trim_start_matches f s).

Definition newline : ascii := "010"%char.
Definition carriage_return : ascii := "013"%char.

(** [str::strip_suffix] for one byte. *)
Fixpoint strip_suffix_byte (c : ascii) (s : string) : option string :=
  match s with
  | EmptyString => None
  | String a EmptyString => if Ascii.eqb a c then Some "" else None
  | String a s => String a <$> strip_suffix_byte c s
  end.

(** [str::lines]: the pieces that end in a line feed lose it, and a carriage
    return before it; a final piece without line feed is kept when non-empty. *)
Fixpoint lines_of (pieces : list string) : list string :=
  match pieces with
  | [] => []
  | [last] => if is_empty last then [] else [last]
  | p :: ps => default p (strip_suffix_byte carriage_return p) :: lines_of ps
  end.
Definition lines (s : string) : list string := lines_of (split_char newline s).

(** [str::split_whitespace]: maximal runs of non-whitespace characters. *)
Fixpoint words_of (l : list uchar) (cur : string) : list string :=
  match l with
  | [] => if is_empty cur then [] else [cur]
  | u :: l =>
    if ws u then (if is_empty cur then words_of l "" else cur :: words_of l "")
    else words_of l (cur +:+ u.2)
  end.
Definition split_whitespace (s : string) : list string := words_of (decode s) "".

(** ** Numbers *)

Fixpoint parse_digits (max : N) (s : string) (acc : N) : option N :=
  match s with
  | EmptyString => Some acc
  | String a s =>
    if is_ascii_digit a then
      let v := (acc * 10 + (byte_val a - 48))%N in
      if (max <? v)%N then None else parse_digits max s v
    else None
  end.

(** [u<w>::from_str] for a type with largest value [max]: an optional plus sign
    and at least one decimal digit, no overflow. *)
Definition parse_uint (max : N) (s : string) : option N :=
  match s with
  | EmptyString => None
  | String a s' =>
    if Ascii.eqb a "+" then (if is_empty s' then None else parse_digits max s' 0)
    else parse_digits max s 0
  end.

Definition u16_max : N := 65535.
Definition u64_max : N := 18446744073709551615.

(** [Display] of an unsigned integer. *)
Definition display_N (n : N) : string := pretty n.

(** ** Append *)

Create Rewrite HintDb str.

Lemma sapp_nil_l s : "" +:+ s = s.
Proof. reflexivity. Qed.

Lemma sapp_cons a s t : String a s +:+ t = String a (s +:+ t).
Proof. reflexivity. Qed.

Lemma sapp_nil_r s : s +:+ "" = s.
Proof. induction s as [|a s IH]; [done|]. by rewrite sapp_cons, IH. Qed.

Lemma sapp_assoc s t u : (s +:+ t) +:+ u = s +:+ (t +:+ u).
Proof. induction s as [|a s IH]; [done|]. by rewrite !sapp_cons, IH. Qed.

Lemma slength_app s t : String.length (s +:+ t) = String.length s + String.length t.
Proof. induction s as [|a s IH]; [done|]. by rewrite sapp_cons; simpl; rewrite IH. Qed.

#[export] Hint Rewrite sapp_nil_l sapp_cons sapp_nil_r sapp_assoc slength_app : str.

Lemma sapp_inv_head s t u : s +:+ t = s +:+ u → t = u.
Proof. apply (inj (String.app s)). Qed.

Lemma sapp_inv_length s s' t t' :
  s +:+ t = s' +:+ t' → String.length s = String.length s' → s = s' ∧ t = t'.
Proof.
  revert s'. induction s as [|a s IH]; intros [|b s'] E Hl; try done.
  rewrite !sapp_cons in E. injection E as -> E. injection Hl as Hl.
  destruct (IH _ E Hl) as [-> ->]. done.
Qed.

Lemma all_bytes_app f s t : all_bytes f (s +:+ t) = all_bytes f s && all_bytes f t.
Proof.
  induction s as [|a s IH]; [done|]. rewrite sapp_cons. simpl. by rewrite IH, andb_assoc.
Qed.

Lemma all_bytes_impl (f g : ascii → bool) s :
  (∀ c, f c = true → g c = true) → all_bytes f s = true → all_bytes g s = true.
Proof.
  intros H. induction s as [|a s IH]; simpl; [done|].
  rewrite !andb_true_iff. naive_solver.
Qed.

Lemma contains_byte_app c s t :
  contains_byte c (s +:+ t) = contains_byte c s || contains_byte c t.
Proof.
  induction s as [|a s IH]; [done|]. rewrite sapp_cons. simpl. by rewrite IH, orb_assoc.
Qed.

Lemma all_bytes_contains f c s :
  all_bytes f s = true → f c = false → contains_byte c s = false.
Proof.
  induction s as [|a s IH]; simpl; [done|]. rewrite andb_true_iff. intros [Ha Hs] Hc.
  rewrite IH by done. destruct (Ascii.eqb_spec a c); [congruence|done].
Qed.

(** ** Prefixes and occurrences *)

Lemma starts_with_spec s p : starts_with s p = true ↔ ∃ t, s = p +:+ t.
Proof.
  unfold starts_with. revert s. induction p as [|a p IH]; intros s.
  - destruct s; simpl; (split; [|done]); intros _; by eexists.
  - destruct s as [|b s]; cbn [String.prefix].
    + split; [done|]. by intros [t [=]].
    + destruct (ascii_dec a b) as [->|Hab].
      * rewrite IH. setoid_rewrite sapp_cons. naive_solver.
      * split; [done|]. intros [t [= -> _]%eq_sym]. done.
Qed.

Lemma starts_with_app p t : starts_with (p +:+ t) p = true.
Proof. apply starts_with_spec. eauto. Qed.

Lemma strip_prefix_spec p s t : strip_prefix p s = Some t ↔ s = p +:+ t.
Proof.
  revert s. induction p as [|a p IH]; intros s; cbn [strip_prefix].
  - rewrite sapp_nil_l. naive_solver.
  - destruct s as [|b s]; [done|]. rewrite sapp_cons.
    destruct (Ascii.eqb_spec a b) as [->|]; [rewrite IH|]; naive_solver.
Qed.

Lemma strip_prefix_app p t : strip_prefix p (p +:+ t) = Some t.
Proof. by apply strip_prefix_spec. Qed.

Lemma strip_prefix_starts p s : is_Some (strip_prefix p s) ↔ starts_with s p = true.
Proof.
  rewrite starts_with_spec. split.
  - intros [t Ht%strip_prefix_spec]. eauto.
  - intros [t ->]. exists t. apply strip_prefix_app.
Qed.

Lemma contains_spec s n : contains s n = true ↔ ∃ a b, s = a +:+ n +:+ b.
Proof.
  induction s as [|c s IH]; cbn [contains]; rewrite orb_true_iff, starts_with_spec.
  - split.
    + intros [[t Ht]|?]; [|done]. by exists "", t.
    + intros ([|a ?] & b & H); [left; by exists b|]. by rewrite sapp_cons in H.
  - rewrite IH. split.
    + intros [[t Ht]|(a & b & ->)]; [by exists "", t|].
      by exists (String c a), b.
    + intros ([|a ?] & b & H); [left; by exists b|].
      rewrite sapp_cons in H. right. naive_solver.
Qed.

Lemma contains_app_l s t n : contains s n = true → contains (s +:+ t) n = true.
Proof.
  rewrite !contains_spec. intros (a & b & ->). exists a, (b +:+ t).
  by autorewrite with str.
Qed.

Lemma contains_app_r s t n : contains t n = true → contains (s +:+ t) n = true.
Proof.
  rewrite !contains_spec. intros (a & b & ->). exists (s +:+ a), b.
  by autorewrite with str.
Qed.

Lemma contains_self s : contains s s = true.
Proof. apply contains_spec. exists "", "". by autorewrite with str. Qed.

(** A needle with a character the haystack lacks does not occur in it. *)
Lemma contains_missing_byte s n c :
  contains_byte c s = false → contains_byte c n = true → contains s n = false.
Proof.
  intros Hs Hn. destruct (contains s n) eqn:E; [|done].
  apply contains_spec in E as (a & b & ->).
  rewrite !contains_byte_app, Hn, orb_true_r in Hs. by destruct (contains_byte c a).
Qed.

Lemma find_str_contains s n : is_Some (find_str s n) ↔ contains s n = true.
Proof.
  induction s as [|c s IH]; cbn [find_str contains]; rewrite orb_true_iff.
  - destruct (starts_with "" n); split; naive_solver.
  - destruct (starts_with (String c s) n); [naive_solver|].
    rewrite fmap_is_Some, IH. naive_solver.
Qed.

(** ** Splitting and joining *)

Lemma split_by_nonempty f s : split_by f s ≠ [].
Proof.
  induction s as [|a s IH]; simpl; [done|].
  destruct (split_by f s); [done|]. by destruct (f a).
Qed.

(** No piece holds a separator. *)
Lemma split_char_free c s : Forall (λ p, contains_byte c p = false) (split_char c s).
Proof.
  unfold split_char. induction s as [|a s IH]; simpl; [by repeat constructor|].
  destruct (split_by (Ascii.eqb c) s) as [|p ps]; [done|].
  destruct (Ascii.eqb_spec c a) as [->|Hne]; [by constructor|].
  inversion_clear IH. constructor; [|done]. simpl.
  destruct (Ascii.eqb_spec a c); [congruence|done].
Qed.

Definition sep1 (c : ascii) : string := String c "".

Lemma join_cons sep x l : l ≠ [] → join sep (x :: l) = x +:+ sep +:+ join sep l.
Proof. by destruct l. Qed.

(** Joining the pieces gives the string back. *)
Lemma join_split_char c s : join (sep1 c) (split_char c s) = s.
Proof.
  unfold split_char. induction s as [|a s IH]; simpl; [done|].
  pose proof (split_by_nonempty (Ascii.eqb c) s) as Hne.
  destruct (split_by (Ascii.eqb c) s) as [|p ps]; [done|].
  destruct (Ascii.eqb_spec c a) as [->|].
  - rewrite join_cons by done. by rewrite IH.
  - destruct ps; simpl in *; by rewrite ?sapp_cons, IH.
Qed.

Lemma split_char_none c s : contains_byte c s = false → split_char c s = [s].
Proof.
  unfold split_char. induction s as [|a s IH]; simpl; [done|].
  rewrite orb_false_iff. intros [Ha Hs]. rewrite IH by done.
  by rewrite Ascii.eqb_sym, Ha.
Qed.

Lemma split_char_app c p s :
  contains_byte c p = false → split_char c (p +:+ String c s) = p :: split_char c s.
Proof.
  unfold split_char. induction p as [|a p IH]; intros H.
  - simpl. rewrite Ascii.eqb_refl.
    pose proof (split_by_nonempty (Ascii.eqb c) s). by destruct (split_by _ s).
  - simpl in H. apply orb_false_iff in H as [Ha Hp]. rewrite sapp_cons. simpl.
    rewrite IH by done. by rewrite Ascii.eqb_sym, Ha.
Qed.

(** Splitting a joined list gives the list back. *)
Lemma split_join_char c l :
  l ≠ [] → Forall (λ p, contains_byte c p = false) l →
  split_char c (join (sep1 c) l) = l.
Proof.
  intros Hne H. induction H as [|p l Hp Hl IH]; [done|].
  destruct l as [|q l]; [by apply split_char_none|].
  rewrite join_cons by done. unfold sep1. rewrite sapp_cons, sapp_nil_l.
  rewrite split_char_app by done. f_equal. by apply IH.
Qed.

(** ** Characters and bytes *)

Lemma string_length_ind (P : string → Prop) :
  (∀ s, (∀ t, String.length t < String.length s → P t) → P s) → ∀ s, P s.
Proof.
  intros H s. remember (String.length s) as n eqn:Hn.
  revert s Hn. induction (lt_wf n) as [n _ IH]. intros s ->. apply H.
  intros t Ht. by eapply IH.
Qed.

(** Decoding loses no byte. *)
Lemma encode_decode s : encode_chars (decode s) = s.
Proof.
  induction s as [s IH] using string_length_ind. destruct s as [|b0 s1]; [done|].
  cbn [decode]. cbv zeta.
  repeat case_match; subst; cbn [encode_chars snd]; rewrite ?sapp_cons, ?sapp_nil_l;
    rewrite IH by (simpl; lia); done.
Qed.

Lemma is_cont_big c : is_cont c = true → (128 <= byte_val c)%N.
Proof. unfold is_cont. intros H. split_guards. by apply N.leb_le. Qed.

(** An ASCII byte is never part of a longer sequence: it is a character. *)
Lemma chars_contains_byte c s :
  (byte_val c < 128)%N → contains_byte c s = true → byte_val c ∈ chars s.
Proof.
  intros Hc. unfold chars. induction s as [s IH] using string_length_ind.
  destruct s as [|b0 s1]; [done|]. cbn [contains_byte]. intros H.
  assert (Hb : ∀ b, (128 <= byte_val b)%N → Ascii.eqb b c = false).
  { intros b Hb. apply Ascii.eqb_neq. intros ->. lia. }
  cbn [decode]. cbv zeta. destruct (N.ltb_spec (byte_val b0) 128).
  - rewrite fmap_cons, elem_of_cons. destruct (Ascii.eqb_spec b0 c) as [->|]; [by left|].
    right. apply IH; [simpl; lia|done].
  - rewrite (Hb b0) in H by done. simpl in H.
    repeat (match goal with |- context [match ?x with _ => _ end] => destruct x eqn:? end);
      split_guards; subst; rewrite fmap_cons, elem_of_cons; right;
      (apply IH; [simpl; lia|]); try done; simpl in H;
      rewrite ?Hb in H by (by apply is_cont_big); done.
Qed.

(** Only ASCII bytes decode to ASCII characters. *)
Lemma chars_ascii s : Forall (λ cp, (cp < 128)%N) (chars s) → is_ascii s = true.
Proof.
  unfold chars, is_ascii. induction s as [s IH] using string_length_ind.
  destruct s as [|b0 s1]; [done|]. cbn [decode]. cbv zeta.
  repeat case_match; subst; rewrite fmap_cons, Forall_cons; cbn [fst]; intros [Hlt Hrest];
    split_guards;
    repeat match goal with G : (_ <=? _)%N = true |- _ => apply N.leb_le in G end; try lia.
  cbn [all_bytes]. rewrite IH by (simpl; lia || done). by rewrite andb_true_r.
Qed.

(** An ASCII string is its own list of characters. *)
Lemma decode_ascii s :
  is_ascii s = true → decode s = (λ c, (byte_val c, String c "")) <$> String.list_ascii_of_string s.
Proof.
  unfold is_ascii. induction s as [|a s IH]; cbn [all_bytes]; [done|].
  rewrite andb_true_iff. intros [Ha Hs]. cbn [decode String.list_ascii_of_string].
  by rewrite Ha, IH.
Qed.

Lemma rsplit_once_none c s : contains_byte c s = false → rsplit_once c s = None.
Proof.
  induction s as [|a s IH]; simpl; [done|]. rewrite orb_false_iff. intros [Ha Hs].
  by rewrite IH, Ha.
Qed.

Lemma rsplit_once_app c s t :
  contains_byte c t = false → rsplit_once c (s +:+ String c t) = Some (s, t).
Proof.
  intros Ht. induction s as [|a s IH].
  - rewrite sapp_nil_l. simpl. by rewrite rsplit_once_none, Ascii.eqb_refl.
  - rewrite sapp_cons. simpl. by rewrite IH.
Qed.

Lemma starts_with_missing_byte c p s :
  contains_byte c s = false → contains_byte c p = true → starts_with s p = false.
Proof.
  intros Hs Hp. apply not_true_is_false. intros (t & ->)%starts_with_spec.
  by rewrite contains_byte_app, Hp in Hs.
Qed.

(** A displayed number is a non-empty run of decimal digits. *)
Lemma display_N_go_digits n s :
  all_bytes is_ascii_digit s = true → all_bytes is_ascii_digit (pretty_N_go n s) = true.
Proof.
  revert s. induction (N.lt_wf_0 n) as [n _ IH]; intros s Hs.
  destruct (decide (n = 0%N)) as [->|Hn]; [by rewrite pretty_N_go_0|].
  rewrite pretty_N_go_step by lia. apply IH; [apply N.div_lt; lia|].
  cbn [all_bytes]. rewrite Hs, andb_true_r. unfold pretty_N_char. by repeat case_match.
Qed.

Lemma display_N_digits n : all_bytes is_ascii_digit (display_N n) = true.
Proof.
  unfold display_N, pretty, pretty_N. case_decide; [done|]. by apply display_N_go_digits.
Qed.

Lemma display_N_free c n : is_ascii_digit c = false → contains_byte c (display_N n) = false.
Proof. apply all_bytes_contains, display_N_digits. Qed.

(** ** Trimming ASCII text *)

Definition ws_byte (c : ascii) : bool := is_whitespace (byte_val c).

Lemma list_ascii_app s t :
  String.list_ascii_of_string (s +:+ t) =
  String.list_ascii_of_string s ++ String.list_ascii_of_string t.
Proof.
  induction s as [|a s IH]; [done|]. rewrite sapp_cons. cbn [String.list_ascii_of_string app].
  by rewrite IH.
Qed.

Lemma is_ascii_app s t : is_ascii (s +:+ t) = is_ascii s && is_ascii t.
Proof. apply all_bytes_app. Qed.

(** [decode] of an ASCII prefix. *)
Lemma decode_cons_ascii c s :
  (byte_val c < 128)%N → decode (String c s) = (byte_val c, String c "") :: decode s.
Proof. intros Hc. cbn [decode]. cbv zeta. by rewrite (proj2 (N.ltb_lt _ _) Hc). Qed.

Lemma trim_start_keep c s :
  (byte_val c < 128)%N → ws_byte c = false → trim_start (String c s) = String c s.
Proof.
  intros Hc Hw. unfold trim_start. pose proof (encode_decode (String c s)) as He.
  rewrite (decode_cons_ascii c s Hc) in *. cbn [drop_while]. unfold ws at 1. cbn [fst].
  unfold ws_byte in Hw. by rewrite Hw.
Qed.

Lemma trim_start_drop c s :
  (byte_val c < 128)%N → ws_byte c = true → trim_start (String c s) = trim_start s.
Proof.
  intros Hc Hw. unfold trim_start. rewrite (decode_cons_ascii c s Hc). cbn [drop_while].
  unfold ws at 1. cbn [fst]. unfold ws_byte in Hw. by rewrite Hw.
Qed.

Lemma trim_end_keep s c :
  is_ascii s = true → (byte_val c < 128)%N → ws_byte c = false →
  trim_end (s +:+ String c "") = s +:+ String c "".
Proof.
  intros Hs Hc Hw. unfold trim_end.
  assert (is_ascii (s +:+ String c "") = true) as Ha.
  { rewrite is_ascii_app, Hs. unfold is_ascii. cbn. by rewrite (proj2 (N.ltb_lt _ _) Hc). }
  pose proof (encode_decode (s +:+ String c "")) as He.
  rewrite decode_ascii in * by done. rewrite list_ascii_app, fmap_app in *.
  cbn [String.list_ascii_of_string fmap list_fmap] in *.
  rewrite rev_app_distr. cbn [rev app drop_while]. unfold ws at 1. cbn [fst].
  unfold ws_byte in Hw. rewrite Hw. cbn [rev]. by rewrite rev_involutive.
Qed.

(** A string without white space is its own trimming. *)
Definition plain (s : string) : bool :=
  all_bytes (λ c, (byte_val c <? 128)%N && negb (ws_byte c)) s.

Lemma plain_ascii s : plain s = true → is_ascii s = true.
Proof. apply all_bytes_impl. intros c H. by apply andb_true_iff in H as [? _]. Qed.

Lemma string_snoc s : s = "" ∨ ∃ t c, s = t +:+ String c "".
Proof.
  induction s as [|a s IH]; [by left|]. right.
  destruct IH as [->|(t & c & ->)]; [by exists "", a|]. by exists (String a t), c.
Qed.

Lemma trim_plain s : plain s = true → trim s = s.
Proof.
  intros Hp. unfold trim. assert (trim_start s = s) as ->.
  { destruct s as [|c s]; [done|]. cbn in Hp. split_guards.
    apply trim_start_keep; [by apply N.ltb_lt|done]. }
  destruct (string_snoc s) as [->|(t & c & ->)]; [done|].
  unfold plain in Hp. rewrite all_bytes_app in Hp. cbn in Hp. split_guards.
  apply trim_end_keep; [by apply plain_ascii|by apply N.ltb_lt|done].
Qed.

Lemma split_once_app c p s :
  contains_byte c p = false → split_once c (p +:+ String c s) = Some (p, s).
Proof.
  induction p as [|a p IH]; cbn [contains_byte].
  - intros _. rewrite sapp_nil_l. cbn. by rewrite Ascii.eqb_refl.
  - rewrite orb_false_iff, sapp_cons. intros [Ha Hp]. cbn [split_once]. by rewrite Ha, IH.
Qed.
