(* ===== verification/Net.v ===== *)
(** * IP addresses and the [ipnet] interface

    [IpAddr] and its textual grammar follow the parser of [core::net]; the
    [ipnet] crate is an interface ([IpNetLib]): a carrier of network prefixes
    and a membership test. *)

From S2P Require Import Prelude RustStr.

(** ** Addresses *)

Record Ipv4Addr := mkIpv4 { o1 : N; o2 : N; o3 : N; o4 : N }.

Inductive IpAddr :=
| V4 (a : Ipv4Addr)
| V6 (segments : list N).

#[global] Instance Ipv4Addr_eq_dec : EqDecision Ipv4Addr.
Proof. solve_decision. Defined.
#[global] Instance IpAddr_eq_dec : EqDecision IpAddr.
Proof. solve_decision. Defined.

Definition LOCALHOST : IpAddr := V4 (mkIpv4 127 0 0 1).

Definition v4_is_unspecified (a : Ipv4Addr) : bool := bool_decide (a = mkIpv4 0 0 0 0).
Definition v4_is_broadcast (a : Ipv4Addr) : bool := bool_decide (a = mkIpv4 255 255 255 255).
Definition v4_is_multicast (a : Ipv4Addr) : bool := (224 <=? o1 a)%N && (o1 a <=? 239)%N.
Definition v6_is_unspecified (segs : list N) : bool := bool_decide (segs = replicate 8 0%N).
Definition v6_is_multicast (segs : list N) : bool :=
  match segs with
  | s :: _ => (N.land s 65280 =? 65280)%N
  | [] => false
  end.

(** ** The parser of [core::net]

    A reader returns the value and the rest of the input; [None] leaves the
    input where it was ([read_atomically]). *)

Definition to_digit (radix : N) (c : ascii) : option N :=
  let v := byte_val c in
  let d := if is_ascii_digit c then Some (v - 48)%N
           else if is_ascii_lowercase c then Some (v - 87)%N
           else if is_ascii_uppercase c then Some (v - 55)%N
           else None in
  d ≫= λ d, if (d <? radix)%N then Some d else None.

Fixpoint read_run (radix : N) (s : string) (acc : N) (count : nat) : N * nat * string :=
  match s with
  | EmptyString => (acc, count, s)
  | String c s' =>
    match to_digit radix c with
    | Some d => read_run radix s' (acc * radix + d)%N (S count)
    | None => (acc, count, s)
    end
  end.

Definition read_number (radix : N) (max_digits : nat) (allow_zero_prefix : bool)
    (max_value : N) (s : string) : option (N * string) :=
  let '(v, count, rest) := read_run radix s 0 0 in
  let leading_zero := match s with String c _ => Ascii.eqb c "0" | _ => false end in
  if (count =? 0)%nat then None
  else if (max_digits <? count)%nat then None
  else if negb allow_zero_prefix && leading_zero && (1 <? count)%nat then None
  else if (max_value <? v)%N then None
  else Some (v, rest).

Definition read_given_char (c : ascii) (s : string) : option string :=
  match s with
  | String a s => if Ascii.eqb a c then Some s else None
  | EmptyString => None
  end.

Definition read_separator {A} (sep : ascii) (index : nat)
    (inner : string → option (A * string)) (s : string) : option (A * string) :=
  if (0 <? index)%nat then read_given_char sep s ≫= inner else inner s.

Definition read_octet (i : nat) : string → option (N * string) :=
  read_separator "." i (read_number 10 3 false 255).

Definition read_ipv4_addr (s : string) : option (Ipv4Addr * string) :=
  '(a, s) ← read_octet 0 s;
  '(b, s) ← read_octet 1 s;
  '(c, s) ← read_octet 2 s;
  '(d, s) ← read_octet 3 s;
  Some (mkIpv4 a b c d, s).

Fixpoint read_groups (todo limit i : nat) (s : string) : list N * bool * string :=
  match todo with
  | 0 => ([], false, s)
  | S todo =>
    match (if (i <? limit - 1)%nat then read_separator ":" i read_ipv4_addr s else None) with
    | Some (a, s) => ([o1 a * 256 + o2 a; o3 a * 256 + o4 a]%N, true, s)
    | None =>
      match read_separator ":" i (read_number 16 4 true 65535) s with
      | Some (g, s) => let '(gs, v4, s) := read_groups todo limit (S i) s in (g :: gs, v4, s)
      | None => ([], false, s)
      end
    end
  end.

Definition read_ipv6_addr (s : string) : option (list N * string) :=
  let '(head, head_ipv4, s) := read_groups 8 8 0 s in
  if (length head =? 8)%nat then Some (head, s)
  else if head_ipv4 then None
  else
    s ← read_given_char ":" s;
    s ← read_given_char ":" s;
    let limit := 8 - (length head + 1) in
    let '(tail, _, s) := read_groups limit limit 0 s in
    Some (head ++ replicate (8 - length head - length tail) 0%N ++ tail, s).

(** [IpAddr::from_str]: the version 4 reader first, the whole input consumed. *)
Definition IpAddr_from_str (s : string) : option IpAddr :=
  match read_ipv4_addr s with
  | Some (a, rest) => if is_empty rest then Some (V4 a) else None
  | None =>
    match read_ipv6_addr s with
    | Some (segs, rest) => if is_empty rest then Some (V6 segs) else None
    | None => None
    end
  end.

(** [Display] for [u8] and for [Ipv4Addr]. *)
Definition digit_char (n : N) : ascii := ascii_of_N (48 + n).
Definition u8_display (n : N) : string :=
  if (n <? 10)%N then String (digit_char n) ""
  else if (n <? 100)%N then String (digit_char (n / 10)) (String (digit_char (n mod 10)) "")
  else String (digit_char (n / 100))
         (String (digit_char (n / 10 mod 10)) (String (digit_char (n mod 10)) "")).

Definition Ipv4Addr_display (a : Ipv4Addr) : string :=
  u8_display (o1 a) +:+ "." +:+ u8_display (o2 a) +:+ "." +:+
  u8_display (o3 a) +:+ "." +:+ u8_display (o4 a).

Definition ipv4_wf (a : Ipv4Addr) : Prop :=
  (o1 a < 256 ∧ o2 a < 256 ∧ o3 a < 256 ∧ o4 a < 256)%N.

(** ** Reading back a printed address *)

Definition stops (t : string) : Prop :=
  match t with
  | EmptyString => True
  | String c _ => to_digit 10 c = None
  end.

Definition reads_back (n : N) : Prop := ∀ t, stops t →
  read_number 10 3 false 255 (u8_display n +:+ t) = Some (n, t).

Lemma read_run_app radix d t acc k v k' :
  read_run radix d acc k = (v, k', "") → read_run radix (d +:+ t) acc k = read_run radix t v k'.
Proof.
  revert acc k. induction d as [|c d IH]; intros acc k; cbn [read_run].
  - intros [= -> ->]. by rewrite sapp_nil_l.
  - rewrite sapp_cons. cbn [read_run]. destruct (to_digit radix c); [apply IH|done].
Qed.

Lemma read_run_stop t acc k : stops t → read_run 10 t acc k = (acc, k, t).
Proof. destruct t as [|c t]; [done|]. cbn. by intros ->. Qed.

(** What has to be checked of each octet for it to be read back. *)
Definition octet_ok (n : N) : bool :=
  let d := u8_display n in
  bool_decide (read_run 10 d 0 0 = (n, String.length d, "")) &&
  (String.length d <=? 3)%nat && negb (is_empty d) &&
  match d with
  | String c _ => negb (Ascii.eqb c "0" && (1 <? String.length d)%nat)
  | _ => false
  end && (n <=? 255)%N.

Lemma octet_ok_reads_back n : octet_ok n = true → reads_back n.
Proof.
  unfold octet_ok. intros H t Ht. split_guards. unfold read_number.
  erewrite read_run_app by done. rewrite read_run_stop by done.
  destruct (u8_display n) as [|c d]; [done|]. rewrite sapp_cons. cbn [String.length] in *.
  rewrite (proj2 (Nat.ltb_ge _ _)) by (by apply Nat.leb_le).
  rewrite (proj2 (N.ltb_ge _ _)) by (by apply N.leb_le).
  cbn [negb Nat.eqb]. rewrite andb_true_l. split_guards.
  by match goal with G : _ && _ = false |- _ => rewrite G end.
Qed.

Lemma octet_reads_back n : (n < 256)%N → reads_back n.
Proof.
  intros Hn. apply octet_ok_reads_back. rewrite <- (N2Nat.id n).
  assert (forallb (λ k, octet_ok (N.of_nat k)) (seq 0 256) = true) as H by (vm_compute; done).
  rewrite forallb_true_iff in H. apply H, elem_of_seq. lia.
Qed.

Lemma read_ipv4_display a t :
  ipv4_wf a → stops t → read_ipv4_addr (Ipv4Addr_display a +:+ t) = Some (a, t).
Proof.
  destruct a as [a b c d]. intros (Ha & Hb & Hc & Hd) Ht. cbn in *.
  unfold read_ipv4_addr, Ipv4Addr_display, read_octet, read_separator. cbn -[read_number u8_display].
  autorewrite with str.
  rewrite (octet_reads_back a Ha) by done. cbn -[read_number u8_display].
  rewrite (octet_reads_back b Hb) by done. cbn -[read_number u8_display].
  rewrite (octet_reads_back c Hc) by done. cbn -[read_number u8_display].
  by rewrite (octet_reads_back d Hd) by done.
Qed.

Lemma IpAddr_from_str_display a :
  ipv4_wf a → IpAddr_from_str (Ipv4Addr_display a) = Some (V4 a).
Proof.
  intros Ha. unfold IpAddr_from_str. rewrite <- (sapp_nil_r (Ipv4Addr_display a)).
  by rewrite read_ipv4_display.
Qed.

(** ** The [ipnet] crate *)

Class IpNetLib := {
  IpNet : Type;
  IpNet_eq_dec :: EqDecision IpNet;
  (** [IpNet::contains] on an address. *)
  ipnet_contains : IpNet → IpAddr → bool;
  (** [IpNet::new(ip, prefix_len)], when the prefix length is in range. *)
  ipnet_new : IpAddr → N → option IpNet;
  (** [IpNet::from_str]. *)
  ipnet_from_str : string → option IpNet;
}.

Definition is_ipv4 (ip : IpAddr) : bool :=
  match ip with
  | V4 _ => true
  | V6 _ => false
  end.

(** The length of a host prefix: 32 bits or 128 bits. *)
Definition host_bits (ip : IpAddr) : N := if is_ipv4 ip then 32 else 128.

(** Documented behaviour of host prefixes: [ip/32] (or [ip/128]) exists and
    contains exactly [ip]; the text form names the same network. *)
Class IpNetLaws (L : IpNetLib) : Prop := {
  ipnet_host_exists : ∀ ip, is_Some (ipnet_new ip (host_bits ip));
  ipnet_host_contains : ∀ ip net, ipnet_new ip (host_bits ip) = Some net →
    ∀ ip', ipnet_contains net ip' = true ↔ ip' = ip;
  ipnet_loopback_text : ipnet_from_str "127.0.0.1/32" = ipnet_new LOCALHOST 32;
}.
