(* ===== verification/Json.v ===== *)
(** * JSON values and canonicalization (crate [aros-types], [canonical.rs])

    [serde_json] is an interface: the printer and parser of values and the
    [Serialize] implementations are parameters with their documented round
    trips. The canonicalization itself, which the hashes of the program rely
    on, is modelled and proved to be a normal form for equality of JSON values
    up to the order of object fields. *)

From S2P Require Import Prelude RustStr.

(** ** Values *)

(** [serde_json::Number]; a float is its bit pattern. *)
Inductive JNumber := PosInt (n : N) | NegInt (z : Z) | Float (bits : N).

(** [serde_json::Value]; an object is the list of its fields in iteration
    order. *)
Inductive Value :=
| JNull
| JBool (b : bool)
| JNumberV (n : JNumber)
| JString (s : string)
| JArray (items : list Value)
| JObject (fields : list (string * Value)).

Lemma Value_rect_nested (P : Value → Prop) :
  P JNull → (∀ b, P (JBool b)) → (∀ n, P (JNumberV n)) → (∀ s, P (JString s)) →
  (∀ items, Forall P items → P (JArray items)) →
  (∀ fields, Forall (λ kv, P kv.2) fields → P (JObject fields)) →
  ∀ v, P v.
Proof.
  intros Hn Hb Hnum Hs Ha Ho. fix IH 1. intros [| | | |items|fields]; [done..| |].
  - apply Ha. induction items; constructor; auto.
  - apply Ho. induction fields as [|[k v] fs]; constructor; auto.
Qed.

(** [Map::get]. *)
Fixpoint field_get (k : string) (fs : list (string * Value)) : option Value :=
  match fs with
  | [] => None
  | (k', v) :: fs => if String.eqb k k' then Some v else field_get k fs
  end.

(** [Map::insert] into a map that holds no greater key: replace the field, or
    add it at the end. *)
Fixpoint field_insert (k : string) (v : Value) (fs : list (string * Value)) :=
  match fs with
  | [] => [(k, v)]
  | (k', v') :: fs => if String.eqb k k' then (k, v) :: fs else (k', v') :: field_insert k v fs
  end.

(** [Vec<&String>::sort_unstable]: byte order of strings. *)
Definition sort_strings (l : list string) : list string := merge_sort String.le l.

(** The loop over the sorted keys; [fields] holds the canonical form of each
    field of the map. *)
Fixpoint canonical_fields (keys : list string) (fields out : list (string * Value))
    : list (string * Value) :=
  match keys with
  | [] => out
  | key :: keys =>
    match field_get key fields with
    | Some v => canonical_fields keys fields (field_insert key v out)
    | None => canonical_fields keys fields out
    end
  end.

(** [src crates/aros-types/src/canonical.rs 7-24 canonicalize_value] *)
Fixpoint canonicalize_value (value : Value) : Value :=
  match value with
  | JObject map =>
    let keys := sort_strings map.*1 in
    let canon := (fix go fs := match fs with
                               | [] => []
                               | (k, v) :: fs => (k, canonicalize_value v) :: go fs
                               end) map in
    JObject (canonical_fields keys canon [])
  | JArray items => JArray (List.map canonicalize_value items)
  | other => other
  end.

(** ** Interfaces to [serde_json] and the hash crates *)

Class JsonLib := {
  (** [serde_json::to_vec] on a value. *)
  json_to_vec : Value → string;
  (** [serde_json::from_slice]. *)
  json_from_slice : string → option Value;
}.

(** [serde::Serialize] through [serde_json::to_value], and [Deserialize] through
    [serde_json::from_value]. *)
Class Serialize (T : Type) := {
  to_value : T → result string Value;
}.

Class Deserialize (T : Type) := {
  from_value : Value → option T;
}.

Class HashLib := {
  (** [blake3::hash(bytes).to_hex()]. *)
  blake3_hex : string → string;
  (** [hex::encode(Sha256::digest(bytes))]. *)
  sha256_hex : string → string;
}.

Inductive TypesError :=
| TeJson (e : string)
| TeInvalidId (s : string)
| TeInvalidNetwork (s : string)
| TeCanonical (s : string)
| TeInvalidCampaign (s : string).

(** [src crates/aros-types/src/canonical.rs 26-30 to_canonical_json] *)
Definition to_canonical_json `{JsonLib, Serialize T} (value : T) : result TypesError string :=
  as_value ← map_err TeJson (to_value value);
  let canonical := canonicalize_value as_value in
  Ok (json_to_vec canonical).

(** [src crates/aros-types/src/canonical.rs 50-55 DigestPair] *)
Record DigestPair := mkDigestPair { blake3 : string; sha256 : string; canonical_len : N }.

(** [src crates/aros-types/src/canonical.rs 41-48 hash_canonical] *)
Definition hash_canonical `{JsonLib, HashLib, Serialize T} (value : T)
    : result TypesError DigestPair :=
  bytes ← to_canonical_json value;
  Ok {| blake3 := blake3_hex bytes; sha256 := sha256_hex bytes;
        canonical_len := N.of_nat (str_len bytes) |}.

(** ** Well-formed values and equality up to field order *)

(** Unique keys in every object, and no float. *)
Fixpoint value_wf (v : Value) : Prop :=
  match v with
  | JNumberV (Float _) => False
  | JArray items =>
    (fix go l := match l with [] => True | v :: l => value_wf v ∧ go l end) items
  | JObject fs =>
    NoDup fs.*1 ∧
    (fix go l := match l with [] => True | (_, v) :: l => value_wf v ∧ go l end) fs
  | _ => True
  end.

(** Equality of JSON values: the fields of an object are unordered. *)
Inductive veq : Value → Value → Prop :=
| veq_null : veq JNull JNull
| veq_bool b : veq (JBool b) (JBool b)
| veq_number n : veq (JNumberV n) (JNumberV n)
| veq_string s : veq (JString s) (JString s)
| veq_array l1 l2 : Forall2 veq l1 l2 → veq (JArray l1) (JArray l2)
| veq_object f1 f2 f2' :
    f2 ≡ₚ f2' → Forall2 (λ a b, a.1 = b.1 ∧ veq a.2 b.2) f1 f2' →
    veq (JObject f1) (JObject f2).

Lemma value_wf_array l : value_wf (JArray l) ↔ Forall value_wf l.
Proof. induction l as [|v l IH]; [done|]. rewrite Forall_cons, <- IH. done. Qed.

Lemma value_wf_object fs :
  value_wf (JObject fs) ↔ NoDup fs.*1 ∧ Forall (λ kv, value_wf kv.2) fs.
Proof.
  simpl. apply and_iff_compat_l. induction fs as [|[k v] fs IH]; [done|].
  rewrite Forall_cons, <- IH. done.
Qed.

Definition canon_field (kv : string * Value) : string * Value := (kv.1, canonicalize_value kv.2).

Lemma canonicalize_object fs :
  canonicalize_value (JObject fs) =
  JObject (canonical_fields (sort_strings fs.*1) (canon_field <$> fs) []).
Proof.
  simpl. do 2 f_equal. induction fs as [|[k v] fs IH]; [done|]. by rewrite IH.
Qed.

Lemma field_get_elem k v fs :
  NoDup fs.*1 → field_get k fs = Some v ↔ (k, v) ∈ fs.
Proof.
  induction fs as [|[k' v'] fs IH]; cbn; [set_solver|].
  rewrite NoDup_cons. intros [Hnot Hnd]. rewrite elem_of_cons.
  destruct (String.eqb_spec k k') as [->|Hne].
  - split; [naive_solver|]. intros [[= ->]|Hin]; [done|].
    destruct Hnot. apply list_elem_of_fmap. by exists (k', v).
  - rewrite IH by done. naive_solver.
Qed.

Lemma field_insert_fresh k v fs : k ∉ fs.*1 → field_insert k v fs = fs ++ [(k, v)].
Proof.
  induction fs as [|[k' v'] fs IH]; cbn; [done|]. rewrite not_elem_of_cons.
  intros [Hne Hin]. destruct (String.eqb_spec k k'); [done|]. by rewrite IH.
Qed.

(** The fields in the order of [keys]. *)
Definition pick (fs : list (string * Value)) (keys : list string) : list (string * Value) :=
  omap (λ k, pair k <$> field_get k fs) keys.

Lemma pick_keys fs keys k : k ∈ (pick fs keys).*1 → k ∈ keys.
Proof.
  unfold pick. intros ([k' v] & -> & Hin)%list_elem_of_fmap.
  apply list_elem_of_omap in Hin as (k'' & Hk & E).
  destruct (field_get k'' fs); by simplify_eq/=.
Qed.

(** The loop of [canonicalize_value] over distinct keys picks the fields in
    that order. *)
Lemma canonical_fields_pick keys fs out :
  NoDup keys → (∀ k, k ∈ keys → k ∉ out.*1) →
  canonical_fields keys fs out = out ++ pick fs keys.
Proof.
  revert out. induction keys as [|k keys IH]; intros out; cbn.
  - intros _ _. by rewrite app_nil_r.
  - rewrite NoDup_cons. intros [Hk Hnd] Hout. unfold pick in *. cbn.
    destruct (field_get k fs) as [v|]; cbn.
    + rewrite field_insert_fresh by (apply Hout; set_solver). rewrite IH.
      * by rewrite <- app_assoc.
      * done.
      * intros k' Hk'. rewrite fmap_app, elem_of_app. cbn. set_solver.
    + apply IH; [done|]. set_solver.
Qed.

Lemma pick_perm fs keys : NoDup fs.*1 → keys ≡ₚ fs.*1 → pick fs keys ≡ₚ fs.
Proof.
  intros Hnd Hp. unfold pick. rewrite (omap_Permutation _ _ _ Hp). clear Hp.
  enough (omap (λ k, pair k <$> field_get k fs) fs.*1 = fs) as ->; [done|].
  assert (∀ l, l ⊆ fs → omap (λ k, pair k <$> field_get k fs) l.*1 = l) as H; [|by apply H].
  induction l as [|[k v] l IH]; intros Hl; [done|]. cbn.
  rewrite (proj2 (field_get_elem k v fs Hnd)) by set_solver. cbn. f_equal. apply IH. set_solver.
Qed.

Lemma canon_field_keys fs : (canon_field <$> fs).*1 = fs.*1.
Proof. rewrite <- list_fmap_compose. by apply list_fmap_ext. Qed.

Lemma sort_strings_perm l : sort_strings l ≡ₚ l.
Proof. apply merge_sort_Permutation. Qed.

Lemma sort_strings_sorted l : StronglySorted String.le (sort_strings l).
Proof. apply Sorted_StronglySorted; [|apply Sorted_merge_sort]; apply _. Qed.

(** The canonical fields are the canonical forms of the fields, in key order. *)
Lemma canonicalize_object_pick fs :
  NoDup fs.*1 →
  canonicalize_value (JObject fs) = JObject (pick (canon_field <$> fs) (sort_strings fs.*1)).
Proof.
  intros Hnd. rewrite canonicalize_object, canonical_fields_pick; [done| |set_solver].
  by rewrite sort_strings_perm.
Qed.

(** ** Canonical form *)

Lemma pick_fmap_perm fs :
  NoDup fs.*1 → pick (canon_field <$> fs) (sort_strings fs.*1) ≡ₚ canon_field <$> fs.
Proof.
  intros Hnd. apply pick_perm; rewrite canon_field_keys; [done|apply sort_strings_perm].
Qed.

Lemma field_get_perm k fs1 fs2 : NoDup fs1.*1 → fs1 ≡ₚ fs2 → field_get k fs1 = field_get k fs2.
Proof.
  intros Hnd Hp. assert (NoDup fs2.*1) by (by rewrite <- Hp).
  apply option_eq. intros v. rewrite !field_get_elem by done. by rewrite Hp.
Qed.

Lemma sort_strings_eq l1 l2 : l1 ≡ₚ l2 → sort_strings l1 = sort_strings l2.
Proof.
  intros Hp. apply (StronglySorted_unique String.le); [apply sort_strings_sorted..|].
  by rewrite !sort_strings_perm.
Qed.

(** Permuting the fields of an object does not change its canonical form. *)
Lemma canonicalize_perm fs1 fs2 :
  NoDup fs1.*1 → canon_field <$> fs1 ≡ₚ canon_field <$> fs2 →
  canonicalize_value (JObject fs1) = canonicalize_value (JObject fs2).
Proof.
  intros Hnd Hp. assert (fs1.*1 ≡ₚ fs2.*1) as Hk.
  { rewrite <- (canon_field_keys fs1), <- (canon_field_keys fs2). by rewrite Hp. }
  rewrite !canonicalize_object_pick; [|by rewrite <- Hk|done].
  rewrite (sort_strings_eq _ _ Hk). f_equal. unfold pick. apply list_omap_ext.
  apply Forall_Forall2_diag, Forall_forall. intros k _.
  rewrite (field_get_perm k (canon_field <$> fs1) (canon_field <$> fs2)); [done| |done].
  by rewrite canon_field_keys.
Qed.

Lemma canonicalize_veq v w :
  value_wf v → value_wf w → veq v w → canonicalize_value v = canonicalize_value w.
Proof.
  revert w. induction v as [|b|n|s|items IH|fs IH] using Value_rect_nested;
    intros w Hv Hw Heq; inversion Heq as [| | | |?? Hl|f1 f2 f2' Hp Hf]; subst; try done.
  - simpl. f_equal. apply value_wf_array in Hv, Hw. clear Heq.
    revert Hw. induction Hl as [|x y l1 l2 Hxy Hl IHl]; intros Hw; simpl; [done|].
    inversion_clear IH. inversion_clear Hv. inversion_clear Hw. f_equal; auto.
  - apply value_wf_object in Hv as [Hnd Hv], Hw as [_ Hw].
    apply canonicalize_perm; [done|]. rewrite Hp in Hw |- *. apply reflexive_eq.
    clear Heq Hp Hnd f2. revert Hw.
    induction Hf as [|[k1 x] [k2 y] l1 l2 [Hk Hxy] Hl IHl]; intros Hw; [done|].
    inversion_clear IH. inversion_clear Hv. inversion_clear Hw. cbn in *. subst.
    f_equal; [|by apply IHl]. unfold canon_field. cbn. f_equal. by auto.
Qed.

Lemma veq_canonicalize v w : value_wf v → value_wf w →
  canonicalize_value v = canonicalize_value w → veq v w.
Proof.
  revert w. induction v as [|b|n|s|items IH|fs IH] using Value_rect_nested;
    intros w Hv Hw Heq; destruct w as [| | | |items'|fs'];
    try (by rewrite ?canonicalize_object in Heq; simpl in Heq; simplify_eq; constructor).
  - simpl in Heq. injection Heq as Heq. constructor. apply value_wf_array in Hv, Hw.
    revert items' Heq Hw. induction items as [|x l IHl]; intros [|y l'] Heq Hw; simplify_eq/=;
      [constructor|]. inversion_clear IH. inversion_clear Hv. inversion_clear Hw.
    constructor; auto.
  - apply value_wf_object in Hv as [Hnd Hv], Hw as [Hnd' Hw].
    rewrite !canonicalize_object_pick in Heq by done. injection Heq as Heq.
    pose proof (pick_fmap_perm fs Hnd) as P1. pose proof (pick_fmap_perm fs' Hnd') as P2.
    rewrite Heq, P2 in P1. symmetry in P1.
    apply Permutation_map_inv in P1 as (fs'' & Hm & Hp).
    apply (veq_object _ _ fs''); [done|]. rewrite Hp in Hw. clear Hp Hnd Hnd' Heq P2 fs'.
    change (canon_field <$> fs = canon_field <$> fs'') in Hm.
    revert fs'' Hm Hw. induction fs as [|[k x] l IHl]; intros [|[k' y] l'] Hm Hw;
      simplify_eq/=; [constructor|]. inversion_clear IH. inversion_clear Hv. inversion_clear Hw.
    constructor; [|by apply IHl]. cbn in *. split; [congruence|]. unfold canon_field in *. naive_solver.
Qed.

Lemma veq_self_canonical v : value_wf v → veq (canonicalize_value v) v.
Proof.
  induction v as [|b|n|s|items IH|fs IH] using Value_rect_nested; intros Hv;
    try (by constructor).
  - simpl. constructor. apply value_wf_array in Hv.
    induction items as [|x l IHl]; simpl; [constructor|].
    inversion_clear IH. inversion_clear Hv. constructor; auto.
  - apply value_wf_object in Hv as [Hnd Hv]. rewrite canonicalize_object_pick by done.
    pose proof (pick_fmap_perm fs Hnd) as P.
    apply Permutation_map_inv in P as (fs' & -> & Hp).
    apply (veq_object _ _ fs'); [done|]. rewrite Hp in Hv, IH. clear Hp Hnd fs.
    induction fs' as [|[k x] l IHl]; [constructor|].
    inversion_clear IH. inversion_clear Hv. constructor; [|by apply IHl]. cbn in *. auto.
Qed.

Lemma canonicalize_wf v : value_wf v → value_wf (canonicalize_value v).
Proof.
  induction v as [|b|n|s|items IH|fs IH] using Value_rect_nested; intros Hv; try done.
  - simpl canonicalize_value. apply value_wf_array. apply value_wf_array in Hv.
    induction items as [|x l IHl]; simpl; [constructor|].
    inversion_clear IH. inversion_clear Hv. constructor; auto.
  - apply value_wf_object in Hv as [Hnd Hv]. rewrite canonicalize_object_pick by done.
    apply value_wf_object. rewrite (pick_fmap_perm fs Hnd), canon_field_keys. split; [done|].
    rewrite Forall_fmap. rewrite Forall_forall in IH, Hv |- *.
    intros [k v] Hin. apply (IH _ Hin), (Hv _ Hin).
Qed.

Lemma field_get_canon k fs :
  field_get k (canon_field <$> fs) = canonicalize_value <$> field_get k fs.
Proof. induction fs as [|[k' v] fs IH]; cbn; [done|]. by destruct (String.eqb k k'). Qed.

(** Objects with the same canonical form agree on every field, up to the
    canonical form of its value. *)
Lemma canonicalize_field fs fs' k :
  NoDup fs.*1 → NoDup fs'.*1 →
  canonicalize_value (JObject fs) = canonicalize_value (JObject fs') →
  canonicalize_value <$> field_get k fs = canonicalize_value <$> field_get k fs'.
Proof.
  intros Hnd Hnd'. rewrite !canonicalize_object_pick by done. intros [= E].
  pose proof (pick_fmap_perm fs Hnd) as P. pose proof (pick_fmap_perm fs' Hnd') as P'.
  rewrite E, P' in P. rewrite <- !field_get_canon.
  apply field_get_perm; [|by symmetry]. by rewrite canon_field_keys.
Qed.

(** Keys ascend strictly in every object: the form [canonicalize_value] gives. *)
Definition is_canonical (v : Value) : Prop := value_wf v ∧ canonicalize_value v = v.

Lemma canonicalize_idempotent v :
  value_wf v → canonicalize_value (canonicalize_value v) = canonicalize_value v.
Proof.
  intros Hv. apply canonicalize_veq; [by apply canonicalize_wf|done|by apply veq_self_canonical].
Qed.

Lemma canonicalize_canonical v : value_wf v → is_canonical (canonicalize_value v).
Proof. intros Hv. split; [by apply canonicalize_wf|by apply canonicalize_idempotent]. Qed.

#[export] Hint Resolve canonicalize_wf canonicalize_canonical : aros.

(** ** Laws of the interfaces *)

(** [from_slice] inverts [to_vec]; floats are left out, which [serde_json]
    does not parse back exactly by default. *)
Class JsonLaws (J : JsonLib) : Prop := {
  json_roundtrip : ∀ v, is_canonical v → json_from_slice (json_to_vec v) = Some v;
}.

(** A serialized record has distinct field names and deserializes back from any
    ordering of its fields. *)
Class SerializeLaws (T : Type) `{S : Serialize T, D : Deserialize T} : Prop := {
  ser_wf : ∀ x v, to_value x = Ok v → value_wf v;
  ser_roundtrip : ∀ x v w, to_value x = Ok v → veq w v → from_value w = Some x;
}.

(** Equal canonical bytes come from values that agree up to field order. *)
Lemma json_to_vec_inj `{J : JsonLib, !JsonLaws J} v w :
  value_wf v → value_wf w →
  json_to_vec (canonicalize_value v) = json_to_vec (canonicalize_value w) →
  canonicalize_value v = canonicalize_value w.
Proof.
  intros Hv Hw E. apply (f_equal json_from_slice) in E.
  rewrite !json_roundtrip in E by eauto with aros. congruence.
Qed.

(** A canonicalised serialization determines the record. *)
Lemma canonical_determines `{S : Serialize T, D : Deserialize T, !SerializeLaws T} (x y : T) v w :
  to_value x = Ok v → to_value y = Ok w → canonicalize_value v = canonicalize_value w → x = y.
Proof.
  intros Hv Hw E. pose proof (ser_wf _ _ Hv) as Wv. pose proof (ser_wf _ _ Hw) as Ww.
  pose proof (ser_roundtrip _ _ _ Hv (veq_canonicalize _ _ Ww Wv (eq_sym E))) as Hx.
  pose proof (ser_roundtrip _ _ _ Hw (veq_canonicalize _ _ Ww Ww eq_refl)) as Hy.
  congruence.
Qed.

Lemma to_canonical_json_inj
    `{J : JsonLib, !JsonLaws J, S : Serialize T, D : Deserialize T, !SerializeLaws T}
    (x y : T) bytes :
  to_canonical_json x = Ok bytes → to_canonical_json y = Ok bytes → x = y.
Proof.
  unfold to_canonical_json. intros (v & Hv & [= <-])%bind_Ok (w & Hw & [= E])%bind_Ok.
  rewrite map_err_Ok in Hv, Hw. symmetry in E.
  apply json_to_vec_inj in E; [|by eapply ser_wf..]. by eapply canonical_determines.
Qed.
