(* ===== verification/Types.v ===== *)
(** * Shared domain types (crate [aros-types])

    Enumerations, typed identifiers, tool intents, the authorization manifest,
    the campaign records and the research events. Every constructor and field
    carries the source's name, with a prefix per record where Rust has a
    namespace per struct. *)

From S2P Require Import Prelude RustStr Net Json.

(** ** Enumerations *)

(** [src crates/aros-types/src/enums.rs 3-9 VisibilityMode] *)
Inductive VisibilityMode := BlackBox | GrayBox | WhiteBox.

(** [src crates/aros-types/src/enums.rs 11-23 EpistemicState] *)
Inductive EpistemicState :=
| Observed | Derived | Inferred | Hypothesized | Supported | Claimed
| EpVerified | EpRefuted | Stale.

(** [src crates/aros-types/src/enums.rs 25-29 EpistemicState::is_established_fact] *)
Definition is_established_fact (e : EpistemicState) : bool :=
  match e with
  | Observed | EpVerified => true
  | _ => false
  end.

(** [src crates/aros-types/src/enums.rs 31-37 PolicyDecision] *)
Inductive PolicyDecision := Allow | Deny | RequiresHuman.

(** [src crates/aros-types/src/enums.rs 39-60 CampaignState] *)
Inductive CampaignState :=
| Discovering | Mapping | Hypothesizing | Experimenting | Candidate | Verifying
| CsVerified | Minimizing | Remediating | Reattacking | RegressionProtected
| CsRefuted | CsNonReproducible | CsInsufficientEvidence | OutOfScope
| CsPolicyBlocked | CsTampered | Failed.

(** The derived [Debug]. *)
Definition state_debug (s : CampaignState) : string :=
  match s with
  | Discovering => "Discovering" | Mapping => "Mapping" | Hypothesizing => "Hypothesizing"
  | Experimenting => "Experimenting" | Candidate => "Candidate" | Verifying => "Verifying"
  | CsVerified => "Verified" | Minimizing => "Minimizing" | Remediating => "Remediating"
  | Reattacking => "Reattacking" | RegressionProtected => "RegressionProtected"
  | CsRefuted => "Refuted" | CsNonReproducible => "NonReproducible"
  | CsInsufficientEvidence => "InsufficientEvidence" | OutOfScope => "OutOfScope"
  | CsPolicyBlocked => "PolicyBlocked" | CsTampered => "Tampered" | Failed => "Failed"
  end.

(** [src crates/aros-types/src/enums.rs 62-76 CampaignState::is_terminal] *)
Definition is_terminal (s : CampaignState) : bool :=
  match s with
  | RegressionProtected | CsRefuted | CsNonReproducible | CsInsufficientEvidence
  | OutOfScope | CsPolicyBlocked | CsTampered | Failed => true
  | _ => false
  end.

(** [src crates/aros-types/src/enums.rs 78-90 EvidenceLevel] *)
Inductive EvidenceLevel :=
| E0HypothesisOnly | E1StaticSupport | E2DynamicAnomaly | E3InvariantViolation
| E4IndependentReproduction | E5MinimizedReproduction | E6CounterfactualDifferential
| E7VariantReattackAndRegression.

(** The derived [Debug]. *)
Definition level_debug (l : EvidenceLevel) : string :=
  match l with
  | E0HypothesisOnly => "E0HypothesisOnly"
  | E1StaticSupport => "E1StaticSupport"
  | E2DynamicAnomaly => "E2DynamicAnomaly"
  | E3InvariantViolation => "E3InvariantViolation"
  | E4IndependentReproduction => "E4IndependentReproduction"
  | E5MinimizedReproduction => "E5MinimizedReproduction"
  | E6CounterfactualDifferential => "E6CounterfactualDifferential"
  | E7VariantReattackAndRegression => "E7VariantReattackAndRegression"
  end.

(** The derived [Ord] compares the position of the variants.
    [src crates/aros-types/src/enums.rs 79-90 EvidenceLevel as Ord] *)
Definition level_rank (l : EvidenceLevel) : nat :=
  match l with
  | E0HypothesisOnly => 0
  | E1StaticSupport => 1
  | E2DynamicAnomaly => 2
  | E3InvariantViolation => 3
  | E4IndependentReproduction => 4
  | E5MinimizedReproduction => 5
  | E6CounterfactualDifferential => 6
  | E7VariantReattackAndRegression => 7
  end.
Definition level_ge (a b : EvidenceLevel) : bool := (level_rank b <=? level_rank a)%nat.

(** [src crates/aros-types/src/enums.rs 92-98 GraphKind] *)
Inductive GraphKind := TargetReality | Research | Historical.

(** [src crates/aros-types/src/enums.rs 100-106 DestructivePolicy] *)
Inductive DestructivePolicy := Forbid | RequireHuman | AllowInSandbox.

(** [src crates/aros-types/src/enums.rs 108-116 ProtocolKind] *)
Inductive ProtocolKind := Tcp | Udp | Http | Https | Dns.

(** [src crates/aros-types/src/enums.rs 118-126 AuthorityResult] *)
Inductive AuthorityResult :=
| ArVerified | ArFalsified | ArInsufficientEvidence | ArNonReproducible | ArTampered.

(** [src crates/aros-types/src/enums.rs 128-143 FailureCategory] *)
Inductive FailureCategory :=
| SurfaceNotDiscovered | ArchitectureMisunderstood | AssumptionNotGenerated
| HypothesisNotGenerated | HypothesisDeprioritized | ExperimentInadequate
| ObservationMisinterpreted | ToolGap | VerificationFailure | BudgetExhaustion
| FcPolicyBlocked | FcUnknown.

#[global] Instance VisibilityMode_eq_dec : EqDecision VisibilityMode.
Proof. solve_decision. Defined.
#[global] Instance EpistemicState_eq_dec : EqDecision EpistemicState.
Proof. solve_decision. Defined.
#[global] Instance PolicyDecision_eq_dec : EqDecision PolicyDecision.
Proof. solve_decision. Defined.
#[global] Instance CampaignState_eq_dec : EqDecision CampaignState.
Proof. solve_decision. Defined.
#[global] Instance EvidenceLevel_eq_dec : EqDecision EvidenceLevel.
Proof. solve_decision. Defined.
#[global] Instance GraphKind_eq_dec : EqDecision GraphKind.
Proof. solve_decision. Defined.
#[global] Instance DestructivePolicy_eq_dec : EqDecision DestructivePolicy.
Proof. solve_decision. Defined.
#[global] Instance ProtocolKind_eq_dec : EqDecision ProtocolKind.
Proof. solve_decision. Defined.
#[global] Instance AuthorityResult_eq_dec : EqDecision AuthorityResult.
Proof. solve_decision. Defined.
#[global] Instance FailureCategory_eq_dec : EqDecision FailureCategory.
Proof. solve_decision. Defined.

#[global] Instance ProtocolKind_countable : Countable ProtocolKind.
Proof.
  refine (inj_countable'
    (λ p, match p with Tcp => 0 | Udp => 1 | Http => 2 | Https => 3 | Dns => 4 end)
    (λ n, match n with 0 => Tcp | 1 => Udp | 2 => Http | 3 => Https | _ => Dns end) _).
  by intros [].
Defined.

(** ** Identifiers

    The macro [typed_id!] makes one newtype over [Uuid] per kind of object; the
    index plays the part of the newtype. A [Uuid] is its 128-bit value. *)

Record Uuid := mkUuid { uuid_val : N; uuid_bound : (uuid_val <? 2 ^ 128)%N = true }.

#[global] Instance Uuid_eq_dec : EqDecision Uuid.
Proof.
  intros [u Hu] [v Hv]. destruct (decide (u = v)) as [->|Hne]; [|right; congruence].
  left. f_equal. apply (proof_irrel _).
Defined.

Inductive IdKind :=
| KCampaign | KTarget | KSnapshot | KSandbox | KHypothesis | KExperiment | KFinding
| KArtifact | KVerifierRun | KPatch | KReattack | KRegression | KNode | KEdge
| KRequest | KWorker | KRun.

(** [src crates/aros-types/src/ids.rs 9-69 typed_id!] *)
Record Id (k : IdKind) := mkId { as_uuid : Uuid }.
Arguments mkId {k} _.
Arguments as_uuid {k} _.

Abbreviation CampaignId := (Id KCampaign).
Abbreviation TargetId := (Id KTarget).
Abbreviation SnapshotId := (Id KSnapshot).
Abbreviation SandboxId := (Id KSandbox).
Abbreviation HypothesisId := (Id KHypothesis).
Abbreviation ExperimentId := (Id KExperiment).
Abbreviation FindingId := (Id KFinding).
Abbreviation ArtifactId := (Id KArtifact).
Abbreviation VerifierRunId := (Id KVerifierRun).
Abbreviation PatchId := (Id KPatch).
Abbreviation NodeId := (Id KNode).
Abbreviation EdgeId := (Id KEdge).
Abbreviation RequestId := (Id KRequest).
Abbreviation RunId := (Id KRun).

#[global] Instance Id_eq_dec {k} : EqDecision (Id k).
Proof. solve_decision. Defined.

(** The text form of a [Uuid] ([uuid] crate), with its documented round trip. *)
Class UuidLib := {
  uuid_display : Uuid → string;
  uuid_parse : string → option Uuid;
}.
Class UuidLaws (U : UuidLib) : Prop := {
  uuid_parse_display : ∀ u, uuid_parse (uuid_display u) = Some u;
}.

(** [Display] of a typed identifier. *)
Definition id_to_string `{UuidLib} {k} (i : Id k) : string := uuid_display (as_uuid i).

(** [FromStr] of a typed identifier. *)
Definition id_from_str `{UuidLib} {k} (s : string) : option (Id k) := mkId <$> uuid_parse s.

Lemma id_from_to_string `{U : UuidLib, !UuidLaws U} {k} (i : Id k) :
  id_from_str (id_to_string i) = Some i.
Proof. unfold id_from_str, id_to_string. rewrite uuid_parse_display. by destruct i. Qed.

#[global] Instance id_to_string_inj `{U : UuidLib, !UuidLaws U} {k} :
  Inj (=) (=) (@id_to_string _ k).
Proof.
  intros i j H. apply (f_equal (id_from_str (k:=k))) in H.
  rewrite !(id_from_to_string (k:=k)) in H. congruence.
Qed.

(** ** Tools *)

(** [src crates/aros-types/src/tool.rs 7-25 ToolCapability] *)
Inductive ToolCapability :=
| ReadFile | ListTree | SearchText | GitInspect | RunTests | RunLanguageTool
| HttpRequest | BrowserRequest | ExecuteAllowlistedBinary | CollectLogs | CollectFile
| CollectProcessState | FuzzAdapter | SanitizerAdapter | StaticAnalysisAdapter.

(** [src crates/aros-types/src/tool.rs 27-47 ToolCapability::as_str] *)
Definition as_str (c : ToolCapability) : string :=
  match c with
  | ReadFile => "read_file"
  | ListTree => "list_tree"
  | SearchText => "search_text"
  | GitInspect => "git_inspect"
  | RunTests => "run_tests"
  | RunLanguageTool => "run_language_tool"
  | HttpRequest => "http_request"
  | BrowserRequest => "browser_request"
  | ExecuteAllowlistedBinary => "execute_allowlisted_binary"
  | CollectLogs => "collect_logs"
  | CollectFile => "collect_file"
  | CollectProcessState => "collect_process_state"
  | FuzzAdapter => "fuzz_adapter"
  | SanitizerAdapter => "sanitizer_adapter"
  | StaticAnalysisAdapter => "static_analysis_adapter"
  end.

Definition all_capabilities : list ToolCapability :=
  [ReadFile; ListTree; SearchText; GitInspect; RunTests; RunLanguageTool; HttpRequest;
   BrowserRequest; ExecuteAllowlistedBinary; CollectLogs; CollectFile;
   CollectProcessState; FuzzAdapter; SanitizerAdapter; StaticAnalysisAdapter].

#[global] Instance ToolCapability_eq_dec : EqDecision ToolCapability.
Proof. solve_decision. Defined.

#[global] Instance ToolCapability_countable : Countable ToolCapability.
Proof.
  refine (inj_countable as_str
    (λ s, List.find (λ c, String.eqb (as_str c) s) all_capabilities) _).
  by intros [].
Defined.

(** [src crates/aros-types/src/tool.rs 49-54 NetworkIntent] *)
Record NetworkIntent := mkNetworkIntent {
  host : string;
  port : N;
  protocol : ProtocolKind;
}.

(** [src crates/aros-types/src/tool.rs 56-72 ToolIntent] *)
Record ToolIntent := mkToolIntent {
  request_id : RequestId;
  capability : ToolCapability;
  argv : list string;
  cwd : option string;
  env : gmap string string;
  path : option string;
  content_glob : option string;
  network : option NetworkIntent;
  http_target : option string;
  http_cookie : option string;
  timeout_ms : N;
}.

(** The fresh identifier is an argument.
    [src crates/aros-types/src/tool.rs 74-90 ToolIntent::new] *)
Definition ToolIntent_new (fresh : RequestId) (c : ToolCapability) : ToolIntent :=
  {| request_id := fresh; capability := c; argv := []; cwd := None; env := ∅;
     path := None; content_glob := None; network := None; http_target := None;
     http_cookie := None; timeout_ms := 30000 |}.

(** [src crates/aros-types/src/tool.rs 92-108 ExecutionReceipt] *)
Record ExecutionReceipt := mkExecutionReceipt {
  receipt_request_id : RequestId;
  receipt_capability : ToolCapability;
  receipt_decision : PolicyDecision;
  executable : option string;
  receipt_argv : list string;
  receipt_cwd : option string;
  receipt_sandbox_id : option string;
  started_unix_ms : N;
  finished_unix_ms : N;
  exit_status : option Z;
  stdout_digest : option string;
  stderr_digest : option string;
  receipt_manifest_hash : string;
  deny_reason : option string;
}.

(** ** The authorization manifest *)

(** [src crates/aros-types/src/manifest.rs 12-24 ResourceBudgets] *)
Record ResourceBudgets := mkResourceBudgets {
  cpu_millis : N;
  memory_bytes : N;
  pid_limit : N;
  disk_bytes : N;
  wall_time_ms : N;
  model_requests : N;
  model_tokens : N;
  max_concurrent_experiments : N;
  max_sandbox_instances : N;
  max_research_cells : N;
}.

(** [src crates/aros-types/src/manifest.rs 26-41 ResourceBudgets::default] *)
Definition ResourceBudgets_default : ResourceBudgets :=
  {| cpu_millis := 60000;
     memory_bytes := 512 * 1024 * 1024;
     pid_limit := 128;
     disk_bytes := 256 * 1024 * 1024;
     wall_time_ms := 10 * 60000;
     model_requests := 100;
     model_tokens := 200000;
     max_concurrent_experiments := 4;
     max_sandbox_instances := 4;
     max_research_cells := 2 |}.

(** [src crates/aros-types/src/manifest.rs 50-54 ArtifactPolicy] *)
Record ArtifactPolicy := mkArtifactPolicy {
  retain_raw_evidence : bool;
  max_artifact_bytes : N;
}.

(** [src crates/aros-types/src/manifest.rs 56-63 ArtifactPolicy::default] *)
Definition ArtifactPolicy_default : ArtifactPolicy :=
  {| retain_raw_evidence := true; max_artifact_bytes := 32 * 1024 * 1024 |}.

(** [src crates/aros-types/src/manifest.rs 43-48 AllowedEndpoint] *)
Record AllowedEndpoint `{IpNetLib} := mkAllowedEndpoint {
  cidr : IpNet;
  ports : gset N;
  protocols : gset ProtocolKind;
}.

(** [src crates/aros-types/src/manifest.rs 65-83 AuthorizationManifest] *)
Record AuthorizationManifest `{IpNetLib} := mkAuthorizationManifest {
  manifest_campaign_id : CampaignId;
  manifest_target_id : TargetId;
  visibility : VisibilityMode;
  allowed_filesystem_roots : list string;
  allowed_service_names : gset string;
  allowed_endpoints : list AllowedEndpoint;
  allowed_credential_refs : gset string;
  permitted_modalities : gset string;
  destructive : DestructivePolicy;
  tool_allowlist : gset ToolCapability;
  budgets : ResourceBudgets;
  artifacts : ArtifactPolicy;
  data_classification : string;
  require_containment : bool;
}.

(** [src crates/aros-types/src/manifest.rs 94-125 AuthorizationManifest::default_deny_local] *)
Definition default_deny_local `{IpNetLib} (campaign_id : CampaignId) (target_id : TargetId)
    (root : string) : AuthorizationManifest :=
  {| manifest_campaign_id := campaign_id;
     manifest_target_id := target_id;
     visibility := WhiteBox;
     allowed_filesystem_roots := [root];
     allowed_service_names := {["fixture-target"]};
     allowed_endpoints := [];
     allowed_credential_refs := ∅;
     permitted_modalities := {["static"; "http"; "source"]};
     destructive := Forbid;
     tool_allowlist := {[ReadFile; ListTree; SearchText; GitInspect; CollectFile; CollectLogs]};
     budgets := ResourceBudgets_default;
     artifacts := ArtifactPolicy_default;
     data_classification := "local-fixture";
     require_containment := true |}.

(** [src crates/aros-types/src/manifest.rs 86-88 AuthorizationManifest::digest] *)
Definition manifest_digest `{IpNetLib, JsonLib, HashLib, !Serialize AuthorizationManifest}
    (m : AuthorizationManifest) : result TypesError DigestPair := hash_canonical m.

(** [src crates/aros-types/src/manifest.rs 90-92 AuthorizationManifest::manifest_hash] *)
Definition manifest_hash `{IpNetLib, JsonLib, HashLib, !Serialize AuthorizationManifest}
    (m : AuthorizationManifest) : result TypesError string :=
  d ← manifest_digest m;
  Ok (blake3 d).

(** ** Campaign records *)

(** [src crates/aros-types/src/domain.rs 29-44 TargetSnapshot] *)
Record TargetSnapshot := mkTargetSnapshot {
  snapshot_id : SnapshotId;
  snapshot_target_id : TargetId;
  git_commit : option string;
  dirty_tree_hash : option string;
  submodule_shas : list string;
  source_tree_digest : string;
  lockfile_hashes : list string;
  container_image_digest : option string;
  compiler_runtime_versions : list string;
  build_flags : list string;
  feature_flags : list string;
  runtime_description : string;
  captured_unix_ms : N;
}.

(** [src crates/aros-types/src/domain.rs 53-62 Campaign] *)
Record Campaign := mkCampaign {
  campaign_id : CampaignId;
  campaign_target_id : TargetId;
  campaign_snapshot_id : SnapshotId;
  campaign_manifest_hash : string;
  campaign_state : CampaignState;
  created_unix_ms : N;
  updated_unix_ms : N;
}.

(** [src crates/aros-types/src/domain.rs 64-82 Campaign::new] *)
Definition Campaign_new (now : N) (id : CampaignId) (target_id : TargetId)
    (snapshot : SnapshotId) (hash : string) : Campaign :=
  {| campaign_id := id; campaign_target_id := target_id; campaign_snapshot_id := snapshot;
     campaign_manifest_hash := hash; campaign_state := Discovering;
     created_unix_ms := now; updated_unix_ms := now |}.

Definition set_campaign_state (c : Campaign) (s : CampaignState) (updated : N) : Campaign :=
  {| campaign_id := campaign_id c; campaign_target_id := campaign_target_id c;
     campaign_snapshot_id := campaign_snapshot_id c;
     campaign_manifest_hash := campaign_manifest_hash c; campaign_state := s;
     created_unix_ms := created_unix_ms c; updated_unix_ms := updated |}.

(** [src crates/aros-types/src/domain.rs 84-96 GraphNode] *)
Record GraphNode := mkGraphNode {
  node_id : NodeId;
  node_campaign_id : CampaignId;
  node_graph : GraphKind;
  node_kind : string;
  node_label : string;
  node_epistemic : EpistemicState;
  node_payload : Value;
  node_provenance : string;
  node_artifact_refs : list string;
  node_created_unix_ms : N;
}.

(** [confidence : Option<f32>] is the bit pattern of the float.
    [src crates/aros-types/src/domain.rs 98-111 GraphEdge] *)
Record GraphEdge := mkGraphEdge {
  edge_id : EdgeId;
  edge_campaign_id : CampaignId;
  edge_graph : GraphKind;
  edge_from : NodeId;
  edge_to : NodeId;
  edge_kind : string;
  edge_epistemic : EpistemicState;
  edge_confidence : option N;
  edge_provenance : string;
  edge_artifact_refs : list string;
  edge_created_unix_ms : N;
}.

(** [src crates/aros-types/src/domain.rs 121-134 Hypothesis] *)
Record HypothesisRec := mkHypothesis {
  hypothesis_id : HypothesisId;
  hypothesis_campaign_id : CampaignId;
  hypothesis_claim : string;
  supporting_facts : list string;
  historical_analogues : list string;
  affected_components : list string;
  security_invariant : string;
  possible_impact : string;
  cheapest_experiment : string;
  estimated_cost : N;
  hypothesis_epistemic : EpistemicState;
}.

(** [src crates/aros-types/src/domain.rs 223-232 Finding] *)
Record Finding := mkFinding {
  finding_id : FindingId;
  finding_campaign_id : CampaignId;
  finding_hypothesis_id : HypothesisId;
  finding_claim : string;
  finding_evidence_level : EvidenceLevel;
  finding_manifest_hash : string;
  finding_verified : bool;
}.

(** [src crates/aros-types/src/domain.rs 234-241 EvidenceArtifact] *)
Record EvidenceArtifact := mkEvidenceArtifact {
  artifact_id : ArtifactId;
  digest_blake3 : string;
  digest_sha256 : string;
  media_type : string;
  byte_len : N;
}.

(** [src crates/aros-types/src/domain.rs 243-253 EvidenceBundle] *)
Record EvidenceBundle := mkEvidenceBundle {
  bundle_finding_id : FindingId;
  bundle_campaign_id : CampaignId;
  bundle_manifest_hash : string;
  bundle_snapshot_id : SnapshotId;
  bundle_sandbox_id : option string;
  bundle_claim : string;
  bundle_artifact_digests : list string;
  bundle_level : EvidenceLevel;
}.

(** [src crates/aros-types/src/domain.rs 266-271 VerifierMode] *)
Inductive VerifierMode := ReproduceCandidate | Blindish.

(** [src crates/aros-types/src/domain.rs 255-264 VerifierRun] *)
Record VerifierRun := mkVerifierRun {
  verifier_run_id : VerifierRunId;
  verifier_finding_id : FindingId;
  verifier_campaign_id : CampaignId;
  verifier_manifest_hash : string;
  verifier_mode : VerifierMode;
  verifier_result : AuthorityResult;
  verifier_notes : string;
}.

(** [src crates/aros-types/src/domain.rs 273-280 PatchCandidate] *)
Record PatchCandidate := mkPatchCandidate {
  patch_id : PatchId;
  patch_finding_id : FindingId;
  worktree_path : string;
  diff_digest : string;
  original_target_unmodified : bool;
}.

(** [src crates/aros-types/src/domain.rs 300-309 ResearchFailureCard] *)
Record ResearchFailureCard := mkResearchFailureCard {
  card_campaign_id : CampaignId;
  card_run_id : RunId;
  card_category : FailureCategory;
  card_detail : string;
  card_spec_id : string;
}.

(** ** Research events *)

(** [src crates/aros-types/src/events.rs 10-196 ResearchEvent] *)
Inductive ResearchEvent :=
| TargetRegistered (target_id_ : TargetId) (name_ : string)
| TargetSnapshotted (target_id_ : TargetId) (snapshot_id_ : SnapshotId) (tree_digest_ : string)
| CampaignStarted (campaign_id_ : CampaignId) (manifest_hash_ : string)
| CampaignStateChanged (campaign_id_ : CampaignId) (state_ : CampaignState)
| SurfaceMapped (campaign_id_ : CampaignId) (component_count_ : N)
| AssumptionCreated (campaign_id_ : CampaignId) (statement_ : string)
| HypothesisCreated (campaign_id_ : CampaignId) (hypothesis_id_ : HypothesisId) (claim_ : string)
| HypothesisPrioritized (campaign_id_ : CampaignId) (hypothesis_id_ : HypothesisId) (score_ : N)
| HypothesisRefuted (campaign_id_ : CampaignId) (hypothesis_id_ : HypothesisId) (reason_ : string)
| ExperimentStarted (campaign_id_ : CampaignId) (experiment_id_ : ExperimentId) (manifest_hash_ : string)
| ExperimentFinished (campaign_id_ : CampaignId) (experiment_id_ : ExperimentId)
| ObservationRecorded (campaign_id_ : CampaignId) (artifact_digest_ : string) (manifest_hash_ : string)
| AnomalyRecorded (campaign_id_ : CampaignId) (summary_ : string)
| PrimitiveSupported (campaign_id_ : CampaignId) (primitive_ : string)
| PrimitiveVerified (campaign_id_ : CampaignId) (primitive_ : string)
| AttackChainCreated (campaign_id_ : CampaignId) (summary_ : string)
| FindingCandidateCreated (campaign_id_ : CampaignId) (finding_id_ : FindingId) (claim_ : string)
| FindingVerified (campaign_id_ : CampaignId) (finding_id_ : FindingId) (level_ : EvidenceLevel)
| FindingFalsified (campaign_id_ : CampaignId) (finding_id_ : FindingId) (reason_ : string)
| PatchCandidateCreated (campaign_id_ : CampaignId) (patch_id_ : PatchId) (finding_id_ : FindingId)
| ReattackStarted (campaign_id_ : CampaignId) (finding_id_ : FindingId)
| ReattackCompleted (campaign_id_ : CampaignId) (finding_id_ : FindingId) (original_effect_absent_ : bool)
| RegressionCreated (campaign_id_ : CampaignId) (finding_id_ : FindingId) (test_path_ : string)
| AgentStarted (campaign_id_ : CampaignId) (agent_ : string)
| AgentStopped (campaign_id_ : CampaignId) (agent_ : string)
| ToolRequested (campaign_id_ : CampaignId) (request_id_ : RequestId) (capability_ : ToolCapability)
| ToolAllowed (campaign_id_ : CampaignId) (request_id_ : RequestId)
| ToolDenied (campaign_id_ : CampaignId) (request_id_ : RequestId) (reason_ : string)
| ProcessStarted (campaign_id_ : CampaignId) (executable_ : string)
| ProcessFinished (campaign_id_ : CampaignId) (executable_ : string) (exit_status_ : Z)
| NetworkAttempted (campaign_id_ : CampaignId) (host_ : string) (port_ : N) (decision_ : PolicyDecision)
| PolicyViolationAttempt (campaign_id_ : CampaignId) (detail_ : string)
| SandboxKilled (campaign_id_ : CampaignId) (reason_ : string)
| EvidenceCreated (campaign_id_ : CampaignId) (digest_ : string)
| ClaimCreated (campaign_id_ : CampaignId) (claim_ : string)
| VerificationStarted (campaign_id_ : CampaignId) (finding_id_ : FindingId)
| VerificationSucceeded (campaign_id_ : CampaignId) (finding_id_ : FindingId)
| VerificationFailed (campaign_id_ : CampaignId) (finding_id_ : FindingId) (reason_ : string)
| CertificateIssued (campaign_id_ : CampaignId) (contained_ : bool) (original_unmodified_ : bool)
| CampaignCompleted (campaign_id_ : CampaignId) (state_ : CampaignState)
| CampaignFailed (campaign_id_ : CampaignId) (reason_ : string).

(** [src crates/aros-types/src/events.rs 198-242 ResearchEvent::campaign_id] *)
Definition event_campaign_id (e : ResearchEvent) : option CampaignId :=
  match e with
  | TargetRegistered _ _ | TargetSnapshotted _ _ _ => None
  | CampaignStarted c _
  | CampaignStateChanged c _
  | SurfaceMapped c _
  | AssumptionCreated c _
  | HypothesisCreated c _ _
  | HypothesisPrioritized c _ _
  | HypothesisRefuted c _ _
  | ExperimentStarted c _ _
  | ExperimentFinished c _
  | ObservationRecorded c _ _
  | AnomalyRecorded c _
  | PrimitiveSupported c _
  | PrimitiveVerified c _
  | AttackChainCreated c _
  | FindingCandidateCreated c _ _
  | FindingVerified c _ _
  | FindingFalsified c _ _
  | PatchCandidateCreated c _ _
  | ReattackStarted c _
  | ReattackCompleted c _ _
  | RegressionCreated c _ _
  | AgentStarted c _
  | AgentStopped c _
  | ToolRequested c _ _
  | ToolAllowed c _
  | ToolDenied c _ _
  | ProcessStarted c _
  | ProcessFinished c _ _
  | NetworkAttempted c _ _ _
  | PolicyViolationAttempt c _
  | SandboxKilled c _
  | EvidenceCreated c _
  | ClaimCreated c _
  | VerificationStarted c _
  | VerificationSucceeded c _
  | VerificationFailed c _ _
  | CertificateIssued c _ _
  | CampaignCompleted c _
  | CampaignFailed c _ => Some c
  end.

(** [src crates/aros-types/src/events.rs 252-256 EventRecord] *)
Record EventRecord := mkEventRecord {
  occurred_unix_ms : N;
  event : ResearchEvent;
}.

(** The clock reading is an argument.
    [src crates/aros-types/src/events.rs 244-249 ResearchEvent::stamped_payload] *)
Definition stamped_payload (now : N) (e : ResearchEvent) : EventRecord :=
  {| occurred_unix_ms := now; event := e |}.

(** ** Names of the product *)

Definition PRODUCT_NAME : string := "AROS".
Definition DAEMON_NAME : string := "arosd".

(** [src crates/aros-types/src/branding.rs 23-25 env_name] *)
Definition env_name (suffix : string) : string := "AROS_" +:+ suffix.
