(* ===== verification/PathScope.v ===== *)
(** * Filesystem and shell scope (crate [aros-policy], [path_scope.rs] and [shell.rs])

    The lexical gate on paths, the shell and HTTP token filters, and the
    theorem that the string test of [path_allowed] decides component-wise
    containment in an authorized root. *)

From S2P Require Import Prelude RustStr.

Module PathScope.

Definition slash : ascii := "/"%char.
Definition backslash : ascii := "\"%char.
Definition nul : ascii := "000"%char.

(** The loop of [normalize_path] over the parts of the path.
    [src crates/aros-policy/src/path_scope.rs 14-23 normalize_path] *)
Fixpoint keep_parts (parts out : list string) : option (list string) :=
  match parts with
  | [] => Some out
  | part :: parts =>
    if is_empty part || String.eqb part "." then keep_parts parts out
    else if String.eqb part ".." then None
    else keep_parts parts (out ++ [part])
  end.

(** [src crates/aros-policy/src/path_scope.rs 5-28 normalize_path] *)
Definition normalize_path (path : string) : option string :=
  if is_empty path || contains_byte nul path then None
  else
    let stripped :=
      match strip_prefix "\\?\" path with
      | Some rest => rest
      | None => match strip_prefix "//?/" path with
                | Some rest => rest
                | None => path
                end
      end in
    let replaced := replace_char backslash "/" stripped in
    match keep_parts (split_char slash replaced) [] with
    | None => None
    | Some [] => Some "/"
    | Some out => Some ("/" +:+ join "/" out)
    end.

Definition forbidden_needles : list string :=
  ["/mnt/c"; "docker.sock"; "podman.sock"; "/.ssh/"; "id_rsa"; "id_ed25519";
   ".git-credentials"; ".aws/credentials"; "google/chrome/user data"; "mozilla/firefox"].

(** [src crates/aros-policy/src/path_scope.rs 30-46 is_forbidden_host_resource] *)
Definition is_forbidden_host_resource (path : string) : bool :=
  let normalized := to_ascii_lowercase (replace_char backslash "/" path) in
  existsb (λ needle, contains normalized needle) forbidden_needles.

(** The closure of [path_allowed] on one root.
    [src crates/aros-policy/src/path_scope.rs 55-67 path_allowed] *)
Definition root_covers (normalized root : string) : bool :=
  match normalize_path root with
  | None => false
  | Some root_normalized =>
    if String.eqb normalized root_normalized then true
    else if String.eqb root_normalized "/" then starts_with normalized "/"
    else starts_with normalized root_normalized &&
         bool_decide (byte_at (str_len root_normalized) normalized = Some slash)
  end.

(** [src crates/aros-policy/src/path_scope.rs 48-68 path_allowed] *)
Definition path_allowed (path : string) (allowed_roots : list string) : bool :=
  if is_forbidden_host_resource path then false
  else match normalize_path path with
       | None => false
       | Some normalized => existsb (root_covers normalized) allowed_roots
       end.

(** ** The components of a path *)

(** The abstract view: the path as a list of components, when it is accepted. *)
Definition components (path : string) : option (list string) :=
  if is_empty path || contains_byte nul path then None
  else
    let stripped := default (default path (strip_prefix "//?/" path)) (strip_prefix "\\?\" path) in
    keep_parts (split_char slash (replace_char backslash "/" stripped)) [].

Definition render (out : list string) : string :=
  match out with
  | [] => "/"
  | _ => "/" +:+ join "/" out
  end.

Lemma normalize_components path : normalize_path path = render <$> components path.
Proof.
  unfold normalize_path, components. destruct (is_empty path || contains_byte nul path); [done|].
  destruct (strip_prefix "\\?\" path); cbn; [|destruct (strip_prefix "//?/" path); cbn];
    destruct (keep_parts _ _) as [[|]|]; done.
Qed.

(** What a kept component satisfies. *)
Definition component_ok (p : string) : Prop :=
  p ≠ "" ∧ p ≠ "." ∧ p ≠ ".." ∧ contains_byte slash p = false ∧ contains_byte backslash p = false.

Lemma replace_char_free c r s :
  contains_byte c r = false → contains_byte c (replace_char c r s) = false.
Proof.
  intros Hr. induction s as [|a s IH]; [done|]. simpl.
  destruct (Ascii.eqb_spec a c) as [->|Hne].
  - by rewrite contains_byte_app, Hr, IH.
  - simpl. rewrite IH, orb_false_r. by apply Ascii.eqb_neq.
Qed.

Lemma split_char_sub c d s :
  contains_byte d s = false → Forall (λ p, contains_byte d p = false) (split_char c s).
Proof.
  unfold split_char. induction s as [|a s IH]; simpl; [by repeat constructor|].
  rewrite orb_false_iff. intros [Ha Hs]. specialize (IH Hs).
  destruct (split_by _ s) as [|p ps]; [done|]. inversion_clear IH.
  destruct (Ascii.eqb c a); repeat constructor; try done. simpl. by rewrite Ha.
Qed.

Lemma keep_parts_ok parts out out' :
  keep_parts parts out = Some out' →
  Forall (λ p, contains_byte slash p = false ∧ contains_byte backslash p = false) parts →
  Forall component_ok out → Forall component_ok out'.
Proof.
  revert out. induction parts as [|p parts IH]; intros out; simpl; [naive_solver|].
  rewrite Forall_cons. intros H [[Hs Hb] Hp] Hout.
  destruct (is_empty p || String.eqb p ".") eqn:E1; [by eapply IH|].
  destruct (String.eqb_spec p "..") as [|Hne]; [done|].
  apply (IH _ H Hp). apply Forall_app. split; [done|].
  apply orb_false_iff in E1 as [E0 E1]. apply String.eqb_neq in E1.
  repeat constructor; try done. by destruct p.
Qed.

Lemma components_ok path out : components path = Some out → Forall component_ok out.
Proof.
  unfold components. destruct (_ || _); [done|]. intros H.
  eapply keep_parts_ok; [done| |constructor].
  rewrite Forall_and. split; [apply split_char_free|]. by apply split_char_sub, replace_char_free.
Qed.

(** ** Rendered paths and prefixes *)

(** A non-empty component list, each component after a slash. *)
Fixpoint slashed (l : list string) : string :=
  match l with
  | [] => ""
  | p :: l => String slash (p +:+ slashed l)
  end.

Lemma render_slashed l : l ≠ [] → render l = slashed l.
Proof.
  intros Hl. destruct l as [|p l]; [done|]. clear Hl. unfold render.
  rewrite sapp_cons, sapp_nil_l. cbn [slashed]. f_equal.
  revert p. induction l as [|q l IH]; intros p; [by rewrite sapp_nil_r|].
  rewrite join_cons by done. rewrite IH. cbn [slashed]. by rewrite sapp_cons, sapp_nil_l.
Qed.

(** The rest of the string after a component: the end, or a slash. *)
Definition ends_component (t : string) : Prop := t = "" ∨ ∃ t', t = String slash t'.

Lemma slashed_ends l : ends_component (slashed l).
Proof. destruct l; [by left|right; eauto]. Qed.

Lemma component_cut a b t u :
  contains_byte slash a = false → contains_byte slash b = false →
  ends_component t → ends_component u → a +:+ t = b +:+ u → a = b ∧ t = u.
Proof.
  revert b. induction a as [|c a IH]; intros [|d b] Ha Hb Ht Hu H.
  - by rewrite !sapp_nil_l in H.
  - exfalso. rewrite sapp_nil_l, sapp_cons in H. subst t.
    destruct Ht as [?|[t' [= -> ?]]]; [done|]. by simpl in Hb.
  - exfalso. rewrite sapp_nil_l, sapp_cons in H. subst u.
    destruct Hu as [?|[u' [= -> ?]]]; [done|]. by simpl in Ha.
  - rewrite !sapp_cons in H. injection H as -> H. simpl in *.
    apply orb_false_iff in Ha as [? Ha], Hb as [? Hb].
    destruct (IH b) as [-> ->]; done.
Qed.

Lemma slashed_prefix cr cp t :
  Forall component_ok cr → Forall component_ok cp → ends_component t →
  slashed cp = slashed cr +:+ t → ∃ rest, cp = cr ++ rest ∧ t = slashed rest.
Proof.
  intros Hr Hp Ht. revert cp Hp. induction Hr as [|r cr Hrok Hr IH]; intros cp Hp H.
  - rewrite sapp_nil_l in H. by exists cp.
  - destruct cp as [|p cp]; [by cbn [slashed] in H; rewrite sapp_cons in H|].
    cbn [slashed] in H. rewrite sapp_cons, sapp_assoc in H. injection H as H.
    inversion_clear Hp as [|?? Hpok Hp'].
    apply component_cut in H as [-> H]; [|by apply Hpok|by apply Hrok|apply slashed_ends|].
    2:{ destruct (slashed_ends cr) as [->|[t' ->]]; [done|]. right. by eexists. }
    destruct (IH cp Hp' H) as (rest & -> & ->). by exists rest.
Qed.

Lemma slashed_app l k : slashed (l ++ k) = slashed l +:+ slashed k.
Proof.
  induction l as [|p l IH]; [done|]. cbn [slashed app]. rewrite IH.
  by rewrite sapp_cons, sapp_assoc.
Qed.

Lemma byte_at_app s t : byte_at (String.length s) (s +:+ t) = byte_at 0 t.
Proof. induction s as [|a s IH]; [done|]. rewrite sapp_cons. exact IH. Qed.

Lemma render_root l : Forall component_ok l → render l = "/" → l = [].
Proof.
  intros Hl H. destruct l as [|p l]; [done|]. rewrite render_slashed in H by done.
  cbn [slashed] in H. injection H as H. inversion_clear Hl as [|?? Hp].
  destruct p; [by destruct Hp|by rewrite sapp_cons in H].
Qed.

(** The string test of [path_allowed] against one root is component-wise
    containment. *)
Lemma root_covers_spec cp root :
  Forall component_ok cp →
  root_covers (render cp) root = true ↔ ∃ cr, components root = Some cr ∧ cr `prefix_of` cp.
Proof.
  intros Hp. unfold root_covers. rewrite normalize_components.
  destruct (components root) as [cr|] eqn:Hcr; cbn; [|naive_solver].
  pose proof (components_ok _ _ Hcr) as Hr.
  transitivity (cr `prefix_of` cp); [|naive_solver].
  destruct (decide (cr = [])) as [->|Hne].
  { cbn. split; [intros _; apply prefix_nil|intros _].
    destruct (String.eqb (render cp) "/"); [done|].
    apply starts_with_spec. destruct cp; eexists; [done|reflexivity]. }
  rewrite (render_slashed cr Hne).
  assert (String.eqb (slashed cr) "/" = false) as ->.
  { apply String.eqb_neq. intros E. apply Hne, render_root; [done|by rewrite render_slashed]. }
  destruct (decide (cp = [])) as [->|Hne'].
  { split; [|by intros ->%prefix_nil_inv]. cbn. destruct cr as [|r cr]; [done|].
    inversion_clear Hr as [|?? Hrok]. destruct r as [|c r]; [by destruct Hrok|].
    cbn. by destruct (ascii_dec slash slash). }
  rewrite (render_slashed cp Hne').
  destruct (String.eqb_spec (slashed cp) (slashed cr)) as [E|NE].
  { split; [intros _|done]. rewrite <- (sapp_nil_r (slashed cr)) in E.
    apply slashed_prefix in E as (rest & -> & _); [by exists rest|done..|by left]. }
  rewrite andb_true_iff, bool_decide_eq_true, starts_with_spec. split.
  - intros [[t Ht] Hb]. rewrite Ht in Hb. unfold str_len in Hb. rewrite byte_at_app in Hb.
    destruct t as [|c t]; [done|]. cbn in Hb. injection Hb as ->.
    apply slashed_prefix in Ht as (rest & -> & _); [by exists rest|done..|right; eauto].
  - intros [rest ->]. rewrite slashed_app. split; [by eexists|].
    unfold str_len. rewrite byte_at_app. destruct rest as [|r rest]; [|done].
    rewrite app_nil_r in NE. done.
Qed.

(** The specification of [path_allowed]. *)
Definition confined (path : string) (roots : list string) : Prop :=
  is_forbidden_host_resource path = false ∧
  ∃ root cr cp, root ∈ roots ∧ components root = Some cr ∧ components path = Some cp ∧
    cr `prefix_of` cp.

Lemma path_allowed_spec path roots : path_allowed path roots = true ↔ confined path roots.
Proof.
  unfold path_allowed, confined.
  destruct (is_forbidden_host_resource path); [naive_solver|].
  rewrite normalize_components. destruct (components path) as [cp|] eqn:Hcp; cbn; [|naive_solver].
  rewrite existsb_true_iff. setoid_rewrite root_covers_spec; [|by eapply components_ok].
  split; [intros (root & Hin & cr & Hcr & Hpre); naive_solver|].
  intros (_ & root & cr & cp' & Hin & Hcr & [= <-] & Hpre). eauto.
Qed.

(** ** Normal forms *)

Lemma replace_char_id c r s : contains_byte c s = false → replace_char c r s = s.
Proof.
  induction s as [|a s IH]; simpl; [done|]. rewrite orb_false_iff. intros [-> Hs].
  by rewrite IH.
Qed.

Lemma keep_parts_all parts out :
  Forall component_ok parts → keep_parts parts out = Some (out ++ parts).
Proof.
  intros H. revert out. induction H as [|p parts Hp Hps IH]; intros out; simpl;
    [by rewrite app_nil_r|].
  destruct Hp as (H0 & H1 & H2 & _). destruct p as [|c p]; [done|].
  rewrite (proj2 (String.eqb_neq _ _) H1), (proj2 (String.eqb_neq _ _) H2).
  cbn [is_empty orb]. rewrite IH. by rewrite <- app_assoc.
Qed.

Lemma slashed_free c l :
  c ≠ slash → Forall (λ p, contains_byte c p = false) l → contains_byte c (slashed l) = false.
Proof.
  intros Hc H. induction H as [|p l Hp Hl IH]; [done|]. cbn [slashed contains_byte].
  rewrite contains_byte_app, Hp, IH. destruct (Ascii.eqb_spec slash c); [congruence|done].
Qed.

Lemma split_slashed l : l ≠ [] → Forall component_ok l → split_char slash (slashed l) = "" :: l.
Proof.
  intros Hne Hl. rewrite <- render_slashed by done. destruct l as [|p l]; [done|].
  unfold render. change (split_char slash ("" +:+ String slash (join "/" (p :: l))) = "" :: p :: l).
  rewrite (split_char_app slash "" (join "/" (p :: l)) eq_refl).
  f_equal. apply split_join_char; [done|].
  eapply Forall_impl; [exact Hl|]. by intros ? (_ & _ & _ & ? & _).
Qed.

(** A rendered path has the components it was rendered from. *)
Lemma components_render l :
  Forall component_ok l → Forall (λ p, contains_byte nul p = false) l →
  components (render l) = Some l.
Proof.
  intros Hl Hn. destruct (decide (l = [])) as [->|Hne]; [reflexivity|].
  rewrite render_slashed by done. unfold components.
  rewrite (slashed_free nul) by done. destruct l as [|p l]; [done|].
  assert (strip_prefix "\\?\" (slashed (p :: l)) = None) as -> by done.
  assert (strip_prefix "//?/" (slashed (p :: l)) = None) as ->.
  { inversion_clear Hl as [|?? (H0 & _ & _ & Hs & _)]. destruct p as [|c p]; [done|].
    destruct (strip_prefix _ _) eqn:E; [|done]. apply strip_prefix_spec in E.
    cbn [slashed] in E. rewrite !sapp_cons in E. injection E as -> _. done. }
  cbn [default]. change (is_empty (slashed (p :: l))) with false. cbn [orb].
  rewrite replace_char_id.
  - rewrite split_slashed by done. exact (keep_parts_all (p :: l) [] Hl).
  - apply slashed_free; [done|]. eapply Forall_impl; [exact Hl|].
    by intros ? (_ & _ & _ & _ & ?).
Qed.

(** Normalisation is idempotent: the output of [normalize_path] is a fixed point. *)
Lemma keep_parts_forall (P : string → Prop) parts out out' :
  keep_parts parts out = Some out' → Forall P parts → Forall P out → Forall P out'.
Proof.
  revert out. induction parts as [|p parts IH]; intros out; simpl; [naive_solver|].
  rewrite Forall_cons. intros H [Hp Hps] Hout.
  destruct (_ || _); [by eapply IH|]. destruct (String.eqb p ".."); [done|].
  eapply IH; [done..|]. apply Forall_app. by repeat constructor.
Qed.

Lemma replace_char_other c d r s :
  contains_byte d r = false → contains_byte d s = false →
  contains_byte d (replace_char c r s) = false.
Proof.
  intros Hr. induction s as [|a s IH]; simpl; [done|].
  rewrite orb_false_iff. intros [Ha Hs]. destruct (Ascii.eqb a c).
  - by rewrite contains_byte_app, Hr, IH.
  - simpl. by rewrite Ha, IH.
Qed.

Lemma strip_prefix_free d p s t :
  strip_prefix p s = Some t → contains_byte d s = false → contains_byte d t = false.
Proof.
  intros ->%strip_prefix_spec. rewrite contains_byte_app, orb_false_iff. by intros [].
Qed.

Lemma components_nul_free path out :
  components path = Some out → Forall (λ p, contains_byte nul p = false) out.
Proof.
  unfold components. destruct (is_empty path || contains_byte nul path) eqn:E; [done|].
  apply orb_false_iff in E as [_ E]. intros H. eapply keep_parts_forall; [done| |constructor].
  apply split_char_sub, replace_char_other; [done|].
  destruct (strip_prefix "\\?\" path) eqn:E1; [exact (strip_prefix_free _ _ _ _ E1 E)|].
  destruct (strip_prefix "//?/" path) eqn:E2; [exact (strip_prefix_free _ _ _ _ E2 E)|done].
Qed.

Lemma normalize_fixed path n : normalize_path path = Some n → normalize_path n = Some n.
Proof.
  rewrite !normalize_components. intros (out & Hc & ->)%fmap_Some.
  rewrite components_render; [done|by eapply components_ok|by eapply components_nul_free].
Qed.

End PathScope.

(** ** Shell and HTTP tokens *)

Module Shell.

(** [src crates/aros-policy/src/shell.rs 1-3 METACHARACTERS] *)
Definition METACHARACTERS : list N :=
  byte_val <$> [";"; "|"; "&"; "$"; "`"; "010"; "013"; "("; ")"; "<"; ">"; "*"; "?"; "["; "]";
                "{"; "}"]%char.

(** [src crates/aros-policy/src/shell.rs 6-9 argv_contains_shell_metacharacters] *)
Definition argv_contains_shell_metacharacters (argv : list string) : bool :=
  existsb (λ arg, existsb (λ c, bool_decide (c ∈ METACHARACTERS)) (chars arg)) argv.

Definition shell_names : list string :=
  ["sh"; "bash"; "zsh"; "dash"; "csh"; "tcsh"; "fish"; "cmd.exe"; "cmd"; "powershell";
   "powershell.exe"; "pwsh"; "pwsh.exe"].

(** [rsplit(..).next()] is the last piece of [split(..)].
    [src crates/aros-policy/src/shell.rs 11-32 executable_is_shell] *)
Definition executable_is_shell (name : string) : bool :=
  let pieces := split_by (λ c, Ascii.eqb c "/" || Ascii.eqb c "\") name in
  let lower := to_ascii_lowercase (default name (last pieces)) in
  bool_decide (lower ∈ shell_names).

(** [src crates/aros-policy/src/shell.rs 37-43 http_request_target_is_safe] *)
Definition http_request_target_is_safe (target : string) : bool :=
  starts_with target "/" && negb (is_empty target) &&
  forallb (λ c, negb (is_control c) && negb (is_whitespace c)) (chars target).

(** [src crates/aros-policy/src/shell.rs 46-51 http_cookie_is_safe] *)
Definition http_cookie_is_safe (cookie : string) : bool :=
  negb (is_empty cookie) &&
  forallb (λ c, negb (is_control c) && negb (c =? 10)%N && negb (c =? 13)%N) (chars cookie).

End Shell.
