(* ===== verification/Policy.v ===== *)
(** * The policy decision point (crate [aros-policy], [network_scope.rs] and [engine.rs])

    [evaluate] decides whether a tool intent is authorized by a campaign's
    manifest. The theorems give its contract: a declarative [authorized]
    predicate that [evaluate] decides, that authorization only grows with the
    allowlists, and what the default manifest and the fixture manifest can
    ever authorize. *)

From S2P Require Import Prelude RustStr Net Json Types PathScope.
Import PathScope Shell.

(** ** Network scope *)

Module NetworkScope.

(** [src crates/aros-policy/src/network_scope.rs 6-11 host_is_public_unspecified_or_broadcast] *)
Definition host_is_public_unspecified_or_broadcast (ip : IpAddr) : bool :=
  match ip with
  | V4 v => v4_is_unspecified v || v4_is_broadcast v || v4_is_multicast v
  | V6 v => v6_is_unspecified v || v6_is_multicast v
  end.

(** [src crates/aros-policy/src/network_scope.rs 13-16 parse_host_ip] *)
Definition parse_host_ip (host : string) : option IpAddr :=
  let trimmed := trim_matches (λ c, Ascii.eqb c "[" || Ascii.eqb c "]") (trim host) in
  IpAddr_from_str trimmed.

(** The closure of [network_allowed] on one endpoint.
    [src crates/aros-policy/src/network_scope.rs 27-31 network_allowed] *)
Definition endpoint_matches `{IpNetLib} (ip : IpAddr) (intent : NetworkIntent)
    (ep : AllowedEndpoint) : bool :=
  ipnet_contains (cidr ep) ip &&
  bool_decide (port intent ∈ ports ep) &&
  bool_decide (protocol intent ∈ protocols ep).

(** [src crates/aros-policy/src/network_scope.rs 18-32 network_allowed] *)
Definition network_allowed `{IpNetLib} (intent : NetworkIntent)
    (endpoints : list AllowedEndpoint) : bool :=
  match parse_host_ip (host intent) with
  | None => false
  | Some ip =>
    if host_is_public_unspecified_or_broadcast ip then false
    else existsb (endpoint_matches ip intent) endpoints
  end.

(** [src crates/aros-policy/src/network_scope.rs 34-52 default_denied_examples] *)
Definition default_denied_examples : list NetworkIntent :=
  [mkNetworkIntent "8.8.8.8" 53 Udp;
   mkNetworkIntent "1.1.1.1" 443 Https;
   mkNetworkIntent "2001:4860:4860::8888" 53 Udp].

End NetworkScope.
Import NetworkScope.

(** ** The engine *)

(** [src crates/aros-policy/src/engine.rs 13-17 SandboxIdentity] *)
Record SandboxIdentity := mkSandboxIdentity {
  sandbox_id : SandboxId;
  containment_demonstrated : bool;
}.

(** [src crates/aros-policy/src/engine.rs 19-23 PolicyVerdict] *)
Record PolicyVerdict := mkPolicyVerdict {
  decision : PolicyDecision;
  reason : string;
}.

(** [src crates/aros-policy/src/engine.rs 26-31 PolicyVerdict::allow] *)
Definition allow (r : string) : PolicyVerdict := mkPolicyVerdict Allow r.
(** [src crates/aros-policy/src/engine.rs 33-38 PolicyVerdict::deny] *)
Definition deny (r : string) : PolicyVerdict := mkPolicyVerdict Deny r.
(** [src crates/aros-policy/src/engine.rs 40-45 PolicyVerdict::human] *)
Definition human (r : string) : PolicyVerdict := mkPolicyVerdict RequiresHuman r.
(** [src crates/aros-policy/src/engine.rs 47-49 PolicyVerdict::is_allow] *)
Definition is_allow (v : PolicyVerdict) : bool := bool_decide (decision v = Allow).

Definition is_network_capability (c : ToolCapability) : bool :=
  match c with
  | HttpRequest | BrowserRequest => true
  | _ => false
  end.

Definition is_filesystem_capability (c : ToolCapability) : bool :=
  match c with
  | ReadFile | CollectFile | SearchText => true
  | _ => false
  end.

Definition is_destructive_capability (c : ToolCapability) : bool :=
  match c with
  | ExecuteAllowlistedBinary | FuzzAdapter => true
  | _ => false
  end.

Section Evaluate.
Context `{IpNetLib}.
Implicit Types (m : AuthorizationManifest) (i : ToolIntent).

(** [Some v] is an early return of [v], [None] falls through. *)
Definition guard_if (b : bool) (v : PolicyVerdict) (k : option PolicyVerdict) :
    option PolicyVerdict := if b then Some v else k.

(** [src crates/aros-policy/src/engine.rs 72-101 evaluate] *)
Definition check_tokens i : option PolicyVerdict :=
  let shell_check :=
    guard_if (match argv i with exe :: _ => executable_is_shell exe | [] => false end)
      (deny "shell executables are not a tool capability") None in
  if is_network_capability (capability i) then
    guard_if (negb (bool_decide (argv i = [])))
      (deny "http intents must use http_target/http_cookie, not argv") $
    match http_target i with
    | None => Some (deny "http request requires http_target")
    | Some target =>
      guard_if (negb (http_request_target_is_safe target))
        (deny "http request target is not a safe absolute path") $
      match http_cookie i with
      | Some cookie =>
        guard_if (negb (http_cookie_is_safe cookie))
          (deny "http cookie contains control characters") shell_check
      | None => shell_check
      end
    end
  else
    guard_if (argv_contains_shell_metacharacters (argv i))
      (deny "argv contains shell metacharacters") shell_check.

(** [src crates/aros-policy/src/engine.rs 103-116 evaluate] *)
Definition check_paths m i : option PolicyVerdict :=
  let cwd_check :=
    match cwd i with
    | Some cwd =>
      guard_if (negb (path_allowed cwd (allowed_filesystem_roots m)))
        (deny "cwd is outside allowed filesystem roots") None
    | None => None
    end in
  match path i with
  | Some path =>
    guard_if (is_forbidden_host_resource path)
      (deny "host secret or container socket path is forbidden") $
    guard_if (negb (path_allowed path (allowed_filesystem_roots m)))
      (deny "path is outside allowed filesystem roots") cwd_check
  | None => cwd_check
  end.

(** [src crates/aros-policy/src/engine.rs 118-144 evaluate] *)
Definition check_network m i : option PolicyVerdict :=
  match network i with
  | None => None
  | Some net =>
    let ip_ok := bool_decide (is_Some (parse_host_ip (host net))) &&
                 network_allowed net (allowed_endpoints m) in
    let name_ok := bool_decide (host net ∈ allowed_service_names m) &&
                   network_allowed (mkNetworkIntent "127.0.0.1" (port net) (protocol net))
                     (allowed_endpoints m) in
    guard_if (negb ip_ok && negb name_ok)
      (deny "network destination is not in the allowlist") $
    guard_if (bool_decide (parse_host_ip (host net) = None) &&
              negb (bool_decide (host net ∈ allowed_service_names m)))
      (deny "hostname is not an allowed service name") $
    guard_if (bool_decide (is_Some (parse_host_ip (host net))) &&
              negb (network_allowed net (allowed_endpoints m)))
      (deny "ip/port/protocol is not in the allowlist") None
  end.

(** [src crates/aros-policy/src/engine.rs 146-174 evaluate] *)
Definition check_capability m i : option PolicyVerdict :=
  guard_if (is_network_capability (capability i) && bool_decide (network i = None))
    (deny "network capability requires a network intent") $
  guard_if (is_filesystem_capability (capability i) && bool_decide (path i = None))
    (deny "filesystem capability requires a path") $
  match destructive m with
  | Forbid => None
  | RequireHuman =>
    guard_if (is_destructive_capability (capability i))
      (human "destructive policy requires an explicit CLI invocation") None
  | AllowInSandbox => None
  end.

(** [src crates/aros-policy/src/engine.rs 53-177 evaluate] *)
Definition evaluate m (_snapshot : option TargetSnapshot) (sandbox : SandboxIdentity) i :
    PolicyVerdict :=
  if require_containment m && negb (containment_demonstrated sandbox) then
    deny "containment not demonstrated; campaign fails closed (ADR-0004)"
  else if negb (bool_decide (capability i ∈ tool_allowlist m)) then
    deny ("capability " +:+ as_str (capability i) +:+ " is not on the tool allowlist")
  else
    match check_tokens i with
    | Some v => v
    | None =>
      match check_paths m i with
      | Some v => v
      | None =>
        match check_network m i with
        | Some v => v
        | None => default (allow "allowlist match") (check_capability m i)
        end
      end
    end.

(** [src crates/aros-policy/src/engine.rs 181-187 v0_1_effective_allow] *)
Definition v0_1_effective_allow (v : PolicyVerdict) (cli_human_override : bool) : bool :=
  match decision v with
  | Allow => true
  | Deny => false
  | RequiresHuman => cli_human_override
  end.

End Evaluate.

(** ** The contract of [evaluate] *)

Section Contract.
Context `{IpNetLib}.
Implicit Types (m : AuthorizationManifest) (i : ToolIntent) (s : SandboxIdentity).

(** Some endpoint of the manifest admits the address on this port and protocol. *)
Definition endpoint_authorizes m (ip : IpAddr) (p : N) (k : ProtocolKind) : Prop :=
  host_is_public_unspecified_or_broadcast ip = false ∧
  ∃ ep, ep ∈ allowed_endpoints m ∧ ipnet_contains (cidr ep) ip = true ∧
    p ∈ ports ep ∧ k ∈ protocols ep.

(** An address literal must be admitted itself; a name must be listed and the
    loopback address admitted on that port and protocol. *)
Definition destination_authorized m (net : NetworkIntent) : Prop :=
  match parse_host_ip (host net) with
  | Some ip => endpoint_authorizes m ip (port net) (protocol net)
  | None => host net ∈ allowed_service_names m ∧
            endpoint_authorizes m LOCALHOST (port net) (protocol net)
  end.

Definition tokens_safe i : Prop :=
  if is_network_capability (capability i) then
    argv i = [] ∧
    (∃ target, http_target i = Some target ∧ http_request_target_is_safe target = true) ∧
    (∀ cookie, http_cookie i = Some cookie → http_cookie_is_safe cookie = true)
  else
    argv_contains_shell_metacharacters (argv i) = false ∧
    (∀ exe rest, argv i = exe :: rest → executable_is_shell exe = false).

(** What the manifest permits in the sandbox, human approval aside. *)
Record permitted m s i : Prop := {
  permitted_contained : require_containment m = true → containment_demonstrated s = true;
  permitted_tool : capability i ∈ tool_allowlist m;
  permitted_tokens : tokens_safe i;
  permitted_path : ∀ p, path i = Some p → confined p (allowed_filesystem_roots m);
  permitted_cwd : ∀ d, cwd i = Some d → confined d (allowed_filesystem_roots m);
  permitted_network : ∀ net, network i = Some net → destination_authorized m net;
  permitted_has_network : is_network_capability (capability i) = true → is_Some (network i);
  permitted_has_path : is_filesystem_capability (capability i) = true → is_Some (path i);
}.

Definition needs_human m i : Prop :=
  destructive m = RequireHuman ∧ is_destructive_capability (capability i) = true.

#[export] Instance needs_human_dec m i : Decision (needs_human m i).
Proof. unfold needs_human. apply _. Defined.

Lemma network_allowed_spec net eps m :
  eps = allowed_endpoints m →
  network_allowed net eps = true ↔
  ∃ ip, parse_host_ip (host net) = Some ip ∧ endpoint_authorizes m ip (port net) (protocol net).
Proof.
  intros ->. unfold network_allowed, endpoint_authorizes.
  destruct (parse_host_ip (host net)) as [ip|]; [|naive_solver].
  destruct (host_is_public_unspecified_or_broadcast ip) eqn:E; [naive_solver|].
  rewrite existsb_true_iff. unfold endpoint_matches.
  setoid_rewrite andb_true_iff. setoid_rewrite andb_true_iff.
  setoid_rewrite bool_decide_eq_true. naive_solver.
Qed.

Lemma guard_if_None b v k : guard_if b v k = None ↔ b = false ∧ k = None.
Proof. destruct b; simpl; naive_solver. Qed.

Lemma guard_if_Deny (P : PolicyVerdict → Prop) b v k :
  (∀ u, k = Some u → P u) → P v → ∀ u, guard_if b v k = Some u → P u.
Proof. destruct b; simpl; naive_solver. Qed.

(** Each group of checks falls through exactly when its clause of the contract holds. *)
Lemma check_tokens_None i : check_tokens i = None ↔ tokens_safe i.
Proof.
  unfold check_tokens, tokens_safe. destruct (is_network_capability (capability i)).
  - rewrite guard_if_None, negb_false_iff, bool_decide_eq_true.
    destruct (http_target i) as [t|]; [|naive_solver].
    rewrite guard_if_None, negb_false_iff.
    destruct (http_cookie i) as [c|]; rewrite ?guard_if_None, ?negb_false_iff;
      destruct (argv i); naive_solver.
  - rewrite !guard_if_None. destruct (argv i); naive_solver.
Qed.

Lemma check_paths_None m i :
  check_paths m i = None ↔
  (∀ p, path i = Some p → confined p (allowed_filesystem_roots m)) ∧
  (∀ d, cwd i = Some d → confined d (allowed_filesystem_roots m)).
Proof.
  unfold check_paths. setoid_rewrite <- path_allowed_spec.
  assert (Hforb : ∀ p, path_allowed p (allowed_filesystem_roots m) = true →
    is_forbidden_host_resource p = false).
  { intros p. unfold path_allowed. by destruct (is_forbidden_host_resource p). }
  destruct (path i), (cwd i); rewrite ?guard_if_None, ?negb_false_iff; naive_solver.
Qed.

Lemma loopback_allowed m p k :
  network_allowed (mkNetworkIntent "127.0.0.1" p k) (allowed_endpoints m) = true ↔
  endpoint_authorizes m LOCALHOST p k.
Proof.
  rewrite (network_allowed_spec _ _ m) by done.
  assert (parse_host_ip "127.0.0.1" = Some LOCALHOST) as E by (vm_compute; done).
  cbn [host port protocol]. rewrite E. naive_solver.
Qed.

Lemma check_network_None m i :
  check_network m i = None ↔ ∀ net, network i = Some net → destination_authorized m net.
Proof.
  unfold check_network. destruct (network i) as [net|]; [|naive_solver].
  rewrite !guard_if_None, !andb_false_iff, !negb_false_iff, andb_true_iff, !bool_decide_eq_true,
    !bool_decide_eq_false, andb_true_iff, bool_decide_eq_true,
    loopback_allowed, !(network_allowed_spec net _ m) by done.
  transitivity (destination_authorized m net); [|naive_solver].
  unfold destination_authorized. destruct (parse_host_ip (host net)) as [ip|].
  - assert (is_Some (Some ip)) by done. naive_solver.
  - assert (¬ is_Some (@None IpAddr)) by (by intros [? [=]]). naive_solver.
Qed.

Lemma check_capability_spec m i :
  (is_network_capability (capability i) = true → is_Some (network i)) →
  (is_filesystem_capability (capability i) = true → is_Some (path i)) →
  check_capability m i =
    if decide (needs_human m i)
    then Some (human "destructive policy requires an explicit CLI invocation") else None.
Proof.
  intros Hn Hp. unfold check_capability.
  assert (is_network_capability (capability i) && bool_decide (network i = None) = false) as ->.
  { destruct (is_network_capability _); [|done]. destruct (Hn eq_refl) as [? ->]. done. }
  assert (is_filesystem_capability (capability i) && bool_decide (path i = None) = false) as ->.
  { destruct (is_filesystem_capability _); [|done]. destruct (Hp eq_refl) as [? ->]. done. }
  cbn. case_decide as Hd; unfold needs_human in Hd.
  - by destruct Hd as [-> ->].
  - destruct (destructive m), (is_destructive_capability _); naive_solver.
Qed.

Lemma guard_if_permits b v k u :
  decision v = Deny → guard_if b v k = Some u → decision u ≠ Deny → b = false ∧ k = Some u.
Proof. destruct b; simpl; naive_solver. Qed.

(** Falling through the last group, or stopping at the human gate, establishes
    the two presence clauses. *)
Lemma check_capability_permits m i :
  decision (default (allow "allowlist match") (check_capability m i)) ≠ Deny →
  (is_network_capability (capability i) = true → is_Some (network i)) ∧
  (is_filesystem_capability (capability i) = true → is_Some (path i)).
Proof.
  unfold check_capability, guard_if.
  destruct (is_network_capability (capability i)), (is_filesystem_capability (capability i)),
    (network i), (path i); cbn; intros Hv; (split; intros ?); first [done|by destruct Hv].
Qed.

(** The groups before the last can only deny. *)
Lemma early_checks_deny m i v :
  check_tokens i = Some v ∨ check_paths m i = Some v ∨ check_network m i = Some v →
  decision v = Deny.
Proof.
  unfold check_tokens, check_paths, check_network, guard_if.
  intros [E|[E|E]]; repeat case_match; simplify_eq; done.
Qed.

Definition verdict_of m s i : PolicyDecision :=
  decision (evaluate m None s i).

Lemma evaluate_snapshot m snap s i : evaluate m snap s i = evaluate m None s i.
Proof. done. Qed.

(** On permitted intents the verdict is [Allow], or [RequiresHuman] at the
    destructive gate. *)
Lemma evaluate_permitted m snap s i :
  permitted m s i →
  evaluate m snap s i =
    if decide (needs_human m i)
    then human "destructive policy requires an explicit CLI invocation"
    else allow "allowlist match".
Proof.
  intros [Hc Ht Hk Hp Hd Hn Hnet Hpath]. unfold evaluate.
  assert (require_containment m && negb (containment_demonstrated s) = false) as ->.
  { destruct (require_containment m); [|done]. by rewrite Hc. }
  rewrite bool_decide_eq_true_2 by done. cbn [negb].
  rewrite (proj2 (check_tokens_None i) Hk), (proj2 (check_paths_None m i) (conj Hp Hd)),
    (proj2 (check_network_None m i) Hn), check_capability_spec by done.
  by case_decide.
Qed.

(** Whatever is not denied is permitted. *)
Lemma evaluate_not_denied m snap s i :
  decision (evaluate m snap s i) ≠ Deny → permitted m s i.
Proof.
  intros Hv. unfold evaluate in Hv.
  destruct (require_containment m && negb (containment_demonstrated s)) eqn:Hc; [done|].
  destruct (bool_decide _) eqn:Ht; [|done]. cbn [negb] in Hv. apply bool_decide_eq_true_1 in Ht.
  destruct (check_tokens i) eqn:Hk; [destruct Hv; eapply (early_checks_deny m i); eauto|].
  destruct (check_paths m i) eqn:Hp; [destruct Hv; eapply (early_checks_deny m i); eauto|].
  destruct (check_network m i) eqn:Hn; [destruct Hv; eapply (early_checks_deny m i); eauto|].
  apply check_tokens_None in Hk. apply check_paths_None in Hp as [Hp Hd].
  rewrite check_network_None in Hn. apply check_capability_permits in Hv as [Hnet Hpath].
  split; try done. intros Hr. rewrite Hr in Hc. by destruct (containment_demonstrated s).
Qed.

(** C14: [evaluate] decides the authorization contract: the three verdicts are
    exactly "permitted and no human gate", "permitted behind the human gate" and
    "not permitted". The target snapshot plays no part in the verdict. *)
Theorem evaluate_decides m snap s i :
  (decision (evaluate m snap s i) = Allow ↔ permitted m s i ∧ ¬ needs_human m i) ∧
  (decision (evaluate m snap s i) = RequiresHuman ↔ permitted m s i ∧ needs_human m i) ∧
  (decision (evaluate m snap s i) = Deny ↔ ¬ permitted m s i).
Proof.
  pose proof (evaluate_permitted m snap s i) as Hp.
  pose proof (evaluate_not_denied m snap s i) as Hn.
  destruct (decide (decision (evaluate m snap s i) = Deny)) as [Hd|Hd].
  - assert (¬ permitted m s i).
    { intros Hper. rewrite (Hp Hper) in Hd. by case_decide. }
    rewrite Hd. naive_solver.
  - specialize (Hn Hd). rewrite (Hp Hn). case_decide; cbn; naive_solver.
Qed.

(** ** Growing the allowlists *)

(** [m'] authorizes at least what [m] lists. *)
Record manifest_le m m' : Prop := {
  le_containment : require_containment m' = true → require_containment m = true;
  le_tools : tool_allowlist m ⊆ tool_allowlist m';
  le_roots : allowed_filesystem_roots m ⊆ allowed_filesystem_roots m';
  le_names : allowed_service_names m ⊆ allowed_service_names m';
  le_endpoints : allowed_endpoints m ⊆ allowed_endpoints m';
}.

#[export] Instance manifest_le_preorder : PreOrder manifest_le.
Proof. split; [by split|]. intros ??? [] []. split; set_solver. Qed.

Lemma confined_mono p roots roots' : roots ⊆ roots' → confined p roots → confined p roots'.
Proof. intros Hr (Hf & root & cr & cp & Hin & ?). split; [done|]. exists root, cr, cp. set_solver. Qed.

Lemma endpoint_authorizes_mono m m' ip p k :
  manifest_le m m' → endpoint_authorizes m ip p k → endpoint_authorizes m' ip p k.
Proof. intros Hle (Hs & ep & Hin & ?). split; [done|]. exists ep. split; [by apply Hle|done]. Qed.

Lemma permitted_mono m m' s i : manifest_le m m' → permitted m s i → permitted m' s i.
Proof.
  intros Hle [Hc Ht Hk Hp Hd Hn Hnet Hpath]. split; try done.
  - intros Hr. by apply Hc, Hle.
  - by apply Hle.
  - intros p Ep. eapply confined_mono; [apply Hle|eauto].
  - intros d Ed. eapply confined_mono; [apply Hle|eauto].
  - intros net En. specialize (Hn net En). unfold destination_authorized in *.
    destruct (parse_host_ip (host net)); [by eapply endpoint_authorizes_mono|].
    destruct Hn as [Hn Hl]. split; [by apply Hle|by eapply endpoint_authorizes_mono].
Qed.

(** Authorization is monotone: extending the tool, root, name and endpoint
    allowlists (the destructive policy unchanged) keeps every [Allow]; read
    backwards, restricting a manifest never turns a denial into a permission. *)
Theorem evaluate_monotone m m' snap s i :
  manifest_le m m' → destructive m = destructive m' →
  decision (evaluate m snap s i) = Allow → decision (evaluate m' snap s i) = Allow.
Proof.
  intros Hle Hd Ha.
  assert (permitted m s i) as Hp by (apply (evaluate_not_denied m snap); by rewrite Ha).
  rewrite (evaluate_permitted m snap s i Hp) in Ha.
  rewrite (evaluate_permitted m' snap s i) by (by eapply permitted_mono).
  assert (needs_human m' i ↔ needs_human m i) as Hh by (unfold needs_human; by rewrite Hd).
  repeat case_decide; naive_solver.
Qed.

(** Human approval is the only way past a gate, and it never overturns a denial. *)
Lemma effective_allow_spec m snap s i override :
  v0_1_effective_allow (evaluate m snap s i) override = true ↔
  permitted m s i ∧ (needs_human m i → override = true).
Proof.
  unfold v0_1_effective_allow. split.
  - intros Hv. assert (permitted m s i) as Hp.
    { apply (evaluate_not_denied m snap). intros E. by rewrite E in Hv. }
    split; [done|]. intros Hh. rewrite (evaluate_permitted m snap s i Hp), decide_True in Hv; done.
  - intros [Hp Ho]. rewrite (evaluate_permitted m snap s i Hp). case_decide; cbn; auto.
Qed.

End Contract.

(** ** The manifests the program builds *)

Section Manifests.
Context `{L : IpNetLib}.

(** [src crates/aros-core/src/lib.rs 77-96 fixture_manifest] *)
Definition host_endpoint (net : IpNet) (p : N) : AllowedEndpoint :=
  {| cidr := net; ports := {[p]}; protocols := {[Http; Tcp]} |}.

Definition set_scope (m : AuthorizationManifest) (names : gset string)
    (eps : list AllowedEndpoint) (tools : gset ToolCapability) (rc : bool) :
    AuthorizationManifest :=
  {| manifest_campaign_id := manifest_campaign_id m;
     manifest_target_id := manifest_target_id m;
     visibility := visibility m;
     allowed_filesystem_roots := allowed_filesystem_roots m;
     allowed_service_names := names;
     allowed_endpoints := eps;
     allowed_credential_refs := allowed_credential_refs m;
     permitted_modalities := permitted_modalities m;
     destructive := destructive m;
     tool_allowlist := tools;
     budgets := budgets m;
     artifacts := artifacts m;
     data_classification := data_classification m;
     require_containment := rc |}.

(** The fresh campaign and target identifiers are arguments.
    [src crates/aros-core/src/lib.rs 65-99 fixture_manifest] *)
Definition fixture_manifest (cid : CampaignId) (tid : TargetId) (root host : string) (port : N)
    (require_containment : bool) : AuthorizationManifest :=
  let m := default_deny_local cid tid root in
  let '(names, eps) :=
    match IpAddr_from_str host with
    | Some ip =>
      match ipnet_new ip (host_bits ip) with
      | Some net => (allowed_service_names m, allowed_endpoints m ++ [host_endpoint net port])
      | None => (allowed_service_names m, allowed_endpoints m)
      end
    | None =>
      match ipnet_from_str "127.0.0.1/32" with
      | Some net => ({[host]} ∪ allowed_service_names m,
                     allowed_endpoints m ++ [host_endpoint net port])
      | None => (allowed_service_names m, allowed_endpoints m)
      end
    end in
  set_scope m names eps ({[HttpRequest]} ∪ tool_allowlist m) require_containment.

(** The default manifest is deny-by-default: whatever it does not deny is a
    static inspection tool, with no network destination, confined to the one
    root, in a sandbox whose containment was demonstrated. *)
Theorem default_deny_local_safe cid tid root snap s i :
  decision (evaluate (default_deny_local cid tid root) snap s i) ≠ Deny →
  network i = None ∧ is_network_capability (capability i) = false ∧
  is_destructive_capability (capability i) = false ∧ containment_demonstrated s = true ∧
  (∀ p, path i = Some p → confined p [root]).
Proof.
  intros [Hc Ht Hk Hp Hd Hn Hnet Hpath]%evaluate_not_denied.
  assert (network i = None) as Hnone.
  { destruct (network i) as [net|]; [|done]. specialize (Hn net eq_refl).
    unfold destination_authorized, endpoint_authorizes in Hn. cbn in Hn.
    destruct (parse_host_ip (host net)); set_solver. }
  cbn in Ht. split_and!; [done| | |by apply Hc|done].
  - apply not_true_is_false. intros [? E]%Hnet. congruence.
  - destruct (capability i); try done; set_solver.
Qed.

(** The addresses an endpoint list with one host prefix admits. *)
Lemma single_endpoint_authorizes `{!IpNetLaws L} m ip0 net p ip q k :
  ipnet_new ip0 (host_bits ip0) = Some net → allowed_endpoints m = [host_endpoint net p] →
  endpoint_authorizes m ip q k → ip = ip0 ∧ q = p ∧ (k = Http ∨ k = Tcp).
Proof.
  intros Hnet Heps (_ & ep & Hin & Hc & Hq & Hk). rewrite Heps in Hin.
  apply list_elem_of_singleton in Hin as ->. cbn in *.
  apply (ipnet_host_contains _ _ Hnet) in Hc. set_solver.
Qed.

Lemma fixture_manifest_containment cid tid root h port b :
  require_containment (fixture_manifest cid tid root h port b) = b.
Proof. unfold fixture_manifest. by repeat case_match. Qed.

(** The fixture manifest opens exactly one destination: an intent it does
    not deny connects, if at all, to the fixture's own address and port (the
    loopback address when the fixture is given by name), over HTTP or TCP. *)
Theorem fixture_manifest_one_destination `{!IpNetLaws L} cid tid root h p rc snap s i net :
  decision (evaluate (fixture_manifest cid tid root h p rc) snap s i) ≠ Deny →
  network i = Some net →
  port net = p ∧ (protocol net = Http ∨ protocol net = Tcp) ∧
  (∀ ip, parse_host_ip (host net) = Some ip → ip = default LOCALHOST (IpAddr_from_str h)) ∧
  (parse_host_ip (host net) = None →
    (host net = h ∨ host net = "fixture-target") ∧ default LOCALHOST (IpAddr_from_str h) = LOCALHOST).
Proof.
  intros [_ _ _ _ _ Hn _ _]%evaluate_not_denied Enet. specialize (Hn net Enet).
  set (m := fixture_manifest cid tid root h p rc) in *.
  set (ip0 := default LOCALHOST (IpAddr_from_str h)) in *.
  assert (∃ n, ipnet_new ip0 (host_bits ip0) = Some n ∧
    allowed_endpoints m = [host_endpoint n p] ∧
    allowed_service_names m ⊆ {[h; "fixture-target"]}) as (n & Hnew & Heps & Hnames).
  { subst m ip0. unfold fixture_manifest. destruct (IpAddr_from_str h) as [ip|]; cbn.
    - destruct (ipnet_host_exists ip) as [n Hn']. rewrite Hn'. exists n. cbn. set_solver.
    - rewrite ipnet_loopback_text. change 32%N with (host_bits LOCALHOST).
      destruct (ipnet_host_exists LOCALHOST) as [n Hn']. rewrite Hn'. exists n. cbn. set_solver. }
  unfold destination_authorized in Hn. destruct (parse_host_ip (host net)) as [ip|].
  - apply (single_endpoint_authorizes m ip0 n p) in Hn; [|done..]. naive_solver.
  - destruct Hn as [Hin Hn]. apply (single_endpoint_authorizes m ip0 n p) in Hn; [|done..].
    split_and!; [naive_solver..|]. intros _. split; [set_solver|naive_solver].
Qed.

End Manifests.
