(* ===== verification/Ledger.v ===== *)
(** * The event ledger (crate [aros-evidence], [ledger.rs])

    A hash-chained, append-only list of research events. The theorems show
    that [append] keeps the chain verifiable, that [verify] decides the chain
    invariant and names the first broken entry, and that two verified ledgers
    with the same head are the same history unless the bytes they hashed hold
    a collision. The hash function is a parameter: nothing is assumed of it. *)

From S2P Require Import Prelude RustStr Json Types.

Module Ledger.

(** [src crates/aros-evidence/src/ledger.rs 5-5 GENESIS] *)
Definition GENESIS : string := "0000000000000000000000000000000000000000000000000000000000000000".

(** [src crates/aros-evidence/src/ledger.rs 7-17 LedgerError] *)
Inductive LedgerError :=
| LeJson (e : TypesError)
| BrokenChain (index : nat)
| Tampered (index : nat)
| NonContiguous (expected actual : N).

(** [src crates/aros-evidence/src/ledger.rs 19-28 LedgerEntry] *)
Record LedgerEntry := mkLedgerEntry {
  index : N;
  previous_hash : string;
  event_hash : string;
  entry_campaign_id : option CampaignId;
  payload_digest : string;
  artifact_digests : list string;
  record : EventRecord;
}.

(** [src crates/aros-evidence/src/ledger.rs 30-35 ChainMaterial] *)
Record ChainMaterial := mkChainMaterial {
  material_previous_hash : string;
  material_record : EventRecord;
  material_artifact_digests : list string;
}.

(** [EventLedger] is its vector of entries (lines 53-56). *)
Abbreviation EventLedger := (list LedgerEntry).

(** [src crates/aros-evidence/src/ledger.rs 59-63 EventLedger::new] *)
Definition EventLedger_new : EventLedger := [].

Section Operations.
Context `{J : JsonLib, HashLib, S : Serialize EventRecord}.
Implicit Types (l : EventLedger) (e : LedgerEntry).

(** The derived serialization of the material: an object of its three fields. *)
#[export] Instance ChainMaterial_serialize : Serialize ChainMaterial := {
  to_value m :=
    rv ← to_value (material_record m);
    Ok (JObject [("previous_hash", JString (material_previous_hash m)); ("record", rv);
                 ("artifact_digests", JArray (JString <$> material_artifact_digests m))])
}.

(** [src crates/aros-evidence/src/ledger.rs 37-51 entry_hash] *)
Definition entry_hash (prev : string) (rec : EventRecord) (arts : list string) :
    result LedgerError (string * string) :=
  payload_bytes ← map_err LeJson (to_canonical_json rec);
  let payload_digest := blake3_hex payload_bytes in
  let material := mkChainMaterial prev rec arts in
  chain_bytes ← map_err LeJson (to_canonical_json material);
  Ok (payload_digest, blake3_hex chain_bytes).

(** The hash of the last entry, or the given starting hash. *)
Definition head_from (prev : string) l : string := default prev (event_hash <$> last l).
Definition head : EventLedger → string := head_from GENESIS.

(** The clock reading of [stamped_payload] is an argument; the new ledger is
    returned with the entry.
    [src crates/aros-evidence/src/ledger.rs 85-108 EventLedger::append] *)
Definition append (now : N) l (ev : ResearchEvent) (arts : list string) :
    result LedgerError (EventLedger * LedgerEntry) :=
  let rec := stamped_payload now ev in
  let prev := head l in
  '(payload, hash) ← entry_hash prev rec arts;
  let entry :=
    {| index := N.of_nat (length l); previous_hash := prev; event_hash := hash;
       entry_campaign_id := event_campaign_id (event rec); payload_digest := payload;
       artifact_digests := arts; record := rec |} in
  Ok (l ++ [entry], entry).

(** One turn of the loop of [verify].
    [src crates/aros-evidence/src/ledger.rs 113-127 EventLedger::verify] *)
Definition verify_entry (i : nat) (expected_prev : string) e : result LedgerError unit :=
  if negb (index e =? N.of_nat i)%N then Err (NonContiguous (N.of_nat i) (index e))
  else if negb (bool_decide (previous_hash e = expected_prev)) then Err (BrokenChain i)
  else
    '(payload, recomputed) ← entry_hash (previous_hash e) (record e) (artifact_digests e);
    if negb (bool_decide (payload = payload_digest e)) ||
       negb (bool_decide (recomputed = event_hash e))
    then Err (Tampered i) else Ok ().

Fixpoint verify_from (i : nat) (expected_prev : string) l : result LedgerError unit :=
  match l with
  | [] => Ok ()
  | e :: l => _ ← verify_entry i expected_prev e; verify_from (Datatypes.S i) (event_hash e) l
  end.

(** [src crates/aros-evidence/src/ledger.rs 110-130 EventLedger::verify] *)
Definition verify l : result LedgerError unit := verify_from 0 GENESIS l.

(** [src crates/aros-evidence/src/ledger.rs 67-71 EventLedger::from_stored_entries] *)
Definition from_stored_entries (entries : list LedgerEntry) : result LedgerError EventLedger :=
  _ ← verify entries; Ok entries.

Definition set_summary (ev : ResearchEvent) (summary : string) : ResearchEvent :=
  match ev with
  | AnomalyRecorded c _ => AnomalyRecorded c summary
  | _ => ev
  end.

Definition set_record e (rec : EventRecord) : LedgerEntry :=
  {| index := index e; previous_hash := previous_hash e; event_hash := event_hash e;
     entry_campaign_id := entry_campaign_id e; payload_digest := payload_digest e;
     artifact_digests := artifact_digests e; record := rec |}.

(** [src crates/aros-evidence/src/ledger.rs 133-142 EventLedger::tamper_payload_for_test] *)
Definition tamper_payload_for_test l (i : nat) (summary : string) : EventLedger :=
  match l !! i with
  | Some e =>
    <[i := set_record e (mkEventRecord (occurred_unix_ms (record e))
             (set_summary (event (record e)) summary))]> l
  | None => l
  end.

(** ** The chain invariant *)

Definition entry_ok (i : nat) (prev : string) e : Prop :=
  index e = N.of_nat i ∧ previous_hash e = prev ∧
  entry_hash prev (record e) (artifact_digests e) = Ok (payload_digest e, event_hash e).

Definition chain_from (i : nat) (prev : string) l : Prop :=
  ∀ j e, l !! j = Some e → entry_ok (i + j) (head_from prev (take j l)) e.

Definition chain_ok l : Prop := chain_from 0 GENESIS l.

Lemma verify_entry_Ok i prev e : verify_entry i prev e = Ok () ↔ entry_ok i prev e.
Proof.
  unfold verify_entry, entry_ok.
  destruct (N.eqb_spec (index e) (N.of_nat i)) as [Hi|Hi]; cbn [negb]; [|naive_solver].
  case_bool_decide as Hp; cbn [negb]; [|naive_solver]. rewrite Hp, bind_Ok. split.
  - intros ([p h] & Hh & Hv). split_and!; [done..|]. rewrite Hh.
    repeat (case_bool_decide; simplify_eq/=). done.
  - intros (_ & _ & Hh). eexists. split; [exact Hh|]. cbn. by rewrite !bool_decide_eq_true_2.
Qed.

Lemma head_from_cons prev e l : head_from prev (e :: l) = head_from (event_hash e) l.
Proof. unfold head_from. by rewrite last_cons; destruct (last l). Qed.

Lemma head_from_snoc prev l e : head_from prev (l ++ [e]) = event_hash e.
Proof. unfold head_from. by rewrite last_snoc. Qed.

Lemma chain_from_cons i prev e l :
  chain_from i prev (e :: l) ↔ entry_ok i prev e ∧ chain_from (Datatypes.S i) (event_hash e) l.
Proof.
  unfold chain_from. split.
  - intros Hc. split; [specialize (Hc 0 e eq_refl); by rewrite Nat.add_0_r in Hc|].
    intros j e' Hj. specialize (Hc (Datatypes.S j) e' Hj). simpl take in Hc.
    rewrite head_from_cons in Hc. by replace (Datatypes.S i + j) with (i + Datatypes.S j) by lia.
  - intros [He Hl] [|j] e' Hj; simplify_eq/=; [by rewrite Nat.add_0_r|].
    rewrite head_from_cons. replace (i + Datatypes.S j) with (Datatypes.S i + j) by lia. by apply Hl.
Qed.

Lemma verify_from_Ok i prev l : verify_from i prev l = Ok () ↔ chain_from i prev l.
Proof.
  revert i prev. induction l as [|e l IH]; intros i prev; cbn [verify_from].
  - split; [|done]. by intros _ [|j] e.
  - rewrite bind_Ok, chain_from_cons, <- verify_entry_Ok, <- IH.
    split; [by intros ([] & ? & ?)|]. intros [? ?]. by exists ().
Qed.

Lemma verify_from_Err i prev l err :
  verify_from i prev l = Err err ↔
  ∃ j e, l !! j = Some e ∧ chain_from i prev (take j l) ∧
    verify_entry (i + j) (head_from prev (take j l)) e = Err err.
Proof.
  revert i prev. induction l as [|e l IH]; intros i prev; cbn [verify_from].
  - naive_solver.
  - rewrite bind_Err. setoid_rewrite IH. split.
    + intros [He|([] & He & j & e' & Hj & Hc & Hv)].
      * exists 0, e. rewrite Nat.add_0_r. by split_and!; [|intros [|j] ?|].
      * exists (Datatypes.S j), e'. simpl take. rewrite chain_from_cons, head_from_cons,
          <- verify_entry_Ok. by replace (i + Datatypes.S j) with (Datatypes.S i + j) by lia.
    + intros ([|j] & e' & Hj & Hc & Hv); simplify_eq/=.
      * left. by rewrite Nat.add_0_r in Hv.
      * right. exists (). rewrite chain_from_cons, <- verify_entry_Ok in Hc.
        rewrite head_from_cons, Nat.add_succ_r in Hv.
        destruct Hc as [He Hc]. split; [done|]. by exists j, e'.
Qed.

Lemma chain_from_app i prev l k :
  chain_from i prev (l ++ k) ↔
  chain_from i prev l ∧ chain_from (i + length l) (head_from prev l) k.
Proof.
  revert i prev. induction l as [|e l IH]; intros i prev.
  - simpl. rewrite Nat.add_0_r. split; [|naive_solver]. split; [|done]. by intros [|j] ?.
  - simpl app. rewrite !chain_from_cons, IH, head_from_cons.
    replace (i + length (e :: l)) with (Datatypes.S i + length l) by (simpl; lia). naive_solver.
Qed.

Lemma chain_from_single i prev e : chain_from i prev [e] ↔ entry_ok i prev e.
Proof. rewrite chain_from_cons. split; [naive_solver|]. split; [done|]. by intros [|j] ?. Qed.

Lemma append_Ok now l ev arts l' e :
  append now l ev arts = Ok (l', e) ↔
  l' = l ++ [e] ∧ record e = stamped_payload now ev ∧ artifact_digests e = arts ∧
  entry_campaign_id e = event_campaign_id ev ∧ entry_ok (length l) (head l) e.
Proof.
  unfold append, entry_ok. rewrite bind_Ok. split.
  - intros ([p h] & Hh & [= <- <-]). cbn. split_and!; done.
  - destruct e as [ix ph eh cid pd ad rec]; cbn. intros (-> & -> & -> & -> & -> & -> & Hh).
    eexists. split; [exact Hh|done].
Qed.

(** ** What [append] and [verify] guarantee *)

(** C18: appending an event to a verified ledger leaves every stored entry as it
    was, adds one entry that carries the event, its artifacts and its campaign,
    and the extended ledger verifies again. *)
Theorem append_preserves_chain now l ev arts l' e :
  verify l = Ok () → append now l ev arts = Ok (l', e) →
  verify l' = Ok () ∧ l' = l ++ [e] ∧ event (record e) = ev ∧ artifact_digests e = arts ∧
  entry_campaign_id e = event_campaign_id ev.
Proof.
  intros Hv Ha. apply append_Ok in Ha as (-> & Hr & Hd & Hc & He).
  split; [|by rewrite Hr]. apply verify_from_Ok, chain_from_app.
  split; [by apply verify_from_Ok|]. by apply chain_from_single.
Qed.

(** [verify] decides the chain invariant, and an error is the one of the
    first entry that breaks it: everything before it verifies. *)
Theorem verify_first_error l :
  (verify l = Ok () ↔ chain_ok l) ∧
  ∀ err, verify l = Err err ↔
    ∃ i e, l !! i = Some e ∧ verify (take i l) = Ok () ∧
      verify_entry i (head (take i l)) e = Err err.
Proof.
  split; [apply verify_from_Ok|]. intros err. unfold verify at 1. rewrite verify_from_Err.
  setoid_rewrite verify_from_Ok. done.
Qed.

(** Storing a verified ledger and loading it back is the identity. *)
Lemma from_stored_entries_Ok entries l :
  from_stored_entries entries = Ok l ↔ entries = l ∧ verify l = Ok ().
Proof.
  unfold from_stored_entries. rewrite bind_Ok. split; [by intros ([] & Hv & [= <-])|].
  intros [-> Hv]. by exists ().
Qed.

(** The two hashes of an entry are taken over these bytes. *)
Lemma entry_hash_Ok prev rec arts p h :
  entry_hash prev rec arts = Ok (p, h) ↔
  ∃ pb cb, to_canonical_json rec = Ok pb ∧ p = blake3_hex pb ∧
    to_canonical_json (mkChainMaterial prev rec arts) = Ok cb ∧ h = blake3_hex cb.
Proof.
  unfold entry_hash. split.
  - intros (pb & Hp%map_err_Ok & (cb & Hc%map_err_Ok & [= <- <-])%bind_Ok)%bind_Ok.
    by exists pb, cb.
  - intros (pb & cb & -> & -> & -> & ->). done.
Qed.

Lemma entry_hash_Err prev rec arts err :
  entry_hash prev rec arts = Err err → ∃ te, err = LeJson te.
Proof.
  unfold entry_hash. intros [(te & _ & ->)%map_err_Err|(pb & _ & Hc)]%bind_Err; [by exists te|].
  apply bind_Err in Hc as [(te & _ & ->)%map_err_Err|(cb & _ & [=])]. by exists te.
Qed.

(** The bytes whose hash is the entry's [event_hash]. *)
Definition chain_bytes e : option string :=
  ok (to_canonical_json (mkChainMaterial (previous_hash e) (record e) (artifact_digests e))).

Definition chain_inputs l : list string := omap chain_bytes l.

(** Agreement of two entries in every field the hashes cover. *)
Definition same_content e e' : Prop :=
  index e = index e' ∧ previous_hash e = previous_hash e' ∧ event_hash e = event_hash e' ∧
  payload_digest e = payload_digest e' ∧ artifact_digests e = artifact_digests e' ∧
  record e = record e'.

#[export] Instance same_content_equiv : Equivalence same_content.
Proof. split; unfold same_content; red; intuition congruence. Qed.

(** [verify] does not look at the campaign column of an entry. *)
Lemma verify_entry_same_content i prev e e' :
  same_content e e' → verify_entry i prev e = verify_entry i prev e'.
Proof.
  intros (Hi & Hp & He & Hd & Ha & Hr). unfold verify_entry. by rewrite Hi, Hp, He, Hd, Ha, Hr.
Qed.

Lemma verify_same_content i prev l l' :
  Forall2 same_content l l' → verify_from i prev l = verify_from i prev l'.
Proof.
  intros Hl. revert i prev. induction Hl as [|e e' l l' He Hl IH]; intros i prev; [done|].
  cbn [verify_from]. rewrite (verify_entry_same_content i prev _ _ He).
  destruct (verify_entry i prev e'); [|done]. cbn. destruct He as (_ & _ & -> & _). apply IH.
Qed.

End Operations.

(** ** Tamper evidence *)

Section TamperEvidence.
Context `{J : JsonLib, !JsonLaws J, HashLib, S : Serialize EventRecord, D : Deserialize EventRecord,
          !SerializeLaws EventRecord}.
Implicit Types (l : EventLedger) (e : LedgerEntry).

Lemma strings_canonical (ss : list string) :
  canonicalize_value (JArray (JString <$> ss)) = JArray (JString <$> ss).
Proof. cbn. f_equal. by induction ss as [|x ss IH]; cbn; [|rewrite IH]. Qed.

Lemma material_wf p rv arts :
  value_wf rv →
  value_wf (JObject [("previous_hash", JString p); ("record", rv);
                     ("artifact_digests", JArray (JString <$> arts))]).
Proof.
  intros Hr. cbn. split; [by repeat constructor; set_solver|]. split_and!; try done.
  induction arts; simpl; done.
Qed.

Lemma material_canonical p rv arts :
  canonicalize_value (JObject [("previous_hash", JString p); ("record", rv);
                               ("artifact_digests", JArray (JString <$> arts))]) =
  JObject [("artifact_digests", JArray (JString <$> arts)); ("previous_hash", JString p);
           ("record", canonicalize_value rv)].
Proof. rewrite <- (strings_canonical arts) at 2. reflexivity. Qed.

(** The hashed bytes determine the material. *)
Lemma material_inj (m1 m2 : ChainMaterial) bytes :
  to_canonical_json m1 = Ok bytes → to_canonical_json m2 = Ok bytes → m1 = m2.
Proof.
  destruct m1 as [p1 r1 a1], m2 as [p2 r2 a2]. unfold to_canonical_json.
  intros (v & Hv & [= <-])%bind_Ok (w & Hw & [= E])%bind_Ok.
  rewrite map_err_Ok in Hv, Hw. cbn [to_value ChainMaterial_serialize] in Hv, Hw.
  apply bind_Ok in Hv as (rv & Hrv & [= <-]). apply bind_Ok in Hw as (rw & Hrw & [= <-]).
  cbn [material_record material_previous_hash material_artifact_digests] in *.
  apply json_to_vec_inj in E; [|by eapply material_wf, ser_wf..].
  rewrite !material_canonical in E. injection E as Ea -> Er.
  rewrite (canonical_determines _ _ _ _ Hrv Hrw) by done. f_equal.
  apply list_fmap_eq_inj in Ea; [done|]. by intros ?? [= ->].
Qed.

Lemma entry_ok_bytes i prev e :
  entry_ok i prev e → ∃ b, chain_bytes e = Some b ∧ event_hash e = blake3_hex b.
Proof.
  intros (_ & <- & Hh). apply entry_hash_Ok in Hh as (pb & cb & _ & _ & Hc & ->).
  exists cb. unfold chain_bytes. by rewrite Hc.
Qed.

Lemma chain_bytes_inj e1 e2 b :
  chain_bytes e1 = Some b → chain_bytes e2 = Some b →
  previous_hash e1 = previous_hash e2 ∧ record e1 = record e2 ∧
  artifact_digests e1 = artifact_digests e2.
Proof.
  unfold chain_bytes. destruct (to_canonical_json _) eqn:E1; intros [= ->].
  destruct (to_canonical_json (mkChainMaterial (previous_hash e2) _ _)) eqn:E2; intros [= ->].
  pose proof (material_inj _ _ _ E1 E2) as E. by injection E.
Qed.

Lemma same_content_intro i1 i2 p1 p2 e1 e2 :
  i1 = i2 → entry_ok i1 p1 e1 → entry_ok i2 p2 e2 → event_hash e1 = event_hash e2 →
  previous_hash e1 = previous_hash e2 → record e1 = record e2 →
  artifact_digests e1 = artifact_digests e2 → same_content e1 e2.
Proof.
  intros -> (Hi1 & Hp1 & Hh1) (Hi2 & Hp2 & Hh2) He Hp Hr Ha.
  rewrite <- Hp1, Hp, Hr, Ha in Hh1. rewrite <- Hp2 in Hh2. unfold same_content.
  split_and!; congruence.
Qed.

Lemma genesis_preimage l e :
  chain_from 0 GENESIS (l ++ [e]) → event_hash e = GENESIS →
  ∃ x, x ∈ chain_inputs (l ++ [e]) ∧ blake3_hex x = GENESIS.
Proof.
  rewrite chain_from_app, chain_from_single. intros [_ He] Hg.
  destruct (entry_ok_bytes _ _ _ He) as (b & Hb & Hh). exists b. split; [|congruence].
  unfold chain_inputs. rewrite omap_app, elem_of_app. right. cbn. rewrite Hb. set_solver.
Qed.

(** C17: two verified ledgers with the same head hash record the same history,
    entry by entry, unless the very bytes they hashed exhibit a collision of the
    hash function or a preimage of the genesis hash. Nothing is assumed of the
    hash function. *)
Theorem verified_head_determines_history l1 l2 :
  verify l1 = Ok () → verify l2 = Ok () → head l1 = head l2 →
  Forall2 same_content l1 l2 ∨
  (∃ x y, x ∈ chain_inputs l1 ∧ y ∈ chain_inputs l2 ∧ x ≠ y ∧ blake3_hex x = blake3_hex y) ∨
  (∃ x, x ∈ chain_inputs l1 ++ chain_inputs l2 ∧ blake3_hex x = GENESIS).
Proof.
  unfold verify. rewrite !verify_from_Ok. revert l2.
  induction l1 as [|e1 l1 IH] using rev_ind; intros l2; destruct l2 as [|e2 l2 _] using rev_ind.
  - left. constructor.
  - intros _ Hc Hh. unfold head in Hh. rewrite head_from_snoc in Hh. right. right.
    destruct (genesis_preimage _ _ Hc) as (x & ? & ?); [done|]. by exists x.
  - intros Hc _ Hh. unfold head in Hh. rewrite head_from_snoc in Hh. right. right.
    destruct (genesis_preimage _ _ Hc) as (x & ? & ?); [done|]. exists x. by rewrite app_nil_r.
  - rewrite !chain_from_app, !chain_from_single. intros [Hc1 He1] [Hc2 He2] Hh.
    unfold head in Hh. rewrite !head_from_snoc in Hh.
    pose proof (entry_ok_bytes _ _ _ He1) as (b1 & Hb1 & Hh1).
    pose proof (entry_ok_bytes _ _ _ He2) as (b2 & Hb2 & Hh2).
    unfold chain_inputs. rewrite !omap_app. cbn [omap list_omap]. rewrite Hb1, Hb2.
    destruct (decide (b1 = b2)) as [->|Hne].
    2:{ right. left. exists b1, b2. rewrite !elem_of_app, !list_elem_of_singleton. naive_solver congruence. }
    destruct (chain_bytes_inj e1 e2 b2) as (Hp & Hr & Ha); [done..|].
    destruct (IH l2 Hc1 Hc2) as [Hl|[(x & y & ? & ? & ?)|(x & Hx & ?)]].
    + unfold head. destruct He1 as (_ & ? & _), He2 as (_ & ? & _). congruence.
    + left. apply Forall2_app; [done|]. constructor; [|constructor].
      by eapply same_content_intro; [|exact He1|exact He2|..]; [eapply Forall2_length|..].
    + right. left. exists x, y. rewrite !elem_of_app. naive_solver.
    + right. right. exists x. rewrite !elem_of_app in *. naive_solver.
Qed.

(** The entry an attacker leaves behind. *)
Definition tampered_record e (summary : string) : EventRecord :=
  mkEventRecord (occurred_unix_ms (record e)) (set_summary (event (record e)) summary).

Lemma tampered_record_ne e c old summary :
  event (record e) = AnomalyRecorded c old → summary ≠ old → tampered_record e summary ≠ record e.
Proof.
  unfold tampered_record. destruct (record e) as [t ev]; cbn. intros -> Hne [=]. done.
Qed.

Lemma verify_entry_tampered i prev e rec :
  entry_ok i prev e → rec ≠ record e →
  verify_entry i prev (set_record e rec) = Err (Tampered i) ∨
  (∃ err, verify_entry i prev (set_record e rec) = Err (LeJson err)) ∨
  (∃ x y, to_canonical_json (record e) = Ok x ∧ to_canonical_json rec = Ok y ∧
     x ≠ y ∧ blake3_hex x = blake3_hex y).
Proof.
  intros (Hi & Hp & Hh) Hne. apply entry_hash_Ok in Hh as (pb & cb & Hpb & Hd & _ & _).
  unfold verify_entry. cbn [index previous_hash record artifact_digests set_record].
  rewrite Hi, N.eqb_refl, bool_decide_eq_true_2 by done. cbn [negb].
  destruct (entry_hash _ rec _) as [[p h]|err] eqn:E; cbn.
  - apply entry_hash_Ok in E as (pb' & cb' & Hpb' & -> & _ & ->).
    destruct (decide (blake3_hex pb' = payload_digest e)) as [Hc|Hc].
    + right. right. exists pb, pb'. split_and!; [done..| |congruence].
      intros ->. by apply Hne, (to_canonical_json_inj _ _ _ Hpb' Hpb).
    + left. by rewrite bool_decide_eq_false_2.
  - right. left. apply entry_hash_Err in E as [te ->]. by exists te.
Qed.

(** Rewriting the summary of a stored anomaly in a verified ledger is
    detected at exactly the tampered index, unless the old and the new payload
    bytes are themselves a hash collision (or the forged record cannot even be
    serialized, which [verify] reports too). *)
Theorem tampering_is_detected l i e c old summary :
  verify l = Ok () → l !! i = Some e → event (record e) = AnomalyRecorded c old →
  summary ≠ old →
  verify (tamper_payload_for_test l i summary) = Err (Tampered i) ∨
  (∃ err, verify (tamper_payload_for_test l i summary) = Err (LeJson err)) ∨
  (∃ x y, to_canonical_json (record e) = Ok x ∧
     to_canonical_json (tampered_record e summary) = Ok y ∧ x ≠ y ∧ blake3_hex x = blake3_hex y).
Proof.
  unfold verify. intros Hv Hi Hev Hne. apply verify_from_Ok in Hv.
  pose proof (Hv i e Hi) as Hok. unfold tamper_payload_for_test. rewrite Hi.
  fold (tampered_record e summary).
  assert (Herr : ∀ err, verify_entry i (head_from GENESIS (take i l))
      (set_record e (tampered_record e summary)) = Err err →
    verify_from 0 GENESIS (<[i:=set_record e (tampered_record e summary)]> l) = Err err).
  { intros err Herr. apply verify_from_Err. eexists i, _. rewrite take_insert_ge by done.
    split_and!; [by eapply list_lookup_insert_eq, lookup_lt_Some| |exact Herr].
    rewrite <- (take_drop i l) in Hv. by apply chain_from_app in Hv as [? _]. }
  destruct (verify_entry_tampered _ _ _ (tampered_record e summary) Hok)
    as [Ht|[[err Ht]|Hcol]]; [by eapply tampered_record_ne|..]; eauto.
Qed.

End TamperEvidence.
End Ledger.
