(* ===== verification/Cas.v ===== *)
(** * The content-addressed store (crate [aros-evidence], [cas.rs])

    Blobs under [root/blake3/<prefix>/<digest>], written to a temporary file
    and renamed into place. The file system is a map from paths to contents,
    and any step of a [put] may fail; the theorems show that a crash at any
    point leaves every blob intact, that [get] returns only bytes of the
    requested digest, and that what was put is what is read. *)

From S2P Require Import Prelude RustStr Json Types.

Module Cas.

(** [src crates/aros-evidence/src/cas.rs 9-19 CasError] *)
Inductive CasError :=
| Io
| NotFound (digest : string)
| DigestMismatch
| TooLarge (max : N).

(** [src crates/aros-evidence/src/cas.rs 21-25 ContentAddressedStore] *)
Record ContentAddressedStore := mkCas {
  root : string;
  max_bytes : N;
}.

(** Regular files by path. *)
Abbreviation files := (gmap string string).

(** The operating-system call of [put] that fails, if any: creating the
    directory, creating the temporary file, writing (after [n] bytes), syncing,
    renaming. *)
Inductive put_fault := FCreateDir | FCreate | FWrite (n : nat) | FSync | FRename.

#[global] Instance put_fault_eq_dec : EqDecision put_fault.
Proof. solve_decision. Defined.

Section Operations.
Context `{H : HashLib}.
Implicit Types (cas : ContentAddressedStore) (fs : files).

(** [Path::join]: an absolute path replaces the base. *)
Definition path_join (base p : string) : string :=
  if starts_with p "/" then p else base +:+ "/" +:+ p.

(** [digest.get(0..2)] on an ASCII digest. *)
Definition digest_prefix (digest : string) : string :=
  match digest with
  | String a (String b _) => String a (String b "")
  | _ => "00"
  end.

(** [src crates/aros-evidence/src/cas.rs 34-37 ContentAddressedStore::blob_path] *)
Definition blob_path cas (digest : string) : string :=
  let prefix := digest_prefix digest in
  path_join (path_join (path_join (root cas) "blake3") prefix) digest.

(** [Path::with_extension]: the file name loses its extension and gets the new one. *)
Definition with_extension (path ext : string) : string :=
  let '(dir, name) :=
    match rsplit_once "/" path with
    | Some (d, n) => (d +:+ "/", n)
    | None => ("", path)
    end in
  let stem :=
    match rsplit_once "." name with
    | Some (st, _) => if is_empty st then name else st
    | None => name
    end in
  dir +:+ stem +:+ "." +:+ ext.

(** The state after the write protocol, and whether it succeeded.
    [src crates/aros-evidence/src/cas.rs 46-57 ContentAddressedStore::put] *)
Definition write_blob (fault : option put_fault) (uuid : string) fs (path bytes : string) :
    files * result CasError unit :=
  if bool_decide (fault = Some FCreateDir) then (fs, Err Io)
  else if bool_decide (is_Some (fs !! path)) then (fs, Ok ())
  else
    let tmp := with_extension path ("tmp-" +:+ uuid) in
    match fault with
    | Some FCreate => (fs, Err Io)
    | Some (FWrite n) => (<[tmp := String.substring 0 n bytes]> fs, Err Io)
    | Some FSync => (<[tmp := bytes]> fs, Err Io)
    | Some FRename => (<[tmp := bytes]> fs, Err Io)
    | _ => (<[path := bytes]> (delete tmp (<[tmp := bytes]> fs)), Ok ())
    end.

(** The identifier of the artifact and the suffix of the temporary file are
    fresh values, given as arguments.
    [src crates/aros-evidence/src/cas.rs 39-65 ContentAddressedStore::put] *)
Definition put cas (fault : option put_fault) (uuid : string) (id : ArtifactId) fs
    (bytes media : string) : files * result CasError EvidenceArtifact :=
  if (max_bytes cas <? N.of_nat (str_len bytes))%N then (fs, Err (TooLarge (max_bytes cas)))
  else
    let digest := blake3_hex bytes in
    let sha := sha256_hex bytes in
    let path := blob_path cas digest in
    match write_blob fault uuid fs path bytes with
    | (fs', Err e) => (fs', Err e)
    | (fs', Ok _) =>
      (fs', Ok {| artifact_id := id; digest_blake3 := digest; digest_sha256 := sha;
                  media_type := media; byte_len := N.of_nat (str_len bytes) |})
    end.

(** [src crates/aros-evidence/src/cas.rs 67-75 ContentAddressedStore::get] *)
Definition get cas fs (digest : string) : result CasError string :=
  bytes ← ok_or (fs !! blob_path cas digest) (NotFound digest);
  let actual := blake3_hex bytes in
  if negb (bool_decide (actual = digest)) then Err DigestMismatch else Ok bytes.

(** [src crates/aros-evidence/src/cas.rs 77-79 ContentAddressedStore::exists] *)
Definition exists_ cas fs (digest : string) : bool :=
  bool_decide (is_Some (fs !! blob_path cas digest)).

(** ** Invariant *)

Definition hex_digit (c : ascii) : bool :=
  is_ascii_digit c || ((97 <=? byte_val c)%N && (byte_val c <=? 102)%N).

(** A digest as [to_hex] prints it. *)
Definition is_digest (d : string) : bool := (String.length d =? 64)%nat && all_bytes hex_digit d.

(** Every blob holds bytes of the digest it is filed under. *)
Definition cas_wf cas fs : Prop :=
  ∀ d bytes, is_digest d = true → fs !! blob_path cas d = Some bytes → blake3_hex bytes = d.

End Operations.

(** Documented shape of [blake3::Hash::to_hex]: 64 lower-case hexadecimal digits. *)
Class HashLaws (H : HashLib) : Prop := {
  blake3_hex_digest : ∀ bytes, is_digest (blake3_hex bytes) = true;
}.

Section Laws.
Context `{H : HashLib, !HashLaws H}.
Implicit Types (cas : ContentAddressedStore) (fs : files).

Lemma digest_shape d :
  is_digest d = true →
  ∃ a b t, d = String a (String b t) ∧ contains_byte "/" d = false ∧ contains_byte "." d = false ∧
    starts_with d "/" = false.
Proof.
  unfold is_digest. intros Hd. split_guards.
  assert (contains_byte "/" d = false) by (by apply (all_bytes_contains hex_digit)).
  assert (contains_byte "." d = false) by (by apply (all_bytes_contains hex_digit)).
  destruct d as [|a [|b t]]; [done..|]. exists a, b, t. split_and!; try done.
  by apply (starts_with_missing_byte "/").
Qed.

(** The path of a proper digest: no component is absolute. *)
Lemma blob_path_digest cas d :
  is_digest d = true →
  blob_path cas d = (root cas +:+ "/blake3/" +:+ digest_prefix d) +:+ String "/" d.
Proof.
  intros Hd. destruct (digest_shape d Hd) as (a & b & t & -> & Hs & _ & Hst).
  unfold blob_path, path_join, digest_prefix. rewrite Hst.
  assert (starts_with (String a (String b "")) "/" = false) as Hp.
  { apply (starts_with_missing_byte "/"); [|done]. cbn in Hs |- *.
    by destruct (Ascii.eqb a "/"), (Ascii.eqb b "/"). }
  rewrite Hp. change (starts_with "blake3" "/") with false. cbn beta iota.
  by rewrite !sapp_assoc.
Qed.

Lemma blob_path_inj cas d d' :
  is_digest d = true → is_digest d' = true → blob_path cas d = blob_path cas d' → d = d'.
Proof.
  intros Hd Hd'. rewrite !blob_path_digest by done. intros E.
  destruct (digest_shape d Hd) as (? & ? & ? & _ & Hs & _).
  destruct (digest_shape d' Hd') as (? & ? & ? & _ & Hs' & _).
  apply (f_equal (rsplit_once "/")) in E. rewrite !rsplit_once_app in E by done. congruence.
Qed.

(** The temporary file of a blob is not the blob of any digest. *)
Lemma tmp_not_blob cas d ext d' :
  is_digest d = true → contains_byte "/" ext = false → is_digest d' = true →
  with_extension (blob_path cas d) ext ≠ blob_path cas d'.
Proof.
  intros Hd He Hd'. rewrite !blob_path_digest by done.
  destruct (digest_shape d Hd) as (? & ? & ? & _ & Hs & Hdot & _).
  destruct (digest_shape d' Hd') as (? & ? & ? & _ & Hs' & Hdot' & _).
  unfold with_extension. rewrite rsplit_once_app by done. rewrite (rsplit_once_none _ d) by done.
  set (dir := root cas +:+ "/blake3/" +:+ digest_prefix d).
  assert ((dir +:+ "/") +:+ d +:+ "." +:+ ext = dir +:+ String "/" (d +:+ String "." ext)) as ->
    by (by autorewrite with str).
  intros E. apply (f_equal (rsplit_once "/")) in E. rewrite !rsplit_once_app in E; [|done|].
  - injection E as _ <-. by rewrite contains_byte_app, orb_true_r in Hdot'.
  - rewrite contains_byte_app, Hs. exact He.
Qed.

(** Whatever step of a [put] fails, every blob of the store still holds
    bytes of its own digest: a crash never leaves a torn blob in place. *)
Lemma put_wf_lemma cas fault uuid id fs bytes media :
  contains_byte "/" uuid = false → cas_wf cas fs →
  cas_wf cas (put cas fault uuid id fs bytes media).1.
Proof.
  intros Hu Hwf. unfold put. destruct (_ <? _)%N; [done|].
  assert (cas_wf cas (write_blob fault uuid fs (blob_path cas (blake3_hex bytes)) bytes).1) as Hw.
  2:{ by destruct (write_blob _ _ _ _ _) as [fs' []]. }
  pose proof (blake3_hex_digest bytes) as Hdig.
  set (tmp := with_extension (blob_path cas (blake3_hex bytes)) ("tmp-" +:+ uuid)).
  assert (Htmp : ∀ b fs, cas_wf cas fs → cas_wf cas (<[tmp := b]> fs)).
  { intros b fs' Hfs d c Hd. rewrite lookup_insert_ne; [by apply Hfs|].
    apply tmp_not_blob; [done| |done]. by rewrite contains_byte_app, Hu. }
  unfold write_blob. case_bool_decide; [done|]. case_bool_decide; [done|].
  assert (Hdone : cas_wf cas
    (<[blob_path cas (blake3_hex bytes) := bytes]> (delete tmp (<[tmp := bytes]> fs)))).
  { intros d c Hd. destruct (decide (d = blake3_hex bytes)) as [->|Hne].
    - rewrite lookup_insert_eq. by intros [= <-].
    - rewrite lookup_insert_ne by (intros E; by apply blob_path_inj in E).
      rewrite lookup_delete_Some. intros [_ Hc]. by apply (Htmp bytes _ Hwf). }
  destruct fault as [[]|]; cbn [fst]; auto.
Qed.

(** A [put] never changes a blob that is already there. *)
Lemma put_keeps cas fault uuid id fs bytes media d b :
  contains_byte "/" uuid = false → is_digest d = true → fs !! blob_path cas d = Some b →
  (put cas fault uuid id fs bytes media).1 !! blob_path cas d = Some b.
Proof.
  intros Hu Hd Hb. unfold put. destruct (_ <? _)%N; [done|].
  assert ((write_blob fault uuid fs (blob_path cas (blake3_hex bytes)) bytes).1
    !! blob_path cas d = Some b) as Hw.
  2:{ by destruct (write_blob _ _ _ _ _) as [fs' []]. }
  assert (Htmp : with_extension (blob_path cas (blake3_hex bytes)) ("tmp-" +:+ uuid) ≠ blob_path cas d).
  { apply tmp_not_blob; [apply blake3_hex_digest| |done]. by rewrite contains_byte_app, Hu. }
  unfold write_blob. case_bool_decide; [done|]. case_bool_decide as Hn; [done|].
  assert (blob_path cas (blake3_hex bytes) ≠ blob_path cas d) by (intros E; rewrite E in Hn; eauto).
  destruct fault as [[]|]; cbn [fst]; simplify_map_eq; try done.
Qed.

Lemma put_lookup cas fault uuid id fs bytes media fs' art :
  put cas fault uuid id fs bytes media = (fs', Ok art) →
  digest_blake3 art = blake3_hex bytes ∧
  ∃ stored, fs' !! blob_path cas (blake3_hex bytes) = Some stored.
Proof.
  unfold put. destruct (_ <? _)%N; [done|].
  destruct (write_blob _ _ _ _ _) as [fs1 [[]|]] eqn:Ew; intros; simplify_eq/=. split; [done|].
  unfold write_blob in Ew. repeat case_bool_decide; simplify_eq.
  - naive_solver.
  - destruct fault as [[]|]; simplify_eq; exists bytes; by rewrite lookup_insert_eq.
Qed.

Lemma get_Ok cas fs d b :
  cas_wf cas fs → is_digest d = true → fs !! blob_path cas d = Some b → get cas fs d = Ok b.
Proof.
  intros Hwf Hd Hb. unfold get. rewrite Hb. cbn. by rewrite bool_decide_eq_true_2 by (by apply Hwf).
Qed.

(** C22: whatever step of a [put] fails, the store keeps its blobs: every blob
    still holds bytes of its own digest (a crash never leaves a torn blob in
    place), and no blob that was there is lost or changed. *)
Theorem put_crash_safe cas fault uuid id fs bytes media :
  contains_byte "/" uuid = false → cas_wf cas fs →
  cas_wf cas (put cas fault uuid id fs bytes media).1 ∧
  ∀ d b, is_digest d = true → fs !! blob_path cas d = Some b →
    (put cas fault uuid id fs bytes media).1 !! blob_path cas d = Some b.
Proof. intros Hu Hwf. split; [by apply put_wf_lemma|]. intros. by apply put_keeps. Qed.

(** A successful [put] can be read back: [get] on the returned digest
    yields exactly the bytes, unless the store already held other bytes of the
    same digest. *)
Theorem put_get cas fault uuid id fs fs' bytes media art :
  cas_wf cas fs → put cas fault uuid id fs bytes media = (fs', Ok art) →
  digest_blake3 art = blake3_hex bytes ∧ byte_len art = N.of_nat (str_len bytes) ∧
  ∃ stored, get cas fs' (digest_blake3 art) = Ok stored ∧
    blake3_hex stored = blake3_hex bytes ∧
    (stored = bytes ∨ fs !! blob_path cas (blake3_hex bytes) = Some stored).
Proof.
  intros Hwf Hput. unfold put in Hput. destruct (_ <? _)%N; [done|].
  pose proof (blake3_hex_digest bytes) as Hdig.
  set (path := blob_path cas (blake3_hex bytes)) in *.
  destruct (write_blob fault uuid fs path bytes) as [fs1 [[]|]] eqn:Ew; simplify_eq/=.
  split_and!; [done..|]. unfold get. fold path. unfold write_blob in Ew.
  case_bool_decide as E1; simplify_eq. case_bool_decide as E2; simplify_eq.
  - destruct E2 as [b Hb]. rewrite Hb. cbn. pose proof (Hwf _ _ Hdig Hb) as Hd.
    rewrite bool_decide_eq_true_2 by done. exists b. eauto.
  - destruct fault as [[]|]; simplify_eq; (exists bytes; rewrite lookup_insert_eq; cbn;
      rewrite bool_decide_eq_true_2 by done; eauto).
Qed.

Lemma get_digest cas fs d bytes : get cas fs d = Ok bytes → blake3_hex bytes = d.
Proof.
  unfold get. intros (b & Hb & Hd)%bind_Ok. by case_bool_decide; simplify_eq/=.
Qed.

End Laws.
End Cas.
