(* ===== verification/Authority.v ===== *)
(** * Evidence authorities (crate [aros-evidence], [authority.rs])

    The [EvidenceAuthority] trait, its builtin implementation, and the adapter
    that asks a loopback service. The TCP exchange is a parameter: what was
    sent to a port gives the text received, or an error. *)

From S2P Require Import Prelude RustStr Net Json Types.

Module Authority.

(** [src crates/aros-evidence/src/authority.rs 9-12 EvidenceAuthority] *)
Class EvidenceAuthority (A : Type) := {
  name : A → string;
  adjudicate : A → EvidenceBundle → VerifierRun → AuthorityResult;
}.

Inductive BuiltinEvidenceAuthority := Builtin.

(** [src crates/aros-evidence/src/authority.rs 21-37 BuiltinEvidenceAuthority::adjudicate] *)
Definition builtin_adjudicate (bundle : EvidenceBundle) (verifier : VerifierRun) :
    AuthorityResult :=
  if bool_decide (bundle_artifact_digests bundle = []) then ArInsufficientEvidence
  else
    match verifier_result verifier with
    | ArVerified =>
      if level_ge (bundle_level bundle) E4IndependentReproduction &&
         match verifier_mode verifier with ReproduceCandidate | Blindish => true end
      then ArVerified else verifier_result verifier
    | other => other
    end.

#[export] Instance builtin_authority : EvidenceAuthority BuiltinEvidenceAuthority := {
  name _ := "builtin";
  adjudicate _ := builtin_adjudicate;
}.

(** The verdict of the builtin authority is the verifier's own as soon as one
    artifact exists: the evidence level of the bundle plays no part in it. *)
Lemma builtin_adjudicate_spec bundle verifier :
  builtin_adjudicate bundle verifier =
    if bool_decide (bundle_artifact_digests bundle = []) then ArInsufficientEvidence
    else verifier_result verifier.
Proof.
  unfold builtin_adjudicate. case_bool_decide; [done|].
  destruct (verifier_result verifier); try done. by destruct (_ && _).
Qed.

(** ** The remote adapter *)

(** [src crates/aros-evidence/src/authority.rs 40-42 TheustadAdapter] *)
Record TheustadAdapter := mkTheustad { endpoint : option string }.

(** [src crates/aros-evidence/src/authority.rs 45-47 TheustadAdapter::unavailable] *)
Definition unavailable : TheustadAdapter := mkTheustad None.

(** The value of the environment variable is an argument.
    [src crates/aros-evidence/src/authority.rs 49-56 TheustadAdapter::from_env] *)
Definition from_env (value : option string) : TheustadAdapter :=
  mkTheustad (v ← value; let v := trim v in if negb (is_empty v) then Some v else None).

(** [src crates/aros-evidence/src/authority.rs 58-60 TheustadAdapter::is_available] *)
Definition is_available (a : TheustadAdapter) : bool := bool_decide (is_Some (endpoint a)).

Definition crlf : string := String carriage_return (String newline "").

Section Remote.
Context `{J : JsonLib, !Serialize EvidenceBundle, !Serialize AuthorityResult,
          !Serialize VerifierMode, !Deserialize AuthorityResult}.

(** One TCP exchange with a loopback port: the bytes sent, the text received. *)
Variable exchange : N → string → result string string.

(** [src crates/aros-evidence/src/authority.rs 107-132 post_loopback_json] *)
Definition loopback_target (url : string) : result string (string * N * string) :=
  rest ← ok_or (strip_prefix "http://" url) "THEUSTAD URL must be http:// loopback in v0.1";
  let '(hostport, path_owned) :=
    match split_once "/" rest with
    | Some (host, path) => if is_empty path then (host, "/") else (host, "/" +:+ path)
    | None => (rest, "/")
    end in
  '(host, port) ←
    match rsplit_once ":" hostport with
    | Some (host, port) =>
      p ← ok_or (parse_uint u16_max port) "invalid THEUSTAD port"; Ok (host, p)
    | None => Ok (hostport, 80%N)
    end;
  if negb (String.eqb host "127.0.0.1") && negb (String.eqb host "localhost") &&
     negb (String.eqb host "[::1]") && negb (String.eqb host "::1")
  then Err "THEUSTAD URL must be loopback in v0.1"
  else if String.eqb host "127.0.0.1" || String.eqb host "localhost" then Ok (host, port, path_owned)
  else Err "IPv6 THEUSTAD loopback transport is not implemented in v0.1".

(** [src crates/aros-evidence/src/authority.rs 156-164 post_loopback_json] *)
Definition parse_http_reply (raw : string) : N * string :=
  let '(head, response_body) := default (raw, "") (split_once_str (crlf +:+ crlf) raw) in
  let status := default 0%N (line ← lines head !! 0; word ← split_whitespace line !! 1;
                             parse_uint u16_max word) in
  (status, response_body).

(** [src crates/aros-evidence/src/authority.rs 106-165 post_loopback_json] *)
Definition post_loopback_json (url : string) (body : Value) : result string (N * string) :=
  '(host, port, path_owned) ← loopback_target url;
  let bytes := json_to_vec body in
  let request :=
    "POST " +:+ path_owned +:+ " HTTP/1.1" +:+ crlf +:+ "Host: " +:+ host +:+ ":" +:+
    display_N port +:+ crlf +:+ "Content-Type: application/json" +:+ crlf +:+
    "Content-Length: " +:+ display_N (N.of_nat (str_len bytes)) +:+ crlf +:+
    "Connection: close" +:+ crlf +:+ crlf in
  raw ← exchange port (request +:+ bytes);
  Ok (parse_http_reply raw).

(** [Value::get] with a string key. *)
Definition value_get (v : Value) (k : string) : option Value :=
  match v with
  | JObject fs => field_get k fs
  | _ => None
  end.

(** [src crates/aros-evidence/src/authority.rs 93-104 parse_authority_body] *)
Definition parse_authority_body (body : string) : option AuthorityResult :=
  match json_from_slice (trim body) ≫= from_value with
  | Some value => Some value
  | None =>
    value ← json_from_slice body;
    let token :=
      match value_get value "result" with
      | Some t => t
      | None => default value (value_get value "authority_result")
      end in
    from_value token
  end.

(** The derived serializers of plain records and unit variants do not fail. *)
Definition json_of `{Serialize T} (x : T) : Value := default JNull (ok (to_value x)).

(** [src crates/aros-evidence/src/authority.rs 62-77 TheustadAdapter::query_remote] *)
Definition query_remote (a : TheustadAdapter) (bundle : EvidenceBundle) (verifier : VerifierRun) :
    AuthorityResult :=
  match endpoint a with
  | None => builtin_adjudicate bundle verifier
  | Some url =>
    let payload := JObject [("bundle", json_of bundle);
                            ("verifier_mode", json_of (verifier_mode verifier));
                            ("verifier_result", json_of (verifier_result verifier))] in
    match post_loopback_json url payload with
    | Ok (status, body) =>
      if (200 <=? status)%N && (status <? 300)%N
      then default ArInsufficientEvidence (parse_authority_body body)
      else ArInsufficientEvidence
    | Err _ => ArInsufficientEvidence
    end
  end.

(** [src crates/aros-evidence/src/authority.rs 85-90 TheustadAdapter::adjudicate] *)
Definition theustad_adjudicate (a : TheustadAdapter) (bundle : EvidenceBundle)
    (verifier : VerifierRun) : AuthorityResult :=
  if negb (is_available a) then builtin_adjudicate bundle verifier
  else query_remote a bundle verifier.

#[local] Instance theustad_authority : EvidenceAuthority TheustadAdapter := {
  name _ := "theustad";
  adjudicate := theustad_adjudicate;
}.

(** The only destination the adapter ever contacts is the IPv4 loopback. *)
Lemma loopback_target_host url host port path :
  loopback_target url = Ok (host, port, path) →
  (host = "127.0.0.1" ∨ host = "localhost") ∧ (∃ p, path = "/" +:+ p).
Proof.
  unfold loopback_target. intros (rest & _ & H)%bind_Ok.
  assert (Hpath : ∃ h p, (match split_once "/" rest with
    | Some (host, path) => if is_empty path then (host, "/") else (host, "/" +:+ path)
    | None => (rest, "/") end) = (h, "/" +:+ p)).
  { destruct (split_once "/" rest) as [[h p]|]; [|by exists rest, ""].
    destruct (is_empty p) eqn:E; [by exists h, ""|by exists h, p]. }
  destruct Hpath as (hp & p & E). rewrite E in H.
  apply bind_Ok in H as ([h q] & _ & H).
  destruct (_ && _); [done|]. destruct (_ || _) eqn:Eh; simplify_eq.
  split; [|by eexists]. apply orb_true_iff in Eh as [?%String.eqb_eq|?%String.eqb_eq]; auto.
Qed.

(** A configured remote authority can only vouch for a finding by an
    explicit 2xx answer from the loopback service that parses to the verdict;
    every other outcome (bad URL, transport failure, status, body) is
    insufficient evidence. *)
Theorem remote_authority_fails_closed a url bundle verifier r :
  endpoint a = Some url → theustad_adjudicate a bundle verifier = r →
  r = ArInsufficientEvidence ∨
  ∃ host port path raw request body status,
    loopback_target url = Ok (host, port, path) ∧
    (host = "127.0.0.1" ∨ host = "localhost") ∧
    exchange port request = Ok raw ∧ parse_http_reply raw = (status, body) ∧
    (200 <= status < 300)%N ∧ parse_authority_body body = Some r.
Proof.
  intros Hurl <-. unfold theustad_adjudicate, is_available, query_remote. rewrite Hurl. cbn.
  destruct (post_loopback_json _ _) as [[status body]|] eqn:Hp; [|by left].
  destruct ((200 <=? status)%N && (status <? 300)%N) eqn:Hs; [|by left].
  destruct (parse_authority_body body) as [r|] eqn:Hb; [|by left]. right.
  unfold post_loopback_json in Hp. apply bind_Ok in Hp as ([[host port] path] & Ht & Hp).
  apply bind_Ok in Hp as (raw & Hx & [= Hr]). split_guards.
  destruct (loopback_target_host _ _ _ _ Ht) as [Hh _].
  eexists host, port, path, raw, _, body, status. split_and!; try done.
  - by apply N.leb_le.
  - by apply N.ltb_lt.
Qed.

End Remote.
End Authority.
