(* ===== verification/Store.v ===== *)
(** * The persistent store (crate [aros-store])

    The SQLite database as a record of tables in row order. Statements follow
    SQL: a primary-key conflict is an error, [INSERT OR REPLACE] drops the old
    row and adds a new one last, a transaction either commits or leaves the
    database as it was. Any statement of a write may fail; a read of a healthy
    database does not (a failing read would return [Sqlite] and change nothing). *)

From S2P Require Import Prelude RustStr Net Json Types Ledger.
Import Ledger.

Module Store.

(** [src crates/aros-store/src/lib.rs 10-20 StoreError] *)
Inductive StoreError :=
| Sqlite
| StJson
| StNotFound (what : string)
| StLedger (message : string).

(** [serde_json::to_string] and [from_str] at a type, with their round trip. *)
Class JsonText (T : Type) := {
  to_text : T → option string;
  from_text : string → option T;
}.
Class JsonTextLaws (T : Type) `{JsonText T} : Prop := {
  to_text_total : ∀ x : T, is_Some (to_text x);
  from_to_text : ∀ (x : T) s, to_text x = Some s → from_text s = Some x;
}.

Record ledger_row := mkLedgerRow {
  row_campaign : string;
  row_idx : Z;
  row_event_hash : string;
  row_previous_hash : string;
  row_payload_digest : string;
  row_payload : string;
}.

Record graph_row := mkGraphRow {
  grow_id : string;
  grow_campaign : string;
  grow_payload : string;
}.

(** The tables created by [open]; [records] is keyed by kind and id.
    [src crates/aros-store/src/lib.rs 27-78 Store::open] *)
Record Db := mkDb {
  campaigns : list (string * string);
  ledger_events : list ledger_row;
  graph_nodes : list graph_row;
  graph_edges : list graph_row;
  records : list (string * string * string);
}.

Definition Db_empty : Db := mkDb [] [] [] [] [].

Definition set_campaigns (db : Db) x := mkDb x (ledger_events db) (graph_nodes db) (graph_edges db) (records db).
Definition set_ledger_events (db : Db) x := mkDb (campaigns db) x (graph_nodes db) (graph_edges db) (records db).
Definition set_graph_nodes (db : Db) x := mkDb (campaigns db) (ledger_events db) x (graph_edges db) (records db).
Definition set_graph_edges (db : Db) x := mkDb (campaigns db) (ledger_events db) (graph_nodes db) x (records db).
Definition set_records (db : Db) x := mkDb (campaigns db) (ledger_events db) (graph_nodes db) (graph_edges db) x.

(** [u64 as i64]. *)
Definition as_i64 (n : N) : Z :=
  if (n <? 2 ^ 63)%N then Z.of_N n else (Z.of_N n - 2 ^ 64)%Z.

(** ** Statements and transactions *)

(** [INSERT OR REPLACE] on a table with key function [key]. *)
Definition upsert {A K} `{EqDecision K} (key : A → K) (row : A) (rows : list A) : list A :=
  filter (λ r, key r ≠ key row) rows ++ [row].

(** [INSERT] on a table with primary key [key]. *)
Definition insert_unique {A K} `{EqDecision K} (key : A → K) (row : A) (rows : list A) :
    result StoreError (list A) :=
  if existsb (λ r, bool_decide (key r = key row)) rows then Err Sqlite else Ok (rows ++ [row]).

Definition statement : Type := Db → result StoreError Db.

(** Statement number [n], [n+1], ... in order; [fails k] makes statement [k] fail. *)
Fixpoint run_statements (fails : nat → bool) (n : nat) (stmts : list statement) (db : Db) :
    result StoreError Db :=
  match stmts with
  | [] => Ok db
  | s :: stmts =>
    if fails n then Err Sqlite else db ← s db; run_statements fails (Datatypes.S n) stmts db
  end.

(** [unchecked_transaction], the statements, [commit]; an early return drops
    the transaction, which rolls back. *)
Definition transaction (fails : nat → bool) (stmts : list statement) (db : Db) :
    Db * result StoreError unit :=
  match run_statements fails 0 ((λ db, Ok db) :: stmts ++ [λ db, Ok db]) db with
  | Ok db' => (db', Ok ())
  | Err e => (db, Err e)
  end.

Definition idx_le (r r' : ledger_row) : Prop := (row_idx r <= row_idx r')%Z.
#[export] Instance idx_le_dec r r' : Decision (idx_le r r').
Proof. unfold idx_le. apply _. Defined.
#[export] Instance idx_le_total : Total idx_le.
Proof. intros r r'. unfold idx_le. lia. Qed.
#[export] Instance idx_le_trans : Transitive idx_le.
Proof. intros ???. unfold idx_le. lia. Qed.

Section Operations.
Context `{U : UuidLib, J : JsonLib, HashLib, !Serialize EventRecord,
  !JsonText Campaign, !JsonText LedgerEntry, !JsonText GraphNode, !JsonText GraphEdge}.
(** [Display] of a ledger error. *)
Variable ledger_error_display : LedgerError → string.

(** [src crates/aros-store/src/lib.rs 80-87 Store::put_campaign] *)
Definition put_campaign (fail : bool) (campaign : Campaign) (db : Db) : result StoreError Db :=
  payload ← ok_or (to_text campaign) StJson;
  if fail then Err Sqlite
  else Ok (set_campaigns db (upsert fst (id_to_string (campaign_id campaign), payload) (campaigns db))).

(** [src crates/aros-store/src/lib.rs 89-99 Store::get_campaign] *)
Definition get_campaign (id : CampaignId) (db : Db) : result StoreError Campaign :=
  row ← ok_or (list_find (λ r, r.1 = id_to_string id) (campaigns db))
          (StNotFound (id_to_string id));
  ok_or (from_text row.2.2) StJson.

Definition ledger_key (r : ledger_row) : string * Z := (row_campaign r, row_idx r).

(** The row [persist_ledger_for] and [append_entry_for] write for an entry. *)
Definition ledger_row_of (campaign : string) (entry : LedgerEntry) (payload : string) : ledger_row :=
  {| row_campaign := campaign; row_idx := as_i64 (index entry);
     row_event_hash := event_hash entry; row_previous_hash := previous_hash entry;
     row_payload_digest := payload_digest entry; row_payload := payload |}.

(** [src crates/aros-store/src/lib.rs 125-138 Store::persist_ledger_for] *)
Definition insert_entry (campaign : string) (entry : LedgerEntry) : statement := λ db,
  payload ← ok_or (to_text entry) StJson;
  rows ← insert_unique ledger_key (ledger_row_of campaign entry payload) (ledger_events db);
  Ok (set_ledger_events db rows).

(** [src crates/aros-store/src/lib.rs 120-123 Store::persist_ledger_for] *)
Definition delete_ledger (campaign : string) : statement := λ db,
  Ok (set_ledger_events db (filter (λ r, row_campaign r ≠ campaign) (ledger_events db))).

(** [src crates/aros-store/src/lib.rs 110-142 Store::persist_ledger_for] *)
Definition persist_ledger_for (fails : nat → bool) (cid : CampaignId) (ledger : EventLedger)
    (db : Db) : Db * result StoreError unit :=
  match verify ledger with
  | Err e => (db, Err (StLedger (ledger_error_display e)))
  | Ok _ =>
    let campaign := id_to_string cid in
    transaction fails (delete_ledger campaign :: (insert_entry campaign <$> ledger)) db
  end.

(** [src crates/aros-store/src/lib.rs 101-108 Store::persist_ledger] *)
Definition persist_ledger (fails : nat → bool) (ledger : EventLedger) (db : Db) :
    Db * result StoreError unit :=
  match omap entry_campaign_id ledger with
  | [] => (db, Err (StLedger "cannot infer campaign id from ledger"))
  | cid :: _ => persist_ledger_for fails cid ledger db
  end.

(** [src crates/aros-store/src/lib.rs 144-164 Store::append_entry_for] *)
Definition append_entry_for (fail : bool) (cid : CampaignId) (entry : LedgerEntry) (db : Db) :
    result StoreError Db :=
  payload ← ok_or (to_text entry) StJson;
  if fail then Err Sqlite
  else
    rows ← insert_unique ledger_key (ledger_row_of (id_to_string cid) entry payload)
             (ledger_events db);
    Ok (set_ledger_events db rows).

(** [src crates/aros-store/src/lib.rs 166-171 Store::append_entry] *)
Definition append_entry (fail : bool) (entry : LedgerEntry) (db : Db) : result StoreError Db :=
  cid ← ok_or (entry_campaign_id entry) (StLedger "entry has no campaign id");
  append_entry_for fail cid entry db.

(** [SELECT ... WHERE campaign_id = ?1 ORDER BY idx ASC] *)
Definition select_ledger (campaign : string) (db : Db) : list ledger_row :=
  merge_sort idx_le (filter (λ r, row_campaign r = campaign) (ledger_events db)).

(** [src crates/aros-store/src/lib.rs 188-199 Store::load_ledger_for] *)
Definition load_row (r : ledger_row) : result StoreError LedgerEntry :=
  entry ← ok_or (from_text (row_payload r)) StJson;
  if negb (bool_decide (event_hash entry = row_event_hash r)) ||
     negb (bool_decide (previous_hash entry = row_previous_hash r)) ||
     negb (bool_decide (payload_digest entry = row_payload_digest r))
  then Err (StLedger ("persisted ledger columns disagree at index " +:+ display_N (index entry)))
  else Ok entry.

(** [src crates/aros-store/src/lib.rs 173-206 Store::load_ledger_for] *)
Definition load_ledger_for (cid : CampaignId) (db : Db) : result StoreError EventLedger :=
  stored ← try_map load_row (select_ledger (id_to_string cid) db);
  if bool_decide (stored = []) then Err (StNotFound ("ledger:" +:+ id_to_string cid))
  else map_err (λ e, StLedger (ledger_error_display e)) (from_stored_entries stored).

(** [src crates/aros-store/src/lib.rs 208-223 Store::load_ledger] *)
Definition load_ledger (db : Db) : result StoreError EventLedger :=
  let ids := sort_strings (remove_dups (row_campaign <$> ledger_events db)) in
  match ids with
  | [id] => cid ← ok_or (id_from_str id) StJson; load_ledger_for cid db
  | _ => Err (StLedger ("load_ledger requires exactly one persisted campaign; found " +:+
                        display_N (N.of_nat (length ids))))
  end.

(** [src crates/aros-store/src/lib.rs 225-232 Store::put_graph_node] *)
Definition put_graph_node (fail : bool) (node : GraphNode) (db : Db) : result StoreError Db :=
  payload ← ok_or (to_text node) StJson;
  if fail then Err Sqlite
  else Ok (set_graph_nodes db
         (upsert grow_id (mkGraphRow (id_to_string (node_id node))
                            (id_to_string (node_campaign_id node)) payload) (graph_nodes db))).

(** [src crates/aros-store/src/lib.rs 234-241 Store::put_graph_edge] *)
Definition put_graph_edge (fail : bool) (edge : GraphEdge) (db : Db) : result StoreError Db :=
  payload ← ok_or (to_text edge) StJson;
  if fail then Err Sqlite
  else Ok (set_graph_edges db
         (upsert grow_id (mkGraphRow (id_to_string (edge_id edge))
                            (id_to_string (edge_campaign_id edge)) payload) (graph_edges db))).

(** [src crates/aros-store/src/lib.rs 259-264 Store::persist_graph] *)
Definition insert_node (campaign : string) (node : GraphNode) : statement := λ db,
  payload ← ok_or (to_text node) StJson;
  rows ← insert_unique grow_id (mkGraphRow (id_to_string (node_id node)) campaign payload)
           (graph_nodes db);
  Ok (set_graph_nodes db rows).

(** [src crates/aros-store/src/lib.rs 265-270 Store::persist_graph] *)
Definition insert_edge (campaign : string) (edge : GraphEdge) : statement := λ db,
  payload ← ok_or (to_text edge) StJson;
  rows ← insert_unique grow_id (mkGraphRow (id_to_string (edge_id edge)) campaign payload)
           (graph_edges db);
  Ok (set_graph_edges db rows).

(** [src crates/aros-store/src/lib.rs 243-273 Store::persist_graph] *)
Definition persist_graph (fails : nat → bool) (cid : CampaignId) (nodes : list GraphNode)
    (edges : list GraphEdge) (db : Db) : Db * result StoreError unit :=
  let campaign := id_to_string cid in
  let keep := filter (λ r, grow_campaign r ≠ campaign) in
  transaction fails
    ((λ db, Ok (set_graph_edges db (keep (graph_edges db)))) ::
     (λ db, Ok (set_graph_nodes db (keep (graph_nodes db)))) ::
     (insert_node campaign <$> nodes) ++ (insert_edge campaign <$> edges)) db.

(** [src crates/aros-store/src/lib.rs 275-287 Store::load_graph_nodes] *)
Definition load_graph_nodes (cid : CampaignId) (db : Db) : result StoreError (list GraphNode) :=
  try_map (λ r, ok_or (from_text (grow_payload r)) StJson)
    (filter (λ r, grow_campaign r = id_to_string cid) (graph_nodes db)).

(** [src crates/aros-store/src/lib.rs 289-301 Store::load_graph_edges] *)
Definition load_graph_edges (cid : CampaignId) (db : Db) : result StoreError (list GraphEdge) :=
  try_map (λ r, ok_or (from_text (grow_payload r)) StJson)
    (filter (λ r, grow_campaign r = id_to_string cid) (graph_edges db)).

(** [src crates/aros-store/src/lib.rs 303-309 Store::put_record] *)
Definition put_record (fail : bool) (kind id payload : string) (db : Db) : result StoreError Db :=
  if fail then Err Sqlite
  else Ok (set_records db (upsert fst (kind, id, payload) (records db))).

(** [src crates/aros-store/src/lib.rs 311-319 Store::get_record] *)
Definition get_record (kind id : string) (db : Db) : result StoreError string :=
  row ← ok_or (list_find (λ r, r.1 = (kind, id)) (records db))
          (StNotFound (kind +:+ ":" +:+ id));
  Ok row.2.2.

(** [src crates/aros-store/src/lib.rs 321-333 Store::list_records] *)
Definition list_records (kind : string) (db : Db) : list (string * string) :=
  merge_sort (λ r r' : string * string, String.le r.1 r'.1)
    ((λ r, (r.1.2, r.2)) <$> filter (λ r, r.1.1 = kind) (records db)).

(** [src crates/aros-store/src/lib.rs 335-343 Store::list_campaigns] *)
Definition list_campaigns (db : Db) : result StoreError (list Campaign) :=
  try_map (λ r, ok_or (from_text r.2) StJson) (campaigns db).

End Operations.

(** ** Transactions *)

Lemma run_statements_app fails n ss ss' db :
  run_statements fails n (ss ++ ss') db =
  (db ← run_statements fails n ss db; run_statements fails (n + length ss) ss' db).
Proof.
  revert n db. induction ss as [|s ss IH]; intros n db; simpl; [by rewrite Nat.add_0_r|].
  destruct (fails n); [done|]. destruct (s db) as [db'|]; [|done]. cbn.
  rewrite IH. by rewrite Nat.add_succ_r.
Qed.

(** An error leaves the database as it was. *)
Lemma transaction_atomic fails ss db db' e :
  transaction fails ss db = (db', Err e) → db' = db.
Proof. unfold transaction. destruct (run_statements _ _ _ _); congruence. Qed.

(** Without faults a transaction runs its statements in order. *)
Lemma transaction_Ok ss db db' :
  run_statements (λ _, false) 0 ss db = Ok db' → transaction (λ _, false) ss db = (db', Ok ()).
Proof.
  intros Hr. unfold transaction.
  assert (Hn : ∀ n ss db, run_statements (λ _, false) n ss db = run_statements (λ _, false) 0 ss db).
  { clear. intros n ss. revert n. induction ss as [|s ss IH]; intros n db; simpl; [done|].
    destruct (s db); [|done]. cbn. by rewrite IH, (IH 1). }
  cbn [run_statements]. cbn. rewrite run_statements_app, Hn, Hr. done.
Qed.

Lemma run_statements_faultless fails n m ss db db' :
  run_statements fails n ss db = Ok db' → run_statements (λ _, false) m ss db = Ok db'.
Proof.
  revert n m db. induction ss as [|s ss IH]; intros n m db; simpl; [done|].
  destruct (fails n); [done|]. destruct (s db) as [d|]; [|done]. apply IH.
Qed.

(** What every statement keeps, a run of statements keeps. *)
Lemma run_statements_keep {A} (f : Db → A) fails n ss db db' :
  Forall (λ s, ∀ db db', s db = Ok db' → f db' = f db) ss →
  run_statements fails n ss db = Ok db' → f db' = f db.
Proof.
  intros Hss. revert n db. induction Hss as [|s ss Hs _ IH]; intros n db; simpl; [by intros [= ->]|].
  destruct (fails n); [done|]. intros (d & Hd & Hr)%bind_Ok. rewrite (IH _ _ Hr). by apply Hs.
Qed.

Lemma run_statements_ext fails fails' n ss db :
  (∀ n, fails n = fails' n) → run_statements fails n ss db = run_statements fails' n ss db.
Proof.
  intros Hf. revert n db. induction ss as [|s ss IH]; intros n db; simpl; [done|].
  rewrite Hf. destruct (fails' n); [done|]. destruct (s db); [|done]. apply IH.
Qed.

Lemma transaction_ext fails fails' ss db :
  (∀ n, fails n = fails' n) → transaction fails ss db = transaction fails' ss db.
Proof.
  intros Hf. unfold transaction. by rewrite (run_statements_ext fails fails').
Qed.

(** A committed transaction is the fault-free run of its statements. *)
Lemma transaction_commits fails ss db db' :
  transaction fails ss db = (db', Ok ()) → run_statements (λ _, false) 0 ss db = Ok db'.
Proof.
  unfold transaction. cbn [run_statements]. destruct (fails 0); [done|]. cbn.
  rewrite run_statements_app.
  destruct (run_statements fails 1 ss db) as [d|] eqn:E; [|done]. cbn.
  destruct (fails _); [done|]. cbn. intros [= <-]. by eapply run_statements_faultless.
Qed.

Lemma upsert_find {A K} `{EqDecision K} (key : A → K) (row : A) rows :
  snd <$> list_find (λ r, key r = key row) (upsert key row rows) = Some row.
Proof.
  unfold upsert. induction rows as [|r rows IH].
  - cbn. by rewrite decide_True by done.
  - rewrite filter_cons. case_decide as E; [|done]. cbn [list_find app].
    rewrite decide_False by done. destruct (list_find _ _) as [[? ?]|]; naive_solver.
Qed.

Lemma upsert_find_ne {A K} `{EqDecision K} (key : A → K) (row : A) rows k :
  k ≠ key row →
  snd <$> list_find (λ r, key r = k) (upsert key row rows) =
  snd <$> list_find (λ r, key r = k) rows.
Proof.
  intros Hk. unfold upsert. induction rows as [|r rows IH].
  - cbn. by rewrite decide_False by done.
  - rewrite filter_cons. case_decide as E; cbn [list_find app].
    + case_decide; [done|]. revert IH.
      destruct (list_find _ (_ ++ _)) as [[? ?]|], (list_find _ rows) as [[? ?]|]; naive_solver.
    + assert (key r = key row) as Er by (destruct (decide (key r = key row)); naive_solver).
      rewrite (decide_False (P := key r = k)) by congruence. revert IH.
      destruct (list_find _ (_ ++ _)) as [[? ?]|], (list_find _ rows) as [[? ?]|]; naive_solver.
Qed.

(** ** Ledgers in the database *)

Section LedgerLaws.
Context `{U : UuidLib, !UuidLaws U, J : JsonLib, H : HashLib, !Serialize EventRecord,
  T : JsonText LedgerEntry, !JsonTextLaws LedgerEntry}.
Variable ledger_error_display : LedgerError → string.
Implicit Types (c : string) (l : EventLedger) (db : Db).

Definition rows_of c l : list ledger_row :=
  (λ e, ledger_row_of c e (default "" (to_text e))) <$> l.

(** The abstract view of the table: campaign [cid]'s rows spell [l], in order. *)
Definition represents db (cid : CampaignId) l : Prop :=
  filter (λ r, row_campaign r = id_to_string cid) (ledger_events db) = rows_of (id_to_string cid) l.

(** The index column of a ledger's rows. *)
Definition idx_column l : list Z := (λ e, as_i64 (index e)) <$> l.

(** Largest ledger whose indices fit the signed column. *)
Definition fits l : Prop := (N.of_nat (length l) <= 2 ^ 63)%N.

Lemma as_i64_of_nat n : (N.of_nat n < 2 ^ 63)%N → as_i64 (N.of_nat n) = Z.of_nat n.
Proof. intros Hn. unfold as_i64. apply N.ltb_lt in Hn. rewrite Hn. lia. Qed.

Lemma idx_column_seq l : chain_ok l → fits l → idx_column l = Z.of_nat <$> seq 0 (length l).
Proof.
  intros Hc Hf. unfold fits in Hf. apply list_eq. intros i. unfold idx_column.
  rewrite !list_lookup_fmap. destruct (l !! i) as [e|] eqn:E.
  - pose proof (lookup_lt_Some _ _ _ E). rewrite lookup_seq_lt by done. cbn.
    destruct (Hc i e E) as (-> & _). f_equal. rewrite as_i64_of_nat by lia. lia.
  - apply lookup_ge_None_1 in E. by rewrite lookup_seq_ge.
Qed.

Lemma seq_sorted n i : StronglySorted Z.lt (Z.of_nat <$> seq i n).
Proof.
  revert i. induction n as [|n IH]; intros i; cbn; constructor; [apply IH|].
  rewrite Forall_fmap, Forall_forall. intros x Hx%elem_of_seq. cbn. lia.
Qed.

Lemma rows_idx c l : row_idx <$> rows_of c l = idx_column l.
Proof. unfold rows_of, idx_column. by rewrite <- list_fmap_compose. Qed.

Lemma rows_sorted_of (rows : list ledger_row) :
  StronglySorted Z.lt (row_idx <$> rows) →
  StronglySorted idx_le rows ∧ ∀ r r', r ∈ rows → r' ∈ rows → row_idx r = row_idx r' → r = r'.
Proof.
  induction rows as [|r rows IH]; cbn.
  { intros _. split; [constructor|]. set_solver. }
  inversion_clear 1 as [|?? Hs Hf]. destruct (IH Hs) as [IH1 IH2].
  rewrite Forall_fmap, Forall_forall in Hf. cbn in Hf. split.
  - constructor; [done|]. rewrite Forall_forall. intros r' Hr'. unfold idx_le. specialize (Hf r' Hr'). lia.
  - intros r1 r2 [->|H1]%elem_of_cons [->|H2]%elem_of_cons E; auto.
    + specialize (Hf _ H2). lia.
    + specialize (Hf _ H1). lia.
Qed.

(** Sorting the rows of a ledger by index changes nothing. *)
Lemma rows_sort c l : chain_ok l → fits l → merge_sort idx_le (rows_of c l) = rows_of c l.
Proof.
  intros Hc Hf. pose proof (rows_idx c l) as E. rewrite idx_column_seq in E by done.
  destruct (rows_sorted_of (rows_of c l)) as [Hs Hu]; [rewrite E; apply seq_sorted|].
  apply (StronglySorted_unique_strong idx_le).
  - intros r r' Hr Hr'. rewrite merge_sort_Permutation in Hr. unfold idx_le.
    intros. apply Hu; [done..|lia].
  - apply StronglySorted_merge_sort; apply _.
  - done.
  - apply merge_sort_Permutation.
Qed.

Lemma load_row_of c e : load_row (ledger_row_of c e (default "" (to_text e))) = Ok e.
Proof.
  unfold load_row. destruct (to_text_total e) as [s Hs]. cbn. rewrite Hs. cbn.
  rewrite (from_to_text _ _ Hs). cbn. by rewrite !bool_decide_eq_true_2.
Qed.

Lemma load_rows c l : try_map load_row (rows_of c l) = Ok l.
Proof.
  apply try_map_Ok. unfold rows_of. rewrite Forall2_fmap_l.
  apply Forall_Forall2_diag, Forall_forall. intros e _. apply load_row_of.
Qed.

Lemma load_represents db cid l :
  represents db cid l → verify l = Ok () → l ≠ [] → fits l →
  load_ledger_for ledger_error_display cid db = Ok l.
Proof.
  intros Hr Hv Hne Hf. unfold load_ledger_for, select_ledger. rewrite Hr, rows_sort; [|by apply verify_from_Ok|done].
  rewrite load_rows. cbn. rewrite bool_decide_eq_false_2 by done.
  unfold from_stored_entries. by rewrite Hv.
Qed.

Lemma load_ledger_verified db cid l :
  load_ledger_for ledger_error_display cid db = Ok l → verify l = Ok () ∧ l ≠ [].
Proof.
  unfold load_ledger_for. intros (stored & _ & Hl)%bind_Ok. case_bool_decide; [done|].
  apply map_err_Ok, from_stored_entries_Ok in Hl as [-> ?]. done.
Qed.

(** ** Writing a ledger *)

Lemma insert_unique_Ok {A K} `{EqDecision K} (key : A → K) row rows :
  key row ∉ key <$> rows → insert_unique key row rows = Ok (rows ++ [row]).
Proof.
  intros Hk. unfold insert_unique. destruct (existsb _ rows) eqn:E; [|done].
  apply existsb_true_iff in E as (r & Hr & Er%bool_decide_eq_true_1).
  destruct Hk. apply list_elem_of_fmap. eauto.
Qed.

Lemma insert_unique_inv {A K} `{EqDecision K} (key : A → K) row rows rows' :
  insert_unique key row rows = Ok rows' → rows' = rows ++ [row].
Proof. unfold insert_unique. destruct (existsb _ rows); naive_solver. Qed.

Lemma to_text_default (e : LedgerEntry) s : to_text e = Some s → default "" (to_text e) = s.
Proof. by intros ->. Qed.

(** Whatever the inserts of a ledger do, they add its rows at the end. *)
Lemma run_inserts_inv c l n db db' :
  run_statements (λ _, false) n (insert_entry c <$> l) db = Ok db' →
  db' = set_ledger_events db (ledger_events db ++ rows_of c l).
Proof.
  revert n db. induction l as [|e l IH]; intros n db; cbn [fmap list_fmap run_statements].
  - intros [= <-]. rewrite app_nil_r. by destruct db.
  - intros (db1 & H1 & H2)%bind_Ok. apply IH in H2 as ->. unfold insert_entry in H1.
    apply bind_Ok in H1 as (s & Hs%ok_or_Ok & H1).
    apply bind_Ok in H1 as (rows & ->%insert_unique_inv & [= <-]). cbn.
    rewrite <- (to_text_default _ _ Hs). by rewrite <- app_assoc.
Qed.

Lemma insert_entry_Ok c e db :
  (c, as_i64 (index e)) ∉ ledger_key <$> ledger_events db →
  insert_entry c e db = Ok (set_ledger_events db (ledger_events db ++ rows_of c [e])).
Proof.
  intros Hk. unfold insert_entry. destruct (to_text_total e) as [s Hs]. cbn. rewrite Hs. cbn.
  by rewrite insert_unique_Ok.
Qed.

Lemma run_inserts c l n db :
  NoDup (idx_column l) →
  (∀ e, e ∈ l → (c, as_i64 (index e)) ∉ ledger_key <$> ledger_events db) →
  is_ok (run_statements (λ _, false) n (insert_entry c <$> l) db) = true.
Proof.
  revert n db. induction l as [|e l IH]; intros n db; cbn [fmap list_fmap run_statements]; [done|].
  intros [Hn Hnd]%NoDup_cons Hdis. rewrite insert_entry_Ok by (apply Hdis; set_solver). cbn.
  apply IH; [done|]. intros e' He'. cbn. rewrite fmap_app, elem_of_app.
  intros [Hin|Hin]; [by apply (Hdis e'); [set_solver|]|].
  apply list_elem_of_singleton in Hin. injection Hin as Hin. apply Hn.
  unfold idx_column. apply list_elem_of_fmap. eauto.
Qed.

Lemma rows_of_cons c e l :
  rows_of c (e :: l) = ledger_row_of c e (default "" (to_text e)) :: rows_of c l.
Proof. done. Qed.

Lemma filter_rows_same c l : filter (λ r, row_campaign r = c) (rows_of c l) = rows_of c l.
Proof.
  induction l as [|e l IH]; [done|]. rewrite rows_of_cons, filter_cons_True by done. by rewrite IH.
Qed.

Lemma filter_rows_other c c' l : c ≠ c' → filter (λ r, row_campaign r = c') (rows_of c l) = [].
Proof.
  intros Hc. induction l as [|e l IH]; [done|]. rewrite rows_of_cons, filter_cons_False by done. done.
Qed.

Lemma filter_filter_other c c' (rows : list ledger_row) :
  c ≠ c' → filter (λ r, row_campaign r = c') (filter (λ r, row_campaign r ≠ c) rows) =
           filter (λ r, row_campaign r = c') rows.
Proof.
  intros Hc. induction rows as [|r rows IH]; [done|]. rewrite !filter_cons.
  repeat case_decide; rewrite ?filter_cons; repeat case_decide; try naive_solver congruence.
Qed.

Lemma filter_filter_same c (rows : list ledger_row) :
  filter (λ r, row_campaign r = c) (filter (λ r, row_campaign r ≠ c) rows) = [].
Proof.
  induction rows as [|r rows IH]; [done|]. rewrite filter_cons. case_decide; [|done].
  rewrite filter_cons. by rewrite decide_False.
Qed.

(** The table after a committed [persist_ledger_for]. *)
Lemma persist_table fails cid l db db' :
  persist_ledger_for ledger_error_display fails cid l db = (db', Ok ()) →
  verify l = Ok () ∧
  db' = set_ledger_events db
    (filter (λ r, row_campaign r ≠ id_to_string cid) (ledger_events db) ++ rows_of (id_to_string cid) l).
Proof.
  unfold persist_ledger_for. destruct (verify l) as [[]|]; [|done].
  intros Ht%transaction_commits. cbn [run_statements delete_ledger] in Ht.
  change (Ok ?a ≫= ?f) with (f a) in Ht. cbn beta in Ht. by apply run_inserts_inv in Ht as ->.
Qed.

Lemma persist_represents fails cid l db db' :
  persist_ledger_for ledger_error_display fails cid l db = (db', Ok ()) →
  represents db' cid l ∧
  ∀ cid', cid' ≠ cid → filter (λ r, row_campaign r = id_to_string cid') (ledger_events db') =
                       filter (λ r, row_campaign r = id_to_string cid') (ledger_events db).
Proof.
  intros (_ & ->)%persist_table. unfold represents. cbn [ledger_events set_ledger_events].
  setoid_rewrite filter_app. split.
  - by rewrite filter_filter_same, filter_rows_same.
  - intros cid' Hne. assert (id_to_string cid ≠ id_to_string cid') by (by intros ?%(inj _)).
    by rewrite filter_filter_other, filter_rows_other, app_nil_r.
Qed.

(** C33: a ledger with an entry, once [persist_ledger_for] committed it, is read back
    exactly, and no other campaign's ledger is affected, whatever the database held
    before. (A committed empty ledger leaves no row, and is not found.) *)
Theorem persist_load_roundtrip fails cid l db db' :
  persist_ledger_for ledger_error_display fails cid l db = (db', Ok ()) → l ≠ [] → fits l →
  load_ledger_for ledger_error_display cid db' = Ok l ∧
  ∀ cid', cid' ≠ cid → load_ledger_for ledger_error_display cid' db' =
                       load_ledger_for ledger_error_display cid' db.
Proof.
  intros Hp Hne Hf. destruct (persist_table _ _ _ _ _ Hp) as [Hv _].
  apply persist_represents in Hp as [Hr Ho]. split; [by apply load_represents|].
  intros cid' Hc. unfold load_ledger_for, select_ledger. by rewrite Ho.
Qed.

Lemma verified_idx_NoDup l : verify l = Ok () → fits l → NoDup (idx_column l).
Proof.
  intros Hv Hf. rewrite idx_column_seq; [|by apply verify_from_Ok|done].
  apply NoDup_fmap_2; [intros ??; lia|apply NoDup_seq].
Qed.

(** C34: [persist_ledger_for] is all or nothing. A failure, at any statement or
    because the ledger does not verify, leaves the database untouched; on a
    healthy database every verified ledger is committed. *)
Theorem persist_all_or_nothing fails cid l db db' r :
  persist_ledger_for ledger_error_display fails cid l db = (db', r) →
  (r ≠ Ok () → db' = db) ∧
  (verify l = Ok () → fits l → (∀ n, fails n = false) → r = Ok ()) ∧
  (r = Ok () → verify l = Ok ()).
Proof.
  intros Hp. split_and!.
  - intros Hr. destruct r as [[]|e]; [done|]. unfold persist_ledger_for in Hp.
    destruct (verify l); [by eapply transaction_atomic|by injection Hp].
  - intros Hv Hf Hok. unfold persist_ledger_for in Hp. rewrite Hv in Hp.
    pose proof (run_inserts (id_to_string cid) l 1
      (set_ledger_events db (filter (λ r, row_campaign r ≠ id_to_string cid) (ledger_events db)))) as Hins.
    destruct (run_statements _ _ _ _) as [db1|] eqn:E; [|specialize (Hins ltac:(by apply verified_idx_NoDup))].
    + assert (run_statements (λ _, false) 0
        (delete_ledger (id_to_string cid) :: (insert_entry (id_to_string cid) <$> l)) db = Ok db1)
        as Hrun by exact E.
      apply transaction_Ok in Hrun. rewrite (transaction_ext fails (λ _, false)) in Hp by done. congruence.
    + exfalso. cbn in Hins. enough (false = true) by done. apply Hins.
      intros e' _ (r' & Hk & Hin%list_elem_of_filter)%list_elem_of_fmap. cbn in *.
      unfold ledger_key in Hk. naive_solver.
  - intros ->. by apply persist_table in Hp as [? _].
Qed.

(** C35: appending to the ledger and inserting the new entry in the database
    keeps the two in step: the database then loads as the extended ledger. *)
Theorem append_entry_refines now cid l ev arts l' e db :
  represents db cid l → verify l = Ok () → fits l' → append now l ev arts = Ok (l', e) →
  ∃ db', append_entry_for false cid e db = Ok db' ∧ represents db' cid l' ∧
    load_ledger_for ledger_error_display cid db' = Ok l'.
Proof.
  intros Hr Hv Hf Ha. pose proof Ha as (-> & _ & _ & _ & Hok)%append_Ok.
  assert (chain_ok (l ++ [e])) as Hc.
  { apply chain_from_app. split; [by apply verify_from_Ok|by apply chain_from_single]. }
  assert ((id_to_string cid, as_i64 (index e)) ∉ ledger_key <$> ledger_events db) as Hk.
  { intros (r & Hk & Hin)%list_elem_of_fmap. unfold ledger_key in Hk. injection Hk as Hcr Hi.
    assert (r ∈ rows_of (id_to_string cid) l) as Hrow.
    { rewrite <- Hr. apply list_elem_of_filter. by split. }
    pose proof (verified_idx_NoDup (l ++ [e]) ltac:(by apply verify_from_Ok) Hf) as Hnd.
    unfold idx_column in Hnd. rewrite fmap_app, NoDup_app in Hnd. destruct Hnd as (_ & Hd & _).
    apply (Hd (as_i64 (index e))); [|set_solver]. rewrite <- rows_idx with (c := id_to_string cid).
    apply list_elem_of_fmap. eauto. }
  pose proof (insert_entry_Ok _ _ _ Hk) as Hins.
  exists (set_ledger_events db (ledger_events db ++ rows_of (id_to_string cid) [e])).
  assert (represents (set_ledger_events db (ledger_events db ++ rows_of (id_to_string cid) [e]))
    cid (l ++ [e])) as Hr'.
  { unfold represents in *. cbn [ledger_events set_ledger_events].
    rewrite filter_app, Hr, filter_rows_same. unfold rows_of. by rewrite fmap_app. }
  split_and!; [exact Hins|done|]. apply load_represents; try done; [|by destruct l].
  by apply verify_from_Ok.
Qed.

End LedgerLaws.
(** ** Campaigns, graphs and records *)

Section TableLaws.
Context `{U : UuidLib, !UuidLaws U, TC : JsonText Campaign, !JsonTextLaws Campaign,
  TN : JsonText GraphNode, TE : JsonText GraphEdge}.
Implicit Types (db : Db) (cid : CampaignId).

Lemma get_campaign_alt id db :
  get_campaign id db =
    match snd <$> list_find (λ r, r.1 = id_to_string id) (campaigns db) with
    | Some r => ok_or (from_text r.2) StJson
    | None => Err (StNotFound (id_to_string id))
    end.
Proof. unfold get_campaign. by destruct (list_find _ _) as [[]|]. Qed.

(** [put_campaign] replaces the stored campaign and touches no other. *)
Theorem put_get_campaign fail c db db' :
  put_campaign fail c db = Ok db' →
  get_campaign (campaign_id c) db' = Ok c ∧
  (∀ id, id ≠ campaign_id c → get_campaign id db' = get_campaign id db) ∧
  ledger_events db' = ledger_events db ∧ records db' = records db.
Proof.
  unfold put_campaign. intros (s & Hs%ok_or_Ok & Hp)%bind_Ok. destruct fail; [done|].
  injection Hp as <-. split_and!; [| |done..]; intros; rewrite !get_campaign_alt; cbn [campaigns set_campaigns].
  - pose proof (upsert_find fst (id_to_string (campaign_id c), s) (campaigns db)) as Hu.
    cbn [fst] in Hu. rewrite Hu. cbn. by rewrite (from_to_text _ _ Hs).
  - rewrite (upsert_find_ne fst); [done|]. cbn. by intros ?%(inj _).
Qed.

(** A graph row of the campaign, with the payload of its node or edge. *)
Definition graph_rows {A} (id : A → string) (text : A → option string) (c : string) (xs : list A) :
    list graph_row := (λ x, mkGraphRow (id x) c (default "" (text x))) <$> xs.

Lemma run_node_inserts c nodes n db db' :
  run_statements (λ _, false) n (insert_node c <$> nodes) db = Ok db' →
  db' = set_graph_nodes db (graph_nodes db ++ graph_rows (λ x, id_to_string (node_id x)) to_text c nodes).
Proof.
  revert n db. induction nodes as [|x nodes IH]; intros n db; cbn [fmap list_fmap run_statements].
  - intros [= <-]. rewrite app_nil_r. by destruct db.
  - intros (db1 & H1 & H2)%bind_Ok. apply IH in H2 as ->. unfold insert_node in H1.
    apply bind_Ok in H1 as (s & Hs%ok_or_Ok & H1).
    apply bind_Ok in H1 as (rows & ->%insert_unique_inv & [= <-]). cbn.
    rewrite Hs. by rewrite <- app_assoc.
Qed.

Lemma run_edge_inserts c edges n db db' :
  run_statements (λ _, false) n (insert_edge c <$> edges) db = Ok db' →
  db' = set_graph_edges db (graph_edges db ++ graph_rows (λ x, id_to_string (edge_id x)) to_text c edges).
Proof.
  revert n db. induction edges as [|x edges IH]; intros n db; cbn [fmap list_fmap run_statements].
  - intros [= <-]. rewrite app_nil_r. by destruct db.
  - intros (db1 & H1 & H2)%bind_Ok. apply IH in H2 as ->. unfold insert_edge in H1.
    apply bind_Ok in H1 as (s & Hs%ok_or_Ok & H1).
    apply bind_Ok in H1 as (rows & ->%insert_unique_inv & [= <-]). cbn.
    rewrite Hs. by rewrite <- app_assoc.
Qed.

Lemma load_graph_rows {A} `{JsonText A} (id : A → string) c (kept : list graph_row) (xs : list A) :
  (∀ r, r ∈ kept → grow_campaign r ≠ c) →
  Forall (λ x, ∃ s, to_text x = Some s ∧ from_text s = Some x) xs →
  try_map (λ r, ok_or (from_text (grow_payload r)) StJson)
    (filter (λ r, grow_campaign r = c) (kept ++ graph_rows id to_text c xs)) = Ok xs.
Proof.
  intros Hk Hx. rewrite filter_app.
  assert (filter (λ r, grow_campaign r = c) kept = []) as ->.
  { induction kept as [|r kept IH]; [done|]. rewrite filter_cons_False by (apply Hk; set_solver).
    apply IH. set_solver. }
  cbn [app]. apply try_map_Ok. induction Hx as [|x xs (s & Hs & Ht) Hxs IH]; [constructor|].
  unfold graph_rows. cbn [fmap list_fmap]. rewrite filter_cons_True by done.
  constructor; [|exact IH]. cbn. rewrite Hs. cbn. by rewrite Ht.
Qed.

(** A committed [persist_graph] is read back exactly, in insertion order,
    for nodes and edges that JSON represents faithfully (a payload without
    floating-point numbers). *)
Theorem persist_graph_roundtrip fails cid nodes edges db db' :
  persist_graph fails cid nodes edges db = (db', Ok ()) →
  Forall (λ x, ∃ s, to_text x = Some s ∧ from_text s = Some x) nodes →
  Forall (λ x, ∃ s, to_text x = Some s ∧ from_text s = Some x) edges →
  load_graph_nodes cid db' = Ok nodes ∧ load_graph_edges cid db' = Ok edges.
Proof.
  intros Hp Hn He. unfold persist_graph in Hp. apply transaction_commits in Hp.
  cbn [run_statements mbind result_bind] in Hp. rewrite run_statements_app in Hp. apply bind_Ok in Hp as (db1 & H1 & H2).
  apply run_node_inserts in H1 as ->. apply run_edge_inserts in H2 as ->.
  unfold load_graph_nodes, load_graph_edges. cbn [graph_nodes graph_edges set_graph_nodes set_graph_edges].
  split; (apply load_graph_rows; [|done]); intros r [Hr _]%list_elem_of_filter; exact Hr.
Qed.

Lemma put_get_record fail kind id payload db db' :
  put_record fail kind id payload db = Ok db' →
  get_record kind id db' = Ok payload ∧
  ∀ kind' id', (kind', id') ≠ (kind, id) → get_record kind' id' db' = get_record kind' id' db.
Proof.
  assert (Halt : ∀ k i d, get_record k i d =
    match snd <$> list_find (λ r, r.1 = (k, i)) (records d) with
    | Some r => Ok r.2
    | None => Err (StNotFound (k +:+ ":" +:+ i))
    end).
  { intros. unfold get_record. by destruct (list_find _ _) as [[]|]. }
  unfold put_record. destruct fail; [done|]. intros [= <-].
  split; intros; rewrite !Halt; cbn [records set_records].
  - pose proof (upsert_find fst (kind, id, payload) (records db)) as Hu. cbn [fst] in Hu. by rewrite Hu.
  - by rewrite (upsert_find_ne fst).
Qed.

(** Persisting a graph does not touch the ledger. *)
Lemma persist_graph_ledger fails cid ns es db db' r :
  persist_graph fails cid ns es db = (db', r) → ledger_events db' = ledger_events db.
Proof.
  unfold persist_graph. destruct r as [[]|]; [|by intros ->%transaction_atomic].
  intros Ht%transaction_commits. eapply run_statements_keep; [|exact Ht].
  repeat (apply Forall_cons; split; [by intros d d' [= <-]|]).
  apply Forall_app. split; apply Forall_fmap, Forall_forall; intros x _ d d'; cbn.
  - intros (p & _ & (rows & _ & [= <-])%bind_Ok)%bind_Ok. done.
  - intros (p & _ & (rows & _ & [= <-])%bind_Ok)%bind_Ok. done.
Qed.

End TableLaws.
End Store.
