(* ===== verification/HttpLab.v ===== *)
(** * The HTTP client (crate [aros-core], [http_lab.rs])

    Requests are built as text and sent over one TCP connection, which is a
    parameter: host, port and bytes sent give the text received or an error. *)

From S2P Require Import Prelude RustStr Net Json Types PathScope.
Import PathScope Shell.

Module HttpLab.

(** [src crates/aros-core/src/http_lab.rs 7-13 HttpError] *)
Inductive HttpError := HeIo | HeInvalid.

(** [src crates/aros-core/src/http_lab.rs 15-19 HttpResponse] *)
Record HttpResponse := mkHttpResponse { status : N; body : string }.

Definition crlf : string := String carriage_return (String newline "").

(** The request text; the payload follows it on the wire.
    [src crates/aros-core/src/http_lab.rs 55-66 http_exchange] *)
Definition request_head (host : string) (port : N) (method path : string) (payload : option string)
    (extra_headers : string) : string :=
  let content_len :=
    match payload with
    | Some p => "Content-Type: application/json" +:+ crlf +:+ "Content-Length: " +:+
                display_N (N.of_nat (str_len p)) +:+ crlf
    | None => ""
    end in
  method +:+ " " +:+ path +:+ " HTTP/1.1" +:+ crlf +:+ "Host: " +:+ host +:+ ":" +:+
  display_N port +:+ crlf +:+ "Connection: close" +:+ crlf +:+ extra_headers +:+ content_len +:+ crlf.

(** [src crates/aros-core/src/http_lab.rs 97-109 parse_response] *)
Definition parse_response (raw : string) : result HttpError HttpResponse :=
  let '(head, body) := default (raw, "") (split_once_str (crlf +:+ crlf) raw) in
  status ← ok_or (line ← lines head !! 0; word ← split_whitespace line !! 1;
                  parse_uint u16_max word) HeInvalid;
  Ok (mkHttpResponse status body).

Section Exchange.
(** One TCP exchange; [None] is an I/O error or a reply that is not UTF-8. *)
Variable exchange : string → N → string → option string.

(** [src crates/aros-core/src/http_lab.rs 44-75 http_exchange] *)
Definition http_exchange (host : string) (port : N) (method path : string) (body : option string)
    (extra_headers : string) : result HttpError HttpResponse :=
  let payload := default "" body in
  buffer ← ok_or (exchange host port (request_head host port method path body extra_headers +:+ payload))
             HeIo;
  parse_response buffer.

(** [src crates/aros-core/src/http_lab.rs 27-29 http_get] *)
Definition cookie_header (cookie : option string) : string :=
  default "" ((λ value, "Cookie: " +:+ value +:+ crlf) <$> cookie).

(** [src crates/aros-core/src/http_lab.rs 21-31 http_get] *)
Definition http_get (host : string) (port : N) (path : string) (cookie : option string) :
    result HttpError HttpResponse :=
  http_exchange host port "GET" path None (cookie_header cookie).

Definition bearer_header (token : string) : string := "Authorization: Bearer " +:+ token +:+ crlf.

(** [src crates/aros-core/src/http_lab.rs 33-41 http_get_bearer] *)
Definition http_get_bearer (host : string) (port : N) (path token : string) :
    result HttpError HttpResponse :=
  http_exchange host port "GET" path None (bearer_header token).

(** [src crates/aros-core/src/http_lab.rs 77-84 http_post_json] *)
Definition http_post_json (host : string) (port : N) (path json : string) :
    result HttpError HttpResponse :=
  http_exchange host port "POST" path (Some json) "".

(** [src crates/aros-core/src/http_lab.rs 86-95 http_post_json_bearer] *)
Definition http_post_json_bearer (host : string) (port : N) (path json token : string) :
    result HttpError HttpResponse :=
  http_exchange host port "POST" path (Some json) (bearer_header token).

End Exchange.

(** ** No request splitting *)

Lemma safe_target_free target c :
  http_request_target_is_safe target = true → (byte_val c < 128)%N →
  is_control (byte_val c) || is_whitespace (byte_val c) = true → contains_byte c target = false.
Proof.
  unfold http_request_target_is_safe. intros Ht Hc Hbad. split_guards.
  apply not_true_is_false. intros Hin%chars_contains_byte; [|done].
  match goal with G : forallb _ _ = true |- _ => rewrite forallb_true_iff in G; apply G in Hin end.
  split_guards. apply orb_true_iff in Hbad as []; congruence.
Qed.

Lemma safe_cookie_free cookie c :
  http_cookie_is_safe cookie = true → (byte_val c < 128)%N → is_control (byte_val c) = true →
  contains_byte c cookie = false.
Proof.
  unfold http_cookie_is_safe. intros Ht Hc Hbad. split_guards.
  apply not_true_is_false. intros Hin%chars_contains_byte; [|done].
  match goal with G : forallb _ _ = true |- _ => rewrite forallb_true_iff in G; apply G in Hin end.
  split_guards. congruence.
Qed.

Definition cr : string := String carriage_return "".

Lemma split_crlf p s :
  contains_byte newline p = false →
  split_char newline (p +:+ crlf +:+ s) = (p +:+ cr) :: split_char newline s.
Proof.
  intros Hp. unfold crlf. rewrite !sapp_cons, sapp_nil_l.
  change (p +:+ String carriage_return (String newline s)) with
    (p +:+ (cr +:+ String newline s)). rewrite <- sapp_assoc.
  apply split_char_app. by rewrite contains_byte_app, Hp.
Qed.

(** Header and request splitting are impossible: for a target and a cookie
    that pass the policy's filters, the request that goes on the wire has
    exactly the lines the client means to send, whatever characters the target
    and the cookie contain. *)
Theorem http_get_lines host port target cookie :
  http_request_target_is_safe target = true →
  (∀ c, cookie = Some c → http_cookie_is_safe c = true) →
  contains_byte newline host = false →
  split_char newline (request_head host port "GET" target None (cookie_header cookie)) =
    [("GET " +:+ target +:+ " HTTP/1.1") +:+ cr; ("Host: " +:+ host +:+ ":" +:+ display_N port) +:+ cr;
     "Connection: close" +:+ cr] ++
    match cookie with Some c => [("Cookie: " +:+ c) +:+ cr] | None => [] end ++ [cr; ""].
Proof.
  intros Ht Hc Hh. unfold request_head.
  assert (contains_byte newline target = false) as Htn by (by apply safe_target_free).
  assert (contains_byte newline (display_N port) = false) as Hp by (by apply display_N_free).
  assert ("GET" +:+ " " +:+ target +:+ " HTTP/1.1" +:+ crlf +:+ "Host: " +:+ host +:+ ":" +:+
    display_N port +:+ crlf +:+ "Connection: close" +:+ crlf +:+ cookie_header cookie +:+ "" +:+ crlf =
    ("GET " +:+ target +:+ " HTTP/1.1") +:+ crlf +:+ ("Host: " +:+ host +:+ ":" +:+ display_N port) +:+
    crlf +:+ "Connection: close" +:+ crlf +:+ cookie_header cookie +:+ "" +:+ crlf +:+ "") as ->
    by (by rewrite ?sapp_assoc, ?sapp_nil_r).
  rewrite !split_crlf; [|done|by rewrite !contains_byte_app, Hh, Hp|by rewrite !contains_byte_app, Htn].
  cbn [app]. do 3 f_equal. destruct cookie as [c|]; cbn [cookie_header default fmap option_fmap option_map].
  - unfold id. assert (("Cookie: " +:+ c +:+ crlf) +:+ "" +:+ crlf +:+ "" =
      ("Cookie: " +:+ c) +:+ crlf +:+ crlf +:+ "") as -> by (by rewrite !sapp_assoc).
    rewrite split_crlf; [done|]. rewrite contains_byte_app, (safe_cookie_free c); [done|by apply Hc|done..].
  - reflexivity.
Qed.

End HttpLab.
