(* ===== verification/Ipc.v ===== *)
(** * Worker IPC (crate [aros-ipc])

    Length-prefixed frames that carry protobuf envelopes, and the supervisor of
    the research worker: it binds an endpoint, starts the worker, accepts its
    authenticated hello and then exchanges envelopes. [prost] is an interface.
    A connection is the bytes still to be read and the bytes written so far; a
    read past the last byte is an I/O error, and any write may fail part-way. *)

From S2P Require Import Prelude RustStr Types.

Module Ipc.

(** ** Messages *)

(** [src crates/aros-ipc/src/messages.rs 3-3 PROTOCOL_VERSION] *)
Definition PROTOCOL_VERSION : N := 1.
(** [src crates/aros-ipc/src/messages.rs 4-4 DEFAULT_MAX_FRAME_BYTES] *)
Definition DEFAULT_MAX_FRAME_BYTES : N := 4 * 1024 * 1024.

(** [src crates/aros-ipc/src/messages.rs 38-47 Hello] *)
Record Hello := mkHello { worker_kind : string; python_version : string; token : string }.

(** [src crates/aros-ipc/src/messages.rs 49-59 HelloAck] *)
Record HelloAck := mkHelloAck {
  daemon_version : string;
  max_frame_bytes : N;
  ack_campaign_id : string;
  ack_manifest_hash : string;
}.

(** [src crates/aros-ipc/src/messages.rs 61-83 ToolIntentMsg] *)
Record ToolIntentMsg := mkToolIntentMsg {
  msg_capability : string;
  msg_argv : list string;
  msg_cwd : option string;
  msg_path : option string;
  msg_host : option string;
  msg_port : option N;
  msg_protocol : option string;
  msg_timeout_ms : N;
  msg_http_target : option string;
  msg_http_cookie : option string;
}.

(** [src crates/aros-ipc/src/messages.rs 85-95 IntentResult] *)
Record IntentResult := mkIntentResult {
  ir_decision : string;
  ir_reason : string;
  ir_exit_status : option Z;
  ir_stdout_digest : option string;
}.

(** [src crates/aros-ipc/src/messages.rs 97-101 Heartbeat] *)
Record Heartbeat := mkHeartbeat { unix_ms : N }.
(** [src crates/aros-ipc/src/messages.rs 103-109 ErrorMsg] *)
Record ErrorMsg := mkErrorMsg { code : string; message : string }.
(** [src crates/aros-ipc/src/messages.rs 111-115 Shutdown] *)
Record Shutdown := mkShutdown { shutdown_reason : string }.

(** [src crates/aros-ipc/src/messages.rs 16-36 envelope::Kind] *)
Inductive Kind :=
| KHello (h : Hello)
| KHelloAck (a : HelloAck)
| KToolIntent (i : ToolIntentMsg)
| KIntentResult (r : IntentResult)
| KHeartbeat (h : Heartbeat)
| KError (e : ErrorMsg)
| KShutdown (s : Shutdown).

(** [src crates/aros-ipc/src/messages.rs 6-14 Envelope] *)
Record Envelope := mkEnvelope {
  protocol_version : N;
  request_id : string;
  kind : option Kind;
}.

Definition Envelope_default : Envelope := mkEnvelope 0 "" None.

(** The values of these types a Rust program can hold: integers at their width
    and strings in UTF-8. *)
Definition is_utf8 (s : string) : bool :=
  forallb (λ u : uchar,
    (negb (u.1 =? 65533)%N || (str_len u.2 =? 3)%nat) &&
    negb ((55296 <=? u.1)%N && (u.1 <=? 57343)%N) && (u.1 <=? 1114111)%N) (decode s).
Definition opt_all {A} (f : A → bool) (o : option A) : bool := default true (f <$> o).

Definition kind_wf (k : Kind) : bool :=
  match k with
  | KHello h => is_utf8 (worker_kind h) && is_utf8 (python_version h) && is_utf8 (token h)
  | KHelloAck a => is_utf8 (daemon_version a) && (max_frame_bytes a <? 2 ^ 32)%N &&
                   is_utf8 (ack_campaign_id a) && is_utf8 (ack_manifest_hash a)
  | KToolIntent i =>
    is_utf8 (msg_capability i) && forallb is_utf8 (msg_argv i) && opt_all is_utf8 (msg_cwd i) &&
    opt_all is_utf8 (msg_path i) && opt_all is_utf8 (msg_host i) &&
    opt_all (λ p, p <? 2 ^ 32)%N (msg_port i) && opt_all is_utf8 (msg_protocol i) &&
    (msg_timeout_ms i <? 2 ^ 64)%N && opt_all is_utf8 (msg_http_target i) &&
    opt_all is_utf8 (msg_http_cookie i)
  | KIntentResult r =>
    is_utf8 (ir_decision r) && is_utf8 (ir_reason r) &&
    opt_all (λ z, (- 2 ^ 31 <=? z)%Z && (z <? 2 ^ 31)%Z) (ir_exit_status r) &&
    opt_all is_utf8 (ir_stdout_digest r)
  | KHeartbeat h => (unix_ms h <? 2 ^ 64)%N
  | KError e => is_utf8 (code e) && is_utf8 (message e)
  | KShutdown s => is_utf8 (shutdown_reason s)
  end.
Definition envelope_wf (e : Envelope) : bool :=
  (protocol_version e <? 2 ^ 32)%N && is_utf8 (request_id e) && opt_all kind_wf (kind e).

(** [prost::Message] for [Envelope]: what is encoded is decoded again, and the
    empty message holds the default values. *)
Class Prost := {
  encode : Envelope → option string;
  decode_message : string → option Envelope;
}.
Class ProstLaws (P : Prost) : Prop := {
  decode_encode e b : envelope_wf e = true → encode e = Some b → decode_message b = Some e;
  decode_empty : decode_message "" = Some Envelope_default;
}.

(** [src crates/aros-ipc/src/frame.rs 8-20 IpcError] *)
Inductive IpcError :=
| IpcIo
| FrameTooLarge (max got : N)
| Decode
| Protocol (v : N)
| EmptyKind.

(** ** Big-endian lengths *)

Fixpoint be_bytes (n : nat) (v : N) : string :=
  match n with
  | 0 => ""
  | Datatypes.S n => String (ascii_of_N (N.shiftr v (8 * N.of_nat n) mod 256)) (be_bytes n v)
  end.
(** [BufMut::put_u32] and [Buf::get_u32]. *)
Definition put_u32 (v : N) : string := be_bytes 4 v.
Fixpoint be_value (acc : N) (s : string) : N :=
  match s with
  | EmptyString => acc
  | String c s => be_value (acc * 256 + byte_val c) s
  end.
Definition get_u32 (s : string) : N := be_value 0 s.

(** ** Streams *)

(** A connection: bytes not yet read, bytes written. *)
Record Conn := mkConn { inbound : string; outbound : string }.

(** [read_exact]: the first [n] bytes, or an error once the stream has ended. *)
Fixpoint split_at (n : nat) (s : string) : option (string * string) :=
  match n, s with
  | 0, _ => Some ("", s)
  | Datatypes.S n, EmptyString => None
  | Datatypes.S n, String c s => '(a, b) ← split_at n s; Some (String c a, b)
  end.
Definition read_exact (n : nat) (c : Conn) : Conn * result IpcError string :=
  match split_at n (inbound c) with
  | Some (a, b) => (mkConn b (outbound c), Ok a)
  | None => (mkConn "" (outbound c), Err IpcIo)
  end.

(** Where the three writes of a frame can fail: within the header, within the
    payload (after some bytes), or at the flush. *)
Inductive WriteFault := FHeader (n : nat) | FPayload (n : nat) | FFlush.

Definition send (c : Conn) (s : string) : Conn := mkConn (inbound c) (outbound c +:+ s).

Section Frames.
Context `{Prost}.

(** [src crates/aros-ipc/src/frame.rs 22-42 write_envelope] *)
Definition write_envelope (fault : option WriteFault) (env : Envelope) (max_frame : N) (c : Conn) :
    Conn * result IpcError unit :=
  match encode env with
  | None => (c, Err Decode)
  | Some buf =>
    let len := wrap 32 (N.of_nat (str_len buf)) in
    if (max_frame <? len)%N then (c, Err (FrameTooLarge max_frame len))
    else
      let header := put_u32 len in
      match fault with
      | Some (FHeader n) => (send c (String.substring 0 n header), Err IpcIo)
      | Some (FPayload n) => (send c (header +:+ String.substring 0 n buf), Err IpcIo)
      | Some FFlush => (send c (header +:+ buf), Err IpcIo)
      | None => (send c (header +:+ buf), Ok ())
      end
  end.

(** [src crates/aros-ipc/src/frame.rs 44-71 read_envelope] *)
Definition read_envelope (max_frame : N) (c : Conn) : Conn * result IpcError Envelope :=
  match read_exact 4 c with
  | (c, Err e) => (c, Err e)
  | (c, Ok header) =>
    let len := get_u32 header in
    if (max_frame <? len)%N then (c, Err (FrameTooLarge max_frame len))
    else if (len =? 0)%N then (c, Err Decode)
    else
      match read_exact (N.to_nat len) c with
      | (c, Err e) => (c, Err e)
      | (c, Ok payload) =>
        (c, match decode_message payload with
            | None => Err Decode
            | Some env =>
              if negb (protocol_version env =? PROTOCOL_VERSION)%N
              then Err (Protocol (protocol_version env))
              else match kind env with None => Err EmptyKind | Some _ => Ok env end
            end)
      end
  end.

(** [src crates/aros-ipc/src/frame.rs 73-78 validate_hello] *)
Definition validate_hello (env : Envelope) : result IpcError unit :=
  if negb (protocol_version env =? PROTOCOL_VERSION)%N
  then Err (Protocol (protocol_version env)) else Ok ().

(** [src crates/aros-ipc/src/frame.rs 80-82 default_max_frame] *)
Definition default_max_frame : N := DEFAULT_MAX_FRAME_BYTES.

(** [src crates/aros-ipc/src/session.rs 356-369 decode_hello_python_version] *)
Definition decode_hello_python_version (bytes : string) : result IpcError string :=
  if (str_len bytes <? 5)%nat then Err Decode
  else
    let len := N.to_nat (get_u32 (String.substring 0 4 bytes)) in
    if (str_len bytes <? 4 + len)%nat then Err Decode
    else
      match decode_message (String.substring 4 len bytes) with
      | None => Err Decode
      | Some env =>
        match kind env with
        | Some (KHello h) => Ok (python_version h)
        | _ => Err EmptyKind
        end
      end.

End Frames.

(** ** Lengths and streams *)

Lemma be_value_bytes n acc v :
  be_value acc (be_bytes n v) = (acc * 256 ^ N.of_nat n + v mod 256 ^ N.of_nat n)%N.
Proof.
  revert acc. induction n as [|n IH]; intros acc; cbn [be_bytes be_value].
  - change (256 ^ N.of_nat 0)%N with 1%N. rewrite N.mod_1_r. lia.
  - rewrite IH. unfold byte_val. rewrite N_ascii_embedding by (apply N.mod_lt; done).
    rewrite N.shiftr_div_pow2, Nat2N.inj_succ, N.pow_succ_r', (N.mul_comm 256), N.Div0.mod_mul_r.
    replace (2 ^ (8 * N.of_nat n))%N with (256 ^ N.of_nat n)%N; [lia|].
    by rewrite N.pow_mul_r.
Qed.

Lemma get_put_u32 v : (v < 2 ^ 32)%N → get_u32 (put_u32 v) = v.
Proof.
  intros Hv. unfold get_u32, put_u32. rewrite be_value_bytes. change (256 ^ N.of_nat 4)%N with (2 ^ 32)%N.
  by rewrite N.mod_small.
Qed.
Lemma put_u32_length v : str_len (put_u32 v) = 4.
Proof. done. Qed.

Lemma split_at_spec n s a b : split_at n s = Some (a, b) ↔ s = a +:+ b ∧ str_len a = n.
Proof.
  revert s a b. induction n as [|n IH]; intros s a b; cbn.
  - split; [by intros [= <- <-]|]. intros [-> Ha]. by destruct a.
  - destruct s as [|c s]; [split; [done|]; intros [Hs Ha]; by destruct a|].
    destruct (split_at n s) as [[a' b']|] eqn:E; cbn.
    + apply IH in E as [-> <-]. split.
      * by intros [= <- <-].
      * intros [Hs Ha]. destruct a as [|c' a]; [done|]. injection Hs as <- Hs.
        apply sapp_inv_length in Hs as [-> ->]; [done|]. by injection Ha.
    + split; [done|]. intros [Hs Ha]. destruct a as [|c' a]; [done|]. injection Hs as <- ->.
      assert (split_at n (a +:+ b) = Some (a, b)) by (apply IH; split; [done|by injection Ha]).
      congruence.
Qed.
Lemma split_at_app n a b : str_len a = n → split_at n (a +:+ b) = Some (a, b).
Proof. intros Ha. by apply split_at_spec. Qed.
Lemma split_at_None n s : split_at n s = None → str_len s < n.
Proof.
  revert s. induction n as [|n IH]; intros [|c s]; cbn; [done..|lia|].
  destruct (split_at n s) as [[a b]|] eqn:E; [done|]. intros _. apply IH in E. unfold str_len in *. lia.
Qed.
Lemma split_at_short n s : str_len s < n → split_at n s = None.
Proof.
  intros Hs. destruct (split_at n s) as [[a b]|] eqn:E; [|done].
  apply split_at_spec in E as [-> <-]. unfold str_len in *. rewrite slength_app in Hs. lia.
Qed.

Section FrameLaws.
Context `{P : Prost}.

(** A frame: the length and that many bytes. *)
Definition frame (payload : string) : string :=
  put_u32 (N.of_nat (str_len payload)) +:+ payload.

(** What a reader makes of a payload. *)
Definition judge (payload : string) : result IpcError Envelope :=
  match decode_message payload with
  | None => Err Decode
  | Some env =>
    if negb (protocol_version env =? PROTOCOL_VERSION)%N then Err (Protocol (protocol_version env))
    else match kind env with None => Err EmptyKind | Some _ => Ok env end
  end.

Lemma read_frame max payload rest out :
  (0 < N.of_nat (str_len payload) <= max)%N → (N.of_nat (str_len payload) < 2 ^ 32)%N →
  read_envelope max (mkConn (frame payload +:+ rest) out) = (mkConn rest out, judge payload).
Proof.
  intros Hl Hm. unfold read_envelope, read_exact, frame. cbn [inbound outbound].
  rewrite sapp_assoc, (split_at_app 4) by done. rewrite get_put_u32 by done.
  destruct (N.ltb_spec max (N.of_nat (str_len payload))); [lia|].
  destruct (N.eqb_spec (N.of_nat (str_len payload)) 0); [lia|]. cbn [inbound outbound].
  by rewrite Nat2N.id, split_at_app.
Qed.

Lemma write_frame env max c c' buf :
  encode env = Some buf → (N.of_nat (str_len buf) < 2 ^ 32)%N →
  write_envelope None env max c = (c', Ok ()) →
  c' = send c (frame buf) ∧ (N.of_nat (str_len buf) <= max)%N.
Proof.
  intros He Hl. unfold write_envelope. rewrite He, wrap_small by done.
  destruct (N.ltb_spec max (N.of_nat (str_len buf))); [done|]. by intros [= <-].
Qed.

(** Writing never touches what the peer sent. *)
Lemma write_envelope_inbound fault env max c : inbound (write_envelope fault env max c).1 = inbound c.
Proof.
  unfold write_envelope. destruct (encode env) as [buf|]; [|reflexivity]. cbv zeta.
  generalize (wrap 32 (N.of_nat (str_len buf))). intros len.
  destruct (_ <? _)%N; [reflexivity|]. by destruct fault as [[]|].
Qed.

Lemma encode_nonempty `{!ProstLaws P} e buf :
  envelope_wf e = true → encode e = Some buf → protocol_version e = PROTOCOL_VERSION →
  (0 < N.of_nat (str_len buf))%N.
Proof.
  intros Hw He Hv. destruct buf as [|]; [|cbn; lia].
  pose proof (decode_encode _ _ Hw He) as Hd. rewrite decode_empty in Hd. injection Hd as <-. done.
Qed.

(** Sending envelopes one after the other, and receiving that many. *)
Fixpoint send_all (max : N) (es : list Envelope) (c : Conn) : Conn * result IpcError unit :=
  match es with
  | [] => (c, Ok ())
  | e :: es =>
    match write_envelope None e max c with
    | (c, Ok _) => send_all max es c
    | (c, Err err) => (c, Err err)
    end
  end.
Fixpoint receive (max : N) (n : nat) (c : Conn) : Conn * result IpcError (list Envelope) :=
  match n with
  | 0 => (c, Ok [])
  | Datatypes.S n =>
    match read_envelope max c with
    | (c, Err err) => (c, Err err)
    | (c, Ok e) => let '(c, r) := receive max n c in (c, es ← r; Ok (e :: es))
    end
  end.

(** An envelope of this protocol whose encoding has a 32-bit length. *)
Definition sendable (e : Envelope) : Prop :=
  envelope_wf e = true ∧ protocol_version e = PROTOCOL_VERSION ∧ kind e ≠ None ∧
  ∀ buf, encode e = Some buf → (N.of_nat (str_len buf) < 2 ^ 32)%N.

Lemma judge_encode `{!ProstLaws P} e buf : sendable e → encode e = Some buf → judge buf = Ok e.
Proof.
  intros (Hw & Hv & Hk & _) He. unfold judge. rewrite (decode_encode _ _ Hw He), Hv.
  by destruct (kind e).
Qed.

Lemma write_envelope_read `{!ProstLaws P} max e c c' :
  sendable e → write_envelope None e max c = (c', Ok ()) →
  ∃ bytes, c' = send c bytes ∧
    ∀ rest out, read_envelope max (mkConn (bytes +:+ rest) out) = (mkConn rest out, Ok e).
Proof.
  intros Hs Hw. destruct (encode e) as [buf|] eqn:He; [|by unfold write_envelope in Hw; rewrite He in Hw].
  pose proof Hs as (Hwf & Hv & _ & Hl). specialize (Hl _ He).
  destruct (write_frame _ _ _ _ _ He Hl Hw) as [-> Hm].
  pose proof (encode_nonempty _ _ Hwf He Hv) as Hpos. exists (frame buf). split; [done|]. intros rest out.
  rewrite read_frame by lia. by rewrite (judge_encode e).
Qed.

(** C29: envelopes of this protocol version that have a kind and an encoding shorter
    than 2^32 bytes, if they are sent one after the other over a connection, are
    received in the same order and unchanged, whatever bytes follow them. The sender
    checks the frame limit only: an envelope without a kind or of another version is
    sent and then refused by the reader. *)
Theorem frames_in_order `{!ProstLaws P} max es c c' :
  Forall sendable es → send_all max es c = (c', Ok ()) →
  ∃ bytes, c' = send c bytes ∧
    ∀ rest out, receive max (length es) (mkConn (bytes +:+ rest) out) = (mkConn rest out, Ok es).
Proof.
  intros Hes. revert c. induction Hes as [|e es He _ IH]; intros c Hs.
  - injection Hs as <-. exists "". split; [|done]. unfold send. rewrite sapp_nil_r. by destruct c.
  - cbn in Hs. destruct (write_envelope None e max c) as [c1 [[]|]] eqn:Hw; [|done].
    apply write_envelope_read in Hw as (b1 & -> & Hr1); [|done].
    apply IH in Hs as (b2 & -> & Hr2). exists (b1 +:+ b2). split; [by unfold send; cbn; rewrite sapp_assoc|].
    intros rest out. cbn. by rewrite sapp_assoc, Hr1, Hr2.
Qed.

Lemma read_exact_taken n c c' r :
  read_exact n c = (c', r) →
  ∃ taken, inbound c = taken +:+ inbound c' ∧ outbound c' = outbound c ∧
    (r = Ok taken ∧ str_len taken = n ∨ r = Err IpcIo ∧ inbound c' = "" ∧ str_len taken < n).
Proof.
  unfold read_exact. destruct (split_at n (inbound c)) as [[a b]|] eqn:E; intros [= <- <-].
  - apply split_at_spec in E as [E Ha]. exists a. eauto.
  - exists (inbound c). cbn. rewrite sapp_nil_r. split_and!; [done..|]. right. split_and!; [done..|].
    by apply split_at_None.
Qed.

(** An accepted envelope consumed its header and a byte at least. *)
Lemma read_envelope_consumes max c c' e :
  read_envelope max c = (c', Ok e) → 5 + str_len (inbound c') <= str_len (inbound c).
Proof.
  unfold read_envelope. destruct (read_exact 4 c) as [c1 r1] eqn:E1.
  apply read_exact_taken in E1 as (h & Hin & _ & [[-> Hh]|(-> & _)]); [|done].
  destruct (_ <? _)%N; [done|]. destruct (N.eqb_spec (get_u32 h) 0) as [|Hnz]; [done|].
  destruct (read_exact _ c1) as [c2 r2] eqn:E2. apply read_exact_taken in E2 as (p & Hin2 & _ & [[-> Hp]|(-> & _)]);
    [|done]. intros [= <- _]. rewrite Hin, Hin2. unfold str_len in *. rewrite !slength_app. lia.
Qed.

(** C30: whatever the peer sends, reading an envelope consumes at most four bytes
    and the frame limit, and never touches what was written; an oversized length
    is refused after its four bytes; and an accepted envelope is the decoding of
    a non-empty payload within the limit, of this protocol version and with a
    kind. *)
Theorem read_envelope_bounded max c c' r :
  read_envelope max c = (c', r) →
  ∃ taken, inbound c = taken +:+ inbound c' ∧ outbound c' = outbound c ∧
    (N.of_nat (str_len taken) <= 4 + max)%N ∧
    (∀ m got, r = Err (FrameTooLarge m got) → m = max ∧ (max < got)%N ∧ str_len taken = 4) ∧
    (∀ e, r = Ok e → ∃ header payload, taken = header +:+ payload ∧ str_len header = 4 ∧
       get_u32 header = N.of_nat (str_len payload) ∧ 0 < str_len payload ∧
       decode_message payload = Some e ∧ protocol_version e = PROTOCOL_VERSION ∧ kind e ≠ None).
Proof.
  unfold read_envelope. destruct (read_exact 4 c) as [c1 r1] eqn:E1.
  apply read_exact_taken in E1 as (h & Hin & Hout & [[-> Hh]|(-> & Hnil & Hh)]).
  2: { intros [= <- <-]. exists h. split_and!; [done..|lia|done|done]. }
  destruct (N.ltb_spec max (get_u32 h)) as [Hbig|Hle].
  { intros [= <- <-]. exists h. split_and!; [done..|lia| |done]. intros m got [= <- <-]. auto. }
  destruct (N.eqb_spec (get_u32 h) 0) as [Hz|Hnz].
  { intros [= <- <-]. exists h. split_and!; [done..|lia|done|done]. }
  destruct (read_exact _ c1) as [c2 r2] eqn:E2.
  apply read_exact_taken in E2 as (p & Hin2 & Hout2 & [[-> Hp]|(-> & Hnil & Hp)]);
    intros [= <- <-]; exists (h +:+ p); rewrite Hin, Hin2, sapp_assoc.
  all: assert (Hl : str_len (h +:+ p) = 4 + str_len p) by (unfold str_len in *; rewrite slength_app; lia).
  all: rewrite Hl; split_and!; [done|congruence|lia| |]; try done.
  - intros m got Hr. destruct (decode_message p); [|done]. destruct (negb _); [done|]. by destruct (kind _).
  - intros e Hr. exists h, p. split_and!; [done..|lia|lia| | |];
      destruct (decode_message p) as [e'|]; try done;
      destruct (N.eqb_spec (protocol_version e') PROTOCOL_VERSION); try done; cbn in Hr;
      destruct (kind e') eqn:Hk; try done; injection Hr as <-; congruence.
Qed.

(** A frame that was cut short, by the writer or on the way, is never
    delivered: reading any strict prefix of a frame within the limit ends in an
    I/O error. *)
Theorem torn_frame_rejected max payload sent rest out :
  (0 < N.of_nat (str_len payload) <= max)%N → (N.of_nat (str_len payload) < 2 ^ 32)%N →
  frame payload = sent +:+ rest → rest ≠ "" →
  read_envelope max (mkConn sent out) = (mkConn "" out, Err IpcIo).
Proof.
  intros Hl Hm Hf Hr. unfold read_envelope, read_exact. cbn [inbound outbound].
  destruct (split_at 4 sent) as [[h p]|] eqn:E; [|done]. apply split_at_spec in E as [-> Hh].
  unfold frame in Hf. rewrite sapp_assoc in Hf.
  apply sapp_inv_length in Hf as [<- Hf]; [|by unfold str_len in Hh; rewrite Hh].
  rewrite get_put_u32 by done. destruct (N.ltb_spec max (N.of_nat (str_len payload))); [lia|].
  destruct (N.eqb_spec (N.of_nat (str_len payload)) 0); [lia|]. cbn [inbound outbound].
  rewrite Nat2N.id, split_at_short; [done|]. rewrite Hf. unfold str_len. rewrite slength_app.
  destruct rest; [done|]. cbn. lia.
Qed.

End FrameLaws.

(** ** The supervisor of the worker *)

(** [src crates/aros-ipc/src/session.rs 28-45 SessionError] *)
Inductive SessionError :=
| SessionIo
| SessionIpc (e : IpcError)
| Timeout
| NotHello
| NoStream
| BadToken
| Transport (s : string)
| Container (s : string).

(** [src crates/aros-ipc/src/session.rs 53-58 WorkerEndpoint] *)
Inductive WorkerEndpoint := EndTcp (address : string) | EndUnix (path : string).

(** A started process: its program, arguments and added environment. *)
Record Child := mkChild {
  child_program : string;
  child_args : list string;
  child_env : list (string * string);
}.

(** [src crates/aros-ipc/src/session.rs 60-66 WorkerSupervisor] *)
Record WorkerSupervisor := mkSupervisor {
  listener_addr : string;
  expected_token : string;
  endpoint : WorkerEndpoint;
  child : option Child;
  stream : option Conn;
}.

Definition set_child (s : WorkerSupervisor) x :=
  mkSupervisor (listener_addr s) (expected_token s) (endpoint s) x (stream s).
Definition set_stream (s : WorkerSupervisor) x :=
  mkSupervisor (listener_addr s) (expected_token s) (endpoint s) (child s) x.

(** Binding: the listener's address and the token, a fresh identifier, are
    arguments; [None] is a failed system call.
    [src crates/aros-ipc/src/session.rs 70-83 WorkerSupervisor::bind_loopback] *)
Definition bind_loopback (address : option string) (uuid : string) :
    result SessionError WorkerSupervisor :=
  match address with
  | None => Err SessionIo
  | Some address => Ok (mkSupervisor address uuid (EndTcp address) None None)
  end.

(** [src crates/aros-ipc/src/session.rs 87-112 WorkerSupervisor::bind_unix] *)
Definition bind_unix (setup_ok : bool) (path uuid : string) : result SessionError WorkerSupervisor :=
  if setup_ok then Ok (mkSupervisor path uuid (EndUnix path) None None) else Err SessionIo.

(** [src crates/aros-ipc/src/session.rs 318-354 containerized_run_args] *)
Definition containerized_run_args (python_mount socket_mount token_env_name image container_socket : string) :
    list string :=
  ["run"; "--rm"; "--network=none"; "--read-only"; "--cap-drop=ALL";
   "--security-opt=no-new-privileges"; "--pids-limit=128"; "--memory=512m"; "--cpus=1";
   "--tmpfs=/tmp:rw,noexec,nosuid,size=64m"; "-v"; python_mount; "-v"; socket_mount; "-e";
   "PYTHONPATH=/opt/aros/python"; "-e"; token_env_name; image; "python3"; "-m";
   "aros_research.worker"; "--socket"; container_socket].

Definition token_env : string := env_name "WORKER_TOKEN".

(** ** Paths: [Path::parent] and [Path::file_name] on Unix *)

Definition path_components (p : string) : list string :=
  match split_char "/" p with
  | [] => []
  | first :: rest =>
    (if is_empty first then [] else [first]) ++
    List.filter (λ c, negb (is_empty c) && negb (String.eqb c ".")) rest
  end.
Definition path_parent (p : string) : option string :=
  match reverse (path_components p) with
  | [] => None
  | _ :: r => Some ((if starts_with p "/" then "/" else "") +:+ join "/" (reverse r))
  end.
Definition path_file_name (p : string) : option string :=
  match reverse (path_components p) with
  | [] => None
  | c :: _ => if String.eqb c ".." || String.eqb c "." then None else Some c
  end.

(** What the host answers about paths, and whether a process can be started. *)
Record Host := mkHost {
  canonicalize : string → option string;
  host_is_dir : string → bool;
  spawn_ok : bool;
}.

Definition spawn (h : Host) (s : WorkerSupervisor) (c : Child) :
    WorkerSupervisor * result SessionError unit :=
  if spawn_ok h then (set_child s (Some c), Ok ()) else (s, Err SessionIo).

(** [src crates/aros-ipc/src/session.rs 122-167 WorkerSupervisor::spawn_python_containerized] *)
Definition spawn_python_containerized (h : Host) (podman image pythonpath : string)
    (s : WorkerSupervisor) : WorkerSupervisor * result SessionError unit :=
  match endpoint s with
  | EndTcp _ => (s, Err (Container "containerized worker requires Unix-socket IPC"))
  | EndUnix host_socket =>
    let prepared :=
      parent ← ok_or (path_parent host_socket) (Container "worker socket has no parent");
      socket_dir ← ok_or (canonicalize h parent) SessionIo;
      socket_name ← ok_or (path_file_name host_socket) (Container "worker socket name is invalid");
      source_python ← ok_or (canonicalize h pythonpath) SessionIo;
      if negb (host_is_dir h source_python)
      then Err (Container "PYTHONPATH mount is not a directory")
      else Ok (source_python +:+ ":/opt/aros/python:ro", socket_dir +:+ ":/run/aros:rw",
               "/run/aros/" +:+ socket_name) in
    match prepared with
    | Err e => (s, Err e)
    | Ok (python_mount, socket_mount, container_socket) =>
      spawn h s (mkChild podman
        (containerized_run_args python_mount socket_mount token_env image container_socket)
        [(token_env, expected_token s)])
    end
  end.

(** [src crates/aros-ipc/src/session.rs 182-204 WorkerSupervisor::spawn_python_uncontained] *)
Definition spawn_python_uncontained (h : Host) (python : string) (extra_args : list string)
    (pythonpath : string) (s : WorkerSupervisor) : WorkerSupervisor * result SessionError unit :=
  spawn h s (mkChild python
    (["-m"; "aros_research.worker"] ++
     match endpoint s with
     | EndTcp address => ["--tcp"; address]
     | EndUnix path => ["--socket"; path]
     end ++ extra_args)
    [("PYTHONPATH", pythonpath); (token_env, expected_token s)]).

(** What happens at the listener: nothing in ten seconds, an error, or a
    connection, whose first frame arrives in ten seconds or not. *)
Inductive AcceptEvent :=
| AcceptTimeout
| AcceptIo
| Accepted (c : Conn) (in_time : bool).

Section Session.
Context `{Prost}.
(** [CARGO_PKG_VERSION]. *)
Variable pkg_version : string.

Definition hello_ack (request_id : string) : Envelope :=
  mkEnvelope PROTOCOL_VERSION request_id
    (Some (KHelloAck (mkHelloAck pkg_version default_max_frame "" ""))).

(** [src crates/aros-ipc/src/session.rs 216-263 WorkerSupervisor::accept_hello] *)
Definition accept_hello (ev : AcceptEvent) (fault : option WriteFault) (s : WorkerSupervisor) :
    WorkerSupervisor * result SessionError string :=
  match ev with
  | AcceptTimeout => (s, Err Timeout)
  | AcceptIo => (s, Err SessionIo)
  | Accepted c in_time =>
    if negb in_time then (s, Err Timeout)
    else
      match read_envelope default_max_frame c with
      | (c, Err e) => (s, Err (SessionIpc e))
      | (c, Ok env) =>
        match kind env with
        | Some (KHello hello) =>
          if negb (String.eqb (token hello) (expected_token s)) then (s, Err BadToken)
          else
            match write_envelope fault (hello_ack (request_id env)) default_max_frame c with
            | (c, Err e) => (s, Err (SessionIpc e))
            | (c, Ok _) => (set_stream s (Some c), Ok (python_version hello))
            end
        | _ => (s, Err NotHello)
        end
      end
  end.

(** [src crates/aros-ipc/src/session.rs 265-268 WorkerSupervisor::read_next] *)
Definition read_next (s : WorkerSupervisor) : WorkerSupervisor * result SessionError Envelope :=
  match stream s with
  | None => (s, Err NoStream)
  | Some c => let '(c, r) := read_envelope default_max_frame c in
              (set_stream s (Some c), map_err SessionIpc r)
  end.

(** [src crates/aros-ipc/src/session.rs 270-274 WorkerSupervisor::write_next] *)
Definition write_next (fault : option WriteFault) (env : Envelope) (s : WorkerSupervisor) :
    WorkerSupervisor * result SessionError unit :=
  match stream s with
  | None => (s, Err NoStream)
  | Some c => let '(c, r) := write_envelope fault env default_max_frame c in
              (set_stream s (Some c), map_err SessionIpc r)
  end.

(** Whether the process has exited is an argument.
    [src crates/aros-ipc/src/session.rs 276-281 WorkerSupervisor::worker_alive] *)
Definition worker_alive (exited : bool) (s : WorkerSupervisor) : bool :=
  match child s with
  | Some _ => negb exited
  | None => false
  end.

(** [src crates/aros-ipc/src/session.rs 283-289 WorkerSupervisor::kill_worker] *)
Definition kill_worker (s : WorkerSupervisor) : WorkerSupervisor := set_child s None.

(** ** Sessions as traces *)

Inductive Label :=
| LSpawn (r : result SessionError unit)
| LAccept (ev : AcceptEvent) (r : result SessionError string)
| LRead (r : result SessionError Envelope)
| LWrite (env : Envelope) (r : result SessionError unit)
| LKill.

Inductive step : WorkerSupervisor → Label → WorkerSupervisor → Prop :=
| step_contained h podman image pp s s' r :
    spawn_python_containerized h podman image pp s = (s', r) → step s (LSpawn r) s'
| step_uncontained h python args pp s s' r :
    spawn_python_uncontained h python args pp s = (s', r) → step s (LSpawn r) s'
| step_accept ev fault s s' r : accept_hello ev fault s = (s', r) → step s (LAccept ev r) s'
| step_read s s' r : read_next s = (s', r) → step s (LRead r) s'
| step_write fault env s s' r : write_next fault env s = (s', r) → step s (LWrite env r) s'
| step_kill s : step s LKill (kill_worker s).

Inductive session (s0 : WorkerSupervisor) : list Label → WorkerSupervisor → Prop :=
| session_nil : session s0 [] s0
| session_snoc ls s l s' : session s0 ls s → step s l s' → session s0 (ls ++ [l]) s'.

(** The peer of [c] opened with a hello that carries the token. *)
Definition authenticated (tok : string) (c : Conn) (version : string) : Prop :=
  ∃ c' env h, read_envelope default_max_frame c = (c', Ok env) ∧ kind env = Some (KHello h) ∧
    token h = tok ∧ python_version h = version.

Lemma accept_hello_Ok ev fault s s' v :
  accept_hello ev fault s = (s', Ok v) ↔
  ∃ c c1 c2 env h, ev = Accepted c true ∧ read_envelope default_max_frame c = (c1, Ok env) ∧
    kind env = Some (KHello h) ∧ token h = expected_token s ∧ python_version h = v ∧
    write_envelope fault (hello_ack (request_id env)) default_max_frame c1 = (c2, Ok ()) ∧
    s' = set_stream s (Some c2).
Proof.
  split.
  - unfold accept_hello. destruct ev as [| |c []]; cbn [negb]; try done.
    destruct (read_envelope _ c) as [c1 [env|]] eqn:Er; [|done].
    destruct (kind env) as [[h| | | | | |]|] eqn:Hk; try done.
    destruct (String.eqb_spec (token h) (expected_token s)); [|done]. cbn [negb].
    destruct (write_envelope _ _ _ c1) as [c2 [[]|]] eqn:Ew; [|done]. intros [= <- <-].
    by exists c, c1, c2, env, h.
  - intros (c & c1 & c2 & env & h & -> & Hr & Hk & Ht & <- & Hw & ->). cbn. rewrite Hr, Hk, Ht.
    rewrite String.eqb_refl. cbn. by rewrite Hw.
Qed.

(** A failed accept leaves the supervisor as it was. *)
Lemma accept_hello_Err ev fault s s' e : accept_hello ev fault s = (s', Err e) → s' = s.
Proof.
  unfold accept_hello. destruct ev as [| |c []]; cbn [negb]; try (by intros [= <-]).
  destruct (read_envelope _ c) as [c1 [env|]]; [|by intros [= <-]].
  destruct (kind env) as [[h| | | | | |]|]; try (by intros [= <-]).
  destruct (negb _); [by intros [= <-]|]. destruct (write_envelope _ _ _ c1) as [c2 []]; [done|].
  by intros [= <-].
Qed.

(** What a step changes: never the token, and the stream appears only by an
    authenticated accept. *)
Lemma step_effect s l s' :
  step s l s' →
  expected_token s' = expected_token s ∧
  (is_Some (stream s') → is_Some (stream s) ∨
     ∃ c v, l = LAccept (Accepted c true) (Ok v) ∧ authenticated (expected_token s) c v) ∧
  ((∃ e, l = LRead (Ok e)) ∨ (∃ e, l = LWrite e (Ok ())) → is_Some (stream s)).
Proof.
  assert (Hsp : ∀ h c r, spawn h s c = (s', r) →
    expected_token s' = expected_token s ∧ stream s' = stream s).
  { intros h c r. unfold spawn. destruct (spawn_ok h); by intros [= <- _]. }
  destruct 1 as [h podman image pp s s' r Hx|h python args pp s s' r Hx|ev fault s s' r Hx|s s' r Hx
    |fault env s s' r Hx|s].
  - assert (expected_token s' = expected_token s ∧ stream s' = stream s) as [Ht Hs].
    { unfold spawn_python_containerized in Hx. destruct (endpoint s); [by injection Hx as <-|].
      destruct (_ ≫= _) as [[[a b] c]|]; [by eapply Hsp|by injection Hx as <-]. }
    rewrite Hs. split_and!; [done|by left|]. by intros [[? ?]|[? ?]].
  - apply Hsp in Hx as [Ht Hs]. rewrite Hs. split_and!; [done|by left|]. by intros [[? ?]|[? ?]].
  - split_and!; [| |by intros [[? ?]|[? ?]]]; destruct r as [v|e].
    + apply accept_hello_Ok in Hx as (? & ? & ? & ? & ? & _ & _ & _ & _ & _ & _ & ->). done.
    + by apply accept_hello_Err in Hx as ->.
    + apply accept_hello_Ok in Hx as (c & c1 & c2 & env & h & -> & Hr & Hk & Ht & Hv & _).
      intros _. right. exists c, v. split; [done|]. by exists c1, env, h.
    + apply accept_hello_Err in Hx as ->. by left.
  - unfold read_next in Hx. destruct (stream s) as [c|] eqn:Hs.
    + destruct (read_envelope _ c). injection Hx as <- _. cbn. eauto.
    + injection Hx as <- <-. rewrite Hs. split_and!; [done|by left|]. by intros [[? [=]]|[? ?]].
  - unfold write_next in Hx. destruct (stream s) as [c|] eqn:Hs.
    + destruct (write_envelope _ _ _ c). injection Hx as <- _. cbn. eauto.
    + injection Hx as <- <-. rewrite Hs. split_and!; [done|by left|]. by intros [[? ?]|[? [=]]].
  - cbn. split_and!; [done|by left|]. by intros [[? ?]|[? ?]].
Qed.

(** Some accept of the trace was authenticated. *)
Definition handshaken (tok : string) (ls : list Label) : Prop :=
  ∃ c v, LAccept (Accepted c true) (Ok v) ∈ ls ∧ authenticated tok c v.

Lemma session_inv s0 ls s :
  stream s0 = None → session s0 ls s →
  expected_token s = expected_token s0 ∧
  (is_Some (stream s) → handshaken (expected_token s0) ls).
Proof.
  intros H0. induction 1 as [|ls s l s' _ [IHt IHs] Hst]; [by rewrite H0; split; [|intros []]|].
  apply step_effect in Hst as (Ht & Hs & _). split; [congruence|]. intros Hsome.
  destruct (Hs Hsome) as [(c & v & Hin & Ha)%IHs|(c & v & -> & Ha)]; exists c, v.
  - split; [set_solver|done].
  - split; [set_solver|congruence].
Qed.

(** C24: whatever a worker sends and in whatever order the supervisor is used, no
    envelope is received from a worker and none is sent to it before a peer opened
    with a hello that carries the supervisor's token, on a Unix socket as on any other
    connection: [accept_hello] makes no difference between them. *)
Theorem exchange_authenticated s0 before l after s :
  stream s0 = None → session s0 (before ++ l :: after) s →
  (∃ e, l = LRead (Ok e)) ∨ (∃ e, l = LWrite e (Ok ())) →
  handshaken (expected_token s0) before.
Proof.
  intros H0 Hs Hl. remember (before ++ l :: after) as ls eqn:Hls. revert after Hls.
  induction Hs as [|ls s l' s' Hs IH Hst]; intros after Hls; [by destruct before|].
  destruct (decide (after = [])) as [->|Hne].
  - apply app_inj_tail in Hls as [-> ->]. apply step_effect in Hst as (_ & _ & Hx).
    by eapply session_inv, Hx, Hl.
  - destruct (exists_last Hne) as (after' & x & ->). rewrite app_comm_cons, app_assoc in Hls.
    apply app_inj_tail in Hls as [-> ->]. by eapply IH.
Qed.

(** The command line of the contained worker does not depend on the token: it is
    passed by the name of an environment variable only. *)
Theorem worker_argv_hides_token h podman image pp s s' c tok :
  spawn_python_containerized h podman image pp s = (s', Ok ()) → child s' = Some c →
  ∃ s1 c1, spawn_python_containerized h podman image pp
      (mkSupervisor (listener_addr s) tok (endpoint s) (child s) (stream s)) = (s1, Ok ()) ∧
    child s1 = Some c1 ∧ child_program c1 = child_program c ∧ child_args c1 = child_args c ∧
    child_env c = [(token_env, expected_token s)].
Proof.
  unfold spawn_python_containerized, spawn. cbn [endpoint expected_token].
  destruct (endpoint s); [done|]. destruct (_ ≫= _) as [[[a b] d]|]; [|done].
  destruct (spawn_ok h); [|done]. intros [= <-] [= <-]. by eexists _, _.
Qed.

End Session.

End Ipc.
