(* ===== verification/Broker.v ===== *)
(** * The tool broker (crate [aros-core], [broker.rs])

    Every tool runs through [execute]: the request is logged, the policy engine
    decides, and only then is the capability dispatched; its output is stored
    in the content-addressed store. The host file system and the TCP transport
    are parameters. *)

From S2P Require Import Prelude RustStr Net Json Types PathScope Policy Ledger Cas HttpLab.
Import PathScope Shell NetworkScope Ledger HttpLab.

Module Broker.

(** [src crates/aros-core/src/broker.rs 17-29 BrokerError] *)
Inductive BrokerError :=
| Denied (reason : string)
| BeIo
| BeCas (e : Cas.CasError)
| BeLedger (e : LedgerError)
| BeHttp (e : HttpError).

Inductive FileType := FtFile | FtDir | FtSymlink | FtOther.

#[global] Instance FileType_eq_dec : EqDecision FileType.
Proof. solve_decision. Defined.

(** What the broker asks of the host: [None] is an I/O error. [read_dir] lists
    the names of a directory with the type of each entry, in directory order. *)
Record HostFs := mkHostFs {
  symlink_metadata : string → option FileType;
  canonicalize : string → option string;
  read : string → option string;
  read_to_string : string → option string;
  read_dir : string → option (list (string * option FileType));
}.

(** [src crates/aros-core/src/broker.rs 31-40 ToolBroker] *)
Record ToolBroker `{IpNetLib} := mkToolBroker {
  broker_campaign_id : CampaignId;
  manifest : AuthorizationManifest;
  broker_manifest_hash : string;
  snapshot : option TargetSnapshot;
  sandbox : SandboxIdentity;
  cas : Cas.ContentAddressedStore;
  cli_human_override : bool;
}.

(** What [execute] mutates: the ledger and the blob store. *)
Record BrokerState := mkBrokerState { ledger : EventLedger; blobs : gmap string string }.

Section Files.
Variable fs : HostFs.

(** [src crates/aros-core/src/broker.rs 180-186 reject_symlink] *)
Definition reject_symlink (path : string) : result BrokerError unit :=
  ft ← ok_or (symlink_metadata fs path) BeIo;
  if bool_decide (ft = FtSymlink) then Err (Denied "symlink traversal is forbidden") else Ok ().

(** [Path::is_file] and [is_dir] on a path that is not a symlink. *)
Definition is_file (path : string) : bool := bool_decide (symlink_metadata fs path = Some FtFile).
Definition is_dir (path : string) : bool := bool_decide (symlink_metadata fs path = Some FtDir).

Definition child_path (dir name : string) : string := dir +:+ "/" +:+ name.

(** The loop of [list_tree] over sorted entries; [recurse] lists a subdirectory. *)
Fixpoint list_entries (recurse : string → result BrokerError string) (path : string)
    (entries : list (string * option FileType)) (output : string) : result BrokerError string :=
  match entries with
  | [] => Ok output
  | (name, ft) :: entries =>
    let child := child_path path name in
    ft ← ok_or ft BeIo;
    if bool_decide (ft = FtSymlink) then list_entries recurse path entries output
    else
      let output := output +:+ child +:+ String newline "" in
      if bool_decide (ft = FtDir) then
        sub ← recurse child; list_entries recurse path entries (output +:+ sub)
      else list_entries recurse path entries output
  end.

Definition name_le (a b : string * option FileType) : Prop := String.le a.1 b.1.
#[export] Instance name_le_dec a b : Decision (name_le a b).
Proof. unfold name_le. apply _. Defined.

(** [fuel] is [17 - depth]: depth 17 and beyond yields nothing.
    [src crates/aros-core/src/broker.rs 188-214 list_tree] *)
Fixpoint list_tree (fuel : nat) (path : string) : result BrokerError string :=
  match fuel with
  | 0 => Ok ""
  | S fuel =>
    _ ← reject_symlink path;
    if is_file path then Ok (path +:+ String newline "")
    else
      entries ← ok_or (read_dir fs path) BeIo;
      list_entries (list_tree fuel) path (merge_sort name_le entries) ""
  end.

(** [src crates/aros-core/src/broker.rs 237-241 search_walk] *)
Fixpoint matching_lines (path needle : string) (index : nat) (ls : list string) (output : string) :
    string :=
  match ls with
  | [] => output
  | line :: ls =>
    matching_lines path needle (S index) ls
      (if contains line needle
       then output +:+ path +:+ ":" +:+ display_N (N.of_nat (index + 1)) +:+ ":" +:+ line +:+
            String newline ""
       else output)
  end.

Fixpoint search_entries (recurse : string → string → result BrokerError string) (path : string)
    (entries : list (string * option FileType)) (output : string) : result BrokerError string :=
  match entries with
  | [] => Ok output
  | (name, ft) :: entries =>
    ft ← ok_or ft BeIo;
    if bool_decide (ft = FtSymlink) then search_entries recurse path entries output
    else output ← recurse (child_path path name) output; search_entries recurse path entries output
  end.

(** [src crates/aros-core/src/broker.rs 225-255 search_walk] *)
Fixpoint search_walk (fuel : nat) (needle path output : string) : result BrokerError string :=
  match fuel with
  | 0 => Ok output
  | S fuel =>
    _ ← reject_symlink path;
    if is_file path then
      match read_to_string fs path with
      | Some text => Ok (matching_lines path needle 0 (lines text) output)
      | None => Ok output
      end
    else if is_dir path then
      entries ← ok_or (read_dir fs path) BeIo;
      search_entries (search_walk fuel needle) path entries output
    else Ok output
  end.

Definition max_depth_fuel : nat := 17.

(** [src crates/aros-core/src/broker.rs 216-223 search_text] *)
Definition search_text (path needle : string) : result BrokerError string :=
  if is_empty needle then Ok "" else search_walk max_depth_fuel needle path "".

End Files.

Definition quoted (s : string) : string := String "034" (s +:+ String "034" "").

Section Broker.
Context `{IpNetLib, U : UuidLib, J : JsonLib, HashLib, !Serialize EventRecord}.
Variable fs : HostFs.
Variable exchange : string → N → string → option string.
(** [serde_json::to_string] of a string. *)
Variable json_string : string → string.
Implicit Types (b : ToolBroker) (i : ToolIntent) (st : BrokerState).

(** [src crates/aros-core/src/broker.rs 97-125 ToolBroker::canonical_authorized_path] *)
Definition canonical_authorized_path b (raw : string) : result BrokerError string :=
  if is_empty raw || is_forbidden_host_resource raw then Err (Denied "filesystem path is forbidden")
  else
    ft ← ok_or (symlink_metadata fs raw) BeIo;
    if bool_decide (ft = FtSymlink) then Err (Denied "symlink traversal is forbidden")
    else
      canonical ← ok_or (canonicalize fs raw) BeIo;
      if is_forbidden_host_resource canonical then
        Err (Denied "canonical filesystem target is forbidden")
      else
        let canonical_roots := omap (canonicalize fs) (allowed_filesystem_roots (manifest b)) in
        if bool_decide (canonical_roots = []) || negb (path_allowed canonical canonical_roots)
        then Err (Denied "canonical filesystem target escapes authorized roots")
        else Ok canonical.

(** [src crates/aros-core/src/broker.rs 127-177 ToolBroker::dispatch] *)
Definition dispatch b i : result BrokerError (Z * string * string) :=
  match capability i with
  | ReadFile | CollectFile =>
    path ← canonical_authorized_path b (default "" (path i));
    _ ← reject_symlink fs path;
    bytes ← ok_or (read fs path) BeIo;
    Ok (0%Z, bytes, "")
  | ListTree =>
    path ← canonical_authorized_path b (default "." (path i));
    out ← list_tree fs max_depth_fuel path;
    Ok (0%Z, out, "")
  | SearchText =>
    path ← canonical_authorized_path b (default "." (path i));
    let needle := default "" (argv i !! 1) in
    out ← search_text fs path needle;
    Ok (0%Z, out, "")
  | GitInspect =>
    path ← canonical_authorized_path b (default "." (path i));
    let head := child_path (child_path path ".git") "HEAD" in
    if bool_decide (symlink_metadata fs head = Some FtSymlink)
    then Err (Denied "git HEAD symlink is forbidden")
    else Ok (0%Z, default "not-a-git-repo" (read fs head), "")
  | HttpRequest =>
    net ← ok_or (network i) (Denied "http_request requires network intent");
    path ← ok_or (http_target i ≫= λ v, if starts_with v "/" then Some v else None)
             (Denied "http_request requires http_target");
    response ← map_err BeHttp (http_get exchange (host net) (port net) path (http_cookie i));
    let encoded_body := json_string (body response) in
    Ok (0%Z, "{" +:+ quoted "status" +:+ ":" +:+ display_N (status response) +:+ "," +:+
             quoted "body" +:+ ":" +:+ encoded_body +:+ "}", "")
  | other => Err (Denied ("capability " +:+ as_str other +:+ " not implemented in broker dispatch"))
  end.

(** Fresh values and clock readings one call of [execute] draws. *)
Record Draws := mkDraws {
  clock : nat → N;
  tmp_uuid : nat → string;
  new_artifact : nat → ArtifactId;
  cas_fault : nat → option Cas.put_fault;
}.

(** Append one event without artifacts; the ledger is threaded. *)
Definition log (d : Draws) (n : nat) st (ev : ResearchEvent) : BrokerState * result BrokerError unit :=
  match append (clock d n) (ledger st) ev [] with
  | Ok (l, _) => (mkBrokerState l (blobs st), Ok ())
  | Err e => (st, Err (BeLedger e))
  end.

Definition store b (d : Draws) (n : nat) st (bytes : string) :
    BrokerState * result BrokerError EvidenceArtifact :=
  match Cas.put (cas b) (cas_fault d n) (tmp_uuid d n) (new_artifact d n) (blobs st) bytes
          "application/octet-stream" with
  | (files, Ok art) => (mkBrokerState (ledger st) files, Ok art)
  | (files, Err e) => (mkBrokerState (ledger st) files, Err (BeCas e))
  end.

(** [src crates/aros-core/src/broker.rs 71-94 ToolBroker::execute] *)
Definition run_allowed b (d : Draws) (verdict : PolicyVerdict) i st :
    BrokerState * result BrokerError ExecutionReceipt :=
  let started := clock d 2 in
  match dispatch b i with
  | Err e => (st, Err e)
  | Ok (exit_status, stdout, stderr) =>
    match store b d 0 st stdout with
    | (st, Err e) => (st, Err e)
    | (st, Ok stdout_art) =>
      match store b d 1 st stderr with
      | (st, Err e) => (st, Err e)
      | (st, Ok stderr_art) =>
        (st, Ok {| receipt_request_id := request_id i;
                   receipt_capability := capability i;
                   receipt_decision := decision verdict;
                   executable := argv i !! 0;
                   receipt_argv := argv i;
                   receipt_cwd := cwd i;
                   receipt_sandbox_id :=
                     if containment_demonstrated (sandbox b)
                     then Some (id_to_string (sandbox_id (sandbox b))) else None;
                   started_unix_ms := started;
                   finished_unix_ms := clock d 3;
                   exit_status := Some exit_status;
                   stdout_digest := Some (digest_blake3 stdout_art);
                   stderr_digest := Some (digest_blake3 stderr_art);
                   receipt_manifest_hash := broker_manifest_hash b;
                   deny_reason := None |})
      end
    end
  end.

(** [src crates/aros-core/src/broker.rs 43-95 ToolBroker::execute] *)
Definition execute b (d : Draws) i st : BrokerState * result BrokerError ExecutionReceipt :=
  let cid := broker_campaign_id b in
  match log d 0 st (ToolRequested cid (request_id i) (capability i)) with
  | (st, Err e) => (st, Err e)
  | (st, Ok _) =>
    let verdict := evaluate (manifest b) (snapshot b) (sandbox b) i in
    if negb (v0_1_effective_allow verdict (cli_human_override b)) then
      match log d 1 st (ToolDenied cid (request_id i) (reason verdict)) with
      | (st, Err e) => (st, Err e)
      | (st, Ok _) => (st, Err (Denied (reason verdict)))
      end
    else
      match log d 1 st (ToolAllowed cid (request_id i)) with
      | (st, Err e) => (st, Err e)
      | (st, Ok _) => run_allowed b d verdict i st
      end
  end.

(** ** Mediation *)

Definition events (l : EventLedger) : list ResearchEvent := (λ e, event (record e)) <$> l.

Lemma log_Ok d n st ev st' :
  log d n st ev = (st', Ok ()) →
  events (ledger st') = events (ledger st) ++ [ev] ∧ blobs st' = blobs st ∧
  (verify (ledger st) = Ok () → verify (ledger st') = Ok ()).
Proof.
  unfold log. destruct (append _ _ _ _) as [[l e]|] eqn:E; [|done]. intros [= <-]. cbn.
  pose proof E as (-> & Hr & _ & _ & He)%append_Ok. unfold events.
  rewrite fmap_app. cbn. rewrite Hr. split_and!; [done..|].
  unfold verify. rewrite !verify_from_Ok, chain_from_app, chain_from_single. done.
Qed.

Lemma log_blobs d n st ev st' r : log d n st ev = (st', r) → blobs st' = blobs st.
Proof. unfold log. destruct (append _ _ _ _) as [[l e]|]; naive_solver. Qed.

Lemma store_ledger b d n st bytes st' r : store b d n st bytes = (st', r) → ledger st' = ledger st.
Proof. unfold store. destruct (Cas.put _ _ _ _ _ _ _) as [f [a|]]; naive_solver. Qed.

Lemma run_allowed_ledger b d v i st st' r : run_allowed b d v i st = (st', r) → ledger st' = ledger st.
Proof.
  unfold run_allowed. destruct (dispatch b i) as [[[x out] err]|]; [|naive_solver].
  destruct (store b d 0 st out) as [st1 [a1|]] eqn:E1; [|intros [= <- _]; by eapply store_ledger].
  destruct (store b d 1 st1 err) as [st2 [a2|]] eqn:E2; intros [= <- _];
    apply store_ledger in E1, E2; congruence.
Qed.

(** Whatever the result, the ledger only grows and stays verifiable. *)
Lemma execute_ledger b d i st st' r :
  execute b d i st = (st', r) →
  (∃ evs, events (ledger st') = events (ledger st) ++ evs) ∧
  (verify (ledger st) = Ok () → verify (ledger st') = Ok ()).
Proof.
  assert (Hlog : ∀ n st ev st1 r1, log d n st ev = (st1, r1) →
    (∃ evs, events (ledger st1) = events (ledger st) ++ evs) ∧
    (verify (ledger st) = Ok () → verify (ledger st1) = Ok ())).
  { intros n st0 ev st1 [[]|e] E; [apply log_Ok in E as (? & _ & ?); eauto|].
    unfold log in E. destruct (append _ _ _ _) as [[]|]; [done|]. injection E as <- _.
    split; [exists []; by rewrite app_nil_r|done]. }
  assert (Htrans : ∀ st0 st1 st2,
    (∃ evs, events (ledger st1) = events (ledger st0) ++ evs) →
    (∃ evs, events (ledger st2) = events (ledger st1) ++ evs) →
    ∃ evs, events (ledger st2) = events (ledger st0) ++ evs).
  { intros st0 st1 st2 [a Ha] [c Hc]. exists (a ++ c). by rewrite Hc, Ha, app_assoc. }
  unfold execute. destruct (log d 0 _ _) as [st1 [[]|]] eqn:E1; apply Hlog in E1 as [G1 V1].
  2:{ by intros [= <- _]. }
  destruct (negb _).
  - destruct (log d 1 _ _) as [st2 r2] eqn:E2. apply Hlog in E2 as [G2 V2].
    destruct r2 as [[]|]; intros [= <- _]; eauto.
  - destruct (log d 1 _ _) as [st2 [[]|]] eqn:E2; apply Hlog in E2 as [G2 V2].
    + intros Hr%run_allowed_ledger. rewrite Hr. eauto.
    + intros [= <- _]. eauto.
Qed.

(** A receipt carries the decision it was given under. *)
Lemma receipt_decision_allow b d i st st' r :
  execute b d i st = (st', Ok r) → cli_human_override b = false → receipt_decision r = Allow.
Proof.
  unfold execute. destruct (log d 0 _ _) as [st1 [[]|]]; [|done]. intros Hx Ho. rewrite Ho in Hx.
  destruct (v0_1_effective_allow _ _) eqn:Ev; cbn [negb] in Hx.
  2:{ by destruct (log d 1 _ _) as [? [[]|]]. }
  destruct (log d 1 _ _) as [st2 [[]|]]; [|done].
  unfold run_allowed in Hx. unfold v0_1_effective_allow in Ev. repeat case_match; naive_solver.
Qed.

(** What a receipt says of its intent and of the ledger. *)
Lemma execute_Ok b d i st st' r :
  execute b d i st = (st', Ok r) →
  permitted (manifest b) (sandbox b) i ∧
  (needs_human (manifest b) i → cli_human_override b = true) ∧
  events (ledger st') = events (ledger st) ++
    [ToolRequested (broker_campaign_id b) (request_id i) (capability i);
     ToolAllowed (broker_campaign_id b) (request_id i)] ∧
  (verify (ledger st) = Ok () → verify (ledger st') = Ok ()) ∧
  receipt_manifest_hash r = broker_manifest_hash b ∧
  (receipt_sandbox_id r ≠ None → containment_demonstrated (sandbox b) = true).
Proof.
  unfold execute. destruct (log d 0 _ _) as [st1 [[]|]] eqn:E1; [|done].
  destruct (v0_1_effective_allow _ _) eqn:Ev; cbn [negb].
  2:{ by destruct (log d 1 _ _) as [? [[]|]]. }
  apply effective_allow_spec in Ev as [Hp Hh].
  destruct (log d 1 _ _) as [st2 [[]|]] eqn:E2; [|done]. intros Hr.
  apply log_Ok in E1 as (Ev1 & _ & V1), E2 as (Ev2 & _ & V2).
  pose proof (run_allowed_ledger _ _ _ _ _ _ _ Hr) as Hl.
  split_and!; [done..| | | |].
  - by rewrite Hl, Ev2, Ev1, <- app_assoc.
  - rewrite Hl. auto.
  - unfold run_allowed in Hr. repeat case_match; naive_solver.
  - unfold run_allowed in Hr. repeat case_match; naive_solver.
Qed.

(** C15: complete mediation. A receipt exists only for an intent the policy
    permits (with the human override where the gate demands it); the ledger
    gains exactly the request and the allow decision, in that order, and stays
    verified; the sandbox is named only if its containment was demonstrated. *)
Theorem execute_mediated b d i st st' r :
  execute b d i st = (st', Ok r) →
  permitted (manifest b) (sandbox b) i ∧
  (needs_human (manifest b) i → cli_human_override b = true) ∧
  events (ledger st') = events (ledger st) ++
    [ToolRequested (broker_campaign_id b) (request_id i) (capability i);
     ToolAllowed (broker_campaign_id b) (request_id i)] ∧
  (verify (ledger st) = Ok () → verify (ledger st') = Ok ()) ∧
  receipt_manifest_hash r = broker_manifest_hash b ∧
  (receipt_sandbox_id r ≠ None → containment_demonstrated (sandbox b) = true).
Proof. apply execute_Ok. Qed.

(** What happens to an intent that is not permitted. *)
Lemma execute_refused b d i st st' r :
  ¬ (permitted (manifest b) (sandbox b) i ∧
     (needs_human (manifest b) i → cli_human_override b = true)) →
  execute b d i st = (st', r) →
  blobs st' = blobs st ∧
  (∃ e, r = Err e) ∧
  let why := reason (evaluate (manifest b) (snapshot b) (sandbox b) i) in
  (r = Err (Denied why) →
   events (ledger st') = events (ledger st) ++
     [ToolRequested (broker_campaign_id b) (request_id i) (capability i);
      ToolDenied (broker_campaign_id b) (request_id i) why]) ∧
  (r ≠ Err (Denied why) → ∃ e, r = Err (BeLedger e)).
Proof.
  intros Hn. unfold execute. destruct (log d 0 _ _) as [st1 [[]|]] eqn:E1.
  2:{ intros [= <- <-]. apply log_blobs in E1 as Hb. unfold log in E1.
      destruct (append _ _ _ _) as [[]|]; simplify_eq/=. naive_solver. }
  destruct (v0_1_effective_allow _ _) eqn:Ev; cbn [negb].
  { by apply effective_allow_spec in Ev. }
  destruct (log d 1 _ _) as [st2 [[]|]] eqn:E2; intros [= <- <-].
  - apply log_Ok in E1 as (Ev1 & Hb1 & _), E2 as (Ev2 & Hb2 & _).
    split_and!; [congruence|eauto| |done]. intros _. by rewrite Ev2, Ev1, <- app_assoc.
  - apply log_blobs in E1, E2 as Hb2. unfold log in E2.
    destruct (append _ _ _ _) as [[]|]; simplify_eq/=. split_and!; [congruence|naive_solver..].
Qed.

(** C16: a denied intent has no effect beyond the audit trail: nothing is
    dispatched or stored, the ledger gains the request and the denial with the
    engine's reason, and the caller gets that reason. *)
Theorem execute_denied b d i st st' r :
  ¬ (permitted (manifest b) (sandbox b) i ∧
     (needs_human (manifest b) i → cli_human_override b = true)) →
  execute b d i st = (st', r) →
  blobs st' = blobs st ∧
  (∃ e, r = Err e) ∧
  let why := reason (evaluate (manifest b) (snapshot b) (sandbox b) i) in
  (r = Err (Denied why) →
   events (ledger st') = events (ledger st) ++
     [ToolRequested (broker_campaign_id b) (request_id i) (capability i);
      ToolDenied (broker_campaign_id b) (request_id i) why]) ∧
  (r ≠ Err (Denied why) → ∃ e, r = Err (BeLedger e)).
Proof. apply execute_refused. Qed.

(** ** What a dispatched file capability reads *)

Lemma canonical_authorized_path_Ok b raw canonical :
  canonical_authorized_path b raw = Ok canonical →
  canonicalize fs raw = Some canonical ∧
  (∃ ft, symlink_metadata fs raw = Some ft ∧ ft ≠ FtSymlink) ∧
  is_forbidden_host_resource raw = false ∧
  confined canonical (omap (canonicalize fs) (allowed_filesystem_roots (manifest b))).
Proof.
  unfold canonical_authorized_path. intros Hc. early_return Hc.
  apply bind_Ok in Hc as (ft & Hft%ok_or_Ok & Hc). early_return Hc.
  apply bind_Ok in Hc as (c & Hcan%ok_or_Ok & Hc). early_return Hc. early_return Hc.
  split_guards. split_and!; [done|by eauto|done|]. by apply path_allowed_spec.
Qed.

(** [ReadFile] and [CollectFile] return the contents of a confined regular
    path: no symbolic link is followed after canonicalization either. *)
Theorem read_file_confined b i x out err :
  dispatch b i = Ok (x, out, err) → capability i = ReadFile ∨ capability i = CollectFile →
  ∃ canonical, canonicalize fs (default "" (path i)) = Some canonical ∧
    confined canonical (omap (canonicalize fs) (allowed_filesystem_roots (manifest b))) ∧
    (∃ ft, symlink_metadata fs canonical = Some ft ∧ ft ≠ FtSymlink) ∧
    read fs canonical = Some out ∧ err = "".
Proof.
  intros Hd Hc. assert (
    (path ← canonical_authorized_path b (default "" (path i));
     _ ← reject_symlink fs path;
     bytes ← ok_or (read fs path) BeIo;
     Ok (0%Z, bytes, "")) = Ok (x, out, err)) as Hr.
  { unfold dispatch in Hd. by destruct Hc as [Hc|Hc]; rewrite Hc in Hd. }
  apply bind_Ok in Hr as (c & Hcan & Hr). apply bind_Ok in Hr as ([] & Hs & Hr).
  apply bind_Ok in Hr as (bytes & Hread%ok_or_Ok & [= <- <- <-]).
  apply canonical_authorized_path_Ok in Hcan as (Hcan & _ & _ & Hconf).
  unfold reject_symlink in Hs. apply bind_Ok in Hs as (ft' & Hft%ok_or_Ok & Hs).
  early_return Hs. split_guards. exists c. by eauto 10.
Qed.

End Broker.

(** ** Listings stay below their root *)

Section Listing.
Variable fs : HostFs.

Definition below (root p : string) : Prop := ∃ rest, p = root +:+ rest.

(** One path per line. *)
Definition listing (ps : list string) : string :=
  foldr (λ p acc, p +:+ String newline "" +:+ acc) "" ps.

Lemma listing_app ps qs : listing (ps ++ qs) = listing ps +:+ listing qs.
Proof.
  induction ps as [|p ps IH]; [done|]. cbn [listing foldr app].
  fold (listing (ps ++ qs)) (listing ps). by rewrite IH, !sapp_assoc.
Qed.

Lemma below_child root p name : below root p → below root (child_path p name).
Proof.
  intros [r ->]. exists (r +:+ "/" +:+ name). unfold child_path. by rewrite !sapp_assoc.
Qed.

Lemma list_entries_below recurse root path entries output out ps :
  (∀ child o, recurse child = Ok o → below root child →
     ∃ qs, o = listing qs ∧ Forall (below root) qs) →
  below root path → output = listing ps → Forall (below root) ps →
  list_entries recurse path entries output = Ok out →
  ∃ qs, out = listing qs ∧ Forall (below root) qs.
Proof.
  intros Hrec Hpath. revert output ps.
  induction entries as [|[name ft] entries IH]; intros output ps -> Hps; cbn [list_entries].
  { intros [= <-]. eauto. }
  intros (t & _ & H)%bind_Ok. pose proof (below_child _ _ name Hpath) as Hchild.
  assert (listing ps +:+ child_path path name +:+ String newline "" =
    listing (ps ++ [child_path path name])) as E.
  { rewrite listing_app. cbn [listing foldr]. by rewrite sapp_nil_r. }
  case_bool_decide; [exact (IH _ ps eq_refl Hps H)|]. rewrite E in H.
  assert (Forall (below root) (ps ++ [child_path path name])) as Hps'.
  { apply Forall_app. by repeat constructor. }
  case_bool_decide; [|exact (IH _ _ eq_refl Hps' H)].
  apply bind_Ok in H as (sub & Hsub & H).
  destruct (Hrec _ _ Hsub Hchild) as (qs & -> & Hqs). rewrite <- listing_app in H.
  eapply IH; [reflexivity| |exact H]. by apply Forall_app.
Qed.

Lemma list_tree_below fuel root path out :
  below root path → list_tree fs fuel path = Ok out →
  ∃ ps, out = listing ps ∧ Forall (below root) ps.
Proof.
  revert path out. induction fuel as [|fuel IH]; intros path out Hpath; cbn [list_tree].
  { intros [= <-]. by exists []. }
  intros ([] & _ & H)%bind_Ok. destruct (is_file fs path).
  { injection H as <-. exists [path]. cbn [listing foldr]. rewrite sapp_nil_r. by repeat constructor. }
  apply bind_Ok in H as (entries & _ & H).
  eapply (list_entries_below _ root path); [| |by exact (eq_refl : "" = listing [])|constructor|exact H].
  - intros child o Ho Hb. by eapply IH.
  - done.
Qed.

End Listing.

Section Outputs.
Context `{IpNetLib, U : UuidLib, J : JsonLib, Hl : HashLib, !Cas.HashLaws Hl,
  !Serialize EventRecord}.
Variable fs : HostFs.
Variable exchange : string → N → string → option string.
Variable json_string : string → string.
Implicit Types (b : ToolBroker) (i : ToolIntent) (st : BrokerState).

(** A tree listing is confined: every path it prints, one per line, extends
    the canonical path of the request, which lies under an authorized root. *)
Theorem list_tree_confined b i x out err :
  dispatch fs exchange json_string b i = Ok (x, out, err) → capability i = ListTree →
  ∃ canonical ps, canonicalize fs (default "." (path i)) = Some canonical ∧
    confined canonical (omap (canonicalize fs) (allowed_filesystem_roots (manifest b))) ∧
    out = listing ps ∧ Forall (below canonical) ps.
Proof.
  intros Hd Hc. unfold dispatch in Hd. rewrite Hc in Hd.
  apply bind_Ok in Hd as (c & (Hcan & _ & _ & Hconf)%canonical_authorized_path_Ok & Hd).
  apply bind_Ok in Hd as (o & Ho & [= <- <- <-]).
  apply (list_tree_below fs _ c) in Ho as (ps & -> & Hps); [by eauto 10|].
  exists "". by rewrite sapp_nil_r.
Qed.

Lemma store_Ok b d n st bytes st' art :
  (∀ k, contains_byte "/" (tmp_uuid d k) = false) → Cas.cas_wf (cas b) (blobs st) →
  store b d n st bytes = (st', Ok art) →
  digest_blake3 art = blake3_hex bytes ∧ Cas.cas_wf (cas b) (blobs st') ∧
  (∃ stored, blobs st' !! Cas.blob_path (cas b) (blake3_hex bytes) = Some stored) ∧
  (∀ dg c, Cas.is_digest dg = true → blobs st !! Cas.blob_path (cas b) dg = Some c →
     blobs st' !! Cas.blob_path (cas b) dg = Some c).
Proof.
  intros Hu Hwf. unfold store.
  destruct (Cas.put _ _ _ _ _ _ _) as [files [a|]] eqn:E; [|done]. intros [= <- <-]. cbn.
  pose proof (Cas.put_wf_lemma (cas b) (cas_fault d n) (tmp_uuid d n) (new_artifact d n) (blobs st)
    bytes "application/octet-stream" (Hu n) Hwf) as Hwf'. rewrite E in Hwf'.
  pose proof (Cas.put_lookup _ _ _ _ _ _ _ _ _ E) as (Hd & Hs).
  split_and!; [done..|]. intros dg c Hdg Hc.
  pose proof (Cas.put_keeps (cas b) (cas_fault d n) (tmp_uuid d n) (new_artifact d n) (blobs st)
    bytes "application/octet-stream" dg c (Hu n) Hdg Hc) as Hk. by rewrite E in Hk.
Qed.

(** What a receipt says of the stored output. *)
Lemma receipt_output b d i st st' r :
  (∀ k, contains_byte "/" (tmp_uuid d k) = false) → Cas.cas_wf (cas b) (blobs st) →
  execute fs exchange json_string b d i st = (st', Ok r) →
  ∃ x out err, dispatch fs exchange json_string b i = Ok (x, out, err) ∧ exit_status r = Some x ∧
    stdout_digest r = Some (blake3_hex out) ∧ stderr_digest r = Some (blake3_hex err) ∧
    (∃ o, Cas.get (cas b) (blobs st') (blake3_hex out) = Ok o) ∧
    (∃ o, Cas.get (cas b) (blobs st') (blake3_hex err) = Ok o).
Proof.
  intros Hu Hwf. unfold execute. destruct (log d 0 _ _) as [st1 [[]|]] eqn:E1; [|done].
  apply log_blobs in E1. destruct (negb _); [by destruct (log d 1 _ _) as [? [[]|]]|].
  destruct (log d 1 _ _) as [st2 [[]|]] eqn:E2; [|done]. apply log_blobs in E2.
  unfold run_allowed. destruct (dispatch _ _ _ b i) as [[[x out] err]|]; [|done].
  destruct (store b d 0 st2 out) as [st3 [a1|]] eqn:E3; [|done].
  destruct (store b d 1 st3 err) as [st4 [a2|]] eqn:E4; [|done]. intros [= <- <-].
  apply store_Ok in E3 as (Hd1 & Hwf3 & [o1 Ho1] & _); [|done|by rewrite E2, E1].
  apply store_Ok in E4 as (Hd2 & Hwf4 & [o2 Ho2] & Hkeep); [|done..].
  exists x, out, err. cbn. rewrite Hd1, Hd2. split_and!; try done.
  - exists o1. eapply Cas.get_Ok; [done|apply Cas.blake3_hex_digest|].
    apply Hkeep; [apply Cas.blake3_hex_digest|done].
  - exists o2. by eapply Cas.get_Ok; [|apply Cas.blake3_hex_digest|].
Qed.

(** A receipt is backed by evidence: both digests it quotes resolve in the
    store to bytes of that digest, and they are the digests of what the
    dispatched tool returned. *)
Theorem receipt_binds_output b d i st st' r :
  (∀ k, contains_byte "/" (tmp_uuid d k) = false) → Cas.cas_wf (cas b) (blobs st) →
  execute fs exchange json_string b d i st = (st', Ok r) →
  ∃ x out err, dispatch fs exchange json_string b i = Ok (x, out, err) ∧ exit_status r = Some x ∧
    stdout_digest r = Some (blake3_hex out) ∧ stderr_digest r = Some (blake3_hex err) ∧
    (∃ o, Cas.get (cas b) (blobs st') (blake3_hex out) = Ok o) ∧
    (∃ o, Cas.get (cas b) (blobs st') (blake3_hex err) = Ok o).
Proof. apply receipt_output. Qed.

End Outputs.
End Broker.
