(* ===== verification/Lab.v ===== *)
(** * The lab runtime (crate [aros-api], [lab.rs])

    What the daemon runs tool intents with: a manifest for one lab root, the
    translation of requests from HTTP clients and from the worker into tool
    intents, and their execution by the broker. Environment variables, path
    canonicalization and the text of errors are parameters. *)

From S2P Require Import Prelude RustStr Net Json Types PathScope Policy Ledger Cas HttpLab Ipc Broker.
Import PathScope Shell NetworkScope Ledger HttpLab.

Module Lab.

(** [src crates/aros-api/src/lab.rs 16-29 ToolIntentRequest] *)
Record ToolIntentRequest := mkToolIntentRequest {
  req_capability : string;
  req_argv : list string;
  req_path : option string;
  req_host : option string;
  req_port : option N;
  req_protocol : option string;
  req_http_target : option string;
  req_http_cookie : option string;
  req_timeout_ms : N;
}.

(** [src crates/aros-api/src/lab.rs 31-33 default_timeout] *)
Definition default_timeout : N := 30000.

(** [src crates/aros-api/src/lab.rs 35-41 ToolIntentResponse] *)
Record ToolIntentResponse := mkToolIntentResponse {
  resp_decision : string;
  resp_reason : string;
  resp_exit_status : option Z;
  resp_stdout_digest : option string;
}.

(** ** Requests become intents *)

Definition capability_names : list (string * ToolCapability) :=
  [("read_file", ReadFile);
   ("list_tree", ListTree);
   ("search_text", SearchText);
   ("git_inspect", GitInspect);
   ("run_tests", RunTests);
   ("run_language_tool", RunLanguageTool);
   ("http_request", HttpRequest);
   ("browser_request", BrowserRequest);
   ("execute_allowlisted_binary", ExecuteAllowlistedBinary);
   ("collect_logs", CollectLogs);
   ("collect_file", CollectFile);
   ("collect_process_state", CollectProcessState);
   ("fuzz_adapter", FuzzAdapter);
   ("sanitizer_adapter", SanitizerAdapter);
   ("static_analysis_adapter", StaticAnalysisAdapter)].

(** The [match] of the source, as a search in its table.
    [src crates/aros-api/src/lab.rs 121-140 capability_from_str] *)
Definition capability_from_str (s : string) : option ToolCapability :=
  snd <$> List.find (λ kv, String.eqb kv.1 s) capability_names.

Lemma capability_from_str_as_str s c : capability_from_str s = Some c → as_str c = s.
Proof.
  unfold capability_from_str. intros Hc. apply fmap_Some in Hc as ([k c'] & Hf & ->).
  apply List.find_some in Hf as [Hin <-%String.eqb_eq].
  assert (Hall : Forall (λ kv : string * ToolCapability, as_str kv.2 = kv.1) capability_names)
    by (repeat constructor).
  apply List.Forall_forall with (x := (k, c')) in Hall; done.
Qed.

(** The [match] on the protocol text. *)
Definition protocol_of (p : option string) : ProtocolKind :=
  match p with
  | Some "tcp" => Tcp
  | Some "udp" => Udp
  | _ => Http
  end%string.

(** [if let (Some(host), Some(port)) = ..] with [u16::try_from]. *)
Definition network_of (host : option string) (port : option N) (protocol : option string) :
    result string (option NetworkIntent) :=
  match host, port with
  | Some h, Some p =>
    if (p <=? u16_max)%N then Ok (Some (mkNetworkIntent h p (protocol_of protocol)))
    else Err "port out of range"
  | _, _ => Ok None
  end.

Definition timeout_of (t : N) : N := if (t =? 0)%N then 30000 else t.

Section Intents.
(** [{:?}] of a string. *)
Variable str_debug : string → string.

(** [src crates/aros-api/src/lab.rs 142-169 intent_from_request] *)
Definition intent_from_request (fresh : RequestId) (req : ToolIntentRequest) : result string ToolIntent :=
  cap ← ok_or (capability_from_str (req_capability req))
          ("unknown capability " +:+ str_debug (req_capability req));
  let i := ToolIntent_new fresh cap in
  net ← network_of (req_host req) (req_port req) (req_protocol req);
  Ok {| request_id := request_id i; capability := cap; argv := req_argv req; cwd := cwd i;
        env := env i; path := req_path req; content_glob := content_glob i;
        network := match net with Some n => Some n | None => network i end;
        http_target := req_http_target req; http_cookie := req_http_cookie req;
        timeout_ms := timeout_of (req_timeout_ms req) |}.

(** [src crates/aros-api/src/main.rs 69-97 intent_from_msg] *)
Definition intent_from_msg (fresh : RequestId) (m : Ipc.ToolIntentMsg) : result string ToolIntent :=
  cap ← ok_or (capability_from_str (Ipc.msg_capability m))
          ("unknown capability " +:+ str_debug (Ipc.msg_capability m));
  let i := ToolIntent_new fresh cap in
  net ← network_of (Ipc.msg_host m) (Ipc.msg_port m) (Ipc.msg_protocol m);
  Ok {| request_id := request_id i; capability := cap; argv := Ipc.msg_argv m; cwd := Ipc.msg_cwd m;
        env := env i; path := Ipc.msg_path m; content_glob := content_glob i;
        network := match net with Some n => Some n | None => network i end;
        http_target := Ipc.msg_http_target m; http_cookie := Ipc.msg_http_cookie m;
        timeout_ms := timeout_of (Ipc.msg_timeout_ms m) |}.

End Intents.

(** [src crates/aros-api/src/lab.rs 171-177 decision_str] *)
Definition decision_str (d : PolicyDecision) : string :=
  match d with
  | Allow => "ALLOW"
  | Deny => "DENY"
  | RequiresHuman => "REQUIRES_HUMAN"
  end.

(** ** The manifest of the lab *)

Section Manifest.
Context `{L : IpNetLib}.
(** [Path::canonicalize] with the text of its error, and [{:?}] of a string. *)
Variable canonicalize : string → result string string.
Variable str_debug : string → string.

Definition verbatim : string := String "092" (String "092" (String "?" (String "092" ""))).

(** [src crates/aros-api/src/lab.rs 43-54 canonicalize_lab_root] *)
Definition canonicalize_lab_root (raw : string) : result string string :=
  value ← map_err (λ error, "lab root must exist and be canonicalizable: " +:+ error)
            (canonicalize raw);
  Ok (default value
        match strip_prefix verbatim value with
        | Some v => Some v
        | None => strip_prefix "//?/" value
        end).

(** The fresh identifiers of campaign and target are arguments.
    [src crates/aros-api/src/lab.rs 63-91 lab_manifest_from_root_with_ports] *)
Definition lab_manifest_from_root_with_ports (cid : CampaignId) (tid : TargetId) (raw : string)
    (require_containment : bool) (allowed_ports : list N) : result string AuthorizationManifest :=
  root ← canonicalize_lab_root raw;
  let m := default_deny_local cid tid root in
  let tools : gset ToolCapability :=
    {[ListTree; ReadFile; SearchText; GitInspect]} ∪ tool_allowlist m in
  Ok (if bool_decide (allowed_ports = []) then
        set_scope m (allowed_service_names m) (allowed_endpoints m) tools require_containment
      else
        let eps := match ipnet_from_str "127.0.0.1/32" with
                   | Some net => allowed_endpoints m ++
                       [{| cidr := net; ports := list_to_set allowed_ports; protocols := {[Http; Tcp]} |}]
                   | None => allowed_endpoints m
                   end in
        set_scope m ({["127.0.0.1"]} ∪ ({["localhost"]} ∪ allowed_service_names m)) eps
          ({[HttpRequest]} ∪ tools) require_containment).

(** [src crates/aros-api/src/lab.rs 56-61 lab_manifest_from_root] *)
Definition lab_manifest_from_root cid tid raw require_containment :=
  lab_manifest_from_root_with_ports cid tid raw require_containment [].

(** [src crates/aros-api/src/lab.rs 93-104 parse_ports] *)
Definition parse_ports (raw : string) : result string (list N) :=
  if is_empty (trim raw) then Ok []
  else try_map (λ part, ok_or (parse_uint u16_max (trim part))
                          ("invalid lab port " +:+ str_debug part)) (split_char "," raw).

(** [var] reads an environment variable [AROS_..].
    [src crates/aros-api/src/lab.rs 106-119 lab_manifest] *)
Definition lab_manifest (var : string → option string) (cid : CampaignId) (tid : TargetId) :
    result string AuthorizationManifest :=
  root ← ok_or (var "LAB_ROOT") "explicit lab root is required; daemon will not use cwd implicitly";
  let require_containment :=
    match var "REQUIRE_CONTAINMENT" with
    | Some value => negb (String.eqb value "0" || String.eqb (to_ascii_lowercase value) "false")
    | None => true
    end in
  ports ← match var "LAB_PORTS" with Some value => parse_ports value | None => Ok [] end;
  lab_manifest_from_root_with_ports cid tid root require_containment ports.

End Manifest.

(** ** Running intents *)

Section Runtime.
Context `{L : IpNetLib, U : UuidLib, J : JsonLib, Hl : HashLib, !Serialize EventRecord,
  !Serialize AuthorizationManifest}.
Variable fs : Broker.HostFs.
Variable exchange : string → N → string → option string.
Variable json_string : string → string.
Variable broker_error_display : Broker.BrokerError → string.
Variable types_error_display : TypesError → string.

(** [src crates/aros-api/src/lab.rs 179-185 LabRuntime] *)
Record LabRuntime := mkLabRuntime {
  rt_manifest : AuthorizationManifest;
  rt_manifest_hash : string;
  rt_sandbox : SandboxIdentity;
  rt_cas : Cas.ContentAddressedStore;
  rt_ledger : EventLedger;
  rt_blobs : gmap string string;
}.

(** [io] is the result of creating the directories; [blobs] what the blob
    directory already holds.
    [src crates/aros-api/src/lab.rs 192-214 LabRuntime::open_with_manifest] *)
Definition open_with_manifest (io : result string unit) (data_root : string) (sid : SandboxId)
    (blobs : gmap string string) (m : AuthorizationManifest) : result string LabRuntime :=
  _ ← io;
  h ← map_err types_error_display (manifest_hash m);
  Ok (mkLabRuntime m h (mkSandboxIdentity sid false)
        (Cas.mkCas (data_root +:+ "/cas") (32 * 1024 * 1024)) EventLedger_new blobs).

(** [src crates/aros-api/src/lab.rs 217-226 LabRuntime::execute] *)
Definition broker_of (rt : LabRuntime) : Broker.ToolBroker :=
  {| Broker.broker_campaign_id := manifest_campaign_id (rt_manifest rt);
     Broker.manifest := rt_manifest rt; Broker.broker_manifest_hash := rt_manifest_hash rt;
     Broker.snapshot := None; Broker.sandbox := rt_sandbox rt; Broker.cas := rt_cas rt;
     Broker.cli_human_override := false |}.

(** [src crates/aros-api/src/lab.rs 227-246 LabRuntime::execute] *)
Definition response_of (r : result Broker.BrokerError ExecutionReceipt) : ToolIntentResponse :=
  match r with
  | Ok receipt =>
    mkToolIntentResponse (decision_str (receipt_decision receipt))
      "allowlist match; executed by trusted broker" (exit_status receipt) (stdout_digest receipt)
  | Err (Broker.Denied reason) => mkToolIntentResponse "DENY" reason None None
  | Err other =>
    mkToolIntentResponse "DENY" ("execution failed: " +:+ broker_error_display other) None None
  end.

(** [src crates/aros-api/src/lab.rs 216-247 LabRuntime::execute] *)
Definition execute (rt : LabRuntime) (d : Broker.Draws) (i : ToolIntent) :
    LabRuntime * ToolIntentResponse :=
  let '(st, r) := Broker.execute fs exchange json_string (broker_of rt) d i
                    (Broker.mkBrokerState (rt_ledger rt) (rt_blobs rt)) in
  (mkLabRuntime (rt_manifest rt) (rt_manifest_hash rt) (rt_sandbox rt) (rt_cas rt)
     (Broker.ledger st) (Broker.blobs st), response_of r).

(** ** What the runtime guarantees *)

Lemma response_allowed r :
  resp_decision (response_of r) = "ALLOW" →
  ∃ receipt, r = Ok receipt ∧ receipt_decision receipt = Allow ∧
    resp_stdout_digest (response_of r) = stdout_digest receipt.
Proof.
  destruct r as [receipt|e]; [|by destruct e]. cbn. intros Hd. exists receipt.
  by destruct (receipt_decision receipt).
Qed.

(** The effect of any intent: only the ledger and the blobs change, the ledger
    grows and stays verifiable, and an ALLOW is backed by a logged permission. *)
Lemma execute_effect rt d i rt' resp :
  execute rt d i = (rt', resp) →
  rt_manifest rt' = rt_manifest rt ∧ rt_sandbox rt' = rt_sandbox rt ∧
  (∃ evs, Broker.events (rt_ledger rt') = Broker.events (rt_ledger rt) ++ evs) ∧
  (verify (rt_ledger rt) = Ok () → verify (rt_ledger rt') = Ok ()) ∧
  (resp_decision resp = "ALLOW" ∨ resp_decision resp = "DENY") ∧
  (resp_decision resp = "ALLOW" →
     permitted (rt_manifest rt) (rt_sandbox rt) i ∧
     Broker.events (rt_ledger rt') = Broker.events (rt_ledger rt) ++
       [ToolRequested (manifest_campaign_id (rt_manifest rt)) (request_id i) (capability i);
        ToolAllowed (manifest_campaign_id (rt_manifest rt)) (request_id i)]) ∧
  (¬ permitted (rt_manifest rt) (rt_sandbox rt) i → rt_blobs rt' = rt_blobs rt).
Proof.
  unfold execute. destruct (Broker.execute _ _ _ _ _ _ _) as [st r] eqn:E. intros [= <- <-].
  destruct (Broker.execute_ledger _ _ _ _ _ _ _ _ _ E) as [Hg Hv]. cbn. split_and!; [done..| | |].
  - destruct r as [receipt|e]; [|by destruct e; right].
    left. cbn. by rewrite (Broker.receipt_decision_allow _ _ _ _ _ _ _ _ _ E).
  - intros (receipt & -> & _)%response_allowed. by apply Broker.execute_Ok in E as (Hp & _ & Hev & _).
  - intros Hn. apply Broker.execute_refused in E as [Hb _]; [done|]. by intros [Hp _].
Qed.

(** Every intent the lab runtime answers with ALLOW was permitted by its
    manifest and needed no human, the ledger gained exactly the request and the
    decision and still verifies, and the output named by the answer can be fetched
    from the blob store; any other answer is DENY and names no output. *)
Theorem lab_execution_mediated `{!Cas.HashLaws Hl} rt d i rt' resp :
  (∀ k, contains_byte "/" (Broker.tmp_uuid d k) = false) → Cas.cas_wf (rt_cas rt) (rt_blobs rt) →
  execute rt d i = (rt', resp) →
  (resp_decision resp = "ALLOW" →
     permitted (rt_manifest rt) (rt_sandbox rt) i ∧ ¬ needs_human (rt_manifest rt) i ∧
     Broker.events (rt_ledger rt') = Broker.events (rt_ledger rt) ++
       [ToolRequested (manifest_campaign_id (rt_manifest rt)) (request_id i) (capability i);
        ToolAllowed (manifest_campaign_id (rt_manifest rt)) (request_id i)] ∧
     (verify (rt_ledger rt) = Ok () → verify (rt_ledger rt') = Ok ()) ∧
     ∃ dg o, resp_stdout_digest resp = Some dg ∧ Cas.get (rt_cas rt') (rt_blobs rt') dg = Ok o) ∧
  (resp_decision resp ≠ "ALLOW" → resp_decision resp = "DENY" ∧ resp_stdout_digest resp = None).
Proof.
  intros Hu Hwf. unfold execute.
  destruct (Broker.execute _ _ _ _ _ _ _) as [st r] eqn:E. intros [= <- <-]. split.
  - intros (receipt & -> & Hd & Hdg)%response_allowed. apply Broker.execute_Ok in E as Hx.
    destruct Hx as (Hp & Hh & Hev & Hv & _). cbn in *.
    apply Broker.receipt_output in E as (x & out & err & _ & _ & Ho & _ & [o Hget] & _); [|done..].
    split_and!; [done| |done|done|].
    + intros Hn. by specialize (Hh Hn).
    + exists (blake3_hex out), o. by rewrite <- Ho.
  - destruct r as [receipt|e]; [|by destruct e]. cbn. intros Hna.
    by rewrite (Broker.receipt_decision_allow _ _ _ _ _ _ _ _ _ E) in Hna.
Qed.

(** A lab runtime whose manifest requires containment is inert: it was opened
    with a sandbox in which containment was not demonstrated, so it answers every
    intent with DENY, names no output and stores nothing. *)
Theorem lab_contained_inert io data_root sid blobs m rt d i rt' resp :
  open_with_manifest io data_root sid blobs m = Ok rt → require_containment m = true →
  execute rt d i = (rt', resp) →
  resp_decision resp = "DENY" ∧ resp_stdout_digest resp = None ∧ rt_blobs rt' = rt_blobs rt.
Proof.
  intros Ho Hm Hx. apply bind_Ok in Ho as (u & _ & Ho). apply bind_Ok in Ho as (h & _ & [= <-]).
  unfold execute in Hx. destruct (Broker.execute _ _ _ _ _ _ _) as [st r] eqn:E. injection Hx as <- <-.
  apply Broker.execute_refused in E as (Hb & [e ->] & _).
  - cbn in Hb |- *. rewrite Hb. by destruct e.
  - intros [[Hc _ _ _ _ _ _ _] _]. by specialize (Hc Hm).
Qed.

End Runtime.

(** ** The scope of the lab *)

(** The manifest of a lab confines every path to the canonical lab root and
    opens nothing but the loopback interface: whatever it does not deny connects,
    if at all, to 127.0.0.1 (or by one of three names that stand for it), on a port
    the operator listed, over HTTP or TCP; without listed ports, nowhere. *)
Theorem lab_manifest_loopback_only `{L : IpNetLib, !IpNetLaws L} canonicalize cid tid raw rc lab_ports m
    snap s i :
  lab_manifest_from_root_with_ports canonicalize cid tid raw rc lab_ports = Ok m →
  decision (evaluate m snap s i) ≠ Deny →
  (∃ root, canonicalize_lab_root canonicalize raw = Ok root ∧
     ∀ p, path i = Some p ∨ cwd i = Some p → confined p [root]) ∧
  is_destructive_capability (capability i) = false ∧
  (∀ net, network i = Some net →
     port net ∈ lab_ports ∧ (protocol net = Http ∨ protocol net = Tcp) ∧
     (∀ ip, parse_host_ip (host net) = Some ip → ip = LOCALHOST) ∧
     (parse_host_ip (host net) = None → host net ∈ ["localhost"; "127.0.0.1"; "fixture-target"])).
Proof.
  intros Hm Hd. apply bind_Ok in Hm as (root & Hroot & Hm).
  assert (Hscope : allowed_filesystem_roots m = [root] ∧
    allowed_service_names m ⊆ {["localhost"; "127.0.0.1"; "fixture-target"]} ∧
    (∀ c, c ∈ tool_allowlist m → is_destructive_capability c = false) ∧
    ∀ ep, ep ∈ allowed_endpoints m → ports ep = list_to_set lab_ports ∧ protocols ep = {[Http; Tcp]} ∧
      ipnet_new LOCALHOST (host_bits LOCALHOST) = Some (cidr ep)).
  { change (host_bits LOCALHOST) with 32%N.
    pose proof ipnet_loopback_text as Ht. injection Hm as <-. case_bool_decide; cbn.
    - split_and!; [done|set_solver| |set_solver]. by intros c Hc; rewrite !elem_of_union, !elem_of_singleton in Hc; destruct_or! Hc; subst.
    - split_and!; [done|set_solver| |].
      + by intros c Hc; rewrite !elem_of_union, !elem_of_singleton in Hc; destruct_or! Hc; subst.
      + rewrite Ht. destruct (ipnet_new LOCALHOST 32) as [n|]; cbn.
        * by intros ep ->%list_elem_of_singleton.
        * by intros ep ?%not_elem_of_nil. }
  destruct Hscope as (Hroots & Hnames & Htools & Heps).
  apply evaluate_not_denied in Hd as [_ Ht _ Hp Hc Hn _ _]. rewrite Hroots in Hp, Hc.
  assert (Hep : ∀ ip q k, endpoint_authorizes m ip q k →
    ip = LOCALHOST ∧ q ∈ lab_ports ∧ (k = Http ∨ k = Tcp)).
  { intros ip q k (_ & ep & (Hps & Hks & Hnew)%Heps & Hin & Hq & Hk).
    rewrite Hps in Hq. rewrite Hks in Hk. apply (ipnet_host_contains _ _ Hnew) in Hin. set_solver. }
  split_and!; [exists root; naive_solver|by apply Htools|].
  intros net Hnet. specialize (Hn net Hnet). unfold destination_authorized in Hn.
  destruct (parse_host_ip (host net)) as [ip|].
  - apply Hep in Hn. naive_solver.
  - destruct Hn as [Hin Hn]. apply Hep in Hn. split_and!; [naive_solver..|].
    intros _. apply Hnames in Hin. set_solver.
Qed.

(** ** Two ways in, one intent *)

(** The worker and the HTTP clients are held to the same contract: a message
    and a request with the same contents become the same intent or the same error,
    except that only a message can name a working directory; and a port that does
    not fit sixteen bits is refused, never truncated. *)
Theorem message_and_request_agree str_debug fresh m :
  let req := mkToolIntentRequest (Ipc.msg_capability m) (Ipc.msg_argv m) (Ipc.msg_path m)
    (Ipc.msg_host m) (Ipc.msg_port m) (Ipc.msg_protocol m) (Ipc.msg_http_target m)
    (Ipc.msg_http_cookie m) (Ipc.msg_timeout_ms m) in
  (∀ i, intent_from_msg str_debug fresh m = Ok i →
     cwd i = Ipc.msg_cwd m ∧ as_str (capability i) = Ipc.msg_capability m ∧
     (∀ net, network i = Some net → (port net <= u16_max)%N ∧ Ipc.msg_port m = Some (port net)) ∧
     (Ipc.msg_cwd m = None → intent_from_request str_debug fresh req = Ok i)) ∧
  (∀ e, intent_from_msg str_debug fresh m = Err e ↔ intent_from_request str_debug fresh req = Err e).
Proof.
  unfold intent_from_msg, intent_from_request, network_of. cbn -[capability_from_str as_str].
  destruct (capability_from_str (Ipc.msg_capability m)) as [cap|] eqn:Hcap; cbn -[as_str]; [|by split].
  assert (Hs : as_str cap = Ipc.msg_capability m) by (by apply capability_from_str_as_str).
  destruct (Ipc.msg_host m) as [h|], (Ipc.msg_port m) as [p|]; cbn -[as_str];
    try (split; [|by split]; intros i [= <-]; cbn [cwd capability network]; split_and!; [done..|by intros ? [=]|by intros ->]).
  destruct (N.leb_spec p u16_max); cbn -[as_str]; [|by split]. split; [|by split]. intros i [= <-].
  cbn [cwd capability network]. split_and!; [done..| |by intros ->]. intros net [= <-]. done.
Qed.

End Lab.
