(* ===== verification/Shrink.v ===== *)
(** * Delta debugging (crate [aros-core], [shrink.rs])

    [shrink_bytes] removes chunks of a failing input, halving the chunk size
    when a pass makes no progress. Both loops are defined by well-founded
    recursion, so termination is part of the definitions. *)

From Equations Require Import Equations.
From S2P Require Import Prelude.

Section Shrink.
Context {A : Type}.
Variable still_fails : list A → bool.

(** The input without the elements from [offset] to [end_]. *)
Definition candidate (current : list A) (offset end_ : nat) : list A :=
  take offset current ++ drop end_ current.

Definition is_nil (l : list A) : bool := match l with [] => true | _ => false end.

Lemma candidate_length current offset end_ :
  offset <= end_ → end_ <= length current →
  length (candidate current offset end_) = length current - (end_ - offset).
Proof. intros. unfold candidate. rewrite length_app, length_take, length_drop. lia. Qed.

(** The inner loop: one pass over the input with chunks of size [S c].
    [src crates/aros-core/src/shrink.rs 13-24 shrink_bytes] *)
Equations? pass (c : nat) (current : list A) (offset : nat) (progressed : bool) : list A * bool
  by wf (length current - offset) lt :=
pass c current offset progressed with decide (offset < length current) => {
  | left _ =>
    let end_ := min (offset + S c) (length current) in
    let cand := candidate current offset end_ in
    if negb (is_nil cand) && still_fails cand then pass c cand offset true
    else pass c current end_ progressed
  | right _ => (current, progressed)
}.
Proof.
  - subst cand. rewrite candidate_length; lia.
  - lia.
Qed.

(** What a pass gives: the input unchanged, or a shorter input that still fails. *)
Lemma pass_result c current offset progressed :
  let r := pass c current offset progressed in
  (r.2 = progressed ∧ r.1 = current ∨
   r.2 = true ∧ length r.1 < length current ∧ r.1 ≠ [] ∧ still_fails r.1 = true) ∧
  sublist r.1 current.
Proof.
  funelim (pass c current offset progressed); [|split; [by left|done]].
  set (end_ := min (offset + S c) (length current)) in *.
  set (cand := candidate current offset end_) in *.
  assert (length cand < length current) as Hlen.
  { unfold cand. rewrite candidate_length; lia. }
  assert (sublist cand current) as Hsub.
  { unfold cand, candidate. rewrite <- (take_drop offset current) at 3. apply sublist_app; [done|].
    replace end_ with (offset + (end_ - offset)) by lia. rewrite <- drop_drop. apply sublist_drop. }
  destruct (negb (is_nil cand) && still_fails cand) eqn:E; [|done].
  split_guards. destruct H as [Hr Hs]. split; [|by etrans].
  right. destruct Hr as [[-> ->]|(-> & ? & ? & ?)]; [|split_and!; [done|lia|done..]].
  split_and!; try done. by destruct cand.
Qed.

Lemma pass_progress c current :
  (pass c current 0 false).2 = true → length (pass c current 0 false).1 < length current.
Proof. destruct (pass_result c current 0 false) as [[[? ?]|(? & ? & ?)] _]; [congruence|done]. Qed.

(** A value with the equation that names it. *)
Definition remembered {B : Type} (x : B) : {y : B | x = y} := exist _ x eq_refl.

(** The outer loop.
    [src crates/aros-core/src/shrink.rs 10-29 shrink_bytes] *)
Equations? shrink_loop (current : list A) (chunk : nat) : list A
  by wf (length current + chunk) lt :=
shrink_loop current 0 := current;
shrink_loop current (S c) with remembered (pass c current 0 false) => {
  | exist _ (next, true) E => shrink_loop next (S c)
  | exist _ (next, false) E => shrink_loop next (S c / 2)
}.
Proof.
  - pose proof (pass_progress c current) as Hp. rewrite E in Hp. specialize (Hp eq_refl). simpl in Hp. lia.
  - pose proof (pass_result c current 0 false) as [[[_ Hn]|[Ht _]] _]; rewrite E in *; cbn [fst snd] in *; [|done].
    subst. assert (S c / 2 < S c) by (apply Nat.div_lt; lia). lia.
Qed.

(** [src crates/aros-core/src/shrink.rs 4-30 shrink_bytes] *)
Definition shrink_bytes (input : list A) : list A :=
  if is_nil input || negb (still_fails input) then input
  else shrink_loop input (max (length input) 1).

(** ** Correctness *)

(** Removing any one element yields an input that no longer fails (or nothing). *)
Definition one_minimal (l : list A) : Prop :=
  ∀ i, i < length l → candidate l i (S i) ≠ [] → still_fails (candidate l i (S i)) = false.

(** A pass without progress tried every chunk. *)
Lemma pass_idle c current offset progressed :
  (pass c current offset progressed).2 = false →
  (pass c current offset progressed).1 = current ∧ progressed = false ∧
  ∀ k, offset + k * S c < length current →
    let lo := offset + k * S c in
    let cand := candidate current lo (min (lo + S c) (length current)) in
    negb (is_nil cand) && still_fails cand = false.
Proof.
  funelim (pass c current offset progressed).
  - set (end_ := min (offset + S c) (length current)) in *.
    set (cand := candidate current offset end_) in *.
    destruct (negb (is_nil cand) && still_fails cand) eqn:E.
    + intros Hf. by destruct (H Hf) as (_ & ? & _).
    + intros Hf. destruct (H0 Hf) as (-> & Hp & Hk). split_and!; [done..|].
      intros [|k] Hlt; cbn zeta.
      * rewrite Nat.mul_0_l, Nat.add_0_r. exact E.
      * destruct (decide (offset + S c < length current)) as [Hin|Hout]; [|simpl in Hlt; lia].
        assert (end_ = offset + S c) as He by lia.
        replace (offset + S k * S c) with (end_ + k * S c) in * by lia. by apply Hk.
  - cbn [fst snd]. intros ->. split_and!; [done..|]. intros k Hk. lia.
Qed.

Lemma pass_idle_minimal current :
  (pass 0 current 0 false).2 = false → one_minimal current.
Proof.
  intros (_ & _ & Hk)%pass_idle i Hi Hne. specialize (Hk i). rewrite Nat.mul_1_r in Hk.
  specialize (Hk Hi). cbn zeta in Hk. replace (min (0 + i + 1) (length current)) with (S i) in Hk by lia.
  simpl plus in Hk. destruct (candidate current i (S i)); [done|]. exact Hk.
Qed.

Lemma shrink_loop_spec current chunk :
  current ≠ [] → still_fails current = true → 0 < chunk →
  still_fails (shrink_loop current chunk) = true ∧ shrink_loop current chunk ≠ [] ∧
  one_minimal (shrink_loop current chunk) ∧ sublist (shrink_loop current chunk) current.
Proof.
  funelim (shrink_loop current chunk); intros Hne Hf Hc; [lia|..].
  - pose proof (pass_result c current 0 false) as [Hr Hs]. rewrite E in Hr, Hs. cbn in Hr, Hs.
    destruct Hr as [[? ?]|(_ & _ & Hne' & Hf')]; [done|].
    destruct (H Hne' Hf' Hc) as (? & ? & ? & ?). split_and!; try done. by etrans.
  - pose proof (pass_result c current 0 false) as [Hr _]. rewrite E in Hr. cbn in Hr.
    destruct Hr as [[_ ->]|(? & _)]; [|done]. destruct c as [|c].
    + change (1 / 2) with 0 in *. rewrite shrink_loop_equation_1. split_and!; try done.
      apply pass_idle_minimal. by rewrite E.
    + apply H; [done..|]. apply Nat.div_str_pos. lia.
Qed.

(** C36: on a failing, non-empty input the shrinker terminates with a
    subsequence of the input that still fails and is 1-minimal: removing any
    single element leaves nothing or an input that no longer fails. *)
Theorem shrink_bytes_one_minimal input :
  input ≠ [] → still_fails input = true →
  still_fails (shrink_bytes input) = true ∧ shrink_bytes input ≠ [] ∧
  one_minimal (shrink_bytes input) ∧ sublist (shrink_bytes input) input.
Proof.
  intros Hne Hf. unfold shrink_bytes. rewrite Hf.
  destruct input as [|x input]; [done|]. cbn [is_nil orb negb].
  apply shrink_loop_spec; [done..|]. lia.
Qed.

End Shrink.
