(* ===== verification/Graph.v ===== *)
(** * The active research graph (crate [aros-core], [graph.rs])

    [ActiveGraph] wraps a [petgraph::DiGraph]. The library graph is an
    interface with its documented behaviour: nodes and edges are numbered in
    insertion order, and [has_path_connecting] decides reachability. *)

From S2P Require Import Prelude RustStr Json Types.

Module Graph.

(** What the program uses of [petgraph::graph::DiGraph]. *)
Class DiGraph := {
  DG : Type;
  dg_new : DG;
  dg_add_node : GraphNode → DG → DG;
  dg_add_edge : nat → nat → GraphEdge → DG → DG;
  (** [node_weights], in index order. *)
  dg_nodes : DG → list GraphNode;
  (** The edges in index order, with their endpoints. *)
  dg_edges : DG → list (nat * nat * GraphEdge);
  (** The edges leaving a node, in the order [DiGraph::edges] yields them. *)
  dg_outgoing : nat → DG → list GraphEdge;
  (** [petgraph::algo::has_path_connecting]. *)
  dg_has_path : DG → nat → nat → bool;
}.

Definition dg_step `{DiGraph} (g : DG) (a b : nat) : Prop := ∃ e, (a, b, e) ∈ dg_edges g.

Class DiGraphLaws (G : DiGraph) : Prop := {
  dg_new_nodes : dg_nodes dg_new = [];
  dg_new_edges : dg_edges dg_new = [];
  dg_add_node_nodes : ∀ n g, dg_nodes (dg_add_node n g) = dg_nodes g ++ [n];
  dg_add_node_edges : ∀ n g, dg_edges (dg_add_node n g) = dg_edges g;
  dg_add_edge_nodes : ∀ a b e g, dg_nodes (dg_add_edge a b e g) = dg_nodes g;
  dg_add_edge_edges : ∀ a b e g, dg_edges (dg_add_edge a b e g) = dg_edges g ++ [(a, b, e)];
  dg_outgoing_spec : ∀ a g, dg_outgoing a g ≡ₚ (snd <$> filter (λ x, x.1.1 = a) (dg_edges g));
  dg_has_path_spec : ∀ g a b, a < length (dg_nodes g) → b < length (dg_nodes g) →
    dg_has_path g a b = true ↔ rtc (dg_step g) a b;
}.

Section ActiveGraph.
Context `{G : DiGraph}.

(** [src crates/aros-core/src/graph.rs 4-8 ActiveGraph] *)
Record ActiveGraph := mkActiveGraph {
  graph_campaign_id : CampaignId;
  inner : DG;
}.

(** [src crates/aros-core/src/graph.rs 11-16 ActiveGraph::new] *)
Definition ActiveGraph_new (cid : CampaignId) : ActiveGraph := mkActiveGraph cid dg_new.

(** [src crates/aros-core/src/graph.rs 40-44 ActiveGraph::find_index] *)
Definition find_index (g : ActiveGraph) (id : NodeId) : option nat :=
  fst <$> list_find (λ n, node_id n = id) (dg_nodes (inner g)).

(** [src crates/aros-core/src/graph.rs 18-22 ActiveGraph::add_node] *)
Definition add_node (g : ActiveGraph) (n : GraphNode) : ActiveGraph * NodeId :=
  (mkActiveGraph (graph_campaign_id g) (dg_add_node n (inner g)), node_id n).

(** [src crates/aros-core/src/graph.rs 24-30 ActiveGraph::add_edge] *)
Definition add_edge (g : ActiveGraph) (e : GraphEdge) : ActiveGraph :=
  match find_index g (edge_from e), find_index g (edge_to e) with
  | Some from, Some to => mkActiveGraph (graph_campaign_id g) (dg_add_edge from to e (inner g))
  | _, _ => g
  end.

(** [src crates/aros-core/src/graph.rs 32-34 ActiveGraph::nodes] *)
Definition nodes (g : ActiveGraph) : list GraphNode := dg_nodes (inner g).
(** [src crates/aros-core/src/graph.rs 36-38 ActiveGraph::edges] *)
Definition edges (g : ActiveGraph) : list GraphEdge := snd <$> dg_edges (inner g).
(** [src crates/aros-core/src/graph.rs 46-48 ActiveGraph::node_count] *)
Definition node_count (g : ActiveGraph) : nat := length (nodes g).
(** [src crates/aros-core/src/graph.rs 50-52 ActiveGraph::edge_count] *)
Definition edge_count (g : ActiveGraph) : nat := length (edges g).

(** [src crates/aros-core/src/graph.rs 54-60 ActiveGraph::has_verified_finding] *)
Definition has_verified_finding (g : ActiveGraph) : bool :=
  existsb (λ n, bool_decide (node_graph n = Research) && String.eqb (node_kind n) "finding" &&
                bool_decide (node_epistemic n = EpVerified)) (nodes g).

(** [src crates/aros-core/src/graph.rs 62-70 ActiveGraph::reachable] *)
Definition reachable (g : ActiveGraph) (from to : NodeId) : bool :=
  match find_index g from with
  | None => false
  | Some start =>
    match find_index g to with
    | None => false
    | Some goal => dg_has_path (inner g) start goal
    end
  end.

(** [src crates/aros-core/src/graph.rs 72-80 ActiveGraph::outgoing_kinds] *)
Definition outgoing_kinds (g : ActiveGraph) (from : NodeId) : list string :=
  match find_index g from with
  | None => []
  | Some index => edge_kind <$> dg_outgoing index (inner g)
  end.

(** ** No dangling edges *)

(** Every edge runs between the nodes its identifiers name. *)
Definition graph_wf (g : ActiveGraph) : Prop :=
  ∀ a b e, (a, b, e) ∈ dg_edges (inner g) →
    find_index g (edge_from e) = Some a ∧ find_index g (edge_to e) = Some b.

(** The edge relation on identifiers. *)
Definition id_step (g : ActiveGraph) (x y : NodeId) : Prop :=
  ∃ e, e ∈ edges g ∧ edge_from e = x ∧ edge_to e = y.

Context `{!DiGraphLaws G}.

Lemma new_wf cid : graph_wf (ActiveGraph_new cid).
Proof. intros a b e. cbn. rewrite dg_new_edges. set_solver. Qed.

Lemma add_node_find g n id i :
  find_index g id = Some i → find_index (add_node g n).1 id = Some i.
Proof.
  unfold find_index. cbn. rewrite dg_add_node_nodes. intros ([j x] & Hf & ->)%fmap_Some.
  by rewrite (list_find_app_l _ _ _ _ _ Hf).
Qed.

Lemma add_node_wf g n : graph_wf g → graph_wf (add_node g n).1.
Proof.
  intros Hwf a b e. cbn. rewrite dg_add_node_edges. intros [Ha Hb]%Hwf.
  split; by apply add_node_find.
Qed.

Lemma add_edge_find g e id : find_index (add_edge g e) id = find_index g id.
Proof.
  unfold add_edge. destruct (find_index g (edge_from e)), (find_index g (edge_to e)); try done.
  unfold find_index. cbn. by rewrite dg_add_edge_nodes.
Qed.

Lemma add_edge_wf g e : graph_wf g → graph_wf (add_edge g e).
Proof.
  intros Hwf a b e'. rewrite !add_edge_find. unfold add_edge.
  destruct (find_index g (edge_from e)) as [i|] eqn:Ei, (find_index g (edge_to e)) as [j|] eqn:Ej;
    try apply Hwf. cbn. rewrite dg_add_edge_edges, elem_of_app, list_elem_of_singleton.
  intros [?|[= -> -> ->]]; [by apply Hwf|done].
Qed.

(** Graphs built by the operations. *)
Inductive built (cid : CampaignId) : ActiveGraph → Prop :=
| built_new : built cid (ActiveGraph_new cid)
| built_node g n : built cid g → built cid (add_node g n).1
| built_edge g e : built cid g → built cid (add_edge g e).

Lemma built_wf cid g : built cid g → graph_wf g.
Proof. induction 1; [apply new_wf|by apply add_node_wf|by apply add_edge_wf]. Qed.

Lemma find_index_lt g x k : find_index g x = Some k → k < length (dg_nodes (inner g)).
Proof.
  unfold find_index. intros ([j n] & Hf & ->)%fmap_Some.
  apply list_find_Some in Hf as (Hl & _). by eapply lookup_lt_Some.
Qed.

Lemma find_index_inj g x y i : find_index g x = Some i → find_index g y = Some i → x = y.
Proof.
  unfold find_index. intros ([i1 n1] & H1 & ->)%fmap_Some ([i2 n2] & H2 & E)%fmap_Some.
  cbn in E. subst. apply list_find_Some in H1 as (L1 & P1 & _), H2 as (L2 & P2 & _). congruence.
Qed.

Lemma dg_step_id g a b x :
  graph_wf g → find_index g x = Some a → dg_step (inner g) a b →
  ∃ y, find_index g y = Some b ∧ id_step g x y.
Proof.
  intros Hwf Hx [e He]. destruct (Hwf _ _ _ He) as [Hf Ht]. exists (edge_to e). split; [done|].
  exists e. split_and!; [|by eapply find_index_inj|done].
  unfold edges. apply list_elem_of_fmap. by exists (a, b, e).
Qed.

Lemma id_step_dg g x y :
  graph_wf g → id_step g x y →
  ∃ a b, find_index g x = Some a ∧ find_index g y = Some b ∧ dg_step (inner g) a b.
Proof.
  intros Hwf (e & He & <- & <-). unfold edges in He.
  apply list_elem_of_fmap in He as ([[a b] e'] & -> & Hin).
  destruct (Hwf _ _ _ Hin). exists a, b. split_and!; [done..|by exists e'].
Qed.

(** On every graph the operations can build, no edge dangles, and
    [reachable] is exactly reachability along recorded edges between known
    nodes, by identifier. *)
Theorem reachable_spec cid g from to :
  built cid g →
  graph_wf g ∧
  (reachable g from to = true ↔
   is_Some (find_index g from) ∧ is_Some (find_index g to) ∧ rtc (id_step g) from to).
Proof.
  intros Hb. apply built_wf in Hb as Hwf. split; [done|]. unfold reachable.
  destruct (find_index g from) as [a|] eqn:Ha; [|split; [done|by intros ([? ?] & _)]].
  destruct (find_index g to) as [b|] eqn:Hto; [|split; [done|by intros (_ & [? ?] & _)]].
  rewrite dg_has_path_spec by (by eapply find_index_lt). split.
  - intros Hp. split_and!; [done..|]. revert from Ha.
    induction Hp as [a|a a' b Hs _ IH]; intros from Ha.
    + by rewrite (find_index_inj _ _ _ _ Ha Hto).
    + destruct (dg_step_id _ _ _ _ Hwf Ha Hs) as (y & Hy & Hstep).
      eapply rtc_l; [done|by apply IH].
  - intros (_ & _ & Hp). revert a Ha. induction Hp as [x|x y z Hs _ IH]; intros a Ha.
    + rewrite Ha in Hto. injection Hto as ->. done.
    + destruct (id_step_dg _ _ _ Hwf Hs) as (a' & b' & Ha' & Hb' & Hst).
      rewrite Ha in Ha'. injection Ha' as <-. eapply rtc_l; [done|by apply IH].
Qed.

End ActiveGraph.
End Graph.
