(* ===== verification/Scheduler.v ===== *)
(** * The hypothesis scheduler (crate [aros-core], [scheduler.rs]) *)

From S2P Require Import Prelude RustStr Json Types.

Module Scheduler.

(** [src crates/aros-core/src/scheduler.rs 5-15 PriorityScore] *)
Record PriorityScore := mkPriorityScore {
  total : N;
  plausibility : N;
  impact : N;
  novelty : N;
  information_gain : N;
  cascade_potential : N;
  execution_cost : N;
  risk : N;
}.

(** [u32::saturating_sub]. *)
Definition saturating_sub (a b : N) : N := (a - b)%N.

(** The sum is a [u32]; in release builds it would wrap.
    [src crates/aros-core/src/scheduler.rs 19-53 score_hypothesis] *)
Definition score_hypothesis (h : HypothesisRec) : PriorityScore :=
  let plausibility := 50%N in
  let impact := if contains (possible_impact h) "confidential" || contains (possible_impact h) "auth"
                then 80%N else 40%N in
  let novelty := if bool_decide (historical_analogues h = []) then 60%N else 40%N in
  let information_gain := 70%N in
  let cascade_potential := 30%N in
  let execution_cost := N.min (estimated_cost h) 100 in
  let risk := 20%N in
  let total := wrap 32 (plausibility + impact + novelty + information_gain + cascade_potential +
                        saturating_sub 100 execution_cost + saturating_sub 100 risk) in
  {| total := total; plausibility := plausibility; impact := impact; novelty := novelty;
     information_gain := information_gain; cascade_potential := cascade_potential;
     execution_cost := execution_cost; risk := risk |}.

(** [Iterator::min_by_key]: the first of the minimal elements.
    [src crates/aros-core/src/scheduler.rs 55-57 pick_cheapest] *)
Fixpoint pick_cheapest (hypotheses : list HypothesisRec) : option HypothesisRec :=
  match hypotheses with
  | [] => None
  | h :: hs =>
    match pick_cheapest hs with
    | Some best => if (estimated_cost best <? estimated_cost h)%N then Some best else Some h
    | None => Some h
    end
  end.

(** [pick_cheapest] returns a hypothesis of least cost, the earliest one
    among equals, and something whenever there is a hypothesis. *)
Theorem pick_cheapest_first_minimum hs :
  (pick_cheapest hs = None ↔ hs = []) ∧
  ∀ h, pick_cheapest hs = Some h →
    ∃ i, hs !! i = Some h ∧
      (∀ j h', hs !! j = Some h' → (estimated_cost h <= estimated_cost h')%N) ∧
      (∀ j h', j < i → hs !! j = Some h' → (estimated_cost h < estimated_cost h')%N).
Proof.
  split.
  { destruct hs as [|h hs]; [done|]. cbn. destruct (pick_cheapest hs); [|done].
    by destruct (_ <? _)%N. }
  induction hs as [|h0 hs IH]; [done|]. cbn [pick_cheapest]. intros h.
  destruct (pick_cheapest hs) as [best|] eqn:E.
  - destruct (IH best eq_refl) as (i & Hi & Hall & Hfirst).
    destruct (N.ltb_spec (estimated_cost best) (estimated_cost h0)) as [Hlt|Hge]; intros [= <-].
    + exists (S i). split_and!; [done| |].
      * intros [|j] h' Hj; simplify_eq/=; [lia|by eapply Hall].
      * intros [|j] h' Hji Hj; simplify_eq/=; [lia|]. eapply Hfirst; [|done]. lia.
    + exists 0. split_and!; [done| |intros; lia].
      intros [|j] h' Hj; simplify_eq/=; [lia|]. etrans; [done|by eapply Hall].
  - intros [= <-]. exists 0. split_and!; [done| |intros; lia].
    intros [|j] h' Hj; simplify_eq/=; [lia|].
    destruct hs as [|h1 hs]; [done|]. cbn in E. destruct (pick_cheapest hs); [|done].
    by destruct (_ <? _)%N.
Qed.

(** The score stays far from the 32-bit limit: the sum never wraps, and a
    cheaper hypothesis never scores lower, other things being equal. *)
Lemma score_bounds h :
  (310 <= total (score_hypothesis h) <= 470)%N ∧
  total (score_hypothesis h) =
    (50 + impact (score_hypothesis h) + novelty (score_hypothesis h) + 100 +
     (100 - N.min (estimated_cost h) 100) + 80)%N.
Proof.
  unfold score_hypothesis. cbn [total impact novelty]. unfold saturating_sub.
  destruct (_ || _), (bool_decide _); rewrite wrap_small; change (2 ^ 32)%N with 4294967296%N; lia.
Qed.

End Scheduler.
