(* ===== verification/Planner.v ===== *)
(** * Campaign planning (crate [aros-core], [htn.rs] and [pddl.rs])

    The hierarchical task network compiles observed facts into an ordered list
    of campaigns; the STRIPS planner searches the same catalog breadth-first.
    The main theorem is that the search always terminates and returns exactly
    the network's plan. *)

From S2P Require Import Prelude RustStr Json Types.

Module Planner.

(** ** The task network *)

(** [src crates/aros-core/src/htn.rs 7-16 HtnFacts] *)
Record HtnFacts := mkHtnFacts {
  has_http_paths : bool;
  has_users : bool;
  has_files : bool;
  has_server : bool;
  has_parse : bool;
  has_once : bool;
}.

(** [src crates/aros-core/src/htn.rs 137-148 HTTP_USER_CAMPAIGNS] *)
Definition HTTP_USER_CAMPAIGNS : list string :=
  ["http-mr-cookie-drop"; "http-unauth"; "http-idor"; "http-cookie-confusion"; "http-mr-method";
   "http-mr-cross-user"; "http-mr-header-noise"; "http-mr-query-noise"; "http-mr-xff";
   "http-mr-auth-header"].

(** [src crates/aros-core/src/htn.rs 150-157 HTTP_FILE_CAMPAIGNS] *)
Definition HTTP_FILE_CAMPAIGNS : list string :=
  ["http-path-traversal"; "http-mr-encoded-dotdot"; "http-mr-dot-segment"; "http-mr-encoded-dot";
   "http-mr-nested-dotdot"; "http-mr-double-slash"].

(** [src crates/aros-core/src/htn.rs 159-159 CLI_PARSE_CAMPAIGNS] *)
Definition CLI_PARSE_CAMPAIGNS : list string := ["cli-crash"; "mutate-fuzz"; "prop-ascii"; "klee-run"].

(** [src crates/aros-core/src/htn.rs 161-161 CLI_ONCE_CAMPAIGNS] *)
Definition CLI_ONCE_CAMPAIGNS : list string := ["lib-call-twice"].

(** [src crates/aros-core/src/htn.rs 19-23 SkillTask] *)
Record SkillTask := mkSkillTask { skill : string; task_campaigns : list string }.

(** [src crates/aros-core/src/htn.rs 26-120 SKILL_TASKS] *)
Definition SKILL_TASKS : list SkillTask :=
  [mkSkillTask "reachability_boundary_mapping" ["http-surface-map"];
   mkSkillTask "breadth_depth_context" ["http-surface-map"];
   mkSkillTask "negative_control_design" ["http-mr-cookie-drop"];
   mkSkillTask "trust_boundary_mapping" ["http-unauth"; "http-mr-auth-header"];
   mkSkillTask "assumption_attack" ["http-idor"];
   mkSkillTask "hidden_component_inference" ["http-cookie-confusion"];
   mkSkillTask "differential_experiment" ["http-mr-method"];
   mkSkillTask "attack_chain_reasoning" ["http-mr-cross-user"];
   mkSkillTask "anomaly_investigation" ["http-mr-header-noise"; "http-mr-xff"];
   mkSkillTask "discovery_cascade" ["http-mr-query-noise"];
   mkSkillTask "variant_analysis"
     ["http-mr-query-noise"; "http-mr-encoded-dotdot"; "http-mr-dot-segment";
      "http-mr-encoded-dot"; "http-mr-nested-dotdot"; "http-mr-double-slash"];
   mkSkillTask "incomplete_fix_search" ["http-mr-method"; "http-mr-encoded-dotdot"];
   mkSkillTask "parser_interpretation_disagreement" ["http-path-traversal"; "cli-crash"];
   mkSkillTask "representation_transformation_analysis"
     ["http-mr-encoded-dotdot"; "http-mr-dot-segment"; "http-mr-encoded-dot";
      "http-mr-nested-dotdot"; "http-mr-double-slash"];
   mkSkillTask "source_to_sink" ["http-path-traversal"];
   mkSkillTask "sink_to_source" ["http-path-traversal"];
   mkSkillTask "fast_falsification" ["mutate-fuzz"; "prop-ascii"];
   mkSkillTask "missed_bug_analysis" ["mutate-fuzz"];
   mkSkillTask "patch_archaeology" ["klee-run"];
   mkSkillTask "primitive_composition" ["lib-call-twice"]].

Definition is_http (pack : string) : bool := String.eqb pack "http" || String.eqb pack "all".
Definition is_cli (pack : string) : bool := String.eqb pack "cli" || String.eqb pack "all".

(** [src crates/aros-core/src/htn.rs 224-244 htn_plan] *)
Definition htn_plan (facts : HtnFacts) (pack : string) : list string :=
  let http := is_http pack in
  let cli := is_cli pack in
  (if http && (has_http_paths facts || has_server facts) then ["http-surface-map"] else []) ++
  (if http && has_users facts then HTTP_USER_CAMPAIGNS else []) ++
  (if http && has_files facts then HTTP_FILE_CAMPAIGNS else []) ++
  (if cli && has_parse facts then CLI_PARSE_CAMPAIGNS else []) ++
  (if cli && has_once facts then CLI_ONCE_CAMPAIGNS else []).

(** ** Failure memory *)

(** [src crates/aros-core/src/htn.rs 167-170 FailureMemory] *)
Record FailureMemory := mkFailureMemory { spec_id : string; category : string }.

(** [src crates/aros-core/src/htn.rs 174-178 FailureReplan] *)
Record FailureReplan := mkFailureReplan {
  campaigns : list string;
  skipped : list string;
  promoted : list string;
}.

(** [src crates/aros-core/src/htn.rs 185-192 apply_failure_memory] *)
Fixpoint collect_skipped (plan : list string) (memory : list FailureMemory) (skipped : list string) :
    list string :=
  match memory with
  | [] => skipped
  | item :: memory =>
    collect_skipped plan memory
      (if String.eqb (category item) "TOOL_GAP" && bool_decide (spec_id item ∈ plan) &&
          negb (bool_decide (spec_id item ∈ skipped))
       then skipped ++ [spec_id item] else skipped)
  end.

(** [Vec::remove] at an index that exists. *)
Definition vec_remove (i : nat) (l : list string) : list string := take i l ++ drop (S i) l.

(** [src crates/aros-core/src/htn.rs 199-212 apply_failure_memory] *)
Fixpoint promote (skipped : list string) (memory : list FailureMemory)
    (campaigns promoted : list string) : list string * list string :=
  match memory with
  | [] => (campaigns, promoted)
  | item :: memory =>
    if negb (String.eqb (category item) "EXPERIMENT_INADEQUATE") then
      promote skipped memory campaigns promoted
    else if bool_decide (spec_id item ∈ skipped) then promote skipped memory campaigns promoted
    else
      match list_find (λ id, id = spec_id item) campaigns with
      | Some (index, id) =>
        if negb (bool_decide (spec_id item ∈ promoted)) then
          promote skipped memory (vec_remove index campaigns) (promoted ++ [id])
        else promote skipped memory campaigns promoted
      | None => promote skipped memory campaigns promoted
      end
  end.

(** The loop of [Vec::insert]s at offsets [0], [1], ...
    [src crates/aros-core/src/htn.rs 213-215 apply_failure_memory] *)
Fixpoint insert_front (offset : nat) (ids campaigns : list string) : list string :=
  match ids with
  | [] => campaigns
  | id :: ids => insert_front (S offset) ids (take offset campaigns ++ id :: drop offset campaigns)
  end.

(** [src crates/aros-core/src/htn.rs 183-221 apply_failure_memory] *)
Definition apply_failure_memory (plan : list string) (memory : list FailureMemory) : FailureReplan :=
  let skipped := collect_skipped plan memory [] in
  let kept := filter (λ id, id ∉ skipped) plan in
  let '(rest, promoted) := promote skipped memory kept [] in
  {| campaigns := insert_front 0 promoted rest; skipped := skipped; promoted := promoted |}.

(** ** The STRIPS search *)

(** [src crates/aros-core/src/pddl.rs 33-41 Action] *)
Record Action := mkAction {
  id : string;
  needs_mapped : bool;
  needs_users : bool;
  needs_files : bool;
  needs_parse : bool;
  needs_once : bool;
}.

(** [src crates/aros-core/src/pddl.rs 43-93 catalog] *)
Definition catalog : list Action :=
  [mkAction "http-surface-map" false false false false false] ++
  ((λ i, mkAction i true true false false false) <$> HTTP_USER_CAMPAIGNS) ++
  ((λ i, mkAction i true false true false false) <$> HTTP_FILE_CAMPAIGNS) ++
  ((λ i, mkAction i false false false true false) <$> CLI_PARSE_CAMPAIGNS) ++
  ((λ i, mkAction i false false false false true) <$> CLI_ONCE_CAMPAIGNS).

(** The closure of [applicable].
    [src crates/aros-core/src/pddl.rs 100-123 applicable] *)
Definition action_applies (facts : HtnFacts) (http cli : bool) (a : Action) : bool :=
  if starts_with (id a) "http-" && negb http then false
  else if (needs_parse a || needs_once a) && negb cli then false
  else if String.eqb (id a) "http-surface-map" then has_http_paths facts || has_server facts
  else if needs_users a && negb (has_users facts) then false
  else if needs_files a && negb (has_files facts) then false
  else if needs_parse a && negb (has_parse facts) then false
  else if needs_once a && negb (has_once facts) then false
  else true.

(** [src crates/aros-core/src/pddl.rs 95-125 applicable] *)
Definition applicable (facts : HtnFacts) (pack : string) : list Action :=
  List.filter (action_applies facts (is_http pack) (is_cli pack)) catalog.

(** A queue entry: whether the surface is mapped, the campaigns run, the path. *)
Definition entry : Type := bool * gset string * list string.

(** [src crates/aros-core/src/pddl.rs 148-161 strips_plan] *)
Definition expand (actions : list Action) (e : entry) : list entry :=
  let '(mapped, ran, path) := e in
  omap (λ a,
    if bool_decide (id a ∈ ran) then None
    else if needs_mapped a && negb mapped then None
    else Some (mapped || String.eqb (id a) "http-surface-map", {[id a]} ∪ ran, path ++ [id a]))
    actions.

Definition seen_key (mapped : bool) (ran : gset string) : bool * list string :=
  (mapped, sort_strings (elements ran)).

(** The search loop; [None] when the fuel runs out, [Some None] when the queue
    empties, [Some (Some path)] at the goal.
    [src crates/aros-core/src/pddl.rs 139-162 strips_plan] *)
Fixpoint search (actions : list Action) (fuel : nat) (queue : list entry)
    (seen : gset (bool * list string)) : option (option (list string)) :=
  match fuel with
  | 0 => None
  | S fuel =>
    match queue with
    | [] => Some None
    | (mapped, ran, path) :: queue =>
      let key := seen_key mapped ran in
      if bool_decide (key ∈ seen) then search actions fuel queue seen
      else
        let seen := {[key]} ∪ seen in
        if forallb (λ a, bool_decide (id a ∈ ran)) actions then Some (Some path)
        else search actions fuel (queue ++ expand actions (mapped, ran, path)) seen
    end
  end.

Definition start_mapped (actions : list Action) : bool :=
  negb (existsb (λ a, String.eqb (id a) "http-surface-map") actions).

(** [src crates/aros-core/src/pddl.rs 128-164 strips_plan] *)
Definition strips_plan (fuel : nat) (facts : HtnFacts) (pack : string) : option (list string) :=
  let actions := applicable facts pack in
  if bool_decide (actions = []) then Some []
  else
    default (htn_plan facts pack) <$> search actions fuel [(start_mapped actions, ∅, [])] ∅.

(** ** The search finds the catalog order *)

Section Search.
Variable actions : list Action.
Let ids : list string := id <$> actions.
Let n : nat := length actions.

Definition surface (i : string) : bool := String.eqb i "http-surface-map".

(** Whether the surface is mapped once the first [k] actions have run. *)
Definition mapped_after (k : nat) : bool :=
  start_mapped actions || existsb surface (take k ids).

(** The catalog order respects the preconditions: identifiers are distinct, and
    an action that needs the map comes when it is mapped. *)
Definition catalog_ok : bool :=
  bool_decide (NoDup ids) &&
  forallb (λ k, match actions !! k with
                | Some a => negb (needs_mapped a) || mapped_after k
                | None => true
                end) (seq 0 n).

Definition entry_size (e : entry) : nat := size e.1.2.

Definition level (k : nat) (es : list entry) : Prop := Forall (λ e, entry_size e = k) es.

(** The sets seen so far all have at most [k] elements. *)
Definition seen_below (k : nat) (seen : gset (bool * list string)) : Prop :=
  ∀ key, key ∈ seen → length key.2 <= k.

(** The first entry of level [k]. *)
Definition prefix_entry (k : nat) : entry := (mapped_after k, list_to_set (take k ids), take k ids).

Lemma seen_key_length mapped ran : length (seen_key mapped ran).2 = size ran.
Proof. cbn. unfold sort_strings. by rewrite merge_sort_Permutation. Qed.

Lemma expand_level k e : entry_size e = k → level (S k) (expand actions e).
Proof.
  destruct e as [[mapped ran] path]. unfold entry_size. cbn. intros <-.
  apply Forall_forall. intros e (a & Ha & He)%list_elem_of_omap.
  case_bool_decide as Hin; [done|]. destruct (_ && _); [done|]. injection He as <-. cbn.
  rewrite size_union by set_solver. by rewrite size_singleton.
Qed.

Hypothesis Hnd : NoDup ids.

Lemma goal_needs_all (ran : gset string) :
  forallb (λ a, bool_decide (id a ∈ ran)) actions = true → n <= size ran.
Proof.
  intros Hall. rewrite forallb_true_iff in Hall.
  assert ((list_to_set ids : gset string) ⊆ ran) as Hsub.
  { intros x Hx%elem_of_list_to_set. apply list_elem_of_fmap in Hx as (a & -> & Ha).
    specialize (Hall a Ha). by apply bool_decide_eq_true_1 in Hall. }
  apply subseteq_size in Hsub. rewrite size_list_to_set in Hsub by done.
  unfold ids in Hsub. by rewrite length_fmap in Hsub.
Qed.

(** Popping a whole level moves the search to the next one. *)
Lemma search_level k cur nxt seen :
  k < n → level k cur → level (S k) nxt → seen_below k seen →
  ∃ more seen', level (S k) more ∧ seen_below k seen' ∧
    ∀ fuel, search actions (length cur + fuel) (cur ++ nxt) seen = search actions fuel (nxt ++ more) seen'.
Proof.
  intros Hk Hcur. revert nxt seen. induction Hcur as [|[[mapped ran] path] cur He Hcur IH];
    intros nxt seen Hnxt Hseen.
  { exists [], seen. cbn. rewrite app_nil_r. by repeat constructor. }
  cbn [length app Nat.add search]. case_bool_decide as Hin.
  { destruct (IH nxt seen Hnxt Hseen) as (more & seen' & ?). by exists more, seen'. }
  destruct (forallb _ actions) eqn:Hg.
  { apply goal_needs_all in Hg. unfold entry_size in He. cbn in He. lia. }
  destruct (IH (nxt ++ expand actions (mapped, ran, path)) ({[seen_key mapped ran]} ∪ seen))
    as (more & seen' & Hm & Hs & Hrun).
  { apply Forall_app. split; [done|by apply expand_level]. }
  { intros key [->%elem_of_singleton|Hk']%elem_of_union; [|by apply Hseen].
    rewrite seen_key_length. unfold entry_size in He. cbn in He. lia. }
  exists (expand actions (mapped, ran, path) ++ more), seen'. split_and!; [|done|].
  { apply Forall_app. split; [by apply expand_level|done]. }
  intros fuel. rewrite <- app_assoc. rewrite Hrun. by rewrite <- app_assoc.
Qed.

Hypothesis Hpre : ∀ k a, actions !! k = Some a → needs_mapped a = true → mapped_after k = true.

Lemma take_ids_S k a : actions !! k = Some a → take (S k) ids = take k ids ++ [id a].
Proof. intros Ha. apply take_S_r. unfold ids. by rewrite list_lookup_fmap, Ha. Qed.

Lemma mapped_after_S k a :
  actions !! k = Some a → mapped_after (S k) = mapped_after k || surface (id a).
Proof.
  intros Ha. unfold mapped_after. rewrite (take_ids_S k a Ha), existsb_app. cbn [existsb].
  by rewrite orb_false_r, orb_assoc.
Qed.

Lemma omap_none {A B} (f : A → option B) l : (∀ x, x ∈ l → f x = None) → omap f l = [].
Proof.
  induction l as [|x l IH]; intros Hf; [done|]. cbn. rewrite Hf by set_solver. apply IH. set_solver.
Qed.

(** The first successor of the first entry of a level is the first entry of the next. *)
Lemma expand_prefix k :
  k < n → ∃ rest, expand actions (prefix_entry k) = prefix_entry (S k) :: rest.
Proof.
  intros Hk. destruct (lookup_lt_is_Some_2 actions k Hk) as [a Ha].
  unfold expand, prefix_entry.
  rewrite <- (take_drop_middle actions k a Ha), omap_app. rewrite omap_none.
  2:{ intros x Hx. rewrite bool_decide_eq_true_2; [done|].
      apply elem_of_list_to_set. unfold ids. rewrite <- fmap_take.
      apply list_elem_of_fmap. eauto. }
  cbn [app omap list_omap].
  assert (id a ∉ take k ids) as Hnin.
  { pose proof Hnd as Hnd'. unfold ids in Hnd'. rewrite <- (take_drop_middle actions k a Ha) in Hnd'.
    rewrite fmap_app in Hnd'. apply NoDup_app in Hnd' as (_ & Hd & _).
    unfold ids. rewrite <- fmap_take. intros Hin. apply (Hd _ Hin). cbn. set_solver. }
  rewrite bool_decide_eq_false_2 by (by rewrite elem_of_list_to_set).
  assert (needs_mapped a && negb (mapped_after k) = false) as ->.
  { destruct (needs_mapped a) eqn:Em; [|done]. by rewrite (Hpre k a Ha Em). }
  eexists. f_equal. f_equal; [f_equal|].
  - symmetry. by apply mapped_after_S.
  - rewrite (take_ids_S k a Ha). rewrite list_to_set_app_L. set_solver.
  - symmetry. by apply take_ids_S.
Qed.

Lemma prefix_entry_size k : k <= n → entry_size (prefix_entry k) = k.
Proof.
  intros Hk. unfold entry_size, prefix_entry. cbn [fst snd].
  rewrite size_list_to_set by (eapply sublist_NoDup; [done|apply sublist_take]). rewrite length_take. unfold ids.
  rewrite length_fmap. fold n. lia.
Qed.

(** After some number of turns the queue is level [k], the prefix of the
    catalog order first. *)
Lemma search_reaches k :
  k <= n → ∃ turns rest seen, level k rest ∧ seen_below (k - 1) seen ∧ (k = 0 → seen = ∅) ∧
    ∀ fuel, search actions (turns + fuel) [prefix_entry 0] ∅ =
            search actions fuel (prefix_entry k :: rest) seen.
Proof.
  induction k as [|k IH]; intros Hk.
  { exists 0, [], ∅. split_and!; [constructor|set_solver|done|done]. }
  destruct IH as (turns & rest & seen & Hrest & Hseen & H0 & Hrun); [lia|].
  pose proof (prefix_entry_size k ltac:(lia)) as Hsize.
  assert (seen_key (mapped_after k) (list_to_set (take k ids)) ∉ seen) as Hfresh.
  { intros Hin. destruct k as [|k]; [rewrite H0 in Hin by done; set_solver|].
    apply Hseen in Hin. rewrite seen_key_length in Hin. unfold entry_size in Hsize. cbn [fst snd prefix_entry] in Hsize.
    lia. }
  destruct (search_level k rest (expand actions (prefix_entry k))
    ({[seen_key (mapped_after k) (list_to_set (take k ids))]} ∪ seen))
    as (more & seen' & Hm & Hs & Hlevel); [lia|done|by apply expand_level| |].
  { intros key [->%elem_of_singleton|Hin%Hseen]%elem_of_union; [|lia].
    rewrite seen_key_length. unfold entry_size in Hsize. cbn [fst snd prefix_entry] in Hsize. lia. }
  destruct (expand_prefix k) as [others Hexp]; [lia|].
  pose proof (expand_level k _ Hsize) as Hlev. rewrite Hexp in Hlev. inversion_clear Hlev.
  exists (turns + S (length rest)), (others ++ more), seen'.
  split_and!; [by apply Forall_app|by rewrite Nat.sub_succ, Nat.sub_0_r|done|].
  intros fuel. replace (turns + S (length rest) + fuel) with (turns + S (length rest + fuel)) by lia.
  rewrite Hrun. cbn [search prefix_entry].
  rewrite bool_decide_eq_false_2 by done.
  destruct (forallb _ actions) eqn:Hg.
  { apply goal_needs_all in Hg. unfold entry_size in Hsize. cbn [fst snd prefix_entry] in Hsize. lia. }
  fold (prefix_entry k). rewrite Hlevel, Hexp. done.
Qed.

(** The search returns the catalog order of the applicable actions. *)
Lemma search_finds : ∃ turns, ∀ fuel, search actions (turns + S fuel) [prefix_entry 0] ∅ = Some (Some ids).
Proof.
  destruct (search_reaches n) as (turns & rest & seen & _ & Hseen & H0 & Hrun); [done|].
  pose proof (prefix_entry_size n ltac:(done)) as Hsize.
  unfold entry_size in Hsize. cbn [fst snd prefix_entry] in Hsize.
  exists turns. intros fuel. rewrite Hrun. cbn [search prefix_entry].
  rewrite bool_decide_eq_false_2.
  2:{ intros Hin. destruct (decide (n = 0)) as [E|E]; [rewrite H0 in Hin by done; set_solver|].
      apply Hseen in Hin. rewrite seen_key_length in Hin. lia. }
  assert (take n ids = ids) as ->.
  { apply firstn_all2. unfold ids. by rewrite length_fmap. }
  assert (forallb (λ a, bool_decide (id a ∈ (list_to_set ids : gset string))) actions = true) as ->; [|done].
  apply forallb_true_iff. intros a Ha. apply bool_decide_eq_true_2, elem_of_list_to_set.
  apply list_elem_of_fmap. eauto.
Qed.

End Search.

(** What the search needs of the catalog, and that its order is the network's
    plan: a check over the six facts and the two pack flags. *)
Definition plan_of (facts : HtnFacts) (http cli : bool) : list string :=
  (if http && (has_http_paths facts || has_server facts) then ["http-surface-map"] else []) ++
  (if http && has_users facts then HTTP_USER_CAMPAIGNS else []) ++
  (if http && has_files facts then HTTP_FILE_CAMPAIGNS else []) ++
  (if cli && has_parse facts then CLI_PARSE_CAMPAIGNS else []) ++
  (if cli && has_once facts then CLI_ONCE_CAMPAIGNS else []).

Definition catalog_check (facts : HtnFacts) (http cli : bool) : bool :=
  let actions := List.filter (action_applies facts http cli) catalog in
  catalog_ok actions && bool_decide (id <$> actions = plan_of facts http cli).

Lemma catalog_checked facts http cli : catalog_check facts http cli = true.
Proof. destruct facts as [[] [] [] [] [] []], http, cli; vm_compute; reflexivity. Qed.

Lemma applicable_ok facts pack :
  catalog_ok (applicable facts pack) = true ∧ id <$> applicable facts pack = htn_plan facts pack.
Proof.
  pose proof (catalog_checked facts (is_http pack) (is_cli pack)) as H.
  unfold catalog_check in H. split_guards. done.
Qed.

Lemma catalog_ok_spec actions :
  catalog_ok actions = true →
  NoDup (id <$> actions) ∧
  ∀ k a, actions !! k = Some a → needs_mapped a = true → mapped_after actions k = true.
Proof.
  unfold catalog_ok. intros H. split_guards. split; [done|]. intros k a Ha Hm.
  match goal with G : forallb _ _ = true |- _ => rewrite forallb_true_iff in G; specialize (G k) end.
  rewrite Ha, Hm in H0. apply H0, elem_of_seq. apply lookup_lt_Some in Ha. lia.
Qed.

Lemma prefix_entry_0 actions : prefix_entry actions 0 = (start_mapped actions, ∅, []).
Proof. unfold prefix_entry, mapped_after. rewrite take_0. cbn. by rewrite orb_false_r. Qed.

(** Enough turns of the search give the network's plan. *)
Lemma strips_plan_enough facts pack :
  ∃ turns, ∀ fuel, turns <= fuel → strips_plan fuel facts pack = Some (htn_plan facts pack).
Proof.
  destruct (applicable_ok facts pack) as [Hok Hids]. apply catalog_ok_spec in Hok as [Hnd Hpre].
  destruct (search_finds (applicable facts pack) Hnd Hpre) as [turns Hs].
  exists (S turns). intros fuel Hf. unfold strips_plan. case_bool_decide as E.
  { rewrite E in Hids. by rewrite <- Hids. }
  replace fuel with (turns + S (fuel - S turns)) by lia.
  specialize (Hs (fuel - S turns)). rewrite prefix_entry_0 in Hs.
  transitivity (default (htn_plan facts pack) <$> Some (Some (id <$> applicable facts pack))).
  - f_equal. exact Hs.
  - rewrite Hids. reflexivity.
Qed.

(** C37: the STRIPS search terminates on every set of facts and every pack, and
    the plan it returns is exactly the task network's: the breadth-first search
    over subsets never changes the order. *)
Theorem strips_plan_is_htn_plan facts pack :
  ∃ turns, ∀ fuel, turns <= fuel → strips_plan fuel facts pack = Some (htn_plan facts pack).
Proof. apply strips_plan_enough. Qed.

(** ** Replanning from failure memory *)

Lemma collect_skipped_spec plan memory acc x :
  x ∈ collect_skipped plan memory acc ↔
  x ∈ acc ∨ (x ∈ plan ∧ mkFailureMemory x "TOOL_GAP" ∈ memory).
Proof.
  revert acc. induction memory as [|[i c] memory IH]; intros acc; cbn [collect_skipped]; [set_solver|].
  rewrite IH. cbn [category spec_id].
  destruct (String.eqb_spec c "TOOL_GAP") as [->|Hc]; cbn [andb].
  - repeat case_bool_decide; cbn [andb negb]; set_solver.
  - rewrite elem_of_cons. naive_solver.
Qed.

Lemma vec_remove_perm i l x : l !! i = Some x → x :: vec_remove i l ≡ₚ l.
Proof.
  intros Hx. unfold vec_remove. rewrite <- (take_drop_middle l i x Hx) at 3.
  by rewrite Permutation_middle.
Qed.

Lemma insert_front_app pre ids rest : insert_front (length pre) ids (pre ++ rest) = pre ++ ids ++ rest.
Proof.
  revert pre rest. induction ids as [|i ids IH]; intros pre rest; [done|]. cbn [insert_front].
  rewrite take_app_length, drop_app_length.
  replace (pre ++ i :: rest) with ((pre ++ [i]) ++ rest) by (by rewrite <- app_assoc).
  replace (S (length pre)) with (length (pre ++ [i])) by (rewrite length_app; cbn; lia).
  rewrite IH. by rewrite <- app_assoc.
Qed.

(** Promotion only moves campaigns, and moves exactly those the memory names. *)
Lemma promote_spec skipped memory kept camps proms camps' proms' :
  promote skipped memory camps proms = (camps', proms') → proms ++ camps ≡ₚ kept →
  proms' ++ camps' ≡ₚ kept ∧
  ∀ x, x ∈ proms' ↔ x ∈ proms ∨ (x ∈ kept ∧ (x ∉ skipped) ∧
    mkFailureMemory x "EXPERIMENT_INADEQUATE" ∈ memory).
Proof.
  revert camps proms. induction memory as [|[i c] memory IH]; intros camps proms; cbn [promote].
  { intros [= -> ->] ?. split; [done|]. set_solver. }
  cbn [category spec_id]. intros Hp Hk.
  assert (Hskip : promote skipped memory camps proms = (camps', proms') →
    (c = "EXPERIMENT_INADEQUATE" → i ∈ skipped ∨ i ∉ kept ∨ i ∈ proms) →
    proms' ++ camps' ≡ₚ kept ∧ ∀ x, x ∈ proms' ↔ x ∈ proms ∨ (x ∈ kept ∧ (x ∉ skipped) ∧
      mkFailureMemory x "EXPERIMENT_INADEQUATE" ∈ mkFailureMemory i c :: memory)).
  { intros Hr Hi. destruct (IH _ _ Hr Hk) as [? Hx]. split; [done|]. intros x. rewrite Hx.
    rewrite elem_of_cons. naive_solver. }
  destruct (String.eqb_spec c "EXPERIMENT_INADEQUATE") as [->|Hc]; cbn [negb] in Hp; [|by apply Hskip].
  case_bool_decide as Hs; [apply Hskip; auto|].
  destruct (list_find _ camps) as [[j y]|] eqn:Hf.
  - apply list_find_Some in Hf as (Hj & -> & _). case_bool_decide as Hpr; cbn [negb] in Hp.
    + apply Hskip; auto.
    + destruct (IH _ _ Hp) as [? Hx].
      { rewrite <- Hk, <- app_assoc. cbn [app]. by rewrite (vec_remove_perm _ _ _ Hj). }
      assert (i ∈ kept) by (rewrite <- Hk; apply elem_of_app; right; by eapply list_elem_of_lookup_2).
      split; [done|]. intros x. rewrite Hx, elem_of_app, list_elem_of_singleton, elem_of_cons. naive_solver.
  - apply Hskip; [done|]. intros _. right. rewrite list_find_None, Forall_forall in Hf.
    rewrite <- Hk, elem_of_app. destruct (decide (i ∈ proms)); [auto|]. left. naive_solver.
Qed.

(** Replanning adds nothing: the new plan is the old one without the
    campaigns marked [TOOL_GAP], reordered so that exactly the surviving
    campaigns marked [EXPERIMENT_INADEQUATE] come first. *)
Theorem apply_failure_memory_spec plan memory :
  let r := apply_failure_memory plan memory in
  (∀ x, x ∈ skipped r ↔ x ∈ plan ∧ mkFailureMemory x "TOOL_GAP" ∈ memory) ∧
  (∀ x, x ∈ promoted r ↔ x ∈ plan ∧ (x ∉ skipped r) ∧
     mkFailureMemory x "EXPERIMENT_INADEQUATE" ∈ memory) ∧
  campaigns r ≡ₚ filter (λ x, x ∉ skipped r) plan ∧
  promoted r `prefix_of` campaigns r.
Proof.
  unfold apply_failure_memory.
  pose proof (collect_skipped_spec plan memory []) as Hsk.
  set (sk := collect_skipped plan memory []) in *.
  destruct (promote sk memory (filter (λ x, x ∉ sk) plan) []) as [rest proms] eqn:Hp. cbn zeta.
  cbn [campaigns skipped promoted].
  apply (promote_spec sk memory (filter (λ x, x ∉ sk) plan)) in Hp as [Hperm Hprom]; [|done].
  pose proof (insert_front_app [] proms rest) as Hins. cbn [app length] in Hins. rewrite Hins.
  split_and!; [|..|by eexists].
  - intros x. rewrite Hsk. set_solver.
  - intros x. rewrite Hprom, list_elem_of_filter. set_solver.
  - done.
Qed.

(** Every skill of the completeness table maps to campaigns of the catalog. *)
Lemma skill_tasks_in_catalog :
  forallb (λ t, negb (bool_decide (task_campaigns t = [])) &&
                forallb (λ c, bool_decide (c ∈ id <$> catalog)) (task_campaigns t)) SKILL_TASKS = true.
Proof. vm_compute. reflexivity. Qed.

End Planner.
