(* ===== verification/Spec.v ===== *)
(** * Declarative campaign specifications (crate [aros-types], [campaign_spec.rs])

    The contract a campaign file must satisfy before anything runs. [validate]
    is proved to decide a declarative well-formedness predicate, and the slug
    automaton to accept exactly the hyphen-separated words. *)

From S2P Require Import Prelude RustStr Json.

Module Spec.

(** [src crates/aros-types/src/campaign_spec.rs 40-49 CampaignTarget] *)
Record CampaignTarget := mkCampaignTarget {
  project : string;
  repo : option string;
  revision_pin : string;
  language : option string;
}.

(** [src crates/aros-types/src/campaign_spec.rs 51-63 SecurityClass] *)
Inductive SecurityClass :=
| Confidentiality | Integrity | Authenticity | ForwardSecrecy | Availability | MemorySafety
| SupplyChain | SideChannel | Authorization.

(** [src crates/aros-types/src/campaign_spec.rs 65-71 HistoricalPattern] *)
Record HistoricalPattern := mkHistoricalPattern { summary : string; references : list string }.

(** [src crates/aros-types/src/campaign_spec.rs 73-81 CampaignSurface] *)
Record CampaignSurface := mkCampaignSurface {
  entrypoints : list string;
  surface_files : list string;
  notes : option string;
}.

(** [src crates/aros-types/src/campaign_spec.rs 94-101 CampaignNetwork] *)
Inductive CampaignNetwork := NetNone | LoopbackOnly.

(** [src crates/aros-types/src/campaign_spec.rs 83-92 ResourceLimits] *)
Record ResourceLimits := mkResourceLimits {
  wall_clock_seconds : N;
  memory_mb : N;
  max_iterations : option N;
  limits_network : CampaignNetwork;
}.

(** [src crates/aros-types/src/campaign_spec.rs 118-131 GeneratorKind] *)
Inductive GeneratorKind := Harness | Fuzzer | Differential | FormalCheck | PropertyTest.

(** [src crates/aros-types/src/campaign_spec.rs 103-116 CampaignGenerator] *)
Record CampaignGenerator := mkCampaignGenerator {
  kind : GeneratorKind;
  command : string;
  corpus : option string;
  harness : option string;
  bind : gmap string string;
}.

(** [src crates/aros-types/src/campaign_spec.rs 144-153 OracleDecides] *)
Inductive OracleDecides :=
| ExitCode | StdoutContains | StdoutNotContains | JsonField | DifferentialMismatch
| CounterexampleFound.

#[global] Instance OracleDecides_eq_dec : EqDecision OracleDecides.
Proof. solve_decision. Defined.

(** [src crates/aros-types/src/campaign_spec.rs 133-142 CampaignOracle] *)
Record CampaignOracle := mkCampaignOracle {
  decides : OracleDecides;
  success_means : string;
  match_ : option string;
  negative_control : option string;
}.

(** [src crates/aros-types/src/campaign_spec.rs 155-160 ExpectedOutcome] *)
Inductive ExpectedOutcome := ExpInvariantHolds | ExpInvariantBroken.

#[global] Instance ExpectedOutcome_eq_dec : EqDecision ExpectedOutcome.
Proof. solve_decision. Defined.

(** [src crates/aros-types/src/campaign_spec.rs 162-173 NamedAttackSurface] *)
Record NamedAttackSurface := mkNamedAttackSurface {
  surface_name : string;
  named_entrypoints : list string;
  named_files : list string;
  surface_generator : CampaignGenerator;
  surface_oracle : option CampaignOracle;
}.

(** [src crates/aros-types/src/campaign_spec.rs 175-180 StructuralControl] *)
Record StructuralControl := mkStructuralControl {
  good : CampaignGenerator;
  mutant : CampaignGenerator;
}.

(** [src crates/aros-types/src/campaign_spec.rs 9-38 CampaignSpec] *)
Record CampaignSpec := mkCampaignSpec {
  spec_id : string;
  schema_version : option string;
  target : option CampaignTarget;
  security_class : SecurityClass;
  historical_pattern : HistoricalPattern;
  surface : CampaignSurface;
  invariant : string;
  attacker_capabilities : list string;
  prerequisites : list string;
  resource_limits : ResourceLimits;
  assigned_roles : list string;
  generator : CampaignGenerator;
  oracle : CampaignOracle;
  expected_outcome : ExpectedOutcome;
  required_evidence : list string;
  severity_rationale : string;
  surfaces : list NamedAttackSurface;
  structural_control : option StructuralControl;
}.

(** ** Slugs *)

Definition cp_lowercase (c : N) : bool := (97 <=? c)%N && (c <=? 122)%N.
Definition cp_digit (c : N) : bool := (48 <=? c)%N && (c <=? 57)%N.

(** The loop of [id_is_slug]; 45 is the hyphen.
    [src crates/aros-types/src/campaign_spec.rs 291-305 id_is_slug] *)
Fixpoint slug_loop (cs : list N) (prev_hyphen : bool) : bool :=
  match cs with
  | [] => negb prev_hyphen
  | c :: cs =>
    if (c =? 45)%N then (if prev_hyphen then false else slug_loop cs true)
    else if negb (cp_lowercase c) && negb (cp_digit c) then false
    else slug_loop cs false
  end.

(** [src crates/aros-types/src/campaign_spec.rs 286-306 id_is_slug] *)
Definition id_is_slug (id : string) : bool :=
  match chars id with
  | [] => false
  | cs => slug_loop cs true
  end.

Definition known_levels : list string := ["E0"; "E1"; "E2"; "E3"; "E4"; "E5"; "E6"; "E7"].

(** The loop over the required evidence levels.
    [src crates/aros-types/src/campaign_spec.rs 240-249 CampaignSpec::validate] *)
Fixpoint check_levels (levels : list string) : result TypesError unit :=
  match levels with
  | [] => Ok ()
  | level :: levels =>
    if bool_decide (level ∈ known_levels) then check_levels levels
    else Err (TeInvalidCampaign ("unknown evidence level " +:+ level))
  end.

(** [src crates/aros-types/src/campaign_spec.rs 255-261 CampaignSpec::validate] *)
Fixpoint check_surfaces (ss : list NamedAttackSurface) : result TypesError unit :=
  match ss with
  | [] => Ok ()
  | s :: ss =>
    if is_empty (trim (surface_name s)) || is_empty (trim (command (surface_generator s)))
    then Err (TeInvalidCampaign "each named surface needs a name and generator.command")
    else check_surfaces ss
  end.

Definition require (b : bool) (message : string) : result TypesError unit :=
  if b then Ok () else Err (TeInvalidCampaign message).

Section Validate.
(** The [Debug] form of a string. *)
Variable debug_str : string → string.

(** [src crates/aros-types/src/campaign_spec.rs 189-270 CampaignSpec::validate] *)
Definition validate (s : CampaignSpec) : result TypesError unit :=
  _ ← require (negb (is_empty (spec_id s) || negb (id_is_slug (spec_id s))))
        ("id " +:+ debug_str (spec_id s) +:+ " is not a slug [a-z0-9]+(-[a-z0-9]+)*");
  _ ← match schema_version s with
      | Some version => require (String.eqb version "0.1") ("unsupported schema_version " +:+ version)
      | None => Ok ()
      end;
  _ ← require (negb (is_empty (trim (invariant s)))) "invariant must be a falsifiable claim";
  _ ← require (negb (bool_decide (attacker_capabilities s = [])))
        "attacker_capabilities must not be empty";
  _ ← require (negb (bool_decide (entrypoints (surface s) = [])))
        "surface.entrypoints must not be empty";
  _ ← require (negb ((wall_clock_seconds (resource_limits s) <? 1)%N ||
                     (memory_mb (resource_limits s) <? 1)%N))
        "resource_limits must bound wall clock and memory";
  _ ← require (negb (is_empty (trim (command (generator s))))) "generator.command must not be empty";
  _ ← match harness (generator s) with
      | Some h => require (id_is_slug h)
                    ("generator.harness " +:+ debug_str h +:+ " is not a catalog slug")
      | None => Ok ()
      end;
  _ ← require (negb (bool_decide (required_evidence s = []))) "required_evidence must not be empty";
  _ ← check_levels (required_evidence s);
  _ ← require (negb (bool_decide (decides (oracle s) = StdoutContains) &&
                     bool_decide (match_ (oracle s) = None)))
        "stdout_contains oracle requires match";
  _ ← check_surfaces (surfaces s);
  match structural_control s with
  | Some control =>
    require (negb (is_empty (trim (command (good control))) || is_empty (trim (command (mutant control)))))
      "structural_control good and mutant commands are required"
  | None => Ok ()
  end.

End Validate.

(** [src crates/aros-types/src/campaign_spec.rs 272-283 CampaignSpec::attack_plans] *)
Definition attack_plans (s : CampaignSpec) : list (string * CampaignGenerator * CampaignOracle) :=
  match surfaces s with
  | [] => [("primary", generator s, oracle s)]
  | ss => (λ x, (surface_name x, surface_generator x, default (oracle s) (surface_oracle x))) <$> ss
  end.

(** ** The slug language *)

Definition slug_byte (c : ascii) : bool := is_ascii_lowercase c || is_ascii_digit c.

(** A word [[a-z0-9]+]. *)
Definition word (w : string) : Prop := w ≠ "" ∧ all_bytes slug_byte w = true.

(** The language [[a-z0-9]+(-[a-z0-9]+)*]. *)
Definition slug (s : string) : Prop := ∃ ws, ws ≠ [] ∧ Forall word ws ∧ s = join "-" ws.

(** The automaton, read on bytes. *)
Fixpoint slug_bytes (s : string) (prev_hyphen : bool) : bool :=
  match s with
  | EmptyString => negb prev_hyphen
  | String c s =>
    if Ascii.eqb c "-" then (if prev_hyphen then false else slug_bytes s true)
    else if slug_byte c then slug_bytes s false
    else false
  end.

Lemma slug_byte_cp c : slug_byte c = cp_lowercase (byte_val c) || cp_digit (byte_val c).
Proof. done. Qed.

Lemma hyphen_val c : (byte_val c =? 45)%N = Ascii.eqb c "-".
Proof.
  destruct (Ascii.eqb_spec c "-") as [->|Hne]; [done|]. apply N.eqb_neq. intros E. apply Hne.
  rewrite <- (ascii_N_embedding c). unfold byte_val in E. by rewrite E.
Qed.

Lemma slug_loop_ascii cs p : slug_loop cs p = true → Forall (λ c, (c < 128)%N) cs.
Proof.
  revert p. induction cs as [|c cs IH]; intros p; cbn [slug_loop]; [constructor|].
  destruct (N.eqb_spec c 45) as [->|]; [destruct p; [done|]; constructor; [lia|eauto]|].
  unfold cp_lowercase, cp_digit.
  destruct (N.leb_spec 97 c), (N.leb_spec c 122), (N.leb_spec 48 c), (N.leb_spec c 57);
    cbn; intros; try done; constructor; eauto; lia.
Qed.

Lemma slug_loop_bytes s p :
  is_ascii s = true → slug_loop (chars s) p = slug_bytes s p.
Proof.
  intros Ha. unfold chars. rewrite decode_ascii by done. clear Ha.
  revert p. induction s as [|c s IH]; intros p; [done|].
  cbn [String.list_ascii_of_string fmap list_fmap slug_loop slug_bytes fst].
  rewrite hyphen_val, slug_byte_cp. destruct (Ascii.eqb c "-"); [by destruct p|].
  destruct (cp_lowercase (byte_val c)), (cp_digit (byte_val c)); cbn; done || apply IH.
Qed.

Lemma slug_bytes_ascii s p : slug_bytes s p = true → is_ascii s = true.
Proof.
  unfold is_ascii. revert p. induction s as [|c s IH]; intros p; [done|]. cbn [slug_bytes all_bytes].
  destruct (Ascii.eqb_spec c "-") as [->|_]; [destruct p; [done|]; cbn; eauto|].
  destruct (slug_byte c) eqn:E; [|done]. intros Hs. rewrite (IH _ Hs), andb_true_r.
  apply N.ltb_lt. unfold slug_byte, is_ascii_lowercase, is_ascii_digit in E.
  apply orb_true_iff in E as [E|E]; split_guards;
    match goal with G : (byte_val c <=? _)%N = true |- _ => apply N.leb_le in G; lia end.
Qed.

Lemma id_is_slug_bytes s : id_is_slug s = slug_bytes s true.
Proof.
  unfold id_is_slug. destruct (slug_bytes s true) eqn:E.
  - assert (is_ascii s = true) as Ha by (by eapply slug_bytes_ascii).
    destruct (chars s) eqn:Ec; [|rewrite <- Ec; by rewrite slug_loop_bytes].
    rewrite <- (slug_loop_bytes s true Ha), Ec in E. done.
  - destruct (chars s) eqn:Ec; [done|]. rewrite <- Ec.
    destruct (slug_loop (chars s) true) eqn:El; [|done].
    rewrite slug_loop_bytes in El by (by eapply chars_ascii, slug_loop_ascii). congruence.
Qed.

(** From inside a word ([false]) the automaton accepts the rest of the word and
    then further words. *)
Lemma slug_bytes_word w s : all_bytes slug_byte w = true → slug_bytes (w +:+ s) false = slug_bytes s false.
Proof.
  induction w as [|c w IH]; [done|]. cbn [all_bytes]. rewrite andb_true_iff, sapp_cons. intros [Hc Hw].
  cbn [slug_bytes]. destruct (Ascii.eqb_spec c "-") as [->|_]; [done|]. rewrite Hc. by apply IH.
Qed.

Lemma slug_bytes_word_start w s p :
  word w → slug_bytes (w +:+ s) p = slug_bytes s false.
Proof.
  intros [Hne Hw]. destruct w as [|c w]; [done|]. cbn [all_bytes] in Hw.
  apply andb_true_iff in Hw as [Hc Hw]. rewrite sapp_cons. cbn [slug_bytes].
  destruct (Ascii.eqb_spec c "-") as [->|_]; [done|]. rewrite Hc. by apply slug_bytes_word.
Qed.

Lemma slug_bytes_sound s p :
  slug_bytes s p = true →
  ∃ w ws, all_bytes slug_byte w = true ∧ (p = true → w ≠ "") ∧ Forall word ws ∧
    s = join "-" (w :: ws).
Proof.
  revert p. induction s as [|c s IH]; intros p; cbn [slug_bytes].
  { destruct p; [done|]. intros _. exists "", []. by repeat constructor. }
  destruct (Ascii.eqb_spec c "-") as [->|Hne].
  - destruct p; [done|]. intros (w & ws & Hw & Hn & Hws & ->)%IH.
    exists "", (w :: ws). split_and!; [done..| |]; [by constructor; [split; auto|]|].
    by rewrite (join_cons _ "") by done.
  - destruct (slug_byte c) eqn:Hc; [|done]. intros (w & ws & Hw & _ & Hws & ->)%IH.
    exists (String c w), ws. split_and!; [cbn; by rewrite Hc|done|done|].
    destruct ws; [done|]. by rewrite !join_cons, sapp_cons by done.
Qed.

Lemma slug_bytes_complete ws p :
  ws ≠ [] → Forall word ws → slug_bytes (join "-" ws) p = true.
Proof.
  intros Hne Hws. revert p Hne. induction Hws as [|w ws Hw Hws IH]; intros p Hne; [done|].
  destruct ws as [|w' ws].
  - cbn [join]. rewrite <- (sapp_nil_r w). by rewrite slug_bytes_word_start.
  - rewrite join_cons by done. rewrite slug_bytes_word_start by done.
    rewrite sapp_cons, sapp_nil_l. by apply (IH true).
Qed.

Lemma id_is_slug_lemma s : id_is_slug s = true ↔ slug s.
Proof.
  rewrite id_is_slug_bytes. split.
  - intros (w & ws & Hw & Hn & Hws & ->)%slug_bytes_sound. exists (w :: ws). split_and!; [done| |done].
    constructor; [split; auto|done].
  - intros (ws & Hne & Hws & ->). by apply slug_bytes_complete.
Qed.

Lemma slug_nonempty s : slug s → s ≠ "".
Proof. intros Hs%id_is_slug_lemma ->. done. Qed.

(** The slug automaton accepts exactly the language its error message
    states, [[a-z0-9]+(-[a-z0-9]+)*]; no other character is ever accepted. *)
Theorem id_is_slug_spec s :
  (id_is_slug s = true ↔ slug s) ∧
  (id_is_slug s = true → s ≠ "" ∧ all_bytes (λ c, slug_byte c || Ascii.eqb c "-") s = true).
Proof.
  split; [apply id_is_slug_lemma|]. rewrite id_is_slug_lemma. intros (ws & Hne & Hws & ->).
  split; [apply slug_nonempty; by exists ws|]. clear Hne.
  induction Hws as [|w ws [Hw Hb] Hws IH]; [done|].
  assert (all_bytes (λ c, slug_byte c || Ascii.eqb c "-") w = true) as Hw'.
  { eapply all_bytes_impl; [|exact Hb]. intros c Hc. by rewrite Hc. }
  destruct ws; [done|]. rewrite join_cons, !all_bytes_app, Hw', IH by done. done.
Qed.

(** ** Validation *)

Definition has_text (s : string) : Prop := trim s ≠ "".

(** What [validate] demands of a specification. *)
Record spec_wf (s : CampaignSpec) : Prop := {
  wf_id : slug (spec_id s);
  wf_version : ∀ v, schema_version s = Some v → v = "0.1";
  wf_invariant : has_text (invariant s);
  wf_capabilities : attacker_capabilities s ≠ [];
  wf_entrypoints : entrypoints (surface s) ≠ [];
  wf_wall_clock : (1 <= wall_clock_seconds (resource_limits s))%N;
  wf_memory : (1 <= memory_mb (resource_limits s))%N;
  wf_command : has_text (command (generator s));
  wf_harness : ∀ h, harness (generator s) = Some h → slug h;
  wf_evidence : required_evidence s ≠ [];
  wf_levels : Forall (λ l, l ∈ known_levels) (required_evidence s);
  wf_match : decides (oracle s) = StdoutContains → is_Some (match_ (oracle s));
  wf_surfaces : Forall (λ x, has_text (surface_name x) ∧ has_text (command (surface_generator x)))
                  (surfaces s);
  wf_control : ∀ c, structural_control s = Some c →
    has_text (command (good c)) ∧ has_text (command (mutant c));
}.

Lemma require_Ok b m : require b m = Ok () ↔ b = true.
Proof. destruct b; naive_solver. Qed.

Lemma is_empty_false s : is_empty s = false ↔ s ≠ "".
Proof. by destruct s. Qed.

Lemma check_levels_Ok ls : check_levels ls = Ok () ↔ Forall (λ l, l ∈ known_levels) ls.
Proof.
  induction ls as [|l ls IH]; cbn [check_levels]; [by repeat constructor|].
  rewrite Forall_cons. case_bool_decide; [rewrite IH|]; naive_solver.
Qed.

Lemma check_surfaces_Ok ss :
  check_surfaces ss = Ok () ↔
  Forall (λ x, has_text (surface_name x) ∧ has_text (command (surface_generator x))) ss.
Proof.
  induction ss as [|x ss IH]; cbn [check_surfaces]; [by repeat constructor|].
  rewrite Forall_cons, <- IH. unfold has_text. rewrite <- !is_empty_false.
  destruct (is_empty _), (is_empty _); naive_solver.
Qed.

Lemma bind_unit_Ok {E} (r : result E unit) (f : result E unit) :
  (_ ← r; f) = Ok () ↔ r = Ok () ∧ f = Ok ().
Proof. destruct r as [[]|]; cbn; naive_solver. Qed.

(** [validate] accepts exactly the well-formed specifications. *)
Theorem validate_spec debug_str s : validate debug_str s = Ok () ↔ spec_wf s.
Proof.
  unfold validate. rewrite !bind_unit_Ok, !require_Ok, check_levels_Ok, check_surfaces_Ok.
  rewrite !negb_true_iff, !orb_false_iff, !negb_false_iff, !bool_decide_eq_false, !is_empty_false,
    !N.ltb_ge, andb_false_iff, !bool_decide_eq_false, id_is_slug_lemma.
  assert (Hv : match schema_version s with
    | Some version => require (String.eqb version "0.1") ("unsupported schema_version " +:+ version)
    | None => Ok () end = Ok () ↔ ∀ v, schema_version s = Some v → v = "0.1").
  { destruct (schema_version s); [rewrite require_Ok, String.eqb_eq|]; naive_solver. }
  assert (Hh : match harness (generator s) with
    | Some h => require (id_is_slug h) ("generator.harness " +:+ debug_str h +:+ " is not a catalog slug")
    | None => Ok () end = Ok () ↔ ∀ h, harness (generator s) = Some h → slug h).
  { destruct (harness (generator s)); [rewrite require_Ok, id_is_slug_lemma|]; naive_solver. }
  assert (Hc : match structural_control s with
    | Some control =>
      require (negb (is_empty (trim (command (good control))) || is_empty (trim (command (mutant control)))))
        "structural_control good and mutant commands are required"
    | None => Ok () end = Ok () ↔ ∀ c, structural_control s = Some c →
      has_text (command (good c)) ∧ has_text (command (mutant c))).
  { destruct (structural_control s); [|naive_solver].
    rewrite require_Ok, negb_true_iff, orb_false_iff, !is_empty_false. unfold has_text.
    split; [by intros ? ? [= <-]|]. intros Hc. by apply Hc. }
  rewrite Hv, Hh, Hc.
  assert (Hm : (decides (oracle s) ≠ StdoutContains ∨ match_ (oracle s) ≠ None) ↔
    (decides (oracle s) = StdoutContains → is_Some (match_ (oracle s)))).
  { rewrite <- not_eq_None_Some. destruct (decide (decides (oracle s) = StdoutContains)); tauto. }
  rewrite Hm. split.
  - intros ([_ H1] & H2 & H3 & H4 & H5 & [H6 H7] & H8 & H9 & H10 & H11 & H12 & H13 & H14). by split.
  - intros []. split_and!; try done. by apply slug_nonempty.
Qed.

End Spec.
