(* ===== verification/Claims.v ===== *)
(** * Project claims (crate [aros-core], [claims.rs])

    A target may state one oracle in [INVARIANT.md]. The file is untrusted: the
    theorems show that a parsed claim consists of harmless tokens, that lines
    other than a single oracle line never matter, and that a rendered claim is
    parsed back. *)

From S2P Require Import Prelude RustStr Json Spec.
Import Spec.

Module Claims.

(** [src crates/aros-core/src/claims.rs 10-15 ProjectClaim] *)
Record ProjectClaim := mkProjectClaim {
  claim_cookie : string;
  claim_path : string;
  claim_needle : string;
}.

Definition backtick : ascii := "`"%char.

Definition token_char (c : N) : bool :=
  cp_lowercase c || ((65 <=? c)%N && (c <=? 90)%N) || cp_digit c ||
  bool_decide (c ∈ byte_val <$> ["="; "-"; "_"]%char).

(** [src crates/aros-core/src/claims.rs 109-115 safe_claim_token] *)
Definition safe_claim_token (value : string) : bool :=
  negb (is_empty value) && (str_len value <=? 120)%nat && forallb token_char (chars value).

Definition path_char (c : N) : bool :=
  cp_lowercase c || ((65 <=? c)%N && (c <=? 90)%N) || cp_digit c ||
  bool_decide (c ∈ byte_val <$> ["/"; "?"; "="; "-"; "_"; "."; "%"; "&"]%char).

(** [src crates/aros-core/src/claims.rs 117-125 safe_path] *)
Definition safe_path (value : string) : bool :=
  starts_with value "/" && (str_len value <=? 200)%nat && negb (contains value "//") &&
  forallb path_char (chars value).

(** [src crates/aros-core/src/claims.rs 102-107 take_backtick] *)
Definition take_backtick (text : string) : option (string * string) :=
  rest ← strip_prefix "`" (trim_start text);
  split_once backtick rest.

Definition oracle_prefix : string := "Oracle: authenticated as ".

(** [src crates/aros-core/src/claims.rs 82-100 parse_oracle_line] *)
Definition parse_oracle_line (line : string) : option ProjectClaim :=
  rest ← strip_prefix oracle_prefix line;
  '(cookie_span, rest) ← take_backtick rest;
  cookie ← trim <$> strip_prefix "Cookie: " cookie_span;
  rest ← trim_start <$> strip_prefix "," (trim_start rest);
  '(request, rest) ← take_backtick rest;
  path ← trim <$> strip_prefix "GET " request;
  let rest := trim_start rest in
  rest ← trim_start <$> strip_prefix "must not contain " rest;
  '(needle, _) ← take_backtick rest;
  if negb (safe_claim_token cookie) || negb (safe_path path) || negb (safe_claim_token needle)
  then None
  else Some (mkProjectClaim cookie path needle).

(** The loop over the lines.
    [src crates/aros-core/src/claims.rs 40-50 parse_project_claim] *)
Fixpoint parse_lines (ls : list string) (found : option ProjectClaim) : option ProjectClaim :=
  match ls with
  | [] => found
  | line :: ls =>
    let line := trim line in
    if negb (starts_with line oracle_prefix) then parse_lines ls found
    else if bool_decide (is_Some found) then None
    else match parse_oracle_line line with
         | Some claim => parse_lines ls (Some claim)
         | None => None
         end
  end.

(** [src crates/aros-core/src/claims.rs 38-51 parse_project_claim] *)
Definition parse_project_claim (text : string) : option ProjectClaim := parse_lines (lines text) None.

(** The contents of [INVARIANT.md], if it can be read, are an argument.
    [src crates/aros-core/src/claims.rs 17-20 read_project_claim] *)
Definition read_project_claim (file : option string) : option ProjectClaim :=
  file ≫= parse_project_claim.

(** [src crates/aros-core/src/claims.rs 23-28 accepted_project_claim] *)
Definition accepted_project_claim (spec : CampaignSpec) (file : option string) : option ProjectClaim :=
  if negb (String.eqb (spec_id spec) "http-idor") then None else read_project_claim file.

(** [src crates/aros-core/src/claims.rs 31-36 claim_statement] *)
Definition claim_statement (c : ProjectClaim) : string :=
  "Caller authenticated as Cookie " +:+ claim_cookie c +:+ " must not receive " +:+
  claim_needle c +:+ " from GET " +:+ claim_path c.

Definition set_bind (g : CampaignGenerator) (b : gmap string string) : CampaignGenerator :=
  mkCampaignGenerator (kind g) (command g) (corpus g) (harness g) b.

Definition set_generator (s : CampaignSpec) (g : CampaignGenerator) : CampaignSpec :=
  mkCampaignSpec (spec_id s) (schema_version s) (target s) (security_class s)
    (historical_pattern s) (surface s) (invariant s) (attacker_capabilities s) (prerequisites s)
    (resource_limits s) (assigned_roles s) g (oracle s) (expected_outcome s)
    (required_evidence s) (severity_rationale s) (surfaces s) (structural_control s).

(** [src crates/aros-core/src/claims.rs 58-80 bind_accepted_claim] *)
Definition bind_accepted_claim (spec : CampaignSpec) (claim : option ProjectClaim) : CampaignSpec :=
  if String.eqb (spec_id spec) "http-idor" then
    match claim with
    | Some c =>
      let b := bind (generator spec) in
      let b := <["attack_path" := claim_path c]> b in
      let b := <["attack_cookie" := claim_cookie c]> b in
      let b := <["attack_contains" := claim_needle c]> b in
      set_generator spec (set_bind (generator spec) b)
    | None => spec
    end
  else spec.

(** [src crates/aros-core/src/claims.rs 54-56 bind_project_claim] *)
Definition bind_project_claim (spec : CampaignSpec) (file : option string) : CampaignSpec :=
  bind_accepted_claim spec (accepted_project_claim spec file).

(** ** Only a single oracle line counts *)

(** The oracle lines of a text, trimmed. *)
Definition oracle_lines (text : string) : list string :=
  List.filter (λ l, starts_with l oracle_prefix) (trim <$> lines text).

Lemma parse_lines_found ls c :
  parse_lines ls (Some c) =
    match List.filter (λ l, starts_with l oracle_prefix) (trim <$> ls) with
    | [] => Some c
    | _ => None
    end.
Proof.
  induction ls as [|l ls IH]; [done|]. cbn [parse_lines fmap list_fmap List.filter].
  destruct (starts_with (trim l) oracle_prefix); cbn [negb]; [|exact IH].
  by rewrite bool_decide_eq_true_2.
Qed.

Lemma parse_project_claim_alt text :
  parse_project_claim text =
    match oracle_lines text with
    | [l] => parse_oracle_line l
    | _ => None
    end.
Proof.
  unfold parse_project_claim, oracle_lines. induction (lines text) as [|l ls IH]; [done|].
  cbn [parse_lines fmap list_fmap List.filter].
  destruct (starts_with (trim l) oracle_prefix); cbn [negb]; [|exact IH].
  rewrite bool_decide_eq_false_2 by (by intros [? [=]]).
  destruct (parse_oracle_line (trim l)) as [c|] eqn:E; [rewrite parse_lines_found|];
    destruct (List.filter _ _); congruence.
Qed.

Lemma parse_oracle_line_safe line c :
  parse_oracle_line line = Some c →
  safe_claim_token (claim_cookie c) = true ∧ safe_path (claim_path c) = true ∧
  safe_claim_token (claim_needle c) = true.
Proof.
  unfold parse_oracle_line. intros H.
  repeat (apply bind_Some in H as (? & _ & H) || case_match); simplify_eq.
  cbn. split_guards. done.
Qed.

(** An untrusted claim file influences a campaign only through one oracle
    line: with none, or with two or more, nothing is accepted, every other line
    is ignored, and the tokens accepted are short and free of shell, header and
    path metacharacters. *)
Theorem parse_project_claim_spec text :
  parse_project_claim text =
    match oracle_lines text with
    | [l] => parse_oracle_line l
    | _ => None
    end ∧
  ∀ c, parse_project_claim text = Some c →
    safe_claim_token (claim_cookie c) = true ∧ safe_path (claim_path c) = true ∧
    safe_claim_token (claim_needle c) = true.
Proof.
  split; [apply parse_project_claim_alt|]. rewrite parse_project_claim_alt. intros c.
  destruct (oracle_lines text) as [|l [|]]; [done| |done]. apply parse_oracle_line_safe.
Qed.

(** ** Rendering a claim *)

(** The line a project writes. *)
Definition render_claim (c : ProjectClaim) : string :=
  oracle_prefix +:+ "`Cookie: " +:+ claim_cookie c +:+ "`, `GET " +:+ claim_path c +:+
  "` must not contain `" +:+ claim_needle c +:+ "`".

(** A byte that survives quoting: ASCII, no white space, no backtick, no newline. *)
Definition quotable (c : ascii) : bool :=
  (byte_val c <? 128)%N && negb (ws_byte c) && negb (Ascii.eqb c backtick) &&
  negb (Ascii.eqb c newline).

Lemma token_quotable c : token_char (byte_val c) = true → quotable c = true.
Proof. destruct c as [[] [] [] [] [] [] [] []]; vm_compute; done. Qed.

Lemma path_quotable c : path_char (byte_val c) = true → quotable c = true.
Proof. destruct c as [[] [] [] [] [] [] [] []]; vm_compute; done. Qed.

Lemma chars_all_bytes (f : N → bool) s :
  (∀ c, f c = true → (c < 128)%N) → forallb f (chars s) = true → all_bytes (λ c, f (byte_val c)) s = true.
Proof.
  intros Hf Hs. assert (is_ascii s = true) as Ha.
  { apply chars_ascii, Forall_forall. intros c Hc. rewrite forallb_true_iff in Hs. auto. }
  revert Hs. unfold chars. rewrite decode_ascii by done. clear Ha.
  induction s as [|c s IH]; [done|].
  cbn [String.list_ascii_of_string fmap list_fmap forallb fst all_bytes].
  rewrite !andb_true_iff. naive_solver.
Qed.

Lemma token_char_ascii c : token_char c = true → (c < 128)%N.
Proof.
  unfold token_char, cp_lowercase, cp_digit. rewrite !orb_true_iff, !andb_true_iff, !N.leb_le,
    bool_decide_eq_true. intros [[[?|?]|?]|Hin]; [lia..|].
  cbn in Hin. rewrite !elem_of_cons in Hin. decompose [or] Hin; subst; try done. set_solver.
Qed.

Lemma path_char_ascii c : path_char c = true → (c < 128)%N.
Proof.
  unfold path_char, cp_lowercase, cp_digit. rewrite !orb_true_iff, !andb_true_iff, !N.leb_le,
    bool_decide_eq_true. intros [[[?|?]|?]|Hin]; [lia..|].
  cbn in Hin. rewrite !elem_of_cons in Hin. decompose [or] Hin; subst; try done. set_solver.
Qed.

Lemma safe_token_quotable v : safe_claim_token v = true → all_bytes quotable v = true.
Proof.
  unfold safe_claim_token. intros H. split_guards.
  eapply all_bytes_impl; [exact token_quotable|]. by apply chars_all_bytes; [exact token_char_ascii|].
Qed.

Lemma safe_path_quotable v : safe_path v = true → all_bytes quotable v = true.
Proof.
  unfold safe_path. intros H. split_guards.
  eapply all_bytes_impl; [exact path_quotable|]. by apply chars_all_bytes; [exact path_char_ascii|].
Qed.

Lemma quotable_plain v : all_bytes quotable v = true → plain v = true.
Proof. apply all_bytes_impl. intros c H. unfold quotable in H. split_guards. by rewrite H, H2. Qed.

Lemma quotable_free v c : all_bytes quotable v = true → quotable c = false → contains_byte c v = false.
Proof. apply all_bytes_contains. Qed.

(** Reading one quoted span. *)
Lemma take_backtick_quoted v rest :
  contains_byte backtick v = false → take_backtick ("`" +:+ v +:+ "`" +:+ rest) = Some (v, rest).
Proof.
  intros Hv. unfold take_backtick. rewrite sapp_cons, sapp_nil_l, trim_start_keep by done.
  change (String "`" (v +:+ "`" +:+ rest)) with ("`" +:+ (v +:+ "`" +:+ rest)).
  rewrite strip_prefix_app. cbn. rewrite (sapp_cons backtick ""), sapp_nil_l. by apply split_once_app.
Qed.

Lemma parse_rendered_line c :
  safe_claim_token (claim_cookie c) = true → safe_path (claim_path c) = true →
  safe_claim_token (claim_needle c) = true → parse_oracle_line (render_claim c) = Some c.
Proof.
  destruct c as [ck pa ne]. cbn [claim_cookie claim_path claim_needle]. intros Hc Hp Hn.
  pose proof (safe_token_quotable _ Hc) as Qc. pose proof (safe_path_quotable _ Hp) as Qp.
  pose proof (safe_token_quotable _ Hn) as Qn.
  unfold parse_oracle_line, render_claim. cbn [claim_cookie claim_path claim_needle].
  rewrite strip_prefix_app. cbn [mbind option_bind].
  assert ("`Cookie: " +:+ ck +:+ "`, `GET " +:+ pa +:+ "` must not contain `" +:+ ne +:+ "`" =
    "`" +:+ ("Cookie: " +:+ ck) +:+ "`" +:+ ", `GET " +:+ pa +:+ "` must not contain `" +:+ ne +:+ "`") as ->.
  { by rewrite !sapp_assoc. }
  rewrite take_backtick_quoted by (rewrite contains_byte_app; by rewrite (quotable_free ck)).
  cbn [mbind option_bind]. rewrite strip_prefix_app. cbn [fmap option_fmap option_map mbind option_bind].
  rewrite (trim_plain ck) by (by apply quotable_plain).
  assert (trim_start (", `GET " +:+ pa +:+ "` must not contain `" +:+ ne +:+ "`") =
    "," +:+ (" `GET " +:+ pa +:+ "` must not contain `" +:+ ne +:+ "`")) as ->.
  { rewrite !sapp_cons. by rewrite trim_start_keep. }
  rewrite strip_prefix_app. cbn [fmap option_fmap option_map mbind option_bind].
  assert (trim_start (" `GET " +:+ pa +:+ "` must not contain `" +:+ ne +:+ "`") =
    "`" +:+ ("GET " +:+ pa) +:+ "`" +:+ " must not contain `" +:+ ne +:+ "`") as ->.
  { rewrite !sapp_cons. rewrite trim_start_drop by done. by rewrite trim_start_keep, !sapp_assoc by done. }
  rewrite take_backtick_quoted by (rewrite contains_byte_app; by rewrite (quotable_free pa)).
  cbn [mbind option_bind]. rewrite strip_prefix_app. cbn [fmap option_fmap option_map mbind option_bind].
  rewrite (trim_plain pa) by (by apply quotable_plain).
  assert (trim_start (" must not contain `" +:+ ne +:+ "`") = "must not contain " +:+ "`" +:+ ne +:+ "`") as ->.
  { rewrite !sapp_cons. rewrite trim_start_drop by done. by rewrite trim_start_keep by done. }
  rewrite strip_prefix_app. cbn [fmap option_fmap option_map mbind option_bind].
  assert (trim_start ("`" +:+ ne +:+ "`") = "`" +:+ ne +:+ "`" +:+ "") as ->.
  { rewrite !sapp_nil_r, sapp_cons. by rewrite trim_start_keep. }
  rewrite take_backtick_quoted by (by apply quotable_free). cbn [mbind option_bind].
  by rewrite Hc, Hp, Hn.
Qed.

Lemma trim_rendered c :
  safe_claim_token (claim_cookie c) = true → safe_path (claim_path c) = true →
  safe_claim_token (claim_needle c) = true → trim (render_claim c) = render_claim c.
Proof.
  intros Hc%safe_token_quotable%quotable_plain%plain_ascii Hp%safe_path_quotable%quotable_plain%plain_ascii
    Hn%safe_token_quotable%quotable_plain%plain_ascii.
  assert (render_claim c = (oracle_prefix +:+ "`Cookie: " +:+ claim_cookie c +:+ "`, `GET " +:+
    claim_path c +:+ "` must not contain `" +:+ claim_needle c) +:+ String "`" "") as E.
  { unfold render_claim. by rewrite !sapp_assoc. }
  rewrite E. unfold trim. set (t := oracle_prefix +:+ _) in *.
  assert (trim_start (t +:+ String "`" "") = t +:+ String "`" "") as ->.
  { unfold t, oracle_prefix. rewrite !sapp_cons. by apply trim_start_keep. }
  apply trim_end_keep; [|done|done]. unfold t. rewrite !is_ascii_app, Hc, Hp, Hn. done.
Qed.

(** The claim line a project writes is read back: rendering a claim with
    safe tokens and parsing the file gives the claim. *)
Theorem claim_roundtrip c :
  safe_claim_token (claim_cookie c) = true → safe_path (claim_path c) = true →
  safe_claim_token (claim_needle c) = true →
  parse_project_claim (render_claim c) = Some c.
Proof.
  intros Hc Hp Hn. rewrite parse_project_claim_alt. unfold oracle_lines.
  assert (lines (render_claim c) = [render_claim c]) as ->.
  { unfold lines. rewrite split_char_none; [by destruct c|].
    unfold render_claim, oracle_prefix. rewrite !contains_byte_app.
    rewrite (quotable_free (claim_cookie c)), (quotable_free (claim_path c)),
      (quotable_free (claim_needle c)); try done;
      [by apply safe_token_quotable|by apply safe_path_quotable|by apply safe_token_quotable]. }
  cbn [fmap list_fmap List.filter].
  rewrite trim_rendered by done. unfold render_claim at 1. rewrite starts_with_app.
  by apply parse_rendered_line.
Qed.

(** Binding a claim changes nothing but the three attack parameters of the
    primary generator, and only for the campaign class that asks for it. *)
Theorem bind_accepted_claim_frame spec claim :
  let s' := bind_accepted_claim spec claim in
  s' = set_generator spec (set_bind (generator spec) (bind (generator s'))) ∧
  (∀ k, k ∉ ["attack_path"; "attack_cookie"; "attack_contains"] →
     bind (generator s') !! k = bind (generator spec) !! k) ∧
  (spec_id spec ≠ "http-idor" ∨ claim = None → s' = spec) ∧
  (∀ c, spec_id spec = "http-idor" → claim = Some c →
     bind (generator s') !! "attack_path" = Some (claim_path c) ∧
     bind (generator s') !! "attack_cookie" = Some (claim_cookie c) ∧
     bind (generator s') !! "attack_contains" = Some (claim_needle c)).
Proof.
  unfold bind_accepted_claim. cbn zeta.
  destruct (String.eqb_spec (spec_id spec) "http-idor") as [E|E]; [destruct claim as [c|]|].
  - split_and!; [done| |naive_solver|].
    + intros k Hk. cbn [bind set_generator set_bind generator].
      rewrite !lookup_insert_ne by set_solver. done.
    + intros ? _ [= <-]. cbn [bind set_generator set_bind generator]. by simplify_map_eq.
  - split_and!; [by destruct spec as [? ? ? ? ? ? ? ? ? ? ? []]|done|done|done].
  - split_and!; [by destruct spec as [? ? ? ? ? ? ? ? ? ? ? []]|done|done|naive_solver].
Qed.

End Claims.
