(* ===== verification/Snapshot.v ===== *)
(** * Target snapshots and replicas (crate [aros-core], [snapshot.rs] and
      [copy_source_tree] of [campaign_loader.rs])

    A directory tree is data. The snapshot digest is a hash over the sorted
    relative paths and the hashes of the files' contents; a replica is a copy of
    the tree. The theorems show that the digest does not depend on directory
    order, that equal digests mean equal trees up to an explicit collision, and
    when a replica has the digest of its original. *)

From S2P Require Import Prelude RustStr Json Types.

Module Snapshot.

(** A file system object: regular file, directory in [read_dir] order, symbolic
    link, or anything else. *)
Inductive tree :=
| File (contents : string)
| Dir (entries : list (string * tree))
| Link
| Special.

Lemma tree_nested_ind (P : tree → Prop) :
  (∀ c, P (File c)) → (∀ es, Forall (λ e, P e.2) es → P (Dir es)) → P Link → P Special → ∀ t, P t.
Proof.
  intros Hf Hd Hl Hs. fix IH 1. intros [c|es| |]; [apply Hf| |apply Hl|apply Hs].
  apply Hd. induction es as [|[n t] es IHes]; constructor; [apply IH|apply IHes].
Qed.

(** [src crates/aros-core/src/snapshot.rs 9-17 SnapshotError] *)
Inductive SnapshotError :=
| SeIo
| SeNotDir (path : string)
| SeSymlink (path : string).

Definition skipped_by_snapshot (name : string) : bool :=
  bool_decide (name ∈ [".git"; "__pycache__"; "target"]).

(** A path below the root, by components. *)
Abbreviation rel_path := (list string).

Definition display_path (root : string) (p : rel_path) : string := join "/" (root :: p).

(** [src crates/aros-core/src/snapshot.rs 64-83 collect_files] *)
Fixpoint collect_files (root : string) (t : tree) (at_ : rel_path) :
    result SnapshotError (list (rel_path * string)) :=
  match t with
  | Dir entries =>
    (fix go es :=
       match es with
       | [] => Ok []
       | (name, child) :: es =>
         if skipped_by_snapshot name then go es
         else
           let path := at_ ++ [name] in
           match child with
           | Link => Err (SeSymlink (display_path root path))
           | Dir _ => sub ← collect_files root child path; rest ← go es; Ok (sub ++ rest)
           | File c => rest ← go es; Ok ((path, c) :: rest)
           | Special => go es
           end
       end) entries
  | _ => Err SeIo
  end.

(** [PathBuf]s are ordered by their components. *)
Fixpoint path_leb (p q : rel_path) : bool :=
  match p, q with
  | [], _ => true
  | _ :: _, [] => false
  | a :: p, b :: q =>
    if String.eqb a b then path_leb p q else bool_decide (String.le a b)
  end.
Definition path_le (x y : rel_path * string) : Prop := path_leb x.1 y.1 = true.
#[export] Instance path_le_dec x y : Decision (path_le x y).
Proof. unfold path_le. apply _. Defined.

Definition nul : ascii := "000"%char.

Section Digest.
Context `{HashLib}.

(** [Path::to_string_lossy] of a relative path.
    [src crates/aros-core/src/snapshot.rs 41-41 snapshot_tree] *)
Definition path_text (p : rel_path) : string := from_utf8_lossy (join "/" p).

(** One line of the digested text: path, NUL, content hash, newline.
    [src crates/aros-core/src/snapshot.rs 40-44 snapshot_tree] *)
Definition digest_line (x : rel_path * string) : string :=
  path_text x.1 +:+ String nul (blake3_hex x.2 +:+ String newline "").

(** [src crates/aros-core/src/snapshot.rs 38-45 snapshot_tree] *)
Definition joined (files : list (rel_path * string)) : string :=
  foldr (λ x acc, digest_line x +:+ acc) "" files.

(** [src crates/aros-core/src/snapshot.rs 31-46 snapshot_tree] *)
Definition tree_digest (root : string) (t : tree) : result SnapshotError string :=
  files ← collect_files root t [];
  Ok (blake3_hex (joined (merge_sort path_le files))).

(** [src crates/aros-core/src/snapshot.rs 95-99 read_git_head] *)
Definition read_git_head (t : tree) : option string :=
  match t with
  | Dir entries =>
    git ← list_find (λ e, e.1 = ".git") entries;
    match git.2.2 with
    | Dir es =>
      head ← list_find (λ e, e.1 = "HEAD") es;
      match head.2.2 with
      | File c => Some (trim c)
      | _ => None
      end
    | _ => None
    end
  | _ => None
  end.

(** The fresh identifier and the clock are arguments.
    [src crates/aros-core/src/snapshot.rs 24-62 snapshot_tree] *)
Definition snapshot_tree (now : N) (id : SnapshotId) (tid : TargetId) (root : string) (t : tree) :
    result SnapshotError TargetSnapshot :=
  match t with
  | Link => Err (SeSymlink root)
  | Dir _ =>
    digest ← tree_digest root t;
    Ok {| snapshot_id := id; snapshot_target_id := tid; git_commit := read_git_head t;
          dirty_tree_hash := Some digest; submodule_shas := []; source_tree_digest := digest;
          lockfile_hashes := []; container_image_digest := None; compiler_runtime_versions := [];
          build_flags := []; feature_flags := [];
          runtime_description := "aros-snapshot:" +:+ root; captured_unix_ms := now |}
  | _ => Err (SeNotDir root)
  end.

End Digest.

(** ** Replicas *)

Definition skipped_by_copy (name : string) : bool :=
  bool_decide (name ∈ [".git"; "target"; "__pycache__"; ".aros"]).

Definition entry_get (name : string) (es : list (string * tree)) : option tree :=
  (λ x, x.2.2) <$> list_find (λ e, e.1 = name) es.

(** Create or overwrite an entry of a directory. *)
Fixpoint entry_set (name : string) (t : tree) (es : list (string * tree)) : list (string * tree) :=
  match es with
  | [] => [(name, t)]
  | (n, u) :: es => if String.eqb n name then (n, t) :: es else (n, u) :: entry_set name t es
  end.

Inductive CopyError := CopyIo | CopySymlink.

(** The copies of the program differ only in what they skip. [dst] is what exists
    at the destination. *)
Section Copy.
Variable skip : string → tree → bool.

Fixpoint copy_with (src : tree) (dst : option tree) : result CopyError tree :=
  match src with
  | Dir entries =>
    base ← match dst with
           | None => Ok []
           | Some (Dir es) => Ok es
           | Some _ => Err CopyIo
           end;
    (fix go es acc :=
       match es with
       | [] => Ok (Dir acc)
       | (name, child) :: es =>
         if skip name child then go es acc
         else
           match child with
           | Link => Err CopySymlink
           | Dir _ => sub ← copy_with child (entry_get name acc); go es (entry_set name sub acc)
           | File c =>
             match entry_get name acc with
             | Some (Dir _) => Err CopyIo
             | _ => go es (entry_set name (File c) acc)
             end
           | Special => go es acc
           end
       end) entries base
  | _ => Err CopyIo
  end.

End Copy.

(** [src crates/aros-core/src/campaign_loader.rs 765-788 copy_source_tree] *)
Definition copy_source_tree : tree → option tree → result CopyError tree :=
  copy_with (λ name _, skipped_by_copy name).

(** A directory of byte code, wherever it is. *)
Definition is_pycache (name : string) (t : tree) : bool :=
  match t with
  | Dir _ => String.eqb name "__pycache__"
  | _ => false
  end.

(** [src crates/aros-core/src/verifier.rs 331-353 copy_exact_tree] *)
Definition copy_exact_tree : tree → option tree → result CopyError tree := copy_with is_pycache.

(** [src crates/aros-core/src/engine.rs 1038-1060 copy_dir] *)
Definition copy_dir : tree → option tree → result CopyError tree := copy_with is_pycache.

(** ** The loops as functions on entry lists *)

Fixpoint collect_entries (root : string) (at_ : rel_path) (es : list (string * tree)) :
    result SnapshotError (list (rel_path * string)) :=
  match es with
  | [] => Ok []
  | (name, child) :: es =>
    if skipped_by_snapshot name then collect_entries root at_ es
    else
      match child with
      | Link => Err (SeSymlink (display_path root (at_ ++ [name])))
      | Dir _ =>
        sub ← collect_files root child (at_ ++ [name]);
        rest ← collect_entries root at_ es; Ok (sub ++ rest)
      | File c => rest ← collect_entries root at_ es; Ok ((at_ ++ [name], c) :: rest)
      | Special => collect_entries root at_ es
      end
  end.

Lemma collect_files_dir root es at_ : collect_files root (Dir es) at_ = collect_entries root at_ es.
Proof.
  cbn [collect_files]. induction es as [|[name child] es IH]; [done|]. cbn [collect_entries].
  rewrite <- IH. done.
Qed.

Section CopyEntries.
Variable skip : string → tree → bool.

Fixpoint copy_entries (es acc : list (string * tree)) : result CopyError tree :=
  match es with
  | [] => Ok (Dir acc)
  | (name, child) :: es =>
    if skip name child then copy_entries es acc
    else
      match child with
      | Link => Err CopySymlink
      | Dir _ =>
        sub ← copy_with skip child (entry_get name acc); copy_entries es (entry_set name sub acc)
      | File c =>
        match entry_get name acc with
        | Some (Dir _) => Err CopyIo
        | _ => copy_entries es (entry_set name (File c) acc)
        end
      | Special => copy_entries es acc
      end
  end.

Lemma copy_fresh_dir es : copy_with skip (Dir es) None = copy_entries es [].
Proof.
  cbn [copy_with mbind result_bind]. generalize ([] : list (string * tree)).
  induction es as [|[name child] es IH]; intros acc; [done|]. cbn [copy_entries].
  destruct (skip name child); [apply IH|].
  destruct child as [c|ces| |]; [|destruct (copy_with skip (Dir ces) _)|done|]; try done; try apply IH.
Qed.

End CopyEntries.

(** ** A replica has the digest of its original *)

(** Names are distinct in every directory. *)
Fixpoint tree_wf (t : tree) : Prop :=
  match t with
  | Dir es =>
    NoDup es.*1 ∧ (fix go es := match es with [] => True | (_, c) :: es => tree_wf c ∧ go es end) es
  | _ => True
  end.

(** No directory entry that the replica drops and the snapshot keeps. *)
Fixpoint no_aros (t : tree) : Prop :=
  match t with
  | Dir es =>
    (fix go es :=
       match es with
       | [] => True
       | (n, c) :: es => (skipped_by_snapshot n = true ∨ n ≠ ".aros" ∧ no_aros c) ∧ go es
       end) es
  | _ => True
  end.

Lemma tree_wf_dir es : tree_wf (Dir es) ↔ NoDup es.*1 ∧ Forall (λ e, tree_wf e.2) es.
Proof.
  cbn [tree_wf]. apply and_iff_compat_l. induction es as [|[n c] es IH]; [by repeat constructor|].
  rewrite Forall_cons, IH. done.
Qed.

Lemma no_aros_dir es :
  no_aros (Dir es) ↔ Forall (λ e, skipped_by_snapshot e.1 = true ∨ e.1 ≠ ".aros" ∧ no_aros e.2) es.
Proof.
  cbn [no_aros]. induction es as [|[n c] es IH]; [by repeat constructor|].
  rewrite Forall_cons, IH. done.
Qed.

Lemma entry_get_fresh name acc : name ∉ acc.*1 → entry_get name acc = None.
Proof.
  intros Hn. unfold entry_get. destruct (list_find _ acc) as [[i [n t]]|] eqn:E; [|done].
  apply list_find_Some in E as (Hi & Hname & _). cbn in Hname. subst. destruct Hn.
  apply list_elem_of_fmap. exists (name, t). split; [done|]. by eapply list_elem_of_lookup_2.
Qed.

Lemma entry_set_fresh name t acc : name ∉ acc.*1 → entry_set name t acc = acc ++ [(name, t)].
Proof.
  induction acc as [|[n u] acc IH]; intros Hn; [done|]. cbn [entry_set].
  destruct (String.eqb_spec n name) as [->|_]; [set_solver|]. cbn [app]. rewrite IH; [done|]. set_solver.
Qed.

Lemma skipped_copy_snapshot n :
  skipped_by_copy n = true → skipped_by_snapshot n = true ∨ n = ".aros".
Proof.
  unfold skipped_by_copy, skipped_by_snapshot. rewrite !bool_decide_eq_true.
  rewrite !elem_of_cons. set_solver.
Qed.

Section CopyCollects.
Variable skip : string → tree → bool.

(** The copy drops nothing that a snapshot sees. *)
Fixpoint lossless (t : tree) : Prop :=
  match t with
  | Dir es =>
    (fix go es :=
       match es with
       | [] => True
       | (n, c) :: es => (skipped_by_snapshot n = true ∨ skip n c = false ∧ lossless c) ∧ go es
       end) es
  | _ => True
  end.

Lemma lossless_dir es :
  lossless (Dir es) ↔
  Forall (λ e, skipped_by_snapshot e.1 = true ∨ skip e.1 e.2 = false ∧ lossless e.2) es.
Proof.
  cbn [lossless]. induction es as [|[n c] es IH]; [by repeat constructor|].
  rewrite Forall_cons, IH. done.
Qed.

Definition copy_collects (t : tree) : Prop :=
  ∀ t', copy_with skip t None = Ok t' → ∃ es', t' = Dir es' ∧
    ∀ root at_, collect_files root t' at_ = collect_files root t at_.

Lemma copy_entries_collect es acc t' :
  Forall (λ e, tree_wf e.2 → lossless e.2 → copy_collects e.2) es →
  Forall (λ e, tree_wf e.2) es →
  Forall (λ e, skipped_by_snapshot e.1 = true ∨ skip e.1 e.2 = false ∧ lossless e.2) es →
  NoDup (acc.*1 ++ es.*1) → copy_entries skip es acc = Ok t' →
  ∃ new, t' = Dir (acc ++ new) ∧
    ∀ root at_, collect_entries root at_ new = collect_entries root at_ es.
Proof.
  intros IH. revert acc. induction IH as [|[name child] es Hchild IHes Hgo];
    intros acc Hwf Hno Hnd; cbn [copy_entries].
  { intros [= <-]. exists []. by rewrite app_nil_r. }
  rewrite Forall_cons in Hwf, Hno. destruct Hwf as [Hwf Hwfs], Hno as [Hn Hnos]. cbn in Hchild, Hwf, Hn.
  assert ((name ∉ acc.*1) ∧ NoDup (acc.*1 ++ es.*1)) as [Hfresh Hnd'].
  { rewrite fmap_cons, <- Permutation_middle, NoDup_cons in Hnd. set_solver. }
  assert (Hskip : copy_entries skip es acc = Ok t' → (∀ root at_,
    collect_entries root at_ ((name, child) :: es) = collect_entries root at_ es) →
    ∃ new, t' = Dir (acc ++ new) ∧
      ∀ root at_, collect_entries root at_ new = collect_entries root at_ ((name, child) :: es)).
  { intros Hr Heq. destruct (Hgo acc Hwfs Hnos Hnd' Hr) as (new & -> & Hc).
    exists new. split; [done|]. intros. by rewrite Heq. }
  assert (Hkeep : ∀ t1, copy_entries skip es (acc ++ [(name, t1)]) = Ok t' →
    (∀ root at_ l l', collect_entries root at_ l = collect_entries root at_ l' →
      collect_entries root at_ ((name, t1) :: l) = collect_entries root at_ ((name, child) :: l')) →
    ∃ new, t' = Dir (acc ++ new) ∧
      ∀ root at_, collect_entries root at_ new = collect_entries root at_ ((name, child) :: es)).
  { intros t1 Hr Heq. destruct (Hgo (acc ++ [(name, t1)]) Hwfs Hnos) as (new & -> & Hc); [|done|].
    { rewrite fmap_app, <- app_assoc. done. }
    exists ((name, t1) :: new). split; [by rewrite <- app_assoc|]. intros. by apply Heq. }
  destruct (skip name child) eqn:Es.
  { intros Hr. destruct Hn as [E|[? _]]; [|done]. apply Hskip; [done|]. intros. cbn. by rewrite E. }
  destruct child as [c|ces| |]; [| |done|].
  - rewrite entry_get_fresh, entry_set_fresh by done. intros Hr. apply (Hkeep _ Hr).
    intros root at_ l l' Hl. cbn [collect_entries]. by rewrite Hl.
  - rewrite entry_get_fresh by done. intros (sub & Hsub & Hr)%bind_Ok.
    rewrite entry_set_fresh in Hr by done. apply (Hkeep _ Hr). intros root at_ l l' Hl. cbn [collect_entries].
    destruct (skipped_by_snapshot name) eqn:Esn; [done|]. destruct Hn as [?|[_ Hno]]; [done|].
    destruct (Hchild Hwf Hno sub Hsub) as (es' & -> & Hc). by rewrite Hc, Hl.
  - intros Hr. apply Hskip; [done|]. intros. cbn [collect_entries]. by destruct (skipped_by_snapshot name).
Qed.

Lemma copy_collects_all t : tree_wf t → lossless t → copy_collects t.
Proof.
  induction t as [c|es IH| |] using tree_nested_ind; intros Hwf Hno t' Hc; try done.
  apply tree_wf_dir in Hwf as [Hnd Hwf]. apply lossless_dir in Hno. rewrite copy_fresh_dir in Hc.
  apply copy_entries_collect in Hc as (new & -> & Heq); try done.
  exists new. split; [done|]. intros. rewrite !collect_files_dir. apply Heq.
Qed.

End CopyCollects.

Lemma no_aros_lossless t : no_aros t → lossless (λ name _, skipped_by_copy name) t.
Proof.
  induction t as [c|es IH| |] using tree_nested_ind; try done. rewrite no_aros_dir, lossless_dir.
  intros Hno. induction IH as [|[n c] es Hc _ IHes]; [done|].
  rewrite Forall_cons in Hno |- *. destruct Hno as [Hn Hno]. split; [|by apply IHes]. cbn in *.
  destruct (skipped_by_snapshot n) eqn:Es; [by left|]. right. destruct Hn as [?|[Hn Hc']]; [done|].
  split; [|by apply Hc]. destruct (skipped_by_copy n) eqn:E; [|done].
  apply skipped_copy_snapshot in E as [?|?]; congruence.
Qed.

(** What the verifier's copy drops, a snapshot ignores. *)
Lemma pycache_lossless t : lossless is_pycache t.
Proof.
  induction t as [c|es IH| |] using tree_nested_ind; try done. rewrite lossless_dir.
  apply (Forall_impl _ _ _ IH). intros [n c] Hc. cbn in *.
  destruct c as [|ces| |]; auto. cbn. destruct (String.eqb_spec n "__pycache__") as [->|]; auto.
Qed.

(** The root only matters for error messages. *)
Lemma collect_root root root' t at_ fs :
  collect_files root t at_ = Ok fs → collect_files root' t at_ = Ok fs.
Proof.
  revert at_ fs. induction t as [c|es IH| |] using tree_nested_ind; intros at_ fs; try done.
  rewrite !collect_files_dir. revert fs. induction IH as [|[name child] es Hchild _ IHes]; intros fs; [done|].
  cbn [collect_entries]. destruct (skipped_by_snapshot name); [apply IHes|].
  destruct child as [c|ces| |]; [| |done|apply IHes].
  - intros (rest & Hr & [= <-])%bind_Ok. by rewrite (IHes _ Hr).
  - intros (sub & Hs & H)%bind_Ok. apply bind_Ok in H as (rest & Hr & [= <-]).
    cbn [snd] in Hchild. by rewrite (Hchild _ _ Hs), (IHes _ Hr).
Qed.

Lemma copy_not_file skip t t' c : copy_with skip t None = Ok t' → t' ≠ File c.
Proof.
  destruct t as [|es| |]; try done. rewrite copy_fresh_dir. generalize ([] : list (string * tree)).
  induction es as [|[name child] es IH]; intros acc; cbn [copy_entries]; [by intros [= <-]|].
  destruct (skip name child); [apply IH|]. destruct child; try done; try apply IH.
  - destruct (entry_get name acc) as [[]|]; try done; apply IH.
  - intros (sub & _ & H)%bind_Ok. by apply IH in H.
Qed.

Section Replica.
Context `{H : HashLib}.

Lemma copy_digest skip root root' t t' d :
  tree_wf t → lossless skip t → copy_with skip t None = Ok t' →
  tree_digest root t = Ok d → tree_digest root' t' = Ok d.
Proof.
  intros Hwf Hno Hc Hd. destruct (copy_collects_all skip t Hwf Hno t' Hc) as (es & -> & Heq).
  unfold tree_digest in *. apply bind_Ok in Hd as (fs & Hfs & [= <-]).
  apply (collect_root _ root') in Hfs. by rewrite Heq, Hfs.
Qed.

(** A fresh replica of a tree has the digest of the original, so the
    reproduction check is not defeated by what the copy leaves out, provided the
    tree holds no [.aros] directory entry. *)
Theorem replica_digest root root' t t' d :
  tree_wf t → no_aros t → copy_source_tree t None = Ok t' →
  tree_digest root t = Ok d → tree_digest root' t' = Ok d.
Proof.
  intros Hwf Hno%no_aros_lossless. by apply copy_digest.
Qed.

(** Without that proviso the check fails for good: a tree with an [.aros]
    directory is copied without it, and the snapshot sees different files. *)
Lemma aros_dir_defeats_replica :
  let t := Dir [("server.py", File "x"); (".aros", Dir [("state", File "y")])] in
  tree_wf t ∧
  copy_source_tree t None = Ok (Dir [("server.py", File "x")]) ∧
  collect_files "t" t [] = Ok [(["server.py"], "x"); ([".aros"; "state"], "y")] ∧
  collect_files "t" (Dir [("server.py", File "x")]) [] = Ok [(["server.py"], "x")].
Proof.
  cbn zeta. split_and!; [|reflexivity..].
  cbn. repeat constructor; set_solver.
Qed.

(** ** Equal digests *)

(** A name the operating system accepts. *)
Definition name_ok (n : string) : Prop :=
  n ≠ "" ∧ contains_byte "/" n = false ∧ contains_byte nul n = false.

Definition file_ok (x : rel_path * string) : Prop := x.1 ≠ [] ∧ Forall name_ok x.1.

Lemma join_inj p q : p ≠ [] → q ≠ [] → Forall name_ok p → Forall name_ok q →
  join "/" p = join "/" q → p = q.
Proof.
  intros Hp Hq Np Nq E. apply (f_equal (split_char "/")) in E.
  assert (∀ l, Forall name_ok l → Forall (λ n, contains_byte "/" n = false) l) as Hf.
  { intros l Hl. eapply Forall_impl; [exact Hl|]. by intros ? (_ & ? & _). }
  rewrite !split_join_char in E; auto.
Qed.

Lemma join_no_nul p : Forall name_ok p → contains_byte nul (join "/" p) = false.
Proof.
  intros Hp. induction Hp as [|n p (_ & _ & Hn) Hp IH]; [done|]. destruct p as [|m p]; [done|].
  rewrite join_cons by done. rewrite !contains_byte_app, Hn, IH. done.
Qed.

(** The lossy text of a path holds no NUL that the path does not hold. *)
Lemma take_cont_no_nul n s t ok r :
  contains_byte nul s = false → take_cont n s = (t, ok, r) →
  contains_byte nul t = false ∧ contains_byte nul r = false.
Proof.
  revert s t ok r. induction n as [|n IH]; intros s t ok r Hs; [by destruct s; intros [= <- <- <-]|].
  destruct s as [|c s]; cbn; [by intros [= <- <- <-]|]. cbn in Hs. apply orb_false_iff in Hs as [Hc Hs].
  destruct (is_cont c); [|intros [= <- <- <-]; cbn; by rewrite Hc, Hs].
  destruct (take_cont n s) as [[t' ok'] r'] eqn:E. intros [= <- <- <-].
  destruct (IH _ _ _ _ Hs E) as [Ht Hr]. cbn. by rewrite Hc, Ht, Hr.
Qed.

Lemma lossy_no_nul fuel s : contains_byte nul s = false → contains_byte nul (lossy fuel s) = false.
Proof.
  revert s. induction fuel as [|fuel IH]; intros s Hs; [done|]. destruct s as [|b0 s]; [done|].
  cbn [contains_byte] in Hs. apply orb_false_iff in Hs as [H0 Hs]. cbn [lossy].
  assert (Hrep : contains_byte nul (replacement +:+ lossy fuel s) = false)
    by (rewrite contains_byte_app, IH by done; by vm_compute).
  destruct (byte_val b0 <? 128)%N; [cbn; by rewrite H0, IH|].
  destruct (lead_byte (byte_val b0)) as [[[width lo] hi]|]; [|done]. destruct s as [|b1 s]; [done|].
  destruct (_ && _); [|done]. cbn [contains_byte] in Hs. apply orb_false_iff in Hs as [H1 Hs].
  destruct (take_cont (width - 2) s) as [[t ok] r] eqn:E.
  destruct (take_cont_no_nul _ _ _ _ _ Hs E) as [Ht Hr]. rewrite contains_byte_app, (IH r Hr), orb_false_r.
  destruct ok; [cbn; by rewrite H0, H1, Ht|by vm_compute].
Qed.

Lemma path_text_no_nul p : Forall name_ok p → contains_byte nul (path_text p) = false.
Proof. intros Hp. apply lossy_no_nul. by apply join_no_nul. Qed.

End Replica.

(** A path in UTF-8: its text is the path itself. *)
Definition utf8_path (x : rel_path * string) : Prop := path_text x.1 = join "/" x.1.

(** A file as the digest sees it: the text of its path, and its content. *)
Definition seen_file (x : rel_path * string) : string * string := (path_text x.1, x.2).

Lemma seen_file_inj x y :
  file_ok x → file_ok y → utf8_path x → utf8_path y → seen_file x = seen_file y → x = y.
Proof.
  destruct x as [p c], y as [q d]. intros [Hp Np] [Hq Nq] Hx Hy [= Hpq ->]. unfold utf8_path in *. cbn in *.
  f_equal. apply join_inj; [done..|]. by rewrite <- Hx, <- Hy.
Qed.

(** Files whose names are not UTF-8 can have the same text: these two trees have the
    same digest, whatever the hash. *)
Lemma lossy_names_collide `{HashLib} root :
  let t name := Dir [(String name "", File "x")] in
  t "254"%char ≠ t "255"%char ∧ tree_digest root (t "254"%char) = tree_digest root (t "255"%char).
Proof. split; [discriminate|reflexivity]. Qed.

Section Collisions.
Context `{H : HashLib}.
(** [blake3::Hash::to_hex] has a fixed length. *)
Hypothesis hash_length : ∀ b, String.length (blake3_hex b) = 64.

Lemma joined_cons_ne x fs : joined (x :: fs) ≠ "".
Proof.
  intros E%(f_equal String.length). cbn [joined foldr] in E. unfold digest_line in E.
  rewrite !slength_app in E. cbn in E. lia.
Qed.

Lemma digest_text_inj fs fs' :
  Forall file_ok fs → Forall file_ok fs' → joined fs = joined fs' →
  (λ x, (path_text x.1, blake3_hex x.2)) <$> fs = (λ x, (path_text x.1, blake3_hex x.2)) <$> fs'.
Proof.
  intros Hfs. revert fs'. induction Hfs as [|[p c] fs [Hne Hp] Hfs IH]; intros fs' Hfs' E.
  - destruct fs' as [|x fs']; [done|]. symmetry in E. by apply joined_cons_ne in E.
  - destruct Hfs' as [|[p' c'] fs' [Hne' Hp'] Hfs']; [by apply joined_cons_ne in E|].
    cbn [joined foldr] in E. fold (joined fs) (joined fs') in E. unfold digest_line in E.
    cbn [fst snd] in *. rewrite !sapp_assoc, !sapp_cons, !sapp_assoc in E.
    apply (f_equal (split_once nul)) in E.
    rewrite !split_once_app in E by (by apply path_text_no_nul). injection E as Ej Et.
    apply sapp_inv_length in Et as [Eh Et]; [|by rewrite !hash_length].
    injection Et as Et. rewrite !fmap_cons. f_equal; [cbn [fst snd]; congruence|by apply IH].
Qed.

(** C38: the snapshot digest pins the tree up to the texts of its paths: if two trees
    have the same digest, they hold files with the same path texts and the same
    contents, and if their paths are UTF-8 the same files, unless the texts or the
    contents that were hashed exhibit a collision. The text of a path that is not
    UTF-8 has replacement characters in it, so that two such paths can share one. *)
Theorem tree_digest_determines root root' t t' fs fs' d :
  collect_files root t [] = Ok fs → collect_files root' t' [] = Ok fs' →
  Forall file_ok fs → Forall file_ok fs' →
  tree_digest root t = Ok d → tree_digest root' t' = Ok d →
  (seen_file <$> fs ≡ₚ seen_file <$> fs' ∧ (Forall utf8_path fs → Forall utf8_path fs' → fs ≡ₚ fs')) ∨
  (∃ x y, x = joined (merge_sort path_le fs) ∧ y = joined (merge_sort path_le fs') ∧ x ≠ y ∧
     blake3_hex x = blake3_hex y) ∨
  (∃ x y, x ∈ fs.*2 ∧ y ∈ fs'.*2 ∧ x ≠ y ∧ blake3_hex x = blake3_hex y).
Proof.
  intros Hc Hc' Ho Ho' Hd Hd'. unfold tree_digest in *. rewrite Hc in Hd. rewrite Hc' in Hd'.
  cbn in Hd, Hd'. injection Hd as Hd. injection Hd' as Hd'.
  set (s := merge_sort path_le fs) in *. set (s' := merge_sort path_le fs') in *.
  assert (s ≡ₚ fs) as Ps by apply merge_sort_Permutation.
  assert (s' ≡ₚ fs') as Ps' by apply merge_sort_Permutation.
  destruct (decide (joined s = joined s')) as [Ej|Ej]; [|right; left; eexists _, _; split_and!; [done..|congruence]].
  rewrite <- Ps in Ho. rewrite <- Ps' in Ho'.
  apply digest_text_inj in Ej; [|done..]. clear Hc Hc' Hd Hd'. clearbody s s'.
  assert (seen_file <$> s = seen_file <$> s' ∨
    ∃ x y, x ∈ s.*2 ∧ y ∈ s'.*2 ∧ x ≠ y ∧ blake3_hex x = blake3_hex y) as [E|(x & y & Hx & Hy & ?)].
  { clear -Ej. revert s' Ej. induction s as [|[p c] s IH]; intros [|[p' c'] s'] Ej; try done; [by left|].
    rewrite !fmap_cons in Ej. cbn [fst snd] in Ej. injection Ej as Ep Eh Ej. destruct (decide (c = c')) as [->|Hne].
    - destruct (IH s' Ej) as [E|(x & y & ? & ? & ?)]; [left|right; exists x, y; set_solver].
      rewrite !fmap_cons, E. unfold seen_file. cbn [fst snd]. by rewrite Ep.
    - right. exists c, c'. set_solver. }
  - left. split; [by rewrite <- Ps, <- Ps', E|]. rewrite <- Ps, <- Ps'. intros Hu Hu'. assert (s = s') as ->; [|done].
    clear -E Ho Ho' Hu Hu'. revert s' E Ho' Hu'. induction s as [|x s IH]; intros [|x' s'] E Ho' Hu'; try done.
    rewrite !fmap_cons in E. injection E as Ex E. rewrite Forall_cons in Ho, Ho', Hu, Hu'. f_equal.
    + apply seen_file_inj; try tauto. unfold seen_file. congruence.
    + apply IH; tauto.
  - right. right. exists x, y. rewrite <- Ps, <- Ps'. done.
Qed.

End Collisions.

End Snapshot.
