(* ===== verification/Surface.v ===== *)
(** * Surface mapping (crate [aros-core], [surface.rs])

    Quoted paths are collected from the source files of a target and, optionally,
    asked for on a live listener. The theorems compare the scanner of one text
    with the pieces between quotes, the directory walk with the files it should
    read, bound the number of files it reads, and show that what it collects can
    be sent as a request target. *)

From S2P Require Import Prelude RustStr PathScope HttpLab Ipc Snapshot.
Import Snapshot.

Module Surface.
Import HttpLab PathScope.Shell.

(** [src crates/aros-core/src/surface.rs 12-20 SKIP_DIRS] *)
Definition SKIP_DIRS : list string :=
  [".git"; "node_modules"; "target"; "dist"; ".aros"; "__pycache__"; ".venv"].
(** [src crates/aros-core/src/surface.rs 22-22 SOURCE_SUFFIXES] *)
Definition SOURCE_SUFFIXES : list string := [".py"; ".js"; ".ts"; ".tsx"; ".go"; ".rs"; ".java"].

(** ** One text *)

Definition dquote : ascii := "034"%char.
Definition squote : ascii := "039"%char.

(** [src crates/aros-core/src/surface.rs 198-205 is_http_path] *)
Definition is_http_path (value : string) : bool :=
  if negb (starts_with value "/") || starts_with value "//" || (128 <? str_len value) then false
  else forallb (λ c, (c <? 128)%N && negb ((c <? 32) || (c =? 127))%N && negb (c =? 32)%N) (chars value).

(** The texts between quotes; [fuel] bounds the turns of the loop.
    [src crates/aros-core/src/surface.rs 27-40 extract_http_paths] *)
Fixpoint quoted (fuel : nat) (quote : ascii) (rest : string) : list string :=
  match fuel with
  | 0 => []
  | Datatypes.S fuel =>
    match split_once quote rest with
    | None => []
    | Some (_, after) =>
      match split_once quote after with
      | None => []
      | Some (inner, rest) => inner :: quoted fuel quote rest
      end
    end
  end.

(** [inner.split('?').next()] *)
Definition before_query (inner : string) : string := default inner (head (split_char "?" inner)).

(** A [BTreeSet<String>] read in order. *)
Definition sorted (s : gset string) : list string := merge_sort String.le (elements s).

(** [src crates/aros-core/src/surface.rs 25-43 extract_http_paths] *)
Definition paths_in (text : string) : gset string :=
  list_to_set (flat_map (λ quote,
    before_query <$> List.filter is_http_path (quoted (str_len text) quote text)) [dquote; squote]).
(** [src crates/aros-core/src/surface.rs 25-43 extract_http_paths] *)
Definition extract_http_paths (text : string) : list string := sorted (paths_in text).

(** ** A tree *)

(** What the host answers: reading a directory, an entry of it, the entry's type,
    its metadata, and its contents. *)
Inductive DirAnswer := Listed | PermissionDenied | DirError.
Record Disk := mkDisk {
  disk_dir : rel_path → DirAnswer;
  disk_entry : rel_path → bool;
  disk_type : rel_path → bool;
  disk_meta : rel_path → bool;
  disk_read : rel_path → bool;
}.

Definition is_source (name : string) : bool := existsb (ends_with name) SOURCE_SUFFIXES.
Definition scan_limit : nat := 400.

Section Walk.
Variable disk : Disk.

(** What was found, and the number of files scanned. *)
Abbreviation scan := (gset string * nat)%type.

(** [fs::read_to_string], and the paths of the text. *)
Definition scan_file (path : rel_path) (text : string) (st : scan) : scan :=
  (if disk_read disk path && Ipc.is_utf8 text then st.1 ∪ paths_in text else st.1,
   Datatypes.S st.2).

(** The loop over the entries of a directory.
    [src crates/aros-core/src/surface.rs 62-95 visit] *)
Definition entries_loop (visit : rel_path → tree → scan → result unit scan) (dir : rel_path) :
    list (string * tree) → scan → result unit scan :=
  fix go es st :=
    match es with
    | [] => Ok st
    | (name, child) :: es =>
      let path := dir ++ [name] in
      if negb (disk_entry disk path) then Err ()
      else if bool_decide (name ∈ SKIP_DIRS) then go es st
      else if negb (disk_type disk path) then Err ()
      else
        match child with
        | Dir _ => st ← visit path child st; go es st
        | File text =>
          if negb (is_source name) then go es st
          else if negb (disk_meta disk path) then Err ()
          else if (256000 <? N.of_nat (str_len text))%N then go es st
          else
            let st := scan_file path text st in
            if scan_limit <? st.2 then Ok st else go es st
        | _ => go es st
        end
    end.

(** [src crates/aros-core/src/surface.rs 53-97 visit] *)
Fixpoint visit (dir : rel_path) (t : tree) (st : scan) : result unit scan :=
  if scan_limit <? st.2 then Ok st
  else
    match t, disk_dir disk dir with
    | Dir entries, Listed => entries_loop visit dir entries st
    | Dir _, PermissionDenied => Ok st
    | _, _ => Err ()
    end.

(** [src crates/aros-core/src/surface.rs 46-51 extract_http_paths_from_tree] *)
Definition extract_http_paths_from_tree (root : tree) : result unit (list string) :=
  '(found, _) ← visit [] root (∅, 0); Ok (sorted found).

End Walk.

(** ** What the scanner of a text finds *)

(** The pieces enclosed by separators. *)
Fixpoint between (pieces : list string) : list string :=
  match pieces with
  | _ :: inner :: rest => match rest with [] => [] | _ => inner :: between rest end
  | _ => []
  end.

Lemma split_once_None c s : split_once c s = None → split_char c s = [s].
Proof.
  intros H. apply split_char_none. induction s as [|a s IH]; [done|]. cbn in *.
  destruct (Ascii.eqb_spec a c) as [->|Hne]; [done|]. destruct (split_once c s) as [[]|]; [done|].
  rewrite IH by done. by destruct (Ascii.eqb_spec a c).
Qed.
Lemma split_once_Some c s l r : split_once c s = Some (l, r) → split_char c s = l :: split_char c r.
Proof.
  unfold split_char. revert l. induction s as [|a s IH]; intros l; [done|]. cbn.
  rewrite (Ascii.eqb_sym a c). destruct (Ascii.eqb c a).
  - intros [= <- <-]. destruct (split_by _ s) eqn:E; [|done]. by apply split_by_nonempty in E.
  - destruct (split_once c s) as [[l' r']|]; [|done]. intros [= <- <-]. by rewrite (IH l').
Qed.
Lemma split_once_parts c s l r : split_once c s = Some (l, r) → s = l +:+ String c r.
Proof.
  revert l. induction s as [|a s IH]; intros l; [done|]. cbn.
  destruct (Ascii.eqb_spec a c) as [->|]; [by intros [= <- <-]|].
  destruct (split_once c s) as [[l' r']|]; [|done]. intros [= <- <-].
  rewrite sapp_cons. f_equal. by apply IH.
Qed.
Lemma split_once_length c s l r : split_once c s = Some (l, r) → str_len r < str_len s.
Proof.
  revert l. induction s as [|a s IH]; intros l; [done|]. cbn.
  destruct (Ascii.eqb a c); [intros [= <- <-]; unfold str_len; lia|].
  destruct (split_once c s) as [[l' r']|]; [|done]. intros [= <- <-].
  specialize (IH _ eq_refl). unfold str_len in *. lia.
Qed.

Lemma quoted_between fuel c s : str_len s <= fuel → quoted fuel c s = between (split_char c s).
Proof.
  revert s. induction fuel as [|fuel IH]; intros s Hl; [by destruct s; [|cbn in Hl; lia]|].
  cbn [quoted]. destruct (split_once c s) as [[l after]|] eqn:E1; [|by rewrite (split_once_None _ _ E1)].
  rewrite (split_once_Some _ _ _ _ E1). apply split_once_length in E1.
  destruct (split_once c after) as [[inner rest]|] eqn:E2; [|by rewrite (split_once_None _ _ E2)].
  rewrite (split_once_Some _ _ _ _ E2). apply split_once_length in E2. rewrite IH by lia.
  cbn. destruct (split_char c rest) eqn:E; [|done]. by apply split_by_nonempty in E.
Qed.

Lemma elem_of_between l inner :
  inner ∈ between l ↔ ∃ i, l !! (2 * i + 1) = Some inner ∧ 2 * i + 2 < length l.
Proof.
  induction l as [l IH] using (induction_ltof1 _ (@length string)). unfold ltof in IH.
  destruct l as [|a [|b [|c rest]]].
  1-3: split; [by intros ?%elem_of_nil|]; intros (i & _ & Hl); cbn in Hl; lia.
  change (between (a :: b :: c :: rest)) with (b :: between (c :: rest)).
  rewrite elem_of_cons, IH by (cbn; lia). split.
  - intros [->|(i & Hi & Hl)]; [exists 0|exists (Datatypes.S i)].
    + split; [done|cbn; lia].
    + replace (2 * Datatypes.S i + 1) with (Datatypes.S (Datatypes.S (2 * i + 1))) by lia.
      split; [done|]. cbn in Hl |- *. lia.
  - intros ([|i] & Hi & Hl); [by injection Hi as ->; left|]. right. exists i.
    replace (2 * Datatypes.S i + 1) with (Datatypes.S (Datatypes.S (2 * i + 1))) in Hi by lia.
    split; [done|]. cbn in Hl |- *. lia.
Qed.

Lemma elem_of_sorted s p : p ∈ sorted s ↔ p ∈ s.
Proof. unfold sorted. by rewrite merge_sort_Permutation, elem_of_elements. Qed.

Lemma elem_of_extract text p : p ∈ extract_http_paths text ↔ p ∈ paths_in text.
Proof. apply elem_of_sorted. Qed.

Lemma elem_of_paths_in text p :
  p ∈ paths_in text ↔ ∃ c i inner, c ∈ [dquote; squote] ∧
    split_char c text !! (2 * i + 1) = Some inner ∧ 2 * i + 2 < length (split_char c text) ∧
    is_http_path inner = true ∧ p = before_query inner.
Proof.
  unfold paths_in. rewrite elem_of_list_to_set, list_elem_of_In, in_flat_map. split.
  - intros (c & Hc & Hp). apply list_elem_of_In, list_elem_of_fmap in Hp as (inner & -> & Hi).
    apply list_elem_of_In, filter_In in Hi as [Hi Hh].
    apply list_elem_of_In in Hi. rewrite quoted_between, elem_of_between in Hi by done.
    destruct Hi as (i & Hi & Hl). exists c, i, inner. split_and!; try done. by apply list_elem_of_In.
  - intros (c & i & inner & Hc & Hi & Hl & Hh & ->). exists c. split; [by apply list_elem_of_In|].
    apply list_elem_of_In, list_elem_of_fmap. exists inner. split; [done|].
    apply list_elem_of_In, filter_In. split; [|done]. apply list_elem_of_In.
    rewrite quoted_between, elem_of_between by done. by exists i.
Qed.

(** ** Paths can be sent *)

Definition path_byte (c : ascii) : bool := (32 <? byte_val c)%N && (byte_val c <? 127)%N.

Lemma is_http_path_bytes v : is_http_path v = true → starts_with v "/" = true ∧ all_bytes path_byte v = true.
Proof.
  unfold is_http_path. destruct (starts_with v "/"); [|done]. cbn [negb orb].
  destruct (starts_with v "//" || _); [done|]. intros Hc. split; [done|].
  rewrite forallb_forall in Hc.
  assert (Ha : is_ascii v = true).
  { apply chars_ascii, List.Forall_forall. intros c Hin. apply Hc in Hin.
    rewrite !andb_true_iff, N.ltb_lt in Hin. apply Hin. }
  unfold chars in Hc. rewrite (decode_ascii _ Ha) in Hc. clear Ha.
  induction v as [|a v IH]; [done|]. cbn in Hc |- *. rewrite IH by (intros; apply Hc; by right).
  specialize (Hc _ (or_introl eq_refl)). rewrite !andb_true_iff, !negb_true_iff, !orb_false_iff in Hc.
  unfold path_byte. rewrite andb_true_r, andb_true_iff, !N.ltb_lt.
  rewrite N.ltb_lt, N.ltb_ge, !N.eqb_neq in Hc. lia.
Qed.

Lemma path_bytes_safe v :
  starts_with v "/" = true → all_bytes path_byte v = true → http_request_target_is_safe v = true.
Proof.
  intros Hs Hb. unfold http_request_target_is_safe. rewrite Hs. destruct v as [|a v]; [done|].
  change (negb (is_empty (String a v))) with true. cbn [andb]. revert Hb. generalize (String a v). intros w Hb.
  assert (Ha : is_ascii w = true).
  { eapply all_bytes_impl; [|done]. intros c. unfold path_byte. rewrite andb_true_iff, !N.ltb_lt. lia. }
  unfold chars. rewrite (decode_ascii _ Ha). clear -Hb. induction w as [|c w IH]; [done|].
  cbn in Hb |- *. apply andb_true_iff in Hb as [Hc Hw]. rewrite IH by done.
  unfold path_byte in Hc. rewrite andb_true_iff, !N.ltb_lt in Hc.
  unfold is_control, is_whitespace. rewrite andb_true_r, andb_true_iff, !negb_true_iff.
  repeat rewrite ?orb_false_iff, ?andb_false_iff, ?N.leb_gt, ?N.ltb_ge, ?N.eqb_neq. lia.
Qed.

Lemma before_query_app v : ∃ rest, v = before_query v +:+ rest.
Proof.
  unfold before_query. destruct (split_once "?" v) as [[l r]|] eqn:E.
  - rewrite (split_once_Some _ _ _ _ E). exists (String "?" r). by apply split_once_parts.
  - rewrite (split_once_None _ _ E). exists "". by rewrite sapp_nil_r.
Qed.

Lemma before_query_slash t : before_query (String "/" t) = String "/" (before_query t).
Proof.
  unfold before_query, split_char. cbn. destruct (split_by _ t) eqn:E; [|done].
  by apply split_by_nonempty in E.
Qed.

Lemma before_query_safe v : is_http_path v = true → http_request_target_is_safe (before_query v) = true.
Proof.
  intros [Hs Hb]%is_http_path_bytes. destruct (before_query_app v) as [rest E].
  apply path_bytes_safe.
  - apply starts_with_spec in Hs as [t ->]. change ("/" +:+ t) with (String "/" t).
    rewrite before_query_slash. apply (starts_with_app "/").
  - rewrite E, all_bytes_app, andb_true_iff in Hb. by destruct Hb.
Qed.

(** The scanner of a text: it finds, in order and once each, exactly the texts
    that stand between two consecutive quotes of one kind (the second of the
    pair being closed) and look like a path, without their query; and each of
    them is a safe request target. *)
Theorem extract_http_paths_spec text :
  StronglySorted String.le (extract_http_paths text) ∧ NoDup (extract_http_paths text) ∧
  (∀ p, p ∈ extract_http_paths text ↔ ∃ c i inner, c ∈ [dquote; squote] ∧
     split_char c text !! (2 * i + 1) = Some inner ∧ 2 * i + 2 < length (split_char c text) ∧
     is_http_path inner = true ∧ p = before_query inner) ∧
  ∀ p, p ∈ extract_http_paths text → http_request_target_is_safe p = true.
Proof.
  unfold extract_http_paths. split_and!.
  - apply (StronglySorted_merge_sort _).
  - unfold sorted. rewrite merge_sort_Permutation. apply NoDup_elements.
  - intros p. by rewrite elem_of_sorted, elem_of_paths_in.
  - intros p. rewrite elem_of_sorted, elem_of_paths_in. intros (c & i & inner & _ & _ & _ & Hh & ->).
    by apply before_query_safe.
Qed.

(** ** What the walk reads *)

(** The files the walk is meant to read. *)
Fixpoint sources (t : tree) : list string :=
  match t with
  | Dir es =>
    flat_map (λ e, if bool_decide (e.1 ∈ SKIP_DIRS) then [] else
      match e.2 with
      | Dir _ => sources e.2
      | File text => if is_source e.1 && (N.of_nat (str_len text) <=? 256000)%N then [text] else []
      | _ => []
      end) es
  | _ => []
  end.

(** How deep directories are nested. *)
Fixpoint height (t : tree) : nat :=
  match t with
  | Dir es =>
    foldr (λ e n, Nat.max match e.2 with Dir _ => Datatypes.S (height e.2) | _ => 0 end n) 0 es
  | _ => 0
  end.

Lemma height_child es name child :
  (name, Dir child) ∈ es → Datatypes.S (height (Dir child)) <= height (Dir es).
Proof.
  intros Hin. change (height (Dir es)) with
    (foldr (λ e n, Nat.max match e.2 with Dir _ => Datatypes.S (height e.2) | _ => 0 end n) 0 es).
  induction es as [|e es IH]; [by apply elem_of_nil in Hin|]. cbn [foldr].
  apply elem_of_cons in Hin as [<-|Hin]; [cbn [snd]; lia|]. specialize (IH Hin). lia.
Qed.

Section WalkLaws.
Variable disk : Disk.

Lemma entries_bound dir n es st st' :
  (∀ name child path s s', (name, Dir child) ∈ es → visit disk path (Dir child) s = Ok s' →
     s.2 <= scan_limit + n → s'.2 <= scan_limit + n) →
  entries_loop disk (visit disk) dir es st = Ok st' →
  st.2 <= scan_limit + n → st'.2 <= Datatypes.S (scan_limit + n).
Proof.
  revert st. induction es as [|[name child] es IH]; intros st Hv; cbn [entries_loop].
  { intros [= <-]. lia. }
  assert (Hgo : ∀ s, entries_loop disk (visit disk) dir es s = Ok st' → s.2 <= scan_limit + n →
    st'.2 <= Datatypes.S (scan_limit + n)).
  { intros s. apply IH. intros nm ch path s1 s2 Hin. apply (Hv nm). by right. }
  destruct (negb (disk_entry _ _)); [done|]. case_bool_decide; [apply Hgo|].
  destruct (negb (disk_type _ _)); [done|]. destruct child as [text|child| |]; [| |apply Hgo..].
  - destruct (negb (is_source _)); [apply Hgo|]. destruct (negb (disk_meta _ _)); [done|].
    destruct (_ <? _)%N; [apply Hgo|]. cbv zeta. destruct (Nat.ltb_spec scan_limit (scan_file disk (dir ++ [name]) text st).2).
    + intros [= <-]. cbn. lia.
    + intros Hl _. apply Hgo in Hl; [done|]. lia.
  - destruct (visit disk _ (Dir child) st) as [s|] eqn:E; [|done]. cbn. intros Hl Hst.
    apply Hgo in Hl; [done|]. eapply Hv; [|done|done]. left.
Qed.

Lemma visit_bound t dir st st' :
  visit disk dir t st = Ok st' → st'.2 <= Nat.max st.2 (Datatypes.S scan_limit + height t).
Proof.
  revert dir st st'. induction t as [c|es IH| |] using tree_nested_ind; intros dir st st'; cbn [visit];
    destruct (Nat.ltb_spec scan_limit st.2); (try by intros [= <-]; lia); try done.
  destruct (disk_dir disk dir); [|by intros [= <-]; lia|done]. intros Hl.
  apply (entries_bound _ (height (Dir es))) in Hl; [lia| |lia].
  intros name child path s s' Hin Hv Hs. rewrite Forall_forall in IH. apply (IH _ Hin) in Hv.
  apply height_child in Hin. cbn [snd] in Hv. lia.
Qed.

(** The walk reads only the files it is meant to: whatever it found is in one of
    them. *)
Lemma visit_sound t dir st st' p :
  visit disk dir t st = Ok st' → p ∈ st'.1 → p ∈ st.1 ∨ ∃ text, text ∈ sources t ∧ p ∈ paths_in text.
Proof.
  revert dir st st'. induction t as [c|es IH| |] using tree_nested_ind; intros dir st st'; cbn [visit];
    (destruct (scan_limit <? st.2); [by intros [= <-]; left|]); try done.
  destruct (disk_dir disk dir); [|by intros [= <-]; left|done].
  revert st. induction es as [|[name child] es IHes]; intros st; cbn [entries_loop].
  { intros [= <-]. by left. }
  apply Forall_cons in IH as [IHc IH]. specialize (IHes IH). cbn [sources flat_map fst snd].
  assert (Hgo : ∀ s, entries_loop disk (visit disk) dir es s = Ok st' → p ∈ st'.1 →
    p ∈ s.1 ∨ ∃ text, text ∈ sources (Dir ((name, child) :: es)) ∧ p ∈ paths_in text).
  { intros s Hl Hp. destruct (IHes s Hl Hp) as [?|(text & Ht & Hp')]; [by left|]. right. exists text.
    split; [|done]. cbn [sources flat_map]. apply elem_of_app. by right. }
  cbn [sources flat_map fst snd] in Hgo.
  destruct (negb (disk_entry _ _)); [done|]. case_bool_decide; [apply Hgo|].
  destruct (negb (disk_type _ _)); [done|]. destruct child as [text|child| |]; [| |apply Hgo..].
  - destruct (is_source name); [|apply Hgo]. cbn [negb andb]. destruct (negb (disk_meta _ _)); [done|].
    destruct (N.ltb_spec 256000 (N.of_nat (str_len text))); [apply Hgo|].
    destruct (N.leb_spec (N.of_nat (str_len text)) 256000); [|lia].
    assert (Hf : p ∈ (scan_file disk (dir ++ [name]) text st).1 → p ∈ st.1 ∨ p ∈ paths_in text).
    { unfold scan_file. cbn [fst]. destruct (disk_read disk _ && Ipc.is_utf8 text); set_solver. }
    cbv zeta. destruct (_ <? _).
    + intros [= <-] [?|?]%Hf; [by left|]. right. exists text. split; [set_solver|done].
    + intros Hl Hp. destruct (Hgo _ Hl Hp) as [[?|?]%Hf|?]; [by left| |by right].
      right. exists text. split; [set_solver|done].
  - destruct (visit disk _ (Dir child) st) as [s|] eqn:E; [|done]. cbn [mbind]. intros Hl Hp.
    destruct (Hgo _ Hl Hp) as [Hs|?]; [|by right].
    destruct (IHc _ _ _ E Hs) as [?|(text & Ht & ?)]; [by left|]. right. exists text.
    split; [|done]. apply elem_of_app. by left.
Qed.

(** Nothing fails. *)
Definition calm : Prop := ∀ path, disk_dir disk path = Listed ∧ disk_entry disk path = true ∧
  disk_type disk path = true ∧ disk_meta disk path = true ∧ disk_read disk path = true.

(** What reading [texts] adds to a scan. *)
Definition adds (texts : list string) (st st' : gset string * nat) : Prop :=
  st'.2 = st.2 + length texts ∧
  ∀ p, p ∈ st'.1 ↔ p ∈ st.1 ∨ ∃ text, text ∈ texts ∧ Ipc.is_utf8 text = true ∧ p ∈ paths_in text.

Lemma adds_nil st : adds [] st st.
Proof. split; [cbn; lia|]. intros p. split; [by left|]. by intros [?|(? & ?%elem_of_nil & _)]. Qed.
Lemma adds_app l l' a b c : adds l a b → adds l' b c → adds (l ++ l') a c.
Proof.
  intros [Hn Hp] [Hn' Hp']. split; [rewrite length_app; lia|]. intros p. rewrite Hp', Hp.
  split; [|setoid_rewrite elem_of_app; naive_solver].
  intros [[?|(x & ? & ?)]|(x & ? & ?)]; [by left| |]; right; exists x; set_solver.
Qed.
Lemma adds_file path text st : calm → adds [text] st (scan_file disk path text st).
Proof.
  intros Hc. destruct (Hc path) as (_ & _ & _ & _ & Hr). split; [cbn; lia|]. intros p.
  unfold scan_file. cbn [fst]. rewrite Hr. cbn [andb].
  destruct (Ipc.is_utf8 text) eqn:E; rewrite ?elem_of_union; split.
  - intros [?|?]; [by left|]. right. exists text. by rewrite list_elem_of_singleton.
  - intros [?|(x & ->%list_elem_of_singleton & _ & ?)]; [by left|by right].
  - by left.
  - intros [?|(x & ->%list_elem_of_singleton & ? & _)]; [done|congruence].
Qed.

Lemma visit_complete t dir st :
  calm → (∃ es, t = Dir es) → st.2 + length (sources t) <= scan_limit →
  ∃ st', visit disk dir t st = Ok st' ∧ adds (sources t) st st'.
Proof.
  intros Hc. revert dir st. induction t as [c|es IH| |] using tree_nested_ind; intros dir st [es' [=]] Hs.
  subst es'. cbn [visit]. destruct (Nat.ltb_spec scan_limit st.2); [lia|].
  destruct (Hc dir) as (-> & _). revert st Hs H. induction es as [|[name child] es IHes]; intros st Hs Hst.
  { exists st. split; [done|apply adds_nil]. }
  apply Forall_cons in IH as [IHc IH]. specialize (IHes IH). cbn [snd] in IHc.
  change (sources (Dir ((name, child) :: es))) with
    ((if bool_decide (name ∈ SKIP_DIRS) then [] else
      match child with
      | Dir _ => sources child
      | File text => if is_source name && (N.of_nat (str_len text) <=? 256000)%N then [text] else []
      | _ => []
      end) ++ sources (Dir es)) in *.
  cbn [entries_loop]. destruct (Hc (dir ++ [name])) as (_ & -> & -> & -> & _). cbn [negb].
  rewrite length_app in Hs.
  assert (Hgo : ∀ l s, adds l st s → s.2 + length (sources (Dir es)) <= scan_limit →
    ∃ st', entries_loop disk (visit disk) dir es s = Ok st' ∧ adds (l ++ sources (Dir es)) st st').
  { intros l s Ha Hle. destruct (IHes s) as (st' & E & Ha'); [done|lia|]. exists st'. split; [done|].
    by eapply adds_app. }
  case_bool_decide; [by apply (Hgo []); [apply adds_nil|]|].
  destruct child as [text|child| |]; [| |by apply (Hgo []); [apply adds_nil|]..].
  - destruct (is_source name); [|by apply (Hgo []); [apply adds_nil|]]. cbn [negb andb] in *.
    destruct (N.leb_spec (N.of_nat (str_len text)) 256000), (N.ltb_spec 256000 (N.of_nat (str_len text)));
      try lia; [|by apply (Hgo []); [apply adds_nil|]].
    cbn in Hs. cbv zeta. destruct (Nat.ltb_spec scan_limit (scan_file disk (dir ++ [name]) text st).2) as [Hl|].
    + cbn in Hl. lia.
    + apply (Hgo [text]); [by apply adds_file|]. cbn. lia.
  - destruct (IHc (dir ++ [name]) st) as (s & -> & Ha); [by eexists|lia|].
    cbn [mbind]. apply Hgo; [done|]. destruct Ha as [-> _]. lia.
Qed.

Lemma walk_sound t paths p :
  extract_http_paths_from_tree disk t = Ok paths → p ∈ paths →
  http_request_target_is_safe p = true ∧ ∃ text, text ∈ sources t ∧ p ∈ extract_http_paths text.
Proof.
  unfold extract_http_paths_from_tree. destruct (visit disk [] t (∅, 0)) as [[found n]|] eqn:E; [|done].
  intros [= <-] Hp%elem_of_sorted.
  destruct (visit_sound _ _ _ _ p E Hp) as [?%not_elem_of_empty|(text & Ht & Hx)]; [done|].
  apply elem_of_extract in Hx. split; [|by exists text]. by apply (extract_http_paths_spec text).
Qed.

(** C39: the walk over a target finds nothing but paths quoted in the files it is
    meant to read (source files of moderate size outside the skipped
    directories); when nothing fails and there are at most 400 such files, it
    finds all of them, from every file in UTF-8. *)
Theorem surface_walk_exact t paths :
  extract_http_paths_from_tree disk t = Ok paths →
  (∀ p, p ∈ paths → http_request_target_is_safe p = true ∧
     ∃ text, text ∈ sources t ∧ p ∈ extract_http_paths text) ∧
  (calm → length (sources t) <= scan_limit →
   ∀ p, p ∈ paths ↔ ∃ text, text ∈ sources t ∧ Ipc.is_utf8 text = true ∧ p ∈ extract_http_paths text).
Proof.
  intros Hw. split; [intros p; by apply walk_sound|]. revert Hw.
  unfold extract_http_paths_from_tree. destruct (visit disk [] t (∅, 0)) as [[found n]|] eqn:E; [|done].
  intros [= <-] Hc Hl p. assert (∃ es, t = Dir es) as Hd by (destruct t as [|es| |]; [done|by exists es|done..]).
  destruct (visit_complete t [] (∅, 0) Hc Hd Hl) as (st' & E' & _ & Ha).
  rewrite E in E'. injection E' as <-. rewrite elem_of_sorted, Ha. cbn [fst].
  setoid_rewrite elem_of_extract. split; [by intros [?%not_elem_of_empty|?]|by right].
Qed.

(** The walk stops near its limit: it never scans more than 401 files and one
    more for every level of nested directories, however large the target is. *)
Theorem surface_walk_bounded t dir found n :
  visit disk dir t (∅, 0) = Ok (found, n) → n <= 401 + height t.
Proof. intros H%visit_bound. cbn in H. exact H. Qed.

End WalkLaws.

(** ** The surface map *)

(** [src crates/aros-core/src/surface.rs 99-113 LIVE_WORDLIST] *)
Definition LIVE_WORDLIST : list string :=
  ["/health"; "/"; "/api"; "/api/health"; "/users"; "/users/1"; "/users/2"; "/files"; "/admin";
   "/login"; "/openapi.json"; "/status"; "/ready"].

(** [src crates/aros-core/src/surface.rs 123-127 LiveEndpoint] *)
Record LiveEndpoint := mkLiveEndpoint { live_path : string; live_status : N }.

(** [src crates/aros-core/src/surface.rs 115-121 SurfaceMap] *)
Record SurfaceMap := mkSurfaceMap {
  source_paths : list string;
  live : list LiveEndpoint;
  suggested_bind : gmap string string;
}.

(** [src crates/aros-core/src/surface.rs 160-181 suggest_bind] *)
Definition suggest_bind (source_paths : list string) (live : list LiveEndpoint) : gmap string string :=
  let paths := source_paths ++ (live_path <$> live) in
  let health := default "/health"
    (List.find (λ path, existsb (String.eqb path) paths) ["/health"; "/status"; "/ready"; "/api/health"]) in
  let bind : gmap string string := {["health_path" := health]} in
  let bind := match List.find (λ path, starts_with path "/users/" && negb (ends_with path "/")) paths with
              | Some idor => <["unauth_path" := idor]> (<["idor_path" := idor]> bind)
              | None => bind
              end in
  if existsb (λ path, starts_with path "/files") paths
  then <["files_path" := "/files?path=../secret.txt"]> bind else bind.

Section Live.
(** The answer of the listener to the [n]-th request. *)
Variable exchange : nat → string → N → string → option string.

(** [src crates/aros-core/src/surface.rs 133-149 map_http_surface] *)
Fixpoint live_hits (host : string) (port : N) (seen : gset string) (n : nat) (paths : list string) :
    list LiveEndpoint :=
  match paths with
  | [] => []
  | path :: paths =>
    if bool_decide (path ∈ seen) then live_hits host port seen n paths
    else
      let rest := live_hits host port ({[path]} ∪ seen) (Datatypes.S n) paths in
      match http_get (exchange n) host port path None with
      | Ok response => mkLiveEndpoint path (status response) :: rest
      | Err _ => rest
      end
  end.

(** [src crates/aros-core/src/surface.rs 130-158 map_http_surface] *)
Definition map_http_surface (disk : Disk) (root : tree) (listener : option (string * N)) :
    result unit SurfaceMap :=
  source_paths ← extract_http_paths_from_tree disk root;
  let live := match listener with
              | Some (host, port) => live_hits host port ∅ 0 (LIVE_WORDLIST ++ source_paths)
              | None => []
              end in
  Ok (mkSurfaceMap source_paths live (suggest_bind source_paths live)).

Lemma live_hits_spec host port seen n paths :
  NoDup (live_path <$> live_hits host port seen n paths) ∧
  ∀ e, e ∈ live_hits host port seen n paths → (live_path e ∉ seen) ∧ live_path e ∈ paths ∧
    ∃ m response, http_get (exchange m) host port (live_path e) None = Ok response ∧
      status response = live_status e.
Proof.
  revert seen n. induction paths as [|path paths IH]; intros seen n; cbn [live_hits].
  { split; [constructor|]. by intros e ?%elem_of_nil. }
  case_bool_decide as Hin.
  - destruct (IH seen n) as [Hn He]. split; [done|]. intros e Hx. destruct (He e Hx) as (? & ? & ?).
    split_and!; [done|by right|done].
  - destruct (IH ({[path]} ∪ seen) (Datatypes.S n)) as [Hn He].
    assert (Hrest : ∀ e, e ∈ live_hits host port ({[path]} ∪ seen) (Datatypes.S n) paths →
      live_path e ≠ path ∧ (live_path e ∉ seen) ∧ live_path e ∈ path :: paths ∧ ∃ m response,
        http_get (exchange m) host port (live_path e) None = Ok response ∧ status response = live_status e).
    { intros e Hx. destruct (He e Hx) as (Hs & ? & ?). split_and!; [set_solver..|done]. }
    destruct (http_get (exchange n) host port path None) as [response|err] eqn:Eg.
    + split.
      * rewrite fmap_cons, NoDup_cons. split; [|done].
        intros (e & Ee & Hx)%list_elem_of_fmap. destruct (Hrest e Hx). done.
      * intros e [->|Hx]%elem_of_cons; [|by apply Hrest]. cbn. split_and!; [done|by left|]. by exists n, response.
    + split; [done|]. intros e Hx. by apply Hrest.
Qed.

Lemma wordlist_safe : Forall (λ p, http_request_target_is_safe p = true) LIVE_WORDLIST.
Proof. repeat constructor; by vm_compute. Qed.

Lemma suggest_bind_safe paths hits :
  (∀ p, p ∈ paths ++ (live_path <$> hits) → http_request_target_is_safe p = true) →
  ∀ k v, suggest_bind paths hits !! k = Some v → http_request_target_is_safe v = true.
Proof.
  intros Hsafe k v. unfold suggest_bind. cbv zeta.
  destruct (List.find (λ path, starts_with _ _ && _) _) as [idor|] eqn:Ei;
    [assert (http_request_target_is_safe idor = true)
      by (apply Hsafe, list_elem_of_In; apply (List.find_some _ _ Ei))|];
    (destruct (List.find (λ path, existsb _ _) _) as [h|] eqn:Eh;
      [apply List.find_some in Eh as [_ Eh]; apply existsb_exists in Eh as (h' & Hh & ->%String.eqb_eq);
       apply list_elem_of_In, Hsafe in Hh|]);
    (destruct (existsb _ _)); cbn [default];
    rewrite ?lookup_insert_Some, ?lookup_singleton_Some; naive_solver.
Qed.

(** Everything a surface map can make a campaign ask for is a safe request
    target: the paths of the source, the paths that answered (each asked once,
    with the status of its reply) and every suggested value. *)
Theorem surface_map_requests_safe disk root listener m :
  map_http_surface disk root listener = Ok m →
  (∀ p, p ∈ source_paths m → http_request_target_is_safe p = true) ∧
  (∀ e, e ∈ live m → http_request_target_is_safe (live_path e) = true ∧
     ∃ host port k response, listener = Some (host, port) ∧
       http_get (exchange k) host port (live_path e) None = Ok response ∧ status response = live_status e) ∧
  NoDup (live_path <$> live m) ∧
  ∀ k v, suggested_bind m !! k = Some v → http_request_target_is_safe v = true.
Proof.
  unfold map_http_surface. destruct (extract_http_paths_from_tree disk root) as [paths|] eqn:E; [|done].
  intros <-%Ok_inj. cbn [source_paths live suggested_bind].
  assert (Hp : ∀ p, p ∈ paths → http_request_target_is_safe p = true)
    by (intros p Hin; by apply (walk_sound disk root paths p E)).
  assert (Hw : ∀ p, p ∈ LIVE_WORDLIST ++ paths → http_request_target_is_safe p = true).
  { intros p [Hx|?]%elem_of_app; [|by apply Hp]. pose proof wordlist_safe as Hs.
    rewrite Forall_forall in Hs. by apply Hs. }
  destruct listener as [[host port]|].
  - destruct (live_hits_spec host port ∅ 0 (LIVE_WORDLIST ++ paths)) as [Hn He].
    split_and!; [done| |done|].
    + intros e Hx. destruct (He e Hx) as (_ & Hin & k & response & Hr). split; [by apply Hw|].
      by exists host, port, k, response.
    + apply suggest_bind_safe. intros p [?|(e & -> & Hx)%list_elem_of_fmap]%elem_of_app; [by apply Hp|].
      apply Hw, (He e Hx).
  - split_and!; [done|by intros e ?%elem_of_nil|constructor|].
    apply suggest_bind_safe. intros p. rewrite fmap_nil, app_nil_r. apply Hp.
Qed.

End Live.

(** A map of a live listener depends on what that listener answers alone. *)
Lemma map_listener ex ex' disk root host port :
  (∀ n request, ex n host port request = ex' n host port request) →
  map_http_surface ex disk root (Some (host, port)) = map_http_surface ex' disk root (Some (host, port)).
Proof.
  intros Hx. assert (Hl : ∀ ps seen n, live_hits ex host port seen n ps = live_hits ex' host port seen n ps).
  { induction ps as [|p ps IH]; intros seen n; cbn [live_hits]; [done|].
    destruct (bool_decide _); [apply IH|]. unfold http_get, http_exchange. by rewrite Hx, IH. }
  unfold map_http_surface. destruct (extract_http_paths_from_tree disk root) as [paths|]; [|done].
  cbn [mbind result_bind]. by rewrite Hl.
Qed.

End Surface.
