(* ===== verification/Verifier.v ===== *)
(** * The verifier process (crate [aros-core], [verifier.rs])

    A second process that reproduces a candidate finding: it copies the exact
    target tree, starts the target from the copy, replays the request and judges
    the answer itself. The parent runs it as a child with a deadline and never
    adjudicates in its own process.

    Trees are data at paths. What the host does (which interpreter exists, how
    long a server takes, what a started process does to the trees) is given. *)

From S2P Require Import Prelude RustStr Net Json Types PathScope Ledger Cas.
From S2P Require Import Store Authority HttpLab Ipc Snapshot.
Import Snapshot HttpLab.

Module Verifier.

(** [src crates/aros-core/src/verifier.rs 28-33 FixtureReplayKind] *)
Inductive FixtureReplayKind := ReplayAuthz | ReplayPath.

(** [src crates/aros-core/src/verifier.rs 35-41 VerifierOracle] *)
Record VerifierOracle := mkVerifierOracle {
  expected_status : option N;
  body_contains : option string;
  body_not_contains : option string;
}.

(** [src crates/aros-core/src/verifier.rs 43-56 VerifierOracle::matches] *)
Definition matches (o : VerifierOracle) (status : N) (body : string) : bool :=
  default true ((λ expected, expected =? status)%N <$> expected_status o) &&
  default true ((λ needle, contains body needle) <$> body_contains o) &&
  default true ((λ needle, negb (contains body needle)) <$> body_not_contains o).

(** [src crates/aros-core/src/verifier.rs 58-68 VerifierReplay] *)
Record VerifierReplay := mkVerifierReplay {
  target_root : string;
  expected_tree_digest : string;
  replay_kind : FixtureReplayKind;
  request_path : string;
  cookie : option string;
  replay_oracle : VerifierOracle;
  containment_required : bool;
}.

(** [src crates/aros-core/src/verifier.rs 70-80 VerifierInput] *)
Record VerifierInput := mkVerifierInput {
  input_claim : string;
  input_snapshot_id : string;
  oracle_contract : string;
  input_invariant : string;
  replay : option VerifierReplay;
}.

(** [src crates/aros-core/src/verifier.rs 82-89 VerifierProcessResult] *)
Record VerifierProcessResult := mkVerifierProcessResult {
  result_text : string;
  accepted : bool;
  reason : string;
  target_digest_observed : option string;
  oracle_observed : bool;
}.

(** [src crates/aros-core/src/verifier.rs 91-105 reduced_input] *)
Definition reduced_input `{UuidLib} (finding : Finding) (bundle : EvidenceBundle) (mode : VerifierMode)
    (oracle invariant : string) : VerifierInput :=
  mkVerifierInput (finding_claim finding) (id_to_string (bundle_snapshot_id bundle)) oracle invariant None.

(** [src crates/aros-core/src/verifier.rs 111-113 accepts_true_finding] *)
Definition accepts_true_finding (level : EvidenceLevel) (r : AuthorityResult) : bool :=
  bool_decide (r = ArVerified) && level_ge level E4IndependentReproduction.

(** [src crates/aros-core/src/verifier.rs 115-123 rejected] *)
Definition rejected (why : string) : VerifierProcessResult :=
  mkVerifierProcessResult "Rejected" false why None false.

(** [src crates/aros-core/src/verifier.rs 321-329 digest_mismatch] *)
Definition digest_mismatch (observed : string) : VerifierProcessResult :=
  mkVerifierProcessResult "Rejected" false "exact-target digest mismatch during verifier replay"
    (Some observed) false.

(** ** Starting a server *)

(** One turn of a readiness loop: polling the child failed, the child has exited,
    or it runs and the health request was answered with this text (if at all). *)
Inductive Poll :=
| PollFailed (error : string)
| PollExited
| PollRunning (health : option string).

(** How waiting ended; the end of the list is the deadline. *)
Inductive Wait := WaitFailed (error : string) | WaitExited | WaitReady | WaitDeadline.

(** [while Instant::now() < deadline { .. }] *)
Fixpoint await_ready (port : N) (polls : list Poll) : Wait :=
  match polls with
  | [] => WaitDeadline
  | PollFailed error :: _ => WaitFailed error
  | PollExited :: _ => WaitExited
  | PollRunning reply :: polls =>
    if is_ok (http_get (λ _ _ _, reply) "127.0.0.1" port "/health" None) then WaitReady
    else await_ready port polls
  end.

(** What the host answers while one target is started and asked. *)
Record Launch := mkLaunch {
  (** [CampaignOciTarget::start]: the port the container publishes. *)
  l_oci : string → result string N;
  l_python : option string;
  l_port : result string N;
  l_spawn : result string unit;
  l_polls : list Poll;
  l_exchange : string → N → string → option string;
  (** What running the target did to the trees. *)
  l_effect : gmap string tree → gmap string tree;
}.

Definition has_file (name : string) (t : option tree) : bool :=
  match t with
  | Some (Dir es) => match entry_get name es with Some (File _) => true | _ => false end
  | _ => false
  end.

Section Process.
Context `{HashLib, U : UuidLib}.
(** [Display] of errors. *)
Variable http_error_display : HttpError → string.
Variable snapshot_error_display : SnapshotError → string.

Definition ask (l : Launch) (port : N) (r : VerifierReplay) : result string HttpResponse :=
  map_err http_error_display
    (http_get (l_exchange l) "127.0.0.1" port (request_path r) (cookie r)).

(** What a started target leaves, and what was observed of it.
    [src crates/aros-core/src/verifier.rs 383-444 run_actual_fixture] *)
Definition run_actual_fixture (l : Launch) (root : string) (r : VerifierReplay)
    (ts : gmap string tree) : gmap string tree * result string (N * string) :=
  if containment_required r then
    match l_oci l root with
    | Err e => (l_effect l ts, Err e)
    | Ok port => (l_effect l ts, resp ← ask l port r; Ok (status resp, body resp))
    end
  else
    match l_python l with
    | None => (ts, Err "python interpreter not available")
    | Some _ =>
      if negb (has_file "server.py" (ts !! root)) then (ts, Err "server.py missing from verifier target")
      else
        match l_port l with
        | Err e => (ts, Err e)
        | Ok port =>
          match l_spawn l with
          | Err e => (ts, Err ("launch target: " +:+ e))
          | Ok _ =>
            (l_effect l ts,
             match await_ready port (l_polls l) with
             | WaitFailed e => Err e
             | WaitReady => resp ← ask l port r; Ok (status resp, body resp)
             | WaitExited | WaitDeadline => Err "target readiness deadline exceeded"
             end)
          end
        end
    end.

(** What the host answers to one run of the verifier. *)
Record Host := mkHost {
  (** Whether the link at a path names a directory. *)
  h_link_dir : string → bool;
  h_now : N;
  h_id : SnapshotId;
  h_target : TargetId;
  (** [temp_dir().join(format!("aros-verifier-{}", Uuid::new_v4()))] *)
  h_temp : string;
  (** A failure of the file system during the copy. *)
  h_copy_fault : option string;
  h_launch : Launch;
}.

Definition is_dir_at (h : Host) (root : string) (ts : gmap string tree) : bool :=
  match ts !! root with
  | Some (Dir _) => true
  | Some Link => h_link_dir h root
  | _ => false
  end.

(** [snapshot_tree(TargetId::new(), root)]; only the digest is used. *)
Definition digest_at (h : Host) (root : string) (ts : gmap string tree) : result SnapshotError string :=
  if negb (is_dir_at h root ts) then Err (SeNotDir root)
  else
    match ts !! root with
    | Some t => s ← snapshot_tree (h_now h) (h_id h) (h_target h) root t; Ok (source_tree_digest s)
    | None => Err (SeNotDir root)
    end.

(** [copy_exact_tree(root, &temp_root)] on the trees; what a failed copy leaves at
    the fresh path is not read again. *)
Definition copy_target (h : Host) (root : string) (ts : gmap string tree) :
    gmap string tree * result string unit :=
  match h_copy_fault h with
  | Some e => (ts, Err e)
  | None =>
    match ts !! root with
    | None => (ts, Err "not found")
    | Some t =>
      match copy_exact_tree t (ts !! h_temp h) with
      | Ok t' => (<[h_temp h := t']> ts, Ok ())
      | Err CopySymlink => (ts, Err ("symlink not allowed in verifier target: " +:+ root))
      | Err CopyIo => (ts, Err "io")
      end
    end
  end.

(** What the replay shows.
    [src crates/aros-core/src/verifier.rs 296-318 reproduce_and_adjudicate] *)
Definition judge (o : VerifierOracle) (after : string) (r : result string (N * string)) :
    VerifierProcessResult :=
  match r with
  | Ok (status, body) =>
    if matches o status body then
      mkVerifierProcessResult "Verified" true
        "independent verifier executed the actual byte-identical target and observed the oracle"
        (Some after) true
    else
      mkVerifierProcessResult "NonReproducible" false
        "actual verifier target did not satisfy the oracle" (Some after) false
  | Err error =>
    mkVerifierProcessResult "Rejected" false ("actual verifier target unavailable: " +:+ error)
      (Some after) false
  end.

(** From the copied tree on. The copy is removed; if that fails it is not read again.
    [src crates/aros-core/src/verifier.rs 269-319 reproduce_and_adjudicate] *)
Definition replay_copy (h : Host) (r : VerifierReplay) (ts : gmap string tree) :
    gmap string tree * VerifierProcessResult :=
  match digest_at h (h_temp h) ts with
  | Err e => (delete (h_temp h) ts, rejected ("snapshot copied target: " +:+ snapshot_error_display e))
  | Ok copied =>
    if negb (String.eqb copied (expected_tree_digest r)) then
      (delete (h_temp h) ts, rejected "copied target digest differs from authorized target")
    else
      let '(ts, result) := run_actual_fixture (h_launch h) (h_temp h) r ts in
      let after := digest_at h (target_root r) ts in
      let ts := delete (h_temp h) ts in
      (ts, match after with
           | Err e => rejected ("post-replay verifier snapshot failed: " +:+ snapshot_error_display e)
           | Ok after =>
             if negb (String.eqb after (expected_tree_digest r)) then digest_mismatch after
             else judge (replay_oracle r) after result
           end)
  end.

(** [src crates/aros-core/src/verifier.rs 249-319 reproduce_and_adjudicate] *)
Definition reproduce_and_adjudicate (h : Host) (input : VerifierInput) (ts : gmap string tree) :
    gmap string tree * VerifierProcessResult :=
  match replay input with
  | None => (ts, rejected "verifier replay recipe missing; E4 cannot be established")
  | Some r =>
    if is_empty (input_claim input) || is_empty (oracle_contract input)
    then (ts, rejected "claim and oracle_contract are required")
    else if negb (is_dir_at h (target_root r) ts)
    then (ts, rejected "verifier target root is unavailable")
    else
      match digest_at h (target_root r) ts with
      | Err e => (ts, rejected ("verifier snapshot failed: " +:+ snapshot_error_display e))
      | Ok before =>
        if negb (String.eqb before (expected_tree_digest r)) then (ts, digest_mismatch before)
        else
          match copy_target h (target_root r) ts with
          | (ts, Err e) => (ts, rejected ("copy exact verifier target: " +:+ e))
          | (ts, Ok _) => replay_copy h r ts
          end
      end
  end.

(** ** The child and its parent *)

Context `{!Store.JsonText VerifierInput, !Store.JsonText VerifierProcessResult}.

(** [stdin] is what was read, if reading succeeded; the result is the exit code
    and what was written to standard output.
    [src crates/aros-core/src/verifier.rs 232-247 run_verifier_child_main] *)
Definition run_verifier_child_main (h : Host) (stdin : option string) (stdout_ok : bool)
    (ts : gmap string tree) : gmap string tree * (Z * string) :=
  match stdin with
  | None => (ts, (2%Z, ""))
  | Some buf =>
    match Store.from_text buf with
    | None => (ts, (3%Z, ""))
    | Some input =>
      let '(ts, r) := reproduce_and_adjudicate h input ts in
      (ts, match Store.to_text r with
           | Some bytes => if stdout_ok then (0%Z, bytes) else (4%Z, "")
           | None => (4%Z, "")
           end)
    end
  end.

(** The environment in which the verifier program is looked for. *)
Record Lookup := mkLookup {
  e_var : string → option string;
  e_is_file : string → bool;
  e_current_exe : option string;
  (** [split_paths] of PATH. *)
  e_path : option (list string);
}.

Definition VERIFIER_NAME : string := "aros-verifier".

(** The program in one directory, with or without an extension. *)
Definition bin_in (e : Lookup) (dir : string) : option string :=
  let plain := dir +:+ "/" +:+ VERIFIER_NAME in
  let exe := dir +:+ "/" +:+ VERIFIER_NAME +:+ ".exe" in
  if e_is_file e plain then Some plain
  else if e_is_file e exe then Some exe else None.

Definition bin_from (e : Lookup) (key : string) : option string :=
  path ← e_var e key; if e_is_file e path then Some path else None.

Definition or_else {A} (x y : option A) : option A :=
  match x with Some _ => x | None => y end.

Fixpoint find_map {A B} (f : A → option B) (l : list A) : option B :=
  match l with
  | [] => None
  | x :: l => or_else (f x) (find_map f l)
  end.

(** [src crates/aros-core/src/verifier.rs 129-173 resolve_verifier_bin] *)
Definition resolve_verifier_bin (e : Lookup) : option string :=
  or_else (bin_from e "AROS_VERIFIER")
    (or_else (find_map (bin_from e) ["CARGO_BIN_EXE_aros-verifier"; "CARGO_BIN_EXE_aros_verifier"])
      (or_else
        (current ← e_current_exe e; dir ← Ipc.path_parent current;
         find_map (bin_in e) (dir :: match Ipc.path_parent dir with Some p => [p] | None => [] end))
        (dirs ← e_path e; find_map (bin_in e) dirs))).

(** How a child process was seen to end. *)
Inductive ChildPoll := ChildRunning | ChildExited | ChildPollError (error : string).

(** What the parent finds when it runs a program. [p_child] is the program: given
    the standard input it gets, the exit code, the outputs and its effect. *)
Record Spawn := mkSpawn {
  p_lookup : Lookup;
  p_spawn : result string unit;
  (** A failed write of the input, and what had been written. *)
  p_stdin_fault : option (string * string);
  p_polls : list ChildPoll;
  p_collect : result string unit;
  p_child : string → string → gmap string tree → gmap string tree * (Z * string * string);
}.

(** The end of the list is the deadline.
    [src crates/aros-core/src/verifier.rs 206-218 wait_with_output_deadline] *)
Fixpoint wait_child (polls : list ChildPoll) : result string unit :=
  match polls with
  | [] => Err "INDEPENDENT_VERIFIER_TIMEOUT: evidence capped at E3"
  | ChildRunning :: polls => wait_child polls
  | ChildExited :: _ => Ok ()
  | ChildPollError error :: _ => Err ("poll verifier: " +:+ error)
  end.

(** [{:?}] of the exit code, and the texts of serde errors. *)
Variable code_debug : Z → string.
Variable json_error : string.

(** [src crates/aros-core/src/verifier.rs 202-230 wait_with_output_deadline] *)
Definition wait_with_output_deadline (p : Spawn) (out : Z * string * string) :
    result string VerifierProcessResult :=
  let '(code, stdout, stderr) := out in
  _ ← wait_child (p_polls p);
  _ ← map_err (λ error, "collect verifier output: " +:+ error) (p_collect p);
  if negb (code =? 0)%Z
  then Err (VERIFIER_NAME +:+ " exited " +:+ code_debug code +:+ ": " +:+ stderr)
  else ok_or (Store.from_text stdout) json_error.

(** [src crates/aros-core/src/verifier.rs 175-200 verify_in_subprocess] *)
Definition verify_in_subprocess (p : Spawn) (input : VerifierInput) (ts : gmap string tree) :
    gmap string tree * result string VerifierProcessResult :=
  match replay input with
  | None => (ts, Err "INDEPENDENT_REPLAY_UNAVAILABLE: cannot establish E4")
  | Some _ =>
    match resolve_verifier_bin (p_lookup p) with
    | None => (ts, Err "INDEPENDENT_VERIFIER_UNAVAILABLE: cannot establish E4")
    | Some bin =>
      match p_spawn p with
      | Err error => (ts, Err ("spawn " +:+ VERIFIER_NAME +:+ ": " +:+ error))
      | Ok _ =>
        match Store.to_text input with
        | None => ((p_child p bin "" ts).1, Err json_error)
        | Some payload =>
          match p_stdin_fault p with
          | Some (written, error) => ((p_child p bin written ts).1, Err error)
          | None =>
            let '(ts, out) := p_child p bin payload ts in
            (ts, wait_with_output_deadline p out)
          end
        end
      end
    end
  end.

(** ** What acceptance means *)

Lemma matches_spec o status body :
  matches o status body = true ↔
  (∀ s, expected_status o = Some s → status = s) ∧
  (∀ n, body_contains o = Some n → contains body n = true) ∧
  (∀ n, body_not_contains o = Some n → contains body n = false).
Proof.
  unfold matches. rewrite !andb_true_iff.
  destruct (expected_status o) as [s|], (body_contains o) as [n|], (body_not_contains o) as [m|]; cbn;
    rewrite ?N.eqb_eq, ?negb_true_iff; naive_solver.
Qed.

(** The replay as it happened: the target served from a tree. *)
Definition observed (h : Host) (r : VerifierReplay) (copy : tree) (resp : HttpResponse) : Prop :=
  ∃ port raw,
    l_exchange (h_launch h) "127.0.0.1" port
      (request_head "127.0.0.1" port "GET" (request_path r) None (cookie_header (cookie r))) = Some raw ∧
    parse_response raw = Ok resp ∧
    if containment_required r then l_oci (h_launch h) (h_temp h) = Ok port
    else l_port (h_launch h) = Ok port ∧ await_ready port (l_polls (h_launch h)) = WaitReady ∧
      has_file "server.py" (Some copy) = true.

Lemma run_actual_fixture_Ok l h r copy ts ts' status body :
  l = h_launch h → ts !! h_temp h = Some copy →
  run_actual_fixture l (h_temp h) r ts = (ts', Ok (status, body)) →
  ts' = l_effect l ts ∧ observed h r copy (mkHttpResponse status body).
Proof.
  intros -> Hc. unfold run_actual_fixture, ask.
  assert (Hask : ∀ port, (resp ← map_err http_error_display (http_get (l_exchange (h_launch h))
    "127.0.0.1" port (request_path r) (cookie r)); Ok (HttpLab.status resp, HttpLab.body resp)) =
    Ok (status, body) → ∃ raw,
    l_exchange (h_launch h) "127.0.0.1" port
      (request_head "127.0.0.1" port "GET" (request_path r) None (cookie_header (cookie r))) = Some raw ∧
    parse_response raw = Ok (mkHttpResponse status body)).
  { intros port (resp & Hr & [= <- <-])%bind_Ok. unfold http_get, http_exchange in Hr.
    destruct (l_exchange _ _ _ _) as [raw|] eqn:E; [|done]. cbn in Hr.
    exists raw. rewrite sapp_nil_r in E. split; [done|]. destruct (parse_response raw) as [[]|]; by simplify_eq/=. }
  unfold observed. destruct (containment_required r).
  - destruct (l_oci _ _) as [port|] eqn:Hp; [|done]. intros [= <- (raw & ? & ?)%Hask]. eauto 6.
  - destruct (l_python _); [|done]. destruct (has_file _ _) eqn:Hf; [|done].
    destruct (l_port _) as [port|] eqn:Hp; [|done]. destruct (l_spawn _); [|done].
    destruct (await_ready _ _) eqn:Hw; try done. intros [= <- (raw & ? & ?)%Hask].
    rewrite Hc in Hf. split; [done|]. exists port, raw. auto.
Qed.

Lemma digest_at_Ok h root ts d :
  digest_at h root ts = Ok d → ∃ t, ts !! root = Some t ∧ tree_digest root t = Ok d.
Proof.
  unfold digest_at, is_dir_at. destruct (ts !! root) as [t|]; [|done]. intros Hd. exists t. split; [done|].
  destruct (negb _); [done|]. apply bind_Ok in Hd as (s & Hs & [= <-]).
  destruct t as [|es| |]; try done. unfold snapshot_tree in Hs.
  by apply bind_Ok in Hs as (d & -> & [= <-]).
Qed.

Lemma replay_copy_accepted h r ts ts' res copy :
  replay_copy h r ts = (ts', res) → accepted res = true → ts !! h_temp h = Some copy →
  ∃ resp, tree_digest (h_temp h) copy = Ok (expected_tree_digest r) ∧ observed h r copy resp ∧
    matches (replay_oracle r) (status resp) (body resp) = true ∧
    digest_at h (target_root r) (l_effect (h_launch h) ts) = Ok (expected_tree_digest r) ∧
    oracle_observed res = true ∧ target_digest_observed res = Some (expected_tree_digest r) ∧
    ts' = delete (h_temp h) (l_effect (h_launch h) ts).
Proof.
  unfold replay_copy. intros Hr Ha Hc.
  destruct (digest_at h (h_temp h) ts) as [d|e] eqn:Hd; [|by injection Hr as _ <-].
  destruct (String.eqb_spec d (expected_tree_digest r)) as [->|]; cbn [negb] in Hr; [|by injection Hr as _ <-].
  apply digest_at_Ok in Hd as (t & Ht & Hd). rewrite Hc in Ht. injection Ht as <-.
  destruct (run_actual_fixture _ _ _ _) as [ts1 [[st bd]|e]] eqn:Hf.
  - apply (run_actual_fixture_Ok _ h _ copy) in Hf as [-> Ho]; [|done..]. injection Hr as <- <-.
    destruct (digest_at h (target_root r) _) as [after|]; [|done].
    destruct (String.eqb_spec after (expected_tree_digest r)) as [E|]; cbn [negb] in Ha |- *; [|done].
    exists (mkHttpResponse st bd). rewrite E in *. cbn in *. by destruct (matches _ _ _).
  - injection Hr as _ <-. destruct (digest_at _ _ _); [|done]. by destruct (negb _).
Qed.

Lemma accepted_reproduced h input ts ts' res :
  reproduce_and_adjudicate h input ts = (ts', res) → accepted res = true →
  ∃ r t copy resp, replay input = Some r ∧ ts !! target_root r = Some t ∧
    tree_digest (target_root r) t = Ok (expected_tree_digest r) ∧
    copy_exact_tree t (ts !! h_temp h) = Ok copy ∧
    tree_digest (h_temp h) copy = Ok (expected_tree_digest r) ∧
    observed h r copy resp ∧ matches (replay_oracle r) (status resp) (body resp) = true ∧
    digest_at h (target_root r) (l_effect (h_launch h) (<[h_temp h := copy]> ts)) =
      Ok (expected_tree_digest r) ∧
    oracle_observed res = true ∧ target_digest_observed res = Some (expected_tree_digest r).
Proof.
  unfold reproduce_and_adjudicate. intros Hr Ha. destruct (replay input) as [r|]; [|by injection Hr as _ <-].
  destruct (is_empty _ || _); [by injection Hr as _ <-|].
  destruct (negb (is_dir_at _ _ _)); [by injection Hr as _ <-|].
  destruct (digest_at h (target_root r) ts) as [before|e] eqn:Hb; [|by injection Hr as _ <-].
  destruct (String.eqb_spec before (expected_tree_digest r)) as [->|]; cbn [negb] in Hr; [|by injection Hr as _ <-].
  apply digest_at_Ok in Hb as (t & Ht & Hb). unfold copy_target in Hr. rewrite Ht in Hr.
  destruct (h_copy_fault h); [by injection Hr as _ <-|].
  destruct (copy_exact_tree t _) as [copy|e] eqn:Hc; [|by destruct e; injection Hr as _ <-].
  apply (replay_copy_accepted _ _ _ _ _ copy) in Hr as (resp & ? & ? & ? & ? & ? & ? & _); [|done|by rewrite lookup_insert_eq].
  by exists r, t, copy, resp.
Qed.

(** C12: the verifier accepts a candidate only after it has itself reproduced it:
    the target had the expected digest before and after, the tree it started was
    an exact copy with that very digest, it was answered by that target with a
    response that satisfies the oracle, and it reports the digest it observed. *)
Theorem verifier_accepts_only_reproductions h input ts ts' res :
  reproduce_and_adjudicate h input ts = (ts', res) → accepted res = true →
  ∃ r t copy resp, replay input = Some r ∧ ts !! target_root r = Some t ∧
    tree_digest (target_root r) t = Ok (expected_tree_digest r) ∧
    copy_exact_tree t (ts !! h_temp h) = Ok copy ∧
    tree_digest (h_temp h) copy = Ok (expected_tree_digest r) ∧
    observed h r copy resp ∧ matches (replay_oracle r) (status resp) (body resp) = true ∧
    digest_at h (target_root r) (l_effect (h_launch h) (<[h_temp h := copy]> ts)) =
      Ok (expected_tree_digest r) ∧
    oracle_observed res = true ∧ target_digest_observed res = Some (expected_tree_digest r).
Proof. apply accepted_reproduced. Qed.

(** C23: and it accepts every one it can reproduce: for a target directory with the
    expected digest and no symbolic link, a claim and an oracle contract that are not
    empty, copied without a fault to an unused path, whose server answers the replay
    with a response that satisfies the oracle and leaves the target alone, the answer
    is acceptance. The check of the
    copied digest never stands in the way. *)
Theorem verifier_accepts_reproductions h input ts r es copy resp :
  replay input = Some r → input_claim input ≠ "" → oracle_contract input ≠ "" →
  ts !! target_root r = Some (Dir es) → tree_wf (Dir es) →
  tree_digest (target_root r) (Dir es) = Ok (expected_tree_digest r) →
  h_copy_fault h = None → ts !! h_temp h = None → copy_exact_tree (Dir es) None = Ok copy →
  run_actual_fixture (h_launch h) (h_temp h) r (<[h_temp h := copy]> ts) =
    (l_effect (h_launch h) (<[h_temp h := copy]> ts), Ok (status resp, body resp)) →
  matches (replay_oracle r) (status resp) (body resp) = true →
  l_effect (h_launch h) (<[h_temp h := copy]> ts) !! target_root r = Some (Dir es) →
  (reproduce_and_adjudicate h input ts).2 =
    mkVerifierProcessResult "Verified" true
      "independent verifier executed the actual byte-identical target and observed the oracle"
      (Some (expected_tree_digest r)) true.
Proof.
  intros Hr Hcl Hor Ht Hwf Hd Hf Htmp Hc Hrun Hm Heff.
  assert (Hdig : ∀ root t ts1 d, ts1 !! root = Some (Dir t) → tree_digest root (Dir t) = Ok d →
    digest_at h root ts1 = Ok d).
  { intros root t ts1 d Hl Hdg. unfold digest_at, is_dir_at. rewrite Hl. cbn [negb].
    unfold snapshot_tree. by rewrite Hdg. }
  assert (∃ ces, copy = Dir ces) as [ces ->].
  { destruct (copy_collects_all is_pycache _ Hwf (pycache_lossless _) _ Hc) as (ces & -> & _). eauto. }
  unfold reproduce_and_adjudicate. rewrite Hr.
  destruct (input_claim input); [done|]. destruct (oracle_contract input); [done|]. cbn [is_empty orb].
  unfold is_dir_at at 1. rewrite Ht. cbn [negb]. rewrite (Hdig _ _ _ _ Ht Hd), String.eqb_refl. cbn [negb].
  unfold copy_target. rewrite Hf, Ht, Htmp, Hc. cbn [negb]. unfold replay_copy.
  rewrite (Hdig _ ces _ (expected_tree_digest r)); [|by rewrite lookup_insert_eq|].
  2: { by eapply (copy_digest is_pycache); eauto using pycache_lossless. }
  rewrite String.eqb_refl. cbn [negb]. rewrite Hrun, (Hdig _ _ _ _ Heff Hd), String.eqb_refl.
  cbn [negb snd judge]. by rewrite Hm.
Qed.

(** The program found as the verifier is this program. *)
Definition genuine (p : Spawn) (h : Host) : Prop :=
  ∀ bin payload ts, p_child p bin payload ts =
    let '(ts', (code, out)) := run_verifier_child_main h (Some payload) true ts in
    (ts', (code, out, "")).

Lemma subprocess_genuine `{!Store.JsonTextLaws VerifierInput, !Store.JsonTextLaws VerifierProcessResult}
    p h input ts ts' res :
  genuine p h → verify_in_subprocess p input ts = (ts', Ok res) →
  reproduce_and_adjudicate h input ts = (ts', res).
Proof.
  intros Hg. unfold verify_in_subprocess. destruct (replay input); [|done].
  destruct (resolve_verifier_bin _) as [bin|]; [|done]. destruct (p_spawn p); [|done].
  destruct (Store.to_text input) as [payload|] eqn:Hp; [|done]. destruct (p_stdin_fault p) as [[]|]; [done|].
  rewrite Hg. unfold run_verifier_child_main. rewrite (Store.from_to_text _ _ Hp).
  destruct (reproduce_and_adjudicate h input ts) as [ts1 r1].
  destruct (Store.to_text r1) as [bytes|] eqn:Hb; unfold wait_with_output_deadline;
    intros [= <- (? & _ & Hw)%bind_Ok]; apply bind_Ok in Hw as (? & _ & Hw); cbn in Hw; [|done].
  rewrite (Store.from_to_text _ _ Hb) in Hw. by injection Hw as ->.
Qed.

End Process.

End Verifier.
