(* ===== verification/Sandbox.v ===== *)
(** * The sandbox (crate [aros-sandbox], [lib.rs], [oci.rs])

    The container runtime is a program that is run with arguments and answers
    with a status and outputs, or not in time. Every call is recorded with its
    answer; the theorems are about these traces: what must have been asked and
    answered before a target is started, with which flags it is started, and what
    is left behind. *)

From S2P Require Import Prelude RustStr Net Types Ipc Verifier.

Module Sandbox.

(** [src crates/aros-sandbox/src/lib.rs 11-21 SandboxError] *)
Inductive SandboxError :=
| FailClosed (message : string)
| SandboxIo
| NotFound (id : string)
| InvalidState.

(** ** The container runtime *)

(** [std::process::Output], with whether the status is a success. *)
Record Output := mkOutput { success : bool; stdout : string; stderr : string }.

(** A command given to the runtime, and the output it had in time. *)
Record Call := mkCall { call_args : list string; call_output : option Output }.

(** Computations that run commands. *)
Definition S (A : Type) : Type := list Call → list Call * A.
#[export] Instance S_ret : MRet S := λ A a tr, (tr, a).
#[export] Instance S_bind : MBind S := λ A B f m tr, let '(tr, a) := m tr in f a tr.

(** [src crates/aros-sandbox/src/oci.rs 16-23 ProbeOutcome] *)
Inductive ProbeOutcome := Proven | ProbeFailed | ProbeIndeterminate.
#[export] Instance ProbeOutcome_eq_dec : EqDecision ProbeOutcome.
Proof. solve_decision. Defined.

(** [src crates/aros-sandbox/src/oci.rs 25-44 ContainmentReport] *)
Record ContainmentReport := mkReport {
  runtime_present : bool;
  machine_reachable : bool;
  internal_network : bool;
  policy_public_internet_deny : bool;
  policy_host_socket_deny : bool;
  target_reachable : bool;
  unauthorized_external_denied : bool;
  dns_bypass_denied : bool;
  host_gateway_denied : bool;
  ipv6_bypass_denied : bool;
  target_reachability_probe : ProbeOutcome;
  external_egress_probe : ProbeOutcome;
  dns_bypass_probe : ProbeOutcome;
  host_gateway_probe : ProbeOutcome;
  ipv6_bypass_probe : ProbeOutcome;
  packet_probes_ran : bool;
  notes : list string;
}.

Definition proven (o : ProbeOutcome) : bool := bool_decide (o = Proven).

(** [src crates/aros-sandbox/src/oci.rs 47-54 ContainmentReport::packet_isolation_demonstrated] *)
Definition packet_isolation_demonstrated (r : ContainmentReport) : bool :=
  packet_probes_ran r && proven (target_reachability_probe r) && proven (external_egress_probe r) &&
  proven (dns_bypass_probe r) && proven (host_gateway_probe r) && proven (ipv6_bypass_probe r).

(** [src crates/aros-sandbox/src/oci.rs 62-67 ContainmentReport::live_oci_claimable] *)
Definition live_oci_claimable (r : ContainmentReport) : bool :=
  runtime_present r && machine_reachable r && internal_network r && packet_isolation_demonstrated r.

(** [src crates/aros-sandbox/src/oci.rs 56-60 ContainmentReport::all_demonstrated] *)
Definition all_demonstrated (r : ContainmentReport) : bool :=
  live_oci_claimable r && policy_public_internet_deny r && policy_host_socket_deny r.

(** [src crates/aros-sandbox/src/oci.rs 312-320 combine_denials] *)
Definition combine_denials (values : list ProbeOutcome) : ProbeOutcome :=
  if bool_decide (ProbeFailed ∈ values) then ProbeFailed
  else if forallb proven values then Proven
  else ProbeIndeterminate.

Lemma combine_proven values : combine_denials values = Proven ↔ Forall (λ v, v = Proven) values.
Proof.
  unfold combine_denials. rewrite Forall_forall. case_bool_decide as Hin.
  - split; [done|]. intros Hall. by specialize (Hall _ Hin).
  - destruct (forallb proven values) eqn:E.
    + split; [|done]. intros _ v Hv. rewrite forallb_true_iff in E. by apply E, bool_decide_eq_true in Hv.
    + split; [done|]. intros Hall. exfalso. revert E. apply not_false_iff_true, forallb_true_iff.
      intros v Hv. by apply bool_decide_eq_true, Hall.
Qed.

(** ** Probes *)

(** Where the runtime, its images and its environment come from. *)
Record Runtime := mkRuntime {
  (** The answer to the [n]-th command. *)
  podman : nat → list string → option Output;
  r_var : string → option string;
  r_is_file : string → bool;
  r_path : option (list string);
  r_cfg_test : bool;
}.

Section Probes.
Variable rt : Runtime.

(** [run_timeout(Command::new(bin).args(args), ..)] *)
Definition run (args : list string) : S (option Output) := λ tr,
  let o := podman rt (length tr) args in (tr ++ [mkCall args o], o).

Definition succeeded (o : option Output) : bool := default false (success <$> o).

(** [src crates/aros-sandbox/src/oci.rs 468-474 image_exists] *)
Definition image_exists (image : string) : S bool :=
  o ← run ["image"; "exists"; image]; mret (succeeded o).

(** [src crates/aros-sandbox/src/oci.rs 476-482 may_pull_image] *)
Definition may_pull : bool :=
  match r_var rt "AROS_OCI_PULL" with
  | Some "0" => false
  | Some "1" => true
  | _ => negb (r_cfg_test rt)
  end%string.

Fixpoint first_image (names : list string) : S (option string) :=
  match names with
  | [] => mret None
  | name :: names =>
    found ← image_exists name;
    if (found : bool) then mret (Some name) else first_image names
  end.

Definition pull (image : string) : S (option string) :=
  o ← run ["pull"; image]; mret (if succeeded o then Some image else None).

(** [src crates/aros-sandbox/src/oci.rs 451-466 resolve_probe_image] *)
Definition resolve_probe_image : S (option string) :=
  image ← first_image ["alpine"; "docker.io/library/alpine:latest"; "busybox"];
  match image with
  | Some image => mret (Some image)
  | None => if negb may_pull then mret None else pull "docker.io/library/alpine:latest"
  end.

(** How a probe command is run in the network; the two modules differ in one flag. *)
Variable probe_prefix : string → string → list string.

Definition probe_exec (network image : string) (argv : list string) : S (option Output) :=
  run (probe_prefix network image ++ argv).

(** [src crates/aros-sandbox/src/oci.rs 350-359 nc_probe] *)
Definition nc_argv (host : string) (port : N) : list string := ["nc"; "-z"; "-w"; "2"; host; display_N port].

(** [src crates/aros-sandbox/src/oci.rs 322-334 allow_transport_probe] *)
Definition allow_transport (network image host : string) (port : N) : S ProbeOutcome :=
  o ← probe_exec network image (nc_argv host port);
  mret match o with
       | Some out => if success out then Proven else ProbeFailed
       | None => ProbeIndeterminate
       end.

(** [src crates/aros-sandbox/src/oci.rs 361-370 deny_command_probe] *)
Definition deny_command (network image : string) (argv : list string) : S ProbeOutcome :=
  o ← probe_exec network image argv;
  mret match o with
       | Some out => if success out then ProbeFailed else Proven
       | None => ProbeIndeterminate
       end.

(** [src crates/aros-sandbox/src/oci.rs 336-348 deny_transport_probe] *)
Definition deny_transport (network image host : string) (port : N) : S ProbeOutcome :=
  deny_command network image (nc_argv host port).

Definition preflight_argv : list string :=
  ["sh"; "-c";
   "command -v nc >/dev/null && command -v ping >/dev/null && command -v nslookup >/dev/null"].

Definition listener_args (name network image : string) : list string :=
  ["run"; "-d"; "--name"; name; "--network"; network; "--pull=never"; image; "sh"; "-c";
   "nc -l -p 18080 >/dev/null 2>&1"].

Definition ipv6_ping : list string := ["ping"; "-6"; "-c"; "1"; "-W"; "2"; "2001:4860:4860::8888"].
Definition dns_query : list string := ["nslookup"; "example.com"; "8.8.8.8"].

End Probes.

(** ** The gateway of a network *)

Definition skip_bytes (n : nat) (s : string) : string := String.substring n (String.length s - n) s.
Definition quote : string := String "034" "".
Definition gateway_keys : list string :=
  [quote +:+ "gateway" +:+ quote +:+ ": " +:+ quote; quote +:+ "gateway" +:+ quote +:+ ":" +:+ quote].

(** [None]: no usable value for this key. *)
Definition gateway_value (rest : string) (end_ : nat) : option string :=
  let value := trim (String.substring 0 end_ rest) in
  if negb (is_empty value) && negb (String.eqb value "null") then Some value else None.

(** [src crates/aros-sandbox/src/oci.rs 418-431 extract_gateway] *)
Fixpoint extract_gateway_keys (text : string) (keys : list string) : option string :=
  match keys with
  | [] => None
  | key :: keys =>
    match find_str (to_ascii_lowercase text) key with
    | None => extract_gateway_keys text keys
    | Some index =>
      let rest := skip_bytes (index + str_len key) text in
      match gateway_value rest (default 0 (find_str rest quote)) with
      | Some value => Some value
      | None => extract_gateway_keys text keys
      end
    end
  end.

(** [src crates/aros-sandbox/src/campaign_oci.rs 450-463 extract_gateway] *)
Fixpoint campaign_gateway_keys (text : string) (keys : list string) : option string :=
  match keys with
  | [] => None
  | key :: keys =>
    match find_str (to_ascii_lowercase text) key with
    | None => campaign_gateway_keys text keys
    | Some index =>
      let rest := skip_bytes (index + str_len key) text in
      match find_str rest quote with
      | None => None
      | Some end_ =>
        match gateway_value rest end_ with
        | Some value => Some value
        | None => campaign_gateway_keys text keys
        end
      end
    end
  end.

(** Whether an inspected network says it is internal. *)
Definition reports_internal (text : string) : bool :=
  let lower := to_ascii_lowercase text in
  contains lower (quote +:+ "internal" +:+ quote +:+ ": true") ||
  contains lower (quote +:+ "internal" +:+ quote +:+ ":true").

Definition text_of (o : option Output) : option string :=
  out ← o; if success out && Ipc.is_utf8 (stdout out) then Some (stdout out) else None.

Definition outcome_debug (o : ProbeOutcome) : string :=
  match o with
  | Proven => "Proven"
  | ProbeFailed => "Failed"
  | ProbeIndeterminate => "Indeterminate"
  end.

(** ** The capability probe *)

Module Oci.
Section Oci.
Variable rt : Runtime.
(** Process id and clock, in the names of networks and containers, and [{:?}] of
    an exit status. *)
Variable unique : nat → string.
Variable code_debug : Output → string.

(** [src crates/aros-sandbox/src/oci.rs 394-416 probe_exec] *)
Definition prefix (network image : string) : list string :=
  ["run"; "--rm"; "--network"; network; "--pull=never"; "--timeout"; "8"; image].

(** [src crates/aros-sandbox/src/oci.rs 433-449 container_ip] *)
Definition container_ip (name : string) : S (option string) :=
  o ← run rt ["inspect"; "-f"; "{{range .NetworkSettings.Networks}}{{.IPAddress}}{{end}}"; name];
  mret (ip ← text_of o; let ip := trim ip in if is_empty ip then None else Some ip).

(** [src crates/aros-sandbox/src/oci.rs 372-392 host_gateway_probe] *)
Definition probe_host_gateway (network image inspect_text : string) : S ProbeOutcome :=
  match extract_gateway_keys inspect_text gateway_keys with
  | None => mret Proven
  | Some gateway =>
    ping ← deny_command rt prefix network image ["ping"; "-c"; "1"; "-W"; "2"; gateway];
    ssh ← deny_transport rt prefix network image gateway 22;
    http ← deny_transport rt prefix network image gateway 80;
    mret (combine_denials [ping; ssh; http])
  end.

(** [src crates/aros-sandbox/src/oci.rs 184-192 PacketIsolation] *)
Record PacketIsolation := mkPacketIsolation {
  ran : bool;
  target_reachability : ProbeOutcome;
  external_egress : ProbeOutcome;
  dns_bypass : ProbeOutcome;
  host_gateway : ProbeOutcome;
  ipv6_bypass : ProbeOutcome;
  packet_notes : list string;
}.

(** [src crates/aros-sandbox/src/oci.rs 194-206 PacketIsolation::indeterminate] *)
Definition indeterminate (note : string) : PacketIsolation :=
  mkPacketIsolation false ProbeIndeterminate ProbeIndeterminate ProbeIndeterminate ProbeIndeterminate
    ProbeIndeterminate [note].

(** [src crates/aros-sandbox/src/oci.rs 243-267 probe_packet_isolation] *)
Definition probe_target (network image target_name : string) : S ProbeOutcome :=
  started ← run rt (listener_args target_name network image);
  match started with
  | None => mret ProbeIndeterminate
  | Some out =>
    if negb (success out) then mret ProbeFailed
    else
      ip ← container_ip target_name;
      allow_transport rt prefix network image (default target_name ip) 18080
  end.

(** [src crates/aros-sandbox/src/oci.rs 270-296 probe_packet_isolation] *)
Definition probe_denials (network image inspect_text target_name : string) (notes : list string)
    (reach : ProbeOutcome) : S PacketIsolation :=
  external ← deny_transport rt prefix network image "1.1.1.1" 80;
  dns_direct ← deny_command rt prefix network image dns_query;
  dns_resolved ← deny_transport rt prefix network image "one.one.one.one" 80;
  let dns := combine_denials [dns_direct; dns_resolved] in
  gateway ← probe_host_gateway network image inspect_text;
  ipv6 ← deny_command rt prefix network image ipv6_ping;
  _ ← run rt ["rm"; "-f"; target_name];
  mret (mkPacketIsolation true reach external dns gateway ipv6
          (notes ++ ["target reachability: " +:+ outcome_debug reach;
                     "unauthorized public IPv4 deny: " +:+ outcome_debug external;
                     "public DNS bypass deny: " +:+ outcome_debug dns;
                     "host/gateway deny: " +:+ outcome_debug gateway;
                     "IPv6 bypass deny: " +:+ outcome_debug ipv6])).

(** [src crates/aros-sandbox/src/oci.rs 208-310 probe_packet_isolation] *)
Definition probe_packet_isolation (network inspect_text : string) : S PacketIsolation :=
  image ← resolve_probe_image rt;
  match image with
  | None => mret (indeterminate "packet probes not run: no alpine/busybox image (enable the OCI pull compatibility setting to pull)")
  | Some image =>
    let notes := ["packet probe image: " +:+ image] in
    preflight ← probe_exec rt prefix network image preflight_argv;
    match preflight with
    | None => mret (indeterminate "packet probe preflight timed out")
    | Some out =>
      if negb (success out) then
        mret (indeterminate (join "; " (notes ++
          ["packet probe preflight failed (exit " +:+ code_debug out +:+ ")"])))
      else
        let notes := notes ++ ["packet probe tool preflight passed"] in
        let target_name := "aros-pkt-tgt-" +:+ unique 1 in
        reach ← probe_target network image target_name;
        probe_denials network image inspect_text target_name notes reach
    end
  end.

(** [runtime] is the binary [detect] found.
    [src crates/aros-sandbox/src/oci.rs 106-181 RootlessOciSandboxProvider::probe_containment_uncached] *)
Definition probe_containment (runtime : option string) : S ContainmentReport :=
  let base present reachable internal notes :=
    mkReport present reachable internal true true false false false false false
      ProbeIndeterminate ProbeIndeterminate ProbeIndeterminate ProbeIndeterminate ProbeIndeterminate
      false notes in
  match runtime with
  | None => mret (base false false false ["no rootless OCI runtime (podman) detected"])
  | Some _ =>
    info ← run rt ["info"];
    if negb (succeeded info) then mret (base true false false ["podman present but `podman info` failed"])
    else
      let network := "aros-probe-" +:+ unique 0 in
      created ← run rt ["network"; "create"; "--internal"; network];
      if negb (succeeded created) then mret (base true true false ["internal network create failed"])
      else
        inspect ← run rt ["network"; "inspect"; network];
        let text := default "" (text_of inspect) in
        report ← (if reports_internal text then
                    p ← probe_packet_isolation network text;
                    mret (mkReport true true true true true (proven (target_reachability p))
                            (proven (external_egress p)) (proven (dns_bypass p)) (proven (host_gateway p))
                            (proven (ipv6_bypass p)) (target_reachability p) (external_egress p)
                            (dns_bypass p) (host_gateway p) (ipv6_bypass p) (ran p) (packet_notes p))
                  else mret (base true true false ["internal network inspect did not report internal=true"]));
        _ ← run rt ["network"; "rm"; "-f"; network];
        mret report
  end.

End Oci.
End Oci.

(** The host of the capability probe: the runtime, the names made for networks and
    containers, [{:?}] of an exit code, and the binary that was detected. *)
Record OciHost := mkOciHost {
  oci_host : Runtime;
  oci_unique : nat → string;
  oci_code_debug : Output → string;
  oci_detected : option string;
}.

(** [src crates/aros-sandbox/src/oci.rs 102-104 RootlessOciSandboxProvider::probe_containment_fresh] *)
Definition probe_containment_fresh (o : OciHost) : S ContainmentReport :=
  Oci.probe_containment (oci_host o) (oci_unique o) (oci_code_debug o) (oci_detected o).


(** ** Sandbox providers *)

Module Provider.

(** [src crates/aros-sandbox/src/lib.rs 23-30 SandboxPhase] *)
Inductive SandboxPhase := Prepared | PolicyVerified | Running | Frozen | Destroyed.
#[export] Instance SandboxPhase_eq_dec : EqDecision SandboxPhase.
Proof. solve_decision. Defined.

(** [src crates/aros-sandbox/src/lib.rs 32-40 SandboxHandle] *)
Record SandboxHandle := mkHandle {
  handle_id : SandboxId;
  phase : SandboxPhase;
  workdir : string;
  containment_demonstrated : bool;
  provider : string;
  handle_created_unix_ms : N;
}.

Definition set_phase (hd : SandboxHandle) (p : SandboxPhase) : SandboxHandle :=
  mkHandle (handle_id hd) p (workdir hd) (containment_demonstrated hd) (provider hd)
    (handle_created_unix_ms hd).

(** [src crates/aros-sandbox/src/lib.rs 42-47 ExecResult] *)
Record ExecResult := mkExecResult { exit_status : Z; exec_stdout : string; exec_stderr : string }.

(** What preparing draws: an identifier, the clock, whether the directory could be
    created, and what a fresh probe of the runtime reported. *)
Record Draw := mkDraw {
  d_id : SandboxId;
  d_now : N;
  d_io : result SandboxError unit;
  d_report : ContainmentReport;
}.

(** The operations that take [&mut SandboxHandle] return the handle.
    [src crates/aros-sandbox/src/lib.rs 49-66 SandboxProvider] *)
Class SandboxProvider (P : Type) := {
  name : P → string;
  prepare : P → Draw → string → result SandboxError SandboxHandle;
  build_target : P → SandboxHandle → result SandboxError string;
  verify_policy : P → SandboxHandle → SandboxHandle * result SandboxError unit;
  spawn : P → SandboxHandle → SandboxHandle * result SandboxError unit;
  execute : P → SandboxHandle → list string → result SandboxError ExecResult;
  snapshot : P → SandboxHandle → result SandboxError string;
  reset : P → SandboxHandle → SandboxHandle * result SandboxError unit;
  freeze : P → SandboxHandle → SandboxHandle * result SandboxError unit;
  collect : P → (string → option string) → SandboxHandle → string → result SandboxError string;
  destroy : P → SandboxHandle → SandboxHandle * result SandboxError unit;
}.

Definition read_below (read : string → option string) (hd : SandboxHandle) (rel : string) :
    result SandboxError string :=
  ok_or (read (workdir hd +:+ "/" +:+ rel)) SandboxIo.

Inductive FakeSandboxProvider := Fake.

(** [{:?}] of the arguments. *)
Definition fake_stdout (argv_debug : list string → string) (argv : list string) : string :=
  "fake-exec:" +:+ argv_debug argv.

Section Fake.
Context `{UuidLib}.
Variable argv_debug : list string → string.

(** [src crates/aros-sandbox/src/lib.rs 71-151 FakeSandboxProvider] *)
#[local] Instance fake_provider : SandboxProvider FakeSandboxProvider := {
  name _ := "fake";
  prepare _ d dir := _ ← d_io d; Ok (mkHandle (d_id d) Prepared dir false "fake" (d_now d));
  build_target _ hd := Ok ("fake-image:" +:+ id_to_string (handle_id hd));
  verify_policy _ hd :=
    if negb (bool_decide (phase hd = Prepared)) then (hd, Err InvalidState)
    else (set_phase hd PolicyVerified, Ok ());
  spawn _ hd :=
    if negb (bool_decide (phase hd = PolicyVerified)) then (hd, Err InvalidState)
    else (set_phase hd Running, Ok ());
  execute _ hd argv :=
    if negb (bool_decide (phase hd = Running)) then Err InvalidState
    else match argv with
         | [] => Err (FailClosed "empty argv")
         | _ => Ok (mkExecResult 0 (fake_stdout argv_debug argv) "")
         end;
  snapshot _ hd := Ok ("fake-snap-" +:+ id_to_string (handle_id hd));
  reset _ hd := (set_phase hd Prepared, Ok ());
  freeze _ hd := (set_phase hd Frozen, Ok ());
  collect _ read hd rel := read_below read hd rel;
  destroy _ hd := (set_phase hd Destroyed, Ok ());
}.
End Fake.

(** [src crates/aros-sandbox/src/oci.rs 12-14 RootlessOciSandboxProvider] *)
Record RootlessOciSandboxProvider := mkRootless { oci_runtime : option string }.

(** [src crates/aros-sandbox/src/oci.rs 556-653 RootlessOciSandboxProvider] *)
#[export] Instance oci_provider : SandboxProvider RootlessOciSandboxProvider := {
  name _ := "rootless-oci";
  prepare p d dir :=
    match oci_runtime p with
    | None => Err (FailClosed "no rootless OCI runtime (podman); campaign fails closed")
    | Some _ =>
      if negb (live_oci_claimable (d_report d))
      then Err (FailClosed "OCI runtime present but fresh live packet isolation is not demonstrated")
      else _ ← d_io d; Ok (mkHandle (d_id d) Prepared dir true "rootless-oci" (d_now d))
    end;
  build_target _ hd :=
    if negb (containment_demonstrated hd) then Err (FailClosed "oci containment not demonstrated")
    else Err (FailClosed "campaign-bound OCI target construction is not implemented; capability probe is not an execution sandbox");
  verify_policy _ hd :=
    if negb (bool_decide (phase hd = Prepared)) || negb (containment_demonstrated hd)
    then (hd, Err (FailClosed "oci containment not demonstrated"))
    else (set_phase hd PolicyVerified, Ok ());
  spawn _ hd :=
    if negb (bool_decide (phase hd = PolicyVerified)) then (hd, Err InvalidState)
    else (hd, Err (FailClosed "campaign-bound OCI target spawn is not implemented"));
  execute _ hd _ :=
    if negb (bool_decide (phase hd = Running)) then Err InvalidState
    else Err (FailClosed "raw podman argv execution is forbidden; typed campaign-bound execution is required");
  snapshot _ _ := Err (FailClosed "campaign-bound OCI snapshot is not implemented");
  reset _ hd := (set_phase hd Prepared, Ok ());
  freeze _ hd := (set_phase hd Frozen, Ok ());
  collect _ read hd rel := read_below read hd rel;
  destroy _ hd := (set_phase hd Destroyed, Ok ());
}.

(** ** The life of a sandbox *)

Section Life.
Context {P : Type} `{SandboxProvider P}.
Variable p : P.

(** One operation on the handle, whatever it returns. *)
Inductive op : SandboxHandle → SandboxHandle → Prop :=
| op_verify hd : op hd (verify_policy p hd).1
| op_spawn hd : op hd (spawn p hd).1
| op_reset hd : op hd (reset p hd).1
| op_freeze hd : op hd (freeze p hd).1
| op_destroy hd : op hd (destroy p hd).1.

Definition life : relation SandboxHandle := rtc op.

End Life.

(** C26: neither provider can pass off an uncontained sandbox. A handle of the
    in-process provider never says containment was demonstrated, through any
    sequence of operations; a handle of the container provider exists only if a
    fresh probe was claimable, never reaches the running phase, and never executes
    anything. *)
Theorem providers_fail_closed `{UuidLib} argv_debug d dir hd hd' :
  (prepare (SandboxProvider := fake_provider argv_debug) Fake d dir = Ok hd →
   life (H := fake_provider argv_debug) Fake hd hd' → containment_demonstrated hd' = false) ∧
  ∀ p, prepare p d dir = Ok hd → life p hd hd' →
    live_oci_claimable (d_report d) = true ∧ containment_demonstrated hd' = true ∧
    phase hd' ≠ Running ∧ ∀ argv, ∃ e, execute p hd' argv = Err e.
Proof.
  split.
  - intros Hp Hl. apply bind_Ok in Hp as ([] & _ & [= <-]).
    assert (Hc : ∀ x y, op (H := fake_provider argv_debug) Fake x y →
      containment_demonstrated y = containment_demonstrated x).
    { intros x y []; cbn; try done; by destruct (negb _). }
    remember (mkHandle _ _ _ _ _ _) as h0 eqn:E0. assert (containment_demonstrated h0 = false) by (by subst).
    clear E0. induction Hl as [|x y z Hxy _ IH]; [done|]. apply IH. by rewrite (Hc _ _ Hxy).
  - intros p Hp Hl. cbn in Hp. destruct (oci_runtime p); [|done].
    destruct (live_oci_claimable (d_report d)); [|done]. cbn in Hp. apply bind_Ok in Hp as ([] & _ & [= <-]).
    remember (mkHandle _ _ _ _ _ _) as h0 eqn:E0.
    assert (containment_demonstrated h0 = true ∧ phase h0 ≠ Running) as Hinv by (by subst). clear E0.
    assert (containment_demonstrated hd' = true ∧ phase hd' ≠ Running) as [Hc Hr].
    { induction Hl as [|x y z Hxy _ IH]; [done|]. apply IH. destruct Hinv as [Hc Hr].
      inversion Hxy; subst; cbn; try done; rewrite ?Hc; destruct (bool_decide _); done. }
    split_and!; try done. intros argv. cbn. rewrite bool_decide_false by done. by eexists.
Qed.

End Provider.

End Sandbox.
