(* ===== verification/CampaignOci.v ===== *)
(** * Campaign-bound containers (crate [aros-sandbox], [campaign_oci.rs])

    The target of a contained campaign runs in a container on an internal
    network. Starting it, probing it, running a generator beside it and stopping
    it are sequences of commands to the runtime, recorded as in [Sandbox]. *)

From S2P Require Import Prelude RustStr Net Types Ipc Verifier Sandbox.
Import Sandbox.

Module CampaignOci.

(** [src crates/aros-sandbox/src/campaign_oci.rs 641-658 find_podman] *)
Definition find_podman (rt : Runtime) : option string :=
  Verifier.or_else
    (path ← r_var rt "AROS_PODMAN"; if r_is_file rt path then Some path else None)
    (dirs ← r_path rt;
     Verifier.find_map (λ dir,
       let plain := dir +:+ "/podman" in let exe := dir +:+ "/podman.exe" in
       if r_is_file rt plain then Some plain else if r_is_file rt exe then Some exe else None) dirs).

Definition TARGET_PORT : N := 18080.

(** [src crates/aros-sandbox/src/campaign_oci.rs 21-32 CampaignOciTarget] *)
Record CampaignOciTarget := mkTarget {
  sandbox_id : SandboxId;
  container_id : string;
  host_port : N;
  containment_report : ContainmentReport;
  runtime : string;
  network_name : string;
  container_name : string;
  stopped : bool;
}.

(** What the host answers besides the runtime. *)
Record Host := mkHost {
  h_runtime : Runtime;
  h_canonicalize : string → option string;
  h_is_file : string → bool;
  (** Fresh sandbox identifiers: of the campaign and of the probe's listener. *)
  h_sandbox_id : SandboxId;
  h_probe_id : string;
  (** The reserved port, and the attempts to connect to it before the deadline. *)
  h_port : option N;
  h_connects : list bool;
  (** [Display] of an exit status. *)
  h_status : Output → string;
}.

Section Campaign.
Context `{U : UuidLib}.
Variable h : Host.
#[local] Abbreviation rt := (h_runtime h).
#[local] Abbreviation run := (run rt).

(** [src crates/aros-sandbox/src/campaign_oci.rs 427-438 probe_exec] *)
Definition prefix (network image : string) : list string :=
  ["run"; "--rm"; "--network"; network; "--pull=never"; image].

(** [src crates/aros-sandbox/src/campaign_oci.rs 381-393 allow_transport] *)
Definition allow_transport := allow_transport rt prefix.
(** [src crates/aros-sandbox/src/campaign_oci.rs 395-407 deny_transport] *)
Definition deny_transport := deny_transport rt prefix.
(** [src crates/aros-sandbox/src/campaign_oci.rs 419-425 deny_command] *)
Definition deny_command := deny_command rt prefix.
(** [src crates/aros-sandbox/src/campaign_oci.rs 465-482 resolve_probe_image] *)
Definition resolve_probe_image := resolve_probe_image rt.

(** [src crates/aros-sandbox/src/campaign_oci.rs 629-632 podman_reachable] *)
Definition podman_reachable : S bool := o ← run ["info"]; mret (succeeded o).

(** [src crates/aros-sandbox/src/campaign_oci.rs 634-639 cleanup] *)
Definition cleanup (container network : string) : S unit :=
  _ ← run ["rm"; "-f"; container]; _ ← run ["network"; "rm"; "-f"; network]; mret ().

(** [src crates/aros-sandbox/src/campaign_oci.rs 245-260 create_internal_network] *)
Definition create_internal_network (network : string) : S (result SandboxError unit) :=
  created ← run ["network"; "create"; "--internal"; network];
  mret match created with
       | Some out =>
         if success out then Ok ()
         else Err (FailClosed ("campaign network create failed: " +:+ from_utf8_lossy (stderr out)))
       | None => Err (FailClosed "campaign network create timed out")
       end.

(** [src crates/aros-sandbox/src/campaign_oci.rs 262-282 inspect_internal_network] *)
Definition inspect_internal_network (network : string) : S (result SandboxError string) :=
  o ← run ["network"; "inspect"; network];
  mret match o with
       | None => Err (FailClosed "campaign network inspect timed out")
       | Some out =>
         if negb (success out) then Err (FailClosed "campaign network inspect failed")
         else if negb (Ipc.is_utf8 (stdout out)) then Err (FailClosed "campaign network inspect was not UTF-8")
         else if negb (reports_internal (stdout out))
         then Err (FailClosed "campaign network is not reported as internal")
         else Ok (stdout out)
       end.

(** [src crates/aros-sandbox/src/campaign_oci.rs 303-326 probe_campaign_network] *)
Definition probe_target (network image target : string) : S ProbeOutcome :=
  started ← run (listener_args target network image);
  match started with
  | Some out => if success out then allow_transport network image target 18080 else mret ProbeFailed
  | None => mret ProbeIndeterminate
  end.

(** [src crates/aros-sandbox/src/campaign_oci.rs 336-347 probe_campaign_network] *)
Definition probe_gateway (network image inspect_text : string) : S ProbeOutcome :=
  match campaign_gateway_keys inspect_text gateway_keys with
  | None => mret Proven
  | Some gateway =>
    ping ← deny_command network image ["ping"; "-c"; "1"; "-W"; "2"; gateway];
    http ← deny_transport network image gateway 80;
    mret (combine_denials [ping; http])
  end.

(** [src crates/aros-sandbox/src/campaign_oci.rs 284-379 probe_campaign_network] *)
Definition probe_campaign_network (network inspect_text : string) :
    S (result SandboxError ContainmentReport) :=
  image ← resolve_probe_image;
  match image with
  | None => mret (Err (FailClosed "alpine/busybox probe image unavailable"))
  | Some image =>
    preflight ← probe_exec rt prefix network image preflight_argv;
    if negb (succeeded preflight)
    then mret (Err (FailClosed "campaign network probe tools are unavailable"))
    else
      let target := "aros-probe-" +:+ h_probe_id h in
      reach ← probe_target network image target;
      external ← deny_transport network image "1.1.1.1" 80;
      dns_direct ← deny_command network image dns_query;
      dns_transport ← deny_transport network image "one.one.one.one" 80;
      let dns := combine_denials [dns_direct; dns_transport] in
      gateway ← probe_gateway network image inspect_text;
      ipv6 ← deny_command network image ipv6_ping;
      _ ← run ["rm"; "-f"; target];
      mret (Ok (mkReport true true true true true (proven reach) (proven external) (proven dns)
                  (proven gateway) (proven ipv6) reach external dns gateway ipv6 true
                  ["campaign-bound network=" +:+ network +:+ "; probe_image=" +:+ image]))
  end.

(** A configured image, or the default; present, or pulled. *)
Definition configured_image (var fallback : string) : string :=
  match r_var rt var with
  | Some value => if is_empty (trim value) then fallback else value
  | None => fallback
  end.
Definition present_or_pulled (image : string) : S (option string) :=
  found ← image_exists rt image;
  if (found : bool) then mret (Some image) else if negb (may_pull rt) then mret None else pull rt image.

(** [src crates/aros-sandbox/src/campaign_oci.rs 593-611 resolve_target_image] *)
Definition resolve_target_image : S (option string) :=
  present_or_pulled (configured_image "AROS_TARGET_CONTAINER_IMAGE" "docker.io/library/python:3.14-alpine").

(** [src crates/aros-sandbox/src/campaign_oci.rs 484-519 resolve_generator_image] *)
Definition resolve_generator_image (exe : string) : S (result SandboxError string) :=
  let base := to_ascii_lowercase (default exe (Ipc.path_file_name exe)) in
  if starts_with base "python" then
    image ← resolve_target_image;
    mret (ok_or image (FailClosed "Python OCI image unavailable for contained generator"))
  else if starts_with base "cargo" || String.eqb base "rustc" then
    image ← present_or_pulled (configured_image "AROS_RUST_CONTAINER_IMAGE" "docker.io/library/rust:1-bookworm");
    mret (ok_or image (FailClosed "Rust OCI image unavailable for contained cargo generator"))
  else mret (Err (FailClosed ("no contained image mapping for generator " +:+ base))).

(** The flags of the target container.
    [src crates/aros-sandbox/src/campaign_oci.rs 98-134 CampaignOciTarget::start_on_created_network] *)
Definition launch_args (root image network container : string) (port : N) : list string :=
  ["run"; "-d"; "--name"; container; "--network"; network; "--pull=never"; "--read-only";
   "--cap-drop=ALL"; "--security-opt"; "no-new-privileges"; "--pids-limit"; "128"; "--memory"; "256m";
   "--cpus"; "1"; "--tmpfs"; "/tmp:rw,noexec,nosuid,size=32m";
   "--publish"; "127.0.0.1:" +:+ display_N port +:+ ":" +:+ display_N TARGET_PORT;
   "--volume"; root +:+ ":/target:ro"; "--workdir"; "/target";
   "--env"; "SECURITY_FIXTURE_BIND=0.0.0.0";
   "--env"; "SECURITY_FIXTURE_PORT=" +:+ display_N TARGET_PORT; image; "python"; "server.py"].

(** [src crates/aros-sandbox/src/campaign_oci.rs 79-174 CampaignOciTarget::start_on_created_network] *)
Definition start_on_created_network (bin root image network container : string) :
    S (result SandboxError CampaignOciTarget) :=
  inspect ← inspect_internal_network network;
  match inspect with
  | Err e => mret (Err e)
  | Ok text =>
    probed ← probe_campaign_network network text;
    match probed with
    | Err e => mret (Err e)
    | Ok report =>
      if negb (live_oci_claimable report)
      then mret (Err (FailClosed "campaign network did not prove all five containment dimensions"))
      else
        match h_port h with
        | None => mret (Err SandboxIo)
        | Some port =>
          started ← run (launch_args root image network container port);
          mret match started with
               | None => Err (FailClosed "contained target launch timed out")
               | Some out =>
                 if negb (success out)
                 then Err (FailClosed ("contained target launch failed: " +:+ from_utf8_lossy (stderr out)))
                 else if negb (Ipc.is_utf8 (stdout out))
                 then Err (FailClosed "Podman container id was not UTF-8")
                 else
                   let id := trim (stdout out) in
                   if is_empty id
                   then Err (FailClosed "Podman did not return a concrete target container id")
                   else if existsb Datatypes.id (h_connects h)
                   then Ok (mkTarget (h_sandbox_id h) id port report bin network container false)
                   else Err (FailClosed "contained target did not become reachable through trusted loopback publication")
               end
        end
    end
  end.

(** [src crates/aros-sandbox/src/campaign_oci.rs 59-61 CampaignOciTarget::start] *)
Definition network_of (id : SandboxId) : string := "aros-campaign-" +:+ id_to_string id.
(** [src crates/aros-sandbox/src/campaign_oci.rs 59-62 CampaignOciTarget::start] *)
Definition container_of (id : SandboxId) : string := "aros-campaign-" +:+ id_to_string id +:+ "-target".

(** [src crates/aros-sandbox/src/campaign_oci.rs 35-77 CampaignOciTarget::start] *)
Definition start (target_root : string) : S (result SandboxError CampaignOciTarget) :=
  match find_podman rt with
  | None => mret (Err (FailClosed "rootless Podman is required for contained target execution"))
  | Some bin =>
    reachable ← podman_reachable;
    if negb (reachable : bool)
    then mret (Err (FailClosed "Podman exists but its rootless machine/runtime is unreachable"))
    else
      match h_canonicalize h target_root with
      | None => mret (Err SandboxIo)
      | Some root =>
        if negb (h_is_file h (root +:+ "/server.py"))
        then mret (Err (FailClosed "contained fixture target must contain server.py"))
        else
          image ← resolve_target_image;
          match image with
          | None => mret (Err (FailClosed "Python OCI target image is unavailable; configure TARGET_CONTAINER_IMAGE or enable OCI_PULL"))
          | Some image =>
            let network := network_of (h_sandbox_id h) in
            let container := container_of (h_sandbox_id h) in
            created ← create_internal_network network;
            match created with
            | Err e => mret (Err e)
            | Ok _ =>
              r ← start_on_created_network bin root image network container;
              match r with
              | Ok t => mret (Ok t)
              | Err e => _ ← cleanup container network; mret (Err e)
              end
            end
          end
      end
  end.

(** [src crates/aros-sandbox/src/campaign_oci.rs 540-576 exec_on_network] *)
Definition exec_args (root image network container : string) (argv : list string) (memory_mb : N)
    (harness : option string) : list string :=
  ["run"; "--rm"; "--name"; container; "--network"; network; "--pull=never"; "--cap-drop=ALL";
   "--security-opt"; "no-new-privileges"; "--pids-limit"; "128"; "--memory";
   display_N memory_mb +:+ "m"; "--cpus"; "1"; "--volume"; root +:+ ":/work:rw"; "--workdir"; "/work";
   "--env"; "AROS_TARGET_ROOT=/work"] ++
  match harness with
  | Some dir => ["--volume"; default dir (h_canonicalize h dir) +:+ ":/aros-harness:ro";
                 "--env"; "AROS_BIND_FILE=/aros-harness/bind.json"]
  | None => []
  end ++ [image] ++ argv.

(** [src crates/aros-sandbox/src/campaign_oci.rs 577-591 exec_on_network] *)
Definition output_text (o : option Output) : result SandboxError string :=
  match o with
  | None => Err (FailClosed "contained generator timed out")
  | Some out =>
    let text := from_utf8_lossy (stdout out) +:+
      if is_empty (stderr out) then "" else String newline (from_utf8_lossy (stderr out)) in
    if negb (success out) && is_empty (trim text)
    then Err (FailClosed ("contained generator exited " +:+ h_status h out))
    else Ok text
  end.

(** [src crates/aros-sandbox/src/campaign_oci.rs 522-591 exec_on_network] *)
Definition exec_on_network (root image network container : string) (argv : list string)
    (memory_mb : N) (harness : option string) : S (result SandboxError string) :=
  inspect ← inspect_internal_network network;
  match inspect with
  | Err e => mret (Err e)
  | Ok text =>
    probed ← probe_campaign_network network text;
    match probed with
    | Err e => mret (Err e)
    | Ok report =>
      if negb (live_oci_claimable report)
      then mret (Err (FailClosed "campaign network did not prove all five containment dimensions"))
      else
        o ← run (exec_args root image network container argv memory_mb harness);
        mret (output_text o)
    end
  end.

(** [src crates/aros-sandbox/src/campaign_oci.rs 189-228 CampaignOciTarget::exec_generator_ex] *)
Definition exec_generator_ex (target_root : string) (argv : list string) (memory_mb : N)
    (harness : option string) : S (result SandboxError string) :=
  match argv with
  | [] => mret (Err (FailClosed "generator argv is empty"))
  | exe :: _ =>
    match find_podman rt with
    | None => mret (Err (FailClosed "rootless Podman is required for contained generator execution"))
    | Some _ =>
      reachable ← podman_reachable;
      if negb (reachable : bool)
      then mret (Err (FailClosed "Podman exists but its rootless machine/runtime is unreachable"))
      else
        match h_canonicalize h target_root with
        | None => mret (Err SandboxIo)
        | Some root =>
          image ← resolve_generator_image exe;
          match image with
          | Err e => mret (Err e)
          | Ok image =>
            let network := "aros-gen-" +:+ id_to_string (h_sandbox_id h) in
            let container := "aros-gen-" +:+ id_to_string (h_sandbox_id h) +:+ "-run" in
            created ← create_internal_network network;
            match created with
            | Err e => mret (Err e)
            | Ok _ =>
              r ← exec_on_network root image network container argv memory_mb harness;
              _ ← cleanup container network;
              mret r
            end
          end
        end
    end
  end.

(** [src crates/aros-sandbox/src/campaign_oci.rs 178-185 CampaignOciTarget::exec_generator] *)
Definition exec_generator (target_root : string) (argv : list string) (memory_mb : N) :
    S (result SandboxError string) := exec_generator_ex target_root argv memory_mb None.

(** [src crates/aros-sandbox/src/campaign_oci.rs 230-236 CampaignOciTarget::stop] *)
Definition stop (t : CampaignOciTarget) : S CampaignOciTarget :=
  if stopped t then mret t
  else
    _ ← cleanup (container_name t) (network_name t);
    mret (mkTarget (sandbox_id t) (container_id t) (host_port t) (containment_report t) (runtime t)
            (network_name t) (container_name t) true).

End Campaign.
(** ** What a campaign container guarantees *)

Section Laws.
Context `{U : UuidLib}.
Variable h : Host.

Lemma sbind {A B} (m : S A) (f : A → S B) tr tr' b :
  (m ≫= f) tr = (tr', b) → ∃ a tr1, m tr = (tr1, a) ∧ f a tr1 = (tr', b).
Proof. unfold mbind, S_bind. destruct (m tr) as [tr1 a]. eauto. Qed.

(** Computations that only add calls, none of them about networks. *)
Definition quiet_call (c : Call) : Prop := head (call_args c) ≠ Some "network".
Definition extends {A} (m : S A) : Prop := ∀ tr, ∃ l, (m tr).1 = tr ++ l ∧ Forall quiet_call l.
Lemma extends_ret {A} (a : A) : extends (mret a).
Proof. intros tr. exists []. by rewrite app_nil_r. Qed.
Lemma extends_run rt args : head args ≠ Some "network" → extends (run rt args).
Proof. intros Ha tr. eexists. split; [reflexivity|]. by repeat constructor. Qed.
Lemma extends_bind {A B} (m : S A) (f : A → S B) : extends m → (∀ a, extends (f a)) → extends (m ≫= f).
Proof.
  intros Hm Hf tr. destruct (Hm tr) as (l & E & Hq). unfold mbind, S_bind. destruct (m tr) as [tr1 a].
  cbn in E. subst. destruct (Hf a (tr ++ l)) as (l' & E' & Hq'). exists (l ++ l').
  rewrite E', app_assoc. split; [done|]. by apply Forall_app.
Qed.
Lemma extends_Ok {A} (m : S A) tr tr' a :
  extends m → m tr = (tr', a) → ∃ l, tr' = tr ++ l ∧ Forall quiet_call l.
Proof. intros Hm E. specialize (Hm tr). by rewrite E in Hm. Qed.

Ltac extends_solve :=
  repeat first [ by apply extends_run | apply extends_bind; [by apply extends_run|intros]
               | apply extends_bind; [|intros] | apply extends_ret | case_match ].

Lemma extends_image : extends (resolve_probe_image h).
Proof. unfold resolve_probe_image, Sandbox.resolve_probe_image, first_image, image_exists, pull. extends_solve. Qed.

Lemma extends_present image : extends (present_or_pulled h image).
Proof. unfold present_or_pulled, image_exists, pull. extends_solve. Qed.

(** A probe command that ran in the network, and how it ended. *)
Definition probed (network image : string) (argv : list string) (ok : bool) (calls : list Call) : Prop :=
  ∃ out, mkCall (prefix network image ++ argv) (Some out) ∈ calls ∧ success out = ok.

Lemma deny_command_Proven network image argv tr tr' :
  deny_command h network image argv tr = (tr', Proven) →
  ∃ l, tr' = tr ++ l ∧ probed network image argv false l.
Proof.
  unfold deny_command, Sandbox.deny_command. intros (o & tr1 & [= <- <-] & E)%sbind. injection E as <- E.
  destruct (podman _ _ _) as [out|]; [|done]. destruct (success out) eqn:Hs; [done|].
  eexists. split; [done|]. exists out. split; [|done]. by apply list_elem_of_singleton.
Qed.

Lemma allow_transport_Proven network image host port tr tr' :
  allow_transport h network image host port tr = (tr', Proven) →
  ∃ l, tr' = tr ++ l ∧ probed network image (nc_argv host port) true l.
Proof.
  unfold allow_transport, Sandbox.allow_transport. intros (o & tr1 & [= <- <-] & E)%sbind. injection E as <- E.
  destruct (podman _ _ _) as [out|]; [|done]. destruct (success out) eqn:Hs; [|done].
  eexists. split; [done|]. exists out. split; [|done]. by apply list_elem_of_singleton.
Qed.

Lemma probed_mono network image argv ok l l' :
  l ⊆ l' → probed network image argv ok l → probed network image argv ok l'.
Proof. intros Hs (out & Hin & Hok). exists out. split; [by apply Hs|done]. Qed.

(** Inclusion in a concatenation. *)
Ltac in_app := intros ? ?; rewrite ?elem_of_app, ?elem_of_cons; tauto.

(** The five dimensions, as commands that were run in this very network. *)
Definition dimensions_proven (network text : string) (calls : list Call) : Prop :=
  ∃ image listener,
    probed network image (nc_argv listener 18080) true calls ∧
    probed network image (nc_argv "1.1.1.1" 80) false calls ∧
    probed network image dns_query false calls ∧
    probed network image (nc_argv "one.one.one.one" 80) false calls ∧
    (∀ gateway, campaign_gateway_keys text gateway_keys = Some gateway →
       probed network image ["ping"; "-c"; "1"; "-W"; "2"; gateway] false calls ∧
       probed network image (nc_argv gateway 80) false calls) ∧
    probed network image ipv6_ping false calls.

Lemma probe_gateway_Proven network image text tr tr' :
  probe_gateway h network image text tr = (tr', Proven) →
  ∃ l, tr' = tr ++ l ∧ ∀ gateway, campaign_gateway_keys text gateway_keys = Some gateway →
    probed network image ["ping"; "-c"; "1"; "-W"; "2"; gateway] false l ∧
    probed network image (nc_argv gateway 80) false l.
Proof.
  unfold probe_gateway. destruct (campaign_gateway_keys _ _) as [gw|].
  2: { intros [= <-]. exists []. by rewrite app_nil_r. }
  intros (p & tr1 & Ep & (w & tr2 & Ew & [= <- Hc])%sbind)%sbind.
  apply combine_proven, Forall_cons in Hc as [-> [-> _]%Forall_cons].
  apply deny_command_Proven in Ep as (l1 & -> & H1). apply deny_command_Proven in Ew as (l2 & -> & H2).
  exists (l1 ++ l2). split; [by rewrite app_assoc|]. intros g [= <-].
  split; [by apply (probed_mono _ _ _ _ l1); set_solver|by apply (probed_mono _ _ _ _ l2); set_solver].
Qed.

Lemma probe_campaign_claimable network text tr tr' report :
  probe_campaign_network h network text tr = (tr', Ok report) → live_oci_claimable report = true →
  ∃ l, tr' = tr ++ l ∧ dimensions_proven network text l.
Proof.
  unfold probe_campaign_network. intros (image & tr0 & E0 & Hr)%sbind Hc.
  apply (extends_Ok _ _ _ _ extends_image) in E0 as (l0 & -> & _). destruct image as [image|]; [|done].
  apply sbind in Hr as (pre & tr1 & [= <- <-] & Hr). destruct (negb _); [done|].
  apply sbind in Hr as (reach & tr2 & Er & Hr). apply sbind in Hr as (ext & tr3 & Ee & Hr).
  apply sbind in Hr as (dns1 & tr4 & Ed1 & Hr). apply sbind in Hr as (dns2 & tr5 & Ed2 & Hr).
  apply sbind in Hr as (gw & tr6 & Eg & Hr). apply sbind in Hr as (v6 & tr7 & E6 & Hr).
  apply sbind in Hr as (rm & tr8 & [= <- <-] & [= <- <-]).
  unfold live_oci_claimable, packet_isolation_demonstrated, proven in Hc. cbn -[bool_decide] in Hc.
  rewrite !andb_true_iff, !bool_decide_eq_true in Hc. destruct Hc as [[[[-> ->] Hdns] ->] ->].
  apply combine_proven, Forall_cons in Hdns as [-> [-> _]%Forall_cons].
  apply deny_command_Proven in Ee as (l3 & -> & H3), Ed1 as (l4 & -> & H4), Ed2 as (l5 & -> & H5),
    E6 as (l7 & -> & H7). apply probe_gateway_Proven in Eg as (l6 & -> & H6).
  unfold probe_target in Er. apply sbind in Er as (started & trs & [= <- <-] & Er).
  destruct (podman _ _ _) as [out|] eqn:Eo; [|done]. destruct (success out); [|done].
  apply allow_transport_Proven in Er as (l2 & -> & H2).
  eexists. rewrite <- !app_assoc. split; [reflexivity|].
  exists image, ("aros-probe-" +:+ h_probe_id h).
  split_and!; try (eapply probed_mono; [|eassumption]; in_app).
  intros g Hg. destruct (H6 g Hg). split; (eapply probed_mono; [|eassumption]; in_app).
Qed.

(** An option is given once, with this value. *)
Definition given (name value : string) (opts : list string) : Prop :=
  ∃ l k, opts = l ++ (name :: value :: k) ∧ (name ∉ l) ∧ (name ∉ k).

(** A command line that starts a target in the background: one name, one network, one
    port, published on the loopback, the target's tree as the one volume, read-only;
    the container's own file system read-only, no capability, nothing privileged. *)
Definition confined_launch (root image network container : string) (port : N) (args : list string) : Prop :=
  ∃ opts, args = ["run"; "-d"] ++ opts ++ [image; "python"; "server.py"] ∧
    given "--name" container opts ∧ given "--network" network opts ∧
    given "--publish" ("127.0.0.1:" +:+ display_N port +:+ ":18080") opts ∧
    given "--volume" (root +:+ ":/target:ro") opts ∧
    "--read-only" ∈ opts ∧ "--cap-drop=ALL" ∈ opts ∧ "no-new-privileges" ∈ opts ∧ "--privileged" ∉ opts.

Lemma not_volume name root :
  String.length name < 11 ∨ name = "--privileged" → name ≠ (root +:+ ":/target:ro").
Proof.
  intros [Hl | ->].
  - intros ->. rewrite slength_app in Hl. cbn in Hl. lia.
  - destruct root as [|a root]; [done|]. intros E. pose proof (f_equal String.length E) as Hl.
    cbn in Hl. rewrite slength_app in Hl. cbn in Hl. destruct root; [discriminate|cbn in Hl; lia].
Qed.

Ltac not_among := rewrite ?not_elem_of_cons; repeat match goal with |- _ ∧ _ => split end;
  first [ apply not_elem_of_nil | discriminate | apply not_volume; first [by right|left; cbn; lia] ].
Ltac given_once n :=
  lazymatch goal with |- given _ _ ?o =>
    exists (take n o), (drop (2 + n) o); split; [reflexivity|split; cbn [take drop Nat.add]; not_among] end.

Lemma launch_args_confined root image id port :
  confined_launch root image (network_of id) (container_of id) port
    (launch_args root image (network_of id) (container_of id) port).
Proof.
  eexists [_; _; _; _; _; _; _; _; _; _; _; _; _; _; _; _; _; _; _; _; _; _; _; _; _; _; _].
  split; [reflexivity|]. split; [given_once 0|]. split; [given_once 2|]. split; [given_once 17|].
  split; [given_once 19|]. split_and!; [set_solver..|]. not_among.
Qed.

(** The network was created internal, says so, and was probed. *)
Definition isolated (network : string) (calls : list Call) : Prop :=
  ∃ created inspected,
    mkCall ["network"; "create"; "--internal"; network] (Some created) ∈ calls ∧ success created = true ∧
    mkCall ["network"; "inspect"; network] (Some inspected) ∈ calls ∧
    reports_internal (stdout inspected) = true ∧
    dimensions_proven network (stdout inspected) calls.

Lemma dimensions_mono network text l l' :
  l ⊆ l' → dimensions_proven network text l → dimensions_proven network text l'.
Proof.
  intros Hs (image & listener & ? & ? & ? & ? & Hg & ?). exists image, listener.
  split_and!; try (by eapply probed_mono). intros g Hgw. destruct (Hg g Hgw). split; by eapply probed_mono.
Qed.

Lemma inspect_Ok network tr tr' text :
  inspect_internal_network h network tr = (tr', Ok text) →
  ∃ out, tr' = tr ++ [mkCall ["network"; "inspect"; network] (Some out)] ∧ stdout out = text ∧
    reports_internal text = true.
Proof.
  unfold inspect_internal_network. intros (o & tr1 & [= <- <-] & E)%sbind. injection E as <- E.
  destruct (podman _ _ _) as [out|]; [|done]. exists out.
  destruct (success out), (Ipc.is_utf8 (stdout out)), (reports_internal (stdout out)) eqn:Hi; try done.
  by injection E as <-.
Qed.

Lemma create_Ok network tr tr' u :
  create_internal_network h network tr = (tr', Ok u) →
  ∃ out, tr' = tr ++ [mkCall ["network"; "create"; "--internal"; network] (Some out)] ∧ success out = true.
Proof.
  unfold create_internal_network. intros (o & tr1 & [= <- <-] & E)%sbind. injection E as <- E.
  destruct (podman _ _ _) as [out|]; [|done]. exists out. by destruct (success out).
Qed.

(** From a created network on: the target is the last thing started, after the
    network was shown isolated. *)
Lemma started_isolated bin root image network container tr0 out0 tr' t :
  success out0 = true →
  start_on_created_network h bin root image network container
    (tr0 ++ [mkCall ["network"; "create"; "--internal"; network] (Some out0)]) = (tr', Ok t) →
  ∃ calls out, tr' = tr0 ++ calls ++ [mkCall (launch_args root image network container (host_port t)) (Some out)] ∧
    success out = true ∧ isolated network calls ∧ live_oci_claimable (containment_report t) = true ∧
    network_name t = network ∧ container_name t = container ∧ stopped t = false ∧ container_id t ≠ "" ∧
    sandbox_id t = h_sandbox_id h.
Proof.
  intros H0. unfold start_on_created_network. intros (i & tr1 & Ei & Hr)%sbind. destruct i as [text|]; [|done].
  apply inspect_Ok in Ei as (out1 & -> & Ht & Hi). apply sbind in Hr as (p & tr2 & Ep & Hr).
  destruct p as [report|]; [|done]. destruct (live_oci_claimable report) eqn:Hc; [|done]. cbn [negb] in Hr.
  apply probe_campaign_claimable in Ep as (l & -> & Hd); [|done]. destruct (h_port h) as [port|]; [|done].
  apply sbind in Hr as (o & tr3 & [= <- <-] & E). injection E as <- E.
  destruct (podman _ _ _) as [out|]; [|done]. destruct (success out) eqn:Hs; [|done].
  destruct (Ipc.is_utf8 _); [|done]. destruct (is_empty (trim (stdout out))) eqn:He; [done|].
  destruct (existsb _ _); [|done]. cbn [negb] in E. injection E as <-.
  exists ([mkCall ["network"; "create"; "--internal"; network] (Some out0)] ++
          [mkCall ["network"; "inspect"; network] (Some out1)] ++ l), out.
  split; [by rewrite <- !app_assoc|]. split_and!; try done.
  - exists out0, out1. rewrite Ht. split_and!; try done; [set_solver..|]. eapply dimensions_mono; [|done]. set_solver.
  - by destruct (trim (stdout out)).
Qed.

(** Trace lemmas for what precedes the network. *)
Lemma extends_reachable : extends (podman_reachable h).
Proof. unfold podman_reachable. extends_solve. Qed.
Lemma extends_target_image : extends (resolve_target_image h).
Proof. apply extends_present. Qed.
Lemma extends_generator_image exe : extends (resolve_generator_image h exe).
Proof.
  unfold resolve_generator_image. cbv zeta. destruct (starts_with _ "python").
  { apply extends_bind; [apply extends_target_image|]. intros. apply extends_ret. }
  destruct (_ || _); [|apply extends_ret]. apply extends_bind; [apply extends_present|]. intros. apply extends_ret.
Qed.

Definition cleaned (container network : string) (calls : list Call) : Prop :=
  call_args <$> calls = [["rm"; "-f"; container]; ["network"; "rm"; "-f"; network]].

Lemma cleanup_Ok container network tr tr' u :
  cleanup h container network tr = (tr', u) → ∃ l, tr' = tr ++ l ∧ cleaned container network l.
Proof.
  unfold cleanup. intros (a & tr1 & [= <- <-] & (b & tr2 & [= <- <-] & [= <- _])%sbind)%sbind.
  eexists. rewrite <- app_assoc. split; [reflexivity|]. done.
Qed.

Lemma start_isolated root tr tr' t :
  start h root tr = (tr', Ok t) →
  ∃ calls root' image out,
    tr' = tr ++ calls ++
      [mkCall (launch_args root' image (network_name t) (container_name t) (host_port t)) (Some out)] ∧
    h_canonicalize h root = Some root' ∧ success out = true ∧ isolated (network_name t) calls ∧
    live_oci_claimable (containment_report t) = true ∧ stopped t = false ∧ container_id t ≠ "" ∧
    sandbox_id t = h_sandbox_id h ∧ network_name t = network_of (sandbox_id t) ∧
    container_name t = container_of (sandbox_id t).
Proof.
  unfold start. destruct (find_podman _) as [bin|]; [|done].
  intros (r & tr1 & (l1 & -> & Hq1)%(extends_Ok _ _ _ _ extends_reachable) & Hr)%sbind. destruct (negb r); [done|].
  destruct (h_canonicalize h root) as [root'|]; [|done]. destruct (negb _); [done|].
  apply sbind in Hr as (image & tr2 & (l2 & -> & Hq2)%(extends_Ok _ _ _ _ extends_target_image) & Hr).
  destruct image as [image|]; [|done]. apply sbind in Hr as (c & tr3 & Ec & Hr). destruct c as [u|]; [|done].
  apply create_Ok in Ec as (out0 & -> & H0). apply sbind in Hr as (res & tr4 & Es & Hr).
  destruct res as [t'|]; [injection Hr as <- <-|by apply sbind in Hr as (? & ? & _ & ?)].
  apply started_isolated in Es as (calls & out & -> & Hs & Hi & Hc & Hn & Hcn & Hst & Hid & Hsid); [|done].
  exists ((l1 ++ l2) ++ calls), root', image, out. rewrite Hn, Hcn. split; [by rewrite <- !app_assoc|].
  split_and!; try done; [|by rewrite Hsid..]. destruct Hi as (o1 & o2 & ? & ? & ? & ? & Hd). exists o1, o2.
  split_and!; try done; [apply elem_of_app; by right..|]. eapply dimensions_mono; [|done]. in_app.
Qed.

(** C20: a campaign target is started in a container only after its very network
    was created internal, reports itself internal, and was seen, by commands run
    inside it, to reach the probe's listener and to be denied the public internet,
    direct and resolved DNS, the gateway and IPv6; the start is the last command,
    read-only, without capabilities, on that network and no other, with the canonical
    target tree as its one volume, read-only, and with one port, published on the
    loopback; its report is claimable; and the names of the container and of the
    network are made of the sandbox's identifier. *)
Theorem contained_target_isolated root tr tr' t :
  start h root tr = (tr', Ok t) →
  ∃ calls root' image out,
    tr' = tr ++ calls ++
      [mkCall (launch_args root' image (network_name t) (container_name t) (host_port t)) (Some out)] ∧
    h_canonicalize h root = Some root' ∧ success out = true ∧ isolated (network_name t) calls ∧
    live_oci_claimable (containment_report t) = true ∧ stopped t = false ∧ container_id t ≠ "" ∧
    sandbox_id t = h_sandbox_id h ∧ network_name t = network_of (sandbox_id t) ∧
    container_name t = container_of (sandbox_id t) ∧
    confined_launch root' image (network_name t) (container_name t) (host_port t)
      (launch_args root' image (network_name t) (container_name t) (host_port t)).
Proof.
  intros (calls & root' & image & out & ? & ? & ? & ? & ? & ? & ? & ? & Hn & Hc)%start_isolated.
  exists calls, root', image, out. split_and!; [done..|]. rewrite Hn, Hc. apply launch_args_confined.
Qed.

(** Starting on a network only adds calls. *)
Definition adds {A} (m : S A) : Prop := ∀ tr, ∃ l, (m tr).1 = tr ++ l.
Lemma adds_ret {A} (a : A) : adds (mret a).
Proof. intros tr. exists []. by rewrite app_nil_r. Qed.
Lemma adds_run rt args : adds (run rt args).
Proof. intros tr. by eexists. Qed.
Lemma adds_bind {A B} (m : S A) (f : A → S B) : adds m → (∀ a, adds (f a)) → adds (m ≫= f).
Proof.
  intros Hm Hf tr. destruct (Hm tr) as [l E]. unfold mbind, S_bind. destruct (m tr) as [tr1 a]. cbn in E. subst.
  destruct (Hf a (tr ++ l)) as [l' E']. exists (l ++ l'). by rewrite E', app_assoc.
Qed.
Lemma start_extends bin root image network container tr tr' r :
  start_on_created_network h bin root image network container tr = (tr', r) → ∃ l, tr' = tr ++ l.
Proof.
  assert (Ha : adds (start_on_created_network h bin root image network container)).
  { unfold start_on_created_network, inspect_internal_network, probe_campaign_network, probe_target,
      probe_gateway, allow_transport, deny_transport, deny_command, resolve_probe_image,
      Sandbox.allow_transport, Sandbox.deny_transport, Sandbox.deny_command, Sandbox.resolve_probe_image,
      first_image, image_exists, pull, probe_exec.
    repeat first [ apply adds_run | apply adds_bind; [apply adds_run|intros] | apply adds_bind; [|intros]
                 | apply adds_ret | case_match ]. }
  intros E. specialize (Ha tr). by rewrite E in Ha.
Qed.

(** Whenever a campaign network was created and the target did not come up,
    the container and the network are removed: the last two commands are the
    removals, so a failed start leaves nothing running. *)
Theorem failed_start_removed root tr tr' e :
  start h root tr = (tr', Err e) →
  let network := network_of (h_sandbox_id h) in
  let container := container_of (h_sandbox_id h) in
  (∃ calls last, tr' = tr ++ calls ++ last ∧ cleaned container network last) ∨
  (∃ calls, tr' = tr ++ calls ∧
     ∀ out, mkCall ["network"; "create"; "--internal"; network] (Some out) ∈ calls → success out = false).
Proof.
  intros Hstart network container.
  assert (Hquiet : ∀ l out, Forall quiet_call l →
    mkCall ["network"; "create"; "--internal"; network] (Some out) ∉ l).
  { intros l out Hl Hin. by apply (proj1 (Forall_forall _ _) Hl _ Hin). }
  revert Hstart. unfold start. destruct (find_podman _) as [bin|].
  2: { intros [= <- _]. right. exists []. rewrite app_nil_r. split; [done|]. set_solver. }
  intros (r & tr1 & (l1 & -> & Hq1)%(extends_Ok _ _ _ _ extends_reachable) & Hr)%sbind.
  assert (Hearly : ∀ l, Forall quiet_call l → tr' = tr ++ l → ∃ calls, tr' = tr ++ calls ∧
    ∀ out, mkCall ["network"; "create"; "--internal"; network] (Some out) ∈ calls → success out = false).
  { intros l Hl ->. exists l. split; [done|]. intros out Hin. by destruct (Hquiet l out Hl). }
  destruct (negb r); [right; injection Hr as <- _; by apply (Hearly l1)|].
  destruct (h_canonicalize h root); [|right; injection Hr as <- _; by apply (Hearly l1)].
  destruct (negb _); [right; injection Hr as <- _; by apply (Hearly l1)|].
  apply sbind in Hr as (image & tr2 & (l2 & -> & Hq2)%(extends_Ok _ _ _ _ extends_target_image) & Hr).
  rewrite <- app_assoc in Hr. assert (Hq : Forall quiet_call (l1 ++ l2)) by (by apply Forall_app).
  destruct image as [image|]; [|right; injection Hr as <- _; by apply (Hearly (l1 ++ l2))].
  apply sbind in Hr as (c & tr3 & Ec & Hr). destruct c as [u|e'].
  - left. apply create_Ok in Ec as (out0 & -> & H0). apply sbind in Hr as (res & tr4 & Es & Hr).
    destruct res as [t'|e']; [done|].
    apply sbind in Hr as (u' & tr5 & (last & -> & Hlast)%cleanup_Ok & [= <- _]).
    apply start_extends in Es as [l3 ->]. 
    exists ((l1 ++ l2) ++ mkCall ["network"; "create"; "--internal"; network] (Some out0) :: l3), last.
    split; [|done].
    by rewrite <- !app_assoc.
  - right. injection Hr as <- _. unfold create_internal_network in Ec.
    apply sbind in Ec as (o & tr4 & [= <- <-] & E). injection E as <- E.
    eexists. rewrite <- app_assoc. split; [reflexivity|]. intros out [Hin|Hin]%elem_of_app.
    { by destruct (Hquiet _ out Hq). }
    apply list_elem_of_singleton in Hin as [= Ho]. rewrite <- Ho in E. by destruct (success out).
Qed.

(** A contained generator runs only in a network that was shown isolated the
    same way, with its arguments after the image so that none of them is an option
    of the runtime, and whatever came of it the container and the network are
    removed afterwards. *)
Theorem contained_generator_isolated root argv memory_mb harness tr tr' text :
  exec_generator_ex h root argv memory_mb harness tr = (tr', Ok text) →
  ∃ calls root' image network container out last,
    tr' = tr ++ calls ++
      [mkCall (exec_args h root' image network container argv memory_mb harness) (Some out)] ++ last ∧
    h_canonicalize h root = Some root' ∧ isolated network calls ∧ cleaned container network last ∧
    output_text h (Some out) = Ok text.
Proof.
  unfold exec_generator_ex. destruct argv as [|exe argv]; [done|]. destruct (find_podman _) as [bin|]; [|done].
  intros (r & tr1 & (l1 & -> & Hq1)%(extends_Ok _ _ _ _ extends_reachable) & Hr)%sbind. destruct (negb r); [done|].
  destruct (h_canonicalize h root) as [root'|]; [|done].
  apply sbind in Hr as (image & tr2 & (l2 & -> & Hq2)%(extends_Ok _ _ _ _ (extends_generator_image exe)) & Hr).
  destruct image as [image|]; [|done]. apply sbind in Hr as (c & tr3 & Ec & Hr). destruct c as [u|]; [|done].
  apply create_Ok in Ec as (out0 & -> & H0). apply sbind in Hr as (res & tr4 & Es & Hr).
  apply sbind in Hr as (u' & tr5 & (last & -> & Hlast)%cleanup_Ok & [= <- ->]).
  unfold exec_on_network in Es. apply sbind in Es as (i & tr6 & Ei & Es). destruct i as [ins|]; [|done].
  apply inspect_Ok in Ei as (out1 & -> & Ht & Hi). apply sbind in Es as (p & tr7 & Ep & Es).
  destruct p as [report|]; [|done]. destruct (live_oci_claimable report) eqn:Hc; [|done]. cbn [negb] in Es.
  apply probe_campaign_claimable in Ep as (l & -> & Hd); [|done].
  apply sbind in Es as (o & tr8 & [= <- <-] & E). injection E as <- E.
  destruct (podman _ _ _) as [out|]; [|done].
  eexists ((l1 ++ l2) ++ _ :: _ :: l), root', image, _, _, out, last. split; [by rewrite <- !app_assoc|].
  split_and!; try done. exists out0, out1. rewrite Ht.
  split_and!; try done; [set_solver..|]. eapply dimensions_mono; [|done]. in_app.
Qed.

End Laws.
End CampaignOci.
