(* ===== verification/Remains.v ===== *)
(** * What commands to the container runtime leave behind

    The containers started in the background and the networks created by a sequence
    of runtime commands whose removal was not asked for afterwards. The capability
    probe, a generator run and a stopped campaign target leave nothing. *)

From S2P Require Import Prelude RustStr Net Types Sandbox CampaignOci.
From stdpp Require Import gmap.
Import Sandbox CampaignOci.

Module Remains.

(** ** Containers and networks *)

Inductive Resource := RContainer (name : string) | RNetwork (name : string).
#[export] Instance Resource_eq_dec : EqDecision Resource.
Proof. solve_decision. Defined.
#[export] Instance Resource_countable : Countable Resource.
Proof.
  apply (inj_countable'
    (λ r, match r with RContainer n => inl n | RNetwork n => inr n end)
    (λ s, match s with inl n => RContainer n | inr n => RNetwork n end)). by intros [].
Defined.

(** The arguments after a command, and the name that comes first in them. *)
Fixpoint after (command args : list string) : option (list string) :=
  match command, args with
  | [], _ => Some args
  | c :: command, a :: args => if String.eqb c a then after command args else None
  | _ :: _, [] => None
  end.
Definition named (command args : list string) : option string := rest ← after command args; head rest.

(** A container is there once it was started in the background, whatever the
    runtime answered; a network once its creation was reported. *)
Definition remains_step (s : gset Resource) (c : Call) : gset Resource :=
  match named ["run"; "-d"; "--name"] (call_args c) with
  | Some name => {[RContainer name]} ∪ s
  | None =>
  match named ["rm"; "-f"] (call_args c) with
  | Some name => s ∖ {[RContainer name]}
  | None =>
  match named ["network"; "create"; "--internal"] (call_args c) with
  | Some name => if succeeded (call_output c) then {[RNetwork name]} ∪ s else s
  | None =>
  match named ["network"; "rm"; "-f"] (call_args c) with
  | Some name => s ∖ {[RNetwork name]}
  | None => s
  end end end end.

Definition remains (calls : list Call) : gset Resource := foldl remains_step ∅ calls.

Lemma remains_snoc calls c : remains (calls ++ [c]) = remains_step (remains calls) c.
Proof. unfold remains. by rewrite foldl_app. Qed.

(** ** Bounds *)

(** From at most [X], the computation leaves at most [Y]. *)
Definition leaves {A} (X : gset Resource) (m : S A) (Y : A → gset Resource) : Prop :=
  ∀ tr, remains tr ⊆ X → remains (m tr).1 ⊆ Y (m tr).2.

(** Commands that neither start nor remove anything. *)
Definition plain (args : list string) : Prop := ∀ s o, remains_step s (mkCall args o) = s.

Lemma leaves_ret {A} (a : A) X Y : X ⊆ Y a → leaves X (mret a) Y.
Proof. intros HY tr HX. by etrans. Qed.
Lemma leaves_weaken {A} X (m : S A) Y Y' : leaves X m Y → (∀ a, Y a ⊆ Y' a) → leaves X m Y'.
Proof. intros Hm Hs tr HX. etrans; [by apply Hm|apply Hs]. Qed.
Lemma leaves_bind {A B} X (m : S A) Y (f : A → S B) Z :
  leaves X m Y → (∀ a, leaves (Y a) (f a) Z) → leaves X (m ≫= f) Z.
Proof.
  intros Hm Hf tr HX. unfold mbind, S_bind. specialize (Hm tr HX). destruct (m tr) as [tr1 a]. by apply Hf.
Qed.
(** A step that leaves nothing new, and goes on. *)
Lemma leaves_keep {A B} X (m : S A) (f : A → S B) Z :
  leaves X m (λ _, X) → (∀ a, leaves X (f a) Z) → leaves X (m ≫= f) Z.
Proof. by apply leaves_bind. Qed.
Lemma leaves_run rt args X Y :
  (∀ s o, s ⊆ X → remains_step s (mkCall args o) ⊆ Y) → leaves X (run rt args) (λ _, Y).
Proof. intros Hs tr HX. unfold run. cbn. rewrite remains_snoc. by apply Hs. Qed.
Lemma leaves_plain rt args X : plain args → leaves X (run rt args) (λ _, X).
Proof. intros Hp. apply leaves_run. intros s o. by rewrite Hp. Qed.

Lemma leaves_start rt name rest X :
  leaves X (run rt ("run" :: "-d" :: "--name" :: name :: rest)) (λ _, {[RContainer name]} ∪ X).
Proof. apply leaves_run. intros s o Hs. cbn. set_solver. Qed.
Lemma leaves_rm rt name X :
  leaves ({[RContainer name]} ∪ X) (run rt ["rm"; "-f"; name]) (λ _, X).
Proof. apply leaves_run. intros s o Hs. cbn. set_solver. Qed.
Lemma leaves_network_rm rt name X :
  leaves ({[RNetwork name]} ∪ X) (run rt ["network"; "rm"; "-f"; name]) (λ _, X).
Proof. apply leaves_run. intros s o Hs. cbn. set_solver. Qed.
(** A creation that was not reported leaves nothing. *)
Lemma leaves_create rt name X :
  leaves X (run rt ["network"; "create"; "--internal"; name])
    (λ o, if succeeded o then {[RNetwork name]} ∪ X else X).
Proof.
  intros tr HX. unfold run. cbn [fst snd]. rewrite remains_snoc. generalize (podman rt (length tr)
    ["network"; "create"; "--internal"; name]). intros o. unfold remains_step. cbn -[succeeded].
  destruct (succeeded o); set_solver.
Qed.

Create HintDb leaves discriminated.
#[export] Hint Extern 1 (leaves _ (run _ _) _) => (apply leaves_plain; intros ? ?; reflexivity) : leaves.
#[export] Hint Extern 1 (leaves _ (mret _) _) => (apply leaves_ret; reflexivity) : leaves.

(** Walk through a computation none of whose commands start or remove anything. *)
Ltac keeps :=
  repeat match goal with
  | |- ∀ _, _ => intros
  | |- leaves _ (_ ≫= _) _ => apply leaves_keep
  | |- leaves _ (match ?x with _ => _ end) _ => destruct x eqn:?
  | |- leaves _ (let _ := _ in _) _ => cbv zeta
  | |- leaves _ _ _ => solve [auto with leaves]
  end.

(** ** The probes *)

Section Probe.
Variable rt : Runtime.

Lemma leaves_probe_image X : leaves X (Sandbox.resolve_probe_image rt) (λ _, X).
Proof. unfold Sandbox.resolve_probe_image, first_image, image_exists, pull. keeps. Qed.

Section Prefix.
Variable prefix : string → string → list string.
Hypothesis plain_prefix : ∀ network image argv, plain (prefix network image ++ argv).

Lemma leaves_exec network image argv X : leaves X (probe_exec rt prefix network image argv) (λ _, X).
Proof. apply leaves_plain, plain_prefix. Qed.
#[local] Hint Resolve leaves_exec : leaves.
Lemma leaves_allow network image host port X :
  leaves X (Sandbox.allow_transport rt prefix network image host port) (λ _, X).
Proof. unfold Sandbox.allow_transport. keeps. Qed.
Lemma leaves_deny network image argv X :
  leaves X (Sandbox.deny_command rt prefix network image argv) (λ _, X).
Proof. unfold Sandbox.deny_command. keeps. Qed.
Lemma leaves_deny_transport network image host port X :
  leaves X (Sandbox.deny_transport rt prefix network image host port) (λ _, X).
Proof. apply leaves_deny. Qed.

End Prefix.

Lemma leaves_listener name network image X :
  leaves X (run rt (listener_args name network image)) (λ _, {[RContainer name]} ∪ X).
Proof. apply leaves_start. Qed.

End Probe.
#[export] Hint Resolve leaves_probe_image leaves_exec leaves_allow leaves_deny leaves_deny_transport : leaves.

Section Capability.
Variable o : OciHost.
#[local] Abbreviation rt := (oci_host o).

Lemma plain_oci network image argv : plain (Oci.prefix network image ++ argv).
Proof. by intros s out. Qed.
#[local] Hint Resolve plain_oci : leaves.

(** The listener is removed after the probes. *)
Lemma leaves_denials network image text name notes reach X :
  leaves ({[RContainer name]} ∪ X) (Oci.probe_denials rt network image text name notes reach) (λ _, X).
Proof.
  unfold Oci.probe_denials, Oci.probe_host_gateway.
  repeat (apply leaves_keep; [by keeps|intros ?]).
  eapply leaves_bind; [apply leaves_rm|]. keeps.
Qed.
Lemma leaves_isolation network text X :
  leaves X (Oci.probe_packet_isolation rt (oci_unique o) (oci_code_debug o) network text) (λ _, X).
Proof.
  unfold Oci.probe_packet_isolation. apply leaves_keep; [keeps|]. intros [image|]; [|keeps]. cbv zeta.
  apply leaves_keep; [keeps|]. intros [out|]; [|keeps]. destruct (negb _); [keeps|].
  eapply leaves_bind; [|intros reach; apply leaves_denials].
  unfold Oci.probe_target. eapply leaves_bind; [apply leaves_listener|]. unfold Oci.container_ip. keeps.
Qed.

(** The capability probe removes its listener and its network. *)
Lemma probe_leaves X : leaves X (probe_containment_fresh o) (λ _, X).
Proof.
  unfold probe_containment_fresh, Oci.probe_containment. cbv zeta. destruct (oci_detected o); [|keeps].
  apply leaves_keep; [keeps|]. intros info. destruct (negb _); [keeps|].
  eapply leaves_bind; [apply leaves_create|]. intros created. cbv beta. destruct (succeeded created); cbn [negb]; [|keeps].
  apply leaves_keep; [keeps|]. intros inspect.
  apply (leaves_bind _ _ (λ _, {[RNetwork ("aros-probe-" +:+ oci_unique o 0)]} ∪ X)).
  2: { intros report. eapply leaves_bind; [apply leaves_network_rm|keeps]. }
  destruct (reports_internal _); [|keeps]. apply leaves_keep; [apply leaves_isolation|keeps].
Qed.

End Capability.

(** ** Campaign containers *)

Section Campaign.
Context `{U : UuidLib}.
Variable h : Host.
#[local] Abbreviation rt := (h_runtime h).

Lemma plain_campaign network image argv : plain (CampaignOci.prefix network image ++ argv).
Proof. by intros s out. Qed.
#[local] Hint Resolve plain_campaign : leaves.

Lemma leaves_campaign_probe network text X :
  leaves X (probe_campaign_network h network text) (λ _, X).
Proof.
  unfold probe_campaign_network. apply leaves_keep; [apply leaves_probe_image|]. intros [image|]; [|keeps].
  apply leaves_keep; [keeps|]. intros pre. destruct (negb _); [keeps|]. cbv zeta.
  eapply (leaves_bind _ _ (λ _, {[RContainer ("aros-probe-" +:+ h_probe_id h)]} ∪ X)).
  { unfold CampaignOci.probe_target. eapply leaves_bind; [apply leaves_listener|].
    unfold CampaignOci.allow_transport. keeps. }
  unfold CampaignOci.deny_transport, CampaignOci.deny_command, CampaignOci.probe_gateway,
    CampaignOci.deny_transport, CampaignOci.deny_command.
  intros reach. do 5 (apply leaves_keep; [by keeps|intros ?]).
  eapply leaves_bind; [apply leaves_rm|]. keeps.
Qed.

Lemma leaves_inspect network X : leaves X (inspect_internal_network h network) (λ _, X).
Proof. unfold inspect_internal_network. keeps. Qed.
Lemma leaves_reachable X : leaves X (podman_reachable h) (λ _, X).
Proof. unfold podman_reachable. keeps. Qed.
Lemma leaves_present image X : leaves X (present_or_pulled h image) (λ _, X).
Proof. unfold present_or_pulled, image_exists, pull. keeps. Qed.
#[local] Hint Resolve leaves_campaign_probe leaves_inspect leaves_reachable leaves_present : leaves.
Lemma leaves_generator_image exe X : leaves X (resolve_generator_image h exe) (λ _, X).
Proof. unfold resolve_generator_image, resolve_target_image. keeps. Qed.
#[local] Hint Resolve leaves_generator_image : leaves.
Lemma leaves_create_network network X :
  leaves X (create_internal_network h network) (λ r, match r with Ok _ => {[RNetwork network]} ∪ X | Err _ => X end).
Proof.
  unfold create_internal_network. eapply leaves_bind; [apply leaves_create|]. intros o tr HX.
  destruct o as [out|]; cbn in *; [|done]. by destruct (success out).
Qed.
Lemma leaves_cleanup container network X :
  leaves ({[RContainer container; RNetwork network]} ∪ X) (cleanup h container network) (λ _, X).
Proof.
  unfold cleanup. eapply (leaves_bind _ _ (λ _, {[RNetwork network]} ∪ X)).
  { rewrite <- (assoc_L (∪)). apply leaves_rm. }
  intros _. eapply leaves_bind; [apply leaves_network_rm|]. keeps.
Qed.

(** A start that fails leaves nothing; one that succeeds at most the container and
    the network that are named after the sandbox. *)
Lemma start_leaves root X :
  let left := {[RContainer (container_of (h_sandbox_id h)); RNetwork (network_of (h_sandbox_id h))]} ∪ X in
  leaves X (start h root) (λ r, if is_ok r then left else X).
Proof.
  intros left. unfold start. destruct (find_podman _) as [bin|]; [|keeps].
  apply leaves_keep; [keeps|]. intros r. destruct (negb r); [keeps|].
  destruct (h_canonicalize h root) as [root'|]; [|keeps]. destruct (negb _); [keeps|].
  apply leaves_keep; [apply leaves_present|]. intros [image|]; [|keeps]. cbv zeta.
  eapply leaves_bind; [apply leaves_create_network|]. intros [u|e]; [|keeps].
  apply (leaves_bind _ _ (λ _, left)).
  - unfold start_on_created_network. apply leaves_bind with (λ _, {[RNetwork (network_of (h_sandbox_id h))]} ∪ X);
      [apply leaves_inspect|].
    assert (Hup : ∀ A (a : A), leaves ({[RNetwork (network_of (h_sandbox_id h))]} ∪ X) (mret a) (λ _, left)).
    { intros A a. apply leaves_ret. set_solver. }
    intros [text|]; [|apply Hup]. apply leaves_keep; [apply leaves_campaign_probe|].
    intros [report|]; [|apply Hup].
    destruct (negb (live_oci_claimable report)); [apply Hup|].
    destruct (h_port h) as [port|]; [|apply Hup].
    eapply leaves_bind; [apply leaves_start|]. intros out. apply leaves_ret. set_solver.
  - intros [t|e]; [keeps|]. eapply leaves_bind; [apply leaves_cleanup|]. keeps.
Qed.

Lemma stop_leaves t X :
  stopped t = false →
  leaves ({[RContainer (container_name t); RNetwork (network_name t)]} ∪ X) (stop h t) (λ _, X).
Proof.
  intros Hs. unfold stop. rewrite Hs. eapply leaves_bind; [apply leaves_cleanup|]. keeps.
Qed.

(** A contained generator leaves nothing: its own container goes with it, and the
    network is removed whatever came of the run. *)
Theorem generator_leaves root argv memory_mb harness X :
  leaves X (exec_generator_ex h root argv memory_mb harness) (λ _, X).
Proof.
  unfold exec_generator_ex. destruct argv as [|exe argv]; [keeps|]. destruct (find_podman _) as [bin|]; [|keeps].
  apply leaves_keep; [keeps|]. intros r. destruct (negb r); [keeps|].
  destruct (h_canonicalize h root) as [root'|]; [|keeps].
  apply leaves_keep; [keeps|]. intros [image|]; [|keeps]. cbv zeta.
  eapply leaves_bind; [apply leaves_create_network|]. intros [u|e]; [|keeps].
  apply leaves_keep.
  - unfold exec_on_network. apply leaves_keep; [keeps|]. intros [text|]; [|keeps].
    apply leaves_keep; [keeps|]. intros [report|]; [|keeps]. keeps.
  - intros out. apply (leaves_bind _ _ (λ _, X)); [|keeps].
    intros tr HX. refine (leaves_cleanup _ _ X tr _). set_solver.
Qed.

End Campaign.
End Remains.
