(* ===== verification/Declared.v ===== *)
(** * Declared campaigns: oracles, evidence levels and generators
      (crate [aros-core], [campaign_loader.rs])

    The decisions a declared campaign is made of: judging a generator's output,
    admitting a generator command, reading a shrink proof, deriving variants,
    and turning measurements into an evidence level and a final state. *)

From S2P Require Import Prelude RustStr Net Json Types PathScope Spec Claims.
Import PathScope.Shell Spec Claims.

Module Declared.

(** [src crates/aros-core/src/campaign_loader.rs 27-32 OracleJudgement] *)
Inductive OracleJudgement := AttackSucceeded | InvariantHolds | Indeterminate.

#[global] Instance OracleJudgement_eq_dec : EqDecision OracleJudgement.
Proof. solve_decision. Defined.

Definition judgement_debug (j : OracleJudgement) : string :=
  match j with
  | AttackSucceeded => "AttackSucceeded"
  | InvariantHolds => "InvariantHolds"
  | Indeterminate => "Indeterminate"
  end.

(** [src crates/aros-core/src/campaign_loader.rs 1516-1523 negative_control_token] *)
Definition negative_control_token (control : string) : string :=
  if contains control "OPEN_OK" then "OPEN_OK"
  else if contains control "BOUNDED_OK" then "BOUNDED_OK"
  else "".

(** [src crates/aros-core/src/campaign_loader.rs 39-69 evaluate_oracle] *)
Definition evaluate_oracle (stdout : string) (oracle : CampaignOracle) : OracleJudgement :=
  let control_missing :=
    match negative_control oracle with
    | Some control =>
      let token := negative_control_token control in
      negb (is_empty token) && negb (contains stdout token)
    | None => false
    end in
  if control_missing then Indeterminate
  else
    match decides oracle with
    | StdoutContains =>
      match match_ oracle with
      | None => Indeterminate
      | Some needle => if contains stdout needle then AttackSucceeded else InvariantHolds
      end
    | StdoutNotContains =>
      match match_ oracle with
      | None => Indeterminate
      | Some needle => if contains stdout needle then InvariantHolds else AttackSucceeded
      end
    | _ => Indeterminate
    end.

(** ** Evidence levels *)

(** [src crates/aros-core/src/campaign_loader.rs 511-523 parse_level] *)
Definition parse_level (label : string) : option EvidenceLevel :=
  if String.eqb label "E0" then Some E0HypothesisOnly
  else if String.eqb label "E1" then Some E1StaticSupport
  else if String.eqb label "E2" then Some E2DynamicAnomaly
  else if String.eqb label "E3" then Some E3InvariantViolation
  else if String.eqb label "E4" then Some E4IndependentReproduction
  else if String.eqb label "E5" then Some E5MinimizedReproduction
  else if String.eqb label "E6" then Some E6CounterfactualDifferential
  else if String.eqb label "E7" then Some E7VariantReattackAndRegression
  else None.

(** The closure of [evidence_satisfies_required] on one label.
    [src crates/aros-core/src/campaign_loader.rs 532-547 evidence_satisfies_required] *)
Definition label_satisfied (achieved : EvidenceLevel) (independent twin_holds : bool)
    (label : string) : bool :=
  match parse_level label with
  | None => false
  | Some required =>
    match required with
    | E4IndependentReproduction => independent
    | E6CounterfactualDifferential => twin_holds && independent
    | E7VariantReattackAndRegression => bool_decide (achieved = E7VariantReattackAndRegression)
    | E5MinimizedReproduction => bool_decide (achieved = E5MinimizedReproduction)
    | _ => level_ge achieved required
    end
  end.

(** [src crates/aros-core/src/campaign_loader.rs 526-548 evidence_satisfies_required] *)
Definition evidence_satisfies_required (spec : CampaignSpec) (achieved : EvidenceLevel)
    (independent twin_holds : bool) : bool :=
  forallb (label_satisfied achieved independent twin_holds) (required_evidence spec).

(** What the run measured. *)
Record Measured := mkMeasured {
  judgement : OracleJudgement;
  e7_ok : bool;
  twin_holds : bool;
  independent : bool;
  shrink_ok : bool;
}.

(** [src crates/aros-core/src/campaign_loader.rs 336-350 CampaignEngine::run_declared_campaign] *)
Definition raw_level (m : Measured) : EvidenceLevel :=
  match judgement m with
  | AttackSucceeded =>
    if e7_ok m then E7VariantReattackAndRegression
    else if twin_holds m && independent m then E6CounterfactualDifferential
    else if shrink_ok m then E5MinimizedReproduction
    else if independent m then E4IndependentReproduction
    else E3InvariantViolation
  | InvariantHolds => E2DynamicAnomaly
  | Indeterminate => E0HypothesisOnly
  end.

(** [src crates/aros-core/src/campaign_loader.rs 351-360 CampaignEngine::run_declared_campaign] *)
Definition conclude (spec : CampaignSpec) (m : Measured) : CampaignState * bool * bool :=
  let level := raw_level m in
  let required_met := evidence_satisfies_required spec level (independent m) (twin_holds m) in
  let '(state, verified) :=
    if negb required_met then (CsInsufficientEvidence, false)
    else if bool_decide (level = E7VariantReattackAndRegression) then (RegressionProtected, true)
    else if bool_decide (judgement m = AttackSucceeded) then (CsVerified, true)
    else (CsRefuted, false) in
  (state, verified, required_met).

(** ** Shrink proofs *)

(** [src crates/aros-core/src/campaign_loader.rs 837-842 ShrinkProof] *)
Record ShrinkProof := mkShrinkProof { before : N; after : N; hex : string }.

(** [u8::from_str_radix(pair, 16)]: a leading plus sign is accepted. *)
Definition hex_pair (a b : ascii) : option ascii :=
  if Ascii.eqb a "+" then ascii_of_N <$> to_digit 16 b
  else x ← to_digit 16 a; y ← to_digit 16 b; Some (ascii_of_N (x * 16 + y)).

(** The loop over the pairs of an even-length string. *)
Fixpoint hex_pairs (s : string) : option string :=
  match s with
  | EmptyString => Some ""
  | String a (String b s) => c ← hex_pair a b; rest ← hex_pairs s; Some (String c rest)
  | String _ EmptyString => None
  end.

(** [src crates/aros-core/src/campaign_loader.rs 850-864 decode_hex] *)
Definition decode_hex (raw : string) : option string :=
  let raw := trim raw in
  if is_empty raw || negb (Nat.even (str_len raw)) then None else hex_pairs raw.

(** [src crates/aros-core/src/campaign_loader.rs 844-848 ShrinkProof::bytes] *)
Definition proof_bytes (p : ShrinkProof) : option string := decode_hex (hex p).

(** The loop over the lines; [usize] is 64 bits wide.
    [src crates/aros-core/src/campaign_loader.rs 870-879 parse_shrink] *)
Fixpoint shrink_lines (ls : list string) (before after : option N) (hex : option string) :
    option N * option N * option string :=
  match ls with
  | [] => (before, after, hex)
  | line :: ls =>
    let line := trim line in
    match strip_prefix "SHRINK_BEFORE " line with
    | Some rest => shrink_lines ls (parse_uint u64_max (trim rest)) after hex
    | None =>
      match strip_prefix "SHRINK_LEN " line with
      | Some rest => shrink_lines ls before (parse_uint u64_max (trim rest)) hex
      | None =>
        match strip_prefix "SHRINK_HEX " line with
        | Some rest => shrink_lines ls before after (Some (trim rest))
        | None => shrink_lines ls before after hex
        end
      end
    end
  end.

(** [src crates/aros-core/src/campaign_loader.rs 866-890 parse_shrink] *)
Definition parse_shrink (stdout : string) : option ShrinkProof :=
  let '(before, after, hex) := shrink_lines (lines stdout) None None None in
  after ← after;
  hex ← hex;
  if (after =? 0)%N ||
     negb (bool_decide ((λ b, N.of_nat (str_len b)) <$> decode_hex hex = Some after))
  then None
  else
    let before := default after before in
    if (before <? after)%N then None else Some (mkShrinkProof before after hex).

(** ** Variants *)

(** [src crates/aros-core/src/campaign_loader.rs 597-627 derive_variant_binds] *)
Definition derive_variant_binds (b : gmap string string) : list (gmap string string) :=
  let cookie := default "" (match b !! "attack_cookie" with Some c => Some c | None => b !! "cookie" end) in
  let v1 :=
    if negb (is_empty cookie) then
      let variant := <["cookie" := ""]> (<["attack_cookie" := ""]> b) in
      if bool_decide (variant ≠ b) then [variant] else []
    else [] in
  let v2 :=
    match b !! "attack_path" with
    | Some path =>
      if contains path "../" then [<["attack_path" := replace_str "../" "..%2F" path]> b]
      else if contains (to_ascii_lowercase path) "..%2f" then
        [<["attack_path" := replace_str "..%2f" "../" (replace_str "..%2F" "../" path)]> b]
      else []
    | None => []
    end in
  v1 ++ v2.

(** [src crates/aros-core/src/campaign_loader.rs 672-682 bind_attack] *)
Definition bind_attack (b : gmap string string) : Value :=
  JObject [("cookie", JString (default "" (match b !! "attack_cookie" with
                                            | Some c => Some c
                                            | None => b !! "cookie"
                                            end)));
           ("must_not_contain", JString (default "" (b !! "attack_contains")));
           ("path", JString (default "/" (b !! "attack_path")))].

(** ** The environment *)

(** The compile-time configuration [cfg!] tests. *)
Record HostCfg := mkHostCfg {
  cfg_windows : bool;
  cfg_unix : bool;
  cfg_macos : bool;
  cfg_env_gnu : bool;
  cfg_env_msvc : bool;
}.

Definition dquote : string := String "034" "".

(** [src crates/aros-core/src/campaign_loader.rs 1157-1163 parse_toml_quoted] *)
Definition parse_toml_quoted (text key : string) : option string :=
  let prefix := key +:+ " = " +:+ dquote in
  '(_, rest) ← split_once_str prefix text;
  '(value, _) ← split_once "034" rest;
  Some value.

(** The text of [rust-toolchain.toml], if it can be read, is an argument.
    [src crates/aros-core/src/campaign_loader.rs 1105-1155 environment_mismatch] *)
Definition environment_mismatch (cfg : HostCfg) (toolchain : option string) (contained_linux : bool) :
    option string :=
  text ← toolchain;
  channel ← parse_toml_quoted text "channel";
  let known := starts_with channel "stable" || starts_with channel "beta" ||
               starts_with channel "nightly" ||
               match channel with String c _ => is_ascii_digit c | EmptyString => false end in
  if negb known then
    Some ("rust-toolchain.toml channel " +:+ channel +:+ " cannot be reproduced on this host")
  else
    let lower := to_ascii_lowercase channel in
    let has_triple := contains lower "x86_64-" || contains lower "aarch64-" || contains lower "i686-" in
    let mismatch := "toolchain pin " +:+ channel +:+
                    " does not match this host; environment mismatch, not a security result" in
    if negb has_triple then None
    else if contained_linux && negb (contains lower "linux") then
      Some ("toolchain pin " +:+ channel +:+
            " is not a Linux triple; contained generator image cannot reproduce it")
    else if contains lower "windows-gnu" && negb (cfg_windows cfg && cfg_env_gnu cfg) then Some mismatch
    else if contains lower "windows-msvc" && negb (cfg_windows cfg && cfg_env_msvc cfg) then Some mismatch
    else if contains lower "linux" && cfg_windows cfg && negb contained_linux then
      Some ("toolchain pin " +:+ channel +:+
            " is Linux; this Windows host cannot reproduce it without containment")
    else if contains lower "apple-darwin" && negb (cfg_macos cfg) then
      Some ("toolchain pin " +:+ channel +:+ " is macOS; environment mismatch, not a security result")
    else if contains lower "windows" && cfg_unix cfg then
      Some ("toolchain pin " +:+ channel +:+ " is Windows; environment mismatch, not a security result")
    else None.

(** ** Generators *)

(** [EngineError::FailClosed]. *)
Inductive FailClosedError := FailClosed (message : string).

(** [src crates/aros-core/src/campaign_loader.rs 1250-1260 expand_command] *)
Definition expand_command (command : string) (harness_dir : option string) :
    result FailClosedError string :=
  if negb (contains command "{harness}") then Ok command
  else
    dir ← ok_or harness_dir
            (FailClosed "generator.command uses {harness} but generator.harness is unset");
    Ok (replace_str "{harness}" dir command).

(** [str::replacen(pat, to, 1)] on a string that starts with the pattern.
    [src crates/aros-core/src/campaign_loader.rs 1262-1273 rewrite_argv_for_container] *)
Definition rewrite_argv_for_container (argv : list string) (host : string) : list string :=
  (λ arg, match strip_prefix host arg with
          | Some rest => "/aros-harness" +:+ rest
          | None => arg
          end) <$> argv.

(** [Path::file_name]: the last component, unless it is [..]. *)
Definition file_name (path : string) : option string :=
  match last (List.filter (λ p, negb (is_empty p) && negb (String.eqb p ".")) (split_char "/" path)) with
  | Some p => if String.eqb p ".." then None else Some p
  | None => None
  end.

Definition allowed_executables : list string :=
  ["cargo"; "cargo.exe"; "python"; "python3"; "python.exe"].

(** [src crates/aros-core/src/campaign_loader.rs 1525-1554 generator_argv] *)
Definition generator_argv (command : string) : result FailClosedError (list string) :=
  let argv := split_whitespace command in
  match argv with
  | [] => Err (FailClosed "generator.command is empty")
  | exe0 :: _ =>
    if executable_is_shell exe0 then Err (FailClosed "generator.command must not invoke a shell")
    else if argv_contains_shell_metacharacters argv then
      Err (FailClosed "generator.command contains shell metacharacters")
    else
      let exe := to_ascii_lowercase (default exe0 (file_name exe0)) in
      if negb (bool_decide (exe ∈ allowed_executables)) then
        Err (FailClosed ("generator executable " +:+ exe +:+ " is not allowlisted"))
      else Ok argv
  end.

(** The closure [consider] of [harness_relpaths].
    [src crates/aros-core/src/campaign_loader.rs 1277-1288 harness_relpaths] *)
Definition generator_relpaths (g : CampaignGenerator) : list string :=
  option_list (corpus g) ++
  match generator_argv (replace_str "{harness}" "_" (command g)) with
  | Ok argv =>
    List.filter (λ t, negb (starts_with t "-") && negb (contains t "{harness}")) (drop 1 argv)
  | Err _ => []
  end.

(** Adjacent duplicates removed: [Vec::dedup]. *)
Fixpoint dedup (l : list string) : list string :=
  match l with
  | x :: (y :: _) as t => if String.eqb x y then dedup t else x :: dedup t
  | _ => l
  end.

(** [src crates/aros-core/src/campaign_loader.rs 1275-1299 harness_relpaths] *)
Definition harness_relpaths (spec : CampaignSpec) : list string :=
  let paths :=
    ((λ '(_, g, _), generator_relpaths g) <$> attack_plans spec) ++
    match structural_control spec with
    | Some c => [generator_relpaths (good c); generator_relpaths (mutant c)]
    | None => []
    end in
  dedup (sort_strings (mjoin paths)).

(** Whether a catalog harness exists, and whether a corpus file is present under
    the target, are arguments.
    [src crates/aros-core/src/campaign_loader.rs 1201-1222 missing_generator_reason] *)
Definition missing_generator_reason (in_catalog : string → bool) (in_target : string → bool)
    (target_root spec_id : string) (g : CampaignGenerator) : option string :=
  match harness g with
  | Some id =>
    if negb (in_catalog id) then
      Some ("campaign " +:+ spec_id +:+ " catalog harness " +:+ id +:+ " is not in the AROS catalog")
    else None
  | None =>
    corpus ← corpus g;
    if in_target corpus then None
    else Some ("campaign " +:+ spec_id +:+ " generator corpus " +:+ corpus +:+
               " is not present under " +:+ target_root +:+ "; zero evidence")
  end.

(** [src crates/aros-core/src/campaign_loader.rs 1414-1420 html_escape] *)
Definition html_escape (value : string) : string :=
  replace_char "034" "&quot;" (replace_char ">" "&gt;" (replace_char "<" "&lt;"
    (replace_char "&" "&amp;" value))).

Definition idor_like : list string :=
  ["http-idor"; "http-unauth"; "http-cookie-confusion"; "http-mr-cookie-drop"; "http-mr-method";
   "http-mr-cross-user"; "http-mr-header-noise"; "http-mr-xff"; "http-mr-auth-header"].

(** [src crates/aros-core/src/campaign_loader.rs 1634-1675 overlay_surface_bind] *)
Definition overlay_surface_bind (spec : CampaignSpec) (suggested : gmap string string) : CampaignSpec :=
  let b := bind (generator spec) in
  let b := match suggested !! "health_path" with
           | Some health => if bool_decide (is_Some (b !! "health_path")) then b
                            else <["health_path" := health]> b
           | None => b
           end in
  let b :=
    if bool_decide (spec_id spec ∈ idor_like) then
      match suggested !! "idor_path" with
      | Some path => <["path_b" := path]> (<["attack_path" := path]> b)
      | None => b
      end
    else if String.eqb (spec_id spec) "http-mr-query-noise" then
      match suggested !! "idor_path" with
      | Some path => <["path_a" := path]> (<["attack_path" := path]> b)
      | None => b
      end
    else if String.eqb (spec_id spec) "http-path-traversal" then
      match suggested !! "files_path" with
      | Some path => <["attack_path" := path]> b
      | None => b
      end
    else b in
  set_generator spec (set_bind (generator spec) b).

(** ** What a level and a state mean *)

(** How the measurements of one run are related: an E7 proof is only sought when
    the twin holds and the reproduction matched, the twin only when the attack
    succeeded. *)
Definition measured_wf (m : Measured) : Prop :=
  (e7_ok m = true → twin_holds m = true ∧ independent m = true) ∧
  (twin_holds m = true → judgement m = AttackSucceeded).

(** The verdict, by cases. *)
Lemma conclude_verdict spec m state verified met :
  measured_wf m → conclude spec m = (state, verified, met) →
  (verified = true ↔ state = CsVerified ∨ state = RegressionProtected) ∧
  (verified = true → met = true ∧ judgement m = AttackSucceeded ∧
     level_ge (raw_level m) E3InvariantViolation = true) ∧
  (state = CsRefuted → judgement m ≠ AttackSucceeded).
Proof.
  unfold conclude. destruct (evidence_satisfies_required _ _ _ _); cbn.
  - destruct m as [[] [] [] [] []]; intros [He Ht]; cbn in He, Ht;
      try (destruct (He eq_refl); done); try discriminate (Ht eq_refl);
      cbn; intros [= <- <- <-]; naive_solver.
  - intros _ [= <- <- <-]. naive_solver.
Qed.

(** The evidence level and the final state are justified by the
    measurements. Each level implies the measurement it names, levels E3 and
    above are exactly the successful attacks, a finding is verified exactly when
    the attack succeeded and the required evidence was met, and a campaign is
    refuted only when the attack did not succeed. *)
Theorem conclude_justified spec m state verified met :
  measured_wf m → conclude spec m = (state, verified, met) →
  (raw_level m = E7VariantReattackAndRegression →
     e7_ok m = true ∧ twin_holds m = true ∧ independent m = true) ∧
  (raw_level m = E6CounterfactualDifferential → twin_holds m = true ∧ independent m = true) ∧
  (raw_level m = E5MinimizedReproduction → shrink_ok m = true) ∧
  (raw_level m = E4IndependentReproduction → independent m = true) ∧
  (level_ge (raw_level m) E3InvariantViolation = true ↔ judgement m = AttackSucceeded) ∧
  (verified = true ↔ met = true ∧ judgement m = AttackSucceeded) ∧
  (state = CsRefuted ↔ met = true ∧ judgement m ≠ AttackSucceeded) ∧
  (state = CsInsufficientEvidence ↔ met = false) ∧
  (state = RegressionProtected ↔ met = true ∧ raw_level m = E7VariantReattackAndRegression).
Proof.
  intros [H7 Ht] Hc. unfold conclude in Hc.
  set (b := evidence_satisfies_required _ _ _ _) in Hc.
  destruct m as [j e7 tw ind sh]; cbn in *.
  assert (e7 = true → tw = true ∧ ind = true) as H7' by exact H7.
  destruct j, e7, tw, ind, sh, b; simplify_eq/=; vm_compute; naive_solver.
Qed.

(** Adding the patched twin takes a requirement away: a run whose only missing
    measurement for E5 was none fails the requirement once the twin holds too,
    although the minimized reproduction is still there. *)
Lemma twin_defeats_required_E5 spec :
  required_evidence spec = ["E5"] →
  let m := mkMeasured AttackSucceeded false false true true in
  let m' := mkMeasured AttackSucceeded false true true true in
  (conclude spec m).1 = (CsVerified, true) ∧
  (conclude spec m').1 = (CsInsufficientEvidence, false) ∧ shrink_ok m' = true.
Proof. intros Hr. unfold conclude, evidence_satisfies_required. cbn [independent twin_holds]. by rewrite Hr. Qed.

(** An oracle with a recognised negative control gives no verdict unless
    the control token was observed, and a verdict always comes from the presence
    or absence of the match text; the two polarities are opposite. *)
Theorem evaluate_oracle_spec stdout o :
  (∀ control, negative_control o = Some control → negative_control_token control ≠ "" →
     contains stdout (negative_control_token control) = false →
     evaluate_oracle stdout o = Indeterminate) ∧
  (evaluate_oracle stdout o = AttackSucceeded →
     ∃ needle, match_ o = Some needle ∧
       (decides o = StdoutContains ∧ contains stdout needle = true ∨
        decides o = StdoutNotContains ∧ contains stdout needle = false)) ∧
  (evaluate_oracle stdout o = InvariantHolds →
     ∃ needle, match_ o = Some needle ∧
       (decides o = StdoutContains ∧ contains stdout needle = false ∨
        decides o = StdoutNotContains ∧ contains stdout needle = true)).
Proof.
  unfold evaluate_oracle. split_and!.
  - intros control -> Hne Hc. rewrite Hc. apply is_empty_false in Hne. by rewrite Hne.
  - intros He. repeat (early_return He); eauto 10.
  - intros He. repeat (early_return He); eauto 10.
Qed.

(** ** Shrink proofs *)

Definition hex_char (n : N) : ascii := if (n <? 10)%N then ascii_of_N (48 + n) else ascii_of_N (87 + n).

(** Lower-case hexadecimal, two digits per byte. *)
Fixpoint encode_hex (s : string) : string :=
  match s with
  | EmptyString => ""
  | String c s => String (hex_char (byte_val c / 16)) (String (hex_char (byte_val c mod 16)) (encode_hex s))
  end.

Lemma hex_pair_encode c :
  hex_pair (hex_char (byte_val c / 16)) (hex_char (byte_val c mod 16)) = Some c ∧
  plain (String (hex_char (byte_val c / 16)) (String (hex_char (byte_val c mod 16)) "")) = true.
Proof. destruct c as [[] [] [] [] [] [] [] []]; vm_compute; done. Qed.

Lemma hex_pairs_encode s : hex_pairs (encode_hex s) = Some s.
Proof.
  induction s as [|c s IH]; [done|]. cbn [encode_hex hex_pairs].
  rewrite (proj1 (hex_pair_encode c)). cbn. by rewrite IH.
Qed.

Lemma encode_hex_plain s : plain (encode_hex s) = true.
Proof.
  induction s as [|c s IH]; [done|]. destruct (hex_pair_encode c) as [_ Hp].
  unfold plain in *. cbn [encode_hex all_bytes] in *. rewrite IH. rewrite andb_true_r in Hp.
  by rewrite andb_true_r.
Qed.

Lemma encode_hex_even s : Nat.even (str_len (encode_hex s)) = true.
Proof. induction s as [|c s IH]; [done|]. exact IH. Qed.

Lemma hex_pairs_length s b : hex_pairs s = Some b → str_len s = 2 * str_len b.
Proof.
  revert b. induction s as [s IH] using string_length_ind. intros b.
  destruct s as [|a [|a' s]]; cbn [hex_pairs]; [by intros [= <-]|done|].
  intros (c & _ & (rest & Hr & [= <-])%bind_Some)%bind_Some.
  unfold str_len in *. cbn [String.length]. rewrite (IH s) with (b := rest); [lia|cbn; lia|done].
Qed.

(** Hexadecimal payloads are read back exactly, and a shrink proof is
    consistent: its payload decodes to the stated number of bytes, which is
    positive and no larger than the original. *)
Theorem shrink_proof_consistent :
  (∀ bytes, bytes ≠ "" → decode_hex (encode_hex bytes) = Some bytes) ∧
  (∀ stdout p, parse_shrink stdout = Some p →
     (0 < after p <= before p)%N ∧
     ∃ bytes, proof_bytes p = Some bytes ∧ N.of_nat (str_len bytes) = after p).
Proof.
  split.
  - intros bytes Hne. unfold decode_hex. rewrite trim_plain by apply encode_hex_plain.
    rewrite encode_hex_even, hex_pairs_encode. by destruct bytes.
  - intros stdout p. unfold parse_shrink. destruct (shrink_lines _ _ _ _) as [[b a] h].
    intros (after & -> & H)%bind_Some. apply bind_Some in H as (hex & -> & H).
    repeat early_return H. split_guards.
    match goal with G : (after =? 0)%N = false |- _ => apply N.eqb_neq in G end.
    match goal with G : (_ <? _)%N = false |- _ => apply N.ltb_ge in G end.
    match goal with G : _ <$> _ = Some _ |- _ => apply fmap_Some in G as (bytes & Hb & Hlen) end.
    cbn. split; [lia|]. exists bytes. split; [exact Hb|done].
Qed.

(** ** Generators and reports *)

(** Whatever the specification says, only an allowlisted interpreter or
    build tool is ever started, never a shell, and no argument carries a shell
    metacharacter. *)
Theorem generator_argv_safe command argv :
  generator_argv command = Ok argv →
  argv = split_whitespace command ∧ argv_contains_shell_metacharacters argv = false ∧
  ∃ exe rest, argv = exe :: rest ∧ executable_is_shell exe = false ∧
    to_ascii_lowercase (default exe (file_name exe)) ∈ allowed_executables.
Proof.
  unfold generator_argv. intros H. destruct (split_whitespace command) as [|exe rest]; [done|].
  repeat early_return H. split_guards.
  split_and!; [done|by apply orb_false_iff|]. by exists exe, rest.
Qed.

Lemma replace_char_keeps c d r s :
  contains_byte d r = false → contains_byte d s = false → contains_byte d (replace_char c r s) = false.
Proof.
  intros Hr. induction s as [|a s IH]; simpl; [done|]. rewrite orb_false_iff. intros [Ha Hs].
  destruct (Ascii.eqb a c); [by rewrite contains_byte_app, Hr, IH|]. simpl. by rewrite Ha, IH.
Qed.

Lemma replace_char_removes c r s :
  contains_byte c r = false → contains_byte c (replace_char c r s) = false.
Proof.
  intros Hr. induction s as [|a s IH]; [done|]. simpl.
  destruct (Ascii.eqb_spec a c) as [->|Hne]; [by rewrite contains_byte_app, Hr, IH|].
  simpl. rewrite IH, orb_false_r. by apply Ascii.eqb_neq.
Qed.

(** Text that reaches the report is inert: escaped text holds no angle
    bracket and no double quote, so it can open no tag and close no attribute. *)
Theorem html_escape_inert value :
  contains_byte "<" (html_escape value) = false ∧ contains_byte ">" (html_escape value) = false ∧
  contains_byte "034" (html_escape value) = false.
Proof.
  unfold html_escape. split_and!.
  - apply replace_char_keeps; [done|]. apply replace_char_keeps; [done|].
    by apply replace_char_removes.
  - apply replace_char_keeps; [done|]. by apply replace_char_removes.
  - by apply replace_char_removes.
Qed.

End Declared.
