(* ===== verification/Engine.v ===== *)
(** * The campaign engine: errors, outcomes and containment
      (crate [aros-core], [engine.rs])

    The engine's configuration and the admission test that decides which
    sandbox identity a campaign runs under, after a fresh probe of the container
    runtime where it needs one. *)

From S2P Require Import Prelude RustStr Net Json Types Policy Ledger Cas Store HttpLab Snapshot Broker.
From S2P Require Import Sandbox.

Module Engine.

(** [src crates/aros-core/src/engine.rs 25-49 EngineError] *)
Inductive EngineError :=
| EeFailClosed (message : string)
| EePolicy (message : string)
| EeBroker (e : Broker.BrokerError)
| EeSnapshot (e : Snapshot.SnapshotError)
| EeStore (e : Store.StoreError)
| EeCas (e : Cas.CasError)
| EeLedger (e : Ledger.LedgerError)
| EeTypes (e : TypesError)
| EeHttp (e : HttpLab.HttpError)
| EeIo
| EeJson.

(** [src crates/aros-core/src/engine.rs 66-88 DeclaredRunMeta] *)
Record DeclaredRunMeta := mkDeclaredRunMeta {
  meta_harness_digest : option string;
  meta_required_evidence_met : bool;
  meta_contained : bool;
  meta_run_kind : string;
  meta_environment_notes : option string;
  meta_report_path : option string;
  meta_surface_results : list string;
  meta_control_good_result : option string;
  meta_control_mutant_result : option string;
  meta_ledger_verified : bool;
  meta_shrink_before : option N;
  meta_shrink_len : option N;
  meta_minimized_digest : option string;
  meta_failure_card_id : option string;
  meta_independent_reproduced : bool;
  meta_twin_holds : bool;
  meta_variant_holds : bool;
  meta_regression_path : option string;
  meta_regression_digest : option string;
  meta_certificate_path : option string;
}.

(** The derived [Default].
    [src crates/aros-core/src/engine.rs 66-66 DeclaredRunMeta::default] *)
Definition DeclaredRunMeta_default : DeclaredRunMeta :=
  mkDeclaredRunMeta None false false "" None None [] None None false None None None None
    false false false None None None.

(** [src crates/aros-core/src/engine.rs 51-64 CampaignOutcome] *)
Record CampaignOutcome := mkCampaignOutcome {
  out_campaign : Campaign;
  out_finding : option Finding;
  out_evidence_level : option EvidenceLevel;
  out_original_digest : string;
  out_original_digest_after : string;
  out_deceptive_rejected : bool;
  out_patch : option PatchCandidate;
  out_live_reattack_confirmed : bool;
  out_research_card_id : option string;
  out_verifier_isolated : bool;
  out_declared : DeclaredRunMeta;
}.

(** [src crates/aros-core/src/engine.rs 90-94 CampaignEngine] *)
Record CampaignEngine := mkCampaignEngine {
  waive_containment : bool;
  bound_sandbox : option SandboxIdentity;
  twin_root : option string;
}.

(** [src crates/aros-core/src/engine.rs 97-103 CampaignEngine::new] *)
Definition CampaignEngine_new (waive : bool) : CampaignEngine :=
  {| waive_containment := waive; bound_sandbox := None; twin_root := None |}.

(** [src crates/aros-core/src/engine.rs 105-109 CampaignEngine::with_twin] *)
Definition with_twin (e : CampaignEngine) (twin : string) : CampaignEngine :=
  {| waive_containment := waive_containment e; bound_sandbox := bound_sandbox e;
     twin_root := Some twin |}.

(** [src crates/aros-core/src/engine.rs 111-120 CampaignEngine::with_bound_sandbox] *)
Definition with_bound_sandbox (s : SandboxIdentity) : CampaignEngine :=
  {| waive_containment := false; bound_sandbox := Some s; twin_root := None |}.

#[local] Existing Instances Sandbox.S_ret Sandbox.S_bind.

(** The fresh identifier is an argument; the commands of the runtime probe are
    recorded.
    [src crates/aros-core/src/engine.rs 130-157 CampaignEngine::assert_containment_or_fail] *)
Definition assert_containment_or_fail `{IpNetLib} (self : CampaignEngine) (fresh : SandboxId)
    (oci : Sandbox.OciHost) (manifest : AuthorizationManifest) :
    Sandbox.S (result EngineError SandboxIdentity) :=
  if negb (require_containment manifest) || waive_containment self then
    mret (Ok {| sandbox_id := fresh; containment_demonstrated := false |})
  else
    match bound_sandbox self with
    | Some sandbox =>
      mret (if containment_demonstrated sandbox then Ok sandbox
            else Err (EeFailClosed "bound sandbox exists but containment was not demonstrated"))
    | None =>
      report ← Sandbox.probe_containment_fresh oci;
      let diagnostic :=
        if Sandbox.live_oci_claimable report
        then "OCI isolation capability is available, but no concrete campaign target sandbox was bound"
        else "OCI containment is not demonstrated on this host" in
      mret (Err (EeFailClosed (diagnostic +:+ "; refusing to mint a synthetic sandbox identity")))
    end.

(** ** Containment is never synthesized *)

Section Containment.
Context `{IpNetLib}.
Implicit Types (e : CampaignEngine) (m : AuthorizationManifest).

(** An admitted identity is fresh and undemonstrated, or the bound one; the runtime
    was not asked. *)
Lemma admitted e fresh oci m tr tr' s :
  assert_containment_or_fail e fresh oci m tr = (tr', Ok s) →
  tr' = tr ∧
  (s = {| sandbox_id := fresh; containment_demonstrated := false |} ∨
   bound_sandbox e = Some s ∧ containment_demonstrated s = true ∧ waive_containment e = false ∧
   require_containment m = true).
Proof.
  unfold assert_containment_or_fail, mret, Sandbox.S_ret. intros Hs.
  destruct (require_containment m), (waive_containment e); cbn in Hs; try (simplify_eq; eauto; fail).
  destruct (bound_sandbox e) as [b|].
  - destruct (containment_demonstrated b) eqn:Hd; simplify_eq/=. split; [done|]. right. by split_and!.
  - unfold mbind, Sandbox.S_bind in Hs. destruct (Sandbox.probe_containment_fresh oci tr) as [tr1 rep].
    by simplify_eq/=.
Qed.

(** A demonstrated sandbox is always the bound one. *)
Lemma demonstrated_is_bound e fresh oci m tr tr' s :
  assert_containment_or_fail e fresh oci m tr = (tr', Ok s) → containment_demonstrated s = true →
  bound_sandbox e = Some s ∧ waive_containment e = false ∧ require_containment m = true.
Proof. intros [_ [->|(? & ? & ? & ?)]]%admitted Hd; [done|by split_and!]. Qed.

(** Policy refuses every intent of a manifest that requires containment when
    the sandbox does not demonstrate it. *)
Lemma uncontained_denied m snap s i :
  require_containment m = true → containment_demonstrated s = false →
  decision (evaluate m snap s i) = Deny.
Proof. intros Hm Hs. unfold evaluate. by rewrite Hm, Hs. Qed.

(** A campaign whose manifest requires containment runs a tool only inside
    the concrete sandbox the engine was built with, whatever the probe of the
    host says and even under a waiver: an admitted identity under which some
    intent is not denied is the bound, demonstrated one. In particular an engine
    from [new] never gets there. *)
Theorem containment_never_synthetic e fresh oci m tr tr' s snap i :
  require_containment m = true →
  assert_containment_or_fail e fresh oci m tr = (tr', Ok s) →
  decision (evaluate m snap s i) ≠ Deny →
  bound_sandbox e = Some s ∧ containment_demonstrated s = true ∧ waive_containment e = false ∧
  ∀ waive, e ≠ CampaignEngine_new waive.
Proof.
  intros Hm Hs Hi. destruct (containment_demonstrated s) eqn:Hd.
  - destruct (demonstrated_is_bound _ _ _ _ _ _ _ Hs Hd) as (Hb & Hw & _).
    split_and!; try done. by intros w ->.
  - destruct Hi. by apply uncontained_denied.
Qed.

End Containment.

End Engine.
