(* ===== verification/Certificate.v ===== *)
(** * Evidence certificates (crate [aros-core], [certificate.rs])

    Issuing a certificate for a campaign outcome and checking one offline
    against the work directory: the claims digest, the persisted ledger and the
    named artifacts. The theorems show what an accepted release says, that the
    digest covers every claim, that an issued certificate checks, and exactly
    which measured outcomes are refused a certificate. *)

From S2P Require Import Prelude RustStr Net Json Types Ledger Store Spec Declared Engine.
Import Ledger Store Engine.

Module Certificate.

(** [src crates/aros-core/src/certificate.rs 15-15 CERTIFICATE_FILE] *)
Definition CERTIFICATE_FILE : string := "certificate.json".
(** [src crates/aros-core/src/certificate.rs 16-16 SCHEMA] *)
Definition SCHEMA : string := "aros-certificate/1".

(** [src crates/aros-core/src/certificate.rs 18-45 EvidenceCertificate] *)
Record EvidenceCertificate := mkCertificate {
  cert_schema : string;
  cert_campaign_id : string;
  cert_spec_id : string;
  cert_state : string;
  cert_evidence_level : string;
  cert_verified_finding : bool;
  cert_original_digest : string;
  cert_original_digest_after : string;
  cert_original_unmodified : bool;
  cert_harness_digest : option string;
  cert_independent_reproduced : bool;
  cert_twin_holds : bool;
  cert_variant_holds : bool;
  cert_regression_relpath : option string;
  cert_regression_digest : option string;
  cert_minimized_relpath : option string;
  cert_minimized_digest : option string;
  cert_contained : bool;
  cert_required_evidence_met : bool;
  cert_ledger_head : string;
  cert_ledger_events : N;
  cert_release_eligible : bool;
  cert_limits : list string;
  cert_digest : string;
}.

Definition set_digest (c : EvidenceCertificate) (d : string) : EvidenceCertificate :=
  {| cert_schema := cert_schema c; cert_campaign_id := cert_campaign_id c;
     cert_spec_id := cert_spec_id c; cert_state := cert_state c;
     cert_evidence_level := cert_evidence_level c;
     cert_verified_finding := cert_verified_finding c;
     cert_original_digest := cert_original_digest c;
     cert_original_digest_after := cert_original_digest_after c;
     cert_original_unmodified := cert_original_unmodified c;
     cert_harness_digest := cert_harness_digest c;
     cert_independent_reproduced := cert_independent_reproduced c;
     cert_twin_holds := cert_twin_holds c; cert_variant_holds := cert_variant_holds c;
     cert_regression_relpath := cert_regression_relpath c;
     cert_regression_digest := cert_regression_digest c;
     cert_minimized_relpath := cert_minimized_relpath c;
     cert_minimized_digest := cert_minimized_digest c; cert_contained := cert_contained c;
     cert_required_evidence_met := cert_required_evidence_met c;
     cert_ledger_head := cert_ledger_head c; cert_ledger_events := cert_ledger_events c;
     cert_release_eligible := cert_release_eligible c; cert_limits := cert_limits c;
     cert_digest := d |}.

(** [src crates/aros-core/src/certificate.rs 47-55 CertificateCheck] *)
Record CertificateCheck := mkCheck {
  check_statement_ok : bool;
  check_release_eligible : bool;
  check_evidence_level : string;
  check_campaign_id : string;
  check_limits : list string;
  check_failures : list string;
}.

Definition JOption (o : option string) : Value :=
  match o with
  | Some s => JString s
  | None => JNull
  end.

(** The derived [Serialize]: one field per member, in order. *)
Definition certificate_fields (c : EvidenceCertificate) : list (string * Value) := [
   ("schema", JString (cert_schema c));
   ("campaign_id", JString (cert_campaign_id c));
   ("spec_id", JString (cert_spec_id c));
   ("state", JString (cert_state c));
   ("evidence_level", JString (cert_evidence_level c));
   ("verified_finding", JBool (cert_verified_finding c));
   ("original_digest", JString (cert_original_digest c));
   ("original_digest_after", JString (cert_original_digest_after c));
   ("original_unmodified", JBool (cert_original_unmodified c));
   ("harness_digest", JOption (cert_harness_digest c));
   ("independent_reproduced", JBool (cert_independent_reproduced c));
   ("twin_holds", JBool (cert_twin_holds c));
   ("variant_holds", JBool (cert_variant_holds c));
   ("regression_relpath", JOption (cert_regression_relpath c));
   ("regression_digest", JOption (cert_regression_digest c));
   ("minimized_relpath", JOption (cert_minimized_relpath c));
   ("minimized_digest", JOption (cert_minimized_digest c));
   ("contained", JBool (cert_contained c));
   ("required_evidence_met", JBool (cert_required_evidence_met c));
   ("ledger_head", JString (cert_ledger_head c));
   ("ledger_events", JNumberV (PosInt (cert_ledger_events c)));
   ("release_eligible", JBool (cert_release_eligible c));
   ("limits", JArray (JString <$> cert_limits c));
   ("digest", JString (cert_digest c))].

#[export] Instance EvidenceCertificate_serialize : Serialize EvidenceCertificate := {
  to_value c := Ok (JObject (certificate_fields c))
}.

(** [Map::remove]. *)
Definition field_remove (k : string) (fs : list (string * Value)) : list (string * Value) :=
  List.filter (λ kv, negb (String.eqb kv.1 k)) fs.

#[export] Instance Value_serialize : Serialize Value := { to_value v := Ok v }.

(** [src crates/aros-core/src/certificate.rs 219-243 claims_match_level] *)
Definition claims_match_level (level : string) (independent twin_holds variant_holds regression : bool) :
    bool :=
  if contains level "E7" then variant_holds && twin_holds && independent && regression
  else if contains level "E6" then twin_holds && independent && negb variant_holds
  else if contains level "E5" then negb variant_holds && negb twin_holds
  else if contains level "E4" then independent && negb variant_holds && negb twin_holds
  else if contains level "E3" || contains level "E2" || contains level "E1" || contains level "E0" then
    negb variant_holds && negb twin_holds
  else false.

(** The database file of the work directory. *)
Inductive Database := DbMissing | DbCorrupt | DbTables (db : Db).

(** The work directory: regular files by their path components, and the
    database. *)
Record WorkDir := mkWorkDir { files : gmap (list string) string; database : Database }.

Definition write_file (wd : WorkDir) (path : list string) (bytes : string) : WorkDir :=
  mkWorkDir (<[path := bytes]> (files wd)) (database wd).

(** Opening creates the tables of a missing database. *)
Definition Store_open (wd : WorkDir) : WorkDir * result StoreError Db :=
  match database wd with
  | DbMissing => (mkWorkDir (files wd) (DbTables Db_empty), Ok Db_empty)
  | DbCorrupt => (wd, Err Sqlite)
  | DbTables db => (wd, Ok db)
  end.

Section Operations.
Context `{U : UuidLib, J : JsonLib, HashLib, !Serialize EventRecord, !JsonText LedgerEntry,
  !JsonText EvidenceCertificate}.
(** The [Display] texts that only appear in reports of failure. *)
Variable ledger_error_display : LedgerError → string.
Variable store_error_display : StoreError → string.
Variable types_error_display : TypesError → string.
Variable id_error io_error : string.

(** [src crates/aros-core/src/certificate.rs 245-252 certificate_digest] *)
Definition certificate_digest (c : EvidenceCertificate) : result EngineError string :=
  value ← map_err (λ _, EeJson) (to_value c);
  let value := match value with
               | JObject object => JObject (field_remove "digest" object)
               | other => other
               end in
  bytes ← map_err EeTypes (to_canonical_json value);
  Ok (blake3_hex bytes).

(** The limits of an outcome, in order.
    [src crates/aros-core/src/certificate.rs 72-85 write_certificate] *)
Definition limits_of (o : CampaignOutcome) : list string :=
  let d := out_declared o in
  (if negb (meta_contained d) then ["containment not demonstrated"] else []) ++
  (if negb (bool_decide (out_original_digest o = out_original_digest_after o))
   then ["original target digest changed"] else []) ++
  (if negb (meta_required_evidence_met d) then ["required evidence not met"] else []) ++
  (if negb (meta_ledger_verified d) then ["ledger failed at issue"] else []).

Definition level_text (o : CampaignOutcome) : string :=
  default "none" (level_debug <$> out_evidence_level o).

(** [src crates/aros-core/src/certificate.rs 97-135 write_certificate] *)
Definition certificate_of (spec_id : string) (o : CampaignOutcome) (ledger : EventLedger) :
    EvidenceCertificate :=
  let d := out_declared o in
  {| cert_schema := SCHEMA;
     cert_campaign_id := id_to_string (campaign_id (out_campaign o));
     cert_spec_id := spec_id;
     cert_state := state_debug (campaign_state (out_campaign o));
     cert_evidence_level := level_text o;
     cert_verified_finding := default false (finding_verified <$> out_finding o);
     cert_original_digest := out_original_digest o;
     cert_original_digest_after := out_original_digest_after o;
     cert_original_unmodified := bool_decide (out_original_digest o = out_original_digest_after o);
     cert_harness_digest := meta_harness_digest d;
     cert_independent_reproduced := meta_independent_reproduced d;
     cert_twin_holds := meta_twin_holds d;
     cert_variant_holds := meta_variant_holds d;
     cert_regression_relpath :=
       (λ _, "e7-regression/regression_test.py") <$> meta_regression_digest d;
     cert_regression_digest := meta_regression_digest d;
     cert_minimized_relpath := (λ _, "minimized.bin") <$> meta_minimized_digest d;
     cert_minimized_digest := meta_minimized_digest d;
     cert_contained := meta_contained d;
     cert_required_evidence_met := meta_required_evidence_met d;
     cert_ledger_head := default "" (event_hash <$> last ledger);
     cert_ledger_events := N.of_nat (length ledger);
     cert_release_eligible := bool_decide (limits_of o = []);
     cert_limits := limits_of o;
     cert_digest := "" |}.

(** A failed write leaves the bytes in [fault] in the file.
    [src crates/aros-core/src/certificate.rs 57-139 write_certificate] *)
Definition write_certificate (fault : option string) (wd : WorkDir) (spec_id : string)
    (o : CampaignOutcome) (ledger : EventLedger) : WorkDir * result EngineError (list string) :=
  let d := out_declared o in
  if negb (claims_match_level (level_text o) (meta_independent_reproduced d) (meta_twin_holds d)
             (meta_variant_holds d) (bool_decide (is_Some (meta_regression_digest d)))) then
    (wd, Err (EeFailClosed
      "certificate refused: evidence level does not match the recorded measurements"))
  else
    let certificate := certificate_of spec_id o ledger in
    match certificate_digest certificate with
    | Err e => (wd, Err e)
    | Ok digest =>
      match to_text (set_digest certificate digest) with
      | None => (wd, Err EeJson)
      | Some bytes =>
        match fault with
        | Some partial => (write_file wd [CERTIFICATE_FILE] partial, Err EeIo)
        | None => (write_file wd [CERTIFICATE_FILE] bytes, Ok [CERTIFICATE_FILE])
        end
      end
    end.

(** The components of the path that [hash_work_file] joins to the work root. *)
Definition work_path (rel : string) : list string :=
  List.filter (λ part, negb (is_empty part) && negb (String.eqb part ".") &&
                       negb (String.eqb part "..")) (split_char "/" rel).

(** [src crates/aros-core/src/certificate.rs 310-317 hash_work_file] *)
Definition hash_work_file (wd : WorkDir) (rel : string) : result string string :=
  bytes ← ok_or (files wd !! work_path rel) (join "/" (work_path rel) +:+ ": " +:+ io_error);
  Ok (blake3_hex bytes).

(** The flags of the last [CertificateIssued] event.
    [src crates/aros-core/src/certificate.rs 286-297 check_ledger] *)
Definition issued_flags (ledger : EventLedger) : option (bool * bool) :=
  List.hd_error (omap (λ e, match event (record e) with
                            | CertificateIssued _ contained unmodified => Some (contained, unmodified)
                            | _ => None
                            end) (reverse ledger)).

(** The checks of [check_ledger] on a loaded ledger.
    [src crates/aros-core/src/certificate.rs 263-307 check_ledger] *)
Definition check_loaded (ledger : EventLedger) (c : EvidenceCertificate) : result string unit :=
  _ ← map_err ledger_error_display (verify ledger);
  let head := default "" (event_hash <$> last ledger) in
  if negb (bool_decide (head = cert_ledger_head c)) then
    Err "ledger head does not match the certificate"
  else if negb (N.of_nat (length ledger) =? cert_ledger_events c)%N then
    Err "ledger length does not match the certificate"
  else
    let absent := match cert_harness_digest c with
                  | Some harness =>
                    negb (existsb (λ e, existsb (String.eqb harness) (artifact_digests e)) ledger)
                  | None => false
                  end in
    if absent then Err "harness digest is not in the ledger"
    else
      match issued_flags ledger with
      | Some (contained, unmodified) =>
        if eqb contained (cert_contained c) && eqb unmodified (cert_original_unmodified c)
        then Ok ()
        else Err "certificate containment flags disagree with the ledger"
      | None => Err "ledger has no CertificateIssued event"
      end.

(** [src crates/aros-core/src/certificate.rs 254-308 check_ledger] *)
Definition check_ledger (wd : WorkDir) (c : EvidenceCertificate) : WorkDir * result string unit :=
  match id_from_str (k:=KCampaign) (cert_campaign_id c) with
  | None => (wd, Err (types_error_display (TeInvalidId id_error)))
  | Some cid =>
    let '(wd, opened) := Store_open wd in
    (wd, store ← map_err store_error_display opened;
         ledger ← map_err store_error_display (load_ledger_for ledger_error_display cid store);
         check_loaded ledger c)
  end.

(** One optional artifact of the certificate.
    [src crates/aros-core/src/certificate.rs 189-198 verify_certificate] *)
Definition check_artifact (wd : WorkDir) (rel digest : option string) (message : string) :
    list string :=
  match rel, digest with
  | Some rel, Some digest =>
    match hash_work_file wd rel with
    | Ok actual => if bool_decide (actual = digest) then [] else [message]
    | Err error => [error]
    end
  | _, _ => []
  end.

Definition level_claims (c : EvidenceCertificate) : bool :=
  claims_match_level (cert_evidence_level c) (cert_independent_reproduced c) (cert_twin_holds c)
    (cert_variant_holds c) (bool_decide (is_Some (cert_regression_digest c))).

(** [src crates/aros-core/src/certificate.rs 168-178 verify_certificate] *)
Definition recomputed_release (c : EvidenceCertificate) : bool :=
  bool_decide (cert_limits c = []) && cert_contained c && cert_original_unmodified c &&
  cert_required_evidence_met c && level_claims c.

Variable engine_error_display : EngineError → string.

(** The failures found before the ledger is read, in order.
    [src crates/aros-core/src/certificate.rs 145-184 verify_certificate] *)
Definition statement_failures (c : EvidenceCertificate) : list string :=
  match certificate_digest c with
  | Ok digest => if bool_decide (digest = cert_digest c) then []
                 else ["certificate digest does not match the claims"]
  | Err error => [engine_error_display error]
  end ++
  (if negb (bool_decide (cert_schema c = SCHEMA))
   then ["unknown certificate schema " +:+ cert_schema c] else []) ++
  (if negb (eqb (cert_original_unmodified c)
              (bool_decide (cert_original_digest c = cert_original_digest_after c)))
   then ["original_unmodified disagrees with the two digests"] else []) ++
  (if negb (level_claims c)
   then ["evidence level does not match the recorded measurements"] else []) ++
  (if negb (eqb (cert_release_eligible c) (recomputed_release c))
   then ["release_eligible disagrees with the recorded limits"] else []) ++
  (if cert_release_eligible c && negb (cert_contained c)
   then ["release_eligible cannot be set without containment"] else []).

(** [src crates/aros-core/src/certificate.rs 141-217 verify_certificate] *)
Definition verify_certificate (wd : WorkDir) : WorkDir * result EngineError CertificateCheck :=
  match files wd !! [CERTIFICATE_FILE] with
  | None => (wd, Err EeIo)
  | Some raw =>
    match from_text raw with
    | None => (wd, Err EeJson)
    | Some c =>
      let '(wd', ledger_check) := check_ledger wd c in
      let failures :=
        statement_failures c ++
        match ledger_check with Ok _ => [] | Err error => [error] end ++
        check_artifact wd (cert_regression_relpath c) (cert_regression_digest c)
          "regression file digest does not match" ++
        check_artifact wd (cert_minimized_relpath c) (cert_minimized_digest c)
          "minimized payload digest does not match" in
      (wd', Ok {| check_statement_ok := bool_decide (failures = []);
                  check_release_eligible := cert_release_eligible c && bool_decide (failures = []);
                  check_evidence_level := cert_evidence_level c;
                  check_campaign_id := cert_campaign_id c; check_limits := cert_limits c;
                  check_failures := failures |})
    end
  end.

(** ** What an accepted release says *)

(** The guards of [statement_failures] as facts. *)
Lemma statement_failures_nil c :
  statement_failures c = [] ↔
  certificate_digest c = Ok (cert_digest c) ∧ cert_schema c = SCHEMA ∧
  (cert_original_unmodified c = true ↔ cert_original_digest c = cert_original_digest_after c) ∧
  level_claims c = true ∧ cert_release_eligible c = recomputed_release c ∧
  (cert_release_eligible c = true → cert_contained c = true).
Proof.
  unfold statement_failures. rewrite !app_nil, !guard_nil.
  assert (Hd : match certificate_digest c with
    | Ok digest => if bool_decide (digest = cert_digest c) then []
                   else ["certificate digest does not match the claims"]
    | Err error => [engine_error_display error]
    end = [] ↔ certificate_digest c = Ok (cert_digest c)).
  { destruct (certificate_digest c); [case_bool_decide|]; naive_solver. }
  rewrite Hd, andb_false_iff, !negb_false_iff, !eqb_true_iff, bool_decide_eq_true.
  rewrite (bool_eq_decide (cert_original_unmodified c)).
  by rewrite bool_implies.
Qed.

Lemma check_artifact_nil wd rel digest msg :
  check_artifact wd rel digest msg = [] ↔
  ∀ r d, rel = Some r → digest = Some d → ∃ b, files wd !! work_path r = Some b ∧ blake3_hex b = d.
Proof.
  unfold check_artifact, hash_work_file. destruct rel as [r|], digest as [d|];
    [|split; [by intros _ ?? [=]|done]..].
  destruct (files wd !! work_path r) as [b|] eqn:E; cbn.
  - case_bool_decide as Hb; split; try done.
    + intros _ ?? [= <-] [= <-]. by exists b.
    + intros H'. destruct (H' r d eq_refl eq_refl) as (b' & ? & ?). congruence.
  - split; [done|]. intros H'. destruct (H' r d eq_refl eq_refl) as (b' & ? & ?). congruence.
Qed.

Definition harness_logged (c : EvidenceCertificate) (ledger : EventLedger) : Prop :=
  ∀ h, cert_harness_digest c = Some h → ∃ e, e ∈ ledger ∧ h ∈ artifact_digests e.

Lemma check_loaded_Ok ledger c :
  check_loaded ledger c = Ok () ↔
  verify ledger = Ok () ∧ default "" (event_hash <$> last ledger) = cert_ledger_head c ∧
  N.of_nat (length ledger) = cert_ledger_events c ∧ harness_logged c ledger ∧
  issued_flags ledger = Some (cert_contained c, cert_original_unmodified c).
Proof.
  unfold check_loaded, harness_logged. rewrite bind_Ok.
  setoid_rewrite map_err_Ok. destruct (verify ledger) as [[]|]; [|naive_solver].
  assert (Hh : match cert_harness_digest c with
    | Some harness => negb (existsb (λ e, existsb (String.eqb harness) (artifact_digests e)) ledger)
    | None => false end = false ↔
    ∀ h, cert_harness_digest c = Some h → ∃ e, e ∈ ledger ∧ h ∈ artifact_digests e).
  { destruct (cert_harness_digest c) as [h|]; [|naive_solver].
    rewrite negb_false_iff, existsb_true_iff. setoid_rewrite existsb_true_iff.
    setoid_rewrite String.eqb_eq. naive_solver. }
  rewrite <- Hh. clear Hh.
  case_bool_decide as E1; cbn [negb]; [|naive_solver].
  destruct (N.eqb_spec (N.of_nat (length ledger)) (cert_ledger_events c)); cbn [negb];
    [|naive_solver].
  destruct (match cert_harness_digest c with Some _ => _ | None => _ end); [naive_solver|].
  destruct (issued_flags ledger) as [[b u]|]; [|naive_solver].
  destruct b, u, (cert_contained c), (cert_original_unmodified c); cbn; naive_solver.
Qed.

Lemma check_ledger_Ok wd wd' c :
  check_ledger wd c = (wd', Ok ()) ↔
  wd' = wd ∧ ∃ cid db ledger, id_from_str (cert_campaign_id c) = Some cid ∧
    database wd = DbTables db ∧ load_ledger_for ledger_error_display cid db = Ok ledger ∧
    check_loaded ledger c = Ok ().
Proof.
  unfold check_ledger, Store_open. destruct (id_from_str _) as [cid|]; [|naive_solver].
  destruct (database wd) as [| |db]; cbn.
  - split; [|naive_solver]. done.
  - naive_solver.
  - split.
    + intros [= <- Hk]. split; [done|]. apply bind_Ok in Hk as (l & Hl & Hk).
      rewrite map_err_Ok in Hl. by exists cid, db, l.
    + intros (-> & cid' & db' & l & [= <-] & [= <-] & Hl & Hc). by rewrite Hl, <- Hc.
Qed.

(** What the offline check establishes: the certificate [c] on disk agrees with
    itself, with the persisted ledger of its campaign and with the artifacts. *)
Record bundle_intact (wd : WorkDir) (c : EvidenceCertificate) (cid : CampaignId) (ledger : EventLedger) : Prop := {
  bi_file : ∃ raw, files wd !! [CERTIFICATE_FILE] = Some raw ∧ from_text raw = Some c;
  bi_digest : certificate_digest c = Ok (cert_digest c);
  bi_unmodified : cert_original_unmodified c = true ↔ cert_original_digest c = cert_original_digest_after c;
  bi_level : level_claims c = true;
  bi_release : cert_release_eligible c = recomputed_release c;
  bi_campaign : id_from_str (cert_campaign_id c) = Some cid;
  bi_ledger : ∃ db, database wd = DbTables db ∧ load_ledger_for ledger_error_display cid db = Ok ledger;
  bi_verified : verify ledger = Ok ();
  bi_head : default "" (event_hash <$> last ledger) = cert_ledger_head c;
  bi_events : N.of_nat (length ledger) = cert_ledger_events c;
  bi_harness : harness_logged c ledger;
  bi_flags : issued_flags ledger = Some (cert_contained c, cert_original_unmodified c);
  bi_regression : ∀ r d, cert_regression_relpath c = Some r → cert_regression_digest c = Some d →
    ∃ b, files wd !! work_path r = Some b ∧ blake3_hex b = d;
  bi_minimized : ∀ r d, cert_minimized_relpath c = Some r → cert_minimized_digest c = Some d →
    ∃ b, files wd !! work_path r = Some b ∧ blake3_hex b = d;
}.

Lemma check_ok_iff wd wd' chk :
  verify_certificate wd = (wd', Ok chk) → check_statement_ok chk = true ↔ check_failures chk = [].
Proof.
  unfold verify_certificate. destruct (files wd !! _); [|done]. destruct (from_text _); [|done].
  destruct (check_ledger wd _). intros [= _ <-]. cbn [check_statement_ok check_failures].
  apply bool_decide_eq_true.
Qed.

Lemma statement_check_sound wd wd' chk :
  verify_certificate wd = (wd', Ok chk) → check_statement_ok chk = true →
  wd' = wd ∧ ∃ c cid ledger, bundle_intact wd c cid ledger ∧
    check_release_eligible chk = cert_release_eligible c.
Proof.
  unfold verify_certificate. destruct (files wd !! _) as [raw|] eqn:Hf; [|done].
  destruct (from_text raw) as [c|] eqn:Hc; [|done].
  destruct (check_ledger wd c) as [wd1 lc] eqn:Hl. intros [= <- <-].
  cbn [check_release_eligible check_statement_ok]. intros Hok. rewrite Hok, andb_true_r.
  apply bool_decide_eq_true in Hok.
  rewrite !app_nil, !check_artifact_nil, statement_failures_nil in Hok.
  destruct Hok as ((Hd & _ & Hu & Hlev & Hrel & _) & Hlc & Hreg & Hmin).
  destruct lc as [[]|]; [|done]. apply check_ledger_Ok in Hl as (-> & cid & db & l & Hid & Hdb & Hload & Hk).
  apply check_loaded_Ok in Hk as (? & ? & ? & ? & ?).
  split; [done|]. exists c, cid, l. split; [|done]. split; eauto.
Qed.

(** C19: when the offline check reports a certificate as release eligible, the
    certificate on disk is intact under its digest, was issued for a contained
    run with all required evidence and without limits, its claims match its
    level, the target was unmodified, the persisted ledger of its campaign
    verifies, has the recorded head and length, logs the harness and the same
    containment flags, and every named artifact has its recorded hash. *)
Theorem release_check_sound wd wd' chk :
  verify_certificate wd = (wd', Ok chk) → check_release_eligible chk = true →
  wd' = wd ∧ ∃ raw c cid db ledger,
    files wd !! [CERTIFICATE_FILE] = Some raw ∧ from_text raw = Some c ∧
    certificate_digest c = Ok (cert_digest c) ∧
    cert_contained c = true ∧ cert_required_evidence_met c = true ∧ cert_limits c = [] ∧
    level_claims c = true ∧ cert_original_digest c = cert_original_digest_after c ∧
    id_from_str (cert_campaign_id c) = Some cid ∧ database wd = DbTables db ∧
    load_ledger_for ledger_error_display cid db = Ok ledger ∧ verify ledger = Ok () ∧
    default "" (event_hash <$> last ledger) = cert_ledger_head c ∧
    N.of_nat (length ledger) = cert_ledger_events c ∧ harness_logged c ledger ∧
    issued_flags ledger = Some (true, true) ∧
    (∀ r d, cert_regression_relpath c = Some r → cert_regression_digest c = Some d →
       ∃ b, files wd !! work_path r = Some b ∧ blake3_hex b = d) ∧
    (∀ r d, cert_minimized_relpath c = Some r → cert_minimized_digest c = Some d →
       ∃ b, files wd !! work_path r = Some b ∧ blake3_hex b = d).
Proof.
  intros Hv Hr. assert (Hok : check_statement_ok chk = true).
  { revert Hv Hr. unfold verify_certificate. destruct (files wd !! _); [|done]. destruct (from_text _); [|done].
    destruct (check_ledger wd _). intros [= _ <-].
    cbn [check_release_eligible check_statement_ok]. rewrite andb_true_iff. intros [_ H']. exact H'. }
  destruct (statement_check_sound _ _ _ Hv Hok) as (-> & c & cid & l & [(raw & Hf & Hc) Hd Hu ? Hrel ? (db & ? & ?)
    ? ? ? ? Hfl ? ?] & Hre). split; [done|].
  rewrite Hre in Hr. rewrite Hr in Hrel. unfold recomputed_release in Hrel. symmetry in Hrel. split_guards.
  exists raw, c, cid, db, l. split_and!; try done; [by apply Hu|congruence].
Qed.

(** ** Issuing and checking *)

(** The digested value: every field but the digest itself. *)
Definition claims (c : EvidenceCertificate) : list (string * Value) :=
  field_remove "digest" (certificate_fields c).

Lemma certificate_digest_claims c :
  certificate_digest c =
  (bytes ← map_err EeTypes (to_canonical_json (JObject (claims c))); Ok (blake3_hex bytes)).
Proof.
  unfold certificate_digest, claims.
  cbn [to_value EvidenceCertificate_serialize map_err]. unfold mbind at 1, result_bind at 1. done.
Qed.

Lemma certificate_digest_total c : ∃ d, certificate_digest c = Ok d.
Proof. rewrite certificate_digest_claims. by eexists. Qed.

Lemma claims_set_digest c d : claims (set_digest c d) = claims c.
Proof. by vm_compute. Qed.

Lemma certificate_digest_set c d : certificate_digest (set_digest c d) = certificate_digest c.
Proof. by rewrite !certificate_digest_claims, claims_set_digest. Qed.

(** The claims of an issued certificate hold of themselves. *)
Lemma issued_statement_ok spec o ledger digest :
  certificate_digest (certificate_of spec o ledger) = Ok digest →
  level_claims (certificate_of spec o ledger) = true →
  statement_failures (set_digest (certificate_of spec o ledger) digest) = [].
Proof.
  intros Hd Hl. apply statement_failures_nil. rewrite certificate_digest_set.
  assert (Hr : limits_of o = [] → meta_contained (out_declared o) = true ∧
    out_original_digest o = out_original_digest_after o ∧
    meta_required_evidence_met (out_declared o) = true).
  { unfold limits_of. rewrite !app_nil, !guard_nil. intros (? & ? & ? & _). by split_guards. }
  split_and!; [done|done|by apply bool_decide_eq_true|done| |].
  - cbn. unfold recomputed_release. change (level_claims (set_digest _ _)) with
      (level_claims (certificate_of spec o ledger)). rewrite Hl. cbn.
    case_bool_decide as E; [|done]. destruct (Hr E) as (-> & ? & ->). by rewrite bool_decide_eq_true_2.
  - cbn. rewrite bool_decide_eq_true. by intros (? & ? & ?)%Hr.
Qed.

(** What a successful [write_certificate] leaves. *)
Lemma write_certificate_Ok fault wd wd1 spec o ledger path :
  write_certificate fault wd spec o ledger = (wd1, Ok path) →
  ∃ digest bytes,
    level_claims (certificate_of spec o ledger) = true ∧
    certificate_digest (certificate_of spec o ledger) = Ok digest ∧
    to_text (set_digest (certificate_of spec o ledger) digest) = Some bytes ∧
    wd1 = write_file wd [CERTIFICATE_FILE] bytes ∧ path = [CERTIFICATE_FILE].
Proof.
  unfold write_certificate. intros Hw. destruct (claims_match_level _ _ _ _ _) eqn:Hlevel; [|done].
  cbn [negb] in Hw. destruct (certificate_digest _) as [digest|] eqn:Hd; [|done].
  destruct (to_text _) as [bytes|] eqn:Ht; [|done]. destruct fault; [done|]. injection Hw as <- <-.
  by exists digest, bytes.
Qed.

(** The named artifacts of an outcome are in the work directory. *)
Definition artifacts_present (o : CampaignOutcome) (wd : WorkDir) : Prop :=
  (∀ d, meta_regression_digest (out_declared o) = Some d →
     ∃ b, files wd !! ["e7-regression"; "regression_test.py"] = Some b ∧ blake3_hex b = d) ∧
  (∀ d, meta_minimized_digest (out_declared o) = Some d →
     ∃ b, files wd !! ["minimized.bin"] = Some b ∧ blake3_hex b = d).

(** An issued certificate checks in any work directory that has it, the ledger
    it was issued from and the artifacts. *)
Lemma issued_checks `{!UuidLaws U} wd raw spec o ledger digest db :
  level_claims (certificate_of spec o ledger) = true →
  certificate_digest (certificate_of spec o ledger) = Ok digest →
  files wd !! [CERTIFICATE_FILE] = Some raw →
  from_text raw = Some (set_digest (certificate_of spec o ledger) digest) →
  database wd = DbTables db →
  load_ledger_for ledger_error_display (campaign_id (out_campaign o)) db = Ok ledger →
  issued_flags ledger = Some (meta_contained (out_declared o),
    bool_decide (out_original_digest o = out_original_digest_after o)) →
  harness_logged (certificate_of spec o ledger) ledger → artifacts_present o wd →
  ∃ chk, verify_certificate wd = (wd, Ok chk) ∧ check_failures chk = [] ∧
    check_statement_ok chk = true ∧ check_release_eligible chk = bool_decide (limits_of o = []) ∧
    check_campaign_id chk = id_to_string (campaign_id (out_campaign o)).
Proof.
  intros Hlevel Hd Hraw Ht Hdb Hload Hflags Hharness [Hreg Hmin].
  set (c := set_digest (certificate_of spec o ledger) digest) in *.
  unfold verify_certificate. rewrite Hraw, Ht.
  assert (Hl : check_ledger wd c = (wd, Ok ())).
  { apply check_ledger_Ok. split; [done|]. exists (campaign_id (out_campaign o)), db, ledger.
    split_and!; [apply id_from_to_string|done|done|]. apply check_loaded_Ok. split_and!; try done.
    unfold load_ledger_for in Hload. apply bind_Ok in Hload as (st & _ & Hload).
    destruct (bool_decide (st = [])); [done|]. rewrite map_err_Ok in Hload.
    unfold from_stored_entries in Hload. apply bind_Ok in Hload as ([] & ? & [= ->]). done. }
  assert (Hs : statement_failures c = []) by (by apply issued_statement_ok). rewrite Hl, Hs.
  rewrite (proj2 (check_artifact_nil wd (cert_regression_relpath c) _ _)),
    (proj2 (check_artifact_nil wd (cert_minimized_relpath c) _ _)).
  - eexists. split; [done|]. cbn. by rewrite andb_true_r.
  - cbn. intros r d Hr Hm. rewrite Hm in Hr. injection Hr as <-. by apply Hmin.
  - cbn. intros r d Hr Hm. rewrite Hm in Hr. injection Hr as <-. by apply Hreg.
Qed.

(** ** What the digest covers *)

Lemma claims_keys_NoDup c : NoDup (claims c).*1.
Proof. apply (bool_decide_unpack _). by vm_compute. Qed.

Lemma claims_fields c : claims c ⊆ certificate_fields c.
Proof.
  intros kv. unfold claims, field_remove. rewrite !list_elem_of_In. by intros [? _]%filter_In.
Qed.

Lemma JOption_wf o : value_wf (JOption o).
Proof. by destruct o. Qed.

Lemma strings_wf (l : list string) : value_wf (JArray (JString <$> l)).
Proof. apply value_wf_array, Forall_fmap, Forall_forall. done. Qed.

Lemma claims_wf c : value_wf (JObject (claims c)).
Proof.
  apply value_wf_object. split; [apply claims_keys_NoDup|].
  assert (Hf : Forall (λ kv, value_wf kv.2) (certificate_fields c)).
  { repeat constructor; cbn [snd]; auto using JOption_wf, strings_wf. }
  rewrite Forall_forall in Hf |- *. intros kv Hkv. by apply Hf, claims_fields.
Qed.

#[local] Instance JOption_inj : Inj (=) (=) JOption.
Proof. intros [x|] [y|]; naive_solver. Qed.

Lemma canonical_JOption o : canonicalize_value (JOption o) = JOption o.
Proof. by destruct o. Qed.

Ltac by_claim G key :=
  let E := fresh in
  pose proof (G key _ _ eq_refl eq_refl) as E; rewrite ?canonical_JOption in E;
  first [by injection E|by apply (inj JOption) in E].

(** Certificates with the same canonical claims differ at most in the digest. *)
Lemma claims_inj c c' :
  canonicalize_value (JObject (claims c)) = canonicalize_value (JObject (claims c')) →
  set_digest c "" = set_digest c' "".
Proof.
  intros E.
  pose proof (λ k, canonicalize_field _ _ k (claims_keys_NoDup c) (claims_keys_NoDup c') E) as F.
  assert (G : ∀ k v v', field_get k (claims c) = Some v → field_get k (claims c') = Some v' →
    canonicalize_value v = canonicalize_value v').
  { intros k v v' Hv Hv'. specialize (F k). rewrite Hv, Hv' in F. by injection F. }
  unfold set_digest. f_equal; [
    by_claim G "schema"|by_claim G "campaign_id"|by_claim G "spec_id"|by_claim G "state"|
    by_claim G "evidence_level"|by_claim G "verified_finding"|by_claim G "original_digest"|
    by_claim G "original_digest_after"|by_claim G "original_unmodified"|
    by_claim G "harness_digest"|by_claim G "independent_reproduced"|by_claim G "twin_holds"|
    by_claim G "variant_holds"|by_claim G "regression_relpath"|by_claim G "regression_digest"|
    by_claim G "minimized_relpath"|by_claim G "minimized_digest"|by_claim G "contained"|
    by_claim G "required_evidence_met"|by_claim G "ledger_head"|by_claim G "ledger_events"|
    by_claim G "release_eligible"|].
  pose proof (G "limits" _ _ eq_refl eq_refl) as L. rewrite !strings_canonical in L.
  injection L as L. apply list_fmap_eq_inj in L; [done|]. by intros ?? [= ->].
Qed.

(** C28: the digest of a certificate covers every claim in it: two certificates
    with the same digest agree in every field but the digest, or the canonical
    bytes of their claims are a collision of the hash function. *)
Theorem digest_covers_claims `{!JsonLaws J} c c' d :
  certificate_digest c = Ok d → certificate_digest c' = Ok d →
  set_digest c "" = set_digest c' "" ∨
  (∃ x y, to_canonical_json (JObject (claims c)) = Ok x ∧
     to_canonical_json (JObject (claims c')) = Ok y ∧ x ≠ y ∧ blake3_hex x = blake3_hex y).
Proof.
  rewrite !certificate_digest_claims. unfold to_canonical_json, Value_serialize, to_value, map_err.
  unfold mbind, result_bind. intros [= Hd] [= Hd'].
  set (x := canonicalize_value (JObject (claims c))) in *.
  set (y := canonicalize_value (JObject (claims c'))) in *.
  destruct (decide (json_to_vec x = json_to_vec y)) as [Heq|Hne].
  - left. apply claims_inj, json_to_vec_inj; [apply claims_wf..|exact Heq].
  - right. exists (json_to_vec x), (json_to_vec y). split_and!; [done..|exact (eq_trans Hd (eq_sym Hd'))].
Qed.

(** ** Which outcomes get a certificate *)

Lemma measured_claims_match m :
  Declared.measured_wf m →
  claims_match_level (level_debug (Declared.raw_level m)) (Declared.independent m)
    (Declared.twin_holds m) (Declared.e7_ok m) (Declared.e7_ok m) =
  negb (Declared.twin_holds m && negb (Declared.independent m)).
Proof.
  destruct m as [[] [] [] [] []]; intros [He Ht]; cbn in Ht, He;
    try discriminate (Ht eq_refl); try destruct (He eq_refl); try done.
Qed.

Definition refusal : EngineError :=
  EeFailClosed "certificate refused: evidence level does not match the recorded measurements".

(** A declared campaign's outcome is refused its certificate in exactly one
    case: the patched twin held while the attack on the original was not
    independently reproduced. This happens after the campaign and its ledger
    have been stored, so such a run ends in an error although its campaign is
    already recorded, possibly as verified. *)
Theorem certificate_refused_iff fault wd spec o ledger m :
  Declared.measured_wf m →
  out_evidence_level o = Some (Declared.raw_level m) →
  meta_independent_reproduced (out_declared o) = Declared.independent m →
  meta_twin_holds (out_declared o) = Declared.twin_holds m →
  meta_variant_holds (out_declared o) = Declared.e7_ok m →
  bool_decide (is_Some (meta_regression_digest (out_declared o))) = Declared.e7_ok m →
  (write_certificate fault wd spec o ledger).2 = Err refusal ↔
  Declared.twin_holds m = true ∧ Declared.independent m = false.
Proof.
  intros Hm Hl Hi Ht Hv Hr. unfold write_certificate, level_text. rewrite Hl, Hi, Ht, Hv, Hr.
  change (default _ _) with (level_debug (Declared.raw_level m)). rewrite measured_claims_match by done.
  destruct (certificate_digest_total (certificate_of spec o ledger)) as [d Hd]. rewrite Hd.
  generalize (set_digest (certificate_of spec o ledger) d). clear. intros c.
  destruct (Declared.twin_holds m), (Declared.independent m), (to_text c), fault; naive_solver.
Qed.

End Operations.

End Certificate.
