(* ===== verification/Daemon.v ===== *)
(** * The daemon (crate [aros-api], [auth.rs], [registry.rs], [main.rs])

    Bearer authentication, the registry of campaign outcomes and worker turns in
    a database of its own, the loop that serves the intents of the research
    worker, and the HTTP handlers. Each handler holds the lock of what it
    mutates, so handlers are atomic steps on the shared state; between the steps
    of one handler others may run. *)

From S2P Require Import Prelude RustStr Net Json Types PathScope Policy Ledger.
From S2P Require Import Cas Store HttpLab Ipc Broker Lab Engine Certificate.
Import Ledger.

(** ** Authentication *)

Module Auth.

Section Auth.
(** [HeaderValue::to_str] of the [http] crate. *)
Variable header_to_str : string → option string.

(** The bytes of two strings, pairwise. *)
Fixpoint zip_bytes (s t : string) : list (N * N) :=
  match s, t with
  | String a s, String b t => (byte_val a, byte_val b) :: zip_bytes s t
  | _, _ => []
  end.

(** [src crates/aros-api/src/auth.rs 16-27 constant_time_eq] *)
Definition constant_time_eq (left right : string) : bool :=
  if negb (str_len left =? str_len right)%nat then false
  else (foldl (λ diff ab, N.lor diff (N.lxor ab.1 ab.2)) 0 (zip_bytes left right) =? 0)%N.

(** [authorization] is the raw value of the header, if there is one.
    [src crates/aros-api/src/auth.rs 5-14 bearer_authorized] *)
Definition bearer_authorized (authorization : option string) (expected_token : string) : bool :=
  if is_empty expected_token then false
  else
    match (authorization ≫= header_to_str) ≫= strip_prefix "Bearer " with
    | Some token => constant_time_eq token expected_token
    | None => false
    end.

Lemma diff_zero l acc :
  foldl (λ diff (ab : N * N), N.lor diff (N.lxor ab.1 ab.2)) acc l = 0%N ↔
  acc = 0%N ∧ Forall (λ ab, ab.1 = ab.2) l.
Proof.
  revert acc. induction l as [|[a b] l IH]; intros acc; cbn; [naive_solver|].
  rewrite IH, Forall_cons, N.lor_eq_0_iff, N.lxor_eq_0_iff. naive_solver.
Qed.

Lemma zip_bytes_eq s t :
  str_len s = str_len t → (Forall (λ ab, ab.1 = ab.2) (zip_bytes s t) ↔ s = t).
Proof.
  revert t. induction s as [|a s IH]; intros [|b t] Hl; cbn in *; try done.
  rewrite Forall_cons, IH by (by injection Hl). cbn. split; [|by intros [= <- <-]].
  intros [Hab ->]. f_equal. rewrite <- (ascii_N_embedding a), <- (ascii_N_embedding b).
  unfold byte_val in Hab. by rewrite Hab.
Qed.

Lemma constant_time_eq_spec s t : constant_time_eq s t = true ↔ s = t.
Proof.
  unfold constant_time_eq. destruct (Nat.eqb_spec (str_len s) (str_len t)) as [Hl|Hl]; cbn [negb].
  - rewrite N.eqb_eq, diff_zero, zip_bytes_eq by done. naive_solver.
  - split; [done|]. by intros ->.
Qed.

(** A request is authorized exactly when its Authorization header is "Bearer"
    with the daemon's own token, compared byte by byte without an early exit, and
    never when the daemon has no token. *)
Theorem bearer_authorized_spec authorization expected :
  bearer_authorized authorization expected = true ↔
  expected ≠ "" ∧ ∃ value, authorization = Some value ∧
    header_to_str value = Some ("Bearer " +:+ expected).
Proof.
  unfold bearer_authorized. destruct (is_empty expected) eqn:He.
  { destruct expected; [|done]. split; [done|by intros [? _]]. }
  assert (expected ≠ "") by (by intros ->).
  destruct authorization as [v|]; cbn -[strip_prefix constant_time_eq]; [|by split; [|intros (_ & ? & ? & _)]].
  destruct (header_to_str v) as [s|] eqn:Hv; cbn -[strip_prefix constant_time_eq]; [|split; [done|intros (_ & ? & [= <-] & ?); congruence]].
  destruct (strip_prefix "Bearer " s) as [tok|] eqn:Hs.
  - apply strip_prefix_spec in Hs as ->. rewrite constant_time_eq_spec. split.
    + intros ->. eauto.
    + intros (_ & v' & [= <-] & E). rewrite Hv in E. apply (inj Some) in E.
      by apply (sapp_inv_head "Bearer ") in E.
  - split; [done|]. intros (_ & v' & [= <-] & E). rewrite Hv in E. apply (inj Some) in E as ->.
    by rewrite strip_prefix_app in Hs.
Qed.

End Auth.

End Auth.

(** ** The registry *)

Module Registry.
Import Store.

(** [src crates/aros-api/src/campaign.rs 48-61 FixtureCampaignResponse] *)
Record FixtureCampaignResponse := mkFixtureCampaignResponse {
  fr_campaign_id : string;
  fr_state : string;
  fr_verified : bool;
  fr_deceptive_rejected : bool;
  fr_evidence_level : option string;
  fr_original_digest : string;
  fr_original_digest_after : string;
  fr_original_unmodified : bool;
  fr_claim : option string;
  fr_live_reattack_confirmed : bool;
  fr_research_card_id : option string;
  fr_verifier_isolated : bool;
}.

(** [src crates/aros-api/src/campaign.rs 64-84 FixtureCampaignResponse::from] *)
Definition response_from `{UuidLib} (out : Engine.CampaignOutcome) : FixtureCampaignResponse :=
  let finding := Engine.out_finding out in
  {| fr_campaign_id := id_to_string (campaign_id (Engine.out_campaign out));
     fr_state := state_debug (campaign_state (Engine.out_campaign out));
     fr_verified := default false (finding_verified <$> finding);
     fr_deceptive_rejected := Engine.out_deceptive_rejected out;
     fr_evidence_level := level_debug <$> Engine.out_evidence_level out;
     fr_original_digest := Engine.out_original_digest out;
     fr_original_digest_after := Engine.out_original_digest_after out;
     fr_original_unmodified :=
       bool_decide (Engine.out_original_digest out = Engine.out_original_digest_after out);
     fr_claim := finding_claim <$> finding;
     fr_live_reattack_confirmed := Engine.out_live_reattack_confirmed out;
     fr_research_card_id := Engine.out_research_card_id out;
     fr_verifier_isolated := Engine.out_verifier_isolated out |}.

(** [src crates/aros-api/src/registry.rs 13-17 CampaignRecord] *)
Record CampaignRecord := mkCampaignRecord {
  record_response : FixtureCampaignResponse;
  record_stored_unix_ms : N;
}.

(** [src crates/aros-api/src/registry.rs 19-32 WorkerResearchTurn] *)
Record WorkerResearchTurn := mkWorkerResearchTurn {
  turn_session_id : string;
  turn_request_id : string;
  turn_capability : string;
  turn_path : option string;
  turn_host : option string;
  turn_port : option N;
  turn_decision : string;
  turn_reason : string;
  turn_exit_status : option Z;
  turn_stdout_digest : option string;
  turn_stored_unix_ms : N;
}.

Definition CAMPAIGN_KIND : string := "fixture_campaign_outcome".
Definition WORKER_TURN_KIND : string := "worker_research_turn".

(** [slice::sort_by_key], which is stable: equal keys keep their order. *)
Fixpoint insert_by {A} (before : A → A → bool) (x : A) (l : list A) : list A :=
  match l with
  | [] => [x]
  | y :: l => if before x y then x :: y :: l else y :: insert_by before x l
  end.
Fixpoint sort_by {A} (before : A → A → bool) (l : list A) : list A :=
  match l with
  | [] => []
  | x :: l => insert_by before x (sort_by before l)
  end.

Section Registry.
Context `{!JsonText CampaignRecord, !JsonText WorkerResearchTurn}.
Variable store_error_display : StoreError → string.
Variable json_error : string.

(** [src crates/aros-api/src/registry.rs 54-56 CampaignRegistry::store] *)
Definition store (db : Certificate.Database) : Certificate.Database * result string Db :=
  match db with
  | Certificate.DbMissing => (Certificate.DbTables Db_empty, Ok Db_empty)
  | Certificate.DbCorrupt => (db, Err (store_error_display Sqlite))
  | Certificate.DbTables t => (db, Ok t)
  end.

(** Open the database and insert one record. *)
Definition put_text (fail : bool) (kind key : string) (payload : option string)
    (db : Certificate.Database) : Certificate.Database * result string unit :=
  match payload with
  | None => (db, Err json_error)
  | Some payload =>
    match store db with
    | (db, Err e) => (db, Err e)
    | (db, Ok t) =>
      match put_record fail kind key payload t with
      | Ok t => (Certificate.DbTables t, Ok ())
      | Err e => (db, Err (store_error_display e))
      end
    end
  end.

(** [src crates/aros-api/src/registry.rs 58-67 CampaignRegistry::put] *)
Definition put (now : N) (fail : bool) (r : FixtureCampaignResponse) (db : Certificate.Database) :
    Certificate.Database * result string unit :=
  put_text fail CAMPAIGN_KIND (fr_campaign_id r) (to_text (mkCampaignRecord r now)) db.

(** [src crates/aros-api/src/registry.rs 69-75 CampaignRegistry::get] *)
Definition get (id : string) (db : Certificate.Database) :
    Certificate.Database * result string CampaignRecord :=
  match store db with
  | (db, Err e) => (db, Err e)
  | (db, Ok t) =>
    (db, payload ← map_err store_error_display (get_record CAMPAIGN_KIND id t);
         ok_or (from_text payload) json_error)
  end.

(** [src crates/aros-api/src/registry.rs 77-88 CampaignRegistry::list] *)
Definition list_ (db : Certificate.Database) :
    Certificate.Database * result string (list CampaignRecord) :=
  match store db with
  | (db, Err e) => (db, Err e)
  | (db, Ok t) =>
    (db, out ← try_map (λ r, ok_or (from_text r.2) json_error) (list_records CAMPAIGN_KIND t);
         Ok (sort_by (λ a b, record_stored_unix_ms b <=? record_stored_unix_ms a)%N out))
  end.

(** [src crates/aros-api/src/registry.rs 93-99 CampaignRegistry::put_worker_turn] *)
Definition put_worker_turn (fail : bool) (turn : WorkerResearchTurn) (db : Certificate.Database) :
    Certificate.Database * result string unit :=
  put_text fail WORKER_TURN_KIND (turn_session_id turn +:+ ":" +:+ turn_request_id turn)
    (to_text turn) db.

(** [src crates/aros-api/src/registry.rs 101-112 CampaignRegistry::list_worker_turns] *)
Definition list_worker_turns (db : Certificate.Database) :
    Certificate.Database * result string (list WorkerResearchTurn) :=
  match store db with
  | (db, Err e) => (db, Err e)
  | (db, Ok t) =>
    (db, out ← try_map (λ r, ok_or (from_text r.2) json_error) (list_records WORKER_TURN_KIND t);
         Ok (sort_by (λ a b, turn_stored_unix_ms a <=? turn_stored_unix_ms b)%N out))
  end.

End Registry.

(** [src crates/aros-api/src/registry.rs 114-140 CampaignRegistry::new_worker_turn] *)
Definition new_worker_turn (now : N) (session_id request_id capability : string)
    (path host : option string) (port : option N) (decision reason : string)
    (exit_status : option Z) (stdout_digest : option string) : WorkerResearchTurn :=
  mkWorkerResearchTurn session_id request_id capability path host port decision reason exit_status
    stdout_digest now.

(** ** What the registry keeps *)

Section Laws.
Context `{T1 : JsonText CampaignRecord, !JsonTextLaws CampaignRecord,
  T2 : JsonText WorkerResearchTurn, !JsonTextLaws WorkerResearchTurn}.
Variable store_error_display : StoreError → string.
Variable json_error : string.

Definition tables (db : Certificate.Database) : Db :=
  match db with Certificate.DbTables t => t | _ => Db_empty end.

Lemma put_text_Ok fail kind key payload db db' :
  put_text store_error_display json_error fail kind key payload db = (db', Ok ()) →
  ∃ p t, payload = Some p ∧ db' = Certificate.DbTables t ∧ db ≠ Certificate.DbCorrupt ∧
    put_record fail kind key p (tables db) = Ok t.
Proof.
  unfold put_text. destruct payload as [p|]; [|done]. destruct db as [| |t]; cbn [store tables]; try done;
    (destruct (put_record _ _ _ _ _) as [t'|e] eqn:Hp; [|done]); intros [= <-]; eauto 6.
Qed.

Lemma get_alt id db :
  db ≠ Certificate.DbCorrupt →
  (get store_error_display json_error id db).2 =
    (payload ← map_err store_error_display (get_record CAMPAIGN_KIND id (tables db));
     ok_or (from_text payload) json_error).
Proof. by destruct db. Qed.

(** A campaign outcome the registry stored is read back, field for field and
    with its time, under the campaign's id, the outcomes stored under other ids
    are as before, and recording a worker's turn never changes an outcome. *)
Theorem registry_keeps_outcomes now fail r turn db db' :
  put store_error_display json_error now fail r db = (db', Ok ()) →
  (get store_error_display json_error (fr_campaign_id r) db').2 = Ok (mkCampaignRecord r now) ∧
  (∀ id, id ≠ fr_campaign_id r →
     (get store_error_display json_error id db').2 = (get store_error_display json_error id db).2) ∧
  ∀ fail' db'', put_worker_turn store_error_display json_error fail' turn db' = (db'', Ok ()) →
    ∀ id, (get store_error_display json_error id db'').2 = (get store_error_display json_error id db').2.
Proof.
  intros (p & t & Hp & -> & Hc & [Hg Ho]%put_get_record)%put_text_Ok. split_and!.
  - rewrite get_alt by done. cbn [tables]. rewrite Hg. cbn. by rewrite (from_to_text _ _ Hp).
  - intros id Hid. rewrite !get_alt by done. cbn [tables]. by rewrite Ho by congruence.
  - intros fail' db'' (p' & t' & _ & -> & _ & [_ Ho']%put_get_record)%put_text_Ok id.
    rewrite !get_alt by done. cbn [tables]. by rewrite Ho' by done.
Qed.

(** Turns are keyed by the request id the worker chose: when it reuses an id
    within a session, the later record replaces the earlier one, which is then no
    longer listed. *)
Theorem worker_turn_overwritten first second db db' :
  turn_session_id first = turn_session_id second → turn_request_id first = turn_request_id second →
  put_worker_turn store_error_display json_error false first Certificate.DbMissing = (db, Ok ()) →
  put_worker_turn store_error_display json_error false second db = (db', Ok ()) →
  list_worker_turns store_error_display json_error db = (db, Ok [first]) ∧
  list_worker_turns store_error_display json_error db' = (db', Ok [second]).
Proof.
  intros Hs Hr (p & t & Hp & -> & _ & [= <-])%put_text_Ok (p' & t' & Hp' & -> & _ & Hput)%put_text_Ok.
  assert (Hone : ∀ key q x, from_text q = Some x → list_worker_turns store_error_display json_error
    (Certificate.DbTables (set_records Db_empty [(WORKER_TURN_KIND, key, q)])) =
    (Certificate.DbTables (set_records Db_empty [(WORKER_TURN_KIND, key, q)]), Ok [x])).
  { intros key q x Hx. cbn. rewrite decide_True by done. cbn. by rewrite Hx. }
  split; [by eapply Hone, from_to_text|]. rewrite Hs, Hr in Hput. cbn in Hput.
  rewrite decide_False in Hput by auto. injection Hput as <-. by eapply Hone, from_to_text.
Qed.

End Laws.

End Registry.

(** ** The daemon *)

Module Daemon.
Import Lab.

(** What a handler returns: a body, or a status with an [ApiError]. *)
Inductive Response (A : Type) :=
| Json (a : A)
| Unauthorized
| NotFound (error : string)
| Unprocessable (error : string)
| ServerError (error : string).
Arguments Json {A}. Arguments Unauthorized {A}. Arguments NotFound {A}. Arguments Unprocessable {A}.
Arguments ServerError {A}.

Section Daemon.
Context `{L : IpNetLib, U : UuidLib, J : JsonLib, Hl : HashLib, !Serialize EventRecord,
  !Serialize AuthorizationManifest, P : Ipc.Prost,
  !Store.JsonText Registry.CampaignRecord, !Store.JsonText Registry.WorkerResearchTurn}.
Variable fs : Broker.HostFs.
Variable exchange : string → N → string → option string.
Variable json_string : string → string.
Variable broker_error_display : Broker.BrokerError → string.
Variable str_debug : string → string.
Variable store_error_display : Store.StoreError → string.
Variable json_error : string.
Variable header_to_str : string → option string.

(** [src crates/aros-api/src/main.rs 46-54 AppState] *)
Record AppState := mkAppState {
  app_supervisor : Ipc.WorkerSupervisor;
  intents_handled : N;
  intents_executed : N;
  app_lab : LabRuntime;
  app_registry : Certificate.Database;
  worker_session_id : string;
  daemon_token : string;
}.

Definition set_supervisor (s : AppState) x :=
  mkAppState x (intents_handled s) (intents_executed s) (app_lab s) (app_registry s)
    (worker_session_id s) (daemon_token s).
Definition set_counts (s : AppState) h e :=
  mkAppState (app_supervisor s) h e (app_lab s) (app_registry s) (worker_session_id s) (daemon_token s).
Definition set_lab (s : AppState) x :=
  mkAppState (app_supervisor s) (intents_handled s) (intents_executed s) x (app_registry s)
    (worker_session_id s) (daemon_token s).
Definition set_registry (s : AppState) x :=
  mkAppState (app_supervisor s) (intents_handled s) (intents_executed s) (app_lab s) x
    (worker_session_id s) (daemon_token s).

(** [*counter += 1] on a [u64], as in a release build. *)
Definition incr (n : N) : N := wrap 64 (n + 1).

(** What one turn draws from its surroundings. [join_error] is the failure of the
    blocking task, which then did not run. *)
Record Turn := mkTurn {
  t_request : RequestId;
  t_draws : Broker.Draws;
  t_join_error : option string;
  t_now : N;
  t_registry_fails : bool;
  t_write_fault : option Ipc.WriteFault;
}.

Definition denied (reason : string) : ToolIntentResponse := mkToolIntentResponse "DENY" reason None None.

(** The blocking task: [lab.execute(intent)] under the lock of the lab. *)
Definition run_task (t : Turn) (i : ToolIntent) (s : AppState) : AppState * ToolIntentResponse :=
  match t_join_error t with
  | Some error => (s, denied ("join error: " +:+ error))
  | None =>
    let '(rt, resp) := execute fs exchange json_string broker_error_display (app_lab s) (t_draws t) i in
    (set_lab s rt, resp)
  end.

(** [if decision == "ALLOW" && stdout_digest.is_some() { executed += 1 }] *)
Definition count_executed (resp : ToolIntentResponse) (s : AppState) : AppState :=
  if String.eqb (resp_decision resp) "ALLOW" && bool_decide (is_Some (resp_stdout_digest resp))
  then set_counts s (intents_handled s) (incr (intents_executed s)) else s.
Definition count_handled (s : AppState) : AppState :=
  set_counts s (incr (intents_handled s)) (intents_executed s).

(** [src crates/aros-api/src/main.rs 99-107 execute_intent] *)
Definition intent_result (resp : ToolIntentResponse) : Ipc.IntentResult :=
  Ipc.mkIntentResult (resp_decision resp) (resp_reason resp) (resp_exit_status resp)
    (resp_stdout_digest resp).

(** How a turn of the loop ends: with a break, or with what was answered. *)
Inductive TurnEnd :=
| Stop
| Served (id : string) (m : Ipc.ToolIntentMsg) (resp : ToolIntentResponse) (written : bool)
| Ignored.

(** The arm of [Kind::ToolIntent].
    [src crates/aros-api/src/main.rs 122-175 handle_worker_intents] *)
Definition serve_intent (t : Turn) (id : string) (m : Ipc.ToolIntentMsg) (s : AppState) :
    AppState * TurnEnd :=
  let '(s, resp) :=
    match intent_from_msg str_debug (t_request t) m with
    | Ok intent => run_task t intent s
    | Err reason => (s, denied reason)
    end in
  let turn := Registry.new_worker_turn (t_now t) (worker_session_id s) id (Ipc.msg_capability m)
                (Ipc.msg_path m) (Ipc.msg_host m) (Ipc.msg_port m) (resp_decision resp)
                (resp_reason resp) (resp_exit_status resp) (resp_stdout_digest resp) in
  let s := set_registry s (Registry.put_worker_turn store_error_display json_error
             (t_registry_fails t) turn (app_registry s)).1 in
  let s := count_executed resp s in
  let reply := Ipc.mkEnvelope Ipc.PROTOCOL_VERSION id (Some (Ipc.KIntentResult (intent_result resp))) in
  match Ipc.write_next (t_write_fault t) reply (app_supervisor s) with
  | (sup, Err _) => (set_supervisor s sup, Served id m resp false)
  | (sup, Ok _) => (count_handled (set_supervisor s sup), Served id m resp true)
  end.

(** One turn of the loop.
    [src crates/aros-api/src/main.rs 110-184 handle_worker_intents] *)
Definition worker_turn (t : Turn) (s : AppState) : AppState * TurnEnd :=
  match Ipc.read_next (app_supervisor s) with
  | (sup, Err _) => (set_supervisor s sup, Stop)
  | (sup, Ok env) =>
    let s := set_supervisor s sup in
    match Ipc.kind env with
    | Some (Ipc.KToolIntent m) => serve_intent t (Ipc.request_id env) m s
    | Some (Ipc.KShutdown _) => (s, Stop)
    | _ => (s, Ignored)
    end
  end.

(** The loop, up to [fuel] turns; [None] if they were not enough. The answers
    given are collected.
    [src crates/aros-api/src/main.rs 109-185 handle_worker_intents] *)
Fixpoint handle_worker_intents (fuel : nat) (ts : nat → Turn) (s : AppState) :
    AppState * option (list TurnEnd) :=
  match fuel with
  | 0 => (s, None)
  | Datatypes.S fuel =>
    match worker_turn (ts fuel) s with
    | (s, Stop) => (s, Some [])
    | (s, Served id m resp false) => (s, Some [Served id m resp false])
    | (s, e) => let '(s, r) := handle_worker_intents fuel ts s in (s, cons e <$> r)
    end
  end.

(** ** HTTP handlers *)

(** [src crates/aros-api/src/main.rs 56-58 authorized] *)
Definition authorized (headers : option string) (s : AppState) : bool :=
  Auth.bearer_authorized header_to_str headers (daemon_token s).

(** [src crates/aros-api/src/main.rs 187-223 tool_intent] *)
Definition tool_intent (t : Turn) (headers : option string) (req : ToolIntentRequest) (s : AppState) :
    AppState * Response ToolIntentResponse :=
  if negb (authorized headers s) then (s, Unauthorized)
  else
    match intent_from_request str_debug (t_request t) req with
    | Err reason => (s, Json (denied reason))
    | Ok intent =>
      let '(s, resp) := run_task t intent s in
      (count_handled (count_executed resp s), Json resp)
    end.

(** [src crates/aros-api/src/main.rs 255-268 get_campaign] *)
Definition get_campaign (headers : option string) (id : string) (s : AppState) :
    AppState * Response Registry.CampaignRecord :=
  if negb (authorized headers s) then (s, Unauthorized)
  else
    let '(db, r) := Registry.get store_error_display json_error id (app_registry s) in
    (set_registry s db, match r with Ok c => Json c | Err e => NotFound e end).

(** [src crates/aros-api/src/main.rs 270-282 list_campaigns] *)
Definition list_campaigns (headers : option string) (s : AppState) :
    AppState * Response (list Registry.CampaignRecord) :=
  if negb (authorized headers s) then (s, Unauthorized)
  else
    let '(db, r) := Registry.list_ store_error_display json_error (app_registry s) in
    (set_registry s db, match r with Ok c => Json c | Err e => ServerError e end).

(** [src crates/aros-api/src/main.rs 284-296 list_worker_turns] *)
Definition list_turns_handler (headers : option string) (s : AppState) :
    AppState * Response (list Registry.WorkerResearchTurn) :=
  if negb (authorized headers s) then (s, Unauthorized)
  else
    let '(db, r) := Registry.list_worker_turns store_error_display json_error (app_registry s) in
    (set_registry s db, match r with Ok c => Json c | Err e => ServerError e end).

(** [src crates/aros-api/src/main.rs 26-39 Health] *)
Record Health := mkHealth {
  h_service : string;
  h_product : string;
  h_version : string;
  h_python_embedded : bool;
  h_worker_alive : bool;
  h_ipc : string;
  h_intents_handled : N;
  h_intents_executed : N;
  h_cas_root : string;
  h_lab_root : string;
  h_campaigns_stored : N;
}.

(** [exited] is what polling the worker process reports. The handler asks for no
    token.
    [src crates/aros-api/src/main.rs 397-428 health] *)
Definition health (pkg_version : string) (exited : bool) (s : AppState) : AppState * Health :=
  let '(db, campaigns) := Registry.list_ store_error_display json_error (app_registry s) in
  (set_registry s db,
   {| h_service := DAEMON_NAME; h_product := PRODUCT_NAME; h_version := pkg_version;
      h_python_embedded := false; h_worker_alive := Ipc.worker_alive exited (app_supervisor s);
      h_ipc := Ipc.listener_addr (app_supervisor s); h_intents_handled := intents_handled s;
      h_intents_executed := intents_executed s; h_cas_root := Cas.root (rt_cas (app_lab s));
      h_lab_root := default "" (List.hd_error (allowed_filesystem_roots (rt_manifest (app_lab s))));
      h_campaigns_stored := match campaigns with Ok l => N.of_nat (length l) | Err _ => 0 end |}).

End Daemon.

End Daemon.
