(* ===== verification/Serving.v ===== *)
(** * Concurrent service (crate [aros-api], [main.rs])

    The daemon serves the research worker and its HTTP clients at the same time,
    on one shared state behind locks. Here every handler is a thread whose steps
    are the stretches between lock acquisitions, and a run of the daemon is any
    interleaving of such steps. The handlers of [Daemon] are the runs of one
    thread alone; the theorems hold for every interleaving. *)

From S2P Require Import Prelude RustStr Net Json Types Policy Ledger.
From S2P Require Import Cas Store HttpLab Ipc Broker Lab Certificate Daemon.
Import Ledger Lab Daemon.Daemon.

(** What the handler of a fixture campaign asks of the campaign service: the answer
    to a request, from a state of the service's own. It has no access to the state of
    the daemon. [Service] implements it. *)
Class CampaignService := {
  CampaignRequest : Type;
  ServiceState : Type;
  serve_campaign :
    CampaignRequest → ServiceState → ServiceState * Response Registry.FixtureCampaignResponse;
}.

Section Serving.
Context `{CS : CampaignService}.
Context `{L : IpNetLib, U : UuidLib, J : JsonLib, Hl : HashLib, !Serialize EventRecord,
  !Serialize AuthorizationManifest, P : Ipc.Prost,
  !Store.JsonText Registry.CampaignRecord, !Store.JsonText Registry.WorkerResearchTurn}.
Variable fs : Broker.HostFs.
Variable exchange : string → N → string → option string.
Variable json_string : string → string.
Variable broker_error_display : Broker.BrokerError → string.
Variable str_debug : string → string.
Variable store_error_display : Store.StoreError → string.
Variable json_error : string.
Variable header_to_str : string → option string.
Variable types_error_display : TypesError → string.
Variable pkg_version : string.

(** Where a thread is: [W..] the loop of the research worker, [H..] a POST of a
    tool intent, [G..] a GET, [F..] a POST of a fixture campaign. A thread keeps
    the request it answers; a campaign runs on a state of its own, which its thread
    keeps, and without a lock of the daemon's. *)
Inductive Thread :=
| WRead
| WIntent (id : string) (m : Ipc.ToolIntentMsg)
| WRecord (id : string) (m : Ipc.ToolIntentMsg) (resp : ToolIntentResponse)
| WCount (id : string) (m : Ipc.ToolIntentMsg) (resp : ToolIntentResponse)
| WReply (id : string) (m : Ipc.ToolIntentMsg) (resp : ToolIntentResponse)
| WHandled
| WStop
| HStart (headers : option string) (req : ToolIntentRequest)
| HCount (headers : option string) (req : ToolIntentRequest) (resp : ToolIntentResponse)
| HHandled (headers : option string) (req : ToolIntentRequest) (resp : ToolIntentResponse)
| HDone (headers : option string) (req : ToolIntentRequest) (r : Response ToolIntentResponse)
| GCampaign (headers : option string) (id : string)
| GCampaigns (headers : option string)
| GTurns (headers : option string)
| GHealth (exited : bool)
| GDone
| FStart (headers : option string) (req : CampaignRequest) (v : ServiceState)
| FRun (headers : option string) (req : CampaignRequest) (v : ServiceState)
| FPut (headers : option string) (v : ServiceState) (response : Registry.FixtureCampaignResponse)
| FDone (headers : option string) (v : ServiceState) (answer : Response Registry.FixtureCampaignResponse).

(** The loop of the worker, one lock at a time.
    [src crates/aros-api/src/main.rs 109-185 handle_worker_intents] *)
Definition worker_step (t : Turn) (th : Thread) (s : AppState) : AppState * Thread :=
  match th with
  | WRead =>
    match Ipc.read_next (app_supervisor s) with
    | (sup, Err _) => (set_supervisor s sup, WStop)
    | (sup, Ok env) =>
      (set_supervisor s sup,
       match Ipc.kind env with
       | Some (Ipc.KToolIntent m) => WIntent (Ipc.request_id env) m
       | Some (Ipc.KShutdown _) => WStop
       | _ => WRead
       end)
    end
  | WIntent id m =>
    let '(s, resp) :=
      match intent_from_msg str_debug (t_request t) m with
      | Ok intent => run_task fs exchange json_string broker_error_display t intent s
      | Err reason => (s, denied reason)
      end in (s, WRecord id m resp)
  | WRecord id m resp =>
    let turn := Registry.new_worker_turn (t_now t) (worker_session_id s) id (Ipc.msg_capability m)
                  (Ipc.msg_path m) (Ipc.msg_host m) (Ipc.msg_port m) (resp_decision resp)
                  (resp_reason resp) (resp_exit_status resp) (resp_stdout_digest resp) in
    (set_registry s (Registry.put_worker_turn store_error_display json_error
       (t_registry_fails t) turn (app_registry s)).1, WCount id m resp)
  | WCount id m resp => (count_executed resp s, WReply id m resp)
  | WReply id m resp =>
    let reply := Ipc.mkEnvelope Ipc.PROTOCOL_VERSION id (Some (Ipc.KIntentResult (intent_result resp))) in
    match Ipc.write_next (t_write_fault t) reply (app_supervisor s) with
    | (sup, Err _) => (set_supervisor s sup, WStop)
    | (sup, Ok _) => (set_supervisor s sup, WHandled)
    end
  | WHandled => (count_handled s, WRead)
  | _ => (s, th)
  end.

(** The handler of a tool intent, one lock at a time.
    [src crates/aros-api/src/main.rs 187-223 tool_intent] *)
Definition tool_step (t : Turn) (th : Thread) (s : AppState) : AppState * Thread :=
  match th with
  | HStart headers req =>
    if negb (authorized header_to_str headers s) then (s, HDone headers req Unauthorized)
    else
      match intent_from_request str_debug (t_request t) req with
      | Err reason => (s, HDone headers req (Json (denied reason)))
      | Ok intent =>
        let '(s, resp) := run_task fs exchange json_string broker_error_display t intent s in
        (s, HCount headers req resp)
      end
  | HCount headers req resp => (count_executed resp s, HHandled headers req resp)
  | HHandled headers req resp => (count_handled s, HDone headers req (Json resp))
  | _ => (s, th)
  end.

(** The threads that read the registry hold its lock throughout. *)
Definition query_step (th : Thread) (s : AppState) : AppState * Thread :=
  match th with
  | GCampaign headers id =>
    ((get_campaign store_error_display json_error header_to_str headers id s).1, GDone)
  | GCampaigns headers => ((list_campaigns store_error_display json_error header_to_str headers s).1, GDone)
  | GTurns headers => ((list_turns_handler store_error_display json_error header_to_str headers s).1, GDone)
  | GHealth exited => ((health store_error_display json_error pkg_version exited s).1, GDone)
  | _ => (s, th)
  end.

(** The handler of a fixture campaign: the token is checked, the campaign runs in a
    blocking thread, its outcome is recorded.
    [src crates/aros-api/src/main.rs 225-253 fixture_campaign] *)
Definition campaign_step (t : Turn) (th : Thread) (s : AppState) : AppState * Thread :=
  match th with
  | FStart headers req v =>
    (s, if negb (authorized header_to_str headers s) then FDone headers v Unauthorized
        else FRun headers req v)
  | FRun headers req v =>
    (s, match serve_campaign req v with
        | (v, Json response) => FPut headers v response
        | (v, answer) => FDone headers v answer
        end)
  | FPut headers v response =>
    (set_registry s (Registry.put store_error_display json_error (t_now t) (t_registry_fails t) response
       (app_registry s)).1, FDone headers v (Json response))
  | _ => (s, th)
  end.

Definition thread_step (t : Turn) (th : Thread) (s : AppState) : AppState * Thread :=
  match th with
  | HStart _ _ | HCount _ _ _ | HHandled _ _ _ | HDone _ _ _ => tool_step t th s
  | GCampaign _ _ | GCampaigns _ | GTurns _ | GHealth _ | GDone => query_step th s
  | FStart _ _ _ | FRun _ _ _ | FPut _ _ _ | FDone _ _ _ => campaign_step t th s
  | _ => worker_step t th s
  end.

(** What a client may start. *)
Definition is_request (th : Thread) : Prop :=
  match th with
  | HStart _ _ | GCampaign _ _ | GCampaigns _ | GTurns _ | GHealth _ | FStart _ _ _ => True
  | _ => False
  end.

(** A run of the daemon: at first there is the loop of the worker, if one was
    accepted; then a request arrives, or some thread takes its next step. *)
Inductive serves (s0 : AppState) : AppState → list Thread → Prop :=
| serves_init (worker : bool) : serves s0 s0 (if worker then [WRead] else [])
| serves_request s ths th : serves s0 s ths → is_request th → serves s0 s (ths ++ [th])
| serves_step s ths k th t s' th' :
    serves s0 s ths → ths !! k = Some th → thread_step t th s = (s', th') →
    serves s0 s' (<[k := th']> ths).

(** ** One thread alone *)

(** [n] steps of one thread with nothing in between. *)
Fixpoint alone (n : nat) (t : Turn) (th : Thread) (s : AppState) : AppState * Thread :=
  match n with
  | 0 => (s, th)
  | Datatypes.S n => let '(s, th) := thread_step t th s in alone n t th s
  end.

(** Steps of one thread in a row are an interleaving. *)
Lemma serves_alone n t s0 s ths k th s' th' :
  serves s0 s ths → ths !! k = Some th → alone n t th s = (s', th') → serves s0 s' (<[k := th']> ths).
Proof.
  revert s ths th. induction n as [|n IH]; intros s ths th Hs Hk; cbn.
  - intros [= <- <-]. by rewrite list_insert_id.
  - destruct (thread_step t th s) as [s1 th1] eqn:Et. intros Hn.
    rewrite <- (list_insert_insert_eq ths k th' th1). eapply IH; [by eapply serves_step| |exact Hn].
    apply list_lookup_insert_eq. by eapply lookup_lt_Some.
Qed.

Definition turn_end (e : TurnEnd) : Thread :=
  match e with
  | Stop | Served _ _ _ false => WStop
  | _ => WRead
  end.

(** The loop body of the worker and the tool handler, taken one lock at a
    time with no other thread in between, are exactly the whole-turn definitions:
    a turn ends in at most six steps and a request in at most three. *)
Theorem handlers_are_threads_alone t s :
  (∃ n, n <= 6 ∧ alone n t WRead s =
     let '(s', e) := worker_turn fs exchange json_string broker_error_display str_debug
                       store_error_display json_error t s in (s', turn_end e)) ∧
  (∀ headers req, ∃ n, n <= 3 ∧ alone n t (HStart headers req) s =
     let '(s', r) := tool_intent fs exchange json_string broker_error_display str_debug
                       header_to_str t headers req s in (s', HDone headers req r)).
Proof.
  split.
  - unfold worker_turn. destruct (Ipc.read_next (app_supervisor s)) as [sup [env|e]] eqn:Er.
    2: { exists 1. cbn. rewrite Er. auto with lia. }
    destruct (Ipc.kind env) as [[]|] eqn:Hk.
    all: try (exists 1; cbn; rewrite Er, Hk; split; [lia|reflexivity]).
    unfold serve_intent.
    destruct (match intent_from_msg _ _ _ with Ok _ => _ | Err _ => _ end) as [s1 resp] eqn:Ei.
    match goal with |- context [Ipc.write_next ?f ?r ?p] =>
      destruct (Ipc.write_next f r p) as [sup' [[]|e]] eqn:Ew end.
    + exists 6. cbn. rewrite Er, Hk. cbn. rewrite Ei. cbn. rewrite Ew. split; [lia|reflexivity].
    + exists 5. cbn. rewrite Er, Hk. cbn. rewrite Ei. cbn. rewrite Ew. split; [lia|reflexivity].
  - intros headers req. unfold tool_intent. destruct (authorized _ _ _) eqn:Ha; cbn [negb].
    2: { exists 1. cbn. rewrite Ha. auto with lia. }
    destruct (intent_from_request _ _ _) as [i|e] eqn:Ei.
    2: { exists 1. cbn. rewrite Ha. cbn. rewrite Ei. auto with lia. }
    destruct (run_task _ _ _ _ _ _ _) as [s1 resp] eqn:Et.
    exists 3. cbn. rewrite Ha. cbn. rewrite Ei, Et. auto with lia.
Qed.

(** ** What one step may change *)

Abbreviation man s := (rt_manifest (app_lab s)).
Abbreviation box s := (rt_sandbox (app_lab s)).
Abbreviation history s := (Broker.events (rt_ledger (app_lab s))).

(** How the shared state may evolve: authority and credentials are fixed, the
    ledger only grows and stays verifiable, and a lab that permits nothing stores
    nothing. *)
Record evolves (s s' : AppState) : Prop := mkEvolves {
  ev_manifest : man s' = man s;
  ev_sandbox : box s' = box s;
  ev_token : daemon_token s' = daemon_token s;
  ev_session : worker_session_id s' = worker_session_id s;
  ev_ledger : history s `prefix_of` history s';
  ev_verify : verify (rt_ledger (app_lab s)) = Ok () → verify (rt_ledger (app_lab s')) = Ok ();
  ev_inert : (∀ i, ¬ permitted (man s) (box s) i) → rt_blobs (app_lab s') = rt_blobs (app_lab s);
}.

#[local] Instance evolves_preorder : PreOrder evolves.
Proof.
  split.
  - intros s. by constructor.
  - intros a b c [? ? ? ? ? ? Hi] [Hm Hb ? ? ? ? Hi']. constructor; try congruence; auto.
    + by etrans.
    + intros Hn. rewrite Hi', Hi; [done..|]. intros i. rewrite ev_manifest0, ev_sandbox0. apply Hn.
Qed.

(** Permissions granted so far. *)
Definition is_allowed (e : ResearchEvent) : bool :=
  match e with ToolAllowed _ _ => true | _ => false end.
Definition allowed (s : AppState) : nat := length (filter (λ e, is_allowed e = true) (history s)).

(** The answers that count as an execution. *)
Definition executed (resp : ToolIntentResponse) : bool :=
  String.eqb (resp_decision resp) "ALLOW" && bool_decide (is_Some (resp_stdout_digest resp)).
(** Executions a thread has still to count. *)
Definition pending (th : Thread) : nat :=
  match th with
  | WRecord _ _ resp | WCount _ _ resp | HCount _ _ resp => if executed resp then 1 else 0
  | _ => 0
  end.

(** What an answer rests on. *)
Definition msg_justified (s : AppState) (m : Ipc.ToolIntentMsg) (resp : ToolIntentResponse) : Prop :=
  resp_decision resp = "ALLOW" →
  ∃ fresh i, intent_from_msg str_debug fresh m = Ok i ∧ permitted (man s) (box s) i.
Definition req_justified (s : AppState) (req : ToolIntentRequest) (resp : ToolIntentResponse) : Prop :=
  resp_decision resp = "ALLOW" →
  ∃ fresh i, intent_from_request str_debug fresh req = Ok i ∧ permitted (man s) (box s) i.
Definition justified (s : AppState) (th : Thread) : Prop :=
  match th with
  | WRecord _ m resp | WCount _ m resp | WReply _ m resp => msg_justified s m resp
  | HCount headers req resp | HHandled headers req resp | HDone headers req (Json resp) =>
    authorized header_to_str headers s = true ∧ req_justified s req resp
  | HDone headers req Unauthorized => authorized header_to_str headers s = false
  | HDone _ _ _ => False
  | FRun headers _ _ | FPut headers _ _ | FDone headers _ (Json _) => authorized header_to_str headers s = true
  | _ => True
  end.

Lemma justified_evolves s s' th : evolves s s' → justified s th → justified s' th.
Proof.
  intros [Hm Hb Ht _ _ _ _].
  assert (Ha : ∀ h, authorized header_to_str h s' = authorized header_to_str h s)
    by (intros h; unfold authorized; by rewrite Ht).
  destruct th as [| | | | | | | | | | ? ? [] | | | | | | | | |? ? []]; cbn; unfold msg_justified, req_justified;
    rewrite ?Hm, ?Hb, ?Ha; done.
Qed.

Lemma allowed_prefix s s' : history s `prefix_of` history s' → allowed s <= allowed s'.
Proof. intros [evs E]. unfold allowed. rewrite E, filter_app, length_app. lia. Qed.

(** The blocking task is the only step that touches the lab. *)
Lemma run_task_effect t i s s' resp :
  run_task fs exchange json_string broker_error_display t i s = (s', resp) →
  evolves s s' ∧ intents_executed s' = intents_executed s ∧
  (resp_decision resp = "ALLOW" → permitted (man s) (box s) i ∧ allowed s' = allowed s + 1).
Proof.
  unfold run_task. destruct (t_join_error t) as [e|]; [by intros [= <- <-]|].
  destruct (execute _ _ _ _ _ _ _) as [rt r] eqn:E. intros [= <- <-].
  apply execute_effect in E as (Hm & Hb & [evs Hev] & Hv & _ & Hal & Hn).
  split_and!; [|done|].
  - constructor; cbn; try done; [by exists evs|]. intros Hi. by apply Hn.
  - intros Hd. destruct (Hal Hd) as [Hp Hev']. split; [done|]. unfold allowed. cbn.
    rewrite Hev', filter_app, length_app. done.
Qed.

Lemma executed_allow resp : executed resp = true → resp_decision resp = "ALLOW".
Proof. unfold executed. rewrite andb_true_iff, String.eqb_eq. by intros [? _]. Qed.

(** A step that leaves lab, credentials and the executed count alone. *)
Lemma quiet s s' th th' :
  app_lab s' = app_lab s → daemon_token s' = daemon_token s →
  worker_session_id s' = worker_session_id s → intents_executed s' = intents_executed s →
  pending th' <= pending th → (justified s th → justified s th') → justified s th →
  evolves s s' ∧ justified s' th' ∧
  ∃ k, intents_executed s' = Nat.iter k incr (intents_executed s) ∧ k <= pending th ∧
    k + pending th' + allowed s <= pending th + allowed s'.
Proof.
  intros Hlab Ht Hw He Hp Hj Hth.
  assert (Hev : evolves s s') by (constructor; rewrite ?Hlab; done).
  split_and!; [done|by eapply justified_evolves; eauto|]. exists 0. unfold allowed. rewrite Hlab. cbn. lia.
Qed.

(** Counting discharges what the thread had pending. *)
Lemma counted resp s th th' :
  pending th = (if executed resp then 1 else 0) → pending th' = 0 →
  (justified s th → justified s th') → justified s th →
  evolves s (count_executed resp s) ∧ justified (count_executed resp s) th' ∧
  ∃ k, intents_executed (count_executed resp s) = Nat.iter k incr (intents_executed s) ∧
    k <= pending th ∧ k + pending th' + allowed s <= pending th + allowed (count_executed resp s).
Proof.
  intros Hp Hp' Hj Hth.
  assert (Hev : evolves s (count_executed resp s)) by (unfold count_executed; by destruct (_ && _)).
  split_and!; [done|by eapply justified_evolves; eauto|]. rewrite Hp, Hp'.
  unfold count_executed, executed in *. destruct (_ && _); [exists 1|exists 0]; cbn;
    (split; [done|unfold allowed; cbn; lia]).
Qed.

(** A task that ran: what it answered is pending, and was logged as permitted. *)
Lemma ran t i s s' resp th' :
  run_task fs exchange json_string broker_error_display t i s = (s', resp) →
  justified s th' → pending th' = (if executed resp then 1 else 0) →
  evolves s s' ∧ justified s' th' ∧
  ∃ k, intents_executed s' = Nat.iter k incr (intents_executed s) ∧ k <= 0 ∧
    k + pending th' + allowed s <= 0 + allowed s'.
Proof.
  intros (Hev & He & Ha)%run_task_effect Hj Hp.
  split_and!; [done|by eapply justified_evolves|]. exists 0. rewrite Hp. cbn.
  split_and!; [done|lia|]. destruct (executed resp) eqn:Hx.
  - apply executed_allow in Hx as [_ ->]%Ha. lia.
  - apply ev_ledger, allowed_prefix in Hev. lia.
Qed.

(** Every step: the state evolves, answers stay justified, and an execution is
    counted only if a permission was logged for it. *)
Lemma thread_step_effect t th s s' th' :
  thread_step t th s = (s', th') → justified s th →
  evolves s s' ∧ justified s' th' ∧
  ∃ k, intents_executed s' = Nat.iter k incr (intents_executed s) ∧ k <= pending th ∧
    k + pending th' + allowed s <= pending th + allowed s'.
Proof.
  destruct th; cbn; intros Hs Hj.
  - destruct (Ipc.read_next _) as [sup [env|e]]; injection Hs as <- <-; apply (quiet _ _ WRead);
      try done; destruct (Ipc.kind env) as [[]|]; done || (cbn; lia).
  - destruct (intent_from_msg _ _ _) as [i|e] eqn:Hi.
    + destruct (run_task _ _ _ _ _ _ _) as [s1 resp] eqn:Hr. injection Hs as <- <-.
      eapply ran; [done| |done]. intros Hd. apply run_task_effect in Hr as (_ & _ & Ha).
      apply Ha in Hd as [Hp _]. eauto.
    + injection Hs as <- <-. by apply (quiet _ _ (WIntent id m)).
  - injection Hs as <- <-. by apply (quiet _ _ (WRecord id m resp)).
  - injection Hs as <- <-. by apply (counted _ _ (WCount id m resp)).
  - destruct (Ipc.write_next _ _ _) as [sup [[]|e]]; injection Hs as <- <-; by apply (quiet _ _ (WReply id m resp)).
  - injection Hs as <- <-. by apply (quiet _ _ WHandled).
  - injection Hs as <- <-. by apply (quiet _ _ WStop).
  - destruct (authorized _ _ _) eqn:Ha; cbn in Hs.
    2: { injection Hs as <- <-. by apply (quiet _ _ (HStart headers req)). }
    destruct (intent_from_request _ _ _) as [i|e] eqn:Hi.
    + destruct (run_task _ _ _ _ _ _ _) as [s1 resp] eqn:Hr. injection Hs as <- <-.
      eapply ran; [done| |done]. split; [done|]. intros Hd. apply run_task_effect in Hr as (_ & _ & Hal).
      apply Hal in Hd as [Hp _]. eauto.
    + injection Hs as <- <-. by apply (quiet _ _ (HStart headers req)).
  - injection Hs as <- <-. by apply (counted _ _ (HCount headers req resp)).
  - injection Hs as <- <-. by apply (quiet _ _ (HHandled headers req resp)).
  - injection Hs as <- <-. by apply (quiet _ _ (HDone headers req r)).
  - injection Hs as <- <-. apply (quiet _ _ GDone); try done;
      unfold get_campaign; destruct (negb _); try done; by destruct (Registry.get _ _ _ _).
  - injection Hs as <- <-. apply (quiet _ _ GDone); try done;
      unfold list_campaigns; destruct (negb _); try done; by destruct (Registry.list_ _ _ _).
  - injection Hs as <- <-. apply (quiet _ _ GDone); try done;
      unfold list_turns_handler; destruct (negb _); try done; by destruct (Registry.list_worker_turns _ _ _).
  - injection Hs as <- <-. apply (quiet _ _ GDone); try done; unfold health; by destruct (Registry.list_ _ _ _).
  - injection Hs as <- <-. by apply (quiet _ _ GDone).
  - injection Hs as <- <-. apply (quiet _ _ (FStart headers req v)); try done;
      by destruct (authorized _ _ _) eqn:Ha.
  - injection Hs as <- <-. apply (quiet _ _ (FRun headers req v)); try done;
      by destruct (serve_campaign _ _) as [v1 []].
  - injection Hs as <- <-. by apply (quiet _ _ (FPut headers v response)).
  - injection Hs as <- <-. by apply (quiet _ _ (FDone headers v answer)).
Qed.

(** ** Every interleaving *)

Definition all_pending (ths : list Thread) : nat := sum_list_with pending ths.

Lemma all_pending_insert ths k th th' :
  ths !! k = Some th → all_pending (<[k := th']> ths) + pending th = all_pending ths + pending th'.
Proof.
  intros Hk. unfold all_pending. rewrite <- (take_drop_middle _ _ _ Hk) at 2.
  rewrite insert_take_drop by (by eapply lookup_lt_Some).
  rewrite !sum_list_with_app. cbn. lia.
Qed.

Lemma incr_iter k n : Nat.iter k incr (wrap 64 n) = wrap 64 (n + N.of_nat k).
Proof.
  induction k as [|k IH]; [cbn; by rewrite N.add_0_r|].
  change (incr (Nat.iter k incr (wrap 64 n)) = wrap 64 (n + N.of_nat (Datatypes.S k))). rewrite IH. unfold incr, wrap. rewrite N.Div0.add_mod_idemp_l. f_equal. lia.
Qed.

Lemma serves_inv s0 s ths :
  serves s0 s ths → intents_executed s0 = 0%N →
  evolves s0 s ∧ Forall (justified s) ths ∧
  ∃ k, intents_executed s = wrap 64 (N.of_nat k) ∧ k + all_pending ths + allowed s0 <= allowed s.
Proof.
  intros Hs Hz. induction Hs as [|s ths th Hs IH Hr|s ths k th t s' th' Hs IH Hk Hstep].
  - split_and!; [done|destruct worker; by repeat constructor|]. exists 0. rewrite Hz. by destruct worker.
  - destruct IH as (Hev & Hf & n & He & Hn). split_and!; [done| |].
    + apply Forall_app. split; [done|]. by destruct th; repeat constructor.
    + exists n. split; [done|]. unfold all_pending in *. rewrite sum_list_with_app.
      destruct th; cbn in *; try done; lia.
  - destruct IH as (Hev & Hf & n & He & Hn).
    apply thread_step_effect in Hstep as (Hev' & Hj & j & He' & _ & Hj'); [|by eapply Forall_lookup_1].
    split_and!; [by etrans| |].
    + apply Forall_insert; [|done]. eapply Forall_impl; [done|]. intros x. by apply justified_evolves.
    + exists (n + j). apply (all_pending_insert _ _ _ th') in Hk.
      rewrite He', He, incr_iter. split; [f_equal; lia|lia].
Qed.

(** C13: in every interleaving of the worker loop and any number of HTTP
    requests, the manifest, the sandbox and the credentials never change, the
    event ledger only grows and stays verifiable, every answer with ALLOW a
    thread holds is for a request whose intent the manifest permits, a tool
    answer is given to authorized callers only, and the executed counter never
    exceeds the number of permissions in the ledger. *)
Theorem daemon_serves_safely s0 s ths :
  serves s0 s ths → intents_executed s0 = 0%N → verify (rt_ledger (app_lab s0)) = Ok () →
  man s = man s0 ∧ box s = box s0 ∧ daemon_token s = daemon_token s0 ∧
  history s0 `prefix_of` history s ∧ verify (rt_ledger (app_lab s)) = Ok () ∧
  Forall (justified s) ths ∧
  (intents_executed s <= N.of_nat (allowed s - allowed s0))%N.
Proof.
  intros Hs Hz Hv. destruct (serves_inv _ _ _ Hs Hz) as (Hev & Hf & k & -> & Hk).
  destruct Hev as [? ? ? ? ? Hvf _]. split_and!; auto.
  etrans; [apply N.Div0.mod_le|]. lia.
Qed.

(** A daemon whose lab requires containment is inert in every interleaving:
    no request of the worker or of a client is ever answered with ALLOW, nothing
    is written to the blob store and the executed counter stays zero. *)
Theorem daemon_contained_inert s0 s ths io data_root sid blobs m :
  open_with_manifest types_error_display io data_root sid blobs m = Ok (app_lab s0) →
  require_containment m = true → intents_executed s0 = 0%N → serves s0 s ths →
  rt_blobs (app_lab s) = rt_blobs (app_lab s0) ∧ intents_executed s = 0%N ∧
  ∀ k headers req resp, ths !! k = Some (HDone headers req (Json resp)) → resp_decision resp ≠ "ALLOW".
Proof.
  intros Ho Hm Hz Hs.
  assert (Hno : ∀ i, ¬ permitted (man s0) (box s0) i).
  { intros i Hp. pose proof (permitted_contained _ _ _ Hp) as Hc.
    apply bind_Ok in Ho as (u & _ & Ho). apply bind_Ok in Ho as (h & _ & [= Ho]).
    rewrite <- Ho in Hc. by specialize (Hc Hm). }
  destruct (serves_inv _ _ _ Hs Hz) as (Hev & Hf & _). split_and!.
  - by apply (ev_inert _ _ Hev).
  - clear Hf Hev. induction Hs as [|s ths th Hs IH Hr|s ths k th t s' th' Hs IH Hk Hstep]; [done..|].
    destruct (serves_inv _ _ _ Hs Hz) as ([Hman Hbox _ _ _ _ _] & Hf & _).
    assert (Hj : justified s th) by (by eapply Forall_lookup_1).
    apply thread_step_effect in Hstep as (_ & _ & n & He & Hn & _); [|done].
    assert (Hp : pending th = 0).
    { destruct th; cbn in *; try done; destruct (executed resp) eqn:Hx; try done; exfalso;
        apply executed_allow in Hx; first [apply Hj in Hx | apply Hj.2 in Hx];
        destruct Hx as (fresh & i & _ & Hi); rewrite Hman, Hbox in Hi; by eapply Hno. }
    rewrite Hp in Hn. assert (n = 0) as -> by lia. cbn in He. by rewrite He.
  - intros k headers req resp Hk Hd. apply (Forall_lookup_1 _ _ _ _ Hf) in Hk as [_ Hj].
    destruct (Hj Hd) as (fresh & i & _ & Hi). rewrite (ev_manifest _ _ Hev), (ev_sandbox _ _ Hev) in Hi.
    by eapply Hno.
Qed.

(** ** The worker loop *)

(** Bytes the worker has sent and the daemon has not read. *)
Definition unread (s : AppState) : nat :=
  match Ipc.stream (app_supervisor s) with
  | Some c => str_len (Ipc.inbound c)
  | None => 0
  end.

Lemma write_next_unread fault env sup sup' r :
  Ipc.write_next fault env sup = (sup', r) →
  Ipc.inbound <$> Ipc.stream sup' = Ipc.inbound <$> Ipc.stream sup.
Proof.
  unfold Ipc.write_next. destruct (Ipc.stream sup) as [c|] eqn:Hc; [|by intros [= <- _]; rewrite Hc].
  pose proof (Ipc.write_envelope_inbound fault env Ipc.default_max_frame c) as Hi.
  destruct (Ipc.write_envelope _ _ _ _) as [c' r']. intros [= <- _]. cbn in Hi |- *. by rewrite Hi.
Qed.

Abbreviation turn_of t s := (worker_turn fs exchange json_string broker_error_display str_debug
  store_error_display json_error t s).

(** Every turn that goes on has read a frame. *)
Lemma worker_turn_consumes t s s' e :
  turn_of t s = (s', e) → e ≠ Stop → 5 + unread s' <= unread s.
Proof.
  unfold worker_turn, Ipc.read_next. destruct (Ipc.stream (app_supervisor s)) as [c|] eqn:Hc;
    [|by intros [= <- <-]].
  destruct (Ipc.read_envelope _ c) as [c' [env|x]] eqn:Hr; cbn [map_err]; [|by intros [= <- <-]].
  apply Ipc.read_envelope_consumes in Hr.
  assert (Hlt : ∀ s1, Ipc.inbound <$> Ipc.stream (app_supervisor s1) = Some (Ipc.inbound c') →
    5 + unread s1 <= unread s).
  { intros s1 H1. unfold unread. rewrite Hc. destruct (Ipc.stream (app_supervisor s1)); [|done].
    injection H1 as ->. lia. }
  destruct (Ipc.kind env) as [[]|]; try (by intros [= <- <-] ?; apply Hlt).
  unfold serve_intent. destruct (match intent_from_msg _ _ _ with Ok _ => _ | Err _ => _ end) as [s1 resp] eqn:Ei.
  destruct (Ipc.write_next _ _ _) as [sup [[]|x]] eqn:Hw; intros [= <- <-] _; apply Hlt; cbn;
    apply write_next_unread in Hw; rewrite Hw; unfold count_executed; destruct (_ && _); cbn;
    (destruct (intent_from_msg _ _ _); [unfold run_task in Ei|injection Ei as <- _; done]);
    (destruct (t_join_error t); [by injection Ei as <- _|]);
    destruct (execute _ _ _ _ _ _ _); by injection Ei as <- _.
Qed.

(** C31: whatever the worker sends before it closes the connection, the loop that
    serves it ends, and it takes at most one turn for every five bytes sent. *)
Theorem worker_loop_terminates fuel ts s :
  unread s < fuel →
  ∃ s' answers, handle_worker_intents fs exchange json_string broker_error_display str_debug
    store_error_display json_error fuel ts s = (s', Some answers) ∧ 5 * length answers <= unread s.
Proof.
  revert s. induction fuel as [|fuel IH]; intros s Hf; [lia|]. cbn [handle_worker_intents].
  destruct (turn_of (ts fuel) s) as [s1 e] eqn:Ht.
  destruct e as [|id m resp written|].
  - exists s1, []. cbn. split; [done|lia].
  - apply worker_turn_consumes in Ht; [|done]. destruct written.
    + destruct (IH s1) as (s2 & l & -> & Hl'); [lia|]. eexists _, _. split; [done|]. cbn. lia.
    + eexists _, _. split; [done|]. cbn. lia.
  - apply worker_turn_consumes in Ht; [|done].
    destruct (IH s1) as (s2 & l & -> & Hl'); [lia|]. eexists _, _. split; [done|]. cbn. lia.
Qed.

End Serving.
