(* ===== verification/World.v ===== *)
(** * The world of a declared campaign (crate [aros-core], [campaign_loader.rs])

    What a run reads and writes: the source trees, the blob store, the work
    directory with its database, and the event ledger it grows. Operations are
    computations [M] over this state that may stop with an [EngineError].

    The environment answers what the program cannot decide: clocks and fresh
    identifiers, which file operation fails, what the catalog of harnesses
    holds, and what an external process prints and does to the disk: to the source
    trees, to the blob store, and to the files and the database of the work
    directory. *)

From S2P Require Import Prelude RustStr Net Json Types PathScope Policy Ledger.
From S2P Require Import Cas Store Graph Spec Claims Snapshot Declared Engine.
From S2P Require Import Certificate.
Import Ledger Spec Snapshot Declared Engine.

Module World.

(** The start of an external process: in the container or on the host, in which
    source tree, with which limits, and with which harness directory mounted (in
    the container) or bind file named in its environment (on the host). *)
Record Start := mkStart {
  start_contained : bool;
  start_root : string;
  start_argv : list string;
  start_timeout_seconds : option N;
  start_memory_mb : option N;
  start_harness : option string;
  start_bind_file : option string;
}.

(** A process that was started, with the text it returned if it did. *)
Record Run := mkRun {
  run_start : Start;
  run_output : option string;
}.

Record World := mkWorld {
  trees : gmap string tree;
  blobs : gmap string string;
  work : Certificate.WorkDir;
  ledger : EventLedger;
  runs : list Run;
  ticks : nat;
}.

(** What a process can read and write. *)
Record Disk := mkDisk {
  d_trees : gmap string tree;
  d_blobs : gmap string string;
  d_work : Certificate.WorkDir;
}.

Definition on_disk (w : World) : Disk := mkDisk (trees w) (blobs w) (work w).

Record Env := mkEnv {
  env_clock : nat → N;
  env_uuid : nat → Uuid;
  env_tmp : nat → string;
  (** Faults of the blob store, of a database statement, of a file operation
      (with the bytes a failed write leaves behind). *)
  env_cas_fault : nat → option Cas.put_fault;
  env_db_fault : nat → nat → bool;
  env_write_fault : nat → option string;
  env_io_fault : nat → bool;
  (** The regular files of a catalog harness, in directory order. *)
  env_catalog : string → option (list (string * string));
  (** The regular file at a path joined to a root. *)
  env_file : gmap string tree → string → string → option string;
  (** A process: the output text, and the disk it leaves. *)
  env_exec : nat → Start → Disk → Disk * result EngineError string;
  (** The interpreter named in the environment, and whether a candidate answers
      when it is asked for its version, which leaves the disk as it is. *)
  env_python_var : option string;
  env_version : nat → string → bool;
  (** The regression test: whether it could be started, and whether it succeeded. *)
  env_status : nat → Start → Disk → Disk * option bool;
  env_cfg : HostCfg;
}.

(** ** Computations *)

Definition M (A : Type) : Type := World → World * result EngineError A.

#[export] Instance M_ret : MRet M := λ A a w, (w, Ok a).
#[export] Instance M_bind : MBind M := λ A B f m w,
  match m w with
  | (w', Ok a) => f a w'
  | (w', Err e) => (w', Err e)
  end.

(** A primitive step. *)
Definition prim {A} (f : World → World * result EngineError A) : M A := f.

Definition fail {A} (e : EngineError) : M A := λ w, (w, Err e).
Definition lift {A} (r : result EngineError A) : M A := λ w, (w, r).

(** [let _ = ...], [.ok()] and [let Ok(..) = .. else]: the effects stay. *)
Definition try_ {A} (m : M A) : M (option A) := λ w,
  match m w with
  | (w', r) => (w', Ok (ok r))
  end.

Fixpoint fold_m {A B} (f : B → A → M B) (b : B) (l : list A) : M B :=
  match l with
  | [] => mret b
  | x :: l => b ← f b x; fold_m f b l
  end.

(** [for .. { if .. { return false } } .. true]. *)
Fixpoint all_m {A} (f : A → M bool) (l : list A) : M bool :=
  match l with
  | [] => mret true
  | x :: l => b ← f x; if (b : bool) then all_m f l else mret false
  end.

Definition get : M World := λ w, (w, Ok w).

Definition set_trees (w : World) x := mkWorld x (blobs w) (work w) (ledger w) (runs w) (ticks w).
Definition set_blobs (w : World) x := mkWorld (trees w) x (work w) (ledger w) (runs w) (ticks w).
Definition set_work (w : World) x := mkWorld (trees w) (blobs w) x (ledger w) (runs w) (ticks w).
Definition set_ledger (w : World) x := mkWorld (trees w) (blobs w) (work w) x (runs w) (ticks w).
Definition set_disk (w : World) (d : Disk) :=
  mkWorld (d_trees d) (d_blobs d) (d_work d) (ledger w) (runs w) (ticks w).
Definition add_run (w : World) r :=
  mkWorld (trees w) (blobs w) (work w) (ledger w) (runs w ++ [r]) (ticks w).

Definition tick : M nat := λ w,
  (mkWorld (trees w) (blobs w) (work w) (ledger w) (runs w) (Datatypes.S (ticks w)), Ok (ticks w)).

Definition of_fail_closed (e : FailClosedError) : EngineError :=
  match e with
  | FailClosed message => EeFailClosed message
  end.

Section Primitives.
Context `{U : UuidLib, J : JsonLib, HashLib, !Serialize EventRecord, !Store.JsonText Campaign,
  !Store.JsonText LedgerEntry, !Store.JsonText GraphNode, !Store.JsonText GraphEdge}.
Variable ledger_error_display : LedgerError → string.
Variable env : Env.
Variable work_root : string.

Definition now : M N := n ← tick; mret (env_clock env n).
Definition fresh {k} : M (Id k) := n ← tick; mret (mkId (env_uuid env n)).

(** [ledger.append(event, artifacts)?] *)
Definition append_event (ev : ResearchEvent) (arts : list string) : M unit :=
  t ← now; w ← get;
  match append t (ledger w) ev arts with
  | Ok (l, _) => prim (λ w, (set_ledger w l, Ok ()))
  | Err e => fail (EeLedger e)
  end.

(** [ContentAddressedStore::open(work_root.join("cas"), 32 * 1024 * 1024)] *)
Definition cas_store : Cas.ContentAddressedStore := Cas.mkCas (work_root +:+ "/cas") (32 * 1024 * 1024).

(** [cas.put(bytes, media)?] *)
Definition cas_put (bytes media : string) : M EvidenceArtifact :=
  n ← tick; id ← fresh;
  prim (λ w,
    match Cas.put cas_store (env_cas_fault env n) (env_tmp env n) id (blobs w) bytes media with
    | (bs, Ok art) => (set_blobs w bs, Ok art)
    | (bs, Err e) => (set_blobs w bs, Err (EeCas e))
    end).

(** [fs::write] below the work root. *)
Definition write_work (path : list string) (bytes : string) : M unit :=
  n ← tick;
  prim (λ w,
    match env_write_fault env n with
    | Some partial => (set_work w (Certificate.write_file (work w) path partial), Err EeIo)
    | None => (set_work w (Certificate.write_file (work w) path bytes), Ok ())
    end).

(** A directory operation that only succeeds or fails. *)
Definition io : M unit :=
  n ← tick; if env_io_fault env n then fail EeIo else mret ().

(** A statement on the open database. *)
Definition on_db {A} (f : Store.Db → Store.Db * result Store.StoreError A) : M A := λ w,
  match Certificate.database (work w) with
  | Certificate.DbTables db =>
    let '(db', r) := f db in
    (set_work w (Certificate.mkWorkDir (Certificate.files (work w)) (Certificate.DbTables db')),
     map_err EeStore r)
  | _ => (w, Err (EeStore Store.Sqlite))
  end.

Definition keep_db (db : Store.Db) (r : result Store.StoreError Store.Db) :
    Store.Db * result Store.StoreError unit :=
  match r with
  | Ok db' => (db', Ok ())
  | Err e => (db, Err e)
  end.

(** [Store::open]. *)
Definition open_store : M unit := λ w,
  match Certificate.Store_open (work w) with
  | (wd, Ok _) => (set_work w wd, Ok ())
  | (wd, Err e) => (set_work w wd, Err (EeStore e))
  end.

Definition put_campaign (c : Campaign) : M unit :=
  n ← tick; on_db (λ db, keep_db db (Store.put_campaign (env_db_fault env n 0) c db)).
Definition persist_ledger_for (cid : CampaignId) : M unit :=
  n ← tick; w ← get;
  on_db (Store.persist_ledger_for ledger_error_display (env_db_fault env n) cid (ledger w)).
Definition persist_graph (cid : CampaignId) (ns : list GraphNode) (es : list GraphEdge) : M unit :=
  n ← tick; on_db (Store.persist_graph (env_db_fault env n) cid ns es).
Definition put_record (kind id payload : string) : M unit :=
  n ← tick; on_db (λ db, keep_db db (Store.put_record (env_db_fault env n 0) kind id payload db)).

(** [snapshot_tree(target_id, root)] on the current tree. *)
Definition snapshot (tid : TargetId) (root : string) : M TargetSnapshot :=
  t ← now; id ← fresh; w ← get;
  lift (map_err EeSnapshot
    match trees w !! root with
    | Some tr => snapshot_tree t id tid root tr
    | None => Err (SeNotDir root)
    end).

(** [snapshot_tree(..).ok().is_some_and(|snap| snap.source_tree_digest == digest)] *)
Definition snapshot_is (tid : TargetId) (root digest : string) : M bool :=
  s ← try_ (snapshot tid root);
  mret (bool_decide (source_tree_digest <$> s = Some digest)).

Definition is_dir (root : string) : M bool :=
  w ← get; mret (match trees w !! root with Some (Dir _) => true | _ => false end).

(** [copy_source_tree(src, dst)]; what a failed copy leaves is not read again. *)
Definition copy_tree (src dst : string) : M unit := λ w,
  match trees w !! src with
  | None => (w, Err EeIo)
  | Some t =>
    match copy_source_tree t (trees w !! dst) with
    | Ok t' => (set_trees w (<[dst := t']> (trees w)), Ok ())
    | Err CopySymlink => (w, Err (EeFailClosed ("symlink not allowed in E4 replica: " +:+ src)))
    | Err CopyIo => (w, Err EeIo)
    end
  end.

(** ** Harnesses *)

(** [serde_json::to_vec(&generator.bind)]: a [BTreeMap] in key order. *)
Definition bind_value (b : gmap string string) : Value :=
  JObject ((λ k, (k, JString (default "" (b !! k)))) <$> sort_strings (map_to_list b).*1).

(** The staged directory is given as a path text.
    [src crates/aros-core/src/campaign_loader.rs 1224-1248 stage_catalog_harness] *)
Definition stage_catalog_harness (prefix : list string) (g : CampaignGenerator) : M (option string) :=
  match harness g with
  | None => mret None
  | Some id =>
    match env_catalog env id with
    | None => fail (EeFailClosed ("catalog harness " +:+ id +:+ " is missing"))
    | Some fs =>
      let dest := prefix ++ ["aros-harness"; id] in
      _ ← io;
      _ ← fold_m (λ _ f, write_work (dest ++ [f.1]) f.2) () fs;
      _ ← write_work (dest ++ ["bind.json"]) (json_to_vec (bind_value (bind g)));
      mret (Some (join "/" (work_root :: dest)))
    end
  end.

(** Starting a process, in the container or on the host. *)
Definition exec (s : Start) : M string :=
  n ← tick;
  prim (λ w, let '(d, r) := env_exec env n s (on_disk w) in
             (set_disk (add_run w (mkRun s (ok r))) d, r)).

(** ** The interpreter *)

(** [Command::new(candidate).arg("--version")], in the current directory.
    [src crates/aros-core/src/campaign_loader.rs 691-692 resolve_declared_python] *)
Definition version_start (candidate : string) : Start :=
  mkStart false "." [candidate; "--version"] None None None None.

(** [src crates/aros-core/src/campaign_loader.rs 690-697 resolve_declared_python] *)
Definition ask_version (candidate : string) : M bool :=
  n ← tick;
  prim (λ w, (add_run w (mkRun (version_start candidate) None), Ok (env_version env n candidate))).

(** [find_map] over the candidates. *)
Fixpoint first_answering (candidates : list string) : M (option string) :=
  match candidates with
  | [] => mret None
  | c :: candidates =>
    answers ← ask_version c;
    if (answers : bool) then mret (Some c) else first_answering candidates
  end.

(** [src crates/aros-core/src/campaign_loader.rs 684-700 resolve_declared_python] *)
Definition resolve_declared_python : M (option string) :=
  let asked := first_answering ["python3"; "python"] in
  match env_python_var env with
  | Some explicit => if is_empty (trim explicit) then asked else mret (Some explicit)
  | None => asked
  end.

(** The call of [exec_generator_ex] or of [run_generator] for one arm.
    [src crates/aros-core/src/campaign_loader.rs 1390-1411 run_arm] *)
Definition arm_start (require_container : bool) (limits : ResourceLimits) (root : string)
    (staged : option string) (argv : list string) : Start :=
  if require_container then
    mkStart true root
      match staged with
      | Some dir => rewrite_argv_for_container argv dir
      | None => argv
      end
      (Some (wall_clock_seconds limits)) (Some (memory_mb limits)) staged None
  else
    mkStart false root argv (Some (wall_clock_seconds limits)) None None
      ((λ dir, dir +:+ "/bind.json") <$> staged).

(** [src crates/aros-core/src/campaign_loader.rs 1379-1412 run_arm] *)
Definition run_arm (limits : ResourceLimits) (root : string) (prefix : list string)
    (require_container : bool) (g : CampaignGenerator) : M string :=
  staged ← stage_catalog_harness prefix g;
  command ← lift (map_err of_fail_closed (expand_command (command g) staged));
  argv ← lift (map_err of_fail_closed (generator_argv command));
  exec (arm_start require_container limits root staged argv).

(** [src crates/aros-core/src/campaign_loader.rs 1301-1321 archive_file] *)
Definition archive_file (cid : CampaignId) (combined label bytes : string) : M string :=
  art ← cas_put bytes "text/plain";
  _ ← append_event (EvidenceCreated cid (digest_blake3 art)) [digest_blake3 art];
  mret (combined +:+ label +:+ String nul bytes).

(** The generators whose catalog files are archived.
    [src crates/aros-core/src/campaign_loader.rs 1339-1346 archive_harnesses] *)
Definition archived_generators (spec : CampaignSpec) : list CampaignGenerator :=
  ((λ p, p.1.2) <$> attack_plans spec) ++
  match structural_control spec with
  | Some control => [good control; mutant control]
  | None => []
  end.

(** [src crates/aros-core/src/campaign_loader.rs 1347-1364 archive_harnesses] *)
Definition archive_catalog (cid : CampaignId) (combined : string) (g : CampaignGenerator) : M string :=
  match harness g with
  | None => mret combined
  | Some id =>
    match env_catalog env id with
    | None => mret combined
    | Some fs =>
      _ ← io;
      fold_m (λ combined f, archive_file cid combined ("catalog:" +:+ id +:+ "/" +:+ f.1) f.2)
        combined fs
    end
  end.

(** [src crates/aros-core/src/campaign_loader.rs 1323-1377 archive_harnesses] *)
Definition archive_harnesses (target_root : string) (spec : CampaignSpec) (cid : CampaignId) :
    M (option string) :=
  combined ← fold_m (λ combined rel,
    w ← get;
    match env_file env (trees w) target_root rel with
    | None => mret combined
    | Some bytes => _ ← io; archive_file cid combined rel bytes
    end) "" (harness_relpaths spec);
  combined ← fold_m (archive_catalog cid) combined (archived_generators spec);
  if is_empty combined then mret None
  else
    snap ← cas_put combined "application/octet-stream";
    _ ← append_event (EvidenceCreated cid (digest_blake3 snap)) [digest_blake3 snap];
    mret (Some (digest_blake3 snap)).

End Primitives.

End World.
