(* ===== verification/Fixture.v ===== *)
(** * Fixture campaigns (crate [aros-core], [engine.rs])

    [run_fixture_campaign]: the engine maps a live target, states a hypothesis,
    attacks it over HTTP, has the finding reproduced by the verifier process,
    minimizes it, patches a twin, attacks the twin again and runs a regression.

    The state is the world of [World] together with the record of what was
    observed of other processes, in order. The environment answers what they do;
    while they run they may change any source tree. *)

From S2P Require Import Prelude RustStr Net Json Types PathScope Policy Ledger.
From S2P Require Import Cas Authority Store HttpLab Ipc Broker Graph Snapshot.
From S2P Require Import Declared Verifier Sandbox Engine Certificate World.
Import Ledger Snapshot HttpLab Engine World.

Module Fixture.

(** [src crates/aros-core/src/engine.rs 858-863 FixtureKind] *)
Inductive FixtureKind := Authz | Path | Deceptive.
#[export] Instance FixtureKind_eq_dec : EqDecision FixtureKind.
Proof. solve_decision. Defined.

(** [src crates/aros-types/src/domain.rs 196-205 ResearchCard] *)
Record ResearchCard := mkResearchCard {
  rc_id : string;
  rc_campaign_id : CampaignId;
  rc_finding_id : option FindingId;
  rc_symptom : string;
  rc_root_cause : string;
  rc_exploit_primitive : string;
  rc_violated_invariant : string;
}.

(** ** The three fixtures *)

(** [src crates/aros-core/src/engine.rs 865-871 fixture_endpoint] *)
Definition fixture_endpoint (kind : FixtureKind) : string :=
  match kind with
  | Authz => "/users/{id}"
  | Path => "/files?path=..."
  | Deceptive => "/pwned"
  end.

(** [src crates/aros-core/src/engine.rs 873-879 hypothesis_claim] *)
Definition claim_of (kind : FixtureKind) : string :=
  match kind with
  | Authz => "user 1 can read user 2's protected record"
  | Path => "path input can read a file outside the authorized data root"
  | Deceptive => "success-looking response text proves a security impact"
  end.

(** [src crates/aros-core/src/engine.rs 881-887 hypothesis_invariant] *)
Definition hypothesis_invariant (kind : FixtureKind) : string :=
  match kind with
  | Authz => "user A cannot read user B secret"
  | Path => "handler cannot read files outside data/"
  | Deceptive => "success-looking text alone is not an invariant violation"
  end.

(** [src crates/aros-core/src/engine.rs 889-895 oracle_contract] *)
Definition oracle_contract (kind : FixtureKind) : string :=
  match kind with
  | Authz => "status 200 and response body contains bob-secret"
  | Path => "status 200 and response body contains fixture-path-secret"
  | Deceptive => "negative control"
  end.

(** [src crates/aros-core/src/engine.rs 987-999 invariant_violated] *)
Definition invariant_violated (kind : FixtureKind) (status : N) (body : string) : bool :=
  match kind with
  | Authz => (status =? 200)%N && contains body "bob-secret"
  | Path => (status =? 200)%N && contains body "fixture-path-secret"
  | Deceptive => (status =? 200)%N && (contains body "alice-secret" || contains body "bob-secret")
  end.

(** The path and the cookie of the attack.
    [src crates/aros-core/src/engine.rs 897-907 perform_attack_request] *)
Definition attack_request (kind : FixtureKind) : string * option string :=
  match kind with
  | Authz => ("/users/2", Some "user=1")
  | Path => ("/files?path=../secret.txt", None)
  | Deceptive => ("/pwned", Some "user=1")
  end.

(** The intent brokered before the attack.
    [src crates/aros-core/src/engine.rs 351-369 CampaignEngine::run_fixture_campaign] *)
Definition attack_intent (fresh : RequestId) (host : string) (port : N) (kind : FixtureKind) : ToolIntent :=
  let i := ToolIntent_new fresh HttpRequest in
  {| request_id := request_id i; capability := capability i; argv := argv i; cwd := cwd i;
     env := Types.env i; path := path i; content_glob := content_glob i;
     network := Some (mkNetworkIntent host port Http);
     http_target := Some (attack_request kind).1; http_cookie := (attack_request kind).2;
     timeout_ms := timeout_ms i |}.

(** [src crates/aros-core/src/engine.rs 217-218 CampaignEngine::run_fixture_campaign] *)
Definition list_intent (fresh : RequestId) (root : string) : ToolIntent :=
  let i := ToolIntent_new fresh ListTree in
  {| request_id := request_id i; capability := capability i; argv := argv i; cwd := cwd i;
     env := Types.env i; path := Some root; content_glob := content_glob i; network := network i;
     http_target := http_target i; http_cookie := http_cookie i; timeout_ms := timeout_ms i |}.

(** [None] is the [unreachable!] of the negative control.
    [src crates/aros-core/src/engine.rs 1001-1036 verifier_replay] *)
Definition verifier_replay (root digest : string) (kind : FixtureKind) (contained : bool) :
    option Verifier.VerifierReplay :=
  match kind with
  | Authz =>
    Some (Verifier.mkVerifierReplay root digest Verifier.ReplayAuthz "/users/2" (Some "user=1")
            (Verifier.mkVerifierOracle (Some 200%N) (Some "bob-secret") None) contained)
  | Path =>
    Some (Verifier.mkVerifierReplay root digest Verifier.ReplayPath "/files?path=../secret.txt" None
            (Verifier.mkVerifierOracle (Some 200%N) (Some "fixture-path-secret") None) contained)
  | Deceptive => None
  end.

(** The verifier is asked the question the engine asked. *)
Lemma replay_agrees root digest kind contained r status body :
  verifier_replay root digest kind contained = Some r →
  (Verifier.request_path r, Verifier.cookie r) = attack_request kind ∧
  Verifier.matches (Verifier.replay_oracle r) status body = invariant_violated kind status body.
Proof.
  destruct kind; intros [= <-]; split; try reflexivity; unfold Verifier.matches; cbn;
    by rewrite andb_true_r, N.eqb_sym.
Qed.

(** ** The patch *)

Definition seam (kind : FixtureKind) : option (string * string) :=
  match kind with
  | Authz => Some ("VULN_IDOR = True", "VULN_IDOR = False")
  | Path => Some ("VULN_PATH = True", "VULN_PATH = False")
  | Deceptive => None
  end.

(** The text of [apply_fixture_patch].
    [src crates/aros-core/src/engine.rs 1065-1069 apply_fixture_patch] *)
Definition patched_text (kind : FixtureKind) (text : string) : string :=
  match seam kind with
  | Some (from, to) => replace_str from to text
  | None => text
  end.

(** A text file of a directory: [fs::read_to_string]. *)
Definition read_text (name : string) (t : option tree) : option string :=
  match t with
  | Some (Dir es) =>
    match entry_get name es with
    | Some (File c) => if Ipc.is_utf8 c then Some c else None
    | _ => None
    end
  | _ => None
  end.

(** [src crates/aros-core/src/engine.rs 1074-1087 twin_is_patched] *)
Definition twin_is_patched (twin : option tree) (kind : FixtureKind) : bool :=
  match read_text "server.py" twin with
  | None => false
  | Some text =>
    match seam kind with
    | Some (from, to) => contains text to && negb (contains text from)
    | None => false
    end
  end.

Definition q : string := Declared.dquote.
Definition py (ls : list string) : string := join (String newline "") (ls ++ [""]).

(** [src crates/aros-core/src/engine.rs 1187-1217 regression_source] *)
Definition regression_source (kind : FixtureKind) : string :=
  let base := "base=f'http://127.0.0.1:{os.environ[" +:+ q +:+ "SECURITY_PATCHED_PORT" +:+ q +:+ "]}'" in
  match kind with
  | Authz =>
    py ["import os, urllib.request, urllib.error"; base;
        "def get(path,cookie=None):";
        "    r=urllib.request.Request(base+path)";
        "    if cookie: r.add_header('Cookie',cookie)";
        "    try:";
        "        with urllib.request.urlopen(r,timeout=2) as x: return x.status,x.read().decode()";
        "    except urllib.error.HTTPError as e: return e.code,e.read().decode()";
        "status,body=get('/users/2','user=1'); assert 'bob-secret' not in body";
        "status,body=get('/users/2'); assert 'bob-secret' not in body";
        "status,body=get('/users/2','user=2'); assert status==200 and 'bob-secret' in body"]
  | Path =>
    py ["import os, urllib.request, urllib.error"; base;
        "def get(path):";
        "    try:";
        "        with urllib.request.urlopen(base+path,timeout=2) as x: return x.status,x.read().decode()";
        "    except urllib.error.HTTPError as e: return e.code,e.read().decode()";
        "for p in ['/files?path=../secret.txt','/files?path=..%2Fsecret.txt']:";
        "    status,body=get(p); assert 'fixture-path-secret' not in body";
        "status,body=get('/files?path=public.txt'); assert status==200 and 'fixture-public-ok' in body"]
  | Deceptive => py ["raise SystemExit(2)"]
  end.

(** [s.chars().take(n).collect::<String>()] *)
Definition take_chars (n : nat) (s : string) : string := encode_chars (take n (decode s)).

(** ** Computations *)

(** What was observed of another process: the commands of the runtime's probe, a tool,
    a request, a verdict of the verifier; a server was started from a tree, and
    killed and waited for. *)
Inductive Obs :=
| OProbe (calls : list Sandbox.Call)
| OTool (i : ToolIntent) (granted : bool)
| OHttp (host : string) (port : N) (path : string) (cookie : option string) (resp : HttpResponse)
| OVerifier (input : Verifier.VerifierInput) (r : Verifier.VerifierProcessResult)
| OServer (root : string) (t : option tree) (port : N)
| OStopped (port : N)
| ORegression (root : string) (t : option tree) (port : N) (passed : bool).

Record Fx := mkFx { world : World; seen : list Obs }.

(** A run stops with an error of the engine, or panics. *)
Inductive Stop := Halted (e : EngineError) | Panicked.

Definition F (A : Type) : Type := Fx → Fx * result Stop A.
#[export] Instance F_ret : MRet F := λ A a s, (s, Ok a).
#[export] Instance F_bind : MBind F := λ A B f m s,
  match m s with
  | (s', Ok a) => f a s'
  | (s', Err e) => (s', Err e)
  end.

(** A primitive step. *)
Definition fprim {A} (f : Fx → Fx * result Stop A) : F A := f.
Definition stop {A} (e : Stop) : F A := λ s, (s, Err e).
Definition fail_closed {A} (message : string) : F A := stop (Halted (EeFailClosed message)).
Definition on_world {A} (m : World.M A) : F A := λ s,
  let '(w, r) := m (world s) in (mkFx w (seen s), map_err Halted r).
Definition see (o : Obs) : F unit := λ s, (mkFx (world s) (seen s ++ [o]), Ok ()).
Definition put_trees (ts : gmap string tree) : F unit := λ s,
  (mkFx (set_trees (world s) ts) (seen s), Ok ()).
Definition put_disk (d : Disk) : F unit := λ s, (mkFx (set_disk (world s) d) (seen s), Ok ()).
Definition tree_at (root : string) : F (option tree) := λ s, (s, Ok (trees (world s) !! root)).

(** What the processes around a run answer, at each tick. *)
Record FxEnv := mkFxEnv {
  fx_fs : nat → Broker.HostFs;
  fx_draws : nat → Broker.Draws;
  fx_exchange : nat → string → N → string → option string;
  (** What the running processes have done to the disk. *)
  fx_effect : nat → Disk → Disk;
  fx_spawn : nat → Verifier.Spawn;
  (** Reserving a port, starting a server, and how it came up. *)
  fx_port : nat → option N;
  fx_started : nat → bool;
  fx_polls : nat → list Verifier.Poll;
  (** The configured evidence authority, and its answers. *)
  fx_authority : option string;
  fx_authority_exchange : nat → N → string → result string string;
  (** The container runtime that an admission without a bound sandbox probes. *)
  fx_oci : Sandbox.OciHost;
}.

Section Run.
Context `{I : IpNetLib, U : UuidLib, J : JsonLib, Hl : HashLib, !Serialize EventRecord,
  !Serialize AuthorizationManifest, !Serialize EvidenceBundle, !Serialize AuthorityResult,
  !Serialize VerifierMode, !Deserialize AuthorityResult, !Serialize HypothesisRec,
  !Store.JsonText Campaign, !Store.JsonText LedgerEntry, !Store.JsonText GraphNode,
  !Store.JsonText GraphEdge, !Store.JsonText HypothesisRec, !Store.JsonText ResearchCard,
  !Store.JsonText Verifier.VerifierInput, !Store.JsonText Verifier.VerifierProcessResult,
  G : Graph.DiGraph}.
Variable ledger_error_display : LedgerError → string.
Variable json_string : string → string.
Variable code_debug : Z → string.
Variable json_error : string.
Variable env : World.Env.
Variable fx : FxEnv.
Variable work_root : string.
(** The arguments of [run_fixture_campaign] that every step reads. *)
Variable fixture_root host : string.
Variable port : N.
Variable kind : FixtureKind.

Definition ftick : F nat := on_world tick.
Definition fnow : F N := on_world (now env).
Definition ffresh {k} : F (Id k) := on_world (fresh env).
Definition append (ev : ResearchEvent) (arts : list string) : F unit := on_world (append_event env ev arts).
Definition cas_put (bytes media : string) : F EvidenceArtifact := on_world (World.cas_put env work_root bytes media).
Definition take_snapshot (tid : TargetId) (root : string) : F TargetSnapshot := on_world (snapshot env tid root).
Definition put_record (k id : string) (text : option string) : F unit :=
  match text with
  | Some text => on_world (World.put_record env k id text)
  | None => stop (Halted EeJson)
  end.
Definition put_campaign (c : Campaign) : F unit := on_world (World.put_campaign env c).
Definition persist_ledger (c : Campaign) : F unit :=
  on_world (persist_ledger_for ledger_error_display env (campaign_id c)).
Definition persist_graph (c : Campaign) (g : Graph.ActiveGraph) : F unit :=
  on_world (World.persist_graph env (campaign_id c) (Graph.nodes g) (Graph.edges g)).

(** The processes that are running have acted on the disk. *)
Definition touch (n : nat) : F unit := λ s, put_disk (fx_effect fx n (on_disk (world s))) s.

(** [http_get(..)?] *)
Definition http (h : string) (p : N) (path : string) (cookie : option string) : F HttpResponse :=
  n ← ftick; _ ← touch n;
  match http_get (fx_exchange fx n) h p path cookie with
  | Ok resp => _ ← see (OHttp h p path cookie resp); mret resp
  | Err e => stop (Halted (EeHttp e))
  end.

(** [broker.execute(intent)?] *)
Definition broker_execute (b : Broker.ToolBroker) (i : ToolIntent) : F ExecutionReceipt := λ s,
  let n := ticks (world s) in
  let '(st, r) := Broker.execute (fx_fs fx n) (fx_exchange fx n) json_string b (fx_draws fx n) i
                    (Broker.mkBrokerState (ledger (world s)) (blobs (world s))) in
  let w := set_blobs (set_ledger (world s) (Broker.ledger st)) (Broker.blobs st) in
  (_ ← ftick; _ ← touch n; _ ← see (OTool i (is_ok r));
   match r with Ok receipt => mret receipt | Err e => stop (Halted (EeBroker e)) end)
  (mkFx w (seen s)).

(** [src crates/aros-core/src/engine.rs 841-856 ledger_state] *)
Definition ledger_state (c : Campaign) (st : CampaignState) : F Campaign :=
  t ← fnow;
  let c := set_campaign_state c st t in
  _ ← append (CampaignStateChanged (campaign_id c) st) [];
  mret c.

(** [src crates/aros-core/src/engine.rs 819-839 graph_edge] *)
Definition graph_edge (c : Campaign) (from to : NodeId) (k : string) (ep : EpistemicState) : F GraphEdge :=
  id ← ffresh; t ← fnow;
  mret {| edge_id := id; edge_campaign_id := campaign_id c; edge_graph := Research; edge_from := from;
          edge_to := to; edge_kind := k; edge_epistemic := ep; edge_confidence := None;
          edge_provenance := "campaign-engine"; edge_artifact_refs := []; edge_created_unix_ms := t |}.

(** A node literal of [run_fixture_campaign], added to the graph. *)
Definition add_node (c : Campaign) (g : Graph.ActiveGraph) (graph : GraphKind) (k label : string)
    (ep : EpistemicState) (payload : Value) (provenance : string) (refs : list string) :
    F (Graph.ActiveGraph * NodeId) :=
  id ← ffresh; t ← fnow;
  mret (Graph.add_node g
    {| node_id := id; node_campaign_id := campaign_id c; node_graph := graph; node_kind := k;
       node_label := label; node_epistemic := ep; node_payload := payload;
       node_provenance := provenance; node_artifact_refs := refs; node_created_unix_ms := t |}).
Definition link (c : Campaign) (g : Graph.ActiveGraph) (from to : NodeId) (k : string)
    (ep : EpistemicState) : F Graph.ActiveGraph :=
  e ← graph_edge c from to k ep; mret (Graph.add_edge g e).

(** ** From the manifest to the attack *)

Definition waived (self : CampaignEngine) (m : AuthorizationManifest) : AuthorizationManifest :=
  if waive_containment self
  then set_scope m (allowed_service_names m) (allowed_endpoints m) (tool_allowlist m) false else m.

(** [self.assert_containment_or_fail(&manifest)?] *)
Definition admitted_sandbox (self : CampaignEngine) (sid : SandboxId) (manifest : AuthorizationManifest) :
    F SandboxIdentity :=
  let '(calls, r) := assert_containment_or_fail self sid (fx_oci fx) manifest [] in
  _ ← match calls with [] => mret () | _ => see (OProbe calls) end;
  match r with Ok sandbox => mret sandbox | Err e => stop (Halted e) end.

(** [src crates/aros-core/src/engine.rs 170-203 CampaignEngine::run_fixture_campaign] *)
Definition open_campaign (self : CampaignEngine) (manifest : AuthorizationManifest) :
    F (SandboxIdentity * TargetSnapshot * Campaign) :=
  sid ← ffresh;
  sandbox ← admitted_sandbox self sid manifest;
  _ ← on_world (io env); _ ← on_world (io env); _ ← on_world open_store;
  _ ← on_world (prim (λ w, (set_ledger w EventLedger_new, Ok ())));
  original ← take_snapshot (manifest_target_id manifest) fixture_root;
  let digest := source_tree_digest original in
  _ ← append (TargetSnapshotted (manifest_target_id manifest) (snapshot_id original) digest) [digest];
  mh ← match manifest_hash manifest with
       | Ok mh => mret mh
       | Err e => stop (Halted (EeTypes e))
       end;
  t ← fnow;
  let c := Campaign_new t (manifest_campaign_id manifest) (manifest_target_id manifest)
             (snapshot_id original) mh in
  _ ← append (CampaignStarted (campaign_id c) (campaign_manifest_hash c)) [];
  mret (sandbox, original, c).

(** [src crates/aros-core/src/engine.rs 205-214 CampaignEngine::run_fixture_campaign] *)
Definition broker_of (manifest : AuthorizationManifest) (sandbox : SandboxIdentity)
    (original : TargetSnapshot) (c : Campaign) : Broker.ToolBroker :=
  {| Broker.broker_campaign_id := campaign_id c; Broker.manifest := manifest;
     Broker.broker_manifest_hash := campaign_manifest_hash c; Broker.snapshot := Some original;
     Broker.sandbox := sandbox; Broker.cas := cas_store work_root;
     Broker.cli_human_override := false |}.

(** [src crates/aros-core/src/engine.rs 216-240 CampaignEngine::run_fixture_campaign] *)
Definition map_surface (b : Broker.ToolBroker) (c : Campaign) : F (Campaign * Graph.ActiveGraph * NodeId) :=
  c ← ledger_state c Mapping;
  rid ← ffresh;
  _ ← broker_execute b (list_intent rid fixture_root);
  _ ← append (SurfaceMapped (campaign_id c) 1) [];
  '(g, surface) ← add_node c (Graph.ActiveGraph_new (campaign_id c)) TargetReality "endpoint"
    (fixture_endpoint kind) Observed (JObject [("path", JString (fixture_endpoint kind))])
    "list_tree+source" [];
  mret (c, g, surface).

(** [src crates/aros-core/src/engine.rs 270-286 CampaignEngine::run_fixture_campaign] *)
Definition hypothesis_of (id : HypothesisId) (c : Campaign) : HypothesisRec :=
  {| hypothesis_id := id; hypothesis_campaign_id := campaign_id c; hypothesis_claim := claim_of kind;
     supporting_facts := ["endpoint observed in source"];
     historical_analogues :=
       [match kind with Authz => "CWE-639" | Path => "CWE-22" | Deceptive => "negative-control" end];
     affected_components := ["http handler"]; security_invariant := hypothesis_invariant kind;
     possible_impact := "confidentiality"; cheapest_experiment := "single HTTP GET";
     estimated_cost := 1; hypothesis_epistemic := Hypothesized |}.

(** [src crates/aros-core/src/engine.rs 242-319 CampaignEngine::run_fixture_campaign] *)
Definition hypothesize (c : Campaign) (g : Graph.ActiveGraph) (surface : NodeId) :
    F (Campaign * Graph.ActiveGraph * HypothesisRec * NodeId) :=
  c ← ledger_state c Hypothesizing;
  _ ← append (AssumptionCreated (campaign_id c) (hypothesis_invariant kind)) [];
  '(g, assumption) ← add_node c g Research "assumption" (hypothesis_invariant kind) Observed
    (JObject [("statement", JString (hypothesis_invariant kind))]) "campaign-observation" [];
  g ← link c g surface assumption "supports" Observed;
  hid ← ffresh;
  let hypothesis := hypothesis_of hid c in
  _ ← append (HypothesisCreated (campaign_id c) (hypothesis_id hypothesis)
                (Types.hypothesis_claim hypothesis)) [];
  payload ← match to_value hypothesis with
            | Ok v => mret v
            | Err _ => stop (Halted EeJson)
            end;
  '(g, node) ← add_node c g Research "hypothesis" (Types.hypothesis_claim hypothesis) Hypothesized
    payload "research-hypothesis" [];
  g ← link c g assumption node "motivates" Hypothesized;
  _ ← put_record "hypothesis" (id_to_string (hypothesis_id hypothesis)) (Store.to_text hypothesis);
  mret (c, g, hypothesis, node).

(** [src crates/aros-core/src/engine.rs 897-907 perform_attack_request] *)
Definition perform_attack_request (h : string) (p : N) : F HttpResponse :=
  http h p (attack_request kind).1 (attack_request kind).2.

(** [src crates/aros-core/src/engine.rs 321-409 CampaignEngine::run_fixture_campaign] *)
Definition experiment (b : Broker.ToolBroker) (c : Campaign) (g : Graph.ActiveGraph)
    (hypothesis : HypothesisRec) (hnode : NodeId) :
    F (Campaign * Graph.ActiveGraph * HttpResponse * EvidenceArtifact * NodeId) :=
  c ← ledger_state c Experimenting;
  eid ← ffresh;
  _ ← append (ExperimentStarted (campaign_id c) eid (campaign_manifest_hash c)) [];
  '(g, enode) ← add_node c g Research "experiment" "cheapest experiment" Observed
    (JObject [("description", JString (cheapest_experiment hypothesis));
              ("experiment_id", JString (id_to_string eid))]) "experiment-planner" [];
  g ← link c g hnode enode "tested_by" Observed;
  rid ← ffresh;
  _ ← broker_execute b (attack_intent rid host port kind);
  observation ← perform_attack_request host port;
  artifact ← cas_put (body observation) "text/plain";
  _ ← append (ObservationRecorded (campaign_id c) (digest_blake3 artifact) (campaign_manifest_hash c))
        [digest_blake3 artifact];
  _ ← append (ExperimentFinished (campaign_id c) eid) [];
  '(g, onode) ← add_node c g Research "observation" (take_chars 120 (body observation)) Observed
    (JObject [("artifact", JString (digest_blake3 artifact)); ("status", JNumberV (PosInt (status observation)))])
    "actual-target-http" [digest_blake3 artifact];
  g ← link c g enode onode "produced" Observed;
  mret (c, g, observation, artifact, onode).

(** [src crates/aros-core/src/engine.rs 413-425 CampaignEngine::run_fixture_campaign] *)
Definition finding_of (fid : FindingId) (c : Campaign) (hypothesis : HypothesisRec)
    (level : EvidenceLevel) (verified : bool) : Finding :=
  mkFinding fid (campaign_id c) (hypothesis_id hypothesis) (Types.hypothesis_claim hypothesis) level
    (campaign_manifest_hash c) verified.

(** [src crates/aros-core/src/engine.rs 438-446 CampaignEngine::run_fixture_campaign] *)
Definition card_of (fid : FindingId) (c : Campaign) (hypothesis : HypothesisRec)
    (observation : HttpResponse) (root_cause primitive : string) : ResearchCard :=
  {| rc_id := "card-" +:+ id_to_string fid; rc_campaign_id := campaign_id c; rc_finding_id := Some fid;
     rc_symptom := take_chars 200 (body observation); rc_root_cause := root_cause;
     rc_exploit_primitive := primitive; rc_violated_invariant := security_invariant hypothesis |}.

(** The end of a run whose observation violates nothing.
    [src crates/aros-core/src/engine.rs 427-489 CampaignEngine::run_fixture_campaign] *)
Definition refute (manifest : AuthorizationManifest) (c : Campaign) (g : Graph.ActiveGraph)
    (original : TargetSnapshot) (hypothesis : HypothesisRec) (observation : HttpResponse)
    (artifact : EvidenceArtifact) (onode : NodeId) (fid : FindingId) : F CampaignOutcome :=
  let c := set_campaign_state c CsRefuted (updated_unix_ms c) in
  let finding := finding_of fid c hypothesis E0HypothesisOnly false in
  _ ← append (FindingFalsified (campaign_id c) fid
        "observed response does not violate the declared security invariant") [];
  let card := card_of fid c hypothesis observation "negative control / hypothesis not supported" "none" in
  '(g, refnode) ← add_node c g Research "finding" (finding_claim finding) EpRefuted
    (JObject [("level", JString "E0"); ("verified", JBool false)]) "negative-control-oracle"
    [digest_blake3 artifact];
  g ← link c g onode refnode "falsifies" EpRefuted;
  _ ← put_record "research_card" (rc_id card) (Store.to_text card);
  _ ← put_campaign c;
  _ ← persist_ledger c;
  _ ← persist_graph c g;
  after ← take_snapshot (manifest_target_id manifest) fixture_root;
  mret {| out_campaign := c; out_finding := Some finding;
          out_evidence_level := Some E0HypothesisOnly;
          out_original_digest := source_tree_digest original;
          out_original_digest_after := source_tree_digest after;
          out_deceptive_rejected := bool_decide (kind = Deceptive); out_patch := None;
          out_live_reattack_confirmed := false; out_research_card_id := Some (rc_id card);
          out_verifier_isolated := false;
          out_declared := mkDeclaredRunMeta None true false "security" None None [] None None false
            None None None None false false false None None None |}.

(** ** Independent verification *)

(** [src crates/aros-core/src/engine.rs 509-520 CampaignEngine::run_fixture_campaign] *)
Definition bundle_of (fid : FindingId) (c : Campaign) (original : TargetSnapshot)
    (sandbox : SandboxIdentity) (claim : string) (artifact : EvidenceArtifact) (level : EvidenceLevel) :
    EvidenceBundle :=
  {| bundle_finding_id := fid; bundle_campaign_id := campaign_id c;
     bundle_manifest_hash := campaign_manifest_hash c; bundle_snapshot_id := snapshot_id original;
     bundle_sandbox_id :=
       if containment_demonstrated sandbox then Some (id_to_string (sandbox_id sandbox)) else None;
     bundle_claim := claim; bundle_artifact_digests := [digest_blake3 artifact]; bundle_level := level |}.

(** [verify_in_subprocess(&verifier_input)] *)
Definition run_verifier (input : Verifier.VerifierInput) : F (result string Verifier.VerifierProcessResult) :=
  n ← ftick;
  fprim (λ s, let '(ts, r) := Verifier.verify_in_subprocess code_debug json_error (fx_spawn fx n) input
                         (trees (world s)) in
       (_ ← put_trees ts;
        _ ← match r with Ok v => see (OVerifier input v) | Err _ => mret () end;
        mret r) s).

(** A failed verification leaves the campaign and the ledger behind. *)
Definition abandon_run {A} (c : Campaign) (st : CampaignState) (message : string) : F A :=
  let c := set_campaign_state c st (updated_unix_ms c) in
  _ ← put_campaign c; _ ← persist_ledger c; fail_closed message.

(** The external authority, when one is configured, must agree.
    [src crates/aros-core/src/engine.rs 579-587 CampaignEngine::run_fixture_campaign] *)
Definition authority_confirms (bundle : EvidenceBundle) (run : VerifierRun) : F bool :=
  n ← ftick;
  let a := Authority.from_env (fx_authority fx) in
  mret (negb (Authority.is_available a) ||
        bool_decide (Authority.theustad_adjudicate (fx_authority_exchange fx n) a bundle run = ArVerified)).

(** [src crates/aros-core/src/engine.rs 491-604 CampaignEngine::run_fixture_campaign] *)
Definition verify_finding (c : Campaign) (sandbox : SandboxIdentity) (original : TargetSnapshot)
    (hypothesis : HypothesisRec) (artifact : EvidenceArtifact) (fid : FindingId) : F Campaign :=
  let finding := finding_of fid c hypothesis E3InvariantViolation false in
  c ← ledger_state c Candidate;
  _ ← append (FindingCandidateCreated (campaign_id c) fid (finding_claim finding)) [];
  c ← ledger_state c Verifying;
  _ ← append (VerificationStarted (campaign_id c) fid) [];
  let bundle := bundle_of fid c original sandbox (finding_claim finding) artifact E3InvariantViolation in
  let input := Verifier.reduced_input finding bundle ReproduceCandidate (oracle_contract kind)
                 (security_invariant hypothesis) in
  match verifier_replay fixture_root (source_tree_digest original) kind
          (containment_demonstrated sandbox) with
  | None => stop Panicked
  | Some replay =>
    r ← run_verifier (Verifier.mkVerifierInput (Verifier.input_claim input)
          (Verifier.input_snapshot_id input) (Verifier.oracle_contract input)
          (Verifier.input_invariant input) (Some replay));
    match r with
    | Err error =>
      abandon_run c CsInsufficientEvidence
        ("independent verification unavailable; evidence capped at E3: " +:+ error)
    | Ok independent =>
      if negb (Verifier.accepted independent) || negb (Verifier.oracle_observed independent) then
        abandon_run c CsNonReproducible
          ("independent verifier rejected: " +:+ Verifier.reason independent)
      else if negb (bool_decide (Verifier.target_digest_observed independent =
                                 Some (source_tree_digest original))) then
        fail_closed "independent verifier did not reproduce the exact target digest"
      else
        vid ← ffresh;
        let bundle := bundle_of fid c original sandbox (finding_claim finding) artifact
                        E4IndependentReproduction in
        let run := {| verifier_run_id := vid; verifier_finding_id := fid;
                      verifier_campaign_id := campaign_id c;
                      verifier_manifest_hash := campaign_manifest_hash c;
                      verifier_mode := ReproduceCandidate; verifier_result := ArVerified;
                      verifier_notes := "actual-target independent verifier; digest=" +:+
                        default "missing" (Verifier.target_digest_observed independent) |} in
        agreed ← authority_confirms bundle run;
        if negb agreed then fail_closed "configured evidence authority did not confirm"
        else
          _ ← append (VerificationSucceeded (campaign_id c) fid) [];
          _ ← append (FindingVerified (campaign_id c) fid E4IndependentReproduction) [];
          mret c
    end
  end.

(** ** Minimization *)

Definition violated (resp : HttpResponse) : bool := invariant_violated kind (status resp) (body resp).

Definition control (change : string) : Value :=
  JObject [("change", JString change); ("oracle_present", JBool false)].

(** The report of a minimization that kept the oracle. *)
Definition minimized_value (cookie : option string) (removed : list string) (path : string)
    (changes : list string) : Value :=
  JObject [("cookie", default JNull (JString <$> cookie));
           ("method", JString "executed_component_delta_debugging");
           ("negative_controls", JArray (control <$> changes));
           ("oracle_preserved", JBool true);
           ("removed_components", JArray (JString <$> removed));
           ("request_path", JString path)].

(** [src crates/aros-core/src/engine.rs 909-985 minimize_reproduction] *)
Definition minimize_reproduction : F Value :=
  match kind with
  | Authz =>
    without_cookie ← http host port "/users/2" None;
    let cookie := if violated without_cookie then None else Some "user=1" in
    final_response ← http host port "/users/2" cookie;
    if negb (violated final_response) then
      fail_closed "minimized authorization reproduction lost the verified oracle"
    else
      no_object ← http host port "/users/" cookie;
      self_object ← http host port "/users/1" cookie;
      if violated no_object || violated self_object then
        fail_closed "authorization minimization negative controls unexpectedly preserve the oracle"
      else
        mret (minimized_value cookie
                match cookie with None => ["attacker_cookie"] | Some _ => [] end "/users/2"
                ["remove_object_identifier"; "change_object_to_self"])
  | Path =>
    final_response ← http host port "/files?path=../secret.txt" None;
    if negb (violated final_response) then fail_closed "path minimization lost the verified oracle"
    else
      no_parameter ← http host port "/files" None;
      no_traversal ← http host port "/files?path=secret.txt" None;
      if violated no_parameter || violated no_traversal then
        fail_closed "path minimization negative controls unexpectedly preserve the oracle"
      else
        mret (minimized_value None [] "/files?path=../secret.txt"
                ["remove_path_parameter"; "remove_traversal_segment"])
  | Deceptive => fail_closed "negative-control fixture cannot establish E5"
  end.

(** [src crates/aros-core/src/engine.rs 649-653 CampaignEngine::run_fixture_campaign] *)
Definition primitive_of : string :=
  match kind with
  | Authz => "insecure-direct-object-reference"
  | Path => "path-traversal"
  | Deceptive => "none"
  end.

(** [src crates/aros-core/src/engine.rs 606-667 CampaignEngine::run_fixture_campaign] *)
Definition minimize (c : Campaign) (g : Graph.ActiveGraph) (hypothesis : HypothesisRec)
    (observation : HttpResponse) (fid : FindingId) : F (Campaign * Graph.ActiveGraph * ResearchCard) :=
  c ← ledger_state c Minimizing;
  minimized ← minimize_reproduction;
  art ← cas_put (json_to_vec minimized) "application/vnd.aros.minimized-reproduction+json";
  _ ← put_record "minimized_reproduction" (id_to_string fid) (Some (json_to_vec minimized));
  _ ← append (FindingVerified (campaign_id c) fid E5MinimizedReproduction) [digest_blake3 art];
  '(g, _) ← add_node c g Research "minimized_reproduction" "executed locally minimal reproduction"
    EpVerified minimized "executed-delta-minimizer" [digest_blake3 art];
  let card := card_of fid c hypothesis observation (Types.hypothesis_claim hypothesis) primitive_of in
  _ ← put_record "research_card" (rc_id card) (Store.to_text card);
  _ ← append (ClaimCreated (campaign_id c) (rc_root_cause card)) [];
  mret (c, g, card).

(** ** The patched twin *)

Definition twin_root : string := work_root +:+ "/twin".

(** [copy_dir(fixture_root, &twin)?] after the old twin was removed. *)
Definition make_twin : F unit :=
  _ ← on_world (io env);
  fprim (λ s,
    let ts := delete twin_root (trees (world s)) in
    match ts !! fixture_root with
    | None => stop (Halted EeIo) (mkFx (set_trees (world s) ts) (seen s))
    | Some t =>
      match copy_dir t None with
      | Ok t' => put_trees (<[twin_root := t']> ts) s
      | Err CopySymlink =>
        fail_closed ("refusing remediation copy through symlink " +:+ fixture_root)
          (mkFx (set_trees (world s) ts) (seen s))
      | Err CopyIo => stop (Halted EeIo) (mkFx (set_trees (world s) ts) (seen s))
      end
    end).

(** [fs::write] of a file of the twin. *)
Definition write_twin (name text : string) : F unit :=
  _ ← on_world (io env);
  fprim (λ s,
    match trees (world s) !! twin_root with
    | Some (Dir es) =>
      match entry_get name es with
      | Some (Dir _) => stop (Halted EeIo) s
      | _ => put_trees (<[twin_root := Dir (entry_set name (File text) es)]> (trees (world s))) s
      end
    | _ => stop (Halted EeIo) s
    end).

(** [src crates/aros-core/src/engine.rs 1062-1072 apply_fixture_patch] *)
Definition apply_fixture_patch : F unit :=
  t ← tree_at twin_root;
  match read_text "server.py" t with
  | None => stop (Halted EeIo)
  | Some text => write_twin "server.py" (patched_text kind text)
  end.

(** [src crates/aros-core/src/engine.rs 669-702 CampaignEngine::run_fixture_campaign] *)
Definition remediate (manifest : AuthorizationManifest) (c : Campaign) (original : TargetSnapshot)
    (fid : FindingId) : F (Campaign * PatchCandidate) :=
  c ← ledger_state c Remediating;
  _ ← make_twin;
  _ ← apply_fixture_patch;
  twin ← tree_at twin_root;
  if negb (twin_is_patched twin kind) then
    fail_closed "patch transformation did not modify the expected fixture seam"
  else
    pid ← ffresh;
    snap ← take_snapshot (manifest_target_id manifest) twin_root;
    let patch := mkPatchCandidate pid fid twin_root (source_tree_digest snap) true in
    _ ← append (PatchCandidateCreated (campaign_id c) (patch_id patch) fid) [];
    after ← take_snapshot (manifest_target_id manifest) fixture_root;
    if negb (bool_decide (source_tree_digest after = source_tree_digest original)) then
      fail_closed "original target was modified by remediation"
    else mret (c, patch).

(** ** Attacking the twin *)

(** A server that was started, by its port.
    [src crates/aros-core/src/engine.rs 1089-1092 RunningFixture] *)
Definition RunningFixture : Type := N.

(** [src crates/aros-core/src/engine.rs 1130-1133 RunningFixture::stop] *)
Definition stop_fixture (running : RunningFixture) : F unit := see (OStopped running).

(** The scope of a server: however it is left, by a call of [stop], by [?] or by a
    panic, the server is stopped. (Stopping it again when the variable is dropped
    finds no process any more.)
    [src crates/aros-core/src/engine.rs 1136-1140 RunningFixture::drop] *)
Definition with_fixture {A} (running : RunningFixture) (m : F A) : F A := λ s,
  let '(s', r) := m s in ((stop_fixture running s').1, r).

(** [src crates/aros-core/src/engine.rs 1142-1158 resolve_python] *)
Definition resolve_python : F (option string) := on_world (resolve_declared_python env).

(** The server of the twin, from the interpreter to readiness.
    [src crates/aros-core/src/engine.rs 1095-1128 RunningFixture::start] *)
Definition start_twin : F RunningFixture :=
  python ← resolve_python;
  n ← ftick;
  match python with
  | None => fail_closed "python unavailable for real patched-twin execution"
  | Some _ =>
    match fx_port fx n with
    | None => stop (Halted EeIo)
    | Some p =>
      if negb (fx_started fx n) then stop (Halted EeIo)
      else
        t ← tree_at twin_root;
        _ ← see (OServer twin_root t p);
        _ ← touch n;
        match Verifier.await_ready p (fx_polls fx n) with
        | Verifier.WaitFailed _ => with_fixture p (stop (Halted EeIo))
        | Verifier.WaitExited => with_fixture p (fail_closed "patched twin exited before readiness")
        | Verifier.WaitDeadline => with_fixture p (fail_closed "patched twin readiness deadline exceeded")
        | Verifier.WaitReady => mret p
        end
    end
  end.

(** [src crates/aros-core/src/engine.rs 1160-1163 patched_original_effect_absent] *)
Definition patched_original_effect_absent (p : N) : F bool :=
  response ← perform_attack_request "127.0.0.1" p; mret (negb (violated response)).

(** [src crates/aros-core/src/engine.rs 1165-1172 patched_variant_effect_absent] *)
Definition variant_request : option (string * option string) :=
  match kind with
  | Authz => Some ("/users/2", None)
  | Path => Some ("/files?path=..%2Fsecret.txt", None)
  | Deceptive => None
  end.
Definition patched_variant_effect_absent (p : N) : F bool :=
  match variant_request with
  | None => mret false
  | Some (path, cookie) => response ← http "127.0.0.1" p path cookie; mret (negb (violated response))
  end.

(** [src crates/aros-core/src/engine.rs 1174-1185 patched_functionality_holds] *)
Definition functional_request : option (string * option string * string) :=
  match kind with
  | Authz => Some ("/users/2", Some "user=2", "bob-secret")
  | Path => Some ("/files?path=public.txt", None, "fixture-public-ok")
  | Deceptive => None
  end.
Definition patched_functionality_holds (p : N) : F bool :=
  match functional_request with
  | None => mret false
  | Some (path, cookie, needle) =>
    response ← http "127.0.0.1" p path cookie;
    mret ((status response =? 200)%N && contains (body response) needle)
  end.

Definition regression_start (python : string) : Start :=
  mkStart false twin_root [python; "regression_test.py"] None None None None.

(** [src crates/aros-core/src/engine.rs 1219-1232 run_regression] *)
Definition run_regression (p : N) : F bool :=
  python ← resolve_python;
  n ← ftick;
  match python with
  | None => fail_closed "python unavailable for generated regression"
  | Some python =>
    t ← tree_at twin_root;
    fprim (λ s,
      let '(d, ended) := env_status env n (regression_start python) (on_disk (world s)) in
      (_ ← put_disk d;
       match ended with
       | None => stop (Halted EeIo)
       | Some passed => _ ← see (ORegression twin_root t p passed); mret passed
       end) s)
  end.

(** The attacks on the running twin and its regression test.
    [src crates/aros-core/src/engine.rs 713-733 CampaignEngine::run_fixture_campaign] *)
Definition attack_twin (p : RunningFixture) : F unit :=
  original_effect_absent ← patched_original_effect_absent p;
  variant_failed_to_reexploit ← patched_variant_effect_absent p;
  functional_tests_passed ← patched_functionality_holds p;
  if negb ((original_effect_absent : bool) && (variant_failed_to_reexploit : bool) &&
           (functional_tests_passed : bool)) then
    fail_closed "patched twin failed original re-attack, variant re-attack, or functional invariant"
  else
    _ ← write_twin "regression_test.py" (regression_source kind);
    regression_passed ← run_regression p;
    if negb regression_passed then
      fail_closed "generated security regression did not pass on patched twin"
    else mret ().

(** [src crates/aros-core/src/engine.rs 704-733 CampaignEngine::run_fixture_campaign] *)
Definition reattack (c : Campaign) (fid : FindingId) : F Campaign :=
  c ← ledger_state c Reattacking;
  _ ← append (ReattackStarted (campaign_id c) fid) [];
  p ← start_twin;
  _ ← with_fixture p (attack_twin p);
  mret c.

(** [src crates/aros-core/src/engine.rs 744-815 CampaignEngine::run_fixture_campaign] *)
Definition protect (manifest : AuthorizationManifest) (c : Campaign) (g : Graph.ActiveGraph)
    (original : TargetSnapshot) (hypothesis : HypothesisRec) (card : ResearchCard)
    (patch : PatchCandidate) (fid : FindingId) : F CampaignOutcome :=
  _ ← append (ReattackCompleted (campaign_id c) fid true) [];
  _ ← append (RegressionCreated (campaign_id c) fid (twin_root +:+ "/regression_test.py")) [];
  let finding := finding_of fid c hypothesis E7VariantReattackAndRegression true in
  let c := set_campaign_state c RegressionProtected (updated_unix_ms c) in
  _ ← append (CampaignCompleted (campaign_id c) (campaign_state c)) [];
  '(g, _) ← add_node c g Research "finding" (finding_claim finding) EpVerified
    (JObject [("functional_tests", JBool true); ("level", JString "E7");
              ("original_reattack", JBool true); ("regression_executed", JBool true);
              ("variant_reattack", JBool true)])
    "actual-target-verifier+actual-patched-twin" [];
  _ ← put_campaign c;
  _ ← persist_ledger c;
  _ ← persist_graph c g;
  final ← take_snapshot (manifest_target_id manifest) fixture_root;
  mret {| out_campaign := c; out_finding := Some finding;
          out_evidence_level := Some E7VariantReattackAndRegression;
          out_original_digest := source_tree_digest original;
          out_original_digest_after := source_tree_digest final;
          out_deceptive_rejected := false; out_patch := Some patch;
          out_live_reattack_confirmed := true; out_research_card_id := Some (rc_id card);
          out_verifier_isolated := true;
          out_declared := mkDeclaredRunMeta None true false "security" None None [] None None false
            None None None None false false false None None None |}.

(** Everything after a violating observation.
    [src crates/aros-core/src/engine.rs 491-815 CampaignEngine::run_fixture_campaign] *)
Definition pursue (manifest : AuthorizationManifest) (sandbox : SandboxIdentity)
    (original : TargetSnapshot) (c : Campaign) (g : Graph.ActiveGraph) (hypothesis : HypothesisRec)
    (observation : HttpResponse) (artifact : EvidenceArtifact) (fid : FindingId) : F CampaignOutcome :=
  c ← verify_finding c sandbox original hypothesis artifact fid;
  '(c, g, card) ← minimize c g hypothesis observation fid;
  '(c, patch) ← remediate manifest c original fid;
  c ← reattack c fid;
  protect manifest c g original hypothesis card patch fid.

(** [src crates/aros-core/src/engine.rs 159-816 CampaignEngine::run_fixture_campaign] *)
Definition run_fixture_campaign (self : CampaignEngine) (manifest : AuthorizationManifest) :
    F CampaignOutcome :=
  let manifest := waived self manifest in
  '(sandbox, original, c) ← open_campaign self manifest;
  let b := broker_of manifest sandbox original c in
  '(c, g, surface) ← map_surface b c;
  '(c, g, hypothesis, hnode) ← hypothesize c g surface;
  '(c, g, observation, artifact, onode) ← experiment b c g hypothesis hnode;
  fid ← ffresh;
  if negb (violated observation) then
    refute manifest c g original hypothesis observation artifact onode fid
  else pursue manifest sandbox original c g hypothesis observation artifact fid.

End Run.

End Fixture.
