(* ===== verification/FixtureLaws.v ===== *)
(** * What a fixture campaign guarantees

    The observations a finished run rests on, in order: a run that reports a
    verified finding attacked the live target, had the exact target reproduced by
    the verifier process, minimized the request, and attacked and regression
    tested a server started from a patched twin. *)

From S2P Require Import Prelude RustStr Net Json Types PathScope Policy Ledger.
From S2P Require Import Cas Authority Store HttpLab Ipc Broker Graph Snapshot.
From S2P Require Import Declared Verifier Sandbox Engine Certificate World Fixture.
Import Ledger Snapshot HttpLab Engine World Fixture.

(** ** Running computations *)

Lemma fbind_Ok {A B} (m : F A) (f : A → F B) s s' b :
  (m ≫= f) s = (s', Ok b) → ∃ a s1, m s = (s1, Ok a) ∧ f a s1 = (s', Ok b).
Proof. unfold mbind, F_bind. destruct (m s) as [s1 [a|e]]; [|done]. eauto. Qed.

Lemma fbind_case {A B} (m : F A) (f : A → F B) s :
  (m ≫= f) s = match m s with (s1, Ok a) => f a s1 | (s1, Err e) => (s1, Err e) end.
Proof. reflexivity. Qed.

(** Steps that observe nothing and leave the trees alone. *)
Definition calm {A} (m : F A) : Prop :=
  ∀ s, seen (m s).1 = seen s ∧ trees (world (m s).1) = trees (world s).

Lemma calm_ret {A} (a : A) : calm (mret a).
Proof. by intros s. Qed.
Lemma calm_stop {A} e : calm (stop (A:=A) e).
Proof. by intros s. Qed.
Lemma calm_bind {A B} (m : F A) (f : A → F B) : calm m → (∀ a, calm (f a)) → calm (m ≫= f).
Proof.
  intros Hm Hf s. unfold mbind, F_bind. specialize (Hm s). destruct (m s) as [s1 [a|e]]; [|done].
  destruct Hm as [H1 H2], (Hf a s1) as [H3 H4]. cbn in *. by rewrite H3, H4.
Qed.
Lemma calm_on_world {A} (m : World.M A) : (∀ w, trees (m w).1 = trees w) → calm (on_world m).
Proof. intros Hm s. unfold on_world. specialize (Hm (world s)). by destruct (m (world s)). Qed.

Lemma calm_bind_Ok {A B} (m : F A) (f : A → F B) s s' b :
  calm m → (m ≫= f) s = (s', Ok b) →
  ∃ a s1, m s = (s1, Ok a) ∧ seen s1 = seen s ∧ trees (world s1) = trees (world s) ∧
    f a s1 = (s', Ok b).
Proof.
  intros Hm (a & s1 & E & Hf)%fbind_Ok. exists a, s1. specialize (Hm s). rewrite E in Hm.
  destruct Hm. auto.
Qed.

Create HintDb calm discriminated.
#[export] Hint Resolve calm_ret calm_stop : calm.

Section Calm.
Context `{I : IpNetLib, U : UuidLib, J : JsonLib, Hl : HashLib, !Serialize EventRecord,
  !Store.JsonText Campaign, !Store.JsonText LedgerEntry, !Store.JsonText GraphNode,
  !Store.JsonText GraphEdge, G : Graph.DiGraph}.
Variable ledger_error_display : LedgerError → string.
Variable env : World.Env.
Variable work_root : string.

(** The primitives of the world that only touch ledger, blobs or work directory. *)
Lemma trees_bind {A B} (m : World.M A) (f : A → World.M B) :
  (∀ w, trees (m w).1 = trees w) → (∀ a w, trees (f a w).1 = trees w) →
  ∀ w, trees ((m ≫= f) w).1 = trees w.
Proof.
  intros Hm Hf w. unfold mbind, M_bind. specialize (Hm w). destruct (m w) as [w1 [a|e]]; [|done].
  by rewrite Hf.
Qed.

Lemma calm_tick : calm ftick.
Proof. by apply calm_on_world. Qed.
Lemma calm_now : calm (fnow env).
Proof. by apply calm_on_world. Qed.
Lemma calm_fresh {k} : calm (ffresh (k:=k) env).
Proof. by apply calm_on_world. Qed.
Lemma calm_io : calm (on_world (io env)).
Proof. apply calm_on_world, trees_bind; [done|]. intros n w. by destruct (env_io_fault env n). Qed.
Lemma trees_asked candidates w : trees (first_answering env candidates w).1 = trees w.
Proof.
  revert w. induction candidates as [|c candidates IH]; [done|].
  apply trees_bind; [by apply trees_bind|]. intros [] w; [done|apply IH].
Qed.
Lemma calm_python : calm (resolve_python env).
Proof.
  apply calm_on_world. intros w. unfold resolve_declared_python.
  destruct (env_python_var env) as [v|]; [|apply trees_asked].
  destruct (is_empty _); [apply trees_asked|done].
Qed.
Lemma calm_open : calm (on_world open_store).
Proof. apply calm_on_world. intros w. unfold open_store. by destruct (Certificate.Store_open _) as [? []]. Qed.
Lemma calm_append ev arts : calm (append env ev arts).
Proof.
  apply calm_on_world, trees_bind; [done|]. intros t. apply trees_bind; [done|]. intros w0 w.
  by destruct (Ledger.append _ _ _ _) as [[]|].
Qed.
Lemma calm_cas bytes media : calm (cas_put env work_root bytes media).
Proof.
  apply calm_on_world. unfold World.cas_put. apply trees_bind; [done|]. intros n. apply trees_bind; [done|].
  intros id w. unfold prim. by repeat case_match.
Qed.
Lemma calm_snapshot tid root : calm (take_snapshot env tid root).
Proof. by apply calm_on_world. Qed.
Lemma trees_on_db {A} (f : Store.Db → Store.Db * result Store.StoreError A) w :
  trees (on_db f w).1 = trees w.
Proof. unfold on_db. destruct (Certificate.database _); try done. by destruct (f db). Qed.
Lemma calm_record k id text : calm (put_record env k id text).
Proof.
  destruct text; [|apply calm_stop]. apply calm_on_world, trees_bind; [done|]. intros. apply trees_on_db.
Qed.
Lemma calm_campaign c : calm (put_campaign env c).
Proof. apply calm_on_world, trees_bind; [done|]. intros. apply trees_on_db. Qed.
Lemma calm_persist c : calm (persist_ledger ledger_error_display env c).
Proof.
  apply calm_on_world, trees_bind; [done|]. intros n. apply trees_bind; [done|]. intros. apply trees_on_db.
Qed.
Lemma calm_graph c g : calm (persist_graph env c g).
Proof. apply calm_on_world, trees_bind; [done|]. intros. apply trees_on_db. Qed.
Lemma calm_state c st : calm (ledger_state env c st).
Proof. apply calm_bind; [apply calm_now|]. intros t. apply calm_bind; [apply calm_append|]. intros. apply calm_ret. Qed.
Lemma calm_node c g gk k l ep v p r : calm (add_node env c g gk k l ep v p r).
Proof. apply calm_bind; [apply calm_fresh|]. intros. apply calm_bind; [apply calm_now|]. intros. apply calm_ret. Qed.
Lemma calm_link c g a b k ep : calm (link env c g a b k ep).
Proof.
  apply calm_bind; [|intros; apply calm_ret]. apply calm_bind; [apply calm_fresh|].
  intros. apply calm_bind; [apply calm_now|]. intros. apply calm_ret.
Qed.

End Calm.
#[export] Hint Resolve calm_tick calm_now calm_fresh calm_io calm_open calm_append calm_cas
  calm_snapshot calm_record calm_campaign calm_persist calm_graph calm_state calm_node calm_link calm_python : calm.
#[export] Hint Extern 3 (calm (match ?x with _ => _ end)) => destruct x : calm.

(** Take the next bind of a run apart; a calm step leaves its equations. *)
Ltac fstep H :=
  let a := fresh "a" in let s := fresh "s" in
  first
    [ apply calm_bind_Ok in H as (a & s & ? & ? & ? & H); [|solve [auto with calm]]
    | apply fbind_Ok in H as (a & s & ? & H) ];
  cbv beta in H;
  repeat match type of H with
         | (match ?x with pair _ _ => _ end) _ = _ => is_var x; destruct x
         end.
Ltac fsteps H := repeat (fstep H).

Lemma touch_Ok fx n s s' a :
  touch fx n s = (s', Ok a) →
  seen s' = seen s ∧ trees (world s') = d_trees (fx_effect fx n (on_disk (world s))).
Proof. by intros [= <-]. Qed.
Lemma put_disk_Ok d s s' a : put_disk d s = (s', Ok a) → seen s' = seen s ∧ trees (world s') = d_trees d.
Proof. by intros [= <-]. Qed.
Lemma see_Ok o s s' a :
  see o s = (s', Ok a) → seen s' = seen s ++ [o] ∧ trees (world s') = trees (world s).
Proof. by intros [= <-]. Qed.
Lemma put_trees_Ok ts s s' a : put_trees ts s = (s', Ok a) → seen s' = seen s ∧ trees (world s') = ts.
Proof. by intros [= <-]. Qed.
Lemma tree_at_Ok root s s' t : tree_at root s = (s', Ok t) → s' = s ∧ t = trees (world s) !! root.
Proof. by intros [= <- <-]. Qed.
(** What the primitive steps of a run did. *)
Ltac fdone :=
  repeat match goal with
         | E : touch _ _ _ = (_, Ok _) |- _ => apply touch_Ok in E as [? ?]
         | E : see _ _ = (_, Ok _) |- _ => apply see_Ok in E as [? ?]
         | E : put_trees _ _ = (_, Ok _) |- _ => apply put_trees_Ok in E as [? ?]
         | E : put_disk _ _ = (_, Ok _) |- _ => apply put_disk_Ok in E as [? ?]
         | E : tree_at _ _ = (_, Ok _) |- _ => apply tree_at_Ok in E as [? ?]
         end; cbn in *; subst.

(** Trace what was seen, or the trees, back to the start of the run. *)
Ltac seen_back :=
  repeat match goal with E : seen ?x = _ |- context [seen ?x] => rewrite E; clear E end;
  rewrite <- ?app_assoc; cbn [app].
Ltac trees_back :=
  repeat match goal with E : trees (world ?x) = _ |- context [trees (world ?x)] => rewrite E; clear E end.

(** Read the trees where they were last changed. *)
Ltac rewrite_trees :=
  repeat match goal with
         | E : trees (world ?x) = trees (world ?y), H : context [trees (world ?x)] |- _ =>
           lazymatch H with E => fail | _ => rewrite E in H end
         end.

(** ** The phases *)

Section Phases.
Context `{I : IpNetLib, U : UuidLib, J : JsonLib, Hl : HashLib, !Serialize EventRecord,
  !Serialize AuthorizationManifest, !Serialize EvidenceBundle, !Serialize AuthorityResult,
  !Serialize VerifierMode, !Deserialize AuthorityResult, !Serialize HypothesisRec,
  !Store.JsonText Campaign, !Store.JsonText LedgerEntry, !Store.JsonText GraphNode,
  !Store.JsonText GraphEdge, !Store.JsonText HypothesisRec, !Store.JsonText ResearchCard,
  !Store.JsonText Verifier.VerifierInput, !Store.JsonText Verifier.VerifierProcessResult,
  G : Graph.DiGraph}.
Variable ledger_error_display : LedgerError → string.
Variable json_string : string → string.
Variable code_debug : Z → string.
Variable json_error : string.
Variable env : World.Env.
Variable fx : FxEnv.
Variable work_root fixture_root host : string.
Variable port : N.
Variable kind : FixtureKind.

#[local] Abbreviation http := (http fx).
#[local] Abbreviation violated := (violated kind).
#[local] Abbreviation twin := (twin_root work_root).

Lemma http_Ok h p path cookie s s' resp :
  http h p path cookie s = (s', Ok resp) → seen s' = seen s ++ [OHttp h p path cookie resp].
Proof.
  unfold Fixture.http. intros Hr. fstep Hr. fstep Hr.
  destruct (http_get _ _ _ _ _) as [r|e]; [|done]. fstep Hr. injection Hr as <- <-.
  fdone. congruence.
Qed.

Lemma broker_execute_Ok b i s s' receipt :
  broker_execute json_string fx b i s = (s', Ok receipt) →
  seen s' = seen s ++ [OTool i true] ∧ permitted (Broker.manifest b) (Broker.sandbox b) i.
Proof.
  unfold broker_execute. destruct (Broker.execute _ _ _ _ _ _ _) as [st r] eqn:E. intros Hr.
  fstep Hr. fstep Hr. fstep Hr. destruct r as [rc|e]; [|done]. injection Hr as <- <-.
  apply Broker.execute_Ok in E as (Hp & _). split; [|done].
  fdone. congruence.
Qed.

Lemma snapshot_Ok tid root s s' snap :
  take_snapshot env tid root s = (s', Ok snap) →
  ∃ t, trees (world s) !! root = Some t ∧ tree_digest root t = Ok (source_tree_digest snap).
Proof.
  unfold take_snapshot, on_world, snapshot, lift.
  cbv beta iota zeta delta [mbind M_bind now fresh tick get mret M_ret].
  destruct (trees _ !! root) as [t|] eqn:Ht; [|done]. destruct (snapshot_tree _ _ _ _ _) as [x|e] eqn:E; [|done].
  intros [= _ <-]. exists t. split; [done|]. destruct t; try done. unfold snapshot_tree in E.
  by apply bind_Ok in E as (d & -> & [= <-]).
Qed.

(** A campaign is only admitted without asking the container runtime. *)
Lemma admitted_sandbox_Ok self fresh m s s' sb :
  admitted_sandbox fx self fresh m s = (s', Ok sb) →
  s' = s ∧ assert_containment_or_fail self fresh (fx_oci fx) m [] = ([], Ok sb).
Proof.
  unfold admitted_sandbox. destruct (assert_containment_or_fail _ _ _ _ _) as [calls [x|e]] eqn:E; intros Hr.
  - pose proof E as [-> _]%admitted. by injection Hr as <- <-.
  - by fstep Hr.
Qed.

Lemma open_campaign_Ok self m s s' sb orig c :
  open_campaign env fx fixture_root self m s = (s', Ok (sb, orig, c)) →
  seen s' = seen s ∧
  (∃ fresh, assert_containment_or_fail self fresh (fx_oci fx) m [] = ([], Ok sb)) ∧
  ∃ t, trees (world s) !! fixture_root = Some t ∧ tree_digest fixture_root t = Ok (source_tree_digest orig).
Proof.
  unfold open_campaign. intros Hr.
  assert (Hreset : calm (on_world (prim (λ w, (set_ledger w EventLedger_new, Ok ()))))) by (by apply calm_on_world).
  fsteps Hr. injection Hr as <- <- <- <-.
  match goal with E : take_snapshot _ _ _ _ = _ |- _ => apply snapshot_Ok in E as (t & Ht & Hd) end.
  match goal with E : admitted_sandbox _ _ _ _ _ = _ |- _ => apply admitted_sandbox_Ok in E as [-> Ha] end.
  split_and!; [by seen_back|by eexists|exists t; split; [|done]; rewrite <- Ht; f_equal; by trees_back].
Qed.

Lemma map_surface_Ok b c s s' r :
  map_surface json_string env fx fixture_root kind b c s = (s', Ok r) →
  ∃ rid, seen s' = seen s ++ [OTool (list_intent rid fixture_root) true].
Proof.
  unfold map_surface. intros Hr. fsteps Hr. injection Hr as <- _.
  match goal with E : broker_execute _ _ _ _ _ = _ |- _ => apply broker_execute_Ok in E as [? _] end.
  eexists. by seen_back.
Qed.

Lemma hypothesize_Ok c g n s s' r :
  hypothesize env kind c g n s = (s', Ok r) → seen s' = seen s.
Proof. unfold hypothesize. intros Hr. fsteps Hr. injection Hr as <- _. by seen_back. Qed.

(** The attack: brokered first, then sent. *)
Definition attacked (b : Broker.ToolBroker) (obs : HttpResponse) (l : list Obs) : Prop :=
  ∃ rid, l = [OTool (attack_intent rid host port kind) true;
              OHttp host port (attack_request kind).1 (attack_request kind).2 obs] ∧
    permitted (Broker.manifest b) (Broker.sandbox b) (attack_intent rid host port kind).

Lemma experiment_Ok b c g h n s s' c' g' obs art on :
  experiment json_string env fx work_root host port kind b c g h n s = (s', Ok (c', g', obs, art, on)) →
  ∃ l, seen s' = seen s ++ l ∧ attacked b obs l.
Proof.
  unfold experiment, perform_attack_request. intros Hr. fsteps Hr. injection Hr as <- <- <- <- <- <-.
  match goal with E : broker_execute _ _ _ _ _ = _ |- _ => apply broker_execute_Ok in E as [? Hp] end.
  match goal with E : Fixture.http _ _ _ _ _ _ = _ |- _ => apply http_Ok in E end.
  eexists. split; [by seen_back|]. eexists. split; [reflexivity|exact Hp].
Qed.

(** The verifier process accepted the replay of the exact target. *)
Definition reproduced (orig : TargetSnapshot) (contained : bool) (l : list Obs) : Prop :=
  ∃ input replay v n ts ts', l = [OVerifier input v] ∧ Verifier.replay input = Some replay ∧
    verifier_replay fixture_root (source_tree_digest orig) kind contained = Some replay ∧
    Verifier.verify_in_subprocess code_debug json_error (fx_spawn fx n) input ts = (ts', Ok v) ∧
    Verifier.accepted v = true ∧ Verifier.oracle_observed v = true ∧
    Verifier.target_digest_observed v = Some (source_tree_digest orig).

Lemma verify_finding_Ok c sb orig h art fid s s' c' :
  verify_finding ledger_error_display code_debug json_error env fx fixture_root kind c sb orig h art
    fid s = (s', Ok c') →
  ∃ l, seen s' = seen s ++ l ∧ reproduced orig (containment_demonstrated sb) l.
Proof.
  unfold verify_finding. intros Hr. do 4 fstep Hr.
  destruct (verifier_replay _ _ _ _) as [replay|] eqn:Hv; [|done].
  unfold run_verifier in Hr. fstep Hr.
  match goal with E : (_ ≫= _) _ = (_, Ok _) |- _ => rename E into Hrun end. fstep Hrun.
  unfold fprim in Hrun. destruct (Verifier.verify_in_subprocess _ _ _ _ _) as [ts r] eqn:Hx.
  fstep Hrun. fstep Hrun. injection Hrun as <- <-.
  destruct r as [v|e]; [|by repeat fstep Hr].
  destruct (negb (Verifier.accepted v) || _) eqn:Ha; [by repeat fstep Hr|].
  case_bool_decide as Hd; cbn [negb] in Hr; [|done]. do 2 fstep Hr.
  match type of Hr with (if ?b then _ else _) _ = _ => destruct b; [done|] end.
  fsteps Hr. injection Hr as <- _. fdone.
  eexists. split; [by seen_back|]. apply orb_false_iff in Ha as [Ha Ho]. apply negb_false_iff in Ha, Ho.
  eexists _, replay, v, _, _, _. split_and!; [reflexivity|reflexivity|done|exact Hx|done..].
Qed.

(** Which requests the minimizer sent, and what they showed. *)
Definition minimized (l : list Obs) : Prop :=
  match kind with
  | Authz =>
    ∃ ck r0 r1 r2 r3,
      l = [OHttp host port "/users/2" None r0; OHttp host port "/users/2" ck r1;
           OHttp host port "/users/" ck r2; OHttp host port "/users/1" ck r3] ∧
      ck = (if violated r0 then None else Some "user=1") ∧
      violated r1 = true ∧ violated r2 = false ∧ violated r3 = false
  | Path =>
    ∃ r1 r2 r3,
      l = [OHttp host port "/files?path=../secret.txt" None r1; OHttp host port "/files" None r2;
           OHttp host port "/files?path=secret.txt" None r3] ∧
      violated r1 = true ∧ violated r2 = false ∧ violated r3 = false
  | Deceptive => False
  end.

Lemma minimize_Ok c g h obs fid s s' r :
  minimize env fx work_root host port kind c g h obs fid s = (s', Ok r) →
  ∃ l, seen s' = seen s ++ l ∧ minimized l.
Proof.
  unfold minimize. intros Hr. fsteps Hr. injection Hr as <- _.
  match goal with E : minimize_reproduction _ _ _ _ _ = _ |- _ => rename E into Hm end.
  unfold minimize_reproduction in Hm. unfold minimized.
  destruct kind; [| |done].
  - fstep Hm. fstep Hm. destruct (negb _) eqn:Hv in Hm; [done|]. fstep Hm. fstep Hm.
    destruct (_ || _) eqn:Ho in Hm; [done|]. injection Hm as <- _. apply orb_false_iff in Ho as [? ?].
    repeat match goal with E : Fixture.http _ _ _ _ _ _ = _ |- _ => apply http_Ok in E end.
    eexists. split; [by seen_back|]. eexists _, _, _, _, _. split_and!; [reflexivity..| | |]; try done.
    by apply negb_false_iff.
  - fstep Hm. destruct (negb _) eqn:Hv in Hm; [done|]. fstep Hm. fstep Hm.
    destruct (_ || _) eqn:Ho in Hm; [done|]. injection Hm as <- _. apply orb_false_iff in Ho as [? ?].
    repeat match goal with E : Fixture.http _ _ _ _ _ _ = _ |- _ => apply http_Ok in E end.
    eexists. split; [by seen_back|]. eexists _, _, _. split_and!; [reflexivity|..]; try done.
    by apply negb_false_iff.
Qed.

Lemma write_twin_Ok name text s s' a :
  write_twin env work_root name text s = (s', Ok a) →
  seen s' = seen s ∧ ∃ es, trees (world s) !! twin = Some (Dir es) ∧
    trees (world s') !! twin = Some (Dir (entry_set name (File text) es)) ∧
    ∀ root, root ≠ twin → trees (world s') !! root = trees (world s) !! root.
Proof.
  unfold write_twin, fprim. intros Hr. fstep Hr. rewrite_trees.
  destruct (trees (world s) !! twin) as [[| es | |]|] eqn:Ht; try done.
  destruct (entry_get name es) as [[]|]; try done; apply put_trees_Ok in Hr as [Hs Hts];
    (split; [by seen_back|]); exists es; rewrite Hts, lookup_insert_eq;
    (split_and!; [done..|]); intros root Hne; by rewrite lookup_insert_ne.
Qed.

Lemma patch_seen s s' a : apply_fixture_patch env work_root kind s = (s', Ok a) → seen s' = seen s.
Proof.
  unfold apply_fixture_patch. intros Hr. fstep Hr. fdone.
  destruct (read_text _ _); [|done]. by apply write_twin_Ok in Hr as [-> _].
Qed.

Lemma make_twin_seen s s' a : make_twin env work_root fixture_root s = (s', Ok a) → seen s' = seen s.
Proof.
  unfold make_twin, fprim. intros Hr. fstep Hr. destruct (delete _ _ !! _); [|done].
  destruct (copy_dir _ _) as [|[]]; try done. apply put_trees_Ok in Hr as [-> _]. by seen_back.
Qed.

(** The twin was patched at the seam and the original is untouched. *)
Lemma remediate_Ok m c orig fid s s' c' patch :
  remediate env work_root fixture_root kind m c orig fid s = (s', Ok (c', patch)) →
  seen s' = seen s ∧ twin_is_patched (trees (world s') !! twin) kind = true ∧
  worktree_path patch = twin ∧
  ∃ t, trees (world s') !! fixture_root = Some t ∧
    tree_digest fixture_root t = Ok (source_tree_digest orig).
Proof.
  unfold remediate. intros Hr. do 4 fstep Hr. destruct (twin_is_patched _ _) eqn:Hp; [|done]. cbn [negb] in Hr.
  do 4 fstep Hr. case_bool_decide as Hd; cbn [negb] in Hr; [|done]. injection Hr as <- <- <-.
  match goal with E : make_twin _ _ _ _ = _ |- _ => apply make_twin_seen in E end.
  match goal with E : apply_fixture_patch _ _ _ _ = _ |- _ => apply patch_seen in E end.
  match goal with E : take_snapshot _ _ fixture_root _ = _ |- _ => apply snapshot_Ok in E as (t & Ht & Hdg) end.
  rewrite Hd in Hdg. fdone. split_and!; [by seen_back|by trees_back|done|].
  exists t. split; [rewrite <- Ht; f_equal; congruence|done].
Qed.

(** What the patched twin answered. *)
Definition reattacked (t : option tree) (l : list Obs) : Prop :=
  ∃ p vr fr needle r1 r2 r3 t',
    variant_request kind = Some vr ∧ functional_request kind = Some (fr, needle) ∧
    l = [OServer twin t p;
         OHttp "127.0.0.1" p (attack_request kind).1 (attack_request kind).2 r1;
         OHttp "127.0.0.1" p vr.1 vr.2 r2; OHttp "127.0.0.1" p fr.1 fr.2 r3;
         ORegression twin t' p true; OStopped p] ∧
    violated r1 = false ∧ violated r2 = false ∧
    status r3 = 200%N ∧ contains (body r3) needle = true ∧
    read_text "regression_test.py" t' = Some (regression_source kind).

Lemma start_twin_Ok s s' p :
  start_twin env fx work_root s = (s', Ok p) →
  seen s' = seen s ++ [OServer twin (trees (world s) !! twin) p].
Proof.
  unfold start_twin. intros Hr. do 2 fstep Hr. case_match; [|done].
  destruct (fx_port _ _) as [p'|]; [|done]. destruct (negb _); [done|]. fstep Hr. fstep Hr.
  fstep Hr. destruct (Verifier.await_ready _ _); try done. injection Hr as <- <-. fdone. seen_back. congruence.
Qed.

Lemma with_fixture_Ok {A} p (m : F A) s s' a :
  with_fixture p m s = (s', Ok a) →
  ∃ s1, m s = (s1, Ok a) ∧ seen s' = seen s1 ++ [OStopped p] ∧ trees (world s') = trees (world s1).
Proof.
  unfold with_fixture. destruct (m s) as [s1 r]. intros [= <- ->]. by exists s1.
Qed.

Lemma original_absent_Ok p s s' :
  patched_original_effect_absent fx kind p s = (s', Ok true) →
  ∃ r, violated r = false ∧
    seen s' = seen s ++ [OHttp "127.0.0.1" p (attack_request kind).1 (attack_request kind).2 r].
Proof.
  unfold patched_original_effect_absent, perform_attack_request. intros Hr. fstep Hr.
  injection Hr as <- Hv. apply negb_true_iff in Hv.
  match goal with E : Fixture.http _ _ _ _ _ _ = _ |- _ => apply http_Ok in E end. eauto.
Qed.

Lemma variant_absent_Ok p s s' :
  patched_variant_effect_absent fx kind p s = (s', Ok true) →
  ∃ vr r, variant_request kind = Some vr ∧ violated r = false ∧
    seen s' = seen s ++ [OHttp "127.0.0.1" p vr.1 vr.2 r].
Proof.
  unfold patched_variant_effect_absent. destruct (variant_request kind) as [[vp vc]|]; [|done].
  intros Hr. fstep Hr. injection Hr as <- Hv. apply negb_true_iff in Hv.
  match goal with E : Fixture.http _ _ _ _ _ _ = _ |- _ => apply http_Ok in E end.
  eexists (_, _), _. eauto.
Qed.

Lemma functionality_Ok p s s' :
  patched_functionality_holds fx kind p s = (s', Ok true) →
  ∃ fr needle r, functional_request kind = Some (fr, needle) ∧ status r = 200%N ∧
    contains (body r) needle = true ∧ seen s' = seen s ++ [OHttp "127.0.0.1" p fr.1 fr.2 r].
Proof.
  unfold patched_functionality_holds. destruct (functional_request kind) as [[[fp fc] needle]|]; [|done].
  intros Hr. fstep Hr. injection Hr as <- Hv. apply andb_true_iff in Hv as [Hs Hb].
  apply N.eqb_eq in Hs.
  match goal with E : Fixture.http _ _ _ _ _ _ = _ |- _ => apply http_Ok in E end.
  eexists (_, _), needle, _. eauto.
Qed.

Lemma regression_Ok p s s' :
  run_regression env work_root p s = (s', Ok true) →
  seen s' = seen s ++ [ORegression twin (trees (world s) !! twin) p true].
Proof.
  unfold run_regression. intros Hr. do 2 fstep Hr. case_match; [|done]. fstep Hr.
  unfold fprim in Hr. destruct (env_status _ _ _ _) as [d ended]. fstep Hr. destruct ended as [passed|]; [|done].
  fstep Hr. injection Hr as <- ->. fdone. seen_back. congruence.
Qed.

Lemma entry_get_set name t es : entry_get name (entry_set name t es) = Some t.
Proof.
  unfold entry_get. induction es as [|[n u] es IH]; cbn [entry_set].
  - cbn. by rewrite decide_True by done.
  - destruct (String.eqb_spec n name) as [->|Hne]; cbn.
    + by rewrite decide_True by done.
    + rewrite decide_False by done. destruct (list_find _ (entry_set _ _ _)) as [[]|]; [|done]. cbn in *. done.
Qed.

Lemma reattack_Ok c fid s s' c' :
  reattack env fx work_root kind c fid s = (s', Ok c') →
  ∃ l, seen s' = seen s ++ l ∧ reattacked (trees (world s) !! twin) l.
Proof.
  unfold reattack. intros Hr. do 4 fstep Hr. injection Hr as <- _.
  match goal with E : with_fixture _ _ _ = _ |- _ => apply with_fixture_Ok in E as (sa & Ha & ? & _) end.
  unfold attack_twin in Ha. do 3 fstep Ha.
  match type of Ha with (if ?b then _ else _) _ = _ => destruct b eqn:Hb; [done|] end.
  apply negb_false_iff in Hb. rewrite !andb_true_iff in Hb. destruct Hb as [[-> ->] ->].
  do 2 fstep Ha. match type of Ha with (if ?b then _ else _) _ = _ => destruct b eqn:Hb; [done|] end.
  apply negb_false_iff in Hb as ->. injection Ha as <-.
  repeat match goal with
         | E : start_twin _ _ _ _ = _ |- _ => apply start_twin_Ok in E
         | E : patched_original_effect_absent _ _ _ _ = _ |- _ => apply original_absent_Ok in E as (r1 & ? & ?)
         | E : patched_variant_effect_absent _ _ _ _ = _ |- _ => apply variant_absent_Ok in E as (vr & r2 & ? & ? & ?)
         | E : patched_functionality_holds _ _ _ _ = _ |- _ =>
           apply functionality_Ok in E as (fr & needle & r3 & ? & ? & ? & ?)
         | E : write_twin _ _ _ _ _ = _ |- _ => apply write_twin_Ok in E as (? & es & _ & Hw & _)
         | E : run_regression _ _ _ _ = _ |- _ => apply regression_Ok in E
         end.
  eexists. split; [by seen_back|]. eexists _, vr, fr, needle, r1, r2, r3, _.
  split_and!; [done..| |done|done|done|done|].
  - trees_back. reflexivity.
  - rewrite Hw. cbn. rewrite entry_get_set. by destruct kind.
Qed.

Lemma refute_Ok m c g orig h obs art on fid s s' o :
  refute ledger_error_display env fixture_root kind m c g orig h obs art on fid s = (s', Ok o) →
  seen s' = seen s ∧ finding_verified <$> out_finding o = Some false ∧
  out_evidence_level o = Some E0HypothesisOnly ∧ campaign_state (out_campaign o) = CsRefuted ∧
  out_patch o = None ∧ out_live_reattack_confirmed o = false ∧
  out_deceptive_rejected o = bool_decide (kind = Deceptive).
Proof.
  unfold refute. intros Hr. fsteps Hr. injection Hr as <- <-. split_and!; try done. by seen_back.
Qed.

Lemma protect_Ok m c g orig h card patch fid s s' o :
  protect ledger_error_display env work_root fixture_root m c g orig h card patch fid s = (s', Ok o) →
  seen s' = seen s ∧ finding_verified <$> out_finding o = Some true ∧
  out_evidence_level o = Some E7VariantReattackAndRegression ∧
  campaign_state (out_campaign o) = RegressionProtected ∧ out_patch o = Some patch ∧
  out_live_reattack_confirmed o = true ∧ out_deceptive_rejected o = false ∧
  out_original_digest o = source_tree_digest orig.
Proof.
  unfold protect. intros Hr. fsteps Hr. injection Hr as <- <-. split_and!; try done. by seen_back.
Qed.

(** ** The whole run *)

(** What an outcome that reports a refutation rests on. *)
Definition refuted_run (o : CampaignOutcome) : Prop :=
  finding_verified <$> out_finding o = Some false ∧ out_evidence_level o = Some E0HypothesisOnly ∧
  campaign_state (out_campaign o) = CsRefuted ∧ out_patch o = None ∧
  out_live_reattack_confirmed o = false ∧
  out_deceptive_rejected o = bool_decide (kind = Deceptive).

(** What an outcome that reports a verified finding rests on. *)
Definition verified_run (o : CampaignOutcome) (sb : SandboxIdentity) (orig : TargetSnapshot)
    (l : list Obs) : Prop :=
  finding_verified <$> out_finding o = Some true ∧
  out_evidence_level o = Some E7VariantReattackAndRegression ∧
  campaign_state (out_campaign o) = RegressionProtected ∧
  out_original_digest o = source_tree_digest orig ∧ out_live_reattack_confirmed o = true ∧
  out_deceptive_rejected o = false ∧ worktree_path <$> out_patch o = Some twin ∧
  ∃ verified smaller again t, l = verified ++ smaller ++ again ∧
    reproduced orig (containment_demonstrated sb) verified ∧ minimized smaller ∧
    twin_is_patched t kind = true ∧ reattacked t again.

Lemma pursue_Ok m sb orig c g h obs art fid s s' o :
  pursue ledger_error_display code_debug json_error env fx work_root fixture_root host port kind
    m sb orig c g h obs art fid s = (s', Ok o) →
  ∃ l, seen s' = seen s ++ l ∧ verified_run o sb orig l.
Proof.
  unfold pursue. intros Hr. do 4 fstep Hr.
  apply protect_Ok in Hr as (Hs & ? & ? & ? & Hp & ? & ? & ?).
  repeat match goal with
         | E : verify_finding _ _ _ _ _ _ _ _ _ _ _ _ _ _ = _ |- _ => apply verify_finding_Ok in E as (l1 & ? & ?)
         | E : minimize _ _ _ _ _ _ _ _ _ _ _ _ = _ |- _ => apply minimize_Ok in E as (l2 & ? & ?)
         | E : remediate _ _ _ _ _ _ _ _ _ = _ |- _ => apply remediate_Ok in E as (? & ? & ? & _)
         | E : reattack _ _ _ _ _ _ _ = _ |- _ => apply reattack_Ok in E as (l3 & ? & ?)
         end.
  exists (l1 ++ l2 ++ l3). split; [by seen_back|]. split_and!; try done; [by rewrite Hp; cbn; f_equal|].
  eauto 10.
Qed.

(** A finished run is one of two: refuted by what the target answered, or
    verified by everything that followed. *)
Lemma run_fixture_Ok self m s s' o :
  run_fixture_campaign ledger_error_display json_string code_debug json_error env fx work_root
    fixture_root host port kind self m s = (s', Ok o) →
  ∃ sb orig c rid obs l,
    (∃ fresh, assert_containment_or_fail self fresh (fx_oci fx) (waived self m) [] = ([], Ok sb)) ∧
    (∃ t, trees (world s) !! fixture_root = Some t ∧
       tree_digest fixture_root t = Ok (source_tree_digest orig)) ∧
    attacked (broker_of work_root (waived self m) sb orig c) obs l ∧
    ((violated obs = false ∧ refuted_run o ∧
      seen s' = seen s ++ OTool (list_intent rid fixture_root) true :: l) ∨
     (violated obs = true ∧ ∃ rest, verified_run o sb orig rest ∧
      seen s' = seen s ++ OTool (list_intent rid fixture_root) true :: l ++ rest)).
Proof.
  unfold run_fixture_campaign. intros Hr. do 5 fstep Hr.
  match goal with E : open_campaign _ _ _ _ _ _ = _ |- _ => apply open_campaign_Ok in E as (? & ? & ?) end.
  match goal with E : map_surface _ _ _ _ _ _ _ _ = _ |- _ => apply map_surface_Ok in E as (rid & ?) end.
  match goal with E : hypothesize _ _ _ _ _ _ = _ |- _ => apply hypothesize_Ok in E end.
  match goal with E : experiment _ _ _ _ _ _ _ _ _ _ _ _ _ = _ |- _ => apply experiment_Ok in E as (l & ? & ?) end.
  eexists _, _, _, rid, _, l. split_and!; [done..|].
  match type of Hr with (if negb ?b then _ else _) _ = _ => destruct b eqn:Hv; cbn [negb] in Hr end.
  - right. split; [done|]. apply pursue_Ok in Hr as (rest & ? & ?). exists rest. split; [done|]. by seen_back.
  - left. split; [done|]. apply refute_Ok in Hr as (? & Hrest). split; [done|]. by seen_back.
Qed.

Definition run := run_fixture_campaign ledger_error_display json_string code_debug json_error env fx
  work_root fixture_root host port kind.

(** C7: an outcome with a verified finding rests on what was observed, in order: a
    permitted attack that the live target answered with a violation of the
    invariant; the acceptance of the verifier process for the replay of that
    request against the exact digest of the target; the minimized request and its
    negative controls; a server started from a twin patched at the seam that
    withstood the attack and its variant and still worked; and the regression
    test, run on the twin, whose server was then stopped. The negative control is
    never verified. *)
Theorem fixture_verified_grounded self m s s' o :
  run self m s = (s', Ok o) → finding_verified <$> out_finding o = Some true →
  kind ≠ Deceptive ∧
  ∃ sb orig c t rid obs l rest,
    trees (world s) !! fixture_root = Some t ∧ tree_digest fixture_root t = Ok (out_original_digest o) ∧
    attacked (broker_of work_root (waived self m) sb orig c) obs l ∧ violated obs = true ∧
    verified_run o sb orig rest ∧
    seen s' = seen s ++ OTool (list_intent rid fixture_root) true :: l ++ rest.
Proof.
  intros (sb & orig & c & rid & obs & l & _ & (t & Ht & Hd) & Ha & Hcase)%run_fixture_Ok Hv.
  destruct Hcase as [(_ & (Hf & _) & _)|(Hvio & rest & Hver & Hseen)]; [congruence|].
  destruct Hver as (? & ? & ? & Ho & ? & ? & ? & verified & smaller & again & t' & Hlist & Hrep & Hm & Ht' & Hre).
  split.
  - intros E. unfold minimized in Hm. by rewrite E in Hm.
  - exists sb, orig, c, t, rid, obs, l, rest. split_and!; try done; [by rewrite Ho|].
    unfold verified_run. split_and!; try done. eauto 10.
Qed.

(** Any other outcome is a refutation: the target answered the attack without
    violating the invariant, nothing further was started or sent, the level is
    E0, and the outcome names the negative control exactly for that fixture. *)
Theorem fixture_refuted_grounded self m s s' o :
  run self m s = (s', Ok o) → finding_verified <$> out_finding o ≠ Some true →
  refuted_run o ∧
  ∃ sb orig c rid obs l, attacked (broker_of work_root (waived self m) sb orig c) obs l ∧
    violated obs = false ∧ seen s' = seen s ++ OTool (list_intent rid fixture_root) true :: l.
Proof.
  intros (sb & orig & c & rid & obs & l & _ & _ & Ha & Hcase)%run_fixture_Ok Hv.
  destruct Hcase as [(Hno & Href & Hseen)|(_ & rest & Hver & _)]; [|by destruct Hv, Hver].
  split; [done|]. by exists sb, orig, c, rid, obs, l.
Qed.

(** C8: with the program's own verifier behind the process boundary, a verified
    finding was reproduced by it: it found the tree with the digest of the
    campaign, copied it exactly, and its copy answered the attack with a violation
    of the invariant. *)
Theorem fixture_reproduced_independently http_error_display snapshot_error_display
    `{!Store.JsonTextLaws Verifier.VerifierInput, !Store.JsonTextLaws Verifier.VerifierProcessResult}
    (hosts : nat → Verifier.Host) self m s s' o :
  (∀ n, Verifier.genuine http_error_display snapshot_error_display (fx_spawn fx n) (hosts n)) →
  run self m s = (s', Ok o) → finding_verified <$> out_finding o = Some true →
  ∃ n (ts : gmap string tree) t r copy resp,
    ts !! fixture_root = Some t ∧ tree_digest fixture_root t = Ok (out_original_digest o) ∧
    copy_exact_tree t (ts !! Verifier.h_temp (hosts n)) = Ok copy ∧
    tree_digest (Verifier.h_temp (hosts n)) copy = Ok (out_original_digest o) ∧
    (Verifier.request_path r, Verifier.cookie r) = attack_request kind ∧
    Verifier.observed (hosts n) r copy resp ∧ violated resp = true.
Proof.
  intros Hg (sb & orig & c & rid & obs & l & _ & _ & _ & Hcase)%run_fixture_Ok Hv.
  destruct Hcase as [(_ & (Hf & _) & _)|(_ & rest & Hver & _)]; [congruence|].
  destruct Hver as (_ & _ & _ & Ho & _ & _ & _ & verified & _ & _ & _ & _ & Hrep & _).
  destruct Hrep as (input & replay & v & n & ts & ts' & _ & Hin & Hre & Hsub & Hacc & _).
  apply (Verifier.subprocess_genuine http_error_display snapshot_error_display _ _ _ (hosts n)) in Hsub;
    [|apply Hg].
  apply Verifier.accepted_reproduced in Hsub as (r & t & copy & resp & Hr & Ht & Hd & Hc & Hcd & Hobs & Hm & _);
    [|done].
  assert (r = replay) as -> by congruence. rewrite Ho.
  destruct (replay_agrees _ _ _ _ _ (status resp) (body resp) Hre) as [Hq Hio]. rewrite Hio in Hm.
  assert (Verifier.target_root replay = fixture_root ∧
          Verifier.expected_tree_digest replay = source_tree_digest orig) as [Hroot Hdig].
  { revert Hre. unfold verifier_replay. by destruct kind; intros [= <-]. }
  rewrite Hroot, Hdig in *. by exists n, ts, t, replay, copy, resp.
Qed.

(** A negative control that does leak a secret never becomes a finding: the
    run stops in a panic (or because the ledger refused an event before). *)
Theorem leaking_control_panics m sb orig c g h obs art fid s :
  kind = Deceptive →
  let r := (pursue ledger_error_display code_debug json_error env fx work_root fixture_root host port
              kind m sb orig c g h obs art fid s).2 in
  r = Err Panicked ∨ ∃ e, r = Err (Halted (EeLedger e)).
Proof.
  intros ->. cbv zeta.
  assert (Happ : ∀ ev arts s0, (∃ s1, append env ev arts s0 = (s1, Ok ())) ∨
    ∃ s1 e, append env ev arts s0 = (s1, Err (Halted (EeLedger e)))).
  { intros ev arts s0. unfold append, on_world, append_event.
    cbv beta iota zeta delta [mbind M_bind now tick get mret M_ret].
    match goal with |- context [Ledger.append ?a ?b ?c ?d] => destruct (Ledger.append a b c d) as [[l e]|e] end;
      cbn; eauto. }
  unfold pursue, verify_finding, ledger_state, fnow, on_world.
  cbv beta iota zeta delta [mbind F_bind M_bind now tick get mret M_ret F_ret map_err].
  repeat match goal with
         | |- context [append ?e ?ev ?arts ?s0] =>
           destruct (Happ ev arts s0) as [[? ->]|(? & ? & ->)]; [|right; by eexists]
         end.
  by left.
Qed.

End Phases.
