(* ===== verification/FixtureServers.v ===== *)
(** * The servers of a fixture campaign

    A fixture campaign starts one kind of server itself, the patched twin on the
    host. However the run ends, with an outcome, an error or a panic, at most one
    such server was started, it served the twin, and it was stopped. *)

From S2P Require Import Prelude RustStr Net Json Types PathScope Policy Ledger.
From S2P Require Import Cas Authority Store HttpLab Ipc Broker Graph Snapshot.
From S2P Require Import Declared Verifier Sandbox Engine Certificate World Fixture FixtureLaws.
Import Ledger Snapshot HttpLab Engine World Fixture.

(** ** Steps that start and stop nothing *)

Definition about_server (o : Obs) : bool :=
  match o with OServer _ _ _ | OStopped _ => true | _ => false end.
Definition unrelated (l : list Obs) : Prop := Forall (λ o, about_server o = false) l.

(** Whatever the result, what was seen says nothing of servers. *)
Definition serverless {A} (m : F A) : Prop := ∀ s, ∃ l, seen (m s).1 = seen s ++ l ∧ unrelated l.

Lemma serverless_calm {A} (m : F A) : calm m → serverless m.
Proof. intros Hm s. exists []. rewrite app_nil_r. split; [apply Hm|constructor]. Qed.
Lemma serverless_bind {A B} (m : F A) (f : A → F B) :
  serverless m → (∀ a, serverless (f a)) → serverless (m ≫= f).
Proof.
  intros Hm Hf s. unfold mbind, F_bind. destruct (Hm s) as (l & E & Hl). destruct (m s) as [s1 [a|e]]; [|eauto].
  destruct (Hf a s1) as (l' & E' & Hl'). exists (l ++ l'). cbn in E. rewrite E', E, app_assoc.
  split; [done|by apply Forall_app].
Qed.
Lemma serverless_see o : about_server o = false → serverless (see o).
Proof. intros Ho s. exists [o]. split; [done|by repeat constructor]. Qed.
Lemma serverless_put ts : serverless (put_trees ts).
Proof. intros s. exists []. rewrite app_nil_r. split; [done|constructor]. Qed.
Lemma serverless_disk d : serverless (put_disk d).
Proof. intros s. exists []. rewrite app_nil_r. split; [done|constructor]. Qed.
Lemma serverless_tree root : serverless (tree_at root).
Proof. intros s. exists []. rewrite app_nil_r. split; [done|constructor]. Qed.
(** A primitive that looks at the state first. *)
Lemma serverless_fprim {A} (f : Fx → Fx * result Stop A) :
  (∀ s, ∃ m : F A, f s = m s ∧ serverless m) → serverless (fprim f).
Proof. intros Hf s. destruct (Hf s) as (m & E & Hm). unfold fprim. rewrite E. apply Hm. Qed.

Create HintDb servers discriminated.
#[export] Hint Resolve serverless_put serverless_disk serverless_tree : servers.
#[export] Hint Extern 1 (serverless (see _)) => by apply serverless_see : servers.
#[export] Hint Extern 2 (serverless _) => (apply serverless_calm; solve [auto with calm]) : servers.

(** Walk through a computation. *)
Ltac serverless :=
  repeat match goal with
  | |- ∀ _, _ => intros
  | |- serverless (_ ≫= _) => apply serverless_bind
  | |- serverless (match ?x with _ => _ end) => destruct x eqn:?
  | |- serverless (fprim _) => apply serverless_fprim; intros
  | |- ∃ m, (match ?x with _ => _ end) = _ ∧ _ => destruct x eqn:?
  | |- ∃ m, (?s, Err ?e) = m ?s ∧ _ => exists (stop e); split; [reflexivity|]
  | |- ∃ m, ?n ?s = m ?s ∧ _ => exists n; split; [reflexivity|]
  | |- serverless _ => solve [eauto with servers]
  end.

Section Servers.
Context `{I : IpNetLib, U : UuidLib, J : JsonLib, Hl : HashLib, !Serialize EventRecord,
  !Serialize AuthorizationManifest, !Serialize EvidenceBundle, !Serialize AuthorityResult,
  !Serialize VerifierMode, !Deserialize AuthorityResult, !Serialize HypothesisRec,
  !Store.JsonText Campaign, !Store.JsonText LedgerEntry, !Store.JsonText GraphNode,
  !Store.JsonText GraphEdge, !Store.JsonText HypothesisRec, !Store.JsonText ResearchCard,
  !Store.JsonText Verifier.VerifierInput, !Store.JsonText Verifier.VerifierProcessResult,
  G : Graph.DiGraph}.
Variable ledger_error_display : LedgerError → string.
Variable json_string : string → string.
Variable code_debug : Z → string.
Variable json_error : string.
Variable env : World.Env.
Variable fx : FxEnv.
Variable work_root fixture_root host : string.
Variable port : N.
Variable kind : FixtureKind.
#[local] Abbreviation twin := (twin_root work_root).

Lemma serverless_touch n : serverless (touch fx n).
Proof. intros s. apply serverless_disk. Qed.
#[local] Hint Resolve serverless_touch : servers.
Lemma serverless_http h p path cookie : serverless (http fx h p path cookie).
Proof. unfold http. serverless. Qed.
Lemma serverless_broker b i : serverless (broker_execute json_string fx b i).
Proof.
  intros s. unfold broker_execute. destruct (Broker.execute _ _ _ _ _ _ _) as [st r].
  match goal with |- context [?m (mkFx ?w (seen s))] => assert (Hm : serverless m) by serverless;
    exact (Hm (mkFx w (seen s))) end.
Qed.
Lemma serverless_write name text : serverless (write_twin env work_root name text).
Proof. unfold write_twin. serverless. Qed.
Lemma serverless_verifier input : serverless (run_verifier code_debug json_error fx input).
Proof. unfold run_verifier. serverless. Qed.
Lemma serverless_regression p : serverless (run_regression env work_root p).
Proof. unfold run_regression. serverless. Qed.
#[local] Hint Resolve serverless_http serverless_broker serverless_write serverless_verifier
  serverless_regression : servers.

Lemma serverless_open self m : serverless (open_campaign env fx fixture_root self m).
Proof.
  assert (Hreset : calm (on_world (prim (λ w, (set_ledger w EventLedger_new, Ok ()))))) by (by apply calm_on_world).
  unfold open_campaign, admitted_sandbox. serverless.
Qed.
Lemma serverless_map b c : serverless (map_surface json_string env fx fixture_root kind b c).
Proof. unfold map_surface. serverless. Qed.
Lemma serverless_hypothesize c g n : serverless (hypothesize env kind c g n).
Proof. unfold hypothesize. serverless. Qed.
Lemma serverless_experiment b c g h n : serverless (experiment json_string env fx work_root host port kind b c g h n).
Proof. unfold experiment, perform_attack_request. serverless. Qed.
Lemma serverless_refute m c g orig h obs art on fid :
  serverless (refute ledger_error_display env fixture_root kind m c g orig h obs art on fid).
Proof. unfold refute. serverless. Qed.
Lemma serverless_verify c sb orig h art fid :
  serverless (verify_finding ledger_error_display code_debug json_error env fx fixture_root kind c sb orig h art fid).
Proof. unfold verify_finding, abandon_run, authority_confirms, fail_closed. serverless. Qed.
Lemma serverless_minimize c g h obs fid : serverless (minimize env fx work_root host port kind c g h obs fid).
Proof. unfold minimize, minimize_reproduction, fail_closed. serverless. Qed.
Lemma serverless_make_twin : serverless (make_twin env work_root fixture_root).
Proof.
  unfold make_twin. apply serverless_bind; [serverless|]. intros _ s. exists []. rewrite app_nil_r.
  split; [|constructor]. unfold fprim. by repeat case_match.
Qed.
#[local] Hint Resolve serverless_make_twin : servers.
Lemma serverless_remediate m c orig fid : serverless (remediate env work_root fixture_root kind m c orig fid).
Proof. unfold remediate, apply_fixture_patch, fail_closed. serverless. Qed.
Lemma serverless_protect m c g orig h card patch fid :
  serverless (protect ledger_error_display env work_root fixture_root m c g orig h card patch fid).
Proof. unfold protect. serverless. Qed.
Lemma serverless_attack p : serverless (attack_twin env fx work_root kind p).
Proof.
  unfold attack_twin, patched_original_effect_absent, perform_attack_request, patched_variant_effect_absent,
    patched_functionality_holds, fail_closed. serverless.
Qed.
#[local] Hint Resolve serverless_open serverless_map serverless_hypothesize serverless_experiment
  serverless_refute serverless_verify serverless_minimize serverless_remediate serverless_protect : servers.

(** ** One server at most, and it is stopped *)

(** No server, or one from start to stop. *)
Definition tidy (l : list Obs) : Prop :=
  unrelated l ∨ ∃ before t p between after,
    l = before ++ [OServer twin t p] ++ between ++ [OStopped p] ++ after ∧
    unrelated before ∧ unrelated between ∧ unrelated after.
Definition leaves_tidy {A} (m : F A) : Prop := ∀ s, ∃ l, seen (m s).1 = seen s ++ l ∧ tidy l.

Lemma tidy_before l l' : unrelated l → tidy l' → tidy (l ++ l').
Proof.
  intros Hl1 [Hu|(b & t & p & m & a & -> & Hb & Hm & Ha)]; [left; by apply Forall_app|].
  right. exists (l ++ b), t, p, m, a. split; [by rewrite app_assoc|]. split_and!; [by apply Forall_app|done..].
Qed.
Lemma tidy_after l l' : tidy l → unrelated l' → tidy (l ++ l').
Proof.
  intros [Hu|(b & t & p & m & a & -> & Hb & Hm & Ha)] Hl1; [left; by apply Forall_app|].
  right. exists b, t, p, m, (a ++ l'). rewrite <- !app_assoc. split; [done|]. split_and!; [done..|by apply Forall_app].
Qed.
Lemma serverless_tidy {A} (m : F A) : serverless m → leaves_tidy m.
Proof. intros Hm s. destruct (Hm s) as (l & ? & ?). exists l. split; [done|by left]. Qed.
Lemma tidy_bind_r {A B} (m : F A) (f : A → F B) : serverless m → (∀ a, leaves_tidy (f a)) → leaves_tidy (m ≫= f).
Proof.
  intros Hm Hf s. unfold mbind, F_bind. destruct (Hm s) as (l & E & Hl0). destruct (m s) as [s1 [a|e]].
  - destruct (Hf a s1) as (l' & E' & Hl'). exists (l ++ l'). cbn in E. rewrite E', E, app_assoc.
    split; [done|by apply tidy_before].
  - exists l. split; [done|by left].
Qed.
Lemma tidy_bind_l {A B} (m : F A) (f : A → F B) : leaves_tidy m → (∀ a, serverless (f a)) → leaves_tidy (m ≫= f).
Proof.
  intros Hm Hf s. unfold mbind, F_bind. destruct (Hm s) as (l & E & Hl0). destruct (m s) as [s1 [a|e]]; [|eauto].
  destruct (Hf a s1) as (l' & E' & Hl'). exists (l ++ l'). cbn in E. rewrite E', E, app_assoc.
  split; [done|by apply tidy_after].
Qed.

(** A server that comes up is the last thing seen; one that does not is stopped. *)
Lemma start_twin_seen s :
  ∃ l, seen (start_twin env fx work_root s).1 = seen s ++ l ∧
    match (start_twin env fx work_root s).2 with
    | Ok p => ∃ t, l = [OServer twin t p]
    | Err _ => tidy l
    end.
Proof.
  unfold start_twin. rewrite fbind_case. destruct (calm_python env s) as [Es _].
  destruct (resolve_python env s) as [s1 [python|e]]; cbn in Es; rewrite <- Es; clear s Es;
    [|exists []; rewrite app_nil_r; split; [done|left; constructor]].
  unfold ftick, on_world, tick, fail_closed.
  cbv beta iota zeta delta [mbind F_bind mret F_ret M_bind M_ret map_err stop see tree_at touch put_disk
    with_fixture stop_fixture]. cbn.
  assert (Hn : tidy []) by (left; constructor).
  destruct python; cbn; [|exists []; by rewrite app_nil_r].
  destruct (fx_port _ _) as [p|]; cbn; [|exists []; by rewrite app_nil_r].
  destruct (fx_started _ _); cbn; [|exists []; by rewrite app_nil_r].
  assert (Ht : ∀ t, tidy ([OServer twin t p] ++ [OStopped p])).
  { intros t. right. exists [], t, p, [], []. split; [done|]. split_and!; constructor. }
  destruct (Verifier.await_ready _ _); cbn; rewrite <- ?app_assoc; eexists; (split; [reflexivity|eauto]).
Qed.

Lemma reattack_tidy c fid : leaves_tidy (reattack env fx work_root kind c fid).
Proof.
  unfold reattack. apply tidy_bind_r; [serverless|intros c'].
  apply tidy_bind_r; [serverless|intros _]. intros s. unfold mbind, F_bind.
  destruct (start_twin_seen s) as (l & E & Hl0). destruct (start_twin env fx work_root s) as [s1 [p|e]]; [|eauto].
  cbn in E, Hl0. destruct Hl0 as (t & ->). unfold with_fixture.
  destruct (serverless_attack p s1) as (l' & E' & Hl'). destruct (attack_twin _ _ _ _ p s1) as [s2 r].
  exists ([OServer twin t p] ++ l' ++ [OStopped p]). split.
  - cbn in *. destruct r; cbn; by rewrite E', E, <- !app_assoc.
  - right. exists [], t, p, l', []. split; [done|]. split_and!; [constructor|done|constructor].
Qed.

#[local] Abbreviation run := (FixtureLaws.run ledger_error_display json_string code_debug json_error env fx
  work_root fixture_root host port kind).

(** However a fixture campaign ends, with an outcome, an error or a panic, it
    started at most one server of its own, from the twin; that server was stopped
    before anything but the attacks on it and its regression test could follow,
    also when it never became ready. *)
Theorem run_tidy self m : leaves_tidy (run self m).
Proof.
  unfold FixtureLaws.run, run_fixture_campaign. cbv zeta.
  apply tidy_bind_r; [serverless|intros [[sb orig] c]]. apply tidy_bind_r; [serverless|intros [[c1 g] surface]].
  apply tidy_bind_r; [serverless|intros [[[c2 g2] h] hn]]. apply tidy_bind_r; [serverless|intros [[[[c3 g3] obs] art] on]].
  apply tidy_bind_r; [serverless|intros fid]. destruct (negb _); [apply serverless_tidy; serverless|].
  unfold pursue. apply tidy_bind_r; [serverless|intros c4]. apply tidy_bind_r; [serverless|intros [[c5 g5] card]].
  apply tidy_bind_r; [serverless|intros [c6 patch]]. apply tidy_bind_l; [apply reattack_tidy|]. serverless.
Qed.

End Servers.
