(* ===== verification/Campaign.v ===== *)
(** * Running a declared campaign (crate [aros-core], [campaign_loader.rs])

    The handler [run_declared_campaign] from the waiver to the final outcome:
    snapshot, environment check, harness archive, structural control, the attack
    surfaces, minimization, independent reproduction, the patched twin, variant
    re-attack and regression, the ledger, the research graph, the certificate
    and the report. *)

From S2P Require Import Prelude RustStr Net Json Types PathScope Policy Ledger.
From S2P Require Import Cas Store Graph Spec Claims Snapshot Declared Engine.
From S2P Require Import Certificate World.
Import Ledger Spec Snapshot Declared Engine World.

Module Campaign.

(** [src crates/aros-core/src/campaign_loader.rs 592-595 E7Proof] *)
Record E7Proof := mkE7Proof { regression_path : string; regression_digest : string }.

(** What the loop over the attack surfaces accumulates.
    [src crates/aros-core/src/campaign_loader.rs 207-211 CampaignEngine::run_declared_campaign] *)
Record Attack := mkAttack {
  surface_results : list string;
  surface_judgements : list (string * OracleJudgement);
  any_success : bool;
  all_hold : bool;
  shrink : option ShrinkProof;
}.
Definition Attack_init : Attack := mkAttack [] [] false true None.

Definition show_bool (b : bool) : string := if b then "true" else "false".

Section Run.
Context `{I : IpNetLib, U : UuidLib, J : JsonLib, HashLib, !Serialize EventRecord,
  !Serialize AuthorizationManifest, !Store.JsonText Campaign, !Store.JsonText LedgerEntry,
  !Store.JsonText GraphNode, !Store.JsonText GraphEdge, !Store.JsonText ResearchFailureCard,
  !Store.JsonText Certificate.EvidenceCertificate, G : Graph.DiGraph}.
Variable ledger_error_display : LedgerError → string.
Variable env : Env.
Variable work_root : string.
(** The text of [declared_regression.py], and [serde_json::to_vec_pretty]. *)
Variable regression_py : string.
Variable json_pretty : Value → string.

#[local] Abbreviation append_event := (append_event env).
#[local] Abbreviation cas_put := (cas_put env work_root).
#[local] Abbreviation write_work := (write_work env).
#[local] Abbreviation put_campaign := (put_campaign env).
#[local] Abbreviation persist_ledger_for := (persist_ledger_for ledger_error_display env).
#[local] Abbreviation snapshot := (snapshot env).
#[local] Abbreviation run_arm := (run_arm env work_root).

(** ** Reports and failures *)

(** [src crates/aros-core/src/campaign_loader.rs 1062-1080 persist_failure_card] *)
Definition persist_failure_card (c : Campaign) (spec_id : string) (category : FailureCategory)
    (detail : string) : M (option string) :=
  run_id ← fresh env;
  let card := mkResearchFailureCard (campaign_id c) run_id category detail spec_id in
  let id := id_to_string run_id in
  match Store.to_text card with
  | None => mret None
  | Some payload =>
    r ← try_ (put_record env "failure_card" id payload);
    mret ((λ _, id) <$> r)
  end.

(** [src crates/aros-core/src/campaign_loader.rs 1493-1514 fail_closed_no_evidence] *)
Definition fail_closed_no_evidence {A} (message spec_id : string) (c : Campaign) (digest : string) : M A :=
  t ← now env;
  let c := set_campaign_state c CsInsufficientEvidence t in
  let category := if contains message "indeterminate" then VerificationFailure else ToolGap in
  _ ← persist_failure_card c spec_id category message;
  _ ← try_ (put_campaign c);
  _ ← try_ (persist_ledger_for (campaign_id c));
  fail (EeFailClosed (message +:+ " digest=" +:+ digest)).

Definition quote_attr (s : string) : string := dquote +:+ s +:+ dquote.

(** [src crates/aros-core/src/campaign_loader.rs 1439-1487 write_report] *)
Definition report_html (spec : CampaignSpec) (c : Campaign) (target_digest : string)
    (harness_digest : option string) (achieved : EvidenceLevel) (required_met : bool)
    (run_kind : string) (notes : option string) (surfaces : list string)
    (control_good control_mutant : option string) (ledger_verified : bool)
    (minimized_digest : option string) : string :=
  let required := join ", " (required_evidence spec) in
  let pin := default "unpinned" (revision_pin <$> target spec) in
  "<!DOCTYPE html><html><head><meta charset=" +:+ quote_attr "utf-8" +:+ "><title>" +:+
  html_escape (spec_id spec) +:+ "</title></head><body>" +:+
  "<h1>RedLab evidence report</h1>" +:+
  "<p><b>campaign</b> " +:+ html_escape (spec_id spec) +:+ "</p>" +:+
  "<p><b>claim / invariant</b> " +:+ html_escape (invariant spec) +:+ "</p>" +:+
  "<p><b>target digest</b> " +:+ html_escape target_digest +:+ "</p>" +:+
  "<p><b>revision pin</b> " +:+ html_escape pin +:+ "</p>" +:+
  "<p><b>harness digest</b> " +:+ html_escape (default "none" harness_digest) +:+ "</p>" +:+
  "<p><b>generator</b> " +:+ html_escape (command (generator spec)) +:+ "</p>" +:+
  "<p><b>oracle</b> " +:+ html_escape (success_means (oracle spec)) +:+ " match=" +:+
  html_escape (default "" (match_ (oracle spec))) +:+ "</p>" +:+
  "<p><b>run kind</b> " +:+ html_escape run_kind +:+ "</p>" +:+
  "<p><b>level achieved</b> " +:+ level_debug achieved +:+ " <b>required</b> " +:+
  html_escape required +:+ " <b>met</b> " +:+ show_bool required_met +:+ "</p>" +:+
  "<p><b>ledger verified</b> " +:+ show_bool ledger_verified +:+ "</p>" +:+
  "<p><b>negative control (token)</b> " +:+
  html_escape (default "none" (negative_control (oracle spec))) +:+ "</p>" +:+
  "<p><b>structural good</b> " +:+ html_escape (default "n/a" control_good) +:+ "</p>" +:+
  "<p><b>structural mutant</b> " +:+ html_escape (default "n/a" control_mutant) +:+ "</p>" +:+
  "<p><b>surfaces</b> " +:+ html_escape (join "; " surfaces) +:+ "</p>" +:+
  "<p><b>environment</b> " +:+ html_escape (default "none" notes) +:+ "</p>" +:+
  "<p><b>minimized reproduction</b> " +:+ html_escape (default "none" minimized_digest) +:+ "</p>" +:+
  "<p><b>campaign id</b> " +:+ id_to_string (campaign_id c) +:+ "</p>" +:+
  "</body></html>".

(** [src crates/aros-core/src/campaign_loader.rs 1422-1491 write_report] *)
Definition write_report (html : string) : M string :=
  _ ← write_work ["evidence-report.html"] html;
  mret (work_root +:+ "/evidence-report.html").

(** ** Reproduction, twin and variants *)

Definition replica_root : string := work_root +:+ "/e4-replica".
Definition twin_replica_root : string := work_root +:+ "/e6-twin".

(** One surface on the replica: the judgement is the one first recorded.
    [src crates/aros-core/src/campaign_loader.rs 813-831 independently_reproduce] *)
Definition reproduces (limits : ResourceLimits) (require_container : bool)
    (expected : list (string * OracleJudgement)) (plan : string * CampaignGenerator * CampaignOracle) : M bool :=
  let '(name, generator, oracle) := plan in
  stdout ← try_ (run_arm limits replica_root ["e4-work"] require_container generator);
  match stdout with
  | None => mret false
  | Some stdout =>
    let judgement := evaluate_oracle stdout oracle in
    match list_find (λ x, x.1 = name) expected with
    | None => mret false
    | Some (_, (_, expected_judgement)) => mret (bool_decide (judgement = expected_judgement))
    end
  end.

(** [src crates/aros-core/src/campaign_loader.rs 790-835 independently_reproduce] *)
Definition independently_reproduce (spec : CampaignSpec) (target_root original_digest : string)
    (tid : TargetId) (require_container : bool) (expected : list (string * OracleJudgement)) : M bool :=
  copied ← try_ (copy_tree target_root replica_root);
  match copied with
  | None => mret false
  | Some _ =>
    same ← snapshot_is env tid replica_root original_digest;
    if (same : bool) then
      agreed ← all_m (reproduces (resource_limits spec) require_container expected) (attack_plans spec);
      if (agreed : bool) then snapshot_is env tid target_root original_digest else mret false
    else mret false
  end.

(** [src crates/aros-core/src/campaign_loader.rs 570-584 twin_invariant_holds] *)
Definition twin_holds_on (limits : ResourceLimits) (require_container : bool)
    (plan : string * CampaignGenerator * CampaignOracle) : M bool :=
  let '(_, generator, oracle) := plan in
  stdout ← try_ (run_arm limits twin_replica_root ["e6-twin-work"] require_container generator);
  mret (match stdout with
        | None => false
        | Some stdout => bool_decide (evaluate_oracle stdout oracle = InvariantHolds)
        end).

(** [src crates/aros-core/src/campaign_loader.rs 550-588 twin_invariant_holds] *)
Definition twin_invariant_holds (spec : CampaignSpec) (twin : string) (tid : TargetId)
    (require_container : bool) : M bool :=
  dir ← is_dir twin;
  if negb dir then mret false
  else
    before ← try_ (snapshot tid twin);
    match before with
    | None => mret false
    | Some before =>
      copied ← try_ (copy_tree twin twin_replica_root);
      match copied with
      | None => mret false
      | Some _ =>
        held ← all_m (twin_holds_on (resource_limits spec) require_container) (attack_plans spec);
        if (held : bool) then snapshot_is env tid twin (source_tree_digest before) else mret false
      end
    end.

(** One candidate bind: the attack must succeed on the replica and fail on the twin.
    [src crates/aros-core/src/campaign_loader.rs 640-667 find_holding_variant] *)
Definition holding_variant (spec : CampaignSpec) (require_container : bool) (b : gmap string string) :
    M (option CampaignGenerator) :=
  let g := Claims.set_bind (generator spec) b in
  on_original ← try_ (run_arm (resource_limits spec) replica_root ["e7-variant-original"] require_container g);
  match on_original with
  | None => mret None
  | Some on_original =>
    if negb (bool_decide (evaluate_oracle on_original (oracle spec) = AttackSucceeded)) then mret None
    else
      on_twin ← try_ (run_arm (resource_limits spec) twin_replica_root ["e7-variant-twin"] require_container g);
      match on_twin with
      | None => mret None
      | Some on_twin =>
        mret (if bool_decide (evaluate_oracle on_twin (oracle spec) = InvariantHolds)
              then Some g else None)
      end
  end.

Fixpoint first_holding (spec : CampaignSpec) (require_container : bool)
    (bs : list (gmap string string)) : M (option CampaignGenerator) :=
  match bs with
  | [] => mret None
  | b :: bs =>
    g ← holding_variant spec require_container b;
    match g with
    | Some g => mret (Some g)
    | None => first_holding spec require_container bs
    end
  end.

(** [src crates/aros-core/src/campaign_loader.rs 629-670 find_holding_variant] *)
Definition find_holding_variant (spec : CampaignSpec) (require_container : bool) :
    M (option CampaignGenerator) :=
  first_holding spec require_container (derive_variant_binds (bind (generator spec))).

(** [src crates/aros-core/src/campaign_loader.rs 727-738 try_declared_e7] *)
Definition regression_recipe (spec : CampaignSpec) (variant : CampaignGenerator) : Value :=
  JObject [("attacks", JArray [bind_attack (bind (generator spec)); bind_attack (bind variant)]);
           ("health_path", JString (default "/health" (bind (generator spec) !! "health_path")))].

Definition regression_script : string := work_root +:+ "/e7-regression/regression_test.py".

Definition regression_start (python : string) : Start :=
  mkStart false twin_replica_root [python; regression_script] None None None None.

(** Running the regression test: [Command::new(python)], on the host; the twin and
    the recipe are named in its environment.
    [src crates/aros-core/src/campaign_loader.rs 747-758 try_declared_e7] *)
Definition run_regression (python : string) : M bool :=
  n ← tick;
  prim (λ w,
    let '(d, status) := env_status env n (regression_start python) (on_disk w) in
    (set_disk (add_run w (mkRun (regression_start python) None)) d, Ok (default false status))).

(** The body of [try_declared_e7] with [?] on options as errors.
    [src crates/aros-core/src/campaign_loader.rs 711-763 try_declared_e7] *)
Definition declared_e7 (spec : CampaignSpec) (require_container : bool) : M (option E7Proof) :=
  replica_ok ← is_dir replica_root;
  twin_ok ← is_dir twin_replica_root;
  if negb replica_ok || negb twin_ok then mret None
  else
    variant ← find_holding_variant spec require_container;
    match variant with
    | None => mret None
    | Some variant =>
      _ ← io env;
      _ ← write_work ["e7-regression"; "regression.json"] (json_pretty (regression_recipe spec variant));
      _ ← write_work ["e7-regression"; "regression_test.py"] regression_py;
      art ← cas_put regression_py "text/x-python";
      python ← resolve_declared_python env;
      match python with
      | None => mret None
      | Some python =>
        passed ← run_regression python;
        mret (if (passed : bool)
              then Some (mkE7Proof regression_script (digest_blake3 art)) else None)
      end
    end.

(** [src crates/aros-core/src/campaign_loader.rs 703-763 try_declared_e7] *)
Definition try_declared_e7 (spec : CampaignSpec) (require_container : bool) : M (option E7Proof) :=
  r ← try_ (declared_e7 spec require_container);
  mret (match r with Some p => p | None => None end).

(** ** The research graph *)

(** [src crates/aros-core/src/campaign_loader.rs 911-935 record_declared_graph] *)
Definition conclusion_of (j : OracleJudgement) (verified : bool) :
    string * EpistemicState * string * EpistemicState :=
  match j with
  | AttackSucceeded =>
    if verified then ("finding", EpVerified, "supports", EpVerified)
    else ("finding", Claimed, "supports", Claimed)
  | InvariantHolds => ("refutation", EpRefuted, "falsifies", EpRefuted)
  | Indeterminate => ("gap", Stale, "inconclusive", Stale)
  end.

(** The closure [node].
    [src crates/aros-core/src/campaign_loader.rs 937-952 record_declared_graph] *)
Definition research_node (c : Campaign) (spec : CampaignSpec) (digest : string) (level : EvidenceLevel)
    (t : N) (id : NodeId) (kind label : string) (ep : EpistemicState) : GraphNode :=
  {| node_id := id; node_campaign_id := campaign_id c; node_graph := Research; node_kind := kind;
     node_label := label; node_epistemic := ep;
     node_payload := JObject [("digest", JString digest); ("level", JString (level_debug level));
                              ("spec_id", JString (spec_id spec))];
     node_provenance := "declared-campaign"; node_artifact_refs := []; node_created_unix_ms := t |}.

(** The closure [link], with the fresh edge identifier and the provenance given.
    [src crates/aros-core/src/campaign_loader.rs 953-965 record_declared_graph] *)
Definition research_link (c : Campaign) (t : N) (provenance : string) (id : EdgeId)
    (from to : NodeId) (kind : string) (ep : EpistemicState) : GraphEdge :=
  {| edge_id := id; edge_campaign_id := campaign_id c; edge_graph := Research; edge_from := from;
     edge_to := to; edge_kind := kind; edge_epistemic := ep; edge_confidence := None;
     edge_provenance := provenance; edge_artifact_refs := []; edge_created_unix_ms := t |}.

(** The node of an accepted claim.
    [src crates/aros-core/src/campaign_loader.rs 974-992 record_declared_graph] *)
Definition assumption_node (c : Campaign) (spec : CampaignSpec) (digest : string) (t : N)
    (id : NodeId) (claim : Claims.ProjectClaim) : GraphNode :=
  {| node_id := id; node_campaign_id := campaign_id c; node_graph := Research;
     node_kind := "assumption"; node_label := Claims.claim_statement claim;
     node_epistemic := Hypothesized;
     node_payload := JObject [("cookie", JString (Claims.claim_cookie claim));
                              ("digest", JString digest);
                              ("needle", JString (Claims.claim_needle claim));
                              ("path", JString (Claims.claim_path claim));
                              ("source", JString "INVARIANT.md");
                              ("spec_id", JString (spec_id spec))];
     node_provenance := "project-claim"; node_artifact_refs := []; node_created_unix_ms := t |}.

Definition put_node (g : Graph.ActiveGraph) (n : GraphNode) : Graph.ActiveGraph := (Graph.add_node g n).1.

(** [src crates/aros-core/src/campaign_loader.rs 892-1060 record_declared_graph] *)
Definition record_declared_graph (c : Campaign) (spec : CampaignSpec) (j : OracleJudgement)
    (verified independent twin_holds : bool) (level : EvidenceLevel) (digest : string)
    (claim : option Claims.ProjectClaim) : M unit :=
  t ← now env;
  hypothesis ← fresh env; experiment ← fresh env; observation ← fresh env; conclusion ← fresh env;
  let '(conclusion_kind, conclusion_state, link_kind, link_state) := conclusion_of j verified in
  let node := research_node c spec digest level t in
  let link := research_link c t "declared-campaign" in
  let g := put_node (Graph.ActiveGraph_new (campaign_id c))
             (node hypothesis "hypothesis" (invariant spec) Hypothesized) in
  g ← match claim with
      | None => mret g
      | Some claim =>
        assumption ← fresh env; e ← fresh env;
        mret (Graph.add_edge (put_node g (assumption_node c spec digest t assumption claim))
                (research_link c t "project-claim" e assumption hypothesis "motivates" Hypothesized))
      end;
  let g := put_node g (node experiment "experiment" (spec_id spec) Observed) in
  let g := put_node g (node observation "observation" (judgement_debug j) Observed) in
  let g := put_node g (node conclusion conclusion_kind (level_debug level) conclusion_state) in
  e1 ← fresh env; e2 ← fresh env; e3 ← fresh env;
  let g := Graph.add_edge g (link e1 hypothesis experiment "tested-by" Hypothesized) in
  let g := Graph.add_edge g (link e2 experiment observation "observed" Observed) in
  let g := Graph.add_edge g (link e3 observation conclusion link_kind link_state) in
  g ← (if independent then
         replica ← fresh env; e ← fresh env;
         mret (Graph.add_edge (put_node g (node replica "replica" "e4-replica" Observed))
                 (link e observation replica "reproduced" Observed))
       else mret g);
  g ← (if twin_holds then
         twin ← fresh env; e ← fresh env;
         mret (Graph.add_edge (put_node g (node twin "patched-twin" "e6-twin" Observed))
                 (link e conclusion twin "absent-on" EpRefuted))
       else mret g);
  persist_graph env (campaign_id c) (Graph.nodes g) (Graph.edges g).

(** ** The attack *)

(** The structural control: the good arm must hold, the mutant arm must break.
    [src crates/aros-core/src/campaign_loader.rs 155-205 CampaignEngine::run_declared_campaign] *)
Definition run_control (spec : CampaignSpec) (target_root : string) (require_container : bool)
    (c : Campaign) (digest : string) : M (option string * option string) :=
  match structural_control spec with
  | None => mret (None, None)
  | Some control =>
    good_out ← run_arm (resource_limits spec) target_root [] require_container (good control);
    let good_j := evaluate_oracle good_out (oracle spec) in
    if negb (bool_decide (good_j = InvariantHolds)) then
      fail_closed_no_evidence
        ("campaign " +:+ spec_id spec +:+ " structural good arm did not hold (" +:+
         judgement_debug good_j +:+ "); oracle untrustworthy") (spec_id spec) c digest
    else
      mutant_out ← run_arm (resource_limits spec) target_root [] require_container (mutant control);
      let mutant_j := evaluate_oracle mutant_out (oracle spec) in
      if negb (bool_decide (mutant_j = AttackSucceeded)) then
        fail_closed_no_evidence
          ("campaign " +:+ spec_id spec +:+ " structural mutant arm did not break (" +:+
           judgement_debug mutant_j +:+ "); oracle untrustworthy") (spec_id spec) c digest
      else mret (Some (judgement_debug good_j), Some (judgement_debug mutant_j))
  end.

(** One turn of the loop over the attack surfaces.
    [src crates/aros-core/src/campaign_loader.rs 212-266 CampaignEngine::run_declared_campaign] *)
Definition attack_surface (spec : CampaignSpec) (target_root : string) (require_container : bool)
    (c : Campaign) (digest : string) (acc : Attack)
    (plan : string * CampaignGenerator * CampaignOracle) : M Attack :=
  let '(name, generator, oracle) := plan in
  w ← get;
  match missing_generator_reason (λ id, bool_decide (is_Some (env_catalog env id)))
          (λ rel, bool_decide (is_Some (env_file env (trees w) target_root rel)))
          target_root (spec_id spec) generator with
  | Some reason => fail_closed_no_evidence reason (spec_id spec) c digest
  | None =>
    stdout ← run_arm (resource_limits spec) target_root [] require_container generator;
    art ← cas_put stdout "text/plain";
    _ ← append_event (ObservationRecorded (campaign_id c) (digest_blake3 art)
                        (campaign_manifest_hash c)) [digest_blake3 art];
    let shrink := match parse_shrink stdout with
                  | Some proof => Some proof
                  | None => shrink acc
                  end in
    let judgement := evaluate_oracle stdout oracle in
    let acc := mkAttack (surface_results acc ++ [name +:+ ":" +:+ judgement_debug judgement])
                 (surface_judgements acc ++ [(name, judgement)]) (any_success acc) (all_hold acc)
                 shrink in
    match judgement with
    | Indeterminate =>
      fail_closed_no_evidence
        ("campaign " +:+ spec_id spec +:+ " surface " +:+ name +:+ " oracle is indeterminate")
        (spec_id spec) c digest
    | AttackSucceeded =>
      mret (mkAttack (surface_results acc) (surface_judgements acc) true false shrink)
    | InvariantHolds => mret acc
    end
  end.

(** [src crates/aros-core/src/campaign_loader.rs 269-275 CampaignEngine::run_declared_campaign] *)
Definition overall (acc : Attack) : OracleJudgement :=
  if any_success acc then AttackSucceeded
  else if all_hold acc then InvariantHolds
  else Indeterminate.

(** [src crates/aros-core/src/campaign_loader.rs 276-292 CampaignEngine::run_declared_campaign] *)
Definition archive_minimized (c : Campaign) (j : OracleJudgement) (shrink : option ShrinkProof) :
    M (option string) :=
  if bool_decide (j = AttackSucceeded) then
    match shrink ≫= proof_bytes with
    | None => mret None
    | Some bytes =>
      art ← cas_put bytes "application/octet-stream";
      _ ← append_event (EvidenceCreated (campaign_id c) (digest_blake3 art)) [digest_blake3 art];
      _ ← write_work ["minimized.bin"] bytes;
      mret (Some (digest_blake3 art))
    end
  else mret None.

(** What the run has established when the attack is over. *)
Record Findings := mkFindings {
  f_measured : Measured;
  f_minimized : option string;
  f_e7 : option E7Proof;
  f_digest_after : string;
}.

(** Minimization, reproduction, twin and variants.
    [src crates/aros-core/src/campaign_loader.rs 268-335 CampaignEngine::run_declared_campaign] *)
Definition measure (self : CampaignEngine) (spec : CampaignSpec) (target_root : string)
    (tid : TargetId) (require_container : bool) (c : Campaign) (digest : string) (acc : Attack) :
    M Findings :=
  after ← snapshot tid target_root;
  let j := overall acc in
  minimized ← archive_minimized c j (shrink acc);
  independent ← (if bool_decide (source_tree_digest after = digest)
                 then independently_reproduce spec target_root digest tid require_container
                        (surface_judgements acc)
                 else mret false);
  twin_holds ← (if bool_decide (j = AttackSucceeded) then
                  match twin_root self with
                  | None => mret false
                  | Some twin =>
                    held ← twin_invariant_holds spec twin tid require_container;
                    if (held : bool) then snapshot_is env tid target_root digest else mret false
                  end
                else mret false);
  e7 ← (if (twin_holds : bool) && (independent : bool) then try_declared_e7 spec require_container
        else mret None);
  after_all ← snapshot tid target_root;
  let e7 := if bool_decide (source_tree_digest after_all = digest) then e7 else None in
  mret {| f_measured := mkMeasured j (bool_decide (is_Some e7)) twin_holds independent
                          (bool_decide (is_Some minimized));
          f_minimized := minimized; f_e7 := e7; f_digest_after := source_tree_digest after_all |}.

(** [src crates/aros-core/src/campaign_loader.rs 363-380 CampaignEngine::run_declared_campaign] *)
Definition log_e7 (c : Campaign) (fid : FindingId) (e7 : option E7Proof) : M unit :=
  match e7 with
  | None => mret ()
  | Some proof =>
    _ ← append_event (ReattackCompleted (campaign_id c) fid true) [];
    append_event (RegressionCreated (campaign_id c) fid (regression_path proof))
      [regression_digest proof]
  end.

(** The outcome that the certificate is issued for.
    [src crates/aros-core/src/campaign_loader.rs 428-455 CampaignEngine::run_declared_campaign] *)
Definition certified_outcome (spec : CampaignSpec) (c : Campaign) (finding : Finding)
    (require_container : bool) (harness_digest : option string) (digest : string) (acc : Attack)
    (f : Findings) (verified required_met ledger_ok : bool) : CampaignOutcome :=
  let m := f_measured f in
  {| out_campaign := c; out_finding := Some finding; out_evidence_level := Some (raw_level m);
     out_original_digest := digest; out_original_digest_after := f_digest_after f;
     out_deceptive_rejected :=
       bool_decide (expected_outcome spec = ExpInvariantBroken) && negb verified;
     out_patch := None; out_live_reattack_confirmed := e7_ok m; out_research_card_id := None;
     out_verifier_isolated := false;
     out_declared :=
       {| meta_harness_digest := harness_digest; meta_required_evidence_met := required_met;
          meta_contained := require_container; meta_run_kind := "security";
          meta_environment_notes := None; meta_report_path := None; meta_surface_results := [];
          meta_control_good_result := None; meta_control_mutant_result := None;
          meta_ledger_verified := ledger_ok; meta_shrink_before := before <$> shrink acc;
          meta_shrink_len := after <$> shrink acc; meta_minimized_digest := f_minimized f;
          meta_failure_card_id := None; meta_independent_reproduced := independent m;
          meta_twin_holds := twin_holds m; meta_variant_holds := e7_ok m;
          meta_regression_path := regression_path <$> f_e7 f;
          meta_regression_digest := regression_digest <$> f_e7 f;
          meta_certificate_path := None |} |}.

(** The final outcome: the certified one with the report, the control results,
    the surface results and the paths filled in.
    [src crates/aros-core/src/campaign_loader.rs 474-507 CampaignEngine::run_declared_campaign] *)
Definition final_outcome (o : CampaignOutcome) (acc : Attack) (control : option string * option string)
    (report certificate : string) : CampaignOutcome :=
  let d := out_declared o in
  {| out_campaign := out_campaign o; out_finding := out_finding o;
     out_evidence_level := out_evidence_level o; out_original_digest := out_original_digest o;
     out_original_digest_after := out_original_digest_after o;
     out_deceptive_rejected := out_deceptive_rejected o; out_patch := out_patch o;
     out_live_reattack_confirmed := out_live_reattack_confirmed o;
     out_research_card_id := out_research_card_id o; out_verifier_isolated := out_verifier_isolated o;
     out_declared :=
       {| meta_harness_digest := meta_harness_digest d;
          meta_required_evidence_met := meta_required_evidence_met d;
          meta_contained := meta_contained d; meta_run_kind := meta_run_kind d;
          meta_environment_notes := None; meta_report_path := Some report;
          meta_surface_results := surface_results acc; meta_control_good_result := control.1;
          meta_control_mutant_result := control.2; meta_ledger_verified := meta_ledger_verified d;
          meta_shrink_before := meta_shrink_before d; meta_shrink_len := meta_shrink_len d;
          meta_minimized_digest := meta_minimized_digest d; meta_failure_card_id := None;
          meta_independent_reproduced := meta_independent_reproduced d;
          meta_twin_holds := meta_twin_holds d; meta_variant_holds := meta_variant_holds d;
          meta_regression_path := meta_regression_path d;
          meta_regression_digest := meta_regression_digest d;
          meta_certificate_path := Some certificate |} |}.

(** [write_certificate(..)?] on the work directory. *)
Definition issue_certificate (spec_id : string) (o : CampaignOutcome) : M string :=
  n ← tick;
  prim (λ w,
    match Certificate.write_certificate (env_write_fault env n) (work w) spec_id o (ledger w) with
    | (wd, Ok path) => (set_work w wd, Ok (join "/" (work_root :: path)))
    | (wd, Err e) => (set_work w wd, Err e)
    end).

(** From the measurements to the outcome.
    [src crates/aros-core/src/campaign_loader.rs 351-508 CampaignEngine::run_declared_campaign] *)
Definition conclude_run (spec : CampaignSpec) (require_container : bool) (c : Campaign)
    (digest : string) (claim : option Claims.ProjectClaim) (harness_digest : option string)
    (control : option string * option string) (acc : Attack) (f : Findings) : M CampaignOutcome :=
  let m := f_measured f in
  let '(state, verified, required_met) := conclude spec m in
  let level := raw_level m in
  fid ← fresh env;
  _ ← log_e7 c fid (f_e7 f);
  hid ← fresh env;
  let finding := mkFinding fid (campaign_id c) hid (invariant spec) level (campaign_manifest_hash c)
                   verified in
  t ← now env;
  let c := set_campaign_state c state t in
  _ ← put_campaign c;
  _ ← match claim with
      | Some claim => append_event (AssumptionCreated (campaign_id c) (Claims.claim_statement claim)) []
      | None => mret ()
      end;
  _ ← append_event (CertificateIssued (campaign_id c) require_container
                      (bool_decide (digest = f_digest_after f))) [];
  w ← get;
  let ledger_ok := is_ok (verify (ledger w)) in
  _ ← persist_ledger_for (campaign_id c);
  _ ← record_declared_graph c spec (judgement m) verified (independent m) (twin_holds m) level digest
        claim;
  let o := certified_outcome spec c finding require_container harness_digest digest acc f verified
             required_met ledger_ok in
  certificate ← issue_certificate (spec_id spec) o;
  report ← write_report (report_html spec c digest harness_digest level required_met "security" None
             (surface_results acc) control.1 control.2 ledger_ok (f_minimized f));
  mret (final_outcome o acc control report certificate).

(** The outcome of a run on a host that cannot reproduce the pinned toolchain.
    [src crates/aros-core/src/campaign_loader.rs 113-150 CampaignEngine::run_declared_campaign] *)
Definition environment_outcome (spec : CampaignSpec) (c : Campaign) (digest reason : string) :
    M CampaignOutcome :=
  let c := set_campaign_state c Failed (updated_unix_ms c) in
  _ ← put_campaign c;
  _ ← persist_ledger_for (campaign_id c);
  report ← write_report (report_html spec c digest None E0HypothesisOnly false "environment_mismatch"
             (Some reason) [] None None false None);
  mret {| out_campaign := c; out_finding := None; out_evidence_level := None;
          out_original_digest := digest; out_original_digest_after := digest;
          out_deceptive_rejected := false; out_patch := None; out_live_reattack_confirmed := false;
          out_research_card_id := None; out_verifier_isolated := false;
          out_declared := mkDeclaredRunMeta None false false "environment_mismatch" (Some reason)
            (Some report) [] None None true None None None None false false false None None None |}.

(** [src crates/aros-core/src/campaign_loader.rs 72-153 CampaignEngine::run_declared_campaign] *)
Definition run_declared_campaign (self : CampaignEngine) (spec : CampaignSpec) (target_root : string)
    (manifest : AuthorizationManifest) : M CampaignOutcome :=
  let manifest := if waive_containment self
                  then set_scope manifest (allowed_service_names manifest) (allowed_endpoints manifest)
                         (tool_allowlist manifest) false
                  else manifest in
  w ← get;
  let claim := Claims.accepted_project_claim spec (env_file env (trees w) target_root "INVARIANT.md") in
  let spec := Claims.bind_accepted_claim spec claim in
  let require_container := require_containment manifest && negb (waive_containment self) in
  _ ← io env; _ ← io env; _ ← open_store;
  _ ← prim (λ w, (set_ledger w EventLedger_new, Ok ()));
  original ← snapshot (manifest_target_id manifest) target_root;
  let digest := source_tree_digest original in
  _ ← append_event (TargetSnapshotted (manifest_target_id manifest) (snapshot_id original) digest)
        [digest];
  t ← now env;
  mh ← lift (map_err EeTypes (manifest_hash manifest));
  let c := set_campaign_state (Campaign_new t (manifest_campaign_id manifest)
             (manifest_target_id manifest) (snapshot_id original) mh) Experimenting t in
  w ← get;
  match environment_mismatch (env_cfg env) (env_file env (trees w) target_root "rust-toolchain.toml")
          require_container with
  | Some reason => environment_outcome spec c digest reason
  | None =>
    harness_digest ← archive_harnesses env work_root target_root spec (campaign_id c);
    control ← run_control spec target_root require_container c digest;
    acc ← fold_m (attack_surface spec target_root require_container c digest) Attack_init
            (attack_plans spec);
    f ← measure self spec target_root (manifest_target_id manifest) require_container c digest acc;
    conclude_run spec require_container c digest claim harness_digest control acc f
  end.

End Run.

End Campaign.
