(* ===== verification/RunLaws.v ===== *)
(** * What a declared campaign guarantees

    Every step of a run only appends to the ledger, keeps the artifacts the
    certificate names, and starts processes the way the manifest asks. From this
    the end-to-end properties follow: a finished run leaves a work directory
    whose certificate checks, a verified finding rests on a recorded attack, and
    which processes ran where. *)

From S2P Require Import Prelude RustStr Net Json Types PathScope Policy Ledger.
From S2P Require Import Cas Store Graph Spec Claims Snapshot Declared Engine.
From S2P Require Import Certificate World Campaign.
Import Ledger Spec Snapshot Declared Engine World Campaign.

(** Computations in which the notation of the monad is unfolded one step. *)
Lemma bind_run {A B} (m : M A) (f : A → M B) w w' r :
  (m ≫= f) w = (w', r) →
  (∃ e, r = Err e ∧ m w = (w', Err e)) ∨ ∃ a w1, m w = (w1, Ok a) ∧ f a w1 = (w', r).
Proof.
  unfold mbind, M_bind. destruct (m w) as [w1 [a|e]]; [right; by exists a, w1|].
  intros [= <- <-]. left. by exists e.
Qed.

Lemma bind_run_Ok {A B} (m : M A) (f : A → M B) w w' b :
  (m ≫= f) w = (w', Ok b) → ∃ a w1, m w = (w1, Ok a) ∧ f a w1 = (w', Ok b).
Proof. intros [(? & ? & _)|?]%bind_run; [done|]. done. Qed.

(** ** Stable relations

    A relation between the world before and after a computation, whatever its
    result. Preorders compose along the program. *)

Definition stable (R : relation World) {A} (m : M A) : Prop := ∀ w, R w (m w).1.

(** The clock and the supply of identifiers do not matter. *)
Class TickStable (R : relation World) : Prop := stable_tick : stable R tick.

Section Stable.
Context (R : relation World) `{!PreOrder R}.

Lemma stable_run {A} (m : M A) w w' r : stable R m → m w = (w', r) → R w w'.
Proof. intros Hm E. specialize (Hm w). by rewrite E in Hm. Qed.

Lemma stable_ret {A} (a : A) : stable R (mret a).
Proof. intros w. reflexivity. Qed.
Lemma stable_fail {A} e : stable R (fail (A:=A) e).
Proof. intros w. reflexivity. Qed.
Lemma stable_lift {A} (r : result EngineError A) : stable R (lift r).
Proof. intros w. reflexivity. Qed.
Lemma stable_get : stable R get.
Proof. intros w. reflexivity. Qed.
Lemma stable_bind {A B} (m : M A) (f : A → M B) :
  stable R m → (∀ a, stable R (f a)) → stable R (m ≫= f).
Proof.
  intros Hm Hf w. specialize (Hm w). unfold mbind, M_bind. destruct (m w) as [w1 [a|e]]; [|done].
  etrans; [exact Hm|apply Hf].
Qed.
Lemma stable_try {A} (m : M A) : stable R m → stable R (try_ m).
Proof. intros Hm w. specialize (Hm w). unfold try_. by destruct (m w). Qed.
Lemma stable_fold {A B} (f : B → A → M B) b l :
  (∀ b x, x ∈ l → stable R (f b x)) → stable R (fold_m f b l).
Proof.
  revert b. induction l as [|x l IH]; intros b Hf; [apply stable_ret|]. cbn.
  apply stable_bind; [apply Hf; set_solver|]. intros b'. apply IH. set_solver.
Qed.
Lemma stable_all {A} (f : A → M bool) l : (∀ x, x ∈ l → stable R (f x)) → stable R (all_m f l).
Proof.
  induction l as [|x l IH]; intros Hf; [apply stable_ret|]. cbn.
  apply stable_bind; [apply Hf; set_solver|]. intros []; [apply IH; set_solver|apply stable_ret].
Qed.

End Stable.

Create HintDb frames discriminated.

(** Walk through a computation: binds, loops, branches. *)
Ltac frames :=
  repeat match goal with
  | |- ∀ _, _ => intros
  | |- stable _ (_ ≫= _) => apply stable_bind; [apply _|..]
  | |- stable _ (try_ _) => apply stable_try
  | |- stable _ (fold_m _ _ _) => apply stable_fold; [apply _|..]
  | |- stable _ (all_m _ _) => apply stable_all; [apply _|..]
  | |- stable _ (mret _) => apply stable_ret; apply _
  | |- stable _ (fail _) => apply stable_fail; apply _
  | |- stable _ (lift _) => apply stable_lift; apply _
  | |- stable _ get => apply stable_get; apply _
  | |- stable _ tick => apply stable_tick
  | |- stable _ (match ?x with _ => _ end) => destruct x
  | |- stable _ _ => solve [eauto with frames]
  end.

Section Frames.
Context `{J : JsonLib, HashLib, !Serialize EventRecord}.
(** Protected files, and what is known of every process that ran. *)
Variable K : list (list string).
Variable P : Run → Prop.

Record frame (w w' : World) : Prop := {
  frame_ledger : ledger w `prefix_of` ledger w';
  frame_verify : verify (ledger w) = Ok () → verify (ledger w') = Ok ();
  frame_files : ∀ k, k ∈ K → Certificate.files (work w') !! k = Certificate.files (work w) !! k;
  frame_runs : ∃ rs, runs w' = runs w ++ rs ∧ Forall P rs;
}.

#[export] Instance frame_preorder : PreOrder frame.
Proof.
  split.
  - intros w. split; try done. exists []. by rewrite app_nil_r.
  - intros w1 w2 w3 [L1 V1 F1 (s1 & S1 & P1)] [L2 V2 F2 (s2 & S2 & P2)]. split.
    + by etrans.
    + auto.
    + intros k Hk. by rewrite F2, F1.
    + exists (s1 ++ s2). split; [by rewrite S2, S1, app_assoc|by apply Forall_app].
Qed.

(** Nothing that [frame] watches changes. *)
Lemma frame_same w w' :
  ledger w' = ledger w → Certificate.files (work w') = Certificate.files (work w) →
  runs w' = runs w → frame w w'.
Proof.
  intros Hl Hf Hs. split; [by rewrite Hl|by rewrite Hl|by rewrite Hf|].
  exists []. by rewrite app_nil_r.
Qed.

Lemma frame_prefix w w' : frame w w' → runs w `prefix_of` runs w'.
Proof. intros [_ _ _ (rs & -> & _)]. by exists rs. Qed.

#[export] Instance frame_tick : TickStable frame.
Proof. intros w. by apply frame_same. Qed.

End Frames.

Abbreviation frames K P := (stable (frame K P)).

(** ** The arms of a campaign *)

(** A generator whose command the specification declares. *)
Definition declared (spec : CampaignSpec) (g : CampaignGenerator) : Prop :=
  command g ∈ command <$> (generator spec :: archived_generators spec).

(** The source trees arms run on: the target, its replica, the replica of the twin. *)
Definition arm_roots (work_root target : string) : list string :=
  [target; replica_root work_root; twin_replica_root work_root].

(** [s] starts generator [g] at [root] under the limits of the specification. *)
Definition arm_of (spec : CampaignSpec) (rc : bool) (root : string) (g : CampaignGenerator)
    (s : Start) : Prop :=
  ∃ staged cmd argv, expand_command (command g) staged = Ok cmd ∧ generator_argv cmd = Ok argv ∧
    s = arm_start rc (resource_limits spec) root staged argv.

(** What the environment answers to a start, at some time and on some trees. *)
Definition answered (env : Env) (s : Start) (out : option string) : Prop :=
  ∃ n d, out = ok (env_exec env n s d).2.

(** No process of the environment changes these files of the work directory. *)
Definition processes_keep (env : Env) (K : list (list string)) : Prop :=
  ∀ k, k ∈ K → ∀ n s d,
    Certificate.files (d_work (env_exec env n s d).1) !! k = Certificate.files (d_work d) !! k ∧
    Certificate.files (d_work (env_status env n s d).1) !! k = Certificate.files (d_work d) !! k.

Lemma processes_keep_nil env : processes_keep env [].
Proof. intros k Hk. by apply not_elem_of_nil in Hk. Qed.
Lemma processes_keep_subset env K K' : K ⊆ K' → processes_keep env K' → processes_keep env K.
Proof. intros Hs Hk k Hin. apply Hk. by apply Hs. Qed.

Lemma declared_intro spec g g' :
  g' ∈ generator spec :: archived_generators spec → command g = command g' → declared spec g.
Proof. intros Hin Hc. apply list_elem_of_fmap. by exists g'. Qed.
Lemma plan_declared spec p : p ∈ attack_plans spec → declared spec p.1.2.
Proof.
  intros Hp. eapply declared_intro; [|done]. right. apply elem_of_app. left.
  apply list_elem_of_fmap. by exists p.
Qed.
Lemma generator_declared spec b : declared spec (Claims.set_bind (generator spec) b).
Proof. by eapply declared_intro; [left|]. Qed.
Lemma control_declared spec control :
  structural_control spec = Some control → declared spec (good control) ∧ declared spec (mutant control).
Proof.
  intros Hc. split; (eapply declared_intro; [|done]); right; unfold archived_generators; rewrite Hc;
    apply elem_of_app; right; set_solver.
Qed.

Section Laws.
Context `{I : IpNetLib, U : UuidLib, J : JsonLib, HashLib, !Serialize EventRecord,
  !Serialize AuthorizationManifest, !Store.JsonText Campaign, !Store.JsonText LedgerEntry,
  !Store.JsonText GraphNode, !Store.JsonText GraphEdge, !Store.JsonText ResearchFailureCard,
  !Store.JsonText Certificate.EvidenceCertificate, G : Graph.DiGraph}.
Variable ledger_error_display : LedgerError → string.
Variable env : Env.
Variable work_root : string.
Variable regression_py : string.
Variable json_pretty : Value → string.

Section Primitives.
Variable K : list (list string).
Variable P : Run → Prop.
#[local] Abbreviation frames := (frames K P).

Lemma frames_now : frames (now env).
Proof. unfold now. frames. Qed.
Lemma frames_fresh {k} : frames (fresh (k:=k) env).
Proof. unfold fresh. frames. Qed.
Lemma frames_io : frames (io env).
Proof. unfold io. frames. Qed.
#[local] Hint Resolve frames_now frames_fresh frames_io : frames.

Lemma frames_append ev arts : frames (append_event env ev arts).
Proof.
  unfold append_event. apply stable_bind; [apply _|auto with frames|]. intros t w. unfold mbind, M_bind, get.
  destruct (append t (ledger w) ev arts) as [[l e]|err] eqn:E; [|reflexivity]. cbn.
  apply append_Ok in E as (-> & _ & _ & _ & He). split; cbn; try done.
  - by apply prefix_app_r.
  - unfold verify. rewrite !verify_from_Ok, chain_from_app, chain_from_single. cbn. done.
  - exists []. by rewrite app_nil_r.
Qed.

Lemma frames_cas_put bytes media : frames (cas_put env work_root bytes media).
Proof.
  unfold cas_put. frames. intros w. unfold prim. destruct (Cas.put _ _ _ _ _ _ _) as [bs [art|e]];
    by apply frame_same.
Qed.

Lemma frames_write path bytes : path ∉ K → frames (write_work env path bytes).
Proof.
  intros Hp. unfold write_work. frames. intros w. unfold prim.
  destruct (env_write_fault env _); cbn; (split; cbn; try done; [|exists []; by rewrite app_nil_r]);
    intros k Hk; rewrite lookup_insert_ne; done || congruence.
Qed.

Lemma frames_db {A} (f : Store.Db → Store.Db * result Store.StoreError A) : frames (on_db f).
Proof.
  intros w. unfold on_db. destruct (Certificate.database (work w)); try reflexivity.
  destruct (f db) as [db' r]. by apply frame_same.
Qed.
#[local] Hint Resolve frames_append frames_cas_put frames_write frames_db : frames.

Lemma frames_put_campaign c : frames (put_campaign env c).
Proof. unfold put_campaign. frames. Qed.
Lemma frames_persist cid : frames (persist_ledger_for ledger_error_display env cid).
Proof. unfold persist_ledger_for. frames. Qed.
Lemma frames_persist_graph cid ns es : frames (persist_graph env cid ns es).
Proof. unfold persist_graph. frames. Qed.
Lemma frames_put_record k i p : frames (put_record env k i p).
Proof. unfold put_record. frames. Qed.
Lemma frames_snapshot tid root : frames (snapshot env tid root).
Proof. unfold snapshot. frames. Qed.
#[local] Hint Resolve frames_put_campaign frames_persist frames_persist_graph frames_put_record
  frames_snapshot : frames.
Lemma frames_snapshot_is tid root d : frames (snapshot_is env tid root d).
Proof. unfold snapshot_is. frames. Qed.
Lemma frames_is_dir root : frames (is_dir root).
Proof. unfold is_dir. frames. Qed.
Lemma frames_copy src dst : frames (copy_tree src dst).
Proof.
  intros w. unfold copy_tree. destruct (trees w !! src); [|reflexivity].
  destruct (copy_source_tree _ _) as [|[]]; try reflexivity. by apply frame_same.
Qed.
#[local] Hint Resolve frames_snapshot_is frames_is_dir frames_copy : frames.

Lemma frames_issue sid o :
  [Certificate.CERTIFICATE_FILE] ∉ K → frames (issue_certificate env work_root sid o).
Proof.
  intros Hk. unfold issue_certificate. frames. intros w. unfold prim, Certificate.write_certificate.
  assert (Hw : ∀ b, frame K P w (set_work w
    (Certificate.write_file (work w) [Certificate.CERTIFICATE_FILE] b))).
  { intros b. split; cbn; try done; [|exists []; by rewrite app_nil_r].
    intros k Hin. rewrite lookup_insert_ne; [done|congruence]. }
  destruct (negb _); [by apply frame_same|].
  destruct (Certificate.certificate_digest _); [|by apply frame_same].
  destruct (Store.to_text _); [|by apply frame_same].
  destruct (env_write_fault env _); apply Hw.
Qed.

Lemma frames_report html : ["evidence-report.html"] ∉ K → frames (write_report env work_root html).
Proof. intros Hk. unfold write_report. frames. Qed.

(** ** Harnesses, reproduction and variants *)

(** The campaign: its specification as bound, whether it is contained, and its
    target. *)
Variable spec : CampaignSpec.
Variable rc : bool.
Variable target : string.
Hypothesis short_keys : ∀ k, k ∈ K → length k < 3.
Hypothesis kept : processes_keep env K.
Hypothesis arm_runs : ∀ root g s out, root ∈ arm_roots work_root target → declared spec g →
  arm_of spec rc root g s → answered env s out → P (mkRun s out).

Lemma staged_key prefix id name : prefix ++ ["aros-harness"; id] ++ [name] ∉ K.
Proof. intros Hk%short_keys. rewrite !length_app in Hk. cbn in Hk. lia. Qed.

Lemma frames_stage prefix g : frames (stage_catalog_harness env work_root prefix g).
Proof.
  unfold stage_catalog_harness. frames; apply frames_write; rewrite <- app_assoc; apply staged_key.
Qed.
#[local] Hint Resolve frames_stage : frames.

Lemma frames_exec s : (∀ out, answered env s out → P (mkRun s out)) → frames (exec env s).
Proof.
  intros Hs. unfold exec. frames. intros w. unfold prim.
  match goal with |- context [env_exec env ?n s ?d] =>
    assert (Ha : answered env s (ok (env_exec env n s d).2)) by (by exists n, d);
    assert (Hk := λ k Hin, proj1 (kept k Hin n s d)); destruct (env_exec env n s d) as [d' r] end.
  split; cbn; [done|done|exact Hk|]. eexists [_]. repeat constructor. by apply Hs.
Qed.

Lemma frames_run_arm root prefix g :
  root ∈ arm_roots work_root target → declared spec g →
  frames (run_arm env work_root (resource_limits spec) root prefix rc g).
Proof.
  intros Hroot Hg. unfold run_arm. apply stable_bind; [apply _|frames|]. intros staged.
  destruct (expand_command (command g) staged) as [cmd|e] eqn:Hc; [|intros w; reflexivity].
  intros w. unfold mbind, M_bind at 1, lift at 1. cbn -[generator_argv arm_start].
  destruct (generator_argv cmd) as [argv|e] eqn:Ha; [|reflexivity].
  apply frames_exec. intros out Hout. eapply arm_runs; [done..| |done]. by exists staged, cmd, argv.
Qed.
#[local] Hint Extern 1 (_ ∈ arm_roots _ _) => (unfold arm_roots; set_solver) : frames.
#[local] Hint Resolve frames_run_arm generator_declared : frames.
#[local] Hint Extern 1 (declared _ ?g) =>
  match goal with Hp : (_, g, _) ∈ attack_plans _ |- _ => exact (plan_declared _ _ Hp) end : frames.

Lemma frames_archive spec' cid : frames (archive_harnesses env work_root target spec' cid).
Proof.
  assert (Hf : ∀ c l b, frames (archive_file env work_root cid c l b))
    by (unfold archive_file; frames).
  unfold archive_harnesses, archive_catalog. frames.
Qed.

Lemma frames_reproduce d tid expected :
  frames (independently_reproduce env work_root spec target d tid rc expected).
Proof. unfold independently_reproduce, reproduces. frames. Qed.

Lemma frames_twin twin tid : frames (twin_invariant_holds env work_root spec twin tid rc).
Proof. unfold twin_invariant_holds, twin_holds_on. frames. Qed.

Lemma frames_variant : frames (find_holding_variant env work_root spec rc).
Proof.
  unfold find_holding_variant. induction (derive_variant_binds _) as [|b bs IH]; cbn; [frames|].
  unfold holding_variant. frames.
Qed.
#[local] Hint Resolve frames_archive frames_reproduce frames_twin frames_variant : frames.

(** ** Failures and the attack *)

Lemma frames_fail_closed {A} msg sid c d :
  frames (fail_closed_no_evidence (A:=A) ledger_error_display env msg sid c d).
Proof. unfold fail_closed_no_evidence, persist_failure_card. frames. Qed.
#[local] Hint Resolve frames_fail_closed : frames.

Lemma frames_control c d :
  frames (run_control ledger_error_display env work_root spec target rc c d).
Proof.
  unfold run_control. destruct (structural_control spec) as [control|] eqn:Hc; [|frames].
  destruct (control_declared _ _ Hc). frames.
Qed.

Lemma frames_surface c d acc plan :
  plan ∈ attack_plans spec →
  frames (attack_surface ledger_error_display env work_root spec target rc c d acc plan).
Proof. intros Hp. unfold attack_surface. frames. Qed.

Lemma frames_log_e7 c fid e7 : frames (log_e7 env c fid e7).
Proof. unfold log_e7. frames. Qed.

Lemma frames_graph c spec' j v i t l d claim :
  frames (record_declared_graph env c spec' j v i t l d claim).
Proof. unfold record_declared_graph. frames. Qed.

Lemma frames_minimized c j sh : ["minimized.bin"] ∉ K → frames (archive_minimized env work_root c j sh).
Proof. intros Hk. unfold archive_minimized. frames. Qed.

(** The processes that are not started as arms: the regression test, and the
    interpreters asked for their version. *)
Hypothesis regression_runs : ∀ python, P (mkRun (regression_start work_root python) None).
Hypothesis version_runs : ∀ c, c ∈ ["python3"; "python"] → P (mkRun (version_start c) None).

Lemma frames_ask c : c ∈ ["python3"; "python"] → frames (ask_version env c).
Proof.
  intros Hc. unfold ask_version. frames. intros w. split; cbn; try done. eexists [_].
  split; [done|]. repeat constructor. by apply version_runs.
Qed.
Lemma frames_python : frames (resolve_declared_python env).
Proof.
  unfold resolve_declared_python, first_answering.
  assert (Hk : ∀ c, c ∈ ["python3"; "python"] → frames (ask_version env c)) by apply frames_ask.
  frames; apply Hk; repeat constructor.
Qed.
#[local] Hint Resolve frames_python : frames.

Lemma frames_regression python : frames (run_regression env work_root python).
Proof.
  unfold run_regression. frames. intros w. unfold prim.
  match goal with |- context [env_status env ?n ?s ?d] =>
    assert (Hk := λ k Hin, proj2 (kept k Hin n s d)); destruct (env_status env n s d) as [d' r] end.
  split; cbn; [done|done|exact Hk|]. eexists [_]. split; [done|]. repeat constructor. apply regression_runs.
Qed.
#[local] Hint Resolve frames_regression : frames.

Lemma frames_e7 :
  ["e7-regression"; "regression.json"] ∉ K → ["e7-regression"; "regression_test.py"] ∉ K →
  frames (try_declared_e7 env work_root regression_py json_pretty spec rc).
Proof. intros Hj Hp. unfold try_declared_e7, declared_e7. frames. Qed.

End Primitives.

End Laws.
