(* ===== verification/Pddl.v ===== *)
(** * Planning a pack of campaigns (crate [aros-core], [pddl.rs] and
      [facts_from] of [htn.rs])

    Facts come from the surface map and the target; the plan comes from an
    external planner when one is installed and its plan is complete, from the
    STRIPS search otherwise, and is then changed by the failures recorded in the
    work directory. The main theorem: whatever the external planner prints and
    whatever was recorded, the plan runs applicable campaigns only, and an
    applicable campaign is missing only if a tool gap was recorded for it. *)

From S2P Require Import Prelude RustStr Json Types Ledger Store Snapshot Ipc.
From S2P Require Import Surface Planner Engine Certificate Verifier World RunLaws.
Import Engine Certificate World Planner.

Module Pddl.

(** ** Facts *)

(** [BTreeMap::values]. *)
Definition values (m : gmap string string) : list string :=
  omap (λ k, m !! k) (sort_strings (map_to_list m).*1).

(** [is_file] is the host's answer for a path.
    [src crates/aros-core/src/htn.rs 122-135 facts_from] *)
Definition facts_from (is_file : string → bool) (target : string) (s : Surface.SurfaceMap) : HtnFacts :=
  let paths := Surface.source_paths s ++ (Surface.live_path <$> Surface.live s) ++
               values (Surface.suggested_bind s) in
  let joined := join " " paths in
  {| has_http_paths := negb (bool_decide (paths = []));
     has_users := contains joined "/users";
     has_files := contains joined "/files";
     has_server := is_file (target +:+ "/server.py");
     has_parse := is_file (target +:+ "/parse.py");
     has_once := is_file (target +:+ "/once.py") |}.

(** ** The planning problem as text *)

Definition nl : string := String newline "".
Definition concat_all : list string → string := foldr String.append "".
(** Lines, each ended by a newline. *)
Definition text_lines (ls : list string) : string := concat_all ((λ l, l +:+ nl) <$> ls).

(** [src crates/aros-core/src/pddl.rs 166-168 pddl_pred] *)
Definition pddl_pred (id : string) : string := "ran-" +:+ id.
Definition paren (s : string) : string := "(" +:+ s +:+ ")".

(** [(and ..)] *)
Definition conj (l : list string) : string :=
  if bool_decide (l = []) then "(and)" else "(and " +:+ join " " l +:+ ")".

(** [src crates/aros-core/src/pddl.rs 180-195 emit_domain] *)
Definition preconditions (a : Action) : list string :=
  (if needs_mapped a then ["(mapped)"] else []) ++ (if needs_users a then ["(has-users)"] else []) ++
  (if needs_files a then ["(has-files)"] else []) ++ (if needs_parse a then ["(has-parse)"] else []) ++
  (if needs_once a then ["(has-once)"] else []).

(** [src crates/aros-core/src/pddl.rs 179-210 emit_domain] *)
Definition emit_action (a : Action) : string :=
  text_lines
    ["  (:action " +:+ id a;
     "    :parameters ()";
     "    :precondition " +:+ conj (preconditions a);
     "    :effect (and " +:+ join " " (paren (pddl_pred (id a)) ::
        if String.eqb (id a) "http-surface-map" then ["(mapped)"] else []) +:+ "))"].

(** [src crates/aros-core/src/pddl.rs 170-213 emit_domain] *)
Definition emit_domain : string :=
  text_lines ["(define (domain aros-gate)"; "  (:requirements :strips)"; "  (:predicates";
              "    (mapped)"; "    (has-users)"; "    (has-files)"; "    (has-parse)"; "    (has-once)"] +:+
  text_lines ((λ a, "    " +:+ paren (pddl_pred (id a))) <$> catalog) +:+
  text_lines ["  )"] +:+ concat_all (emit_action <$> catalog) +:+ text_lines [")"].

(** [src crates/aros-core/src/pddl.rs 215-250 emit_problem] *)
Definition emit_problem (facts : HtnFacts) (pack : string) : string :=
  let needs_map := is_http pack && (has_http_paths facts || has_server facts) in
  let init := (if negb needs_map then ["(mapped)"] else []) ++
              (if has_users facts then ["(has-users)"] else []) ++
              (if has_files facts then ["(has-files)"] else []) ++
              (if has_parse facts then ["(has-parse)"] else []) ++
              (if has_once facts then ["(has-once)"] else []) in
  let goal := (λ a, paren (pddl_pred (id a))) <$> applicable facts pack in
  text_lines ["(define (problem aros-target)"; "  (:domain aros-gate)";
              "  (:init " +:+ conj init +:+ ")"; "  (:goal " +:+ conj goal +:+ ")"; ")"].

(** ** The external planner *)

(** [src crates/aros-core/src/pddl.rs 270-288 parse_sas_plan] *)
Definition sas_line (allowed : list string) (line : string) : option string :=
  let line := trim line in
  if is_empty line || starts_with line ";" || starts_with line "cost" then None
  else
    let name := trim (trim_end_matches (Ascii.eqb ")") (trim_start_matches (Ascii.eqb "(") line)) in
    let id := default "" (head (split_whitespace name)) in
    if bool_decide (id ∈ allowed) then Some id else None.
(** [src crates/aros-core/src/pddl.rs 270-288 parse_sas_plan] *)
Definition parse_sas_plan (raw : string) (allowed : list string) : option (list string) :=
  match omap (sas_line allowed) (lines raw) with
  | [] => None
  | out => Some out
  end.

(** What the host answers about the planner and the work directory. *)
Record PlanHost := mkPlanHost {
  ph_var : string → option string;
  ph_exists : string → bool;
  ph_is_file : string → bool;
  (** [split_paths] of PATH. *)
  ph_path : option (list string);
  (** The planner: what it leaves in the work directory, and its output. *)
  ph_planner : nat → list string → WorkDir → WorkDir * option string;
  (** Whether reading the failure cards of the database succeeds. *)
  ph_cards : nat → bool;
}.

(** [src crates/aros-core/src/pddl.rs 252-268 which_fast_downward] *)
Definition which_fast_downward (h : PlanHost) : option string :=
  Verifier.or_else
    (explicit ← ph_var h "AROS_FAST_DOWNWARD"; if ph_exists h explicit then Some explicit else None)
    (paths ← ph_path h;
     Verifier.find_map (λ dir,
       Verifier.find_map (λ name, let p := dir +:+ "/" +:+ name in if ph_is_file h p then Some p else None)
         ["fast-downward"; "fast-downward.py"]) paths).

(** [Path::extension] is [py]: the part after the last period of the file name,
    unless the name begins with it. *)
Definition has_py_extension (path : string) : bool :=
  match Ipc.path_file_name path with
  | Some name => match rsplit_once "." name with
                 | Some (stem, ext) => negb (is_empty stem) && String.eqb ext "py"
                 | None => false
                 end
  | None => false
  end.

(** [src crates/aros-core/src/pddl.rs 304-310 try_fast_downward] *)
Definition planner_argv (engine dir : string) : list string :=
  (if has_py_extension engine then ["python"; engine] else [engine]) ++
  [dir +:+ "/domain.pddl"; dir +:+ "/problem.pddl"].

Section Planning.
Context `{J : JsonLib, !Serialize FailureCategory, !Store.JsonText ResearchFailureCard}.
Variable env : Env.
Variable host : PlanHost.
(** The work directory, and [serde_json::to_vec_pretty]. *)
Variable work_root : string.
Variable json_pretty : Value → string.

Definition planner_start (engine : string) : Start :=
  mkStart false work_root (planner_argv engine work_root) None None None None.

(** Running the planner. *)
Definition run_planner (engine : string) : M (option string) :=
  n ← tick;
  prim (λ w,
    let '(wd, out) := ph_planner host n (planner_argv engine work_root) (work w) in
    (set_work (add_run w (mkRun (planner_start engine) out)) wd, Ok out)).

(** [fs::read_to_string] of a file of the work directory. *)
Definition read_work (path : list string) : M (option string) :=
  w ← get;
  mret (text ← files (work w) !! path; if Ipc.is_utf8 text then Some text else None).

(** [src crates/aros-core/src/pddl.rs 324-330 try_fast_downward] *)
Definition complete_plan (raw : option string) (allowed : list string) : option (list string) :=
  raw ← raw; plan ← parse_sas_plan raw allowed;
  if existsb (λ i, negb (bool_decide (i ∈ plan))) allowed then None else Some plan.

(** The files of the planner, the run, and its complete plan if it found one.
    [src crates/aros-core/src/pddl.rs 290-331 try_fast_downward] *)
Definition try_fast_downward (facts : HtnFacts) (pack : string) : M (option (list string)) :=
  match which_fast_downward host with
  | None => mret None
  | Some engine =>
    let allowed := id <$> applicable facts pack in
    r ← try_ (_ ← write_work env ["domain.pddl"] emit_domain;
              write_work env ["problem.pddl"] (emit_problem facts pack));
    match r with
    | None => mret None
    | Some _ =>
      output ← run_planner engine;
      match output with
      | None => mret None
      | Some stdout =>
        w ← get;
        raw ← match files (work w) !! ["sas_plan"] with
              | Some _ => read_work ["sas_plan"]
              | None => mret (Some (from_utf8_lossy stdout))
              end;
        mret (complete_plan raw allowed)
      end
    end
  end.

(** ** Failure memory *)

Definition id_char (c : N) : bool :=
  (((48 <=? c) && (c <=? 57)) || ((65 <=? c) && (c <=? 90)) || ((97 <=? c) && (c <=? 122)) || (c =? 45))%N.
Fixpoint take_while {A} (f : A → bool) (l : list A) : list A :=
  match l with
  | [] => []
  | x :: l => if f x then x :: take_while f l else []
  end.

(** [src crates/aros-core/src/pddl.rs 427-439 spec_id_from_detail] *)
Definition spec_id_from_detail (detail : string) : option string :=
  '(_, rest) ← split_once_str "campaign " detail;
  let id := encode_chars (take_while (λ u : uchar, id_char u.1) (decode rest)) in
  if is_empty id then None else Some id.

(** [src crates/aros-core/src/pddl.rs 385-399 load_failure_memory] *)
Definition memory_of_row (row : string * string) : option FailureMemory :=
  card ← Store.from_text row.2;
  let spec_id := if is_empty (card_spec_id card)
                 then default "" (spec_id_from_detail (card_detail card)) else card_spec_id card in
  let category := match to_value (card_category card) with Ok (JString s) => s | _ => "" end in
  if negb (is_empty spec_id) && negb (is_empty category) then Some (mkFailureMemory spec_id category) else None.

(** [value.get(key).and_then(as_str)] *)
Definition text_field (key : string) (v : Value) : option string :=
  match v with
  | JObject fs => match field_get key fs with Some (JString s) => Some s | _ => None end
  | _ => None
  end.

(** [src crates/aros-core/src/pddl.rs 406-421 load_failure_memory] *)
Definition memory_of_line (line : string) : option FailureMemory :=
  value ← json_from_slice line;
  spec_id ← text_field "campaign" value;
  category ← text_field "category" value;
  if negb (is_empty spec_id) then Some (mkFailureMemory spec_id category) else None.

(** [src crates/aros-core/src/pddl.rs 379-425 load_failure_memory] *)
Definition load_failure_memory : M (list FailureMemory) :=
  n ← tick; w ← get;
  let cards := match database (work w) with
               | DbTables db =>
                 if ph_cards host n then omap memory_of_row (Store.list_records "failure_card" db) else []
               | _ => []
               end in
  text ← read_work ["failure-cards.jsonl"];
  mret (cards ++ match text with Some text => omap memory_of_line (lines text) | None => [] end).

(** ** The plan *)

(** [src crates/aros-core/src/pddl.rs 17-21 PlanSource] *)
Inductive PlanSource := Strips | FastDownward.

(** [src crates/aros-core/src/pddl.rs 23-31 CampaignPlan] *)
Record CampaignPlan := mkCampaignPlan {
  source : PlanSource;
  planned : list string;
  domain : string;
  problem : string;
  plan_skipped : list string;
  plan_promoted : list string;
}.

(** [src crates/aros-core/src/pddl.rs 364-377 write_replan] *)
Definition write_replan (r : FailureReplan) : M unit :=
  _ ← io env;
  write_work env ["replan.json"]
    (json_pretty (JObject [("campaigns", JArray (JString <$> campaigns r));
                           ("promoted", JArray (JString <$> promoted r));
                           ("skipped", JArray (JString <$> skipped r))])).

(** [None] when [fuel] does not suffice for the search.
    [src crates/aros-core/src/pddl.rs 336-362 plan_campaigns] *)
Definition plan_campaigns (fuel : nat) (facts : HtnFacts) (pack : string) : M (option CampaignPlan) :=
  external ← try_fast_downward facts pack;
  match match external with
        | Some plan => Some (FastDownward, plan)
        | None => pair Strips <$> strips_plan fuel facts pack
        end with
  | None => mret None
  | Some (source, base) =>
    memory ← load_failure_memory;
    let r := apply_failure_memory base memory in
    _ ← try_ (write_replan r);
    mret (Some (mkCampaignPlan source (campaigns r) emit_domain (emit_problem facts pack)
                  (skipped r) (promoted r)))
  end.

(** [src crates/aros-core/src/pddl.rs 441-447 write_pddl] *)
Definition write_pddl (plan : CampaignPlan) : M unit :=
  _ ← io env;
  _ ← write_work env ["domain.pddl"] (domain plan);
  _ ← write_work env ["problem.pddl"] (problem plan);
  write_work env ["plan.txt"] (join nl (planned plan) +:+ nl).

(** ** What a plan runs *)

Lemma elem_of_applicable facts pack x : x ∈ id <$> applicable facts pack ↔ x ∈ htn_plan facts pack.
Proof. by rewrite (proj2 (applicable_ok facts pack)). Qed.

Lemma parse_sas_plan_allowed raw allowed plan :
  parse_sas_plan raw allowed = Some plan → ∀ x, x ∈ plan → x ∈ allowed.
Proof.
  unfold parse_sas_plan. destruct (omap _ _) as [|a l] eqn:E; [done|]. intros [= <-] x Hx.
  rewrite <- E in Hx. apply list_elem_of_omap in Hx as (line & _ & Hl). unfold sas_line in Hl.
  destruct (_ || _ || _); [done|]. case_bool_decide; [|done]. apply (inj Some) in Hl. by rewrite <- Hl.
Qed.

Lemma complete_plan_exact raw allowed plan :
  complete_plan raw allowed = Some plan → ∀ x, x ∈ plan ↔ x ∈ allowed.
Proof.
  destruct raw as [raw|]; [|done]. cbn -[parse_sas_plan].
  destruct (parse_sas_plan raw allowed) as [p|] eqn:Hp; [|done]. cbn.
  destruct (existsb _ _) eqn:He; [done|]. intros [= <-] x.
  split; [by eapply parse_sas_plan_allowed|]. intros Hx. apply not_true_iff_false in He.
  destruct (decide (x ∈ p)) as [|Hn]; [done|]. destruct He. apply existsb_exists. exists x.
  split; [by apply list_elem_of_In|]. by rewrite bool_decide_eq_false_2.
Qed.

(** An external plan that is accepted runs exactly the applicable campaigns. *)
Lemma external_plan_exact facts pack w w' plan :
  try_fast_downward facts pack w = (w', Ok (Some plan)) → ∀ x, x ∈ plan ↔ x ∈ htn_plan facts pack.
Proof.
  unfold try_fast_downward. destruct (which_fast_downward host) as [engine|]; [|done].
  intros ([[]|] & w1 & _ & Hr)%bind_run_Ok; [|done].
  apply bind_run_Ok in Hr as ([out|] & w2 & _ & Hr); [|done].
  apply bind_run_Ok in Hr as (w3 & w4 & _ & Hr). apply bind_run_Ok in Hr as (raw & w5 & _ & Hr).
  apply (f_equal snd), Ok_inj in Hr. intros x. rewrite <- elem_of_applicable.
  by apply (complete_plan_exact raw).
Qed.

Lemma apply_no_memory plan : campaigns (apply_failure_memory plan []) = plan.
Proof.
  unfold apply_failure_memory. cbn -[filter]. induction plan as [|x plan IH]; [done|].
  rewrite filter_cons_True, IH; [done|]. apply not_elem_of_nil.
Qed.

(** Computations that do not stop on an error. *)
Definition total {A} (m : M A) : Prop := ∀ w, ∃ w' a, m w = (w', Ok a).
Lemma total_ret {A} (a : A) : total (mret a).
Proof. intros w. by exists w, a. Qed.
Lemma total_get : total get.
Proof. intros w. by exists w, w. Qed.
Lemma total_tick : total tick.
Proof. intros w. by eexists _, _. Qed.
Lemma total_try {A} (m : M A) : total (try_ m).
Proof. intros w. unfold try_. destruct (m w). by eexists _, _. Qed.
Lemma total_bind {A B} (m : M A) (f : A → M B) : total m → (∀ a, total (f a)) → total (m ≫= f).
Proof.
  intros Hm Hf w. destruct (Hm w) as (w1 & a & E). unfold mbind, M_bind. rewrite E. apply Hf.
Qed.
Ltac total_solve :=
  repeat first [ apply total_ret | apply total_get | apply total_tick | apply total_try
               | apply total_bind; [|intros] | case_match ].

Lemma load_failure_memory_Ok : total load_failure_memory.
Proof. unfold load_failure_memory, read_work. total_solve. Qed.
Lemma try_fast_downward_Ok facts pack : total (try_fast_downward facts pack).
Proof.
  unfold try_fast_downward, run_planner, read_work. total_solve.
  intros w. unfold prim. destruct (ph_planner _ _ _ _). by eexists _, _.
Qed.

(** Planning always ends with a plan, and whatever the external planner printed
    and whatever failures were recorded, the plan runs applicable campaigns only;
    an applicable campaign is left out only if a tool gap was recorded for it, and
    the left-out campaigns are reported; without any record and without an
    accepted external plan, the plan is the task network's. *)
Theorem plan_covers_applicable facts pack :
  ∃ turns, ∀ fuel w, turns <= fuel →
  ∃ w' p memory, plan_campaigns fuel facts pack w = (w', Ok (Some p)) ∧
    (∃ w1 w2, load_failure_memory w1 = (w2, Ok memory)) ∧
    (∀ x, x ∈ id <$> applicable facts pack ↔ x ∈ planned p ∨ x ∈ plan_skipped p) ∧
    (∀ x, x ∈ plan_skipped p → (x ∉ planned p) ∧ mkFailureMemory x "TOOL_GAP" ∈ memory) ∧
    (source p = Strips → memory = [] → planned p = htn_plan facts pack).
Proof.
  destruct (strips_plan_enough facts pack) as [turns Hs]. exists turns. intros fuel w Hf.
  specialize (Hs fuel Hf). unfold plan_campaigns, mbind, M_bind at 1.
  destruct (try_fast_downward_Ok facts pack w) as (w1 & external & E). rewrite E.
  assert (∃ src base, match external with
    | Some plan => Some (FastDownward, plan) | None => pair Strips <$> strips_plan fuel facts pack end =
    Some (src, base) ∧ (∀ x, x ∈ base ↔ x ∈ htn_plan facts pack) ∧
    (src = Strips → base = htn_plan facts pack)) as (src & base & -> & Hb & Hsrc).
  { destruct external as [plan|].
    - exists FastDownward, plan. split_and!; [done| |done]. by eapply external_plan_exact.
    - rewrite Hs. by exists Strips, (htn_plan facts pack). }
  unfold mbind, M_bind at 1. destruct (load_failure_memory_Ok w1) as (w2 & memory & Em). rewrite Em.
  unfold mbind, M_bind at 1. destruct (total_try (write_replan (apply_failure_memory base memory)) w2)
    as (w3 & o & ->).
  eexists _, _, memory. split; [done|]. split; [by exists w1, w2|]. cbn [planned plan_skipped source].
  destruct (apply_failure_memory_spec base memory) as (Hsk & _ & Hperm & _).
  assert (Hin : ∀ x, x ∈ campaigns (apply_failure_memory base memory) ↔
    x ∈ base ∧ x ∉ skipped (apply_failure_memory base memory)).
  { intros x. rewrite Hperm, list_elem_of_filter. naive_solver. }
  split_and!.
  - intros x. rewrite elem_of_applicable, <- Hb, Hin. specialize (Hsk x).
    destruct (decide (x ∈ skipped (apply_failure_memory base memory))); naive_solver.
  - intros x Hx. rewrite Hin. apply Hsk in Hx as Hg. naive_solver.
  - intros <-%Hsrc ->. apply apply_no_memory.
Qed.

End Planning.

End Pddl.
