(* ===== verification/EndToEnd.v ===== *)
(** * End-to-end guarantees of a declared campaign

    What is left behind by a run of [run_declared_campaign]: a certificate that
    checks against the persisted ledger and artifacts, the recorded attack behind
    a verified finding, and where the processes ran. *)

From S2P Require Import Prelude RustStr Net Json Types PathScope Policy Ledger.
From S2P Require Import Cas Store Graph Spec Claims Snapshot Declared Engine.
From S2P Require Import Certificate World Campaign RunLaws.
Import Ledger Spec Snapshot Declared Engine World Campaign.

Section EndToEnd.
Context `{I : IpNetLib, U : UuidLib, !UuidLaws U, J : JsonLib, H : HashLib, !Serialize EventRecord,
  !Serialize AuthorizationManifest, TC : Store.JsonText Campaign,
  TL : Store.JsonText LedgerEntry, !Store.JsonTextLaws LedgerEntry,
  !Store.JsonText GraphNode, !Store.JsonText GraphEdge, !Store.JsonText ResearchFailureCard,
  TE : Store.JsonText Certificate.EvidenceCertificate,
  !Store.JsonTextLaws Certificate.EvidenceCertificate, G : Graph.DiGraph}.
Variable ledger_error_display : LedgerError → string.
Variable env : Env.
Variable work_root : string.
Variable regression_py : string.
Variable json_pretty : Value → string.

(** Take one step of a computation that succeeded. *)
#[local] Ltac step Hr x w Hx :=
  apply bind_run_Ok in Hr as (x & w & Hx & Hr).
#[local] Ltac tick_step Hr :=
  let n := fresh "n" in let w := fresh "w" in let Hn := fresh in
  apply bind_run_Ok in Hr as (n & w & Hn & Hr); injection Hn as <- <-.

(** ** What the primitives record *)

Lemma append_event_logs ev arts w w' :
  append_event env ev arts w = (w', Ok ()) →
  ∃ e, ledger w' = ledger w ++ [e] ∧ event (record e) = ev ∧ artifact_digests e = arts.
Proof.
  unfold append_event, now. intros Hr. tick_step Hr. tick_step Hr.
  destruct (append _ _ ev arts) as [[l e]|] eqn:E; [|done]. injection Hr as <-.
  apply append_Ok in E as (-> & Hrec & Ha & _). exists e. cbn. by rewrite Hrec.
Qed.

Lemma cas_put_digest bytes media w w' art :
  cas_put env work_root bytes media w = (w', Ok art) → digest_blake3 art = blake3_hex bytes.
Proof.
  unfold cas_put, fresh. intros Hr. tick_step Hr. tick_step Hr. unfold prim in Hr.
  destruct (Cas.put _ _ _ _ _ _ _) as [bs [a|]] eqn:E; [|done]. injection Hr as _ <-.
  unfold Cas.put in E. destruct (_ <? _)%N; [done|]. destruct (Cas.write_blob _ _ _ _ _) as [f [[]|]];
    [|done]. by injection E as _ <-.
Qed.

Lemma write_work_file path bytes w w' :
  write_work env path bytes w = (w', Ok ()) → Certificate.files (work w') !! path = Some bytes.
Proof.
  unfold write_work. intros Hr. tick_step Hr. unfold prim in Hr.
  destruct (env_write_fault env _); [done|]. injection Hr as <-. apply lookup_insert_eq.
Qed.

Definition artifact_logged (h : string) (w : World) : Prop :=
  ∃ e, e ∈ ledger w ∧ h ∈ artifact_digests e.
Definition event_logged (ev : ResearchEvent) (w : World) : Prop :=
  ∃ e, e ∈ ledger w ∧ event (record e) = ev.

Lemma artifact_logged_mono K P h w w' : frame K P w w' → artifact_logged h w → artifact_logged h w'.
Proof.
  intros [[k Hk] _ _ _] (e & He & Hh). exists e. split; [rewrite Hk; set_solver|done].
Qed.
Lemma event_logged_mono K P ev w w' : frame K P w w' → event_logged ev w → event_logged ev w'.
Proof.
  intros [[k Hk] _ _ _] (e & He & Hh). exists e. split; [rewrite Hk; set_solver|done].
Qed.

Lemma archive_harnesses_logged target spec cid w w' h :
  archive_harnesses env work_root target spec cid w = (w', Ok (Some h)) → artifact_logged h w'.
Proof.
  unfold archive_harnesses. intros Hr. step Hr c1 w1 Hc1. step Hr c2 w2 Hc2.
  destruct (is_empty c2); [done|]. step Hr a w3 Ha. step Hr u w4 Hu. destruct u.
  injection Hr as <- <-. apply append_event_logs in Hu as (e & Hl & _ & He).
  exists e. rewrite Hl, He. set_solver.
Qed.

(** The two files of the work directory that a certificate names. *)
Definition minimized_key : list string := ["minimized.bin"].
Definition regression_key : list string := ["e7-regression"; "regression_test.py"].

Definition artifact_keys : list (list string) := [minimized_key; regression_key].

(** The work directory holds a file with this hash. *)
Definition holds (key : list string) (d : option string) (w : World) : Prop :=
  ∀ x, d = Some x → ∃ b, Certificate.files (work w) !! key = Some b ∧ blake3_hex b = x.

Lemma holds_frame K P key d w w' : key ∈ K → frame K P w w' → holds key d w → holds key d w'.
Proof. intros Hk [_ _ Hf _] Hd x Hx. rewrite Hf by done. by apply Hd. Qed.

Lemma archive_minimized_holds c j sh w w' d :
  archive_minimized env work_root c j sh w = (w', Ok d) → holds minimized_key d w'.
Proof.
  unfold archive_minimized. destruct (bool_decide _); [|by intros [= _ <-] x].
  destruct (sh ≫= proof_bytes) as [bytes|]; [|by intros [= _ <-] x]. intros Hr.
  step Hr a w1 Ha. step Hr u w2 Hl. step Hr u' w3 Hw. destruct u'. injection Hr as <- <-.
  intros x [= <-]. exists bytes. split; [by apply write_work_file in Hw|].
  by apply cas_put_digest in Ha as ->.
Qed.

(** Nothing is asked of the processes. *)
Definition any_run (_ : Run) : Prop := True.

Lemma e7_holds spec rc w w' e7 :
  processes_keep env [regression_key] →
  try_declared_e7 env work_root regression_py json_pretty spec rc w = (w', Ok e7) →
  holds regression_key (regression_digest <$> e7) w'.
Proof.
  intros Hkeep. unfold try_declared_e7. intros Hr. step Hr r w1 Ht. injection Hr as <- <-. unfold try_ in Ht.
  destruct (declared_e7 _ _ _ _ _ _ w) as [w2 [p|]] eqn:Hd; injection Ht as <- <-; [|by intros x].
  cbn [ok]. intros x Hx. apply fmap_Some in Hx as (proof & -> & ->).
  unfold declared_e7 in Hd. step Hd b1 w1 Hb1. step Hd b2 w3 Hb2.
  destruct (negb b1 || negb b2); [done|]. step Hd v w4 Hv. destruct v as [v|]; [|done].
  step Hd u5 w5 Hu5. step Hd u6 w6 Hu6. step Hd u7 w7 Hu7. step Hd a w8 Ha. step Hd py w8' Hpy.
  destruct py as [python|]; [|done]. step Hd ok_ w9 Hok. injection Hd as <- Hp.
  destruct ok_; [|done]. injection Hp as <-. destruct u7. apply write_work_file in Hu7 as Hf.
  apply cas_put_digest in Ha as Hdig. exists regression_py. split; [|by rewrite Hdig].
  assert (frame [regression_key] any_run w7 w9) as [_ _ Hk _].
  { etrans; [eapply stable_run; [|exact Ha]; apply frames_cas_put|].
    etrans; [eapply stable_run; [|exact Hpy]; by apply frames_python|].
    eapply stable_run; [|exact Hok]. by apply frames_regression. }
  rewrite Hk; [done|set_solver].
Qed.

(** ** The measurements *)

(** The frame lemmas with their side conditions on concrete keys. *)
#[local] Ltac side :=
  first [done
        |apply (Forall_forall (λ k, length k < 3)); repeat constructor; cbn; lia
        |apply (bool_decide_unpack _); by vm_compute
        |apply processes_keep_nil
        |eapply processes_keep_subset; [|eassumption];
         apply (bool_decide_unpack _); by vm_compute].
#[local] Ltac on_target lem :=
  match goal with
  | H : ∀ root g s out, root ∈ arm_roots _ ?t → _ |- _ => eapply lem with (target := t)
  | |- _ => eapply lem with (target := EmptyString)
  end.
#[local] Ltac known :=
  match goal with
  | |- stable _ (snapshot _ _ _) => apply frames_snapshot
  | |- stable _ (snapshot_is _ _ _ _) => apply frames_snapshot_is
  | |- stable _ (append_event _ _ _) => apply frames_append
  | |- stable _ (cas_put _ _ _ _) => apply frames_cas_put
  | |- stable _ (put_campaign _ _) => apply frames_put_campaign
  | |- stable _ (persist_ledger_for _ _ _) => apply frames_persist
  | |- stable _ (record_declared_graph _ _ _ _ _ _ _ _ _ _) => apply frames_graph
  | |- stable _ (log_e7 _ _ _ _) => apply frames_log_e7
  | |- stable _ (now _) => apply frames_now
  | |- stable _ (fresh _) => apply frames_fresh
  | |- stable _ (io _) => apply frames_io
  | |- stable _ (archive_minimized _ _ _ _ _) => apply frames_minimized
  | |- stable _ (independently_reproduce _ _ _ _ _ _ _ _) => apply frames_reproduce
  | |- stable _ (twin_invariant_holds _ _ _ _ _ _) => on_target frames_twin
  | |- stable _ (try_declared_e7 _ _ _ _ _ _) => on_target frames_e7
  | |- stable _ (archive_harnesses _ _ _ _ _) => apply frames_archive
  | |- stable _ (run_control _ _ _ _ _ _ _ _) => apply frames_control
  | |- stable _ (attack_surface _ _ _ _ _ _ _ _ _ _) => apply frames_surface
  | |- stable _ (issue_certificate _ _ _ _) => apply frames_issue
  | |- stable _ (write_report _ _ _) => apply frames_report
  end; side.
#[local] Hint Extern 1 (stable _ _) => known : frames.
#[local] Ltac framed Hm := eapply stable_run; [|exact Hm]; frames.

Lemma measure_spec self spec target tid rc c d acc w w' f :
  measure env work_root regression_py json_pretty self spec target tid rc c d acc w = (w', Ok f) →
  frame [] any_run w w' ∧ judgement (f_measured f) = overall acc ∧ measured_wf (f_measured f) ∧
  e7_ok (f_measured f) = bool_decide (is_Some (f_e7 f)) ∧
  (processes_keep env artifact_keys →
   holds minimized_key (f_minimized f) w' ∧ holds regression_key (regression_digest <$> f_e7 f) w').
Proof.
  intros Hr. assert (Hframe : frame [] any_run w w') by (unfold measure in Hr; framed Hr).
  unfold measure in Hr. step Hr before0 w1 Hbefore. step Hr minimized w2 Hmin.
  apply archive_minimized_holds in Hmin. step Hr indep w3 Hindep. step Hr twin w4 Htwin.
  step Hr e7 w5 He7. step Hr after0 w6 Hall. injection Hr as <- <-. cbn -[holds].
  split_and!; [exact Hframe|done| |done|intros Hkeep; split].
  - split; cbn.
    + intros [p Hp]%bool_decide_eq_true. destruct (bool_decide _) in Hp; [|done]. subst.
      destruct twin, indep; done.
    + intros ->. destruct (bool_decide (overall acc = AttackSucceeded)) eqn:E; [|done].
      by apply bool_decide_eq_true in E.
  - eapply (holds_frame [minimized_key] any_run), Hmin; [set_solver|].
    etrans; [framed Hindep|]. etrans; [framed Htwin|]. etrans; [framed He7|framed Hall].
  - assert (Hreg : holds regression_key (regression_digest <$> e7) w5).
    { destruct (twin && indep); [|by injection He7 as _ <-].
      apply e7_holds in He7; [done|]. eapply processes_keep_subset, Hkeep. set_solver. }
    apply (holds_frame [regression_key] any_run _ _ _ w6) in Hreg; [|set_solver|framed Hall].
    destruct (bool_decide (source_tree_digest after0 = d)); [exact Hreg|by intros x].
Qed.

(** ** The graph leaves the ledger alone *)

Definition db_ledger (w : World) : option (list Store.ledger_row) :=
  match Certificate.database (work w) with
  | Certificate.DbTables db => Some (Store.ledger_events db)
  | _ => None
  end.

Definition quiet (w w' : World) : Prop := ledger w' = ledger w ∧ db_ledger w' = db_ledger w.

#[local] Instance quiet_preorder : PreOrder quiet.
Proof. split; [done|]. intros w1 w2 w3 [? ?] [? ?]. split; congruence. Qed.
#[local] Instance quiet_tick : TickStable quiet.
Proof. by intros w. Qed.

Lemma quiet_persist_graph cid ns es : stable quiet (persist_graph env cid ns es).
Proof.
  unfold persist_graph. frames. intros w. unfold on_db, quiet, db_ledger.
  destruct (Certificate.database (work w)) as [| |db] eqn:E; cbn; rewrite ?E; [done..|].
  destruct (Store.persist_graph _ cid ns es db) as [db' r] eqn:Hp. cbn.
  by rewrite (Store.persist_graph_ledger _ _ _ _ _ _ _ Hp).
Qed.

Lemma quiet_graph c spec j v i t l d claim :
  stable quiet (record_declared_graph env c spec j v i t l d claim).
Proof.
  assert (Hf : ∀ k, stable quiet (fresh (k:=k) env)) by (intros k; unfold fresh; frames).
  assert (Hn : stable quiet (now env)) by (unfold now; frames).
  unfold record_declared_graph. frames; auto using quiet_persist_graph.
Qed.

(** ** The persisted ledger *)

Lemma persist_stores cid w w' :
  persist_ledger_for ledger_error_display env cid w = (w', Ok ()) →
  ledger w' = ledger w ∧ Certificate.files (work w') = Certificate.files (work w) ∧
  ∃ db, Certificate.database (work w') = Certificate.DbTables db ∧ Store.represents db cid (ledger w).
Proof.
  unfold persist_ledger_for. intros Hr. tick_step Hr. tick_step Hr. unfold on_db in Hr. cbn in Hr.
  destruct (Certificate.database (work w)) as [| |db]; [done..|].
  destruct (Store.persist_ledger_for _ _ _ _ _) as [db' r] eqn:Hp. injection Hr as <- Hok.
  apply map_err_Ok in Hok as ->. split_and!; [done..|]. exists db'. split; [done|].
  by eapply Store.persist_represents.
Qed.

Lemma issued_flags_snoc l e cid b u :
  event (record e) = CertificateIssued cid b u → Certificate.issued_flags (l ++ [e]) = Some (b, u).
Proof. intros He. unfold Certificate.issued_flags. rewrite reverse_snoc. cbn. by rewrite He. Qed.

Lemma issue_certificate_Ok sid o w w' path :
  issue_certificate env work_root sid o w = (w', Ok path) →
  ledger w' = ledger w ∧ runs w' = runs w ∧
  ∃ fault p, Certificate.write_certificate fault (work w) sid o (ledger w) = (work w', Ok p).
Proof.
  unfold issue_certificate. intros Hr. tick_step Hr. unfold prim in Hr.
  destruct (Certificate.write_certificate _ _ _ _ _) as [wd [p|]] eqn:E; [|done].
  injection Hr as <- <-. cbn in *. split_and!; [done..|]. by eexists _, p.
Qed.

Lemma represents_same db db' cid l :
  Store.ledger_events db' = Store.ledger_events db → Store.represents db cid l →
  Store.represents db' cid l.
Proof. unfold Store.represents. by intros ->. Qed.

(** ** The certificate of a finished run *)

Variable store_error_display : Store.StoreError → string.
Variable types_error_display : TypesError → string.
Variable engine_error_display : EngineError → string.
Variable id_error io_error : string.

#[local] Abbreviation verify_certificate := (Certificate.verify_certificate ledger_error_display
  store_error_display types_error_display id_error io_error engine_error_display).

(** The work directory's certificate checks against its ledger and artifacts,
    and is release eligible exactly when the outcome has no limits. *)
Definition certificate_checks (cid : CampaignId) (o : CampaignOutcome) (w : World) : Prop :=
  ∃ db chk,
    Certificate.database (work w) = Certificate.DbTables db ∧
    Store.load_ledger_for ledger_error_display cid db = Ok (ledger w) ∧
    verify (ledger w) = Ok () ∧
    verify_certificate (work w) = (work w, Ok chk) ∧ Certificate.check_failures chk = [] ∧
    Certificate.check_campaign_id chk = id_to_string cid ∧
    Certificate.check_release_eligible chk = bool_decide (Certificate.limits_of o = []).

(** From the persisted ledger to the report: the ledger [l], its rows in the
    database and the artifacts are as the certificate needs them. *)
Lemma issue_and_report_check sid o html w w1 w' l db path report :
  issue_certificate env work_root sid o w = (w1, Ok path) →
  write_report env work_root html w1 = (w', Ok report) →
  ledger w = l → verify l = Ok () → l ≠ [] → Store.fits (ledger w') →
  Certificate.database (work w) = Certificate.DbTables db →
  Store.represents db (campaign_id (out_campaign o)) l →
  Certificate.issued_flags l = Some (meta_contained (out_declared o),
    bool_decide (out_original_digest o = out_original_digest_after o)) →
  Certificate.harness_logged (Certificate.certificate_of sid o l) l →
  Certificate.artifacts_present o (work w') →
  certificate_checks (campaign_id (out_campaign o)) o w' ∧ ledger w' = l.
Proof.
  intros Hi Hw Hl Hv Hne Hfit Hdb Hrep Hfl Hh [Hreg Hmin].
  apply issue_certificate_Ok in Hi as (Hl1 & _ & fault & p & Hc). rewrite Hl in *.
  apply Certificate.write_certificate_Ok in Hc as (digest & bytes & Hlev & Hdig & Ht & Hwd & _).
  unfold write_report, write_work in Hw. step Hw u w2 Hw2. injection Hw as <- _. tick_step Hw2.
  unfold prim in Hw2. destruct (env_write_fault env _); [done|]. injection Hw2 as <-.
  cbn -[Certificate.files Certificate.database] in *. rewrite Hl1 in Hfit.
  assert (Hload : Store.load_ledger_for ledger_error_display (campaign_id (out_campaign o)) db = Ok l)
    by (by apply Store.load_represents).
  destruct (Certificate.issued_checks ledger_error_display store_error_display types_error_display
    id_error io_error engine_error_display
    (Certificate.write_file (work w1) ["evidence-report.html"] html) bytes sid o l digest db)
    as (chk & Hchk & Hf & _ & Hrel & Hid); try done.
  - rewrite Hwd. cbn. rewrite lookup_insert_ne by done. apply lookup_insert_eq.
  - by apply Store.from_to_text.
  - by rewrite Hwd.
  - split; [|by cbn; rewrite Hl1]. exists db, chk. cbn. rewrite Hl1, Hwd. cbn.
    rewrite Hwd in Hchk. split_and!; done.
Qed.

#[local] Abbreviation conclude_run :=
  (conclude_run ledger_error_display env work_root).

Lemma conclude_run_checks spec rc c d claim hd control acc f w w' out :
  conclude_run spec rc c d claim hd control acc f w = (w', Ok out) →
  verify (ledger w) = Ok () → (∀ h, hd = Some h → artifact_logged h w) →
  Store.fits (ledger w') → Certificate.artifacts_present out (work w') → certificate_checks (campaign_id c) out w'.
Proof.
  unfold Campaign.conclude_run. destruct (conclude spec (f_measured f)) as [[st verified] met] eqn:Hcon.
  intros Hr Hv Hh Hfit Hart.
  step Hr fid w1 H1'. step Hr u2 w2 H2'. step Hr hid w3 H3'. step Hr t w4 H4'. step Hr u5 w5 H5'.
  step Hr u6 w6 H6'. step Hr u7 w7 H7'. tick_step Hr. step Hr u8 w8 H8'. step Hr u9 w9 H9'.
  step Hr cp w10 H10'. step Hr rp w11 H11'. injection Hr as <- <-. destruct u7, u8.
  set (o := certified_outcome _ _ _ _ _ _ _ _ _ _ _) in *.
  assert (Hpre : frame artifact_keys any_run w w6).
  { etrans; [framed H1'|]. etrans; [framed H2'|]. etrans; [framed H3'|]. etrans; [framed H4'|].
    etrans; [framed H5'|framed H6']. }
  assert (Hpre7 : frame artifact_keys any_run w w7) by (etrans; [exact Hpre|framed H7']).
  apply append_event_logs in H7' as (e & Hl7 & He & _).
  apply persist_stores in H8' as (Hl8 & _ & db & Hdb & Hrep).
  assert (Hq : quiet w8 w9) by (eapply stable_run; [apply quiet_graph|exact H9']).
  destruct Hq as [Hl9 Hdb9]. unfold db_ledger in Hdb9. rewrite Hdb in Hdb9.
  destruct (Certificate.database (work w9)) as [| |db9] eqn:Hd9; [done..|]. injection Hdb9 as Hev.
  destruct (issue_and_report_check _ o _ w9 w10 w11 (ledger w7) db9 cp rp H10' H11')
    as [Hck Hl11].
  - congruence.
  - by apply Hpre7.
  - rewrite Hl7. by destruct (ledger w6).
  - done.
  - done.
  - by eapply represents_same, Hrep.
  - rewrite Hl7. by eapply issued_flags_snoc.
  - intros h Hhd. apply (artifact_logged_mono _ _ _ _ _ Hpre7), Hh, Hhd.
  - exact Hart.
  - exact Hck.
Qed.

(** Nothing after the measurements touches the archived files. *)
Lemma conclude_run_artifacts spec rc c d claim hd control acc f w w' out :
  conclude_run spec rc c d claim hd control acc f w = (w', Ok out) →
  holds minimized_key (f_minimized f) w → holds regression_key (regression_digest <$> f_e7 f) w →
  Certificate.artifacts_present out (work w').
Proof.
  unfold Campaign.conclude_run. destruct (conclude spec (f_measured f)) as [[st verified] met].
  intros Hr Hmin Hreg. assert (Hf : frame artifact_keys any_run w w') by framed Hr.
  repeat (apply bind_run_Ok in Hr as (? & ? & _ & Hr)). injection Hr as _ <-.
  split; intros h Hh; [eapply (holds_frame artifact_keys _ regression_key)|
    eapply (holds_frame artifact_keys _ minimized_key)]; try done; set_solver.
Qed.

(** The specification a run works with: the claim of the target is bound. *)
Definition bound_spec (spec : CampaignSpec) (target_root : string) (w : World) : CampaignSpec :=
  Claims.bind_accepted_claim spec
    (Claims.accepted_project_claim spec (env_file env (trees w) target_root "INVARIANT.md")).

Definition contained_run (self : CampaignEngine) (m : AuthorizationManifest) : bool :=
  require_containment m && negb (waive_containment self).

#[local] Abbreviation run_declared_campaign :=
  (run_declared_campaign ledger_error_display env work_root regression_py json_pretty).

(** A security run up to its conclusion: the attack loop, the measurements and
    the conclusion, on a ledger that verifies and has the harness logged. *)
Lemma run_phases self spec target_root manifest w w' out :
  run_declared_campaign self spec target_root manifest w = (w', Ok out) →
  let spec' := bound_spec spec target_root w in
  let rc := contained_run self manifest in
  meta_run_kind (out_declared out) = "environment_mismatch" ∧ out_finding out = None ∨
  ∃ c digest claim hd control acc f w1 w2 w3,
    campaign_id c = manifest_campaign_id manifest ∧
    runs w `prefix_of` runs w1 ∧
    verify (ledger w1) = Ok () ∧ (∀ h, hd = Some h → artifact_logged h w1) ∧
    fold_m (attack_surface ledger_error_display env work_root spec' target_root rc c digest) Attack_init
      (attack_plans spec') w1 = (w2, Ok acc) ∧
    measure env work_root regression_py json_pretty self spec' target_root
      (manifest_target_id manifest) rc c digest acc w2 = (w3, Ok f) ∧
    conclude_run spec' rc c digest claim hd control acc f w3 = (w', Ok out).
Proof.
  unfold Campaign.run_declared_campaign. intros Hr.
  set (manifest' := if waive_containment self then _ else manifest) in *.
  assert (Hids : manifest_campaign_id manifest' = manifest_campaign_id manifest ∧
    manifest_target_id manifest' = manifest_target_id manifest)
    by (unfold manifest'; by destruct (waive_containment self)).
  assert (Hrc : require_containment manifest' && negb (waive_containment self) =
    contained_run self manifest)
    by (unfold manifest', contained_run; by destruct (waive_containment self); rewrite ?andb_false_r).
  tick_step Hr.
  step Hr u1 w1 E1. step Hr u2 w2 E2. step Hr u3 w3 E3. step Hr u4 w4 E4. injection E4 as <- <-.
  step Hr original w5 E5. step Hr u6 w6 E6. step Hr t w7 E7. step Hr mh w8 E8. injection E8 as <- E8.
  tick_step Hr.
  destruct (environment_mismatch _ _ _).
  { unfold environment_outcome in Hr. step Hr v1 x1 F1. step Hr v2 x2 F2. step Hr v3 x3 F3.
    injection Hr as <- <-. by left. }
  step Hr hdig w9' E9. step Hr control w9 E10. step Hr acc w10 E11. step Hr f w11 E12.
  right. eexists _, _, _, hdig, control, acc, f, w9, w10, w11.
  destruct Hids as [Hcid Htid]. rewrite Hrc in E10, E11, E12, Hr. rewrite Htid in E11, E12, Hr.
  assert (Hcf : frame [] any_run w9' w9) by (framed E10).
  assert (Hf : frame [] any_run (set_ledger w3 EventLedger_new) w9).
  { etrans; [framed E5|]. etrans; [framed E6|]. etrans; [framed E7|]. etrans; [framed E9|exact Hcf]. }
  split_and!; [| | | |exact E11|exact E12|exact Hr].
  - exact Hcid.
  - assert (Hf2 : frame [] any_run w w2) by (etrans; [framed E1|framed E2]).
    etrans; [exact (frame_prefix _ _ _ _ Hf2)|]. etrans; [|exact (frame_prefix _ _ _ _ Hf)]. cbn.
    unfold open_store in E3. by destruct (Certificate.Store_open _) as [wd []]; injection E3 as <-.
  - by apply Hf.
  - intros h ->. apply (artifact_logged_mono _ _ _ _ _ Hcf). by eapply archive_harnesses_logged.
Qed.

Lemma attack_frames rc spec target_root c digest w w' acc :
  fold_m (attack_surface ledger_error_display env work_root spec target_root rc c digest) Attack_init
    (attack_plans spec) w = (w', Ok acc) → frame [] any_run w w'.
Proof. intros Hr. framed Hr. Qed.

Lemma run_checks self spec target_root manifest w w' out :
  run_declared_campaign self spec target_root manifest w = (w', Ok out) →
  meta_run_kind (out_declared out) = "security" →
  (processes_keep env artifact_keys → Certificate.artifacts_present out (work w')) ∧
  (Certificate.artifacts_present out (work w') → Store.fits (ledger w') →
   certificate_checks (manifest_campaign_id manifest) out w').
Proof.
  intros Hr Hk. destruct (run_phases _ _ _ _ _ _ _ Hr) as [[Hk' _]|
    (c & d & claim & hdig & control & acc & f & w1 & w2 & w3 & <- & _ & Hv & Hh & Ha & Hm & Hc)];
    [congruence|].
  apply attack_frames in Ha as Hf.
  apply measure_spec in Hm as (Hf' & _ & _ & _ & Hheld).
  assert (Hf13 : frame [] any_run w1 w3) by (by etrans). split.
  - intros [Hmin Hreg]%Hheld. by eapply conclude_run_artifacts.
  - intros Hart Hfit. eapply conclude_run_checks; [exact Hc|by apply Hf13| |done..].
    intros h Hhd. apply (artifact_logged_mono _ _ _ _ _ Hf13). by apply Hh.
Qed.

(** C1: a security run that finishes leaves a work directory whose certificate
    checks offline, whatever its processes did to the source trees, the blob store
    and the rest of the work directory, its database and certificate included,
    unless they changed one of the two files the certificate names, the minimized
    proof and the regression test: if those hold what the outcome says, the database
    returns exactly the ledger of the run, the ledger verifies, the check finds no
    failure, and it grants release exactly when the outcome has no limits
    (contained, unmodified target, required evidence met, verified ledger). The two
    files do hold it when no process changes them. *)
Theorem run_leaves_checkable_certificate self spec target_root manifest w w' out :
  run_declared_campaign self spec target_root manifest w = (w', Ok out) →
  meta_run_kind (out_declared out) = "security" →
  (processes_keep env artifact_keys → Certificate.artifacts_present out (work w')) ∧
  (Certificate.artifacts_present out (work w') → Store.fits (ledger w') →
   certificate_checks (manifest_campaign_id manifest) out w').
Proof. apply run_checks. Qed.

(** ** The attack behind a finding *)

Lemma fold_m_ind {A B} (Inv : list A → B → World → Prop) (f : B → A → M B) l b w w' b' :
  (∀ done x b w w' b', x ∈ l → Inv done b w → f b x w = (w', Ok b') → Inv (done ++ [x]) b' w') →
  Inv [] b w → fold_m f b l w = (w', Ok b') → Inv l b' w'.
Proof.
  intros Hf Hi Hr.
  assert (Hgo : ∀ k done_ b w, k ⊆ l → Inv done_ b w → fold_m f b k w = (w', Ok b') →
    Inv (done_ ++ k) b' w'); [|by apply (Hgo l [] b w)].
  clear Hi Hr. induction k as [|x k IH]; intros done_ b0 w0 Hk Hi Hr; cbn in Hr.
  - injection Hr as <- <-. by rewrite app_nil_r.
  - step Hr b1 w1 Hx. rewrite cons_middle, app_assoc. eapply IH; [set_solver| |exact Hr].
    eapply Hf; [set_solver|done..].
Qed.

(** A process that ran between the worlds [w0] and [w]. *)
Definition new_run (w0 w : World) (r : Run) : Prop := ∃ rs, runs w = runs w0 ++ rs ∧ r ∈ rs.

Lemma new_run_mono w0 w w' r : runs w `prefix_of` runs w' → new_run w0 w r → new_run w0 w' r.
Proof.
  intros [k Hk] (rs & Hrs & Hr). exists (rs ++ k). rewrite Hk, Hrs, app_assoc. set_solver.
Qed.

Lemma run_arm_ran spec root prefix rc g w w' out :
  run_arm env work_root (resource_limits spec) root prefix rc g w = (w', Ok out) →
  ∃ s, arm_of spec rc root g s ∧ runs w' = runs w ++ [mkRun s (Some out)].
Proof.
  unfold run_arm. intros Hr. step Hr staged w1 Hs. step Hr cmd w2 Hc. injection Hc as <- Hc.
  step Hr av w3 Ha. injection Ha as <- Ha. apply map_err_Ok in Hc, Ha.
  assert (Hf : frame [] (λ _, False) w w1).
  { eapply stable_run; [|exact Hs]. apply frames_stage. set_solver. }
  destruct Hf as [_ _ _ (rs & Hrs & Hno)]. destruct rs as [|? ?]; [|by inversion Hno].
  exists (arm_start rc (resource_limits spec) root staged av). split; [by exists staged, cmd, av|].
  unfold exec in Hr. tick_step Hr. unfold prim in Hr.
  destruct (env_exec env _ _ _) as [ts r]. injection Hr as <- ->. cbn. by rewrite Hrs, app_nil_r.
Qed.

(** Since [w0] the surface's generator ran on the target, what it printed was
    judged [j], and the hash of that text was logged. *)
Definition observed (w0 : World) (spec : CampaignSpec) (rc : bool) (target_root : string)
    (c : Campaign) (j : OracleJudgement) (w : World)
    (plan : string * CampaignGenerator * CampaignOracle) : Prop :=
  ∃ s stdout, new_run w0 w (mkRun s (Some stdout)) ∧ arm_of spec rc target_root plan.1.2 s ∧
    evaluate_oracle stdout plan.2 = j ∧
    event_logged (ObservationRecorded (campaign_id c) (blake3_hex stdout) (campaign_manifest_hash c)) w.

Lemma observed_mono K P w0 spec rc target c j w w' plan :
  frame K P w w' → observed w0 spec rc target c j w plan → observed w0 spec rc target c j w' plan.
Proof.
  intros Hf (s & stdout & Hr & Ha & Hj & Hl). exists s, stdout.
  split_and!; [|done..|by eapply event_logged_mono].
  eapply new_run_mono, Hr. by eapply frame_prefix.
Qed.

(** What the attack loop knows after the surfaces in [done]. *)
Definition attack_inv (w0 : World) (spec : CampaignSpec) (rc : bool) (target_root : string)
    (c : Campaign) (done_ : list (string * CampaignGenerator * CampaignOracle))
    (acc : Attack) (w : World) : Prop :=
  runs w0 `prefix_of` runs w ∧ all_hold acc = negb (any_success acc) ∧
  (any_success acc = true → ∃ plan, plan ∈ done_ ∧
     observed w0 spec rc target_root c AttackSucceeded w plan) ∧
  (any_success acc = false → Forall (observed w0 spec rc target_root c InvariantHolds w) done_).

Lemma fail_closed_fails {A} msg sid c d w w' (a : A) :
  fail_closed_no_evidence ledger_error_display env msg sid c d w = (w', Ok a) → False.
Proof.
  unfold fail_closed_no_evidence. intros Hr.
  repeat (apply bind_run_Ok in Hr as (? & ? & _ & Hr)). done.
Qed.

Lemma attack_surface_inv w0 spec target_root rc c digest done_ acc plan w w' acc' :
  plan ∈ attack_plans spec → attack_inv w0 spec rc target_root c done_ acc w →
  attack_surface ledger_error_display env work_root spec target_root rc c digest acc plan w =
    (w', Ok acc') →
  attack_inv w0 spec rc target_root c (done_ ++ [plan]) acc' w'.
Proof.
  intros Hplan (Hp0 & Hh & Hs & Hn) Hr.
  assert (Hf : frame [] any_run w w') by (framed Hr).
  assert (Hp1 : runs w0 `prefix_of` runs w') by (etrans; [exact Hp0|by eapply frame_prefix]).
  destruct plan as [[name g] o]. unfold attack_surface in Hr. tick_step Hr.
  destruct (missing_generator_reason _ _ _ _ _).
  { by apply fail_closed_fails in Hr. }
  step Hr stdout w1 E1. step Hr art w2 E2. step Hr u w3 E3. destruct u.
  assert (Hf2 : frame [] any_run w1 w3) by (etrans; [framed E2|framed E3]).
  apply append_event_logs in E3 as (e & Hl & He & _). apply cas_put_digest in E2 as Hd.
  apply run_arm_ran in E1 as (s & Hs' & Hrun).
  assert (Hob : observed w0 spec rc target_root c (evaluate_oracle stdout o) w3 (name, g, o)).
  { exists s, stdout. split_and!; [|done..|].
    - apply (new_run_mono _ w1); [by eapply frame_prefix|]. destruct Hp0 as [k Hk].
      exists (k ++ [mkRun s (Some stdout)]). rewrite Hrun, Hk, app_assoc. set_solver.
    - exists e. rewrite Hl, <- Hd. set_solver. }
  destruct (evaluate_oracle stdout o) eqn:Hj.
  - injection Hr as <- <-. split_and!; cbn; [done..| |done].
    intros _. exists (name, g, o). split; [set_solver|exact Hob].
  - injection Hr as <- <-. split_and!; cbn; [done..| |].
    + intros (plan & Hp & Ho)%Hs. exists plan. split; [set_solver|eapply observed_mono; [exact Hf|exact Ho]].
    + intros Ha. apply Forall_app. split; [|by repeat constructor].
      eapply Forall_impl; [by apply Hn|]. intros p Ho. eapply observed_mono; [exact Hf|exact Ho].
  - by apply fail_closed_fails in Hr.
Qed.

(** What the outcome says of the measurements. *)
Lemma conclude_run_outcome spec rc c d claim hdig control acc f w w' out :
  conclude_run spec rc c d claim hdig control acc f w = (w', Ok out) →
  ∃ st verified met fnd,
    conclude spec (f_measured f) = (st, verified, met) ∧
    out_finding out = Some fnd ∧ finding_verified fnd = verified ∧
    finding_evidence_level fnd = raw_level (f_measured f) ∧
    out_evidence_level out = Some (raw_level (f_measured f)) ∧
    campaign_state (out_campaign out) = st ∧ campaign_id (out_campaign out) = campaign_id c ∧
    meta_required_evidence_met (out_declared out) = met ∧ meta_contained (out_declared out) = rc ∧
    frame [] any_run w w'.
Proof.
  unfold Campaign.conclude_run. destruct (conclude spec (f_measured f)) as [[st verified] met].
  intros Hr. assert (Hf : frame [] any_run w w').
  { framed Hr. }
  repeat (apply bind_run_Ok in Hr as (? & ? & _ & Hr)). injection Hr as _ <-.
  eexists st, verified, met, _. by split_and!.
Qed.

(** The outcome of a security run is that of the manifest's campaign. *)
Lemma run_campaign_id self spec target_root manifest w w' out :
  run_declared_campaign self spec target_root manifest w = (w', Ok out) →
  meta_run_kind (out_declared out) = "security" →
  campaign_id (out_campaign out) = manifest_campaign_id manifest.
Proof.
  intros Hr Hk. destruct (run_phases _ _ _ _ _ _ _ Hr) as [[Hk' _]|
    (c & d & claim & hdig & control & acc & f & w1 & w2 & w3 & <- & _ & _ & _ & _ & _ & Hc)]; [congruence|].
  by apply conclude_run_outcome in Hc as (st & verified & met & fnd & _ & _ & _ & _ & _ & _ & ? & _).
Qed.

(** What the verdict of a run rests on. *)
Lemma run_verdict self spec target_root manifest w w' out fnd :
  run_declared_campaign self spec target_root manifest w = (w', Ok out) →
  out_finding out = Some fnd →
  let spec' := bound_spec spec target_root w in
  let rc := contained_run self manifest in
  ∃ c, campaign_id c = manifest_campaign_id manifest ∧
  (finding_verified fnd = true ↔
     campaign_state (out_campaign out) = CsVerified ∨
     campaign_state (out_campaign out) = RegressionProtected) ∧
  (finding_verified fnd = true →
     meta_required_evidence_met (out_declared out) = true ∧
     level_ge (finding_evidence_level fnd) E3InvariantViolation = true ∧
     ∃ plan, plan ∈ attack_plans spec' ∧ observed w spec' rc target_root c AttackSucceeded w' plan) ∧
  (campaign_state (out_campaign out) = CsRefuted →
     Forall (observed w spec' rc target_root c InvariantHolds w') (attack_plans spec')).
Proof.
  intros Hr Hfnd spec' rc. destruct (run_phases _ _ _ _ _ _ _ Hr) as [[_ Hn]|
    (c & d & claim & hdig & control & acc & f & w1 & w2 & w3 & Hcid & Hruns & _ & _ & Ha & Hm & Hc)];
    [congruence|]. exists c. split; [done|].
  assert (Hinv : attack_inv w spec' rc target_root c (attack_plans spec') acc w2).
  { eapply fold_m_ind, Ha; [|by split_and!]. intros. by eapply attack_surface_inv. }
  apply measure_spec in Hm as (Hf23 & Hj & Hwf & _).
  apply conclude_run_outcome in Hc as (st & v & met & fnd' & Hcon & Hfnd' & Hv & Hlev & _ & Hst & _ & Hmet & _ & Hf).
  rewrite Hfnd in Hfnd'. injection Hfnd' as <-.
  assert (Hf2 : frame [] any_run w2 w') by (by etrans).
  destruct (conclude_verdict _ _ _ _ _ Hwf Hcon) as (Hvs & Hva & Href).
  destruct Hinv as (_ & Hall & Hs & Hh). rewrite Hj in Hva, Href. unfold overall in Hva, Href.
  rewrite Hst, Hv, Hmet, Hlev. split_and!; [exact Hvs| |].
  - intros (Hm' & Hatt & Hge)%Hva. split_and!; [done..|].
    destruct (any_success acc); [|by rewrite Hall in Hatt].
    destruct (Hs eq_refl) as (plan & Hp & Ho). exists plan. split; [done|]. eapply observed_mono; [exact Hf2|exact Ho].
  - intros Hatt%Href. destruct (any_success acc); [done|].
    eapply Forall_impl; [by apply Hh|]. intros p Ho. eapply observed_mono; [exact Hf2|exact Ho].
Qed.

(** C3: a run reports a verified finding only for an attack it carried out: during
    the run the generator of some declared surface was started on the target,
    under the declared limits and contained if the run is, the text it printed was
    judged a success of the attack, and the hash of that text is logged under the
    campaign; the required evidence is met and the campaign ends as verified or
    regression-protected. It reports a refutation only if the generator of every
    declared surface was started, its output judged to hold and logged in the same
    way. *)
Theorem verdict_rests_on_observations self spec target_root manifest w w' out fnd :
  run_declared_campaign self spec target_root manifest w = (w', Ok out) →
  out_finding out = Some fnd →
  let spec' := bound_spec spec target_root w in
  let rc := contained_run self manifest in
  ∃ c, campaign_id c = manifest_campaign_id manifest ∧
  (finding_verified fnd = true ↔
     campaign_state (out_campaign out) = CsVerified ∨
     campaign_state (out_campaign out) = RegressionProtected) ∧
  (finding_verified fnd = true →
     meta_required_evidence_met (out_declared out) = true ∧
     level_ge (finding_evidence_level fnd) E3InvariantViolation = true ∧
     ∃ plan, plan ∈ attack_plans spec' ∧ observed w spec' rc target_root c AttackSucceeded w' plan) ∧
  (campaign_state (out_campaign out) = CsRefuted →
     Forall (observed w spec' rc target_root c InvariantHolds w') (attack_plans spec')).
Proof. apply run_verdict. Qed.

(** ** Where processes run *)

(** A process a campaign may start: an arm of the specification on the target or
    on a replica, contained if the run is, with the output the environment answered;
    the regression test, on the host; or an interpreter asked for its version, on
    the host. *)
Definition declared_run (spec : CampaignSpec) (rc : bool) (target_root : string) (r : Run) : Prop :=
  (∃ root g, root ∈ arm_roots work_root target_root ∧ declared spec g ∧
     arm_of spec rc root g (run_start r) ∧ answered env (run_start r) (run_output r)) ∨
  (∃ python, r = mkRun (regression_start work_root python) None) ∨
  ∃ candidate, candidate ∈ ["python3"; "python"] ∧ r = mkRun (version_start candidate) None.

Definition started (P : Run → Prop) (w w' : World) : Prop :=
  ∃ rs, runs w' = runs w ++ rs ∧ Forall P rs.

#[export] Instance started_preorder P : PreOrder (started P).
Proof.
  split.
  - intros w. exists []. by rewrite app_nil_r.
  - intros w1 w2 w3 (s1 & S1 & P1) (s2 & S2 & P2). exists (s1 ++ s2).
    split; [by rewrite S2, S1, app_assoc|by apply Forall_app].
Qed.
#[export] Instance started_tick P : TickStable (started P).
Proof. intros w. exists []. by rewrite app_nil_r. Qed.

Lemma frames_started P {A} (m : M A) : stable (frame [] P) m → stable (started P) m.
Proof. intros Hm w. apply Hm. Qed.

(** Every process of a run, however it ends. *)
Lemma run_starts self spec target_root manifest w w' r :
  run_declared_campaign self spec target_root manifest w = (w', r) →
  started (declared_run (bound_spec spec target_root w) (contained_run self manifest) target_root) w w'.
Proof.
  intros Hr. unfold Campaign.run_declared_campaign in Hr.
  set (manifest' := if waive_containment self then _ else manifest) in Hr.
  assert (Hrc : require_containment manifest' && negb (waive_containment self) =
    contained_run self manifest)
    by (unfold manifest', contained_run; by destruct (waive_containment self); rewrite ?andb_false_r).
  rewrite Hrc in Hr. clear Hrc. revert Hr. generalize (contained_run self manifest). intros rc Hr.
  apply bind_run in Hr as [(e & _ & He)|(w0 & w1 & Hw & Hr)]; [done|]. injection Hw as <- <-.
  fold (bound_spec spec target_root w) in Hr. revert Hr. generalize (bound_spec spec target_root w).
  intros spec' Hr. set (P := declared_run spec' rc target_root).
  assert (Harm : ∀ root g s out, root ∈ arm_roots work_root target_root → declared spec' g →
    arm_of spec' rc root g s → answered env s out → P (mkRun s out)) by (intros; left; eauto 10).
  assert (Hreg : ∀ python, P (mkRun (regression_start work_root python) None)) by (right; left; eauto).
  assert (Hver : ∀ c, c ∈ ["python3"; "python"] → P (mkRun (version_start c) None)) by (right; right; eauto).
  assert (Hidle : ∀ w0 w1, runs w1 = runs w0 → started P w0 w1).
  { intros w0 w1 Hs. exists []. by rewrite app_nil_r. }
  eapply stable_run; [|exact Hr].
  frames; try (apply frames_started; unfold measure, Campaign.conclude_run, environment_outcome;
               by frames).
  - intros w0. apply Hidle. unfold open_store. by destruct (Certificate.Store_open _) as [wd []].
  - intros w0. by apply Hidle.
Qed.


End EndToEnd.
