(* ===== verification/Gate.v ===== *)
(** * The release gate (crate [aros-core], [gate.rs] and the loaders of
      [campaign_loader.rs])

    A gate runs declared campaigns one after the other, every campaign in its own
    subdirectory of one work directory. The site is the world of the work
    directory together with what the subdirectories hold. The theorems say what a
    blocked gate does, that a finished gate accounts for every class it loaded
    and what its verdicts rest on, and which processes were started. *)

From S2P Require Import Prelude RustStr Net Json Types Policy Ledger Store.
From S2P Require Import Graph Spec Snapshot Declared Engine Certificate World Campaign.
From S2P Require Import RunLaws Surface Planner Pddl EndToEnd.
Import Ledger Spec Snapshot Declared Engine World.

Module Gate.

(** ** Sites *)

(** The work directory of a driver is the [work] of [top]; a subdirectory holds
    the blobs and the files of one campaign. *)
Record Site := mkSite { top : World; dirs : gmap string (gmap string string * Certificate.WorkDir) }.

(** A driver stops with an error, or because the search for a plan was given too
    few turns. *)
Inductive Stop := Halted (e : EngineError) | Starved.

Definition D (A : Type) : Type := Site → Site * result Stop A.
#[export] Instance D_ret : MRet D := λ A a s, (s, Ok a).
#[export] Instance D_bind : MBind D := λ A B f m s,
  match m s with
  | (s', Ok a) => f a s'
  | (s', Err e) => (s', Err e)
  end.
Definition halt {A} (e : Stop) : D A := λ s, (s, Err e).
Definition on_top {A} (m : M A) : D A := λ s,
  let '(w, r) := m (top s) in (mkSite w (dirs s), map_err Halted r).
Definition lift_d {A} (r : result EngineError A) : D A := λ s, (s, map_err Halted r).

(** The world of a campaign in subdirectory [name], and the site it leaves. *)
Definition enter (name : string) (s : Site) : World :=
  let '(bs, wd) := default (∅, Certificate.mkWorkDir ∅ Certificate.DbMissing) (dirs s !! name) in
  mkWorld (trees (top s)) bs wd EventLedger_new (runs (top s)) (ticks (top s)).
Definition leave (name : string) (w : World) (s : Site) : Site :=
  mkSite (mkWorld (trees w) (blobs (top s)) (work (top s)) (ledger (top s)) (runs w) (ticks w))
    (<[name := (blobs w, work w)]> (dirs s)).
Definition in_dir {A} (name : string) (m : M A) : D (result EngineError A) := λ s,
  let '(w, r) := m (enter name s) in (leave name w s, Ok r).

(** What the host answers to a driver. *)
Record GateHost := mkGateHost {
  gh_var : string → option string;
  gh_read : string → option string;
  gh_is_file : string → bool;
  gh_is_dir : string → bool;
  (** [read_dir]: the names, [None] for an entry that cannot be read. *)
  gh_list : string → option (list (option string));
  (** The directory of the crate at build time, and the components of the current
      directory. *)
  gh_crate : string;
  gh_cwd : option (list string);
  gh_disk : Surface.Disk;
  gh_plan : Pddl.PlanHost;
  (** A fresh probe of the container runtime ([live_oci_claimable]). *)
  gh_live_oci : bool;
  (** The interpreters that answer [--version]. *)
  gh_python : string → bool;
}.

Section Drivers.
Context `{I : IpNetLib, U : UuidLib, J : JsonLib, Hl : HashLib, !Serialize EventRecord,
  !Serialize AuthorizationManifest, !Serialize FailureCategory,
  !Store.JsonText Campaign, !Store.JsonText LedgerEntry, !Store.JsonText GraphNode,
  !Store.JsonText GraphEdge, !Store.JsonText ResearchFailureCard,
  !Store.JsonText Certificate.EvidenceCertificate, !Store.JsonText CampaignSpec,
  !Store.JsonText Surface.SurfaceMap, G : Graph.DiGraph}.
Variable ledger_error_display : LedgerError → string.
Variable engine_error_display : EngineError → string.
Variable env : Env.
Variable host : GateHost.
Variable regression_py : string.
Variable json_pretty : Value → string.
(** The text of a JSON error, and [{:?}] of a string. *)
Variable json_error : string.
Variable str_debug : string → string.
(** Turns for the search of a plan. *)
Variable fuel : nat.

#[local] Abbreviation run_declared work_root :=
  (Campaign.run_declared_campaign ledger_error_display env work_root regression_py json_pretty).

(** ** Loading campaigns *)

(** [src crates/aros-types/src/campaign_spec.rs 183-187 CampaignSpec::from_json_str] *)
Definition from_json_str (raw : string) : result TypesError CampaignSpec :=
  spec ← ok_or (Store.from_text raw) (TeJson json_error);
  _ ← validate str_debug spec;
  Ok spec.

(** [src crates/aros-core/src/campaign_loader.rs 34-37 load_campaign_file] *)
Definition load_campaign_file (path : string) : result EngineError CampaignSpec :=
  raw ← ok_or (gh_read host path) EeIo;
  map_err EeTypes (from_json_str raw).

(** [src crates/aros-core/src/campaign_loader.rs 1600-1606 default_declared_manifest] *)
Definition default_declared_manifest (target : string) : M AuthorizationManifest :=
  cid ← fresh env; tid ← fresh env; mret (default_deny_local cid tid target).

(** The directories above the current one, nearest first. *)
Fixpoint upward (components_rev : list string) : list string :=
  ("/" +:+ join "/" (reverse components_rev)) ::
  match components_rev with
  | [] => []
  | _ :: r => upward r
  end.
Definition below (dir rel : string) : string := if ends_with dir "/" then dir +:+ rel else dir +:+ "/" +:+ rel.

(** [src crates/aros-core/src/campaign_loader.rs 1608-1632 class_campaign_dir] *)
Definition class_campaign_dir : option string :=
  match (explicit ← gh_var host "AROS_CLASS_CAMPAIGNS";
         if gh_is_dir host explicit then Some explicit else None) with
  | Some dir => Some dir
  | None =>
    let from_crate := gh_crate host +:+ "/../../campaign-loader/classes" in
    if gh_is_dir host from_crate then Some from_crate
    else
      cwd ← gh_cwd host;
      List.find (gh_is_dir host) ((λ dir, below dir "campaign-loader/classes") <$> upward (reverse cwd))
  end.

(** ** The release gate *)

(** [src crates/aros-core/src/gate.rs 16-26 GateResult] *)
Record GateResult := mkGateResult {
  contained : bool;
  live_oci : bool;
  containment_blocked : bool;
  verified : list string;
  held : list string;
  errors : list string;
  report_path : string;
  surface_path : string;
}.

(** [path.extension() == Some("json")], on a file name. *)
Definition json_extension (name : string) : bool :=
  match rsplit_once "." name with
  | Some (stem, ext) => negb (is_empty stem) && String.eqb ext "json"
  | None => false
  end.

(** [src crates/aros-core/src/gate.rs 126-137 class_files] *)
Definition included (pack name : string) : bool :=
  if String.eqb pack "http" then starts_with name "http-"
  else if String.eqb pack "cli" then
    starts_with name "cli-" || starts_with name "lib-" || starts_with name "mutate-" ||
    starts_with name "klee-" || starts_with name "prop-"
  else if String.eqb pack "all" then true
  else starts_with name pack.

(** [src crates/aros-core/src/gate.rs 107-144 class_files] *)
Definition class_files (dir pack : string) (planned : list string) : result EngineError (list string) :=
  if negb (bool_decide (planned = [])) then
    Ok (List.filter (gh_is_file host) ((λ id, dir +:+ "/" +:+ id +:+ ".campaign.json") <$> planned))
  else
    entries ← ok_or (gh_list host dir) EeIo;
    names ← try_map (λ e, ok_or e EeIo) entries;
    Ok ((λ name, dir +:+ "/" +:+ name) <$>
        sort_strings (List.filter (λ name, json_extension name && included pack name) names)).

(** [src crates/aros-core/src/gate.rs 170-175 html] *)
Definition html (value : string) : string :=
  replace_char ">" "&gt;" (replace_char "<" "&lt;" (replace_char "&" "&amp;" value)).

(** [src crates/aros-core/src/gate.rs 146-168 gate_html] *)
Definition gate_html (surface : Surface.SurfaceMap) (verified held errors : list string)
    (contained live_oci : bool) : string :=
  "<!DOCTYPE html><html><head><meta charset=" +:+ dquote +:+ "utf-8" +:+ dquote +:+
  "><title>AROS release gate</title></head><body>" +:+
  "<h1>AROS release gate</h1>" +:+
  "<p><b>contained</b> " +:+ Campaign.show_bool contained +:+ " <b>live_oci</b> " +:+
  Campaign.show_bool live_oci +:+ "</p>" +:+
  "<p><b>verified (block ship)</b> " +:+ html (join ", " verified) +:+ "</p>" +:+
  "<p><b>held</b> " +:+ html (join ", " held) +:+ "</p>" +:+
  "<p><b>errors</b> " +:+ html (join "; " errors) +:+ "</p>" +:+
  "<p><b>source paths</b> " +:+ html (join " " (Surface.source_paths surface)) +:+ "</p>" +:+
  "</body></html>".

Definition finding_is_verified (o : CampaignOutcome) : bool :=
  default false (finding_verified <$> out_finding o).

(** What the loop has collected. *)
Record Tally := mkTally { t_verified : list string; t_held : list string; t_errors : list string }.

(** [src crates/aros-core/src/gate.rs 77-87 run_release_gate] *)
Definition tally (id : string) (r : result EngineError CampaignOutcome) (t : Tally) : Tally :=
  match r with
  | Ok out =>
    if finding_is_verified out then mkTally (t_verified t ++ [id]) (t_held t) (t_errors t)
    else mkTally (t_verified t) (t_held t ++ [id]) (t_errors t)
  | Err e =>
    mkTally (t_verified t) (t_held t) (t_errors t ++ [id +:+ ": " +:+ engine_error_display e])
  end.

(** [src crates/aros-core/src/gate.rs 72-88 run_release_gate] *)
Fixpoint run_classes (engine : CampaignEngine) (work target : string) (surface : Surface.SurfaceMap)
    (files : list string) (t : Tally) : D Tally :=
  match files with
  | [] => mret t
  | file :: files =>
    spec ← lift_d (load_campaign_file file);
    let spec := overlay_surface_bind spec (Surface.suggested_bind surface) in
    manifest ← on_top (default_declared_manifest target);
    r ← in_dir (spec_id spec)
          (run_declared (work +:+ "/" +:+ spec_id spec) engine spec target manifest);
    run_classes engine work target surface files (tally (spec_id spec) r t)
  end.

(** [map_http_surface(target, None)?] *)
Definition map_surface (target : string) : D Surface.SurfaceMap := λ s,
  match trees (top s) !! target with
  | Some t => (s, map_err (λ _, Halted EeIo)
                (Surface.map_http_surface (λ _ _ _ _, None) (gh_disk host) t None))
  | None => (s, Err (Halted EeIo))
  end.

(** [src crates/aros-core/src/surface.rs 183-191 write_surface_map] *)
Definition write_surface_map (path : list string) (m : Surface.SurfaceMap) : M unit :=
  _ ← io env;
  match Store.to_text m with
  | Some text => write_work env path text
  | None => fail EeIo
  end.

Definition blocked_html : string :=
  "<!DOCTYPE html><html><body><p>containment cannot be shown; gate fail-closed</p></body></html>".

(** The plan of the classes, written beside the surface map.
    [src crates/aros-core/src/gate.rs 68-71 run_release_gate] *)
Definition plan_classes (work target pack : string) (surface : Surface.SurfaceMap) : D (list string) :=
  let facts := Pddl.facts_from (gh_is_file host) target surface in
  plan ← on_top (Pddl.plan_campaigns env (gh_plan host) work json_pretty fuel facts pack);
  match plan with
  | None => halt Starved
  | Some plan => _ ← on_top (try_ (Pddl.write_pddl env plan)); mret (Pddl.planned plan)
  end.

(** [src crates/aros-core/src/gate.rs 28-105 run_release_gate] *)
Definition run_release_gate (target work pack : string) (waive : bool) : D GateResult :=
  _ ← on_top (io env);
  let live := gh_live_oci host in
  if negb waive && negb live then
    _ ← on_top (write_work env ["gate-report.html"] blocked_html);
    mret (mkGateResult false false true [] [] ["containment cannot be shown"]
            (work +:+ "/gate-report.html") (work +:+ "/surface.json"))
  else
    surface ← map_surface target;
    _ ← on_top (write_surface_map ["surface.json"] surface);
    class_dir ← lift_d (ok_or class_campaign_dir
                          (EeFailClosed "campaign-loader/classes is not available"));
    planned ← plan_classes work target pack surface;
    files ← lift_d (class_files class_dir pack planned);
    t ← run_classes (CampaignEngine_new waive) work target surface files (mkTally [] [] []);
    _ ← on_top (write_work env ["gate-report.html"]
          (gate_html surface (t_verified t) (t_held t) (t_errors t) (negb waive && live) live));
    mret (mkGateResult (negb waive && live) live false (t_verified t) (t_held t) (t_errors t)
            (work +:+ "/gate-report.html") (work +:+ "/surface.json")).

(** The exit code of [aros campaign gate]: success or not.
    [src crates/aros-cli/src/main.rs 601-629 run_gate] *)
Definition gate_passes (r : result Stop GateResult) : bool :=
  match r with
  | Ok r => negb (containment_blocked r || negb (bool_decide (verified r = [])))
  | Err _ => false
  end.

(** ** Steps of a driver *)

Lemma dbind_run {A B} (m : D A) (f : A → D B) s s' r :
  (m ≫= f) s = (s', r) →
  (∃ e, r = Err e ∧ m s = (s', Err e)) ∨ ∃ a s1, m s = (s1, Ok a) ∧ f a s1 = (s', r).
Proof.
  unfold mbind, D_bind. destruct (m s) as [s1 [a|e]]; [right; by exists a, s1|].
  intros [= <- <-]. left. by exists e.
Qed.
Lemma dbind_Ok {A B} (m : D A) (f : A → D B) s s' b :
  (m ≫= f) s = (s', Ok b) → ∃ a s1, m s = (s1, Ok a) ∧ f a s1 = (s', Ok b).
Proof. intros [(? & ? & _)|?]%dbind_run; [done|]. done. Qed.
Lemma dbind_step {A B} (m : D A) (f : A → D B) s s' a : m s = (s', Ok a) → (m ≫= f) s = f a s'.
Proof. unfold mbind, D_bind. by intros ->. Qed.
Lemma on_top_Ok {A} (m : M A) s s' a : on_top m s = (s', Ok a) → m (top s) = (top s', Ok a) ∧ dirs s' = dirs s.
Proof. unfold on_top. destruct (m (top s)) as [w [b|e]]; [|done]. by intros [= <- <-]. Qed.
Lemma lift_d_Ok {A} (r : result EngineError A) s s' a : lift_d r s = (s', Ok a) → s' = s ∧ r = Ok a.
Proof. unfold lift_d. destruct r; [|done]. by intros [= <- <-]. Qed.

(** What was started, whatever the result. *)
Definition starts (P : Run → Prop) {A} (m : D A) : Prop := ∀ s, started P (top s) (top (m s).1).
Lemma starts_bind P {A B} (m : D A) (f : A → D B) :
  starts P m → (∀ a, starts P (f a)) → starts P (m ≫= f).
Proof.
  intros Hm Hf s. specialize (Hm s). unfold mbind, D_bind. destruct (m s) as [s1 [a|e]]; [|done].
  etrans; [exact Hm|apply Hf].
Qed.
Lemma starts_on_top P {A} (m : M A) : stable (started P) m → starts P (on_top m).
Proof. intros Hm s. specialize (Hm (top s)). unfold on_top. by destruct (m (top s)). Qed.
Lemma starts_lift P {A} (r : result EngineError A) : starts P (lift_d r).
Proof. intros s. reflexivity. Qed.
Lemma starts_ret P {A} (a : A) : starts P (mret a).
Proof. intros s. reflexivity. Qed.

(** ** The campaigns of a gate *)

(** One campaign of the loop: the file, the loaded specification with the suggested
    values, and the run in its own directory. *)
Record ClassRun := mkClassRun {
  cr_file : string;
  cr_spec : CampaignSpec;
  cr_manifest : AuthorizationManifest;
  cr_before : World;
  cr_after : World;
  cr_result : result EngineError CampaignOutcome;
}.
Definition cr_id (c : ClassRun) : string := spec_id (cr_spec c).
Definition class_run (engine : CampaignEngine) (work target : string) (surface : Surface.SurfaceMap)
    (c : ClassRun) : Prop :=
  (∃ spec, load_campaign_file (cr_file c) = Ok spec ∧
     cr_spec c = overlay_surface_bind spec (Surface.suggested_bind surface)) ∧
  (∃ cid tid, cr_manifest c = default_deny_local cid tid target) ∧
  run_declared (work +:+ "/" +:+ cr_id c) engine (cr_spec c) target (cr_manifest c) (cr_before c) =
    (cr_after c, cr_result c).

Definition was_verified (c : ClassRun) : bool :=
  match cr_result c with Ok out => finding_is_verified out | Err _ => false end.
Definition was_held (c : ClassRun) : bool :=
  match cr_result c with Ok out => negb (finding_is_verified out) | Err _ => false end.
Definition error_line (c : ClassRun) : option string :=
  match cr_result c with
  | Ok _ => None
  | Err e => Some (cr_id c +:+ ": " +:+ engine_error_display e)
  end.
Definition tally_of (log : list ClassRun) : Tally :=
  mkTally (cr_id <$> List.filter was_verified log) (cr_id <$> List.filter was_held log) (omap error_line log).

Lemma tally_snoc log c : tally (cr_id c) (cr_result c) (tally_of log) = tally_of (log ++ [c]).
Proof.
  unfold tally_of. rewrite !List.filter_app, !fmap_app, omap_app. cbn.
  unfold was_verified, was_held, error_line, tally. cbn.
  destruct (cr_result c) as [out|e]; [destruct (finding_is_verified out)|]; cbn; by rewrite ?app_nil_r.
Qed.

Lemma tally_length log :
  length (t_verified (tally_of log)) + length (t_held (tally_of log)) + length (t_errors (tally_of log)) =
  length log.
Proof.
  unfold tally_of. cbn. rewrite !length_fmap. induction log as [|c log IH]; [done|]. cbn.
  unfold was_verified at 1, was_held at 1, error_line at 1.
  destruct (cr_result c) as [out|e]; [destruct (finding_is_verified out)|]; cbn; lia.
Qed.

(** The runs follow each other: each starts from the site with a fresh manifest, in
    its own directory, and the next goes on from what it left. *)
Fixpoint consecutive (target : string) (log : list ClassRun) (s s' : Site) : Prop :=
  match log with
  | [] => s' = s
  | c :: log => ∃ s2, on_top (default_declared_manifest target) s = (s2, Ok (cr_manifest c)) ∧
      cr_before c = enter (cr_id c) s2 ∧ consecutive target log (leave (cr_id c) (cr_after c) s2) s'
  end.

Lemma run_classes_Ok engine work target surface files log s s' t :
  run_classes engine work target surface files (tally_of log) s = (s', Ok t) →
  ∃ log', cr_file <$> log' = files ∧ Forall (class_run engine work target surface) log' ∧
    consecutive target log' s s' ∧ t = tally_of (log ++ log').
Proof.
  revert log s. induction files as [|file files IH]; intros log s; cbn [run_classes].
  { intros [= <- <-]. exists []. by rewrite app_nil_r. }
  intros (spec & s1 & [-> Hload]%lift_d_Ok & Hr)%dbind_Ok. cbv zeta in Hr.
  apply dbind_Ok in Hr as (manifest & s2 & Etop & Hr). apply on_top_Ok in Etop as Hm. destruct Hm as [Hm _].
  apply dbind_Ok in Hr as (r & s3 & Hc & Hr). unfold in_dir in Hc.
  destruct (run_declared _ _ _ _ _ _) as [w' r'] eqn:E in Hc. injection Hc as <- <-.
  assert (Hman : ∃ cid tid, manifest = default_deny_local cid tid target).
  { unfold default_declared_manifest in Hm. apply bind_run_Ok in Hm as (cid & w1 & _ & Hm).
    apply bind_run_Ok in Hm as (tid & w2 & _ & Hm). injection Hm as _ <-. by exists cid, tid. }
  set (c := mkClassRun file (overlay_surface_bind spec (Surface.suggested_bind surface)) manifest
              (enter (spec_id (overlay_surface_bind spec (Surface.suggested_bind surface))) s2) w' r').
  change (tally _ r' (tally_of log)) with (tally (cr_id c) (cr_result c) (tally_of log)) in Hr.
  rewrite tally_snoc in Hr. apply IH in Hr as (log' & <- & Hlog & Hcons & ->). exists (c :: log').
  split_and!; [done| | |by rewrite <- app_assoc].
  - constructor; [|done]. split_and!; [by exists spec|done|exact E].
  - exists s2. split_and!; [exact Etop|done|exact Hcons].
Qed.

(** ** Which processes a gate starts *)

(** The external planner, or a process one of the loaded campaigns declares. *)
Definition gate_process (work target : string) (waive : bool) (r : Run) : Prop :=
  (∃ planner, Pddl.which_fast_downward (gh_plan host) = Some planner ∧
     run_start r = Pddl.planner_start work planner) ∨
  ∃ file spec suggested w, load_campaign_file file = Ok spec ∧
    declared_run env (work +:+ "/" +:+ spec_id spec)
      (bound_spec env (overlay_surface_bind spec suggested) target w) (negb waive) target r.

Section Processes.
Variable P : Run → Prop.

Lemma started_io : stable (started P) (io env).
Proof. apply frames_started, frames_io. Qed.
Lemma started_write path bytes : stable (started P) (write_work env path bytes).
Proof. apply frames_started, frames_write, not_elem_of_nil. Qed.
Lemma started_fresh {k} : stable (started P) (fresh (k:=k) env).
Proof. apply frames_started, frames_fresh. Qed.
#[local] Hint Resolve started_io started_write started_fresh : frames.

Lemma started_manifest target : stable (started P) (default_declared_manifest target).
Proof. unfold default_declared_manifest. frames. Qed.
Lemma started_surface_map path m : stable (started P) (write_surface_map path m).
Proof. unfold write_surface_map. frames. Qed.
Lemma started_write_pddl plan : stable (started P) (Pddl.write_pddl env plan).
Proof. unfold Pddl.write_pddl. frames. Qed.

Lemma started_plan work facts pack :
  (∀ planner r, Pddl.which_fast_downward (gh_plan host) = Some planner →
     run_start r = Pddl.planner_start work planner → P r) →
  stable (started P) (Pddl.plan_campaigns env (gh_plan host) work json_pretty fuel facts pack).
Proof.
  intros Hp. unfold Pddl.plan_campaigns. apply stable_bind; [apply _| |intros; frames].
  - unfold Pddl.try_fast_downward. destruct (Pddl.which_fast_downward _) as [planner|] eqn:E; [|frames].
    unfold Pddl.run_planner, Pddl.read_work. frames.
    intros w. unfold prim. destruct (Pddl.ph_planner _ _ _ _) as [wd out]. cbn.
    exists [mkRun (Pddl.planner_start work planner) out]. split; [done|]. constructor; [by eapply Hp|done].
  - unfold Pddl.load_failure_memory, Pddl.read_work. frames.
  - unfold Pddl.write_replan. frames.
Qed.

End Processes.

Lemma runs_enter name s : runs (enter name s) = runs (top s).
Proof. unfold enter. by destruct (default _ _). Qed.

Lemma contained_gate waive cid tid target :
  contained_run (CampaignEngine_new waive) (default_deny_local cid tid target) = negb waive.
Proof. done. Qed.

Lemma starts_class work target waive surface file spec t (rest : Tally → D Tally) :
  load_campaign_file file = Ok spec → (∀ t, starts (gate_process work target waive) (rest t)) →
  let spec' := overlay_surface_bind spec (Surface.suggested_bind surface) in
  starts (gate_process work target waive)
    (manifest ← on_top (default_declared_manifest target);
     r ← in_dir (spec_id spec') (run_declared (work +:+ "/" +:+ spec_id spec') (CampaignEngine_new waive)
           spec' target manifest);
     rest (tally (spec_id spec') r t)).
Proof.
  intros Hload Hrest spec' s. unfold mbind, D_bind, on_top at 1.
  destruct (default_declared_manifest target (top s)) as [w1 [manifest|e]] eqn:Em; cbn.
  2: { pose proof (started_manifest (gate_process work target waive) target (top s)) as Hs.
       by rewrite Em in Hs. }
  assert (∃ cid tid, manifest = default_deny_local cid tid target) as (cid & tid & ->).
  { unfold default_declared_manifest in Em. apply bind_run_Ok in Em as (cid & w2 & _ & Em).
    apply bind_run_Ok in Em as (tid & w3 & _ & Em). injection Em as _ <-. by exists cid, tid. }
  transitivity w1; [by eapply stable_run, Em; apply started_manifest|].
  unfold in_dir. destruct (run_declared _ _ _ _ _ _) as [w2 r] eqn:Er.
  etrans; [|apply Hrest]. apply run_starts in Er. cbn [top leave].
  destruct Er as (rs & Hrs & HP). rewrite runs_enter in Hrs. exists rs. split; [exact Hrs|].
  eapply Forall_impl; [exact HP|]. intros x Hx. right. exists file, spec, (Surface.suggested_bind surface).
  eexists. split; [done|]. rewrite contained_gate in Hx. exact Hx.
Qed.

Lemma starts_classes work target waive surface files t :
  starts (gate_process work target waive)
    (run_classes (CampaignEngine_new waive) work target surface files t).
Proof.
  revert t. induction files as [|file files IH]; intros t; [apply starts_ret|]. cbn [run_classes].
  intros s. unfold mbind at 1, D_bind at 1, lift_d at 1.
  destruct (load_campaign_file file) as [spec|e] eqn:E; [|reflexivity].
  by apply (starts_class work target waive surface file spec t (λ t, run_classes (CampaignEngine_new waive) work target surface files t)).
Qed.

Lemma starts_plan work target waive pack surface :
  starts (gate_process work target waive) (plan_classes work target pack surface).
Proof.
  unfold plan_classes. apply starts_bind; [|intros [plan|]; [|by intros s0]].
  - apply starts_on_top, started_plan. intros planner x Hp Hx. left. by exists planner.
  - apply starts_bind; [apply starts_on_top, stable_try, started_write_pddl|intros _; apply starts_ret].
Qed.
Lemma plan_classes_dirs work target pack surface s s' p :
  plan_classes work target pack surface s = (s', Ok p) → dirs s' = dirs s.
Proof.
  unfold plan_classes. intros ([plan|] & s1 & [_ Hd]%on_top_Ok & Hr)%dbind_Ok; [|done].
  apply dbind_Ok in Hr as (o & s2 & [_ Hd2]%on_top_Ok & Hr). injection Hr as <- _. congruence.
Qed.

Lemma starts_gate target work pack waive :
  starts (gate_process work target waive) (run_release_gate target work pack waive).
Proof.
  unfold run_release_gate. apply starts_bind; [apply starts_on_top, started_io|intros _].
  cbv zeta. destruct (negb waive && _).
  { apply starts_bind; [apply starts_on_top, started_write|]. intros _. apply starts_ret. }
  apply starts_bind; [intros s0; unfold map_surface; by destruct (trees (top s0) !! target)|intros surface].
  apply starts_bind; [apply starts_on_top, started_surface_map|intros _].
  apply starts_bind; [apply starts_lift|intros dir]. apply starts_bind; [apply starts_plan|intros planned].
  apply starts_bind; [apply starts_lift|intros files]. apply starts_bind; [apply starts_classes|intros t].
  apply starts_bind; [apply starts_on_top, started_write|intros _; apply starts_ret].
Qed.

(** However a gate ends, every process it started is the external planner or
    a process declared by a campaign file that was loaded and validated, in that
    campaign's own directory, and in the container unless containment was waived
    (the regression test and the search for its interpreter excepted). *)
Theorem gate_starts_declared target work pack waive s s' r :
  run_release_gate target work pack waive s = (s', r) →
  started (gate_process work target waive) (top s) (top s').
Proof.
  intros Hr. pose proof (starts_gate target work pack waive s) as Hs. by rewrite Hr in Hs.
Qed.

(** ** What a gate reports *)

(** Steps that start nothing and leave the trees alone. *)
Definition still (w w' : World) : Prop := runs w' = runs w ∧ trees w' = trees w.
Lemma still_Ok {A} (m : M A) w w' a : m w = (w', Ok a) → stable still m → still w w'.
Proof. intros E Hs. specialize (Hs w). by rewrite E in Hs. Qed.
Lemma still_io : stable still (io env).
Proof. intros w. unfold io, mbind, M_bind, tick. cbn. by destruct (env_io_fault _ _). Qed.
Lemma still_write path bytes : stable still (write_work env path bytes).
Proof. intros w. unfold write_work, mbind, M_bind, tick, prim. cbn. by destruct (env_write_fault _ _). Qed.
Lemma still_surface_map path m : stable still (write_surface_map path m).
Proof.
  intros w. unfold write_surface_map, mbind at 1, M_bind at 1. pose proof (still_io w) as [E1 E2].
  destruct (io env w) as [w1 [u|e]]; [|by split]. cbn in E1, E2.
  destruct (Store.to_text m) as [text|]; [|by split]. pose proof (still_write path text w1) as [E3 E4].
  split; congruence.
Qed.

(** An unblocked gate that finished: its surface, its class files, its runs. *)
Lemma run_release_gate_Ok target work pack waive s s' r :
  run_release_gate target work pack waive s = (s', Ok r) →
  (containment_blocked r = true ∧ waive = false ∧ gh_live_oci host = false ∧
   verified r = [] ∧ held r = [] ∧ errors r = ["containment cannot be shown"] ∧
   contained r = false ∧ runs (top s') = runs (top s) ∧ trees (top s') = trees (top s) ∧ dirs s' = dirs s) ∨
  (containment_blocked r = false ∧ contained r = negb waive && gh_live_oci host ∧
   (waive = true ∨ gh_live_oci host = true) ∧
   ∃ surface dir planned files log s1 s2 s3,
     trees (top s1) = trees (top s) ∧ runs (top s1) = runs (top s) ∧ dirs s1 = dirs s ∧
     map_surface target s = (s, Ok surface) ∧
     class_campaign_dir = Some dir ∧ plan_classes work target pack surface s1 = (s2, Ok planned) ∧
     class_files dir pack planned = Ok files ∧
     cr_file <$> log = files ∧ Forall (class_run (CampaignEngine_new waive) work target surface) log ∧
     consecutive target log s2 s3 ∧ dirs s' = dirs s3 ∧ runs (top s') = runs (top s3) ∧
     trees (top s') = trees (top s3) ∧
     mkTally (verified r) (held r) (errors r) = tally_of log).
Proof.
  unfold run_release_gate. intros ([] & s1 & [Hio Hd1]%on_top_Ok & Hr)%dbind_Ok. cbv zeta in Hr.
  pose proof (still_Ok _ _ _ _ Hio still_io) as [E1 E2].
  destruct (negb waive && negb (gh_live_oci host)) eqn:Hb.
  - apply andb_true_iff in Hb as [Hw%negb_true_iff Hlive%negb_true_iff]. left.
    apply dbind_Ok in Hr as ([] & s2 & [Hwr Hd2]%on_top_Ok & Hr). injection Hr as <- <-. cbn.
    pose proof (still_Ok _ _ _ _ Hwr (still_write _ _)) as [E3 E4]. split_and!; congruence.
  - right. apply dbind_Ok in Hr as (surface & s2 & Hmap & Hr). apply dbind_Ok in Hr as ([] & s3 & [Hwm Hd3]%on_top_Ok & Hr).
    apply dbind_Ok in Hr as (dir & s4 & [-> Hdir]%lift_d_Ok & Hr).
    apply dbind_Ok in Hr as (planned & s5 & Hplan & Hr).
    apply dbind_Ok in Hr as (files & s6 & [-> Hf]%lift_d_Ok & Hr).
    apply dbind_Ok in Hr as (t & s7 & Hc & Hr). apply dbind_Ok in Hr as ([] & s8 & [Hwr Hd8]%on_top_Ok & Hr).
    injection Hr as <- <-. cbn [contained containment_blocked verified held errors].
    apply (run_classes_Ok _ _ _ _ _ []) in Hc as (log & Hlf & Hlog & Hcons & Ht).
    assert (s2 = s1 ∧ map_surface target s = (s, Ok surface)) as [-> Hmap'].
    { revert Hmap. unfold map_surface. rewrite E2. destruct (trees (top s) !! target); [|done].
      by intros [= <- ->]. }
    pose proof (still_Ok _ _ _ _ Hwm (still_surface_map _ _)) as [E3 E4].
    pose proof (still_Ok _ _ _ _ Hwr (still_write _ _)) as [E5 E6].
    split_and!; [done..|by destruct waive, (gh_live_oci host); auto|].
    exists surface, dir, planned, files, log, s3, s5, s7.
    split_and!; try done; [congruence..| |by destruct t].
    by destruct class_campaign_dir; [injection Hdir as <-|].
Qed.

(** A gate that cannot show containment, and was not told to waive it, runs
    nothing: no process is started, no campaign directory and no source tree is
    touched, nothing is reported verified or held, and the gate does not pass. *)
Theorem blocked_gate_runs_nothing target work pack s s' r :
  run_release_gate target work pack false s = (s', Ok r) → gh_live_oci host = false →
  containment_blocked r = true ∧ gate_passes (Ok r) = false ∧ verified r = [] ∧ held r = [] ∧
  runs (top s') = runs (top s) ∧ trees (top s') = trees (top s) ∧ dirs s' = dirs s.
Proof.
  intros Hr Hlive.
  apply run_release_gate_Ok in Hr as [(Hb & _ & _ & ? & ? & _ & _ & ? & ? & ?)|(_ & _ & [?|?] & _)]; [|congruence..].
  unfold gate_passes. rewrite Hb. by split_and!.
Qed.

(** The runs of a gate that verified a finding. *)
Context `{!UuidLaws U, !Store.JsonTextLaws LedgerEntry, !Store.JsonTextLaws Certificate.EvidenceCertificate}.

Lemma class_verified work target waive surface c :
  class_run (CampaignEngine_new waive) work target surface c → was_verified c = true →
  let spec := bound_spec env (cr_spec c) target (cr_before c) in
  ∃ campaign plan, plan ∈ attack_plans spec ∧
    observed (cr_before c) spec (negb waive) target campaign AttackSucceeded (cr_after c) plan.
Proof.
  intros (_ & (cid & tid & Hm) & Hrun) Hv. unfold was_verified in Hv.
  destruct (cr_result c) as [out|e]; [|done]. unfold finding_is_verified in Hv.
  destruct (out_finding out) as [fnd|] eqn:Hf; [|done]. cbn in Hv.
  destruct (run_verdict _ _ _ _ _ _ _ _ _ _ _ _ _ Hrun Hf) as (campaign & _ & _ & Hx & _).
  destruct (Hx Hv) as (_ & _ & plan & Hp & Ho). rewrite Hm, contained_gate in Ho. by exists campaign, plan.
Qed.

(** C10: a gate that finished and was not blocked accounts for every class file it
    selected, from the plan it made of the target's surface: each was loaded,
    validated, given the suggested values and run in its own directory under the
    default manifest, one after the other, each on the site the one before left, and
    appears exactly once, as verified, held or an error; a class reported verified was
    attacked by one of its declared generators, on the target, contained unless
    waived, with an output its oracle judged a success and the run's ledger recorded;
    and the gate passes exactly if no class was verified, so errors alone do not make
    it fail. *)
Theorem gate_accounts_for_every_class target work pack waive s s' r :
  run_release_gate target work pack waive s = (s', Ok r) → containment_blocked r = false →
  ∃ surface dir planned files log s1 s2 s3,
    trees (top s1) = trees (top s) ∧ runs (top s1) = runs (top s) ∧ dirs s1 = dirs s ∧
    map_surface target s = (s, Ok surface) ∧
    class_campaign_dir = Some dir ∧ plan_classes work target pack surface s1 = (s2, Ok planned) ∧
    class_files dir pack planned = Ok files ∧ cr_file <$> log = files ∧
    Forall (class_run (CampaignEngine_new waive) work target surface) log ∧
    consecutive target log s2 s3 ∧
    dirs s' = dirs s3 ∧ runs (top s') = runs (top s3) ∧ trees (top s') = trees (top s3) ∧
    verified r = cr_id <$> List.filter was_verified log ∧ held r = cr_id <$> List.filter was_held log ∧
    errors r = omap error_line log ∧
    length (verified r) + length (held r) + length (errors r) = length files ∧
    (∀ c, c ∈ log → was_verified c = true →
       let spec := bound_spec env (cr_spec c) target (cr_before c) in
       ∃ campaign plan, plan ∈ attack_plans spec ∧
         observed (cr_before c) spec (negb waive) target campaign AttackSucceeded (cr_after c) plan) ∧
    (gate_passes (Ok r) = true ↔ Forall (λ c, was_verified c = false) log).
Proof.
  intros Hr Hb. apply run_release_gate_Ok in Hr as [(? & _)|(_ & _ & _ & surface & dir & planned & files & log & s1 &
    s2 & s3 & Ht1 & Hr1 & Hd1 & Hmap & Hdir & Hplan & Hfiles & Hlf & Hlog & Hcons & Hds & Hrs & Hts & Ht)]; [congruence|].
  exists surface, dir, planned, files, log, s1, s2, s3. injection Ht as Hv Hh He.
  assert (Hlen : length log = length files) by (by rewrite <- Hlf, length_fmap).
  split_and!; try done.
  - rewrite Hv, Hh, He, <- Hlen. apply tally_length.
  - intros c Hc Hvc. rewrite Forall_forall in Hlog. eapply class_verified; [by apply Hlog|done].
  - unfold gate_passes. rewrite Hb, Hv. cbn [orb]. rewrite negb_involutive, bool_decide_eq_true.
    clear. induction log as [|c log IH]; cbn; [by split|].
    rewrite Forall_cons. destruct (was_verified c); cbn; [|by rewrite IH; naive_solver].
    split; [done|]. by intros [? _].
Qed.

End Drivers.

End Gate.
