(* ===== verification/Drivers.v ===== *)
(** * The crew and the evaluation pack (crate [aros-core], [crew.rs],
      [eval_pack.rs] and [write_eval_miss_card] of [campaign_loader.rs])

    Both drive declared campaigns over a site, as the release gate does. The crew
    maps, plans and runs the gate; the evaluation pack runs one campaign per case
    of a manifest and scores what its oracle said against what the case expects.
    The theorems say what a score rests on, that a failing case never stops the
    pack, and that a missed case is remembered by the planner. *)

From S2P Require Import Prelude RustStr Net Json Types Policy Ledger Cas Store Ipc.
From S2P Require Import Graph Spec Snapshot Declared Engine Certificate World Campaign.
From S2P Require Import RunLaws Surface Planner Pddl EndToEnd Gate.
Import Ledger Spec Snapshot Declared Engine World Gate.

Module Drivers.

(** ** Data of the evaluation pack *)

(** [src crates/aros-core/src/eval_pack.rs 15-21 EvalCase] *)
Record EvalCase := mkEvalCase {
  case_id : string;
  case_target : string;
  case_campaign : string;
  case_expect : string;
}.

(** [src crates/aros-core/src/eval_pack.rs 23-29 EvalManifest] *)
Record EvalManifest := mkEvalManifest {
  scoring : string;
  note : string;
  cases : list EvalCase;
}.

(** [src crates/aros-core/src/eval_pack.rs 31-38 EvalCaseResult] *)
Record EvalCaseResult := mkEvalCaseResult {
  row_id : string;
  row_expect : string;
  row_observed : string;
  row_hit : bool;
  row_error : option string;
}.

(** [src crates/aros-core/src/eval_pack.rs 40-48 EvalReport] *)
Record EvalReport := mkEvalReport {
  report_scoring : string;
  hits : nat;
  total : nat;
  report_blocked : bool;
  missed_known : list string;
  results : list EvalCaseResult;
}.

(** [src crates/aros-core/src/crew.rs 21-27 CrewReport] *)
Record CrewReport := mkCrewReport {
  roles : list string;
  crew_plan : list string;
  crew_surface : Surface.SurfaceMap;
  crew_gate : GateResult;
}.

(** ** Missed cases *)

(** [OpenOptions::append]; a failed write leaves part of the bytes. *)
Definition append_work (env : Env) (path : list string) (bytes : string) : M unit :=
  n ← tick;
  prim (λ w,
    let old := default "" (Certificate.files (World.work w) !! path) in
    match env_write_fault env n with
    | Some partial => (set_work w (Certificate.write_file (World.work w) path (old +:+ partial)), Err EeIo)
    | None => (set_work w (Certificate.write_file (World.work w) path (old +:+ bytes)), Ok ())
    end).

(** The object of [json!], its keys in order.
    [src crates/aros-core/src/campaign_loader.rs 1090-1095 write_eval_miss_card] *)
Definition miss_card (case_id campaign observed : string) : Value :=
  JObject [("campaign", JString campaign);
           ("case", JString case_id);
           ("category", JString "EXPERIMENT_INADEQUATE");
           ("detail", JString ("known PoC case missed: expect verified observed " +:+ observed))].

(** ** Lines of printable text *)

Definition printable (c : ascii) : bool := (32 <=? byte_val c)%N && (byte_val c <? 128)%N.
Definition printable_text (s : string) : Prop := all_bytes printable s = true.

(** The strings of a value, its keys included. *)
Fixpoint value_printable (v : Value) : bool :=
  match v with
  | JString s => all_bytes printable s
  | JArray vs => forallb value_printable vs
  | JObject fs => forallb (λ '(k, v), all_bytes printable k && value_printable v) fs
  | _ => true
  end.

(** [serde_json] escapes control characters and adds none: a value of printable
    ASCII strings is printed as printable ASCII, on one line. *)
Class JsonLineLaws (J : JsonLib) : Prop := {
  json_printable : ∀ v, value_printable v = true → printable_text (json_to_vec v);
}.

Lemma printable_no_newline l : printable_text l → contains_byte newline l = false.
Proof. intros Hl. by eapply all_bytes_contains. Qed.

Lemma strip_suffix_absent c l : contains_byte c l = false → strip_suffix_byte c l = None.
Proof.
  induction l as [|a l IH]; [done|]. cbn [contains_byte]. rewrite orb_false_iff. intros [Ha Hl].
  cbn [strip_suffix_byte]. destruct l as [|b l]; [|by rewrite IH].
  by rewrite Ha.
Qed.

Lemma lines_cons l t : printable_text l → lines (l +:+ String newline t) = l :: lines t.
Proof.
  intros Hl. unfold lines. rewrite split_char_app by (by apply printable_no_newline).
  assert (∃ p ps, split_char newline t = p :: ps) as (p & ps & ->).
  { unfold split_char. induction t as [|a t (p & ps & E)]; cbn [split_by]; [by eexists _, _|].
    rewrite E. destruct (Ascii.eqb newline a); by eexists _, _. }
  cbn [lines_of]. rewrite strip_suffix_absent; [done|]. by eapply all_bytes_contains.
Qed.

Lemma text_lines_cons l ls : Pddl.text_lines (l :: ls) = l +:+ String newline (Pddl.text_lines ls).
Proof. unfold Pddl.text_lines. cbn. by rewrite sapp_assoc. Qed.

(** Writing lines and reading them back. *)
Lemma lines_text_lines ls : Forall printable_text ls → lines (Pddl.text_lines ls) = ls.
Proof. induction 1 as [|l ls Hl _ IH]; [done|]. by rewrite text_lines_cons, lines_cons, IH. Qed.

Lemma text_lines_snoc ls l : Pddl.text_lines (ls ++ [l]) = Pddl.text_lines ls +:+ l +:+ Pddl.nl.
Proof.
  induction ls as [|x ls IH]; [cbn; by rewrite sapp_nil_r|].
  cbn [app]. rewrite !text_lines_cons, IH, sapp_assoc. done.
Qed.

Lemma text_lines_ascii ls : Forall printable_text ls → is_ascii (Pddl.text_lines ls) = true.
Proof.
  induction 1 as [|l ls Hl _ IH]; [done|]. rewrite text_lines_cons. unfold is_ascii in *.
  rewrite all_bytes_app, andb_true_iff. split; [|exact IH].
  eapply all_bytes_impl; [|exact Hl]. unfold printable. intros c. by rewrite andb_true_iff; intros [].
Qed.

Lemma ascii_is_utf8 t : is_ascii t = true → Ipc.is_utf8 t = true.
Proof.
  intros Ht. unfold Ipc.is_utf8. rewrite (decode_ascii _ Ht). unfold is_ascii in Ht.
  induction t as [|a t IH]; [done|]. cbn [all_bytes] in Ht. apply andb_true_iff in Ht as [Ha Ht].
  cbn [String.list_ascii_of_string fmap list_fmap forallb fst]. apply N.ltb_lt in Ha.
  rewrite !andb_true_iff, orb_true_iff, !negb_true_iff, N.eqb_neq, andb_false_iff, !N.leb_gt, N.leb_le.
  split_and!; [left; lia|left; lia|lia|exact (IH Ht)].
Qed.

Section Cards.
Context `{J : JsonLib}.

(** [src crates/aros-core/src/campaign_loader.rs 1090-1097 write_eval_miss_card] *)
Definition miss_line (case_id campaign observed : string) : string :=
  json_to_vec (miss_card case_id campaign observed) +:+ Pddl.nl.

(** [src crates/aros-core/src/campaign_loader.rs 1082-1103 write_eval_miss_card] *)
Definition write_eval_miss_card (env : Env) (case_id campaign observed : string) : M unit :=
  _ ← io env;
  append_work env ["failure-cards.jsonl"] (miss_line case_id campaign observed).

(** ** Cards and the planner *)

Context `{!JsonLaws J, !JsonLineLaws J, !Serialize FailureCategory, !Store.JsonText ResearchFailureCard}.

(** A missed case: its identifier, its campaign, what was observed. *)
Record Miss := mkMiss { miss_case : string; miss_campaign : string; miss_observed : string }.
Definition miss_ok (m : Miss) : Prop :=
  printable_text (miss_case m) ∧ printable_text (miss_campaign m) ∧ printable_text (miss_observed m) ∧
  is_empty (miss_campaign m) = false.
Definition write_misses (env : Env) (l : list Miss) : M unit :=
  fold_m (λ _ m, write_eval_miss_card env (miss_case m) (miss_campaign m) (miss_observed m)) () l.
Definition card_text (m : Miss) : string :=
  json_to_vec (miss_card (miss_case m) (miss_campaign m) (miss_observed m)).
Definition cards_file (w : World) : string :=
  default "" (Certificate.files (World.work w) !! ["failure-cards.jsonl"]).

Lemma card_printable m : miss_ok m → printable_text (card_text m).
Proof.
  intros (Hc & Ha & Ho & _). apply json_printable. unfold printable_text in *.
  cbn [value_printable miss_card forallb]. rewrite all_bytes_app, Hc, Ha, Ho. done.
Qed.

Lemma card_remembered m :
  miss_ok m →
  Pddl.memory_of_line (card_text m) =
    Some (Planner.mkFailureMemory (miss_campaign m) "EXPERIMENT_INADEQUATE").
Proof.
  intros (_ & _ & _ & He). unfold Pddl.memory_of_line, card_text.
  rewrite json_roundtrip; [|split; [|done]; repeat constructor; set_solver].
  cbn. by rewrite He.
Qed.

Lemma cards_remembered l :
  Forall miss_ok l → omap Pddl.memory_of_line (card_text <$> l) =
    (λ m, Planner.mkFailureMemory (miss_campaign m) "EXPERIMENT_INADEQUATE") <$> l.
Proof.
  induction 1 as [|m l Hm _ IH]; [done|]. cbn [fmap list_fmap omap list_omap].
  rewrite card_remembered by done. f_equal. exact IH.
Qed.

Lemma write_misses_Ok env l old w w' :
  write_misses env l w = (w', Ok ()) → cards_file w = Pddl.text_lines old →
  cards_file w' = Pddl.text_lines (old ++ (card_text <$> l)) ∧
  Certificate.database (World.work w') = Certificate.database (World.work w).
Proof.
  revert old w. induction l as [|m l IH]; intros old w; cbn [write_misses fold_m].
  { intros [= <-] ->. by rewrite app_nil_r. }
  intros ([] & w1 & Hw & Hr)%bind_run_Ok Hold.
  unfold write_eval_miss_card, append_work, io in Hw. apply bind_run_Ok in Hw as ([] & w2 & Hio & Hw).
  apply bind_run_Ok in Hio as (n & w3 & [= <- <-] & Hio).
  assert (World.work w2 = World.work w) as E2.
  { revert Hio. unfold fail. destruct (env_io_fault _ _); [done|]. by intros [= <-]. }
  apply bind_run_Ok in Hw as (n & w4 & [= <- <-] & Hw). unfold prim in Hw. cbn in Hw.
  destruct (env_write_fault _ _); [done|]. injection Hw as <-.
  apply (IH (old ++ [card_text m])) in Hr as [-> ->]; [|].
  - cbn. rewrite <- app_assoc, E2. done.
  - unfold cards_file in *. cbn. rewrite lookup_insert_eq, E2. cbn. rewrite Hold, text_lines_snoc. done.
Qed.

Lemma load_lines planner ls w :
  cards_file w = Pddl.text_lines ls → Forall printable_text ls →
  ∃ w1 rows, Pddl.load_failure_memory planner w = (w1, Ok (rows ++ omap Pddl.memory_of_line ls)).
Proof.
  intros Hf Hls. unfold Pddl.load_failure_memory, Pddl.read_work, mbind, M_bind, tick, get, cards_file in *. cbn.
  destruct (Certificate.files (World.work w) !! ["failure-cards.jsonl"]) as [text|] eqn:E; cbn in *.
  - subst text. rewrite ascii_is_utf8 by (by apply text_lines_ascii). rewrite lines_text_lines by done.
    by eexists _, _.
  - destruct ls as [|l ls]; [by eexists _, _|]. rewrite text_lines_cons in Hf. by destruct l.
Qed.

(** The cards the evaluation pack writes for missed cases are what the planner
    reads: after any sequence of cards was appended to a file of complete lines, the
    failure memory of the work directory holds, in order, what it held before and
    one inadequate experiment per card, and a replan runs the campaigns of the
    missed cases first, unless a tool gap was recorded for them. *)
Theorem miss_cards_remembered env planner l old w w' :
  write_misses env l w = (w', Ok ()) → cards_file w = Pddl.text_lines old →
  Forall printable_text old → Forall miss_ok l →
  ∃ w1 rows,
    let cards := rows ++ omap Pddl.memory_of_line old ++
      ((λ m, Planner.mkFailureMemory (miss_campaign m) "EXPERIMENT_INADEQUATE") <$> l) in
    Pddl.load_failure_memory planner w' = (w1, Ok cards) ∧
    ∀ plan m, m ∈ l → miss_campaign m ∈ plan →
      (Planner.mkFailureMemory (miss_campaign m) "TOOL_GAP" ∉ cards) →
      let r := Planner.apply_failure_memory plan cards in
      miss_campaign m ∈ Planner.promoted r ∧ Planner.promoted r `prefix_of` Planner.campaigns r.
Proof.
  intros Hw Hold Hp Hl. apply (write_misses_Ok _ _ old) in Hw as [Hw _]; [|done].
  apply (load_lines planner) in Hw as (w1 & rows & Hload).
  2: { apply Forall_app. split; [done|]. apply Forall_fmap. eapply Forall_impl; [done|]. apply card_printable. }
  rewrite omap_app, cards_remembered in Hload by done. exists w1, rows. split; [exact Hload|]. intros plan m Hm Hin Hgap. cbv zeta.
  destruct (Planner.apply_failure_memory_spec plan
    (rows ++ omap Pddl.memory_of_line old ++
     ((λ m, Planner.mkFailureMemory (miss_campaign m) "EXPERIMENT_INADEQUATE") <$> l)))
    as (Hsk & Hpr & _ & Hpre).
  split; [|exact Hpre]. apply Hpr. split_and!; [done|rewrite Hsk; naive_solver|].
  rewrite !elem_of_app, list_elem_of_fmap. eauto.
Qed.

End Cards.

Lemma filter_all {A} (f : A → bool) l : length (List.filter f l) = length l ↔ Forall (λ x, f x = true) l.
Proof.
  induction l as [|x l IH]; cbn; [by split|]. pose proof (List.filter_length_le f l).
  rewrite Forall_cons. destruct (f x) eqn:E; cbn; [|by split; [lia|intros [? _]; congruence]].
  rewrite <- IH. split; [split; [done|lia]|intros [_ ?]; lia].
Qed.

Section Driving.
Context `{I : IpNetLib, U : UuidLib, J : JsonLib, Hl : HashLib, !Serialize EventRecord,
  !Serialize AuthorizationManifest, !Serialize FailureCategory,
  !Store.JsonText Campaign, !Store.JsonText LedgerEntry, !Store.JsonText GraphNode,
  !Store.JsonText GraphEdge, !Store.JsonText ResearchFailureCard,
  !Store.JsonText Certificate.EvidenceCertificate, !Store.JsonText CampaignSpec,
  !Store.JsonText Surface.SurfaceMap, !Store.JsonText EvalManifest, G : Graph.DiGraph}.
Variable ledger_error_display : LedgerError → string.
Variable engine_error_display : EngineError → string.
Variable env : Env.
Variable host : GateHost.
Variable regression_py : string.
Variable json_pretty : Value → string.
Variable json_error : string.
Variable str_debug : string → string.
Variable fuel : nat.

#[local] Abbreviation run_declared work_root :=
  (Campaign.run_declared_campaign ledger_error_display env work_root regression_py json_pretty).
#[local] Abbreviation load := (load_campaign_file host json_error str_debug).
#[local] Abbreviation gate :=
  (run_release_gate ledger_error_display engine_error_display env host regression_py json_pretty
     json_error str_debug fuel).

(** ** The crew *)

(** [src crates/aros-core/src/crew.rs 29-50 run_deterministic_crew] *)
Definition run_deterministic_crew (target work pack : string) (waive : bool) : D CrewReport :=
  surface ← map_surface host target;
  _ ← on_top (write_surface_map env ["surface.json"] surface);
  plan ← plan_classes env host json_pretty fuel work target pack surface;
  g ← gate target work pack waive;
  mret (mkCrewReport ["mapper"; "planner"; "runner"; "shrinker"; "scribe"] plan surface g).

(** Whether [aros campaign crew] exits with success.
    [src crates/aros-cli/src/main.rs 556-582 run_crew] *)
Definition crew_passes (r : result Stop CrewReport) : bool :=
  match r with
  | Ok r => negb (containment_blocked (crew_gate r) || negb (bool_decide (verified (crew_gate r) = [])))
  | Err _ => false
  end.

(** ** The evaluation pack *)

Definition cases_file : string := "evaluation/poc-or-nothing/cases.json".

(** [PathBuf::pop] on an absolute path. *)
Definition pop (dir : string) : string :=
  match rsplit_once "/" dir with
  | Some (parent, _) => if is_empty parent then "/" else parent
  | None => dir
  end.
Fixpoint pops (n : nat) (dir : string) : list string :=
  match n with
  | 0 => []
  | Datatypes.S n => dir :: pops n (pop dir)
  end.

(** [src crates/aros-core/src/eval_pack.rs 50-67 repo_root] *)
Definition repo_root : option string :=
  let has_cases dir := gh_is_file host (Gate.below dir cases_file) in
  match List.find has_cases (pops 5 (gh_crate host)) with
  | Some dir => Some dir
  | None => cwd ← gh_cwd host; List.find has_cases (upward (reverse cwd))
  end.

(** [src crates/aros-core/src/eval_pack.rs 69-72 load_eval_manifest] *)
Definition load_eval_manifest (path : string) : result EngineError EvalManifest :=
  raw ← ok_or (gh_read host path) EeIo;
  ok_or (Store.from_text raw) EeJson.

(** [src crates/aros-core/src/eval_pack.rs 74-87 python_bin] *)
Definition python_bin : string :=
  match List.find (gh_python host) ["python"; "python3"] with
  | Some candidate => candidate
  | None => "python"
  end.

(** [src crates/aros-core/src/eval_pack.rs 89-97 rewrite_python] *)
Definition rewrite_python (command : string) : string :=
  match strip_prefix "python " command with
  | Some rest => python_bin +:+ " " +:+ rest
  | None =>
    match strip_prefix "python3 " command with
    | Some rest => python_bin +:+ " " +:+ rest
    | None => command
    end
  end.

(** [spec.generator.command = rewrite_python(&spec.generator.command)] *)
Definition with_python (s : CampaignSpec) : CampaignSpec :=
  let g := generator s in
  mkCampaignSpec (spec_id s) (schema_version s) (Spec.target s) (security_class s) (historical_pattern s)
    (surface s) (invariant s) (attacker_capabilities s) (prerequisites s) (resource_limits s)
    (assigned_roles s)
    (mkCampaignGenerator (Spec.kind g) (rewrite_python (command g)) (corpus g) (harness g) (bind g))
    (oracle s) (expected_outcome s) (required_evidence s) (severity_rationale s) (surfaces s)
    (structural_control s).

Definition case_file (class_dir : string) (c : EvalCase) : string :=
  Cas.path_join class_dir (case_campaign c +:+ ".campaign.json").

(** The campaign of one case, in the directory of the case. Case identifiers are
    taken to name different subdirectories of the work directory.
    [src crates/aros-core/src/eval_pack.rs 128-139 run_poc_eval_pack] *)
Definition run_case (engine : CampaignEngine) (root class_dir work : string) (c : EvalCase) :
    D (result EngineError CampaignOutcome) :=
  match load (case_file class_dir c) with
  | Err e => mret (Err e)
  | Ok spec =>
    let target := Cas.path_join root (case_target c) in
    manifest ← on_top (default_declared_manifest env target);
    in_dir (case_id c)
      (run_declared (Cas.path_join work (case_id c)) engine (with_python spec) target manifest)
  end.

(** [src crates/aros-core/src/eval_pack.rs 140-192 run_poc_eval_pack] *)
Definition score (c : EvalCase) (r : result EngineError CampaignOutcome) : EvalCaseResult :=
  match r with
  | Ok out =>
    let observed := if finding_is_verified out then "verified" else "held" in
    mkEvalCaseResult (case_id c) (case_expect c) observed (String.eqb observed (case_expect c)) None
  | Err e =>
    mkEvalCaseResult (case_id c) (case_expect c) "error" false (Some (engine_error_display e))
  end.

(** A case that was expected to be verified and was not. *)
Definition missed (row : EvalCaseResult) : bool :=
  negb (row_hit row) && String.eqb (row_expect row) "verified".

(** The variables of the loop. *)
Record Scores := mkScores { s_hits : nat; s_missed : list string; s_results : list EvalCaseResult }.

(** [src crates/aros-core/src/eval_pack.rs 148-192 run_poc_eval_pack] *)
Definition add_row (row : EvalCaseResult) (t : Scores) : Scores :=
  mkScores (if row_hit row then Datatypes.S (s_hits t) else s_hits t)
    (if missed row then s_missed t ++ [row_id row] else s_missed t) (s_results t ++ [row]).

(** [src crates/aros-core/src/eval_pack.rs 127-193 run_poc_eval_pack] *)
Fixpoint run_cases (engine : CampaignEngine) (root class_dir work : string) (l : list EvalCase) (t : Scores) :
    D Scores :=
  match l with
  | [] => mret t
  | c :: l =>
    r ← run_case engine root class_dir work c;
    let row := score c r in
    _ ← (if missed row
         then on_top (_ ← try_ (write_eval_miss_card env (case_id c) (case_campaign c) (row_observed row));
                      mret ())
         else mret ());
    run_cases engine root class_dir work l (add_row row t)
  end.

Definition blocked_report : EvalReport := mkEvalReport "poc-or-nothing" 0 0 true [] [].

(** [src crates/aros-core/src/eval_pack.rs 99-202 run_poc_eval_pack] *)
Definition run_poc_eval_pack (work : string) (waive : bool) : D EvalReport :=
  _ ← on_top (io env);
  if negb waive && negb (gh_live_oci host) then mret blocked_report
  else
    root ← lift_d (ok_or repo_root (EeFailClosed "evaluation/poc-or-nothing/cases.json not found"));
    manifest ← lift_d (load_eval_manifest (Gate.below root cases_file));
    class_dir ← lift_d (ok_or (class_campaign_dir host)
                          (EeFailClosed "campaign-loader/classes is not available"));
    t ← run_cases (CampaignEngine_new waive) root class_dir work (cases manifest) (mkScores 0 [] []);
    mret (mkEvalReport (scoring manifest) (s_hits t) (length (cases manifest)) false (s_missed t) (s_results t)).

(** Whether [aros benchmark poc] exits with success.
    [src crates/aros-cli/src/main.rs 584-599 run_poc] *)
Definition poc_passes (r : result Stop EvalReport) : bool :=
  match r with
  | Ok r => negb (report_blocked r || negb (Nat.eqb (hits r) (total r)))
  | Err _ => false
  end.

(** ** The cases of a pack *)

(** One turn of the loop: the case, the world its campaign started and ended in,
    and the result. *)
Record CaseRun := mkCaseRun {
  cr_case : EvalCase;
  cr_start : World;
  cr_end : World;
  cr_outcome : result EngineError CampaignOutcome;
}.
Definition cr_target (root : string) (c : CaseRun) : string := Cas.path_join root (case_target (cr_case c)).
Definition cr_row (c : CaseRun) : EvalCaseResult := score (cr_case c) (cr_outcome c).

Definition case_run (engine : CampaignEngine) (root class_dir work : string) (c : CaseRun) : Prop :=
  match load (case_file class_dir (cr_case c)) with
  | Err e => cr_outcome c = Err e
  | Ok spec => ∃ cid tid,
    run_declared (Cas.path_join work (case_id (cr_case c))) engine (with_python spec) (cr_target root c)
      (default_deny_local cid tid (cr_target root c)) (cr_start c) = (cr_end c, cr_outcome c)
  end.

Lemma manifest_total target w :
  ∃ w' cid tid, default_declared_manifest env target w = (w', Ok (default_deny_local cid tid target)) ∧
    trees w' = trees w ∧ runs w' = runs w.
Proof. by eexists _, _, _. Qed.

Lemma run_case_Ok engine root class_dir work c s :
  ∃ s' cr, run_case engine root class_dir work c s = (s', Ok (cr_outcome cr)) ∧ cr_case cr = c ∧
    case_run engine root class_dir work cr.
Proof.
  unfold run_case, case_run. destruct (load (case_file class_dir c)) as [spec|e] eqn:E.
  2: { exists s, (mkCaseRun c (top s) (top s) (Err e)). cbn. by rewrite E. }
  unfold mbind, D_bind, on_top.
  destruct (manifest_total (Cas.path_join root (case_target c)) (top s)) as (w1 & cid & tid & -> & _). cbn [map_err].
  unfold in_dir. destruct (run_declared _ _ _ _ _ _) as [w2 r] eqn:Er.
  eexists _, (mkCaseRun c _ w2 r). split; [done|]. split; [done|]. cbn [cr_case]. rewrite E.
  exists cid, tid. exact Er.
Qed.

Definition scores_of (rows : list EvalCaseResult) : Scores :=
  mkScores (length (List.filter row_hit rows)) (row_id <$> List.filter missed rows) rows.

Lemma add_row_snoc rows row : add_row row (scores_of rows) = scores_of (rows ++ [row]).
Proof.
  unfold add_row, scores_of. rewrite !List.filter_app, length_app, fmap_app. cbn.
  destruct (row_hit row), (missed row); cbn; f_equal; by rewrite ?app_nil_r; try lia.
Qed.

(** No case stops the loop. *)
Lemma run_cases_Ok engine root class_dir work l rows s :
  ∃ s' log, run_cases engine root class_dir work l (scores_of rows) s =
      (s', Ok (scores_of (rows ++ (cr_row <$> log)))) ∧
    cr_case <$> log = l ∧ Forall (case_run engine root class_dir work) log.
Proof.
  revert rows s. induction l as [|c l IH]; intros rows s.
  { exists s, []. cbn. by rewrite app_nil_r. }
  cbn [run_cases]. destruct (run_case_Ok engine root class_dir work c s) as (s1 & cr & Hr & Hc & Hrun).
  rewrite (dbind_step _ _ _ _ _ Hr). cbv zeta.
  set (row := score c (cr_outcome cr)).
  assert (∃ s2, (if missed row
    then on_top (_ ← try_ (write_eval_miss_card env (case_id c) (case_campaign c) (row_observed row)); mret ())
    else mret ()) s1 = (s2, Ok ())) as (s2 & Hcard).
  { destruct (missed row); [|by eexists]. unfold on_top, mbind, M_bind, try_.
    destruct (write_eval_miss_card _ _ _ _ _). by eexists. }
  rewrite (dbind_step _ _ _ _ _ Hcard), add_row_snoc.
  destruct (IH (rows ++ [row]) s2) as (s' & log & -> & <- & Hlog).
  exists s', (cr :: log). cbn. rewrite <- app_assoc, Hc. split_and!; [|done|by constructor].
  subst row. unfold cr_row at 2. by rewrite Hc.
Qed.

(** ** What a pack reports *)

(** The evaluation pack stops with an error only before its first case: if the
    work directory cannot be made, the repository, its manifest of cases or the
    class campaigns cannot be found or read. A campaign file that does not load and
    a campaign that fails are rows of the report. *)
Theorem eval_pack_finishes work waive s s' e :
  run_poc_eval_pack work waive s = (s', Err e) →
  e = Halted EeIo ∨ repo_root = None ∨ class_campaign_dir host = None ∨
  ∃ root e', repo_root = Some root ∧ load_eval_manifest (Gate.below root cases_file) = Err e'.
Proof.
  unfold run_poc_eval_pack. intros [(e' & [= <-] & Hio)|([] & s1 & _ & Hr)]%dbind_run.
  { left. revert Hio. unfold on_top, io, mbind, M_bind, tick, fail. cbn.
    destruct (env_io_fault _ _); cbn; by intros [= _ <-]. }
  destruct (negb waive && _); [done|].
  apply dbind_run in Hr as [(? & _ & Hr)|(root & s2 & Hroot & Hr)].
  { right; left. by destruct repo_root. }
  apply lift_d_Ok in Hroot as [-> Hroot].
  assert (repo_root = Some root) as Hro by (by destruct repo_root; [injection Hroot as <-|]).
  apply dbind_run in Hr as [(? & _ & Hr)|(manifest & s3 & _ & Hr)].
  { do 3 right. exists root. destruct (load_eval_manifest _) as [|e'] eqn:E; [done|]. by exists e'. }
  apply dbind_run in Hr as [(? & _ & Hr)|(dir & s4 & _ & Hr)].
  { do 2 right; left. by destruct (class_campaign_dir host). }
  exfalso. unfold mbind, D_bind in Hr.
  destruct (run_cases_Ok (CampaignEngine_new waive) root dir work (cases manifest) [] s4)
    as (s5 & log & E & _). unfold scores_of in E at 1. cbn in E. rewrite E in Hr. done.
Qed.

Context `{!UuidLaws U, !Store.JsonTextLaws LedgerEntry, !Store.JsonTextLaws Certificate.EvidenceCertificate}.

(** A case observed as verified. *)
Lemma case_verified waive root class_dir work c :
  case_run (CampaignEngine_new waive) root class_dir work c → row_observed (cr_row c) = "verified" →
  ∃ loaded campaign plan, load (case_file class_dir (cr_case c)) = Ok loaded ∧
    let spec := bound_spec env (with_python loaded) (cr_target root c) (cr_start c) in
    plan ∈ attack_plans spec ∧
    observed (cr_start c) spec (negb waive) (cr_target root c) campaign AttackSucceeded (cr_end c) plan.
Proof.
  unfold case_run, cr_row, score. intros Hrun Hobs.
  destruct (cr_outcome c) as [out|e] eqn:Ho; [|done]. cbn in Hobs.
  destruct (load _) as [spec|e]; [|done]. destruct Hrun as (cid & tid & Hrun).
  unfold finding_is_verified in Hobs. destruct (out_finding out) as [fnd|] eqn:Hf; [|done]. cbn in Hobs.
  destruct (finding_verified fnd) eqn:Hv; [|done].
  destruct (run_verdict _ _ _ _ _ _ _ _ _ _ _ _ _ Hrun Hf) as (campaign & _ & _ & Hx & _).
  destruct (Hx Hv) as (_ & _ & plan & Hp & Hob). rewrite contained_gate in Hob.
  exists spec, campaign, plan. by split_and!.
Qed.

(** A finished evaluation pack has one row per case of its manifest, in order;
    its hits are the rows whose observation is the expected one, its missed cases
    those expected to be verified without a hit, and it passes exactly if every row
    is a hit. A hit is an oracle's match: where the case expects a verified finding,
    one of the declared generators was run on the case's target with an output that
    its oracle judged a success and the run's ledger recorded; a campaign that
    failed or did not load is never a hit. A pack that cannot show containment and
    was not told to waive it has no points and does not pass. *)
Theorem eval_points_are_oracle_matches work waive s s' r :
  run_poc_eval_pack work waive s = (s', Ok r) →
  (report_blocked r = true ∧ waive = false ∧ gh_live_oci host = false ∧ hits r = 0 ∧
   results r = [] ∧ poc_passes (Ok r) = false ∧ runs (top s') = runs (top s) ∧ dirs s' = dirs s) ∨
  ∃ root dir manifest log,
    report_blocked r = false ∧ repo_root = Some root ∧ class_campaign_dir host = Some dir ∧
    load_eval_manifest (Gate.below root cases_file) = Ok manifest ∧ cr_case <$> log = cases manifest ∧
    Forall (case_run (CampaignEngine_new waive) root dir work) log ∧ results r = cr_row <$> log ∧
    total r = length (results r) ∧ hits r = length (List.filter row_hit (results r)) ∧
    missed_known r = row_id <$> List.filter missed (results r) ∧
    (poc_passes (Ok r) = true ↔ Forall (λ row, row_hit row = true) (results r)) ∧
    (∀ c, c ∈ log → row_hit (cr_row c) = true →
       row_observed (cr_row c) = case_expect (cr_case c) ∧ (∃ out, cr_outcome c = Ok out) ∧
       (case_expect (cr_case c) = "verified" →
          ∃ loaded campaign plan, load (case_file dir (cr_case c)) = Ok loaded ∧
            let spec := bound_spec env (with_python loaded) (cr_target root c) (cr_start c) in
            plan ∈ attack_plans spec ∧
            observed (cr_start c) spec (negb waive) (cr_target root c) campaign AttackSucceeded (cr_end c)
              plan)).
Proof.
  unfold run_poc_eval_pack. intros ([] & s1 & [Hio Hd]%on_top_Ok & Hr)%dbind_Ok.
  destruct (negb waive && negb (gh_live_oci host)) eqn:Hb.
  - left. apply andb_true_iff in Hb as [Hw%negb_true_iff Hlive%negb_true_iff]. injection Hr as <- <-. cbn.
    split_and!; try done. revert Hio. unfold io, mbind, M_bind, tick, fail. cbn.
    destruct (env_io_fault _ _); [done|]. by intros [= <-].
  - right. apply dbind_Ok in Hr as (root & s2 & [-> Hroot]%lift_d_Ok & Hr).
    apply dbind_Ok in Hr as (manifest & s3 & [-> Hman]%lift_d_Ok & Hr).
    apply dbind_Ok in Hr as (dir & s4 & [-> Hdir]%lift_d_Ok & Hr).
    destruct (run_cases_Ok (CampaignEngine_new waive) root dir work (cases manifest) [] s1)
      as (s5 & log & E & Hcases & Hlog). unfold scores_of in E at 1. cbn in E.
    unfold mbind, D_bind in Hr. rewrite E in Hr. injection Hr as <- <-. cbn.
    exists root, dir, manifest, log. rewrite length_fmap.
    assert (Hlen : length (cases manifest) = length log) by (by rewrite <- Hcases, length_fmap).
    split_and!; try done.
    + by destruct repo_root; [injection Hroot as <-|].
    + by destruct (class_campaign_dir host); [injection Hdir as <-|].
    + rewrite negb_involutive, Nat.eqb_eq, Hlen, <- (length_fmap cr_row log). apply filter_all.
    + intros c Hc Hhit. rewrite Forall_forall in Hlog. specialize (Hlog c Hc).
      assert (row_observed (cr_row c) = case_expect (cr_case c) ∧ ∃ out, cr_outcome c = Ok out) as [Ho Hx].
      { revert Hhit. unfold cr_row, score. destruct (cr_outcome c) as [out|e]; [|done]. cbn.
        rewrite String.eqb_eq. eauto. }
      split_and!; [done..|]. intros Hv. eapply case_verified; [done|congruence].
Qed.

(** ** What a crew does *)

(** A crew starts only what the gate may start, and its verdict is the gate's:
    the gate ran last, in the crew's work directory with the crew's waiver, on
    campaign directories nobody touched before, its result is the one reported, and
    the crew passes exactly if the gate does. *)
Theorem crew_decides_as_gate target work pack waive s s' r :
  run_deterministic_crew target work pack waive s = (s', r) →
  started (gate_process env host json_error str_debug work target waive) (top s) (top s') ∧
  ∀ report, r = Ok report →
    ∃ s1, gate target work pack waive s1 = (s', Ok (crew_gate report)) ∧ dirs s1 = dirs s ∧
      crew_passes r = gate_passes (Ok (crew_gate report)).
Proof.
  intros Hr. split.
  - assert (Hs : starts (gate_process env host json_error str_debug work target waive)
      (run_deterministic_crew target work pack waive)); [|specialize (Hs s); by rewrite Hr in Hs].
    unfold run_deterministic_crew.
    apply starts_bind; [intros s0; unfold map_surface; by destruct (trees (top s0) !! target)|intros surface].
    apply starts_bind; [apply starts_on_top, started_surface_map|intros _].
    apply starts_bind; [apply starts_plan|intros plan].
    apply starts_bind; [apply starts_gate|intros g; apply starts_ret].
  - intros report ->. unfold run_deterministic_crew in Hr.
    apply dbind_Ok in Hr as (surface & s1 & Hmap & Hr). apply dbind_Ok in Hr as ([] & s2 & [_ Htop]%on_top_Ok & Hr).
    apply dbind_Ok in Hr as (plan & s3 & Hplan & Hr). apply dbind_Ok in Hr as (g & s4 & Hg & Hr).
    injection Hr as <- <-. exists s3. split_and!; [done| |done].
    apply plan_classes_dirs in Hplan. assert (s1 = s) as ->; [|congruence].
    revert Hmap. unfold map_surface. destruct (trees (top s) !! target); [|done]. by intros [= <- _].
Qed.

End Driving.

End Drivers.
