(* ===== verification/Service.v ===== *)
(** * The fixture-campaign service (crate [aros-api], [campaign.rs] and
      [fixture_campaign] of [main.rs])

    The daemon runs a fixture campaign on request: it starts the target, in a
    container or, under an explicit waiver, on the host, runs the engine against it
    and stops it again. The state joins the state of the engine's run with the
    commands given to the container runtime and the servers started on the host. *)

From S2P Require Import Prelude RustStr Net Json Types Policy Ledger Cas Authority Store HttpLab.
From S2P Require Import Ipc Broker Lab Graph Snapshot Verifier Sandbox CampaignOci Remains Engine Certificate Daemon Serving.
From S2P Require Import World Fixture FixtureLaws FixtureServers.
Import Ledger Engine Fixture.

Module Service.

(** [src crates/aros-api/src/campaign.rs 17-23 FixtureKindParam] *)
Inductive FixtureKindParam := PAuthz | PPath | PDeceptive.

(** [src crates/aros-api/src/campaign.rs 25-33 FixtureKind::from] *)
Definition kind_from (value : FixtureKindParam) : FixtureKind :=
  match value with PAuthz => Authz | PPath => Path | PDeceptive => Deceptive end.

(** [src crates/aros-api/src/campaign.rs 35-45 FixtureCampaignRequest] *)
Record FixtureCampaignRequest := mkRequest {
  req_fixture_root : string;
  req_work_root : string;
  req_kind : FixtureKindParam;
  req_waive_containment : bool;
}.

(** ** State *)

(** The commands given to the container runtime, the interpreters asked for their
    version, the servers this service started on the host, and the one that runs. *)
Record Svc := mkSvc {
  svc_run : Fx;
  svc_calls : list Sandbox.Call;
  svc_asked : list string;
  svc_launched : list (string * N);
  svc_running : option N;
}.
Definition V (A : Type) : Type := Svc → Svc * A.

Definition set_run (v : Svc) x := mkSvc x (svc_calls v) (svc_asked v) (svc_launched v) (svc_running v).
Definition set_calls (v : Svc) x := mkSvc (svc_run v) x (svc_asked v) (svc_launched v) (svc_running v).
Definition asked (v : Svc) (candidate : string) : Svc :=
  mkSvc (svc_run v) (svc_calls v) (svc_asked v ++ [candidate]) (svc_launched v) (svc_running v).
Definition launched (root : string) (port : N) (v : Svc) : Svc :=
  mkSvc (svc_run v) (svc_calls v) (svc_asked v) (svc_launched v ++ [(root, port)]) (Some port).
(** [child.kill()] and [child.wait()]. *)
Definition killed (v : Svc) : Svc := mkSvc (svc_run v) (svc_calls v) (svc_asked v) (svc_launched v) None.

(** What the host answers to the service. *)
Record SvcHost := mkSvcHost {
  sv_is_dir : string → bool;
  sv_is_file : string → bool;
  sv_create_dir : result string unit;
  sv_var : string → option string;
  (** The interpreters that answer [--version]. *)
  sv_answers : string → bool;
  sv_port : result string N;
  sv_spawn : result string unit;
  sv_polls : list Verifier.Poll;
  sv_oci : CampaignOci.Host;
}.

Section Targets.
Context `{U : UuidLib}.
Variable host : SvcHost.
Variable sandbox_error_display : Sandbox.SandboxError → string.

(** The first candidate that answers when it is asked for its version. *)
Fixpoint first_answering (candidates : list string) : V (option string) := λ v,
  match candidates with
  | [] => (v, None)
  | c :: candidates =>
    if sv_answers host c then (asked v c, Some c) else first_answering candidates (asked v c)
  end.

(** [src crates/aros-api/src/campaign.rs 189-205 resolve_python] *)
Definition resolve_python : V (option string) :=
  match sv_var host "AROS_PYTHON" with
  | Some explicit =>
    if is_empty (trim explicit) then first_answering ["python3"; "python"] else λ v, (v, Some explicit)
  | None => first_answering ["python3"; "python"]
  end.

(** The end of [start] after the server was spawned; every way out but success
    stops the server, at the latest when it is dropped.
    [src crates/aros-api/src/campaign.rs 115-134 ActualFixture::start] *)
Definition await_fixture (port : N) (v : Svc) : Svc * result string N :=
  match Verifier.await_ready port (sv_polls host) with
  | Verifier.WaitReady => (v, Ok port)
  | Verifier.WaitFailed error => (killed v, Err error)
  | Verifier.WaitExited => (killed v, Err "fixture exited before readiness")
  | Verifier.WaitDeadline => (killed v, Err "fixture readiness deadline exceeded")
  end.

(** [src crates/aros-api/src/campaign.rs 94-134 ActualFixture::start] *)
Definition start_fixture (root : string) : V (result string N) := λ v,
  if negb (sv_is_file host (root +:+ "/server.py")) then (v, Err "fixture must contain runnable server.py")
  else
    match resolve_python v with
    | (v, None) => (v, Err "python interpreter unavailable")
    | (v, Some _) =>
      match sv_port host with
      | Err e => (v, Err e)
      | Ok port =>
        match sv_spawn host with
        | Err e => (v, Err ("launch real fixture: " +:+ e))
        | Ok _ => await_fixture port (launched root port v)
        end
      end
    end.

(** [src crates/aros-api/src/campaign.rs 148-151 CampaignTarget] *)
Inductive CampaignTarget := Uncontained (port : N) | Contained (t : CampaignOci.CampaignOciTarget).

(** [src crates/aros-api/src/campaign.rs 154-162 CampaignTarget::start] *)
Definition start_target (root : string) (waive : bool) : V (result string CampaignTarget) := λ v,
  if waive then
    let '(v, r) := start_fixture root v in (v, Uncontained <$> r)
  else
    let '(calls, r) := CampaignOci.start (sv_oci host) root (svc_calls v) in
    (set_calls v calls, Contained <$> map_err sandbox_error_display r).

(** [src crates/aros-api/src/campaign.rs 164-169 CampaignTarget::port] *)
Definition target_port (t : CampaignTarget) : N :=
  match t with Uncontained port => port | Contained t => CampaignOci.host_port t end.

(** [src crates/aros-api/src/campaign.rs 171-179 CampaignTarget::sandbox_identity] *)
Definition sandbox_identity (t : CampaignTarget) : option SandboxIdentity :=
  match t with
  | Uncontained _ => None
  | Contained t =>
    Some (mkSandboxIdentity (CampaignOci.sandbox_id t)
            (Sandbox.live_oci_claimable (CampaignOci.containment_report t)))
  end.

(** [src crates/aros-api/src/campaign.rs 181-186 CampaignTarget::stop] *)
Definition stop_target (t : CampaignTarget) (v : Svc) : Svc :=
  match t with
  | Uncontained _ => killed v
  | Contained t => set_calls v (CampaignOci.stop (sv_oci host) t (svc_calls v)).1
  end.

End Targets.

(** ** The service *)

Section Run.
Context `{I : IpNetLib, U : UuidLib, J : JsonLib, Hl : HashLib, !Serialize EventRecord,
  !Serialize AuthorizationManifest, !Serialize EvidenceBundle, !Serialize AuthorityResult,
  !Serialize VerifierMode, !Deserialize AuthorityResult, !Serialize HypothesisRec,
  !Store.JsonText Campaign, !Store.JsonText LedgerEntry, !Store.JsonText GraphNode,
  !Store.JsonText GraphEdge, !Store.JsonText HypothesisRec, !Store.JsonText ResearchCard,
  !Store.JsonText Verifier.VerifierInput, !Store.JsonText Verifier.VerifierProcessResult,
  G : Graph.DiGraph}.
Variable ledger_error_display : LedgerError → string.
Variable json_string : string → string.
Variable code_debug : Z → string.
Variable json_error : string.
Variable env : World.Env.
Variable fx : FxEnv.
Variable host : SvcHost.
Variable sandbox_error_display : Sandbox.SandboxError → string.
Variable engine_error_display : EngineError → string.

#[local] Abbreviation engine_run req port :=
  (Fixture.run_fixture_campaign ledger_error_display json_string code_debug json_error env fx
     (req_work_root req) (req_fixture_root req) "127.0.0.1" port (kind_from (req_kind req))).

(** The request is refused with a message, or its thread panics. *)
Inductive SvcStop := Refused (message : string) | Panicking.

(** [src crates/aros-api/src/campaign.rs 223-226 run_fixture_campaign] *)
Definition engine_for (t : CampaignTarget) : CampaignEngine :=
  match sandbox_identity t with
  | Some identity => with_bound_sandbox identity
  | None => CampaignEngine_new true
  end.

(** [src crates/aros-api/src/campaign.rs 243-247 run_fixture_campaign] *)
Definition answer (r : result Fixture.Stop CampaignOutcome) : result SvcStop Registry.FixtureCampaignResponse :=
  match r with
  | Ok outcome => Ok (Registry.response_from outcome)
  | Err (Halted (EeFailClosed message)) => Err (Refused message)
  | Err (Halted other) => Err (Refused (engine_error_display other))
  | Err Panicked => Err Panicking
  end.

(** The campaign against a running target: the manifest, the engine, the run.
    [src crates/aros-api/src/campaign.rs 222-241 run_fixture_campaign] *)
Definition campaign_on (req : FixtureCampaignRequest) (t : CampaignTarget) : F CampaignOutcome :=
  cid ← ffresh env; tid ← ffresh env;
  engine_run req (target_port t) (engine_for t)
    (fixture_manifest cid tid (req_fixture_root req) "127.0.0.1" (target_port t)
       (negb (req_waive_containment req))).

(** A panic of the run drops the target, which stops it.
    [src crates/aros-api/src/campaign.rs 207-248 run_fixture_campaign] *)
Definition run_fixture_campaign (req : FixtureCampaignRequest) :
    V (result SvcStop Registry.FixtureCampaignResponse) := λ v,
  if negb (sv_is_dir host (req_fixture_root req))
  then (v, Err (Refused ("fixture_root is not a directory: " +:+ req_fixture_root req)))
  else
    match sv_create_dir host with
    | Err e => (v, Err (Refused e))
    | Ok _ =>
      match start_target host sandbox_error_display (req_fixture_root req) (req_waive_containment req) v with
      | (v, Err e) => (v, Err (Refused e))
      | (v, Ok target) =>
        let '(run, r) := campaign_on req target (svc_run v) in
        (stop_target host target (set_run v run), answer r)
      end
    end.

(** ** What a request does *)

#[local] Abbreviation serve := (run_fixture_campaign).

Lemma campaign_on_Ok req t s s' o :
  campaign_on req t s = (s', Ok o) →
  ∃ cid tid s1, seen s1 = seen s ∧
    engine_run req (target_port t) (engine_for t)
      (fixture_manifest cid tid (req_fixture_root req) "127.0.0.1" (target_port t)
         (negb (req_waive_containment req))) s1 = (s', Ok o).
Proof.
  unfold campaign_on. intros Hr.
  apply calm_bind_Ok in Hr as (cid & s1 & _ & E1 & _ & Hr); [|apply calm_fresh].
  apply calm_bind_Ok in Hr as (tid & s2 & _ & E2 & _ & Hr); [|apply calm_fresh].
  exists cid, tid, s2. split; [congruence|exact Hr].
Qed.

(** The target of a request that waives nothing: a container on a network shown
    isolated, with a claimable report. *)
Lemma start_contained root v v' t :
  start_target host sandbox_error_display root false v = (v', Ok t) →
  ∃ oci calls, t = Contained oci ∧ v' = set_calls v calls ∧
    CampaignOci.start (sv_oci host) root (svc_calls v) = (calls, Ok oci).
Proof.
  unfold start_target. destruct (CampaignOci.start _ _ _) as [calls [oci|e]] eqn:E; [|done].
  intros [= <- <-]. by exists oci, calls.
Qed.

Lemma stop_contained oci v :
  CampaignOci.stopped oci = false →
  ∃ removal, stop_target host (Contained oci) v = set_calls v (svc_calls v ++ removal) ∧
    CampaignOci.cleaned (CampaignOci.container_name oci) (CampaignOci.network_name oci) removal.
Proof.
  intros Hs. unfold stop_target, CampaignOci.stop. rewrite Hs. unfold mbind, Sandbox.S_bind.
  destruct (CampaignOci.cleanup _ _ _ _) as [tr []] eqn:E.
  apply CampaignOci.cleanup_Ok in E as (removal & -> & Hc). by exists removal.
Qed.

(** The engine of a contained target admits that sandbox and no other. *)
Lemma engine_sandbox oci fresh o m sb tr tr' :
  Sandbox.live_oci_claimable (CampaignOci.containment_report oci) = true → require_containment m = true →
  assert_containment_or_fail (engine_for (Contained oci)) fresh o m tr = (tr', Ok sb) →
  sb = mkSandboxIdentity (CampaignOci.sandbox_id oci) true.
Proof.
  unfold engine_for, assert_containment_or_fail. cbn. intros -> ->. cbn. by intros [= _ <-].
Qed.

Lemma answer_Ok r resp : answer r = Ok resp → ∃ o, r = Ok o ∧ resp = Registry.response_from o.
Proof. destruct r as [o|[[]|]]; try done. intros [= <-]. by exists o. Qed.

(** C9: a fixture campaign served without a waiver never starts its target on the
    host, and answers only after this: the target was started, from the canonical
    path of the requested directory, in the container and on the network that are
    named after a fresh sandbox identifier, after that network was shown isolated; the
    campaign attacked the port published for that container, which has no other
    network, nothing writable of the target and no capability; every tool of it was
    permitted for that very sandbox identifier, under a manifest that requires
    containment and admits that port only; and that container and that network were
    removed afterwards. An answer that says verified rests on a violated invariant and
    everything a verified fixture run rests on, which includes the server of the
    patched twin, started on the host. *)
Theorem served_campaign_contained req v v' r :
  serve req v = (v', r) → req_waive_containment req = false →
  svc_launched v' = svc_launched v ∧ svc_running v' = svc_running v ∧ svc_asked v' = svc_asked v ∧
  ∀ resp, r = Ok resp →
    let id := CampaignOci.h_sandbox_id (sv_oci host) in
    let network := CampaignOci.network_of id in
    let container := CampaignOci.container_of id in
    ∃ oci calls root image out removal cid tid orig c rid obs l rest,
      let port := CampaignOci.host_port oci in
      let launch := Sandbox.mkCall (CampaignOci.launch_args root image network container port) (Some out) in
      CampaignOci.start (sv_oci host) (req_fixture_root req) (svc_calls v) =
        (svc_calls v ++ calls ++ [launch], Ok oci) ∧
      CampaignOci.h_canonicalize (sv_oci host) (req_fixture_root req) = Some root ∧
      CampaignOci.confined_launch root image network container port (Sandbox.call_args launch) ∧
      Sandbox.success out = true ∧ CampaignOci.isolated network calls ∧
      svc_calls v' = svc_calls v ++ calls ++ [launch] ++ removal ∧
      CampaignOci.cleaned container network removal ∧
      let sb := mkSandboxIdentity id true in
      let kind := kind_from (req_kind req) in
      let m := fixture_manifest cid tid (req_fixture_root req) "127.0.0.1" port true in
      attacked "127.0.0.1" port kind (broker_of (req_work_root req) m sb orig c) obs l ∧
      seen (svc_run v') = seen (svc_run v) ++ OTool (list_intent rid (req_fixture_root req)) true :: l ++ rest ∧
      (Registry.fr_verified resp = true → violated kind obs = true ∧
         ∃ o, resp = Registry.response_from o ∧
           verified_run code_debug json_error fx (req_work_root req) (req_fixture_root req) "127.0.0.1" port kind
             o sb orig rest).
Proof.
  unfold run_fixture_campaign. intros Hr Hw.
  destruct (negb (sv_is_dir host _)); [by injection Hr as <- <-|].
  destruct (sv_create_dir host) as [[]|e]; [|by injection Hr as <- <-]. rewrite Hw in Hr.
  destruct (start_target host _ _ false v) as [v1 [t|e]] eqn:Es.
  2: { injection Hr as <- <-. revert Es. unfold start_target.
       destruct (CampaignOci.start _ _ _) as [calls rc]. intros [= <- _]. done. }
  apply start_contained in Es as (oci & calls & -> & -> & Es). pose proof Es as Estart.
  apply CampaignOci.start_isolated in Es as
    (pre & root' & image & out & -> & Hroot & Hout & Hiso & Hcl & Hst & _ & Hid & Hnet & Hcon).
  rewrite Hnet, Hcon, Hid in *.
  destruct (campaign_on req (Contained oci) _) as [run rr] eqn:Erun.
  match type of Hr with (stop_target _ _ ?x, _) = _ =>
    destruct (stop_contained oci x Hst) as (removal & Hstop & Hrem) end.
  rewrite Hstop in Hr. clear Hstop. rewrite Hnet, Hcon in Hrem. injection Hr as <- <-.
  split_and!; [done..|]. intros resp Hresp. apply answer_Ok in Hresp as (o & -> & ->).
  apply campaign_on_Ok in Erun as (cid & tid & s1 & Hseen & Erun). rewrite Hw in Erun.
  cbn [svc_run set_calls] in Hseen.
  apply run_fixture_Ok in Erun as (sb & orig & c & rid & obs & l & (fresh & Hsb) & _ & Hatt & Hcase).
  assert (waived (engine_for (Contained oci))
    (fixture_manifest cid tid (req_fixture_root req) "127.0.0.1" (target_port (Contained oci)) (negb false)) =
    fixture_manifest cid tid (req_fixture_root req) "127.0.0.1" (CampaignOci.host_port oci) true) as Hm
    by done. rewrite Hm in Hsb, Hatt.
  apply engine_sandbox in Hsb as ->; [|done|apply fixture_manifest_containment]. rewrite Hid in *.
  assert (∃ rest, seen run = seen (svc_run v) ++ OTool (list_intent rid (req_fixture_root req)) true :: l ++ rest ∧
    (Registry.fr_verified (Registry.response_from o) = true → violated (kind_from (req_kind req)) obs = true ∧
       verified_run code_debug json_error fx (req_work_root req) (req_fixture_root req) "127.0.0.1"
         (CampaignOci.host_port oci) (kind_from (req_kind req)) o
         (mkSandboxIdentity (CampaignOci.h_sandbox_id (sv_oci host)) true) orig rest)) as (rest & Hs & Hver).
  { destruct Hcase as [(Hno & (Hfalse & _) & Hs)|(Hyes & rest & Hver & Hs)].
    - exists []. rewrite app_nil_r. split; [congruence|]. unfold Registry.response_from.
      cbn [Registry.fr_verified]. by rewrite Hfalse.
    - exists rest. split; [congruence|done]. }
  exists oci, pre, root', image, out, removal, cid, tid, orig, c, rid, obs, l, rest.
  cbn [svc_calls set_calls set_run svc_run]. rewrite <- !app_assoc.
  split_and!; try done; [apply CampaignOci.launch_args_confined|].
  intros [? ?]%Hver. split; [done|]. by exists o.
Qed.

(** Asking the interpreters changes nothing else. *)
Lemma resolve_python_Ok v v' r :
  resolve_python host v = (v', r) →
  svc_calls v' = svc_calls v ∧ svc_launched v' = svc_launched v ∧ svc_running v' = svc_running v ∧
  svc_run v' = svc_run v.
Proof.
  assert (Hf : ∀ cs v v' r, first_answering host cs v = (v', r) →
    svc_calls v' = svc_calls v ∧ svc_launched v' = svc_launched v ∧ svc_running v' = svc_running v ∧
    svc_run v' = svc_run v).
  { induction cs as [|c cs IH]; intros v0 v1 r0; cbn; [by intros [= <- _]|].
    destruct (sv_answers host c); [by intros [= <- _]|]. by intros Hr%IH. }
  unfold resolve_python. destruct (sv_var host _); [|apply Hf].
  destruct (is_empty _); [apply Hf|by intros [= <- _]].
Qed.

Lemma start_fixture_Ok root v v' r :
  start_fixture host root v = (v', r) → svc_running v = None →
  svc_calls v' = svc_calls v ∧
  match r with
  | Ok port => svc_launched v' = svc_launched v ++ [(root, port)]
  | Err _ => svc_running v' = None ∧
      (svc_launched v' = svc_launched v ∨ ∃ port, svc_launched v' = svc_launched v ++ [(root, port)])
  end.
Proof.
  unfold start_fixture, await_fixture. intros Hr Hn.
  destruct (negb _); [by simplify_eq/=; eauto|]. destruct (resolve_python host v) as [v1 python] eqn:Ep.
  apply resolve_python_Ok in Ep as (Hc & Hlau & Hrun & _). rewrite <- Hc, <- Hlau in *. rewrite <- Hrun in Hn.
  destruct python; [|by simplify_eq/=; eauto].
  destruct (sv_port host) as [port|]; [|by simplify_eq/=; eauto].
  destruct (sv_spawn host); [|by simplify_eq/=; eauto].
  destruct (Verifier.await_ready port (sv_polls host)); simplify_eq/=; eauto.
Qed.

(** What the run of a request saw: at most the server of its twin, stopped. *)
Lemma campaign_on_tidy req t : leaves_tidy (req_work_root req) (campaign_on req t).
Proof.
  unfold campaign_on. apply tidy_bind_r; [apply serverless_calm, calm_fresh|intros cid].
  apply tidy_bind_r; [apply serverless_calm, calm_fresh|intros tid]. apply run_tidy.
Qed.

Lemma start_target_run root waive v v' r :
  start_target host sandbox_error_display root waive v = (v', r) → svc_run v' = svc_run v.
Proof.
  unfold start_target, start_fixture, await_fixture. intros Hr. destruct waive.
  - destruct (negb _); [by simplify_eq/=|]. destruct (resolve_python host v) as [v1 python] eqn:Ep.
    apply resolve_python_Ok in Ep as (_ & _ & _ & <-). repeat case_match; by simplify_eq/=.
  - repeat case_match; by simplify_eq/=.
Qed.

Lemma stop_target_run t v : svc_run (stop_target host t v) = svc_run v.
Proof. unfold stop_target. by repeat case_match. Qed.

Lemma serve_tidy req v v' r :
  serve req v = (v', r) →
  ∃ l, seen (svc_run v') = seen (svc_run v) ++ l ∧ tidy (req_work_root req) l.
Proof.
  unfold run_fixture_campaign. intros Hr.
  assert (Hid : svc_run v' = svc_run v →
    ∃ l, seen (svc_run v') = seen (svc_run v) ++ l ∧ tidy (req_work_root req) l).
  { intros ->. exists []. rewrite app_nil_r. split; [done|left; constructor]. }
  destruct (negb _); [apply Hid; by injection Hr as <- _|].
  destruct (sv_create_dir host); [|apply Hid; by injection Hr as <- _].
  destruct (start_target host _ _ _ v) as [v1 rt] eqn:Es. apply start_target_run in Es.
  destruct rt as [t|e]; [|apply Hid; by injection Hr as <- _].
  destruct (campaign_on_tidy req t (svc_run v1)) as (l & E & Ht).
  destruct (campaign_on req t (svc_run v1)) as [run rr]. injection Hr as <- _.
  exists l. rewrite stop_target_run. cbn in *. rewrite E, Es. done.
Qed.

Lemma serve_targets_removed req v v' r :
  serve req v = (v', r) → svc_running v = None →
  svc_running v' = None ∧
  (svc_launched v' = svc_launched v ∨ req_waive_containment req = true ∧
     ∃ port, svc_launched v' = svc_launched v ++ [(req_fixture_root req, port)]) ∧
  Remains.remains (svc_calls v') ⊆ Remains.remains (svc_calls v).
Proof.
  unfold run_fixture_campaign. intros Hr Hn.
  destruct (negb (sv_is_dir host _)); [injection Hr as <- _; by eauto|].
  destruct (sv_create_dir host); [|injection Hr as <- _; by eauto].
  destruct (start_target host _ _ _ v) as [v1 rt] eqn:Es. unfold start_target in Es.
  destruct (req_waive_containment req) eqn:Hw.
  - destruct (start_fixture host _ v) as [v2 rf] eqn:Ef. apply start_fixture_Ok in Ef as [Hc Hla]; [|done].
    destruct rf as [port|e]; injection Es as <- <-.
    + destruct (campaign_on req (Uncontained port) _) as [run rr]. injection Hr as <- _. cbn. rewrite Hc.
      split_and!; [done|right; eauto|done].
    + injection Hr as <- _. destruct Hla as [Hrun Hla]. rewrite Hc. split_and!; [done|destruct Hla; eauto|done].
  - pose proof (Remains.start_leaves (sv_oci host) (req_fixture_root req) _ (svc_calls v) (reflexivity _)) as Hleft.
    destruct (CampaignOci.start _ _ _) as [calls [oci|e]] eqn:Eo; injection Es as <- <-.
    + apply CampaignOci.start_isolated in Eo as (_ & _ & _ & _ & _ & _ & _ & _ & _ & Hst & _ & Hid & Hnet & Hcon).
      rewrite <- Hid, <- Hnet, <- Hcon in Hleft.
      destruct (campaign_on req (Contained oci) _) as [run rr]. injection Hr as <- _.
      split_and!; [done|by left|]. exact (Remains.stop_leaves (sv_oci host) oci _ Hst calls Hleft).
    + injection Hr as <- _. by split_and!; [|left|].
Qed.


(** ** The handler *)

Context `{!Store.JsonText Registry.CampaignRecord, !Store.JsonText Registry.WorkerResearchTurn}.
Variable store_error_display : Store.StoreError → string.
Variable record_error : string.
Variable header_to_str : string → option string.
Variable join_error : string.

(** [now] and [fails] belong to the registry's write.
    [src crates/aros-api/src/main.rs 225-253 fixture_campaign] *)
Definition fixture_campaign (now : N) (fails : bool) (headers : option string) (req : FixtureCampaignRequest)
    (s : Daemon.AppState) (v : Svc) : Daemon.AppState * Svc * Daemon.Response Registry.FixtureCampaignResponse :=
  if negb (Daemon.authorized header_to_str headers s) then (s, v, Daemon.Unauthorized)
  else
    match serve req v with
    | (v, Ok response) =>
      let '(db, _) := Registry.put store_error_display record_error now fails response (Daemon.app_registry s) in
      (Daemon.set_registry s db, v, Daemon.Json response)
    | (v, Err (Refused error)) => (s, v, Daemon.Unprocessable error)
    | (v, Err Panicking) => (s, v, Daemon.ServerError ("join error: " +:+ join_error))
    end.

(** The answer a finished request comes to. *)
Definition reply (r : result SvcStop Registry.FixtureCampaignResponse) :
    Daemon.Response Registry.FixtureCampaignResponse :=
  match r with
  | Ok response => Daemon.Json response
  | Err (Refused error) => Daemon.Unprocessable error
  | Err Panicking => Daemon.ServerError ("join error: " +:+ join_error)
  end.

(** The campaign handler does nothing for a caller without the token; for an
    authorized caller it changes nothing of the daemon but the registry, and the
    outcome it answers with is what a later request for that campaign returns,
    if the registry's write went through. *)
Theorem campaign_handler_records `{!Store.JsonTextLaws Registry.CampaignRecord,
    !Store.JsonTextLaws Registry.WorkerResearchTurn} now fails headers req s v s' v' resp :
  fixture_campaign now fails headers req s v = (s', v', resp) →
  (Daemon.authorized header_to_str headers s = false → s' = s ∧ v' = v ∧ resp = Daemon.Unauthorized) ∧
  s' = Daemon.set_registry s (Daemon.app_registry s') ∧
  ∀ response, resp = Daemon.Json response → Daemon.authorized header_to_str headers s = true ∧
    ∀ db, Registry.put store_error_display record_error now fails response (Daemon.app_registry s) = (db, Ok ()) →
      (Daemon.get_campaign store_error_display record_error header_to_str headers
         (Registry.fr_campaign_id response) s').2 = Daemon.Json (Registry.mkCampaignRecord response now).
Proof.
  unfold fixture_campaign. destruct (Daemon.authorized header_to_str headers s) eqn:Ha; cbn [negb].
  2: { intros [= <- <- <-]. split_and!; [done|by destruct s|done]. }
  destruct (serve req v) as [v1 [response|[error|]]].
  - destruct (Registry.put _ _ _ _ _ _) as [db r] eqn:Ep. intros [= <- <- <-]. split_and!; [done|by destruct s|].
    intros response' [= <-]. split; [done|]. intros db' Hp. rewrite Ep in Hp. injection Hp as -> ->.
    destruct (Registry.registry_keeps_outcomes store_error_display record_error now fails response
      (Registry.mkWorkerResearchTurn "" "" "" None None None "" "" None None 0) _ _ Ep) as [Hg _].
    unfold Daemon.get_campaign. assert (Daemon.authorized header_to_str headers (Daemon.set_registry s db') = true)
      as -> by (by destruct s). cbn [negb Daemon.app_registry Daemon.set_registry].
    destruct (Registry.get _ _ _ _) as [db2 r2]. cbn in Hg |- *. by rewrite Hg.
  - intros [= <- <- <-]. split_and!; [done|by destruct s|done].
  - intros [= <- <- <-]. split_and!; [done|by destruct s|done].
Qed.

(** The service as [Serving] asks for it. *)
Definition campaign_service : CampaignService :=
  {| CampaignRequest := FixtureCampaignRequest; ServiceState := Svc;
     serve_campaign req v := let '(v, r) := serve req v in (v, reply r) |}.

(** With this service, the handler is the thread of [Serving], taken with no other
    thread in between. *)
Theorem campaign_handler_is_thread fs exchange broker_error_display str_debug pkg_version `{P : Ipc.Prost}
    t headers req s v :
  let _ := campaign_service in
  ∃ n, n <= 3 ∧
    alone fs exchange json_string broker_error_display str_debug store_error_display record_error header_to_str
      pkg_version n t (FStart headers req v) s =
    let '(s', v', resp) := fixture_campaign (Daemon.t_now t) (Daemon.t_registry_fails t) headers req s v in
    (s', FDone headers v' resp).
Proof.
  intros cs. unfold fixture_campaign. destruct (Daemon.authorized header_to_str headers s) eqn:Ha.
  2: { exists 1. cbn. rewrite Ha. auto with lia. }
  destruct (serve req v) as [v1 [response|[error|]]] eqn:Ev; cbn [negb].
  - exists 3. cbn. rewrite Ha. cbn. rewrite Ev. cbn. destruct (Registry.put _ _ _ _ _ _). auto with lia.
  - exists 2. cbn. rewrite Ha. cbn. rewrite Ev. auto with lia.
  - exists 2. cbn. rewrite Ha. cbn. rewrite Ev. auto with lia.
Qed.

End Run.

End Service.
