(* ===== verification/Startup.v ===== *)
(** * Starting the daemon (crate [aros-api], [main], [spawn_research_worker] and
      [CampaignRegistry::open])

    From the environment to the first request: the token, the lab with its
    manifest, the registry, the socket of the worker, and the worker itself, if the
    operator configured one. What the daemon then does is any run of [serves]. *)

From S2P Require Import Prelude RustStr Net Json Types PathScope Policy Ledger Cas Store HttpLab Ipc Broker Lab.
From S2P Require Import Certificate Daemon Serving.
Import PathScope Shell NetworkScope Ledger Lab Daemon.Daemon.

Module Startup.

(** What the daemon finds when it starts. [st_data_root] and [st_registry_dir] are
    the results of creating the directories of the lab and of the registry,
    [st_blobs] what the blob store holds, [st_db] the registry's database. *)
Record Start := mkStart {
  st_var : string → option string;
  st_canonicalize : string → result string string;
  st_data_root : result string unit;
  st_registry_dir : result string unit;
  st_blobs : gmap string string;
  st_db : Certificate.Database;
  st_socket_ok : bool;
  st_campaign : CampaignId;
  st_target : TargetId;
  st_sandbox : SandboxId;
  st_session : string;
  st_worker_token : string;
  st_host : Ipc.Host;
  st_accept : Ipc.AcceptEvent;
  st_write : option Ipc.WriteFault;
  (** Whether 127.0.0.1:7432 can be bound. *)
  st_http_ok : bool;
}.

Section Startup.
Context `{L : IpNetLib, U : UuidLib, J : JsonLib, Hl : HashLib, !Serialize EventRecord,
  !Serialize AuthorizationManifest, P : Ipc.Prost,
  !Store.JsonText Registry.CampaignRecord, !Store.JsonText Registry.WorkerResearchTurn}.
Variable str_debug : string → string.
Variable store_error_display : Store.StoreError → string.
Variable types_error_display : TypesError → string.
Variable pkg_version : string.

(** [src crates/aros-api/src/registry.rs 45-52 CampaignRegistry::open] *)
Definition open_registry (st : Start) : Certificate.Database * result string unit :=
  match st_registry_dir st with
  | Err e => (st_db st, Err e)
  | Ok _ => let '(db, r) := Registry.store store_error_display (st_db st) in (db, _ ← r; Ok ())
  end.

(** [src crates/aros-api/src/lab.rs 188-190 LabRuntime::open] *)
Definition open_lab (st : Start) (data_root : string) : result string LabRuntime :=
  m ← lab_manifest (st_canonicalize st) str_debug (λ name, st_var st (env_name name))
        (st_campaign st) (st_target st);
  open_with_manifest types_error_display (st_data_root st) data_root (st_sandbox st) (st_blobs st) m.

(** What the operator chose for the worker.
    [src crates/aros-api/src/main.rs 300-301 spawn_research_worker] *)
Definition allow_uncontained (st : Start) : bool :=
  match st_var st (env_name "ALLOW_UNCONTAINED_WORKER") with
  | Some value => String.eqb value "1" || String.eqb (to_ascii_lowercase value) "true"
  | None => false
  end.

(** [src crates/aros-api/src/main.rs 303-320 spawn_research_worker] *)
Definition launch_worker (st : Start) (pythonpath : string) (sup : Ipc.WorkerSupervisor) :
    Ipc.WorkerSupervisor * option (result Ipc.SessionError unit) :=
  match st_var st (env_name "WORKER_CONTAINER_IMAGE") with
  | Some image =>
    let podman := default "podman" (st_var st (env_name "PODMAN")) in
    let '(sup, r) := Ipc.spawn_python_containerized (st_host st) podman image pythonpath sup in (sup, Some r)
  | None =>
    if allow_uncontained st then
      let python := default "python3" (st_var st (env_name "PYTHON")) in
      let '(sup, r) := Ipc.spawn_python_uncontained (st_host st) python [] pythonpath sup in (sup, Some r)
    else (sup, None)
  end.

(** The supervisor, and whether the loop that serves the worker was started.
    [src crates/aros-api/src/main.rs 298-338 spawn_research_worker] *)
Definition spawn_research_worker (st : Start) (pythonpath : string) (sup : Ipc.WorkerSupervisor) :
    Ipc.WorkerSupervisor * bool :=
  match launch_worker st pythonpath sup with
  | (sup, None) | (sup, Some (Err _)) => (sup, false)
  | (sup, Some (Ok _)) =>
    let '(sup, version) := Ipc.accept_hello pkg_version (st_accept st) (st_write st) sup in
    (sup, match version with Ok _ => true | Err _ => false end)
  end.

(** The daemon up to its first request; an error is the panic it dies with.
    [src crates/aros-api/src/main.rs 347-394 main] *)
Definition main (st : Start) : result string (AppState * bool) :=
  token ← ok_or (st_var st (env_name "DAEMON_TOKEN")) "daemon bearer token is required";
  if negb (32 <=? str_len token)%nat then Err "daemon bearer token must contain at least 32 characters"
  else
    let data_root := default ".aros-data" (st_var st (env_name "DATA_ROOT")) in
    lab ← map_err (λ _, "open fail-closed lab runtime") (open_lab st data_root);
    match open_registry st with
    | (_, Err _) => Err "open campaign registry"
    | (db, Ok _) =>
      supervisor ← map_err (λ _, "bind production worker Unix socket")
        (Ipc.bind_unix (st_socket_ok st) (data_root +:+ "/run/worker.sock") (st_worker_token st));
      let pythonpath := default "python" (st_var st "PYTHONPATH") in
      let '(supervisor, worker) := spawn_research_worker st pythonpath supervisor in
      if st_http_ok st then Ok (mkAppState supervisor 0 0 lab db (st_session st) token, worker)
      else Err "bind arosd"
    end.

(** ** The worker *)

(** The only two programs the daemon may start. *)
Definition worker_child (st : Start) (token : string) (c : Ipc.Child) : Prop :=
  (∃ image, st_var st (env_name "WORKER_CONTAINER_IMAGE") = Some image ∧
     ∃ python_mount socket_mount container_socket,
       c = Ipc.mkChild (default "podman" (st_var st (env_name "PODMAN")))
             (Ipc.containerized_run_args python_mount socket_mount Ipc.token_env image container_socket)
             [(Ipc.token_env, token)]) ∨
  (st_var st (env_name "WORKER_CONTAINER_IMAGE") = None ∧ allow_uncontained st = true ∧
     Ipc.child_program c = default "python3" (st_var st (env_name "PYTHON"))).

Lemma launch_worker_child st pp sup sup' r :
  launch_worker st pp sup = (sup', r) → Ipc.child sup = None →
  Ipc.stream sup' = Ipc.stream sup ∧ Ipc.expected_token sup' = Ipc.expected_token sup ∧
  (∀ c, Ipc.child sup' = Some c → worker_child st (Ipc.expected_token sup) c) ∧
  (r = Some (Ok ()) → is_Some (Ipc.child sup')).
Proof.
  intros Hr Hn. unfold launch_worker in Hr.
  destruct (st_var st (env_name "WORKER_CONTAINER_IMAGE")) as [image|] eqn:Hi.
  - unfold Ipc.spawn_python_containerized in Hr.
    destruct (Ipc.endpoint sup); [injection Hr as <- <-; split_and!; try done; congruence|].
    destruct (_ ≫= _) as [[[pm sm] cs]|e]; [|injection Hr as <- <-; split_and!; try done; congruence].
    unfold Ipc.spawn in Hr. destruct (Ipc.spawn_ok _); injection Hr as <- <-;
      [|split_and!; try done; congruence].
    split_and!; try done. intros c [= <-]. left. eauto 6.
  - destruct (allow_uncontained st) eqn:Ha; [|injection Hr as <- <-; split_and!; try done; congruence].
    unfold Ipc.spawn_python_uncontained, Ipc.spawn in Hr.
    destruct (Ipc.spawn_ok _); injection Hr as <- <-; [|split_and!; try done; congruence].
    split_and!; try done. intros c [= <-]. by right.
Qed.

Lemma spawn_research_worker_effect st pp sup sup' worker :
  spawn_research_worker st pp sup = (sup', worker) → Ipc.child sup = None → Ipc.stream sup = None →
  (∀ c, Ipc.child sup' = Some c → worker_child st (Ipc.expected_token sup) c) ∧
  if worker then
    is_Some (Ipc.child sup') ∧
    ∃ c v, st_accept st = Ipc.Accepted c true ∧ Ipc.authenticated (Ipc.expected_token sup) c v
  else Ipc.stream sup' = None.
Proof.
  unfold spawn_research_worker. intros Hr Hn Hs.
  destruct (launch_worker st pp sup) as [sup1 l] eqn:El.
  apply launch_worker_child in El as (Hst & Htok & Hc & Hok); [|done]. rewrite Hs in Hst.
  destruct l as [[[]|e]|]; [|by injection Hr as <- <-..].
  destruct (Ipc.accept_hello _ _ _ sup1) as [sup2 [v|e]] eqn:Ea; injection Hr as <- <-.
  - apply Ipc.accept_hello_Ok in Ea as (c & c1 & c2 & env & h & He & Hrd & Hk & Ht & Hv & _ & ->).
    cbn. split_and!; [done|by apply Hok|]. exists c, v. split; [done|].
    exists c1, env, h. split_and!; [done..|congruence|done].
  - apply Ipc.accept_hello_Err in Ea as ->. done.
Qed.

Lemma main_Ok st s worker :
  main st = Ok (s, worker) →
  ∃ token m data_root, st_var st (env_name "DAEMON_TOKEN") = Some token ∧ 32 <= str_len token ∧
    daemon_token s = token ∧ intents_handled s = 0%N ∧ intents_executed s = 0%N ∧
    lab_manifest (st_canonicalize st) str_debug (λ name, st_var st (env_name name))
      (st_campaign st) (st_target st) = Ok m ∧
    open_with_manifest types_error_display (st_data_root st) data_root (st_sandbox st) (st_blobs st) m =
      Ok (app_lab s) ∧ app_registry s ≠ Certificate.DbCorrupt ∧
    (∀ c, Ipc.child (app_supervisor s) = Some c → worker_child st (st_worker_token st) c) ∧
    if worker then
      is_Some (Ipc.child (app_supervisor s)) ∧
      ∃ c v, st_accept st = Ipc.Accepted c true ∧ Ipc.authenticated (st_worker_token st) c v
    else Ipc.stream (app_supervisor s) = None.
Proof.
  unfold main. intros Hm. apply bind_Ok in Hm as (token & Ht & Hm).
  destruct (Nat.leb_spec 32 (str_len token)) as [Hlen|]; cbn [negb] in Hm; [|done].
  apply bind_Ok in Hm as (lab & Hlab & Hm).
  destruct (open_lab st _) as [lab'|] eqn:Eo; [|done]. injection Hlab as ->.
  apply bind_Ok in Eo as (m & Em & Eo).
  destruct (open_registry st) as [db [[]|]] eqn:Er; [|done].
  apply bind_Ok in Hm as (sup & Hsup & Hm).
  destruct (Ipc.bind_unix _ _ _) as [sup'|] eqn:Eb; [|done]. injection Hsup as ->.
  unfold Ipc.bind_unix in Eb. destruct (st_socket_ok st); [|done]. injection Eb as <-.
  destruct (spawn_research_worker _ _ _) as [sup w] eqn:Es. destruct (st_http_ok st); [|done].
  injection Hm as <- <-. apply spawn_research_worker_effect in Es as [Hc Hw]; [|done..].
  exists token, m. eexists. split_and!; [|done..|exact Em|exact Eo| |exact Hc|exact Hw].
  - by destruct (st_var st _) as [t|]; [injection Ht as ->|].
  - cbn. unfold open_registry in Er. destruct (st_registry_dir st); [|done].
    destruct (st_db st); cbn in Er; by injection Er as <-.
Qed.

(** C25: the daemon starts only with a bearer token of at least thirty-two bytes, a
    lab root that exists and a readable registry; it starts no process but the
    configured container of the worker, or, with no image configured and the waiver
    set, the configured interpreter; and its worker loop runs only on a connection to
    the Unix socket it bound whose hello carried the token made for this start. *)
Theorem daemon_starts_fail_closed st s worker :
  main st = Ok (s, worker) →
  (∃ token, st_var st (env_name "DAEMON_TOKEN") = Some token ∧ 32 <= str_len token ∧
     ∀ header_to_str headers, authorized header_to_str headers s = true →
       ∃ value, headers = Some value ∧ header_to_str value = Some ("Bearer " +:+ token)) ∧
  (∃ root canonical, st_var st (env_name "LAB_ROOT") = Some root ∧ st_canonicalize st root = Ok canonical) ∧
  app_registry s ≠ Certificate.DbCorrupt ∧
  (∀ c, Ipc.child (app_supervisor s) = Some c → worker_child st (st_worker_token st) c) ∧
  if worker then
    is_Some (Ipc.child (app_supervisor s)) ∧
    ∃ c v, st_accept st = Ipc.Accepted c true ∧ Ipc.authenticated (st_worker_token st) c v
  else Ipc.stream (app_supervisor s) = None.
Proof.
  intros (token & m & dr & Ht & Hlen & Hd & _ & _ & Hm & _ & Hdb & Hc & Hw)%main_Ok.
  split_and!; [| |done..].
  - exists token. split_and!; [done..|]. intros hts headers Ha. unfold authorized in Ha. rewrite Hd in Ha.
    by apply Auth.bearer_authorized_spec in Ha as [_ Ha].
  - apply bind_Ok in Hm as (root & Hr & Hm). apply bind_Ok in Hm as (ports & _ & Hm).
    apply bind_Ok in Hm as (c & Hcan & _). apply bind_Ok in Hcan as (c' & Hcan & _).
    destruct (st_var st (env_name "LAB_ROOT")) as [root'|]; [|done]. injection Hr as ->.
    destruct (st_canonicalize st root) as [c''|] eqn:Ec; [|done]. by exists root, c''.
Qed.

(** ** The daemon that was started *)

(** The operator turned containment off.
    [src crates/aros-api/src/lab.rs 110-112 lab_manifest] *)
Definition containment_waived (st : Start) : bool :=
  match st_var st (env_name "REQUIRE_CONTAINMENT") with
  | Some value => String.eqb value "0" || String.eqb (to_ascii_lowercase value) "false"
  | None => false
  end.

(** What an intent may touch in the lab of this start. *)
Definition in_lab (st : Start) (i : ToolIntent) : Prop :=
  (∃ raw root, st_var st (env_name "LAB_ROOT") = Some raw ∧
     canonicalize_lab_root (st_canonicalize st) raw = Ok root ∧
     ∀ p, path i = Some p ∨ cwd i = Some p → confined p [root]) ∧
  is_destructive_capability (capability i) = false ∧
  ∀ net, network i = Some net →
    (∃ listed lab_ports, st_var st (env_name "LAB_PORTS") = Some listed ∧
       parse_ports str_debug listed = Ok lab_ports ∧ port net ∈ lab_ports) ∧
    (∀ ip, parse_host_ip (host net) = Some ip → ip = LOCALHOST) ∧
    (parse_host_ip (host net) = None → host net ∈ ["localhost"; "127.0.0.1"; "fixture-target"]).

Lemma permitted_not_denied m snap sb i : permitted m sb i → decision (evaluate m snap sb i) ≠ Deny.
Proof. intros Hp. rewrite (evaluate_permitted m snap sb i Hp). by case_match. Qed.

Lemma lab_manifest_scope `{!IpNetLaws L} st m :
  lab_manifest (st_canonicalize st) str_debug (λ name, st_var st (env_name name))
    (st_campaign st) (st_target st) = Ok m →
  require_containment m = negb (containment_waived st) ∧ ∀ sb i, permitted m sb i → in_lab st i.
Proof.
  intros Hm. apply bind_Ok in Hm as (raw & Hraw & Hm). apply bind_Ok in Hm as (lab_ports & Hports & Hm).
  destruct (st_var st (env_name "LAB_ROOT")) as [raw'|] eqn:Er; [|done]. injection Hraw as ->. split.
  - unfold containment_waived. apply bind_Ok in Hm as (root & _ & [= <-]).
    case_bool_decide; cbn; by destruct (st_var st (env_name "REQUIRE_CONTAINMENT")).
  - intros sb i Hp. apply (permitted_not_denied m None) in Hp.
    destruct (lab_manifest_loopback_only _ _ _ _ _ _ _ _ _ _ Hm Hp) as ((root & Hroot & Hc) & Hd & Hn).
    split_and!; [by exists raw, root|done|]. intros net Hnet.
    destruct (Hn net Hnet) as (Hport & _ & Hip & Hname). split_and!; [|done..].
    destruct (st_var st (env_name "LAB_PORTS")) as [listed|]; [by exists listed, lab_ports|].
    injection Hports as <-. by apply not_elem_of_nil in Hport.
Qed.

Section Runs.
Context `{!IpNetLaws L, CS : CampaignService}.
Variable fs : Broker.HostFs.
Variable exchange : string → N → string → option string.
Variable json_string : string → string.
Variable broker_error_display : Broker.BrokerError → string.
Variable json_error : string.
Variable header_to_str : string → option string.

#[local] Abbreviation runs := (serves fs exchange json_string broker_error_display str_debug
  store_error_display json_error header_to_str pkg_version).

(** C6: from its start on and in every interleaving of its worker and its clients,
    the daemon answers ALLOW only if the operator turned containment off, only to
    the worker or to a caller with the token, and only for an intent that stays in
    the lab root, is not destructive and, if it connects at all, names 127.0.0.1,
    [localhost] or [fixture-target] and a listed port (what a name stands for is
    looked up by the host when it connects); with containment on, no intent puts a
    blob into the lab's store and none is counted as executed. What it keeps of
    containment off or on, the lab's ledger and its registry of turns and outcomes,
    grows all the same, and fixture campaigns run beside it in their own way. *)
Theorem started_daemon_confined st s0 worker s ths :
  main st = Ok (s0, worker) → runs s0 s ths →
  (∀ headers req resp, HDone headers req (Json resp) ∈ ths → resp_decision resp = "ALLOW" →
     containment_waived st = true ∧
     (∃ token value, st_var st (env_name "DAEMON_TOKEN") = Some token ∧ headers = Some value ∧
        header_to_str value = Some ("Bearer " +:+ token)) ∧
     ∃ fresh i, intent_from_request str_debug fresh req = Ok i ∧ in_lab st i) ∧
  (∀ id m resp, WReply id m resp ∈ ths → resp_decision resp = "ALLOW" →
     containment_waived st = true ∧ ∃ fresh i, intent_from_msg str_debug fresh m = Ok i ∧ in_lab st i) ∧
  (containment_waived st = false → rt_blobs (app_lab s) = st_blobs st ∧ intents_executed s = 0%N).
Proof.
  intros (token & m & dr & Ht & _ & Hd & _ & Hz & Hm & Ho & _)%main_Ok Hs.
  destruct (serves_inv _ _ _ _ _ _ _ _ _ _ _ _ Hs Hz) as ([Hman Hbox Htok _ _ _ _] & Hj & _).
  rewrite Forall_forall in Hj.
  assert (Hlab : rt_manifest (app_lab s0) = m ∧ rt_blobs (app_lab s0) = st_blobs st ∧
    containment_demonstrated (rt_sandbox (app_lab s0)) = false).
  { apply bind_Ok in Ho as ([] & _ & Ho). apply bind_Ok in Ho as (h & _ & [= <-]). done. }
  destruct Hlab as (Em & Eb & Ec). destruct (lab_manifest_scope st m Hm) as [Hrc Hin].
  assert (Hi : ∀ i, permitted (rt_manifest (app_lab s)) (rt_sandbox (app_lab s)) i →
    containment_waived st = true ∧ in_lab st i).
  { rewrite Hman, Hbox, Em. intros i Hp.
    split; [|by eapply Hin].
    pose proof (permitted_contained _ _ _ Hp) as Hcd. rewrite Hrc, Ec in Hcd. destruct (containment_waived st); [done|].
    by specialize (Hcd eq_refl). }
  split_and!.
  - intros headers req resp Hth Ha. destruct (Hj _ Hth) as [Hau Hreq].
    destruct (Hreq Ha) as (fresh & i & Hf & [Hw Hin']%Hi). split_and!; [done| |by exists fresh, i].
    unfold authorized in Hau. rewrite Htok, Hd in Hau.
    apply Auth.bearer_authorized_spec in Hau as (_ & value & -> & Hv). by exists token, value.
  - intros id msg resp Hth Ha. destruct (Hj _ Hth Ha) as (fresh & i & Hf & [Hw Hin']%Hi). eauto.
  - intros Hw. rewrite Hw in Hrc.
    destruct (daemon_contained_inert _ _ _ _ _ _ _ _ _ _ _ _ _ _ _ _ _ _ Ho Hrc Hz Hs) as (Hb & He & _).
    split; [congruence|done].
Qed.

End Runs.

End Startup.

End Startup.
