(* ===== verification/Budget.v ===== *)
(** * Budgets and optional tools (crate [aros-core], [budget.rs] and [adapters.rs])

    The governor hands out permits for experiments up to the limit of the frozen
    manifest. The semaphore of [tokio] is an interface: what its documentation says
    of counting permits. The theorems hold for every sequence of requests and
    releases. The second part is the detection of optional tools on the path. *)

From S2P Require Import Prelude RustStr Types.

(** [tokio::sync::Semaphore] as far as the governor uses it; [release] is the drop
    of a permit. *)
Class SemaphoreLib := {
  sem : Type;
  sem_new : N → sem;
  try_acquire : sem → option sem;
  release : sem → sem;
  available_permits : sem → N;
}.
Class SemaphoreLaws (S : SemaphoreLib) : Prop := {
  available_new n : available_permits (sem_new n) = n;
  try_acquire_Some s s' : try_acquire s = Some s' → available_permits s = N.succ (available_permits s');
  try_acquire_None s : try_acquire s = None → available_permits s = 0%N;
  available_release s : available_permits (release s) = N.succ (available_permits s);
}.

Module Budget.

Section Budget.
Context `{S : SemaphoreLib}.

(** [src crates/aros-core/src/budget.rs 7-15 BudgetError] *)
Inductive BudgetError := ExperimentLimit | Timeout | Cancelled.

(** [src crates/aros-core/src/budget.rs 17-23 BudgetGovernor] *)
Record BudgetGovernor := mkGovernor {
  gov_budgets : ResourceBudgets;
  experiments : sem;
  sandboxes : sem;
  cells : sem;
}.

(** [src crates/aros-core/src/budget.rs 26-33 BudgetGovernor::new] *)
Definition BudgetGovernor_new (b : ResourceBudgets) : BudgetGovernor :=
  mkGovernor b (sem_new (max_concurrent_experiments b)) (sem_new (max_sandbox_instances b))
    (sem_new (max_research_cells b)).

Definition set_experiments (g : BudgetGovernor) (s : sem) : BudgetGovernor :=
  mkGovernor (gov_budgets g) s (sandboxes g) (cells g).

(** [src crates/aros-core/src/budget.rs 35-41 BudgetGovernor::acquire_experiment] *)
Definition acquire_experiment (g : BudgetGovernor) : BudgetGovernor * result BudgetError unit :=
  match try_acquire (experiments g) with
  | Some s => (set_experiments g s, Ok ())
  | None => (g, Err ExperimentLimit)
  end.

(** The permit goes out of scope. *)
Definition drop_permit (g : BudgetGovernor) : BudgetGovernor := set_experiments g (release (experiments g)).

(** [src crates/aros-core/src/budget.rs 43-45 BudgetGovernor::remaining_experiments] *)
Definition remaining_experiments (g : BudgetGovernor) : N := available_permits (experiments g).
(** [src crates/aros-core/src/budget.rs 56-58 BudgetGovernor::sandbox_limit] *)
Definition sandbox_limit (g : BudgetGovernor) : N := max_sandbox_instances (gov_budgets g).
(** [src crates/aros-core/src/budget.rs 60-62 BudgetGovernor::remaining_sandboxes] *)
Definition remaining_sandboxes (g : BudgetGovernor) : N := available_permits (sandboxes g).
(** [src crates/aros-core/src/budget.rs 64-66 BudgetGovernor::cell_permits] *)
Definition cell_permits (g : BudgetGovernor) : N := available_permits (cells g).

(** [timeout] is [tokio::time::timeout]: what the future gives, or nothing within
    that many milliseconds.
    [src crates/aros-core/src/budget.rs 47-54 BudgetGovernor::with_timeout] *)
Definition with_timeout {Fut T} (timeout : N → Fut → option T) (g : BudgetGovernor) (fut : Fut) :
    result BudgetError T :=
  ok_or (timeout (wall_time_ms (gov_budgets g)) fut) Timeout.

(** ** Every use of a governor *)

(** Experiments ask for a permit, which they hold until they drop it; [held] counts
    the permits that are out. *)
Inductive governed (b : ResourceBudgets) : BudgetGovernor → N → Prop :=
| governed_new : governed b (BudgetGovernor_new b) 0
| governed_acquired g g' held :
    governed b g held → acquire_experiment g = (g', Ok ()) → governed b g' (N.succ held)
| governed_refused g g' held e :
    governed b g held → acquire_experiment g = (g', Err e) → governed b g' held
| governed_dropped g held : governed b g (N.succ held) → governed b (drop_permit g) held.

Context `{!SemaphoreLaws S}.

Lemma governed_inv b g held :
  governed b g held →
  gov_budgets g = b ∧ (held + remaining_experiments g = max_concurrent_experiments b)%N ∧
  remaining_sandboxes g = max_sandbox_instances b ∧ cell_permits g = max_research_cells b.
Proof.
  induction 1 as [|g g' held _ (Hb & Hn & Hs & Hc) E|g g' held e _ IH E|g held _ (Hb & Hn & Hs & Hc)];
    unfold remaining_experiments, remaining_sandboxes, cell_permits, acquire_experiment in *.
  - cbn. rewrite !available_new. split_and!; [done|lia|done..].
  - destruct (try_acquire (experiments g)) as [s|] eqn:Ha; [|done]. injection E as <-.
    apply try_acquire_Some in Ha. cbn. split_and!; [done|lia|done..].
  - destruct (try_acquire (experiments g)); [done|]. by injection E as <-.
  - cbn. rewrite available_release. split_and!; [done|lia|done..].
Qed.

(** C40: however experiments come and go, permits in use and permits left add up to the
    limit of the manifest, so never more experiments run than it allows; a request
    is refused exactly when the limit is reached, and a permit that was dropped can
    be had again. The limits on sandboxes and research cells are never drawn on. *)
Theorem budget_enforced b g held :
  governed b g held →
  (held + remaining_experiments g = max_concurrent_experiments b)%N ∧
  (held <= max_concurrent_experiments b)%N ∧
  ((acquire_experiment g).2 = Err ExperimentLimit ↔ held = max_concurrent_experiments b) ∧
  ((0 < held)%N → (acquire_experiment (drop_permit g)).2 = Ok ()) ∧
  remaining_sandboxes g = sandbox_limit g ∧ cell_permits g = max_research_cells b.
Proof.
  intros (Hb & Hn & Hs & Hc)%governed_inv. unfold remaining_experiments in *.
  split_and!; [done|lia| | |unfold sandbox_limit; congruence|done].
  - unfold acquire_experiment. destruct (try_acquire (experiments g)) as [s|] eqn:Ha; cbn.
    + apply try_acquire_Some in Ha. split; [done|lia].
    + apply try_acquire_None in Ha. split; [lia|done].
  - intros _. unfold acquire_experiment. destruct (try_acquire _) eqn:Ha; [done|].
    apply try_acquire_None in Ha. cbn in Ha. rewrite available_release in Ha. lia.
Qed.

End Budget.

End Budget.

(** ** Optional tools *)

Module Adapters.

(** [src crates/aros-core/src/adapters.rs 5-10 DetectedTool] *)
Record DetectedTool := mkDetectedTool { tool_name : string; tool_path : string; tool_category : string }.

Lemma find_first {A} (f : A → bool) l x :
  List.find f l = Some x ↔
  ∃ before after, l = before ++ x :: after ∧ f x = true ∧ Forall (λ y, f y = false) before.
Proof.
  split.
  - induction l as [|y l IH]; cbn; [done|]. destruct (f y) eqn:Hf.
    + intros [= <-]. exists [], l. by split_and!.
    + intros (before & after & -> & Hx & Hall)%IH. exists (y :: before), after. split_and!; [done..|by constructor].
  - intros (before & after & -> & Hx & Hall). induction Hall as [|y before Hy _ IH]; cbn; [by rewrite Hx|].
    by rewrite Hy.
Qed.

Section Adapters.
(** The variable [PATH], and the host's regular files. *)
Variable path_var : option string.
Variable is_file : string → bool.

(** [Path::join] of a directory and the name of a program. *)
Definition in_dir (dir bin : string) : string :=
  if is_empty dir then bin else if ends_with dir "/" then dir +:+ bin else dir +:+ "/" +:+ bin.

(** Not on Windows, where the names of programs end in [.exe].
    [src crates/aros-core/src/adapters.rs 12-29 which] *)
Definition which (bin : string) : option string :=
  paths ← path_var;
  (λ dir, in_dir dir bin) <$> List.find (λ dir, is_file (in_dir dir bin)) (split_char ":" paths).

(** [src crates/aros-core/src/adapters.rs 33-44 detect_optional_engines] *)
Definition catalog : list (string * string) :=
  [("git", "git_inspect"); ("clang", "sanitizer_adapter"); ("semgrep", "static_analysis_adapter");
   ("codeql", "static_analysis_adapter"); ("afl-fuzz", "fuzz_adapter"); ("afl-fuzz++", "fuzz_adapter");
   ("afl-clang-fast", "fuzz_adapter"); ("klee", "symbolic_adapter"); ("fast-downward", "planner_adapter");
   ("grok", "harness")].

(** [src crates/aros-core/src/adapters.rs 31-55 detect_optional_engines] *)
Definition detect_optional_engines : list DetectedTool :=
  omap (λ '(bin, cat), (λ path, mkDetectedTool bin path cat) <$> which bin) catalog.

Lemma which_Some bin p :
  which bin = Some p ↔
  ∃ paths before dir after, path_var = Some paths ∧ split_char ":" paths = before ++ dir :: after ∧
    p = in_dir dir bin ∧ is_file p = true ∧ Forall (λ d, is_file (in_dir d bin) = false) before.
Proof.
  unfold which. destruct path_var as [paths|]; cbn; [|split; [done|by intros (? & ? & ? & ? & [=] & _)]].
  rewrite fmap_Some. setoid_rewrite find_first. naive_solver.
Qed.

(** Exactly the tools of the catalog that are found on the path are reported, in the
    order of the catalog, each at the first directory of the path that has it; the
    absence of a tool hides no other. *)
Theorem detected_exactly tool :
  tool ∈ detect_optional_engines ↔
  (tool_name tool, tool_category tool) ∈ catalog ∧ which (tool_name tool) = Some (tool_path tool).
Proof.
  unfold detect_optional_engines. rewrite list_elem_of_omap. split.
  - intros ([bin cat] & Hin & Hw). destruct (which bin) as [p|] eqn:E; [|done]. by injection Hw as <-.
  - intros [Hin Hw]. exists (tool_name tool, tool_category tool). split; [done|]. rewrite Hw. by destruct tool.
Qed.

Lemma detected_in_order : (tool_name <$> detect_optional_engines) `sublist_of` catalog.*1.
Proof.
  unfold detect_optional_engines. generalize catalog as l. induction l as [|[bin cat] l IH]; cbn; [done|].
  destruct (which bin); cbn; by constructor.
Qed.

End Adapters.

End Adapters.
