(* ===== verification/Processes.v ===== *)
(** * Child processes and what is looked for on the host (crates [aros-core],
      [campaign_loader.rs] and [verifier.rs], and [aros-sandbox])

    The loops that wait for a generator, for a command of the container runtime and
    for the end of a killed child, over what the operating system answers: the n-th
    poll of the child, the clock at that time, the text of its streams and when the
    last process that holds them open closes them. The components that start
    processes take the results of these loops from their environment. The theorems
    bound the wait for the exit, and say how the child was left; reading the streams
    is not bounded. The second part finds the interpreter and the entries of the
    harness catalog. *)

From S2P Require Import Prelude RustStr Net Json Types Ledger Cas Spec Sandbox Engine World Gate.
Import Engine.

Module Processes.

(** The answer of [try_wait]. *)
Inductive Poll := PExited (success : bool) | PRunning | PFailed.

(** A started child: its polls, the milliseconds since its start when the clock was
    read for the n-th time, its streams, the milliseconds until they reach their end,
    and whether they could be read. A stream ends when the last process that holds it
    open, the child or a process it left behind, closes it; [None] is never. *)
Record Child := mkChild {
  polls : nat → Poll;
  clock : nat → N;
  out : string;
  err : string;
  closes : option N;
  collected : bool;
}.

(** How a loop leaves its child: waited for, killed and waited for, or as it was. *)
Inductive Left := Reaped | Killed | Abandoned.

(** A call that waits returns, at some time since the start, or it blocks for ever. *)
Inductive Waited (A : Type) :=
| Returned (left : Left) (a : A) (at_ : N)
| Blocked.
Arguments Returned {A} _ _ _.
Arguments Blocked {A}.

(** [wait_with_output] on a child that exited at the n-th turn: its streams are read
    to their end.
    [src crates/aros-core/src/campaign_loader.rs 1591-1591 run_generator] *)
Definition read_streams {A} (c : Child) (n : nat) (a : A) : Waited A :=
  match closes c with
  | Some t => Returned Reaped a (N.max (clock c n) t)
  | None => Blocked
  end.

(** ** Generators *)

(** Standard output, and standard error on a line of its own.
    [src crates/aros-core/src/campaign_loader.rs 1592-1597 run_generator] *)
Definition combined_output (c : Child) : string :=
  if is_empty (err c) then from_utf8_lossy (out c)
  else from_utf8_lossy (out c) +:+ String newline "" +:+ from_utf8_lossy (err c).

(** [n] counts the turns taken; [None] when [fuel] turns were not enough. The killed
    child is waited for; [wait_with_output] waits for the end of the streams.
    [src crates/aros-core/src/campaign_loader.rs 1577-1597 run_generator] *)
Fixpoint await_generator (fuel : nat) (timeout : N) (c : Child) (n : nat) :
    option (Waited (result EngineError string)) :=
  match fuel with
  | 0 => None
  | S fuel =>
    if (timeout <? clock c n)%N
    then Some (Returned Killed (Err (EeFailClosed "generator exceeded wall_clock_seconds")) (clock c n))
    else
      match polls c n with
      | PFailed => Some (Returned Abandoned (Err EeIo) (clock c n))
      | PExited _ => Some (read_streams c n (if collected c then Ok (combined_output c) else Err EeIo))
      | PRunning => await_generator fuel timeout c (S n)
      end
  end.

(** The environment the generator gets. *)
Definition generator_env (target_root : string) (bind_file : option string) : list (string * string) :=
  (env_name "TARGET_ROOT", target_root) ::
  match bind_file with Some bind => [(env_name "BIND_FILE", bind)] | None => [] end.

(** [spawned] is the child, or the error of starting it.
    [src crates/aros-core/src/campaign_loader.rs 1556-1598 run_generator] *)
Definition run_generator (fuel : nat) (spawned : list (string * string) → result string Child) (timeout : N)
    (target_root : string) (bind_file : option string) : option (Waited (result EngineError string)) :=
  match spawned (generator_env target_root bind_file) with
  | Err error => Some (Returned Abandoned (Err (EeFailClosed ("generator spawn: " +:+ error))) 0%N)
  | Ok c => await_generator fuel timeout c 0
  end.

(** ** Commands of the container runtime *)

(** The streams are read to their end once the command has exited.
    [src crates/aros-sandbox/src/campaign_oci.rs 665-692 run_timeout] *)
Fixpoint await_command (fuel : nat) (timeout : N) (c : Child) (n : nat) :
    option (Waited (option Sandbox.Output)) :=
  match fuel with
  | 0 => None
  | S fuel =>
    match polls c n with
    | PExited success => Some (read_streams c n (Some (Sandbox.mkOutput success (out c) (err c))))
    | PRunning =>
      if (clock c n <? timeout)%N then await_command fuel timeout c (S n)
      else Some (Returned Killed None (clock c n))
    | PFailed => Some (Returned Abandoned None (clock c n))
    end
  end.

(** [src crates/aros-sandbox/src/campaign_oci.rs 660-693 run_timeout] *)
Definition run_timeout (fuel : nat) (spawned : option Child) (timeout : N) :
    option (Waited (option Sandbox.Output)) :=
  match spawned with
  | Some c => await_command fuel timeout c 0
  | None => Some (Returned Abandoned None 0%N)
  end.

(** The same function again, in the other file.
    [src crates/aros-sandbox/src/oci.rs 484-515 run_timeout] *)
Definition probe_run_timeout (fuel : nat) (spawned : option Child) (timeout : N) :
    option (Waited (option Sandbox.Output)) :=
  run_timeout fuel spawned timeout.

(** ** Killing a child *)

(** The child was killed before the loop; after it, it is killed and waited for.
    [src crates/aros-core/src/verifier.rs 446-457 terminate_child] *)
Fixpoint terminate_child (fuel : nat) (c : Child) (n : nat) : option Left :=
  match fuel with
  | 0 => None
  | S fuel =>
    if (clock c n <? 2000)%N then
      match polls c n with
      | PExited _ => Some Reaped
      | PRunning | PFailed => terminate_child fuel c (S n)
      end
    else Some Killed
  end.

(** ** Every wait ends *)

(** Between two readings of the clock at least [step] milliseconds were slept. *)
Definition ticking (step : N) (c : Child) : Prop := ∀ n, (clock c n + step <= clock c (S n))%N.

Lemma ticking_clock step c n : ticking step c → (N.of_nat n * step <= clock c n)%N.
Proof.
  intros Ht. induction n as [|n IH]; [cbn; lia|]. specialize (Ht n).
  rewrite Nat2N.inj_succ, N.mul_succ_l. lia.
Qed.

(** Turns that suffice for a wait of [timeout] with steps of [step]. *)
Definition turns (timeout step : N) : nat := N.to_nat (timeout / step + 2).

Lemma turns_pos timeout step : 0 < turns timeout step.
Proof. unfold turns. generalize (timeout / step)%N. intros q. lia. Qed.

Lemma turns_over timeout step c n :
  ticking step c → (0 < step)%N → turns timeout step <= S n → (timeout < clock c n)%N.
Proof.
  intros Ht Hs Hn. apply (ticking_clock _ _ n) in Ht. unfold turns in Hn.
  pose proof (N.mul_succ_div_gt timeout step ltac:(lia)) as Hq. revert Hn Hq.
  generalize (timeout / step)%N as q. intros q Hn Hq. assert (N.succ q <= N.of_nat n)%N by lia. nia.
Qed.

(** How the wait for a generator ends: killed at the first turn past the limit;
    exited at a turn within it, its output read when the streams end, if they do; or
    left as it is because polling failed. *)
Definition generator_ended (timeout : N) (c : Child) (w : Waited (result EngineError string)) : Prop :=
  match w with
  | Returned Killed r t => r = Err (EeFailClosed "generator exceeded wall_clock_seconds") ∧
      ∃ m, t = clock c m ∧ (timeout < clock c m)%N ∧ ∀ k, k < m → (clock c k <= timeout)%N ∧ polls c k = PRunning
  | Returned Reaped r t => r = (if collected c then Ok (combined_output c) else Err EeIo) ∧
      ∃ m success ended, polls c m = PExited success ∧ (clock c m <= timeout)%N ∧ closes c = Some ended ∧
        t = N.max (clock c m) ended
  | Returned Abandoned r t => r = Err EeIo ∧ ∃ m, polls c m = PFailed ∧ t = clock c m ∧ (clock c m <= timeout)%N
  | Blocked => closes c = None ∧ ∃ m success, polls c m = PExited success ∧ (clock c m <= timeout)%N
  end.

Lemma await_generator_ends timeout c fuel n :
  ticking 20 c → turns timeout 20 <= n + fuel → 0 < fuel →
  (∀ k, k < n → (clock c k <= timeout)%N ∧ polls c k = PRunning) →
  ∃ w, await_generator fuel timeout c n = Some w ∧ generator_ended timeout c w.
Proof.
  intros Ht. revert n. induction fuel as [|fuel IH]; intros n Hn Hf Hbefore; [lia|]. cbn.
  destruct (N.ltb_spec timeout (clock c n)) as [Hl|Hl]; [eexists; split; [done|]; cbn; eauto 6|].
  destruct (polls c n) as [success| |] eqn:Hp; [| |eexists; split; [done|]; cbn; eauto 6].
  - eexists. split; [done|]. unfold read_streams. destruct (closes c) as [t|] eqn:Hc; cbn; eauto 8.
  - apply IH; [lia| |].
    + destruct fuel; [|lia]. exfalso.
      assert (timeout < clock c n)%N by (apply (turns_over timeout 20); [done|lia|lia]). lia.
    + intros k Hk. destruct (decide (k = n)) as [->|]; [done|]. apply Hbefore. lia.
Qed.

(** C32: the wait for a generator to exit is bounded: for every child and whatever it
    does, the loop ends, after at most its time limit over the sleep of a turn and two
    turns more, in one of these ways. The child is killed and waited for, at the first
    turn at which the limit has passed, having run at every turn before; or it exited
    at a turn within the limit, and then its streams are read to their end: the call
    returns with their text at the time the last process that holds them open closes
    them, which nothing bounds, and never returns if that is never; or polling failed
    within the limit, and the child is left as it is. *)
Theorem generator_wait_ends spawned timeout target_root bind_file :
  (∀ c, spawned (generator_env target_root bind_file) = Ok c → ticking 20 c) →
  ∃ w, run_generator (turns timeout 20) spawned timeout target_root bind_file = Some w ∧
    match spawned (generator_env target_root bind_file) with
    | Ok c => generator_ended timeout c w
    | Err e => w = Returned Abandoned (Err (EeFailClosed ("generator spawn: " +:+ e))) 0%N
    end.
Proof.
  intros Ht. unfold run_generator. destruct (spawned _) as [c|e] eqn:Es; [|by eexists].
  apply await_generator_ends; [by apply Ht|done|apply turns_pos|lia].
Qed.

Lemma await_command_ends timeout c fuel n :
  ticking 50 c → turns timeout 50 <= n + fuel → 0 < fuel →
  ∃ w, await_command fuel timeout c n = Some w ∧
    match w with
    | Returned how r t => is_Some r → how = Reaped ∧ ∃ m success ended, polls c m = PExited success ∧
        closes c = Some ended ∧ t = N.max (clock c m) ended ∧
        r = Some (Sandbox.mkOutput success (out c) (err c))
    | Blocked => closes c = None ∧ ∃ m success, polls c m = PExited success
    end.
Proof.
  intros Ht. revert n. induction fuel as [|fuel IH]; intros n Hn Hf; [lia|]. cbn.
  destruct (polls c n) as [success| |] eqn:Hp.
  - eexists. split; [done|]. unfold read_streams. destruct (closes c) as [t|] eqn:Hc; [|by eauto].
    intros _. eauto 10.
  - destruct (N.ltb_spec (clock c n) timeout) as [Hl|Hl]; [|eexists; split; [done|by intros []]].
    apply IH; [lia|]. destruct fuel; [|lia]. exfalso.
    assert (timeout < clock c n)%N by (apply (turns_over timeout 50); [done|lia|lia]). lia.
  - eexists. split; [done|by intros []].
Qed.

(** The wait for a command of the container runtime to exit is bounded in the same
    way; the call answers only with the output of a child that exited and whose
    streams ended. *)
Theorem command_wait_ends spawned timeout :
  (∀ c, spawned = Some c → ticking 50 c) →
  ∃ w, run_timeout (turns timeout 50) spawned timeout = Some w ∧
    match w with
    | Returned how r _ => is_Some r → how = Reaped ∧ ∃ c m success ended, spawned = Some c ∧
        polls c m = PExited success ∧ closes c = Some ended ∧
        r = Some (Sandbox.mkOutput success (out c) (err c))
    | Blocked => ∃ c, spawned = Some c ∧ closes c = None
    end.
Proof.
  intros Ht. unfold run_timeout. destruct spawned as [c|]; [|by eexists; split; [done|intros []]].
  destruct (await_command_ends timeout c (turns timeout 50) 0) as (w & Ha & Hr);
    [by apply Ht|done|apply turns_pos|].
  exists w. split; [exact Ha|]. destruct w as [left r t|]; [|destruct Hr as [? _]; eauto].
  intros (Hl & m & success & ended & Hp & Hc & _ & ->)%Hr. eauto 10.
Qed.

(** A child that was told to stop is gone when [terminate_child] returns. *)
Theorem terminated_child_gone c : ticking 20 c → ∃ left, terminate_child (turns 2000 20) c 0 = Some left ∧ left ≠ Abandoned.
Proof.
  intros Ht. assert (Hf : ∀ fuel n, turns 2000 20 <= n + fuel → 0 < fuel →
    ∃ left, terminate_child fuel c n = Some left ∧ left ≠ Abandoned).
  { induction fuel as [|fuel IH]; intros n Hn Hf; [lia|]. cbn.
    destruct (N.ltb_spec (clock c n) 2000) as [Hl|Hl]; [|by exists Killed].
    assert (0 < fuel).
    { destruct fuel; [|lia]. assert (2000 < clock c n)%N by (apply (turns_over 2000 20); [done|lia|lia]). lia. }
    destruct (polls c n); [by exists Reaped|apply IH; lia..]. }
  apply Hf; [done|apply turns_pos].
Qed.

(** ** Output nobody reads *)

(** The streams of a child are pipes: one that has written more than a pipe holds,
    with nobody reading, waits and does not exit. *)
Definition piped (capacity : nat) (c : Child) : Prop :=
  ∀ n success, polls c n = PExited success → str_len (out c) <= capacity ∧ str_len (err c) <= capacity.

(** The loops read the streams only after the child exited: a generator or a command
    with more output than a pipe holds never gets to its end, and is reported as one
    that exceeded its time, whatever time it is given. *)
Theorem unread_output_times_out capacity timeout c :
  piped capacity c → capacity < str_len (out c) ∨ capacity < str_len (err c) → (∀ n, polls c n ≠ PFailed) →
  (ticking 20 c → ∃ t, await_generator (turns timeout 20) timeout c 0 =
     Some (Returned Killed (Err (EeFailClosed "generator exceeded wall_clock_seconds")) t)) ∧
  (ticking 50 c → ∃ how t, await_command (turns timeout 50) timeout c 0 = Some (Returned how None t)).
Proof.
  intros Hp Hout Hfail.
  assert (Hno : ∀ n success, polls c n ≠ PExited success) by (intros n success [? ?]%Hp; lia). split.
  - intros Ht. destruct (await_generator_ends timeout c (turns timeout 20) 0) as (w & Ha & Hl);
      [done|done|apply turns_pos|lia|]. destruct w as [[] r t|]; cbn in Hl.
    + destruct Hl as (_ & m & success & _ & Hx & _). by destruct (Hno m success).
    + destruct Hl as (-> & _). by exists t.
    + destruct Hl as (_ & m & Hx & _). by destruct (Hfail m).
    + destruct Hl as (_ & m & success & Hx & _). by destruct (Hno m success).
  - intros Ht. destruct (await_command_ends timeout c (turns timeout 50) 0) as (w & Ha & Hr);
      [done|done|apply turns_pos|]. destruct w as [left [o|] t|]; [|by exists left, t|].
    + destruct Hr as (_ & m & success & _ & Hx & _); [done|]. by destruct (Hno m success).
    + destruct Hr as (_ & m & success & Hx). by destruct (Hno m success).
Qed.

(** ** What is looked for on the host *)

Section Discovery.
Variable var : string → option string.
(** The interpreters that answer [--version]; the host's files and directories. *)
Variable answers is_file is_dir : string → bool.
(** The directory of the crate at build time, and the current one. *)
Variable crate_dir : string.
Variable cwd : option (list string).

(** [src crates/aros-core/src/verifier.rs 355-373 resolve_python] *)
Definition resolve_python : option string :=
  match var (env_name "PYTHON") with
  | Some explicit =>
    if is_empty (trim explicit) then List.find answers ["python3"; "python"] else Some explicit
  | None => List.find answers ["python3"; "python"]
  end.

(** [src crates/aros-core/src/campaign_loader.rs 1165-1189 harness_catalog_root] *)
Definition harness_catalog_root : option string :=
  match (explicit ← var (env_name "HARNESS_CATALOG"); if is_dir explicit then Some explicit else None) with
  | Some dir => Some dir
  | None =>
    let from_crate := crate_dir +:+ "/../../campaign-loader/harnesses" in
    if is_dir from_crate then Some from_crate
    else
      components ← cwd;
      List.find is_dir ((λ dir, Gate.below dir "campaign-loader/harnesses") <$> Gate.upward (reverse components))
  end.

(** [parent] is [Path::parent].
    [src crates/aros-core/src/campaign_loader.rs 1191-1199 catalog_harness_entry] *)
Definition catalog_harness_entry (parent : string → option string) (id : string) : option string :=
  root ← harness_catalog_root;
  let harness := Cas.path_join (Cas.path_join root id) "run.py" in
  if is_file harness then Some harness
  else
    dir ← parent root;
    let adapter := Cas.path_join (Cas.path_join (dir +:+ "/adapters") id) "run.py" in
    if is_file adapter then Some adapter else None.

(** An entry is a file of the catalog, or of the adapters beside it. *)
Theorem catalog_entry_found parent id entry :
  catalog_harness_entry parent id = Some entry →
  is_file entry = true ∧ ∃ root, harness_catalog_root = Some root ∧ is_dir root = true ∧
    (entry = Cas.path_join (Cas.path_join root id) "run.py" ∨
     ∃ dir, parent root = Some dir ∧ entry = Cas.path_join (Cas.path_join (dir +:+ "/adapters") id) "run.py").
Proof.
  assert (Hdir : ∀ root, harness_catalog_root = Some root → is_dir root = true).
  { intros root. unfold harness_catalog_root.
    assert (Hrest : (let from_crate := crate_dir +:+ "/../../campaign-loader/harnesses" in
      if is_dir from_crate then Some from_crate
      else components ← cwd;
           List.find is_dir ((λ dir, Gate.below dir "campaign-loader/harnesses") <$> Gate.upward (reverse components)))
      = Some root → is_dir root = true).
    { cbv zeta. destruct (is_dir (crate_dir +:+ _)) eqn:Hc; [by intros [= <-]|].
      destruct cwd as [components|]; cbn; [|done]. by intros [_ Hd]%List.find_some. }
    destruct (var _) as [explicit|]; cbn; [|exact Hrest].
    destruct (is_dir explicit) eqn:He; [by intros [= <-]|exact Hrest]. }
  unfold catalog_harness_entry. destruct harness_catalog_root as [root|]; cbn -[Cas.path_join]; [|done].
  destruct (is_file (Cas.path_join (Cas.path_join root id) "run.py")) eqn:Hf.
  - intros [= <-]. split; [done|]. exists root. eauto.
  - destruct (parent root) as [dir|] eqn:Hp; [|done]. cbn -[Cas.path_join String.append].
    case_match; [|done]. intros [= <-]. split; [done|]. exists root. eauto 8.
Qed.

End Discovery.

End Processes.
