(* ===== verification/Execution.v ===== *)
(** * The processes behind a declared campaign

    [World] takes what a started arm answers from the environment of the run. Here
    the answers come from the code that [run_arm] calls: [exec_generator_ex] of
    [CampaignOci] when the run is contained, [run_generator] of [Processes] when it
    is not. An environment realises a machinery when its processes are these calls,
    and then the verdict of a run rests on executions: commands of the container
    runtime on an isolated network, or children of the host that exited in time. *)

From S2P Require Import Prelude RustStr Net Json Types PathScope Policy Ledger.
From S2P Require Import Cas Store Graph Spec Claims Snapshot Declared Sandbox CampaignOci Engine.
From S2P Require Import Certificate World Campaign RunLaws EndToEnd Processes.
Import Ledger Spec Snapshot Declared Engine World Campaign.

Module Execution.

(** What the host answers when the n-th primitive starts a process: the container
    runtime, the child of [Command::spawn], and the disk the process leaves. *)
Record Machinery := mkMachinery {
  mach_podman : nat → CampaignOci.Host;
  mach_spawn : nat → Start → Disk → list (string * string) → result string Processes.Child;
  mach_disk : nat → Start → Disk → Disk;
}.

Section Execute.
Context `{U : UuidLib}.
(** [Display] of a sandbox error. *)
Variable sandbox_error_display : Sandbox.SandboxError → string.
Variable m : Machinery.

(** The time limit of a start in milliseconds. *)
Definition time_limit (s : Start) : N := (default 0 (start_timeout_seconds s) * 1000)%N.

(** [src crates/aros-core/src/campaign_loader.rs 1396-1403 run_arm] *)
Definition execute_contained (n : nat) (s : Start) : result EngineError string :=
  map_err (λ e, EeFailClosed (sandbox_error_display e))
    (CampaignOci.exec_generator_ex (mach_podman m n) (start_root s) (start_argv s)
       (default 0%N (start_memory_mb s)) (start_harness s) []).2.

(** The turns suffice for every child whose clock runs. A call that blocks for ever
    is taken for an error: a run in which that happens does not end.
    [src crates/aros-core/src/campaign_loader.rs 1405-1411 run_arm] *)
Definition execute_host (n : nat) (s : Start) (d : Disk) : result EngineError string :=
  match Processes.run_generator (Processes.turns (time_limit s) 20) (mach_spawn m n s d)
          (time_limit s) (start_root s) (start_bind_file s) with
  | Some (Processes.Returned _ r _) => r
  | Some Processes.Blocked | None => Err EeIo
  end.

(** [src crates/aros-core/src/campaign_loader.rs 1390-1411 run_arm] *)
Definition execute (n : nat) (s : Start) (d : Disk) : Disk * result EngineError string :=
  (mach_disk m n s d,
   if start_contained s then execute_contained n s else execute_host n s d).

(** The processes of an environment are executed by a machinery, whose clock runs. *)
Class Realises (env : Env) : Prop := {
  realises_exec : ∀ n s d, env_exec env n s d = execute n s d;
  realises_clock : ∀ n s d vars c, mach_spawn m n s d vars = Ok c → Processes.ticking 20 c;
}.

(** ** What an execution is *)

(** A generator ran beside the runtime's probes: on an internal network seen to be
    isolated, on the start's own tree, command, memory and harness, and its
    container and network were removed. *)
Definition executed_contained (s : Start) (text : string) : Prop :=
  ∃ n calls root image network container out last,
    let h := mach_podman m n in
    CampaignOci.h_canonicalize h (start_root s) = Some root ∧
    (CampaignOci.exec_generator_ex h (start_root s) (start_argv s) (default 0%N (start_memory_mb s))
       (start_harness s) []).1 =
      calls ++ [Sandbox.mkCall (CampaignOci.exec_args h root image network container (start_argv s)
                  (default 0%N (start_memory_mb s)) (start_harness s)) (Some out)] ++ last ∧
    CampaignOci.isolated network calls ∧ CampaignOci.cleaned container network last ∧
    CampaignOci.output_text h (Some out) = Ok text.

(** A child of the host, told the start's tree and bind file, exited within the
    start's time limit, and what it printed was read to the end of its streams. *)
Definition executed_host (s : Start) (text : string) : Prop :=
  ∃ n d c turn success,
    mach_spawn m n s d (Processes.generator_env (start_root s) (start_bind_file s)) = Ok c ∧
    Processes.polls c turn = Processes.PExited success ∧ (Processes.clock c turn <= time_limit s)%N ∧
    is_Some (Processes.closes c) ∧ Processes.collected c = true ∧ text = Processes.combined_output c.

Definition executed (s : Start) (text : string) : Prop :=
  if start_contained s then executed_contained s text else executed_host s text.

Lemma execute_contained_executed n s text :
  execute_contained n s = Ok text → executed_contained s text.
Proof.
  unfold execute_contained. intros Hr%map_err_Ok.
  destruct (CampaignOci.exec_generator_ex _ _ _ _ _ _) as [tr r] eqn:E. cbn in Hr. subst.
  destruct (CampaignOci.contained_generator_isolated _ _ _ _ _ _ _ _ E)
    as (calls & root & image & network & container & out & last & Htr & Hc & Hi & Hl & Ho).
  exists n, calls, root, image, network, container, out, last. cbv zeta. rewrite E. by split_and!.
Qed.

(** The answer of a host child is never the exhausted count of turns: the loop ended,
    in a result of the code or in reading streams that do not end. *)
Lemma execute_host_ends n s d :
  (∀ vars c, mach_spawn m n s d vars = Ok c → Processes.ticking 20 c) →
  ∃ w, Processes.run_generator (Processes.turns (time_limit s) 20) (mach_spawn m n s d)
      (time_limit s) (start_root s) (start_bind_file s) = Some w ∧
    match w with
    | Processes.Returned _ r _ => execute_host n s d = r
    | Processes.Blocked => ∃ c, mach_spawn m n s d (Processes.generator_env (start_root s) (start_bind_file s)) = Ok c ∧
        Processes.closes c = None
    end.
Proof.
  intros Ht. unfold execute_host, Processes.run_generator. destruct (mach_spawn _ _ _ _ _) as [c|e] eqn:E; [|by eexists].
  destruct (Processes.await_generator_ends (time_limit s) c (Processes.turns (time_limit s) 20) 0)
    as (w & Ha & Hw); [by eapply Ht|done|apply Processes.turns_pos|lia|]. exists w. rewrite Ha. split; [done|].
  destruct w; [done|]. destruct Hw as [? _]. eauto.
Qed.

Lemma execute_host_executed n s d text :
  (∀ vars c, mach_spawn m n s d vars = Ok c → Processes.ticking 20 c) →
  execute_host n s d = Ok text → executed_host s text.
Proof.
  intros Ht. unfold execute_host, Processes.run_generator. destruct (mach_spawn _ _ _ _ _) as [c|e] eqn:E; [|done].
  destruct (Processes.await_generator_ends (time_limit s) c (Processes.turns (time_limit s) 20) 0)
    as (w & Ha & Hw); [by eapply Ht|done|apply Processes.turns_pos|lia|]. rewrite Ha.
  destruct w as [[] r t|]; cbn in Hw; [|by destruct Hw as [-> _]..|done]. intros ->.
  destruct Hw as (Ho & turn & success & ended & Hp & Hc & He & _).
  destruct (Processes.collected c) eqn:Hcol; [|done]. injection Ho as ->.
  exists n, d, c, turn, success. by split_and!.
Qed.

Lemma answered_executed env s text :
  Realises env → answered env s (Some text) → executed s text.
Proof.
  intros [Hx Hclk] (n & d & Ho). rewrite Hx in Ho. unfold execute in Ho. cbn in Ho. unfold executed.
  destruct (start_contained s).
  - destruct (execute_contained n s) as [t|] eqn:E; [|done]. injection Ho as ->. by eapply execute_contained_executed.
  - destruct (execute_host n s d) as [t|] eqn:E; [|done]. injection Ho as ->.
    eapply execute_host_executed; [|exact E]. intros vars c. apply Hclk.
Qed.

End Execute.

(** The environment whose processes a machinery executes. *)
Definition with_machinery `{U : UuidLib} (sandbox_error_display : Sandbox.SandboxError → string) (env : Env) (m : Machinery) : Env := {|
  env_clock := env_clock env; env_uuid := env_uuid env; env_tmp := env_tmp env;
  env_cas_fault := env_cas_fault env; env_db_fault := env_db_fault env;
  env_write_fault := env_write_fault env; env_io_fault := env_io_fault env;
  env_catalog := env_catalog env; env_file := env_file env;
  env_exec := execute sandbox_error_display m;
  env_python_var := env_python_var env; env_version := env_version env; env_status := env_status env; env_cfg := env_cfg env |}.

#[export] Instance with_machinery_realises `{U : UuidLib} display env m
  (clocks : ∀ n s d vars c, mach_spawn m n s d vars = Ok c → Processes.ticking 20 c) :
  Realises display m (with_machinery display env m).
Proof. by split. Qed.

(** ** Declared campaigns over a machinery *)

Section Campaigns.
Context `{I : IpNetLib, U : UuidLib, !UuidLaws U, J : JsonLib, H : HashLib, !Serialize EventRecord,
  !Serialize AuthorizationManifest, TC : Store.JsonText Campaign,
  TL : Store.JsonText LedgerEntry, !Store.JsonTextLaws LedgerEntry,
  !Store.JsonText GraphNode, !Store.JsonText GraphEdge, !Store.JsonText ResearchFailureCard,
  TE : Store.JsonText Certificate.EvidenceCertificate,
  !Store.JsonTextLaws Certificate.EvidenceCertificate, G : Graph.DiGraph}.
Variable ledger_error_display : LedgerError → string.
Variable env : Env.
Variable work_root : string.
Variable regression_py : string.
Variable json_pretty : Value → string.
Variable sandbox_error_display : Sandbox.SandboxError → string.
Variable m : Machinery.
Context `{!Realises sandbox_error_display m env}.

#[local] Abbreviation run_declared_campaign :=
  (run_declared_campaign ledger_error_display env work_root regression_py json_pretty).

(** The text a run recorded for a process is what an execution printed. *)
Definition genuine (r : Run) : Prop := ∀ text, run_output r = Some text → executed m (run_start r) text.

Lemma declared_run_genuine spec rc target r : declared_run env work_root spec rc target r → genuine r.
Proof.
  intros [(root & g & _ & _ & _ & Ha)|[[python ->]|(candidate & _ & ->)]] text Ht; [|done..].
  rewrite Ht in Ha. by eapply answered_executed.
Qed.

Lemma runs_genuine self spec target_root manifest w w' r :
  run_declared_campaign self spec target_root manifest w = (w', r) → started genuine w w'.
Proof.
  intros (rs & Hrs & Hall)%run_starts. exists rs. split; [done|].
  eapply Forall_impl; [exact Hall|]. intros. by eapply declared_run_genuine.
Qed.

Lemma new_run_started P w w' r : started P w w' → new_run w w' r → P r.
Proof.
  intros (rs & Hrs & Hall) (rs' & Hrs' & Hin). rewrite Hrs in Hrs'. apply app_inv_head in Hrs' as <-.
  by eapply Forall_forall in Hin.
Qed.

(** During the run the surface's generator was executed on the target, in the
    container exactly when the run is contained, and what it printed was judged [j]. *)
Definition execution_judged (w w' : World) (spec : CampaignSpec) (rc : bool) (target_root : string)
    (j : OracleJudgement) (plan : string * CampaignGenerator * CampaignOracle) : Prop :=
  ∃ s text, new_run w w' (mkRun s (Some text)) ∧ arm_of spec rc target_root plan.1.2 s ∧
    start_contained s = rc ∧ executed m s text ∧ evaluate_oracle text plan.2 = j.

Lemma arm_contained spec rc root g s : arm_of spec rc root g s → start_contained s = rc.
Proof. intros (staged & cmd & argv & _ & _ & ->). by destruct rc. Qed.

Lemma observed_judged w0 w spec rc target_root c j plan :
  started genuine w0 w → observed w0 spec rc target_root c j w plan →
  execution_judged w0 w spec rc target_root j plan.
Proof.
  intros Hg (s & text & Hn & Ha & Hj & _). exists s, text. split_and!; try done.
  - by eapply arm_contained.
  - by apply (new_run_started _ _ _ _ Hg Hn).
Qed.

(** C4: the verdict of a run rests on executions. When the environment's processes
    are those of the container runtime and of the host, a verified finding means that
    the generator of some declared surface was executed on the target and what it
    printed was judged a success of the attack: in a contained run it ran in a
    container, on an internal network that the runtime's own commands had shown cut
    off from the internet, DNS, the gateway and IPv6, with the declared command,
    memory and harness, and the container and the network were removed afterwards;
    otherwise it is a child of the host that exited within the declared time and
    whose output was read to its end. A
    refutation means that this holds of every declared surface, each judged to hold.
    However the run ends, no text it recorded has any other origin. *)
Theorem verdict_rests_on_executions self spec target_root manifest w w' r :
  run_declared_campaign self spec target_root manifest w = (w', r) →
  let spec' := bound_spec env spec target_root w in
  let rc := contained_run self manifest in
  started genuine w w' ∧
  ∀ out fnd, r = Ok out → out_finding out = Some fnd →
  (finding_verified fnd = true → ∃ plan, plan ∈ attack_plans spec' ∧
     execution_judged w w' spec' rc target_root AttackSucceeded plan) ∧
  (campaign_state (out_campaign out) = CsRefuted →
     Forall (execution_judged w w' spec' rc target_root InvariantHolds) (attack_plans spec')).
Proof.
  intros Hr spec' rc. apply runs_genuine in Hr as Hg. split; [done|]. intros out fnd -> Hf.
  destruct (run_verdict _ _ _ _ _ _ _ _ _ _ _ _ _ Hr Hf) as (c & _ & _ & Hv & Href). split.
  - intros (_ & _ & plan & Hp & Ho)%Hv. exists plan. split; [done|]. by eapply observed_judged.
  - intros Hs%Href. eapply Forall_impl; [exact Hs|]. intros plan Ho. by eapply observed_judged.
Qed.

End Campaigns.

End Execution.
