(* ===== verification/Cli.v ===== *)
(** * The command line: daemon clients, evidence and records (crate [aros-cli],
      [main.rs])

    The commands that talk to a daemon, check evidence and keep records, as
    functions to an exit code and the lines they print; [Commands] has the others and
    the dispatcher. The theorems say that a remote command sends at most one
    request, to the loopback interface, and that checking the evidence of a finished
    run succeeds. *)

From S2P Require Import Prelude RustStr Net Json Types Policy Ledger Store HttpLab Spec.
From S2P Require Import Graph Snapshot Declared Engine Certificate World Campaign RunLaws EndToEnd.
From S2P Require Import Surface Gate Fixture.
Import Ledger HttpLab Engine Store Certificate.

Module Cli.

(** [std::process::ExitCode], or that of a process that panicked, with the lines of
    standard output and standard error. *)
Inductive ExitCode := SUCCESS | FAILURE | PANIC.
Record Exit := mkExit { exit_code : ExitCode; out_lines : list string; err_lines : list string }.
Definition failure (message : string) : Exit := mkExit FAILURE [] [message].
Definition success (message : string) : Exit := mkExit SUCCESS [message] [].

(** ** Addresses *)

(** [str::trim_start_matches] with a non-empty string: as often as it matches. *)
Fixpoint strip_prefixes (fuel : nat) (p s : string) : string :=
  match fuel, strip_prefix p s with
  | Datatypes.S fuel, Some rest => strip_prefixes fuel p rest
  | _, _ => s
  end.
Definition trim_start_str (p s : string) : string := strip_prefixes (str_len s) p s.
(** [split('/').next()] *)
Definition before_slash (s : string) : string := default s (split_char "/" s !! 0).

(** [src crates/aros-cli/src/main.rs 470-479 parse_live_url] *)
Definition parse_live_url (url : string) : option (string * N) :=
  let trimmed := trim_start_str "https://" (trim_start_str "http://" (trim url)) in
  '(host, port_s) ← rsplit_once ":" trimmed;
  let host := trim_end_matches (Ascii.eqb "/") host in
  port ← parse_uint u16_max (before_slash port_s);
  Some (host, port).

(** [src crates/aros-cli/src/main.rs 790-805 parse_loopback_http] *)
Definition parse_loopback_http (url : string) : result string (string * N) :=
  rest ← ok_or (strip_prefix "http://" url) "URL must be http://127.0.0.1";
  let hostport := before_slash rest in
  '(host, port) ← match rsplit_once ":" hostport with
                  | Some (h, p) => port ← ok_or (parse_uint u16_max p) "invalid port"; Ok (h, port)
                  | None => Ok (hostport, 80%N)
                  end;
  if negb (String.eqb host "127.0.0.1") && negb (String.eqb host "localhost")
  then Err "daemon URL must be loopback" else Ok (host, port).

(** ** The daemon's clients *)

Section Remote.
Context `{J : JsonLib}.
Variable var : string → option string.
Variable http_error_display : HttpError → string.

(** A variable that is set to something other than white space. *)
Definition set_var (name : string) : option string :=
  value ← var (env_name name);
  let value := trim value in if is_empty value then None else Some value.

(** [src crates/aros-cli/src/main.rs 770-775 daemon_url] *)
Definition daemon_url : option string := set_var "DAEMON_URL".

(** [src crates/aros-cli/src/main.rs 777-788 daemon_token] *)
Definition daemon_token : result string string :=
  ok_or (set_var "DAEMON_TOKEN") (env_name "DAEMON_TOKEN" +:+ " is required for remote daemon access").

(** [src crates/aros-cli/src/main.rs 823-828 run_campaign_remote] *)
Definition campaign_body (fixture kind work : string) (waive : bool) : Value :=
  JObject [("fixture_root", JString fixture); ("kind", JString kind); ("waive_containment", JBool waive);
           ("work_root", JString work)].

(** [src crates/aros-cli/src/main.rs 836-847 run_campaign_remote] *)
Definition show_response (unreachable : string) (r : result HttpError HttpResponse) : Exit :=
  match r with
  | Ok resp =>
    if (status resp <? 400)%N then success (body resp)
    else failure ("arosd error " +:+ display_N (status resp) +:+ ": " +:+ body resp)
  | Err e => failure (unreachable +:+ http_error_display e)
  end.

(** The address and the token of the daemon at [url], then the request.
    [src crates/aros-cli/src/main.rs 809-822 run_campaign_remote] *)
Definition with_daemon (url : string) (request : string → N → string → Exit) : Exit :=
  match parse_loopback_http url with
  | Err e => failure e
  | Ok (host, port) =>
    match daemon_token with
    | Err e => failure e
    | Ok token => request host port token
    end
  end.

Section Exchange.
Variable exchange : string → N → string → option string.

(** [src crates/aros-cli/src/main.rs 807-849 run_campaign_remote] *)
Definition run_campaign_remote (fixture kind work : string) (waive : bool) : Exit :=
  let url := default "http://127.0.0.1:7432" daemon_url in
  with_daemon url (λ host port token,
    show_response ("arosd unreachable at " +:+ url +:+ ": ")
      (http_post_json_bearer exchange host port "/v1/campaigns/fixture"
         (json_to_vec (campaign_body fixture kind work waive)) token)).

(** [show] is [show_record("campaign", id)].
    [src crates/aros-cli/src/main.rs 851-885 get_remote_campaign] *)
Definition get_remote_campaign (show : string → Exit) (campaign_id : string) : Exit :=
  match daemon_url with
  | None => show campaign_id
  | Some url =>
    with_daemon url (λ host port token,
      show_response "arosd unreachable: "
        (http_get_bearer exchange host port ("/v1/campaigns/" +:+ campaign_id) token))
  end.

End Exchange.

(** ** Remote commands stay on this machine *)

Definition loopback (host : string) : Prop := host = "127.0.0.1" ∨ host = "localhost".

Lemma parse_loopback_sound url host port : parse_loopback_http url = Ok (host, port) → loopback host.
Proof.
  unfold parse_loopback_http. intros (rest & _ & Hr)%bind_Ok. cbv zeta in Hr.
  apply bind_Ok in Hr as ([h p] & _ & Hr).
  destruct (String.eqb_spec h "127.0.0.1") as [->|]; [injection Hr as <- _; by left|].
  destruct (String.eqb_spec h "localhost") as [->|]; [injection Hr as <- _; by right|done].
Qed.

(** What a command [cmd] depends on outside: nothing, or the answer to one request
    that carries the token, sent to a loopback host. *)
Definition one_local_request {A} (cmd : (string → N → string → option string) → A) : Prop :=
  (∀ ex1 ex2, cmd ex1 = cmd ex2) ∨
  ∃ host port token method path payload,
    loopback host ∧ set_var "DAEMON_TOKEN" = Some token ∧
    let request := request_head host port method path payload (bearer_header token) +:+ default "" payload in
    ∀ ex1 ex2, ex1 host port request = ex2 host port request → cmd ex1 = cmd ex2.

Lemma one_local_map {A B} (f : A → B) cmd : one_local_request cmd → one_local_request (λ ex, f (cmd ex)).
Proof.
  intros [Hc|(host & port & token & method & path & payload & Hl & Ht & Hc)].
  - left. intros ex1 ex2. by rewrite (Hc ex1 ex2).
  - right. exists host, port, token, method, path, payload. split_and!; [done..|].
    cbv zeta in Hc |- *. intros ex1 ex2 E. by rewrite (Hc ex1 ex2 E).
Qed.

Lemma with_daemon_local url (request : (string → N → string → option string) → string → N → string → Exit)
    method path payload :
  (∀ ex1 ex2 host port token,
     let text := request_head host port method path payload (bearer_header token) +:+ default "" payload in
     ex1 host port text = ex2 host port text → request ex1 host port token = request ex2 host port token) →
  one_local_request (λ ex, with_daemon url (request ex)).
Proof.
  intros Hreq. unfold one_local_request, with_daemon.
  destruct (parse_loopback_http url) as [[host port]|e] eqn:Hp; [|by left].
  unfold daemon_token. destruct (set_var "DAEMON_TOKEN") as [token|] eqn:Ht; [|by left].
  right. exists host, port, token, method, path, payload. split_and!; [by eapply parse_loopback_sound|done|].
  intros ex1 ex2 E. cbn [ok_or]. by apply Hreq.
Qed.

(** A remote command sends at most one request, to the daemon on the loopback
    interface: whatever is configured as the daemon's address, no other host sees
    the token or can change what the command prints or returns, and without a
    token nothing is sent. *)
Theorem remote_commands_stay_local fixture kind work waive show campaign_id :
  one_local_request (λ ex, run_campaign_remote ex fixture kind work waive) ∧
  one_local_request (λ ex, get_remote_campaign ex show campaign_id) ∧
  (set_var "DAEMON_TOKEN" = None → ∀ ex1 ex2,
     run_campaign_remote ex1 fixture kind work waive = run_campaign_remote ex2 fixture kind work waive ∧
     get_remote_campaign ex1 show campaign_id = get_remote_campaign ex2 show campaign_id).
Proof.
  split_and!.
  - unfold run_campaign_remote. cbv zeta.
    apply (with_daemon_local _ _ "POST" "/v1/campaigns/fixture"
             (Some (json_to_vec (campaign_body fixture kind work waive)))).
    cbv zeta. intros ex1 ex2 host port token E. unfold http_post_json_bearer, http_exchange. by rewrite E.
  - unfold get_remote_campaign. destruct daemon_url as [url|]; [|by left].
    apply (with_daemon_local _ _ "GET" ("/v1/campaigns/" +:+ campaign_id) None).
    cbv zeta. intros ex1 ex2 host port token E. unfold http_get_bearer, http_exchange. by rewrite E.
  - intros Ht ex1 ex2. unfold run_campaign_remote, get_remote_campaign, with_daemon, daemon_token.
    rewrite Ht. cbv zeta. split; [|destruct daemon_url; [|done]]; by destruct (parse_loopback_http _) as [[]|].
Qed.

End Remote.

(** ** Records of the workspace *)

Section Workspace.
Variable store_error_display : StoreError → string.
(** Faults of the statement that writes a record. *)
Variable fault : bool.

(** [Store::open] and what follows, on the workspace's database. *)
Definition on_store {A} (f : Db → Db * result StoreError A) (wd : WorkDir) : WorkDir * result StoreError A :=
  match Store_open wd with
  | (wd, Err e) => (wd, Err e)
  | (wd, Ok db) => let '(db', r) := f db in (mkWorkDir (files wd) (DbTables db'), r)
  end.

(** [src crates/aros-cli/src/main.rs 714-725 record] *)
Definition record (kind id payload : string) (wd : WorkDir) : WorkDir * Exit :=
  match on_store (λ db, World.keep_db db (put_record fault kind id payload db)) wd with
  | (wd, Ok _) => (wd, success ("recorded " +:+ kind +:+ " " +:+ id))
  | (wd, Err e) => (wd, failure (store_error_display e))
  end.

(** [src crates/aros-cli/src/main.rs 727-740 list_kind] *)
Definition list_kind (kind : string) (wd : WorkDir) : WorkDir * Exit :=
  match on_store (λ db, (db, Ok (list_records kind db))) wd with
  | (wd, Ok rows) => (wd, mkExit SUCCESS ((λ r, r.1 +:+ String "009" "" +:+ r.2) <$> rows) [])
  | (wd, Err e) => (wd, failure (store_error_display e))
  end.

(** [src crates/aros-cli/src/main.rs 747-758 show_record] *)
Definition show_record (kind id : string) (wd : WorkDir) : WorkDir * Exit :=
  match on_store (λ db, (db, get_record kind id db)) wd with
  | (wd, Ok payload) => (wd, success payload)
  | (wd, Err e) => (wd, failure (store_error_display e))
  end.

(** [src crates/aros-cli/src/main.rs 699-707 init_ws] *)
Definition init_ws (path : string) (wd : WorkDir) : WorkDir * Exit :=
  let '(wd, _) := on_store (λ db, World.keep_db db (put_record fault "workspace" "init" "AROS" db)) wd in
  (wd, success ("initialized " +:+ path +:+ " (AROS workspace)")).

Lemma put_listed kind id payload db db' :
  put_record fault kind id payload db = Ok db' → (id, payload) ∈ list_records kind db'.
Proof.
  unfold put_record, list_records. destruct fault; [done|]. intros [= <-].
  rewrite merge_sort_Permutation, list_elem_of_fmap. exists (kind, id, payload). split; [done|].
  apply list_elem_of_filter. split; [done|]. cbn [records set_records].
  pose proof (upsert_find fst (kind, id, payload) (records db)) as Hu.
  destruct (list_find _ _) as [[k r]|] eqn:E in Hu; [|done]. injection Hu as ->.
  apply list_find_Some in E as (E & _). by eapply list_elem_of_lookup_2.
Qed.

(** A record was written into the tables that the workspace had, or has now. *)
Lemma record_Ok kind id payload wd wd' e :
  record kind id payload wd = (wd', e) → exit_code e = SUCCESS →
  ∃ db db', (Store_open wd).2 = Ok db ∧ put_record fault kind id payload db = Ok db' ∧
    database wd' = DbTables db'.
Proof.
  unfold record, on_store. destruct (Store_open wd) as [wd1 [db|er]]; [|by intros [= <- <-]].
  destruct (put_record fault kind id payload db) as [db'|er] eqn:Ep; cbn; [|by intros [= <- <-]].
  intros [= <- <-] _. by exists db, db'.
Qed.

Lemma on_tables {A} (f : Db → result StoreError A) wd db :
  database wd = DbTables db → on_store (λ db, (db, f db)) wd = (wd, f db).
Proof. unfold on_store, Store_open. intros E. rewrite E. cbn. rewrite <- E. by destruct wd. Qed.
Lemma on_opened {A} (f : Db → result StoreError A) wd db :
  (Store_open wd).2 = Ok db → (on_store (λ db, (db, f db)) wd).2 = f db.
Proof. unfold on_store. destruct (Store_open wd) as [wd1 [db1|e1]]; [|done]. by intros [= ->]. Qed.

(** What was recorded is shown: after a successful [record], in any workspace
    whose database can be opened, showing that record prints its payload, listing its kind
    has its line, and showing any other record prints what it printed before. *)
Theorem recorded_is_shown kind id payload wd wd' e :
  record kind id payload wd = (wd', e) → exit_code e = SUCCESS →
  show_record kind id wd' = (wd', success payload) ∧
  (∃ lines, list_kind kind wd' = (wd', mkExit SUCCESS lines []) ∧ id +:+ String "009" "" +:+ payload ∈ lines) ∧
  ∀ kind' id', (kind', id') ≠ (kind, id) → (show_record kind' id' wd').2 = (show_record kind' id' wd).2.
Proof.
  intros Hr Hs. destruct (record_Ok _ _ _ _ _ _ Hr Hs) as (db & db' & Ho & Hp & Ht).
  destruct (put_get_record _ _ _ _ _ _ Hp) as [Hg Hne]. split_and!.
  - unfold show_record. by rewrite (on_tables _ _ _ Ht), Hg.
  - unfold list_kind. rewrite (on_tables (λ db, Ok (list_records kind db)) _ _ Ht). eexists. split; [done|].
    apply list_elem_of_fmap. exists (id, payload). split; [done|]. by eapply put_listed.
  - intros kind' id' Hk. unfold show_record. rewrite (on_tables _ _ _ Ht), Hne by done.
    pose proof (on_opened (get_record kind' id') wd db Ho) as Hd.
    destruct (on_store _ wd) as [wd1 r]. cbn in Hd. subst r. by destruct (get_record kind' id' db).
Qed.

End Workspace.

(** ** Checking evidence *)

Section Evidence.
Context `{U : UuidLib, J : JsonLib, Hl : HashLib, !Serialize EventRecord, !JsonText LedgerEntry,
  !JsonText EvidenceCertificate}.
Variable ledger_error_display : LedgerError → string.
Variable store_error_display : StoreError → string.
Variable types_error_display : TypesError → string.
Variable engine_error_display : EngineError → string.
Variable id_error io_error : string.
Variable check_text : CertificateCheck → string.

#[local] Abbreviation check_certificate := (verify_certificate ledger_error_display store_error_display
  types_error_display id_error io_error engine_error_display).

(** [src crates/aros-cli/src/main.rs 990-998 verify_ledger] *)
Definition load_evidence (campaign_id : option string) (db : Db) : result StoreError EventLedger :=
  match campaign_id with
  | Some raw =>
    id ← ok_or (id_from_str raw) (StLedger id_error);
    load_ledger_for ledger_error_display id db
  | None => load_ledger ledger_error_display db
  end.

(** [src crates/aros-cli/src/main.rs 1002-1022 verify_ledger] *)
Definition verify_bundle (ok_line : string) (wd : WorkDir) : WorkDir * Exit :=
  match files wd !! [CERTIFICATE_FILE] with
  | None => (wd, success ok_line)
  | Some _ =>
    match check_certificate wd with
    | (wd, Ok check) =>
      (wd, mkExit (if check_statement_ok check then SUCCESS else FAILURE) [ok_line; check_text check] [])
    | (wd, Err e) =>
      (wd, mkExit FAILURE [ok_line] ["certificate verify failed: " +:+ engine_error_display e])
    end
  end.

(** [src crates/aros-cli/src/main.rs 987-1034 verify_ledger] *)
Definition verify_ledger (campaign_id : option string) (wd : WorkDir) : WorkDir * Exit :=
  match on_store (λ db, (db, load_evidence campaign_id db)) wd with
  | (wd, Err e) => (wd, failure ("ledger load failed: " +:+ store_error_display e))
  | (wd, Ok ledger) =>
    match verify ledger with
    | Err e => (wd, failure ("ledger verify failed: " +:+ ledger_error_display e))
    | Ok _ =>
      verify_bundle ("ledger ok (" +:+ display_N (N.of_nat (length ledger)) +:+ " events)") wd
    end
  end.

(** ** What the check says *)

Lemma verify_ledger_Ok campaign_id wd wd' e :
  verify_ledger campaign_id wd = (wd', e) → exit_code e = SUCCESS →
  wd' = wd ∧ ∃ db ledger, database wd = DbTables db ∧ load_evidence campaign_id db = Ok ledger ∧
    verify ledger = Ok () ∧
    match files wd !! [CERTIFICATE_FILE] with
    | None => True
    | Some _ => ∃ chk, check_certificate wd = (wd, Ok chk) ∧ check_statement_ok chk = true
    end.
Proof.
  unfold verify_ledger, on_store, Store_open. destruct (database wd) as [| |db] eqn:Hdb; cbn.
  - destruct (load_evidence _ Db_empty) as [l|er] eqn:El; [|by intros [= <- <-]].
    unfold load_evidence in El. destruct campaign_id as [raw|]; [|done].
    apply bind_Ok in El as (id & _ & El). done.
  - by intros [= <- <-].
  - assert (mkWorkDir (files wd) (DbTables db) = wd) as -> by (rewrite <- Hdb; by destruct wd).
    destruct (load_evidence campaign_id db) as [l|er] eqn:El; [|by intros [= <- <-]].
    destruct (verify l) as [[]|] eqn:Hv; [|by intros [= <- <-]]. unfold verify_bundle.
    destruct (files wd !! [CERTIFICATE_FILE]) as [raw|] eqn:Hf.
    2: { intros [= <- <-] _. split; [done|]. by exists db, l. }
    destruct (check_certificate wd) as [wd1 [chk|er]] eqn:Hc; [|by intros [= <- <-]].
    intros [= <- <-]. cbn. destruct (check_statement_ok chk) eqn:Hok; [|done]. intros _.
    destruct (statement_check_sound _ _ _ _ _ _ _ _ _ Hc Hok) as [-> _].
    split; [done|]. exists db, l. split_and!; [done..|]. by exists chk.
Qed.

(** If [aros evidence verify] succeeds, it changed nothing, the ledger of the
    campaign loads and its chain verifies; and if the work directory has a
    certificate, that certificate agrees with its digest, with its claims, with
    the persisted ledger of its own campaign and with the artifacts on disk. *)
Theorem evidence_verify_sound campaign_id wd wd' e :
  verify_ledger campaign_id wd = (wd', e) → exit_code e = SUCCESS →
  wd' = wd ∧ ∃ db ledger, database wd = DbTables db ∧ load_evidence campaign_id db = Ok ledger ∧
    verify ledger = Ok () ∧
    (files wd !! [CERTIFICATE_FILE] = None ∨
     ∃ c cid ledger', bundle_intact ledger_error_display wd c cid ledger').
Proof.
  intros Hv Hs. destruct (verify_ledger_Ok _ _ _ _ Hv Hs) as (-> & db & l & Hdb & Hload & Hver & Hc).
  split; [done|]. exists db, l. split_and!; [done..|].
  destruct (files wd !! [CERTIFICATE_FILE]) as [raw|] eqn:Hf; [right|by left].
  destruct Hc as (chk & Hc & Hok).
  destruct (statement_check_sound _ _ _ _ _ _ _ _ _ Hc Hok) as (_ & c & cid & l' & Hb & _). by exists c, cid, l'.
Qed.

End Evidence.

(** ** From a run to its check *)

Section RunAndCheck.
Context `{I : IpNetLib, U : UuidLib, !UuidLaws U, J : JsonLib, Hl : HashLib, !Serialize EventRecord,
  !Serialize AuthorizationManifest,
  !JsonText Campaign, !JsonText LedgerEntry, !JsonTextLaws LedgerEntry, !JsonText GraphNode,
  !JsonText GraphEdge, !JsonText ResearchFailureCard,
  !JsonText EvidenceCertificate, !JsonTextLaws EvidenceCertificate, G : Graph.DiGraph}.
Variable ledger_error_display : LedgerError → string.
Variable env : World.Env.
Variable work_root regression_py : string.
Variable json_pretty : Value → string.
Variable store_error_display : StoreError → string.
Variable types_error_display : TypesError → string.
Variable engine_error_display : EngineError → string.
Variable id_error io_error : string.
Variable check_text : CertificateCheck → string.

(** Checking the evidence of a finished security run with [aros evidence
    verify] succeeds, whatever the environment did during the run, if the two
    archived files hold what the outcome says: it reports the number of events of the run's ledger and a check without failures, and leaves
    the work directory as it was. *)
Theorem finished_run_verifies self spec target_root manifest w w' out :
  Campaign.run_declared_campaign ledger_error_display env work_root regression_py json_pretty self spec
    target_root manifest w = (w', Ok out) →
  meta_run_kind (out_declared out) = "security" → artifacts_present out (World.work w') →
  fits (World.ledger w') →
  ∃ chk, verify_ledger ledger_error_display store_error_display types_error_display engine_error_display
      id_error io_error check_text (Some (id_to_string (manifest_campaign_id manifest))) (World.work w') =
    (World.work w', mkExit SUCCESS
       ["ledger ok (" +:+ display_N (N.of_nat (length (World.ledger w'))) +:+ " events)"; check_text chk] []) ∧
    check_failures chk = [] ∧ check_release_eligible chk = bool_decide (limits_of out = []).
Proof.
  intros Hr Hk Hart Hfit. destruct (run_checks _ _ _ _ _ store_error_display types_error_display engine_error_display
    id_error io_error _ _ _ _ _ _ _ Hr Hk) as [_ Hchecks].
  destruct (Hchecks Hart Hfit) as (db & chk & Hdb & Hload & Hver & Hc & Hcf & _ & Hrel).
  exists chk. split_and!; [|done..]. unfold verify_ledger.
  rewrite (on_tables (load_evidence ledger_error_display id_error _) _ _ Hdb). unfold load_evidence.
  rewrite id_from_to_string. cbn [ok_or mbind result_bind]. rewrite Hload, Hver. unfold verify_bundle.
  destruct (statement_check_sound _ _ _ _ _ _ _ _ _ Hc) as (_ & c & cid & l & [(raw & Hf & _)] & _).
  { by apply (check_ok_iff _ _ _ _ _ _ _ _ _ Hc). }
  rewrite Hf, Hc. by rewrite (proj2 (check_ok_iff _ _ _ _ _ _ _ _ _ Hc) Hcf).
Qed.

End RunAndCheck.

End Cli.
