(* ===== verification/Commands.v ===== *)
(** * The commands of [aros] (crate [aros-cli], [main] of [main.rs])

    Every command as a transition of a shell: the disk with its work directories,
    what in-process campaigns observed, and the records of the workspace. The
    command arrives parsed; what it prints and returns is an [Exit]. The theorems
    follow a campaign from its command to the command that checks its evidence, and
    say when a command runs anything at all. *)

From S2P Require Import Prelude RustStr Net Json Types Policy Ledger Cas Authority Store HttpLab Ipc.
From S2P Require Import Graph Spec Claims Snapshot Surface Declared Verifier Sandbox CampaignOci Remains Engine Certificate World.
From S2P Require Import Fixture FixtureLaws Campaign RunLaws Planner Pddl EndToEnd Gate Drivers Budget Cli.
Import Ledger HttpLab Engine Store Certificate Cli.

Module Commands.

#[local] Existing Instances Gate.D_ret Gate.D_bind Fixture.F_ret Fixture.F_bind.

(** ** The command line *)

(** [src crates/aros-cli/src/main.rs 84-90 TargetCmd] *)
Inductive TargetCmd :=
| AddSource (path : string)
| AddCompose (path : string)
| TargetList
| TargetShow (target_id : string).

(** The arguments of [campaign run].
    [src crates/aros-cli/src/main.rs 141-166 CampaignCmd::Run] *)
Record RunArgs := mkRunArgs {
  a_fixture : option string;
  a_spec : option string;
  a_target : option string;
  a_kind : string;
  a_work : string;
  a_host : string;
  a_port : N;
  a_waive : bool;
  a_twin : option string;
  a_remote : bool;
}.

(** [src crates/aros-cli/src/main.rs 92-171 CampaignCmd] *)
Inductive CampaignCmd :=
| CmdClaim (target : string)
| CmdMap (target : string) (url : option string) (out : string)
| CmdPlan (target work pack : string)
| CmdCrew (target work pack : string) (waive : bool)
| CmdGate (target work pack : string) (waive : bool)
| CmdRun (args : RunArgs)
| CmdList
| CmdGet (campaign_id : string).

(** [src crates/aros-cli/src/main.rs 191-202 EvidenceCmd] *)
Inductive EvidenceCmd :=
| EvidenceShow (finding_id : string)
| EvidenceVerify (work : string) (campaign_id : option string).

(** [src crates/aros-cli/src/main.rs 26-82 Commands] *)
Inductive Command :=
| Doctor
| Init (path : string)
| TargetC (cmd : TargetCmd)
| CampaignC (cmd : CampaignCmd)
| GraphShow (campaign_id : string)
| GraphExport (campaign_id : string)
| HypothesisList (campaign_id : string)
| HypothesisShow (id : string)
| FindingList (campaign_id : string)
| FindingShow (finding_id : string)
| EvidenceC (cmd : EvidenceCmd)
| Replay (finding_id : string)
| Remediate (finding_id : string)
| Reattack (finding_id : string)
| BenchmarkSmoke
| BenchmarkPoc (work : string) (waive : bool)
| Demo (waive : bool) (fixture host : string) (port : N).

(** ** The shell *)

(** [disk] has a directory per work directory, [nested] the directories below one,
    [observed] what in-process fixture campaigns saw, [workspaces] the directory
    [.aros] of every workspace; the current one is at ["."]. *)
Record Shell := mkShell {
  disk : Gate.Site;
  nested : gmap string (gmap string (gmap string string * WorkDir));
  observed : list Fixture.Obs;
  workspaces : gmap string WorkDir;
}.

Definition set_disk (s : Shell) x := mkShell x (nested s) (observed s) (workspaces s).
Definition set_workspaces (s : Shell) x := mkShell (disk s) (nested s) (observed s) x.

(** A driver in work directory [work]. *)
Definition drive {A} (work : string) (m : Gate.D A) (s : Shell) : Shell * result Gate.Stop A :=
  let '(site, r) := m (Gate.mkSite (Gate.enter work (disk s)) (default ∅ (nested s !! work))) in
  (mkShell (Gate.leave work (Gate.top site) (disk s)) (<[work := Gate.dirs site]> (nested s))
     (observed s) (workspaces s), r).

(** A fixture campaign in work directory [work]. *)
Definition in_fixture {A} (work : string) (m : Fixture.F A) (s : Shell) : Shell * result Fixture.Stop A :=
  let '(fx, r) := m (Fixture.mkFx (Gate.enter work (disk s)) (observed s)) in
  (mkShell (Gate.leave work (Fixture.world fx) (disk s)) (nested s) (Fixture.seen fx) (workspaces s), r).

(** What the machine answers to the commands themselves. *)
Record Machine := mkMachine {
  mc_var : string → option string;
  mc_is_file : string → bool;
  mc_read : string → option string;
  (** Standard output and standard error of a program that ran. *)
  mc_run : string → list string → option (string * string);
  mc_uuid : string;
  (** Whether writing a record fails. *)
  mc_fault : bool;
  (** What [remove_dir_all] leaves of a directory. *)
  mc_removed : gmap string string * WorkDir → option (gmap string string * WorkDir);
  mc_report : Sandbox.ContainmentReport;
  mc_runtime : option string;
}.

(** [src crates/aros-cli/src/main.rs 887-894 parse_kind] *)
Definition parse_kind (s : string) : option Fixture.FixtureKind :=
  if String.eqb s "authz" then Some Fixture.Authz
  else if String.eqb s "path" then Some Fixture.Path
  else if String.eqb s "deceptive" then Some Fixture.Deceptive
  else None.

Definition text_or_null (o : option string) : Value := match o with Some s => JString s | None => JNull end.

(** Keys in the order of the map they are collected in.
    [src crates/aros-cli/src/main.rs 954-985 json_out] *)
Definition json_out `{UuidLib} (o : CampaignOutcome) : Value :=
  let d := out_declared o in
  JObject
    [("campaign_id", JString (id_to_string (campaign_id (out_campaign o))));
     ("certificate_path", text_or_null (meta_certificate_path d));
     ("contained", JBool (meta_contained d));
     ("control_good_result", text_or_null (meta_control_good_result d));
     ("control_mutant_result", text_or_null (meta_control_mutant_result d));
     ("deceptive_rejected", JBool (out_deceptive_rejected o));
     ("environment_notes", text_or_null (meta_environment_notes d));
     ("evidence_level", JString match out_evidence_level o with
                                | Some l => "Some(" +:+ level_debug l +:+ ")"
                                | None => "None"
                                end);
     ("harness_digest", text_or_null (meta_harness_digest d));
     ("independent_reproduced", JBool (meta_independent_reproduced d));
     ("ledger_verified", JBool (meta_ledger_verified d));
     ("live_reattack_confirmed", JBool (out_live_reattack_confirmed o));
     ("original_digest", JString (out_original_digest o));
     ("original_digest_after", JString (out_original_digest_after o));
     ("original_unmodified", JBool (String.eqb (out_original_digest o) (out_original_digest_after o)));
     ("regression_digest", text_or_null (meta_regression_digest d));
     ("regression_path", text_or_null (meta_regression_path d));
     ("report_path", text_or_null (meta_report_path d));
     ("required_evidence_met", JBool (meta_required_evidence_met d));
     ("research_card_id", text_or_null (out_research_card_id o));
     ("run_kind", JString (meta_run_kind d));
     ("state", JString (state_debug (campaign_state (out_campaign o))));
     ("surface_results", JArray (JString <$> meta_surface_results d));
     ("twin_holds", JBool (meta_twin_holds d));
     ("variant_holds", JBool (meta_variant_holds d));
     ("verified", match finding_verified <$> out_finding o with Some b => JBool b | None => JNull end);
     ("verifier_isolated", JBool (out_verifier_isolated o))].

(** ** Commands that run campaigns *)

Section Commands.
Context `{I : IpNetLib, U : UuidLib, J : JsonLib, Hl : HashLib, !Serialize EventRecord,
  !Serialize AuthorizationManifest, !Serialize FailureCategory, !Serialize EvidenceBundle,
  !Serialize AuthorityResult, !Serialize VerifierMode, !Deserialize AuthorityResult,
  !Serialize HypothesisRec, !JsonText Campaign, !JsonText LedgerEntry, !JsonText GraphNode,
  !JsonText GraphEdge, !JsonText HypothesisRec, !JsonText Fixture.ResearchCard,
  !JsonText Verifier.VerifierInput, !JsonText Verifier.VerifierProcessResult,
  !JsonText ResearchFailureCard, !JsonText EvidenceCertificate, !JsonText Spec.CampaignSpec,
  !JsonText Surface.SurfaceMap, !JsonText Drivers.EvalManifest, G : Graph.DiGraph}.
Variable ledger_error_display : LedgerError → string.
Variable engine_error_display : EngineError → string.
Variable store_error_display : StoreError → string.
Variable types_error_display : TypesError → string.
Variable http_error_display : HttpError → string.
Variable str_debug json_string : string → string.
Variable code_debug : Z → string.
Variable json_error id_error io_error regression_py : string.
Variable json_pretty : Value → string.
Variable surface_text : Surface.SurfaceMap → string.
Variable check_text : CertificateCheck → string.
Variable gate_text : Gate.GateResult → string.
Variable crew_text : Drivers.CrewReport → string.
Variable poc_text : Drivers.EvalReport → string.
Variable report_text : Sandbox.ContainmentReport → string.
Variable env : World.Env.
Variable ghost : Gate.GateHost.
Variable mc : Machine.
(** Turns for the search of a plan; a command that is given too few ends in [PANIC],
    which the program itself does not do here. *)
Variable fuel : nat.

#[local] Abbreviation run_declared work_root :=
  (Campaign.run_declared_campaign ledger_error_display env work_root regression_py json_pretty).

(** An outcome of the engine as an exit.
    [src crates/aros-cli/src/main.rs 910-919 run_declared_campaign] *)
Definition exit_of (refused : string) (r : result EngineError CampaignOutcome) : Exit :=
  match r with
  | Ok out => success (json_pretty (json_out out))
  | Err e => failure (refused +:+ engine_error_display e)
  end.

(** [src crates/aros-cli/src/main.rs 905-908 run_declared_campaign] *)
Definition declared_engine (waive : bool) (twin : option string) : CampaignEngine :=
  match twin with
  | Some twin => with_twin (CampaignEngine_new waive) twin
  | None => CampaignEngine_new waive
  end.

(** The campaign's own step, with its outcome.
    [src crates/aros-cli/src/main.rs 909-910 run_declared_campaign] *)
Definition declared_step (spec : Spec.CampaignSpec) (target work : string) (waive : bool)
    (twin : option string) : Gate.D (result EngineError CampaignOutcome) :=
  manifest ← Gate.on_top (Gate.default_declared_manifest env target);
  Gate.in_dir work (run_declared work (declared_engine waive twin) spec target manifest).

(** [src crates/aros-cli/src/main.rs 896-926 run_declared_campaign] *)
Definition run_declared_campaign (spec_path target work : string) (waive : bool) (twin : option string)
    (s : Shell) : Shell * Exit :=
  match Gate.load_campaign_file ghost json_error str_debug spec_path with
  | Err e => (s, failure ("campaign spec rejected: " +:+ engine_error_display e))
  | Ok spec =>
    match declared_step spec target work waive twin (disk s) with
    | (site, Ok r) => (set_disk s site, exit_of "declared campaign failed closed: " r)
    | (site, Err _) => (set_disk s site, mkExit PANIC [] [])
    end
  end.

Section Fixtures.
(** What surrounds the fixture campaigns this process runs itself. *)
Variable fx : Fixture.FxEnv.

(** [src crates/aros-cli/src/main.rs 940-943 run_campaign] *)
Definition fixture_step (fixture work host : string) (port : N) (kind : Fixture.FixtureKind)
    (waive : bool) : Fixture.F CampaignOutcome :=
  cid ← Fixture.ffresh env; tid ← Fixture.ffresh env;
  Fixture.run_fixture_campaign ledger_error_display json_string code_debug json_error env fx work fixture
    host port kind (CampaignEngine_new waive) (fixture_manifest cid tid fixture host port true).

(** [src crates/aros-cli/src/main.rs 928-953 run_campaign] *)
Definition run_campaign (fixture kind work host : string) (port : N) (waive : bool) (s : Shell) :
    Shell * Exit :=
  match parse_kind kind with
  | None => (s, failure "unknown fixture kind")
  | Some kind =>
    match in_fixture work (fixture_step fixture work host port kind waive) s with
    | (s, Ok out) => (s, exit_of "campaign failed: " (Ok out))
    | (s, Err (Fixture.Halted e)) => (s, exit_of "campaign failed: " (Err e))
    | (s, Err Fixture.Panicked) => (s, mkExit PANIC [] [])
    end
  end.

(** [src crates/aros-cli/src/main.rs 1036-1044 demo] *)
Definition demo (kind host : string) (port : N) (waive : bool) (s : Shell) : Shell * Exit :=
  let root := if String.eqb kind "deceptive" then "fixtures/deceptive" else "fixtures/vulnerable/" +:+ kind in
  let work := "data/demo-work" in
  let site := Gate.mkSite (Gate.top (disk s)) (partial_alter (λ d, d ≫= mc_removed mc) work (Gate.dirs (disk s))) in
  run_campaign root kind work host port waive (set_disk s site).

End Fixtures.

(** ** Commands about targets *)

(** [src crates/aros-cli/src/main.rs 481-495 print_project_claim] *)
Definition print_project_claim (target : string) : Exit :=
  match Claims.read_project_claim (mc_read mc (Cas.path_join target "INVARIANT.md")) with
  | Some c =>
    let q := String "034" "" in
    success ("{" +:+ q +:+ "cookie" +:+ q +:+ ":" +:+ q +:+ Claims.claim_cookie c +:+ q +:+ "," +:+
             q +:+ "path" +:+ q +:+ ":" +:+ q +:+ Claims.claim_path c +:+ q +:+ "," +:+
             q +:+ "needle" +:+ q +:+ ":" +:+ q +:+ Claims.claim_needle c +:+ q +:+ "}")
  | None => success "none"
  end.

(** [probe] is the answer of the live listener to the n-th request; the map is written
    below the current directory.
    [src crates/aros-cli/src/main.rs 497-523 map_surface] *)
Definition map_surface (probe : nat → string → N → string → option string) (target : string)
    (url : option string) (out : string) (s : Shell) : Shell * Exit :=
  let mapped live : Shell * Exit :=
    let map := t ← ok_or (World.trees (Gate.top (disk s)) !! target) EeIo;
               map_err (λ _, EeIo) (Surface.map_http_surface probe (Gate.gh_disk ghost) t live) in
    match map with
    | Err e => (s, failure ("surface map failed: " +:+ engine_error_display e))
    | Ok surface =>
      let '(w, r) := Gate.write_surface_map env [out] surface (Gate.top (disk s)) in
      (set_disk s (Gate.mkSite w (Gate.dirs (disk s))),
       match r with
       | Ok _ => mkExit SUCCESS [surface_text surface; "wrote " +:+ out] []
       | Err e => failure ("surface map failed: " +:+ engine_error_display e)
       end)
    end in
  match url with
  | None => mapped None
  | Some raw =>
    match parse_live_url raw with
    | Some listener => mapped (Some listener)
    | None => (s, failure ("invalid --url " +:+ raw +:+ " (expected http://host:port)"))
    end
  end.

(** [src crates/aros-cli/src/main.rs 534-545 run_plan] *)
Definition plan_text (plan : Pddl.CampaignPlan) (work : string) : string :=
  json_pretty (JObject
    [("campaigns", JArray (JString <$> Pddl.planned plan));
     ("source", JString match Pddl.source plan with
                        | Pddl.Strips => "strips"
                        | Pddl.FastDownward => "fast-downward"
                        end);
     ("work", JString work)]).

(** [src crates/aros-cli/src/main.rs 525-554 run_plan] *)
Definition run_plan (target work pack : string) (s : Shell) : Shell * Exit :=
  let plan_failed e := failure ("plan failed: " +:+ engine_error_display e) in
  match drive work (Gate.map_surface ghost target) s with
  | (s, Err (Gate.Halted e)) => (s, plan_failed e)
  | (s, Err Gate.Starved) => (s, mkExit PANIC [] [])
  | (s, Ok surface) =>
    let facts := Pddl.facts_from (Gate.gh_is_file ghost) target surface in
    match drive work (Gate.on_top (Pddl.plan_campaigns env (Gate.gh_plan ghost) work json_pretty fuel facts pack)) s with
    | (s, Err (Gate.Halted e)) => (s, plan_failed e)
    | (s, Err Gate.Starved) | (s, Ok None) => (s, mkExit PANIC [] [])
    | (s, Ok (Some plan)) =>
      match drive work (Gate.on_top (Pddl.write_pddl env plan)) s with
      | (s, Ok _) => (s, success (plan_text plan work))
      | (s, Err (Gate.Halted e)) => (s, failure ("plan write failed: " +:+ engine_error_display e))
      | (s, Err Gate.Starved) => (s, mkExit PANIC [] [])
      end
    end
  end.

(** A driver's verdict as an exit; [passes] decides the code. *)
Definition verdict {A} (failed : string) (text : A → string) (passes : result Gate.Stop A → bool)
    (r : result Gate.Stop A) : Exit :=
  match r with
  | Ok a => mkExit (if passes r then SUCCESS else FAILURE) [text a] []
  | Err (Gate.Halted e) => failure (failed +:+ engine_error_display e)
  | Err Gate.Starved => mkExit PANIC [] []
  end.

(** [src crates/aros-cli/src/main.rs 601-629 run_gate] *)
Definition run_gate (target work pack : string) (waive : bool) (s : Shell) : Shell * Exit :=
  let '(s, r) := drive work (Gate.run_release_gate ledger_error_display engine_error_display env ghost
    regression_py json_pretty json_error str_debug fuel target work pack waive) s in
  (s, verdict "gate failed: " gate_text Gate.gate_passes r).

(** [src crates/aros-cli/src/main.rs 556-582 run_crew] *)
Definition run_crew (target work pack : string) (waive : bool) (s : Shell) : Shell * Exit :=
  let '(s, r) := drive work (Drivers.run_deterministic_crew ledger_error_display engine_error_display env ghost
    regression_py json_pretty json_error str_debug fuel target work pack waive) s in
  (s, verdict "crew failed: " crew_text Drivers.crew_passes r).

(** [src crates/aros-cli/src/main.rs 584-599 run_poc] *)
Definition run_poc (work : string) (waive : bool) (s : Shell) : Shell * Exit :=
  let '(s, r) := drive work (Drivers.run_poc_eval_pack ledger_error_display engine_error_display env ghost
    regression_py json_pretty json_error str_debug work waive) s in
  (s, verdict "poc eval failed: " poc_text Drivers.poc_passes r).

(** ** The doctor *)

(** [src crates/aros-cli/src/main.rs 760-768 yn] *)
Definition yn (ok ran : bool) : string :=
  if negb ran then "NOT RUN — live OCI not claimable"
  else if ok then "REQUIRED demonstrated" else "UNSAFE/MISCONFIGURED".

(** [src crates/aros-cli/src/main.rs 631-645 which] *)
Definition which (bin : string) : string :=
  match Adapters.which (mc_var mc "PATH") (mc_is_file mc) bin with Some _ => "present" | None => "absent" end.

(** [src crates/aros-cli/src/main.rs 647-656 rustc_ver] *)
Definition rustc_ver : string :=
  trim (default "unknown" ('(out, _) ← mc_run mc "rustc" ["--version"]; if Ipc.is_utf8 out then Some out else None)).

(** The interpreters asked for their version.
    [src crates/aros-cli/src/main.rs 659-680 python_ver] *)
Definition python_commands : list (string * list string) :=
  [("py", ["-3.14"; "--version"]); ("python", ["--version"])] ++
  match mc_var mc "LOCALAPPDATA" with
  | Some dir => [(dir +:+ "/Programs/Python/Python314/python.exe", ["--version"])]
  | None => []
  end.

(** [src crates/aros-cli/src/main.rs 681-696 python_ver] *)
Fixpoint python_answer (cmds : list (string * list string)) : string :=
  match cmds with
  | [] => "missing"
  | (program, args) :: cmds =>
    match mc_run mc program args with
    | None => python_answer cmds
    | Some (out, err) =>
      let raw := if is_empty out then err else out in
      let t := trim raw in
      if Ipc.is_utf8 raw && (contains t "3.14" || starts_with t "Python 3.") then t else python_answer cmds
    end
  end.
Definition python_ver : string := python_answer python_commands.

(** [src crates/aros-cli/src/main.rs 464-468 wsl_hint] *)
Definition wsl_hint : bool :=
  match mc_read mc "/proc/version" with
  | Some text => contains (to_ascii_lowercase text) "microsoft"
  | None => false
  end.

(** The lines about the container runtime.
    [src crates/aros-cli/src/main.rs 364-390 doctor] *)
Definition runtime_lines : list string :=
  let r := mc_report mc in
  [if Sandbox.runtime_present r
   then "  container-runtime: REQUIRED found " +:+ default "podman" (mc_runtime mc)
   else "  container-runtime: UNSAFE/MISCONFIGURED — no podman/docker; campaigns fail closed";
   if Sandbox.machine_reachable r then "  podman-machine: REQUIRED reachable"
   else if Sandbox.runtime_present r
   then "  podman-machine: UNSAFE/MISCONFIGURED — run `podman machine start` (WSL2)"
   else "  podman-machine: UNSAFE/MISCONFIGURED";
   if Sandbox.internal_network r then "  network-isolation: REQUIRED internal network probe passed"
   else "  network-isolation: UNSAFE/MISCONFIGURED — internal --internal network not proven"].

(** [src crates/aros-cli/src/main.rs 391-421 doctor] *)
Definition packet_lines : list string :=
  let r := mc_report mc in
  let line name ok := "  packet-" +:+ name +:+ ": " +:+ yn ok (Sandbox.packet_probes_ran r) in
  [line "target-reachable" (Sandbox.target_reachable r);
   line "external-denied" (Sandbox.unauthorized_external_denied r);
   line "dns-bypass-denied" (Sandbox.dns_bypass_denied r);
   line "host-gateway-denied" (Sandbox.host_gateway_denied r);
   line "ipv6-bypass-denied" (Sandbox.ipv6_bypass_denied r);
   "  live_oci_claimable: " +:+
   (if Sandbox.live_oci_claimable r then "true"
    else "false — unwaived campaigns and `aros campaign gate` fail closed")].

(** [src crates/aros-cli/src/main.rs 422-460 doctor] *)
Definition optional_lines : list string :=
  (if wsl_hint
   then ["  wsl: OPTIONAL Microsoft WSL detected — start `podman machine` for live containment"] else []) ++
  ["  containment_report_json: " +:+ report_text (mc_report mc)] ++
  ((λ n, "  note: " +:+ n) <$> Sandbox.notes (mc_report mc)) ++
  ["  sqlite: REQUIRED path ./.aros/aros.db (rusqlite bundled)";
   "  git: OPTIONAL " +:+ which "git";
   "  aros-verifier: OPTIONAL " +:+ which "aros-verifier";
   "  grok-build: OPTIONAL " +:+ which "grok";
   match mc_var mc (env_name "THEUSTAD_URL") with
   | Some url => if is_empty url then "  theustad: OPTIONAL not installed" else "  theustad: OPTIONAL configured " +:+ url
   | None => "  theustad: OPTIONAL not installed"
   end;
   match daemon_url (mc_var mc) with
   | Some url => "  arosd: OPTIONAL " +:+ url
   | None => "  arosd: OPTIONAL unset (in-process CLI; set " +:+ env_name "DAEMON_URL" +:+ ")"
   end;
   "  model-provider: OPTIONAL local OpenAI-compatible (not required for mock loop)"] ++
  ((λ t, "  engine-" +:+ Adapters.tool_name t +:+ ": OPTIONAL " +:+ Adapters.tool_category t +:+ " (" +:+
         Adapters.tool_path t +:+ ")") <$>
     Adapters.detect_optional_engines (mc_var mc "PATH") (mc_is_file mc)).

(** [src crates/aros-cli/src/main.rs 358-462 doctor] *)
Definition doctor : Exit :=
  mkExit SUCCESS
    (["AROS doctor"; "  rustc: REQUIRED present (" +:+ rustc_ver +:+ ")";
      "  python: REQUIRED>=3.14  host=" +:+ python_ver] ++
     runtime_lines ++ packet_lines ++ optional_lines) [].

(** ** The dispatcher *)

Section Main.
(** What surrounds fixture campaigns, the answers of a live listener, and one
    exchange with the daemon. *)
Variable fx : Fixture.FxEnv.
Variable probe : nat → string → N → string → option string.
Variable exchange : string → N → string → option string.

Definition on_workspace (path : string) (f : WorkDir → WorkDir * Exit) (s : Shell) : Shell * Exit :=
  let '(wd, e) := f (default (mkWorkDir ∅ DbMissing) (workspaces s !! path)) in
  (set_workspaces s (<[path := wd]> (workspaces s)), e).
Definition add_record kind id payload :=
  on_workspace "." (record store_error_display (mc_fault mc) kind id payload).
Definition list_records kind := on_workspace "." (list_kind store_error_display kind).
Definition show kind id := on_workspace "." (show_record store_error_display kind id).

(** [src crates/aros-cli/src/main.rs 742-745 list_kind_filtered] *)
Definition list_kind_filtered (kind campaign_id : string) (s : Shell) : Shell * Exit :=
  let '(s, e) := list_records kind s in
  (s, mkExit (exit_code e) (("listing " +:+ kind +:+ " for campaign " +:+ campaign_id) :: out_lines e) (err_lines e)).

(** [src crates/aros-cli/src/main.rs 263-296 main] *)
Definition campaign_run (a : RunArgs) (s : Shell) : Shell * Exit :=
  let remote := a_remote a || bool_decide (is_Some (daemon_url (mc_var mc))) in
  match a_spec a with
  | Some spec_path =>
    if remote then (s, failure "declared campaigns run in-process; --remote is not wired")
    else
      match a_target a with
      | None => (s, failure "--spec requires --target (pinned project checkout)")
      | Some target_root => run_declared_campaign spec_path target_root (a_work a) (a_waive a) (a_twin a) s
      end
  | None =>
    match a_fixture a with
    | None => (s, failure "provide --fixture --kind, or --spec --target")
    | Some fixture =>
      if remote then
        (s, run_campaign_remote (mc_var mc) http_error_display exchange fixture (a_kind a) (a_work a) (a_waive a))
      else run_campaign fx fixture (a_kind a) (a_work a) (a_host a) (a_port a) (a_waive a) s
    end
  end.

(** The evidence of work directory [work].
    [src crates/aros-cli/src/main.rs 323-325 main] *)
Definition evidence_verify (work : string) (campaign_id : option string) (s : Shell) : Shell * Exit :=
  let '(bs, wd) := default (∅, mkWorkDir ∅ DbMissing) (Gate.dirs (disk s) !! work) in
  let '(wd, e) := verify_ledger ledger_error_display store_error_display types_error_display
                    engine_error_display id_error io_error check_text campaign_id wd in
  (set_disk s (Gate.mkSite (Gate.top (disk s)) (<[work := (bs, wd)]> (Gate.dirs (disk s)))), e).

(** [src crates/aros-cli/src/main.rs 221-234 main] *)
Definition target_cmd (cmd : TargetCmd) : Shell → Shell * Exit :=
  match cmd with
  | AddSource path => add_record "target" (mc_uuid mc) ("source:" +:+ path)
  | AddCompose path => add_record "target" (mc_uuid mc) ("compose:" +:+ path)
  | TargetList => list_records "target"
  | TargetShow target_id => show "target" target_id
  end.

(** Without a daemon, [campaign get] shows a record of the workspace.
    [src crates/aros-cli/src/main.rs 235-300 main] *)
Definition campaign_cmd (cmd : CampaignCmd) (s : Shell) : Shell * Exit :=
  match cmd with
  | CmdClaim target => (s, print_project_claim target)
  | CmdMap target url out => map_surface probe target url out s
  | CmdPlan target work pack => run_plan target work pack s
  | CmdCrew target work pack waive => run_crew target work pack waive s
  | CmdGate target work pack waive => run_gate target work pack waive s
  | CmdRun args => campaign_run args s
  | CmdList => list_records "campaign" s
  | CmdGet id =>
    (match daemon_url (mc_var mc) with None => (show "campaign" id s).1 | Some _ => s end,
     get_remote_campaign (mc_var mc) http_error_display exchange (λ id, (show "campaign" id s).2) id)
  end.

(** [src crates/aros-cli/src/main.rs 216-356 main] *)
Definition main (cmd : Command) (s : Shell) : Shell * Exit :=
  match cmd with
  | Doctor => (s, doctor)
  | Init path => on_workspace path (init_ws (mc_fault mc) path) s
  | TargetC cmd => target_cmd cmd s
  | CampaignC cmd => campaign_cmd cmd s
  | GraphShow id => (s, success ("graph summary for " +:+ id +:+ ": see .aros/aros.db events"))
  | GraphExport id =>
    let q := String "034" "" in
    (s, success ("{" +:+ q +:+ "campaign_id" +:+ q +:+ ":" +:+ q +:+ id +:+ q +:+ "," +:+
                 q +:+ "format" +:+ q +:+ ":" +:+ q +:+ "json" +:+ q +:+ "}"))
  | HypothesisList id => list_kind_filtered "hypothesis" id s
  | HypothesisShow id => show "hypothesis" id s
  | FindingList id => list_kind_filtered "finding" id s
  | FindingShow id => show "finding" id s
  | EvidenceC (EvidenceShow id) => show "evidence" id s
  | EvidenceC (EvidenceVerify work campaign_id) => evidence_verify work campaign_id s
  | Replay id => (s, success ("replay request recorded for finding " +:+ id))
  | Remediate id => (s, success ("remediation request recorded for finding " +:+ id))
  | Reattack id => (s, success ("reattack request recorded for finding " +:+ id))
  | BenchmarkSmoke => (s, success "benchmark smoke: use fixtures + acceptance gate")
  | BenchmarkPoc work waive => run_poc work waive s
  | Demo waive fixture host port => demo fx fixture host port waive s
  end.

End Main.

(** ** What the network can do to a command *)

Abbreviation local_request := (one_local_request (mc_var mc)).

(** The listener a command was told to probe. *)
Definition listener (cmd : Command) : option (string * N) :=
  match cmd with
  | CampaignC (CmdMap _ (Some url) _) => parse_live_url url
  | _ => None
  end.

(** The command runs a fixture campaign in its own process. *)
Definition in_process (cmd : Command) : bool :=
  match cmd with
  | CampaignC (CmdRun a) =>
    negb (a_remote a || bool_decide (is_Some (daemon_url (mc_var mc)))) && bool_decide (a_spec a = None) &&
    bool_decide (is_Some (a_fixture a))
  | Demo _ _ _ _ => true
  | _ => false
  end.

Lemma map_surface_listener probe probe' target url out s :
  (∀ host port, url ≫= parse_live_url = Some (host, port) →
     ∀ n request, probe n host port request = probe' n host port request) →
  map_surface probe target url out s = map_surface probe' target url out s.
Proof.
  intros Hp. unfold map_surface. destruct url as [raw|]; [|done]. cbn in Hp.
  destruct (parse_live_url raw) as [[host port]|]; [|done]. specialize (Hp host port eq_refl).
  destruct (World.trees (Gate.top (disk s)) !! target) as [t|]; [|done]. cbn.
  by rewrite (Surface.map_listener probe probe' (Gate.gh_disk ghost) t host port Hp).
Qed.

(** C27: what another host can change of a command: of what it does to the shell, what
    it prints and what it returns. Of the daemon, the command depends on the answer to
    one request at most, sent to the loopback interface with the token; without a
    token it depends on none. [campaign map --url] depends besides on what the listener
    of that address answers, and on no other address; and no command but those that
    run a fixture campaign in their own process, [campaign run --fixture] without a
    daemon and [demo], depends on what surrounds fixture campaigns, the target at
    [--host] among it. (What the processes of a declared campaign print and do is the
    environment's, and the same throughout.) *)
Theorem commands_stay_local fx probe cmd s :
  local_request (λ ex, main fx probe ex cmd s) ∧
  (set_var (mc_var mc) "DAEMON_TOKEN" = None → ∀ ex1 ex2, main fx probe ex1 cmd s = main fx probe ex2 cmd s) ∧
  ∀ fx' probe' ex,
    (∀ host port, listener cmd = Some (host, port) →
       ∀ n request, probe n host port request = probe' n host port request) →
    (in_process cmd = true → fx = fx') →
    main fx probe ex cmd s = main fx' probe' ex cmd s.
Proof.
  apply and_assoc. split.
  - destruct (remote_commands_stay_local (mc_var mc) http_error_display
      (match cmd with CampaignC (CmdRun a) => default "" (a_fixture a) | _ => "" end)
      (match cmd with CampaignC (CmdRun a) => a_kind a | _ => "" end)
      (match cmd with CampaignC (CmdRun a) => a_work a | _ => "" end)
      (match cmd with CampaignC (CmdRun a) => a_waive a | _ => false end)
      (λ id, (show "campaign" id s).2) (match cmd with CampaignC (CmdGet id) => id | _ => "" end))
      as (Hrun & Hget & Hnone).
    destruct cmd as [| | |cmd| | | | | | | | | | | | |]; try (split; [by left|done]).
    destruct cmd as [| | | | |a| |id]; try (split; [by left|done]); cbn [main campaign_cmd].
    + unfold campaign_run. destruct (a_spec a); [split; [by left|done]|]. destruct (a_fixture a); [|split; [by left|done]].
      destruct (a_remote a || _); [|split; [by left|done]]. split; [by apply (one_local_map _ (pair s))|].
      intros Ht ex1 ex2. f_equal. by apply Hnone.
    + split; [by apply (one_local_map _ (pair _))|]. intros Ht ex1 ex2. f_equal. by apply Hnone.
  - intros fx' probe' ex Hp Hfx.
    destruct cmd as [| | |cmd| | | | | | | | | | | | |]; cbn [main]; try lazymatch goal with |- ?x = ?x => reflexivity end;
      [|by rewrite Hfx].
    destruct cmd as [|target url out| | | |a| |]; cbn [campaign_cmd]; try lazymatch goal with |- ?x = ?x => reflexivity end.
    + apply map_surface_listener. intros host port Hu. apply Hp. by destruct url.
    + unfold campaign_run. cbn [in_process] in Hfx. destruct (a_spec a); [reflexivity|].
      destruct (a_fixture a); [|reflexivity]. destruct (a_remote a || _); [reflexivity|]. by rewrite Hfx.
Qed.

(** ** Running and checking a declared campaign *)

Section Runs.
Variable fx : Fixture.FxEnv.
Variable probe : nat → string → N → string → option string.
#[local] Abbreviation aros := (main fx probe).

(** What work directory [d] holds. *)
Definition directory (d : string) (s : Shell) : gmap string string * WorkDir :=
  default (∅, mkWorkDir ∅ DbMissing) (Gate.dirs (disk s) !! d).

(** A command that ran a declared campaign to its end: the specification was
    loaded, and the work directory holds what the run left there. *)
Lemma declared_command ex a spec_path s s' e :
  aros ex (CampaignC (CmdRun a)) s = (s', e) → a_spec a = Some spec_path → exit_code e = SUCCESS →
  ∃ spec target cid tid w w' out,
    Gate.load_campaign_file ghost json_error str_debug spec_path = Ok spec ∧ a_target a = Some target ∧
    run_declared (a_work a) (declared_engine (a_waive a) (a_twin a)) spec target
      (default_deny_local cid tid target) w = (w', Ok out) ∧
    World.trees w = World.trees (Gate.top (disk s)) ∧ World.runs w = World.runs (Gate.top (disk s)) ∧
    (World.blobs w, World.work w) = directory (a_work a) s ∧
    e = success (json_pretty (json_out out)) ∧
    Gate.dirs (disk s') !! a_work a = Some (World.blobs w', World.work w') ∧
    World.trees (Gate.top (disk s')) = World.trees w' ∧ World.runs (Gate.top (disk s')) = World.runs w'.
Proof.
  cbn [main campaign_cmd]. unfold campaign_run. intros Hr Hs He. rewrite Hs in Hr.
  destruct (a_remote a || _); [by injection Hr as <- <-|].
  destruct (a_target a) as [target|]; [|by injection Hr as <- <-].
  unfold run_declared_campaign in Hr.
  destruct (Gate.load_campaign_file _ _ _ _) as [spec|er]; [|by injection Hr as <- <-].
  unfold declared_step, mbind, Gate.D_bind in Hr.
  destruct (Drivers.manifest_total env target (Gate.top (disk s))) as (w1 & cid & tid & Hm & Hw).
  unfold Gate.on_top in Hr. rewrite Hm in Hr. cbn [map_err] in Hr. unfold Gate.in_dir in Hr.
  destruct (run_declared (a_work a) _ _ _ _ _) as [w' r] eqn:Er. injection Hr as <- <-.
  destruct r as [out|er]; [|done].
  eexists spec, target, cid, tid, _, w', out. split_and!; [done..|exact Er| | | |done| |done|done].
  - cbn. unfold Gate.enter. case_match. apply Hw.
  - cbn. unfold Gate.enter. case_match. apply Hw.
  - unfold Gate.enter, directory. cbn [Gate.dirs]. by destruct (default _ _).
  - cbn. apply lookup_insert_eq.
Qed.

(** C2: a declared campaign that the command line ran to its end loaded the
    specification file it was given, ran the engine on that specification, on the
    target it was given, under a manifest for that target that requires containment
    unless it was waived, from the disk and the work directory of the shell, and
    printed the outcome; the shell holds what the run left. For a security run whose
    two archived files hold what the outcome says, which they do when no process
    changes them, checking the evidence of that work directory, with the campaign
    identifier that was printed, succeeds: the ledger verifies, the certificate has no
    failures and is release eligible exactly when the outcome has no limits, and the
    check changes no work directory. *)
Theorem run_then_verify `{!UuidLaws U, !JsonTextLaws LedgerEntry, !JsonTextLaws EvidenceCertificate}
    ex a spec_path s s' e :
  aros ex (CampaignC (CmdRun a)) s = (s', e) → a_spec a = Some spec_path → exit_code e = SUCCESS →
  ∃ spec target cid tid w w' out,
    Gate.load_campaign_file ghost json_error str_debug spec_path = Ok spec ∧ a_target a = Some target ∧
    run_declared (a_work a) (declared_engine (a_waive a) (a_twin a)) spec target
      (default_deny_local cid tid target) w = (w', Ok out) ∧
    World.trees w = World.trees (Gate.top (disk s)) ∧ World.runs w = World.runs (Gate.top (disk s)) ∧
    (World.blobs w, World.work w) = directory (a_work a) s ∧
    e = success (json_pretty (json_out out)) ∧
    Gate.dirs (disk s') !! a_work a = Some (World.blobs w', World.work w') ∧
    World.trees (Gate.top (disk s')) = World.trees w' ∧ World.runs (Gate.top (disk s')) = World.runs w' ∧
    (meta_run_kind (out_declared out) = "security" →
     (processes_keep env artifact_keys → artifacts_present out (World.work w')) ∧
     (artifacts_present out (World.work w') → fits (World.ledger w') →
     ∃ chk s'', aros ex (EvidenceC (EvidenceVerify (a_work a)
                    (Some (id_to_string (campaign_id (out_campaign out)))))) s' =
         (s'', mkExit SUCCESS
            ["ledger ok (" +:+ display_N (N.of_nat (length (World.ledger w'))) +:+ " events)"; check_text chk] []) ∧
       check_failures chk = [] ∧ check_release_eligible chk = bool_decide (limits_of out = []) ∧
       Gate.dirs (disk s'') = Gate.dirs (disk s'))).
Proof.
  intros Hr Hs He.
  destruct (declared_command _ _ _ _ _ _ Hr Hs He) as
    (spec & target & cid & tid & w & w' & out & Hload & Htgt & Hrun & Htr & Hruns & Hdir & -> & Hd & Htr' & Hruns').
  exists spec, target, cid, tid, w, w', out. split_and!; [done..|]. intros Hk.
  destruct (run_checks _ _ _ _ _ store_error_display types_error_display engine_error_display
    id_error io_error _ _ _ _ _ _ _ Hrun Hk) as [Hkeep _]. split; [exact Hkeep|]. intros Hart Hfit.
  rewrite (run_campaign_id _ _ _ _ _ _ _ _ _ _ _ _ Hrun Hk).
  destruct (finished_run_verifies _ _ _ _ _ store_error_display types_error_display engine_error_display
    id_error io_error check_text _ _ _ _ _ _ _ Hrun Hk Hart Hfit) as (chk & Hv & Hf & Hrel).
  cbn [main]. unfold evidence_verify. rewrite Hd. cbn [from_option id]. rewrite Hv.
  eexists chk, _. split_and!; [done..|]. cbn. by rewrite insert_id.
Qed.

(** ** A campaign without containment does not start *)

(** The commands of the capability probe that a refused admission runs. *)
Definition probe_calls : list Sandbox.Call := (Sandbox.probe_containment_fresh (Fixture.fx_oci fx) []).1.

(** What a refused fixture campaign of this kind was seen to do. *)
Definition refusal (kind : string) : list Fixture.Obs :=
  match parse_kind kind, probe_calls with
  | Some _, _ :: _ => [Fixture.OProbe probe_calls]
  | _, _ => []
  end.

(** Nothing was run or written, and nothing observed but [l]. *)
Record idle (l : list Fixture.Obs) (s s' : Shell) : Prop := mkIdle {
  idle_trees : World.trees (Gate.top (disk s')) = World.trees (Gate.top (disk s));
  idle_runs : World.runs (Gate.top (disk s')) = World.runs (Gate.top (disk s));
  idle_directories : ∀ d, directory d s' = directory d s;
  idle_nested : nested s' = nested s;
  idle_observed : observed s' = observed s ++ l;
  idle_workspaces : workspaces s' = workspaces s;
}.

Lemma fixture_step_unwaived fixture work host port kind x :
  ∃ n message, fixture_step fx fixture work host port kind false x =
    (Fixture.mkFx (World.mkWorld (World.trees (Fixture.world x)) (World.blobs (Fixture.world x))
       (World.work (Fixture.world x)) (World.ledger (Fixture.world x)) (World.runs (Fixture.world x)) n)
       (Fixture.seen x ++ match probe_calls with [] => [] | calls => [Fixture.OProbe calls] end),
     Err (Fixture.Halted (EeFailClosed message))).
Proof.
  unfold fixture_step, Fixture.run_fixture_campaign, Fixture.open_campaign, Fixture.admitted_sandbox, assert_containment_or_fail,
    probe_calls.
  unfold Fixture.ffresh, World.fresh, Fixture.on_world, mbind, Fixture.F_bind, World.M_bind, World.tick, mret, World.M_ret.
  cbn -[fixture_manifest Sandbox.probe_containment_fresh]. rewrite fixture_manifest_containment.
  cbn -[Sandbox.probe_containment_fresh]. unfold Sandbox.S_bind.
  destruct (Sandbox.probe_containment_fresh (Fixture.fx_oci fx) []) as [[|c calls] report]; cbn;
    rewrite ?app_nil_r; by eexists _, _.
Qed.

Lemma run_campaign_unwaived fixture kind work host port s s' e :
  run_campaign fx fixture kind work host port false s = (s', e) →
  exit_code e = FAILURE ∧ idle (refusal kind) s s'.
Proof.
  unfold run_campaign, in_fixture, refusal. destruct (parse_kind kind) as [k|].
  2: { intros [= <- <-]. split; [done|]. split; try done. by rewrite app_nil_r. }
  destruct (fixture_step_unwaived fixture work host port k
    (Fixture.mkFx (Gate.enter work (disk s)) (observed s))) as (n & message & ->).
  intros [= <- <-]. split; [done|]. cbn. unfold Gate.enter, Gate.leave.
  destruct (default _ (Gate.dirs (disk s) !! work)) as [bs wd] eqn:Hd.
  split; try done; [|by destruct probe_calls]. intros d. unfold directory. cbn.
  destruct (decide (d = work)) as [->|]; [by rewrite lookup_insert_eq|by rewrite lookup_insert_ne].
Qed.


(** ** Requests that are not recorded *)

(** The commands that acknowledge a request about a finding keep nothing of it: the
    shell is as it was, and what they print depends on the identifier alone. *)
Theorem requests_not_recorded ex finding_id s :
  aros ex (Replay finding_id) s = (s, success ("replay request recorded for finding " +:+ finding_id)) ∧
  aros ex (Remediate finding_id) s = (s, success ("remediation request recorded for finding " +:+ finding_id)) ∧
  aros ex (Reattack finding_id) s = (s, success ("reattack request recorded for finding " +:+ finding_id)).
Proof. done. Qed.

End Runs.

End Commands.

End Commands.
