(* ===== verification/Instances.v ===== *)
(** * Concrete instances of the library interfaces

    Small executable stand-ins for the crates the program calls, with proofs of
    the laws the theorems assume of them: a codec that writes any record as a
    list of tokens, JSON printing over it, a 64-digit hash, IP prefixes and
    directed graphs. They show that the interfaces' laws can hold together and
    let the witnesses run the definitions. Nothing here models program code. *)

From S2P Require Import Prelude RustStr Net Json Types Ledger Cas Store Graph Certificate.
Import Ledger Cas Store Graph Certificate.

#[local] Unset Program Cases.

(** ** Tokens and codecs *)

Class Codec (A : Type) := {
  enc : A → list string;
  dec : list string → option (A * list string);
  dec_enc : ∀ a l, dec (enc a ++ l) = Some (a, l);
}.

(** Undo the encodings of a record, field by field. *)
Ltac decode_fields :=
  cbn beta; repeat (rewrite <- ?app_assoc; rewrite dec_enc; cbn -[enc dec]; try done).

#[export, program] Instance string_codec : Codec string := {
  enc s := [s];
  dec l := match l with s :: l => Some (s, l) | [] => None end }.
Next Obligation. done. Qed.

Fixpoint bits_of (p : positive) : string :=
  match p with
  | xH => ""
  | xO p => String "0" (bits_of p)
  | xI p => String "1" (bits_of p)
  end.
Fixpoint of_bits (s : string) : option positive :=
  match s with
  | EmptyString => Some 1%positive
  | String c s =>
    p ← of_bits s;
    if Ascii.eqb c "0" then Some (p~0)%positive
    else if Ascii.eqb c "1" then Some (p~1)%positive else None
  end.
Lemma of_bits_of p : of_bits (bits_of p) = Some p.
Proof. induction p as [p IH|p IH|]; cbn; [by rewrite IH..|done]. Qed.

Definition N_text (n : N) : string := bits_of (N.succ_pos n).
Definition N_untext (s : string) : option N := Pos.pred_N <$> of_bits s.
Lemma N_untext_text n : N_untext (N_text n) = Some n.
Proof. unfold N_untext, N_text. rewrite of_bits_of. cbn. by rewrite N.pos_pred_succ. Qed.

#[export, program] Instance N_codec : Codec N := {
  enc n := [N_text n];
  dec l := match l with s :: l => n ← N_untext s; Some (n, l) | [] => None end }.
Next Obligation. intros n l. cbn. by rewrite N_untext_text. Qed.

#[export, program] Instance bool_codec : Codec bool := {
  enc b := enc (if b then 1%N else 0%N);
  dec l := '(n, l) ← dec l; Some (negb (n =? 0)%N, l) }.
Next Obligation. intros [] l; by rewrite dec_enc. Qed.

#[export, program] Instance option_codec {A} `{Codec A} : Codec (option A) := {
  enc o := match o with Some a => enc true ++ enc a | None => enc false end;
  dec l := '(b, l) ← dec l;
           if (b : bool) then '(a, l) ← dec l; Some (Some a, l) else Some (None, l) }.
Next Obligation. intros A C [a|] l; by decode_fields. Qed.

Fixpoint dec_list {A} `{Codec A} (n : nat) (l : list string) : option (list A * list string) :=
  match n with
  | 0 => Some ([], l)
  | Datatypes.S n => '(a, l) ← dec l; '(r, l) ← dec_list n l; Some (a :: r, l)
  end.
#[export, program] Instance list_codec {A} `{Codec A} : Codec (list A) := {
  enc xs := enc (N.of_nat (length xs)) ++ (xs ≫= enc);
  dec l := '(n, l) ← dec l; dec_list (N.to_nat n) l }.
Next Obligation.
  intros A C xs l. cbn beta. rewrite <- app_assoc, dec_enc. cbn [mbind option_bind]. rewrite Nat2N.id.
  induction xs as [|x xs IH]; [done|]. cbn. by rewrite <- app_assoc, dec_enc; cbn; rewrite IH.
Qed.

#[export, program] Instance Z_codec : Codec Z := {
  enc z := enc (bool_decide (z < 0)%Z) ++ enc (Z.abs_N z);
  dec l := '(b, l) ← dec l; '(n, l) ← dec l;
           Some (if (b : bool) then (- Z.of_N n)%Z else Z.of_N n, l) }.
Next Obligation. intros z l. decode_fields. case_bool_decide; do 2 f_equal; lia. Qed.

Definition Uuid_of (n : N) : option Uuid :=
  match bool_eq_dec (n <? 2 ^ 128)%N true with
  | left H => Some (mkUuid n H)
  | right _ => None
  end.
Lemma Uuid_of_val u : Uuid_of (uuid_val u) = Some u.
Proof.
  destruct u as [n H]. unfold Uuid_of. cbn [uuid_val].
  destruct (bool_eq_dec _ _) as [H'|]; [|done]. do 2 f_equal. apply (proof_irrel _).
Qed.

#[export, program] Instance Id_codec {k} : Codec (Id k) := {
  enc i := enc (uuid_val (as_uuid i));
  dec l := '(n, l) ← dec l; u ← Uuid_of n; Some (mkId u, l) }.
Next Obligation. intros k [u] l. rewrite dec_enc. cbn -[Uuid_of]. by rewrite Uuid_of_val. Qed.

(** JSON values: a tag, then the contents; containers carry their length. *)
Fixpoint enc_value (v : Value) : list string :=
  match v with
  | JNull => ["n"]
  | JBool b => if b then ["t"] else ["f"]
  | JNumberV (PosInt n) => "p" :: enc n
  | JNumberV (NegInt z) => "m" :: enc z
  | JNumberV (Float n) => "d" :: enc n
  | JString s => ["s"; s]
  | JArray l => "a" :: enc (N.of_nat (length l)) ++ List.concat (List.map enc_value l)
  | JObject fs =>
    "o" :: enc (N.of_nat (length fs)) ++ List.concat (List.map (λ kv, kv.1 :: enc_value kv.2) fs)
  end.

Fixpoint dec_items {A} (f : list string → option (A * list string)) (n : nat) (l : list string) :
    option (list A * list string) :=
  match n with
  | 0 => Some ([], l)
  | Datatypes.S n => '(a, l) ← f l; '(r, l) ← dec_items f n l; Some (a :: r, l)
  end.

Fixpoint dec_value (fuel : nat) (l : list string) : option (Value * list string) :=
  match fuel with
  | 0 => None
  | Datatypes.S fuel =>
    match l with
    | "n" :: l => Some (JNull, l)
    | "t" :: l => Some (JBool true, l)
    | "f" :: l => Some (JBool false, l)
    | "p" :: l => '(n, l) ← dec l; Some (JNumberV (PosInt n), l)
    | "m" :: l => '(z, l) ← dec l; Some (JNumberV (NegInt z), l)
    | "d" :: l => '(n, l) ← dec l; Some (JNumberV (Float n), l)
    | "s" :: s :: l => Some (JString s, l)
    | "a" :: l =>
      '(n, l) ← dec l; '(vs, l) ← dec_items (dec_value fuel) (N.to_nat n) l; Some (JArray vs, l)
    | "o" :: l =>
      '(n, l) ← dec l;
      '(fs, l) ← dec_items (λ l, match l with
                                 | k :: l => '(v, l) ← dec_value fuel l; Some ((k, v), l)
                                 | [] => None
                                 end) (N.to_nat n) l;
      Some (JObject fs, l)
    | _ => None
    end
  end.

Lemma dec_items_map {A} (f : list string → option (A * list string)) (e : A → list string) xs l :
  Forall (λ x, ∀ l, f (e x ++ l) = Some (x, l)) xs →
  dec_items f (length xs) (List.concat (List.map e xs) ++ l) = Some (xs, l).
Proof.
  induction 1 as [|x xs Hx _ IH]; [done|]. cbn [dec_items length List.map List.concat].
  rewrite <- app_assoc, Hx. cbn [mbind option_bind]. by rewrite IH.
Qed.

Lemma concat_le {A} (e : A → list string) xs x :
  x ∈ xs → length (e x) <= length (List.concat (List.map e xs)).
Proof.
  induction 1 as [|y x' xs _ IH]; cbn [List.map List.concat]; rewrite length_app; lia.
Qed.

Lemma dec_enc_value v fuel l :
  length (enc_value v) <= fuel → dec_value fuel (enc_value v ++ l) = Some (v, l).
Proof.
  revert fuel l. induction v as [|[]|[n|z|n]|s|vs IH|fs IH] using Value_rect_nested;
    intros [|fuel] l Hf; try (cbn in Hf; lia); try done.
  - cbn -[enc dec]. by rewrite dec_enc.
  - cbn -[enc dec]. by rewrite dec_enc.
  - cbn -[enc dec]. by rewrite dec_enc.
  - cbn -[enc dec] in Hf |- *. rewrite <- app_assoc, dec_enc. cbn [mbind option_bind].
    rewrite Nat2N.id, dec_items_map; [done|]. rewrite Forall_forall in IH |- *.
    intros x Hx l'. apply IH; [done|]. apply (concat_le enc_value) in Hx.
    rewrite length_app in Hf. lia.
  - cbn -[enc dec] in Hf |- *. rewrite <- app_assoc, dec_enc. cbn [mbind option_bind].
    rewrite Nat2N.id, dec_items_map; [done|]. rewrite Forall_forall in IH |- *.
    intros [k x] Hx l'. cbn [app fst snd]. pose proof (IH (k, x) Hx) as IHx. cbn in IHx.
    rewrite IHx; [done|].
    apply (concat_le (λ kv, kv.1 :: enc_value kv.2)) in Hx. cbn in Hx. rewrite length_app in Hf.
    cbn. lia.
Qed.

#[export, program] Instance Value_codec : Codec Value := {
  enc := enc_value;
  dec l := dec_value (length l) l }.
Next Obligation. intros v l. cbn beta. apply dec_enc_value. rewrite length_app. lia. Qed.

(** ** Enumerations and records *)

#[export, program] Instance CampaignState_codec : Codec CampaignState := {
  enc x := match x with
  | Discovering => enc 0%N
  | Mapping => enc 1%N
  | Hypothesizing => enc 2%N
  | Experimenting => enc 3%N
  | Candidate => enc 4%N
  | Verifying => enc 5%N
  | CsVerified => enc 6%N
  | Minimizing => enc 7%N
  | Remediating => enc 8%N
  | Reattacking => enc 9%N
  | RegressionProtected => enc 10%N
  | CsRefuted => enc 11%N
  | CsNonReproducible => enc 12%N
  | CsInsufficientEvidence => enc 13%N
  | OutOfScope => enc 14%N
  | CsPolicyBlocked => enc 15%N
  | CsTampered => enc 16%N
  | Failed => enc 17%N
  end;
  dec l := '(tag, l) ← dec l;
  match tag with
  | 0%N => Some (Discovering, l)
  | 1%N => Some (Mapping, l)
  | 2%N => Some (Hypothesizing, l)
  | 3%N => Some (Experimenting, l)
  | 4%N => Some (Candidate, l)
  | 5%N => Some (Verifying, l)
  | 6%N => Some (CsVerified, l)
  | 7%N => Some (Minimizing, l)
  | 8%N => Some (Remediating, l)
  | 9%N => Some (Reattacking, l)
  | 10%N => Some (RegressionProtected, l)
  | 11%N => Some (CsRefuted, l)
  | 12%N => Some (CsNonReproducible, l)
  | 13%N => Some (CsInsufficientEvidence, l)
  | 14%N => Some (OutOfScope, l)
  | 15%N => Some (CsPolicyBlocked, l)
  | 16%N => Some (CsTampered, l)
  | 17%N => Some (Failed, l)
  | _ => None
  end }.
Next Obligation. intros [] l; by decode_fields. Qed.

#[export, program] Instance EvidenceLevel_codec : Codec EvidenceLevel := {
  enc x := match x with
  | E0HypothesisOnly => enc 0%N
  | E1StaticSupport => enc 1%N
  | E2DynamicAnomaly => enc 2%N
  | E3InvariantViolation => enc 3%N
  | E4IndependentReproduction => enc 4%N
  | E5MinimizedReproduction => enc 5%N
  | E6CounterfactualDifferential => enc 6%N
  | E7VariantReattackAndRegression => enc 7%N
  end;
  dec l := '(tag, l) ← dec l;
  match tag with
  | 0%N => Some (E0HypothesisOnly, l)
  | 1%N => Some (E1StaticSupport, l)
  | 2%N => Some (E2DynamicAnomaly, l)
  | 3%N => Some (E3InvariantViolation, l)
  | 4%N => Some (E4IndependentReproduction, l)
  | 5%N => Some (E5MinimizedReproduction, l)
  | 6%N => Some (E6CounterfactualDifferential, l)
  | 7%N => Some (E7VariantReattackAndRegression, l)
  | _ => None
  end }.
Next Obligation. intros [] l; by decode_fields. Qed.

#[export, program] Instance ToolCapability_codec : Codec ToolCapability := {
  enc x := match x with
  | ReadFile => enc 0%N
  | ListTree => enc 1%N
  | SearchText => enc 2%N
  | GitInspect => enc 3%N
  | RunTests => enc 4%N
  | RunLanguageTool => enc 5%N
  | HttpRequest => enc 6%N
  | BrowserRequest => enc 7%N
  | ExecuteAllowlistedBinary => enc 8%N
  | CollectLogs => enc 9%N
  | CollectFile => enc 10%N
  | CollectProcessState => enc 11%N
  | FuzzAdapter => enc 12%N
  | SanitizerAdapter => enc 13%N
  | StaticAnalysisAdapter => enc 14%N
  end;
  dec l := '(tag, l) ← dec l;
  match tag with
  | 0%N => Some (ReadFile, l)
  | 1%N => Some (ListTree, l)
  | 2%N => Some (SearchText, l)
  | 3%N => Some (GitInspect, l)
  | 4%N => Some (RunTests, l)
  | 5%N => Some (RunLanguageTool, l)
  | 6%N => Some (HttpRequest, l)
  | 7%N => Some (BrowserRequest, l)
  | 8%N => Some (ExecuteAllowlistedBinary, l)
  | 9%N => Some (CollectLogs, l)
  | 10%N => Some (CollectFile, l)
  | 11%N => Some (CollectProcessState, l)
  | 12%N => Some (FuzzAdapter, l)
  | 13%N => Some (SanitizerAdapter, l)
  | 14%N => Some (StaticAnalysisAdapter, l)
  | _ => None
  end }.
Next Obligation. intros [] l; by decode_fields. Qed.

#[export, program] Instance PolicyDecision_codec : Codec PolicyDecision := {
  enc x := match x with
  | Allow => enc 0%N
  | Deny => enc 1%N
  | RequiresHuman => enc 2%N
  end;
  dec l := '(tag, l) ← dec l;
  match tag with
  | 0%N => Some (Allow, l)
  | 1%N => Some (Deny, l)
  | 2%N => Some (RequiresHuman, l)
  | _ => None
  end }.
Next Obligation. intros [] l; by decode_fields. Qed.

#[export, program] Instance GraphKind_codec : Codec GraphKind := {
  enc x := match x with
  | TargetReality => enc 0%N
  | Research => enc 1%N
  | Historical => enc 2%N
  end;
  dec l := '(tag, l) ← dec l;
  match tag with
  | 0%N => Some (TargetReality, l)
  | 1%N => Some (Research, l)
  | 2%N => Some (Historical, l)
  | _ => None
  end }.
Next Obligation. intros [] l; by decode_fields. Qed.

#[export, program] Instance EpistemicState_codec : Codec EpistemicState := {
  enc x := match x with
  | Observed => enc 0%N
  | Derived => enc 1%N
  | Inferred => enc 2%N
  | Hypothesized => enc 3%N
  | Supported => enc 4%N
  | Claimed => enc 5%N
  | EpVerified => enc 6%N
  | EpRefuted => enc 7%N
  | Stale => enc 8%N
  end;
  dec l := '(tag, l) ← dec l;
  match tag with
  | 0%N => Some (Observed, l)
  | 1%N => Some (Derived, l)
  | 2%N => Some (Inferred, l)
  | 3%N => Some (Hypothesized, l)
  | 4%N => Some (Supported, l)
  | 5%N => Some (Claimed, l)
  | 6%N => Some (EpVerified, l)
  | 7%N => Some (EpRefuted, l)
  | 8%N => Some (Stale, l)
  | _ => None
  end }.
Next Obligation. intros [] l; by decode_fields. Qed.

#[export, program] Instance AuthorityResult_codec : Codec AuthorityResult := {
  enc x := match x with
  | ArVerified => enc 0%N
  | ArFalsified => enc 1%N
  | ArInsufficientEvidence => enc 2%N
  | ArNonReproducible => enc 3%N
  | ArTampered => enc 4%N
  end;
  dec l := '(tag, l) ← dec l;
  match tag with
  | 0%N => Some (ArVerified, l)
  | 1%N => Some (ArFalsified, l)
  | 2%N => Some (ArInsufficientEvidence, l)
  | 3%N => Some (ArNonReproducible, l)
  | 4%N => Some (ArTampered, l)
  | _ => None
  end }.
Next Obligation. intros [] l; by decode_fields. Qed.

#[export, program] Instance VerifierMode_codec : Codec VerifierMode := {
  enc x := match x with
  | ReproduceCandidate => enc 0%N
  | Blindish => enc 1%N
  end;
  dec l := '(tag, l) ← dec l;
  match tag with
  | 0%N => Some (ReproduceCandidate, l)
  | 1%N => Some (Blindish, l)
  | _ => None
  end }.
Next Obligation. intros [] l; by decode_fields. Qed.

#[export, program] Instance FailureCategory_codec : Codec FailureCategory := {
  enc x := match x with
  | SurfaceNotDiscovered => enc 0%N
  | ArchitectureMisunderstood => enc 1%N
  | AssumptionNotGenerated => enc 2%N
  | HypothesisNotGenerated => enc 3%N
  | HypothesisDeprioritized => enc 4%N
  | ExperimentInadequate => enc 5%N
  | ObservationMisinterpreted => enc 6%N
  | ToolGap => enc 7%N
  | VerificationFailure => enc 8%N
  | BudgetExhaustion => enc 9%N
  | FcPolicyBlocked => enc 10%N
  | FcUnknown => enc 11%N
  end;
  dec l := '(tag, l) ← dec l;
  match tag with
  | 0%N => Some (SurfaceNotDiscovered, l)
  | 1%N => Some (ArchitectureMisunderstood, l)
  | 2%N => Some (AssumptionNotGenerated, l)
  | 3%N => Some (HypothesisNotGenerated, l)
  | 4%N => Some (HypothesisDeprioritized, l)
  | 5%N => Some (ExperimentInadequate, l)
  | 6%N => Some (ObservationMisinterpreted, l)
  | 7%N => Some (ToolGap, l)
  | 8%N => Some (VerificationFailure, l)
  | 9%N => Some (BudgetExhaustion, l)
  | 10%N => Some (FcPolicyBlocked, l)
  | 11%N => Some (FcUnknown, l)
  | _ => None
  end }.
Next Obligation. intros [] l; by decode_fields. Qed.

(** Research events, by constructor number. *)
#[export, program] Instance ResearchEvent_codec : Codec ResearchEvent := {
  enc x := match x with
  | TargetRegistered x0 x1 => enc 0%N ++ enc x0 ++ enc x1
  | TargetSnapshotted x0 x1 x2 => enc 1%N ++ enc x0 ++ enc x1 ++ enc x2
  | CampaignStarted x0 x1 => enc 2%N ++ enc x0 ++ enc x1
  | CampaignStateChanged x0 x1 => enc 3%N ++ enc x0 ++ enc x1
  | SurfaceMapped x0 x1 => enc 4%N ++ enc x0 ++ enc x1
  | AssumptionCreated x0 x1 => enc 5%N ++ enc x0 ++ enc x1
  | HypothesisCreated x0 x1 x2 => enc 6%N ++ enc x0 ++ enc x1 ++ enc x2
  | HypothesisPrioritized x0 x1 x2 => enc 7%N ++ enc x0 ++ enc x1 ++ enc x2
  | HypothesisRefuted x0 x1 x2 => enc 8%N ++ enc x0 ++ enc x1 ++ enc x2
  | ExperimentStarted x0 x1 x2 => enc 9%N ++ enc x0 ++ enc x1 ++ enc x2
  | ExperimentFinished x0 x1 => enc 10%N ++ enc x0 ++ enc x1
  | ObservationRecorded x0 x1 x2 => enc 11%N ++ enc x0 ++ enc x1 ++ enc x2
  | AnomalyRecorded x0 x1 => enc 12%N ++ enc x0 ++ enc x1
  | PrimitiveSupported x0 x1 => enc 13%N ++ enc x0 ++ enc x1
  | PrimitiveVerified x0 x1 => enc 14%N ++ enc x0 ++ enc x1
  | AttackChainCreated x0 x1 => enc 15%N ++ enc x0 ++ enc x1
  | FindingCandidateCreated x0 x1 x2 => enc 16%N ++ enc x0 ++ enc x1 ++ enc x2
  | FindingVerified x0 x1 x2 => enc 17%N ++ enc x0 ++ enc x1 ++ enc x2
  | FindingFalsified x0 x1 x2 => enc 18%N ++ enc x0 ++ enc x1 ++ enc x2
  | PatchCandidateCreated x0 x1 x2 => enc 19%N ++ enc x0 ++ enc x1 ++ enc x2
  | ReattackStarted x0 x1 => enc 20%N ++ enc x0 ++ enc x1
  | ReattackCompleted x0 x1 x2 => enc 21%N ++ enc x0 ++ enc x1 ++ enc x2
  | RegressionCreated x0 x1 x2 => enc 22%N ++ enc x0 ++ enc x1 ++ enc x2
  | AgentStarted x0 x1 => enc 23%N ++ enc x0 ++ enc x1
  | AgentStopped x0 x1 => enc 24%N ++ enc x0 ++ enc x1
  | ToolRequested x0 x1 x2 => enc 25%N ++ enc x0 ++ enc x1 ++ enc x2
  | ToolAllowed x0 x1 => enc 26%N ++ enc x0 ++ enc x1
  | ToolDenied x0 x1 x2 => enc 27%N ++ enc x0 ++ enc x1 ++ enc x2
  | ProcessStarted x0 x1 => enc 28%N ++ enc x0 ++ enc x1
  | ProcessFinished x0 x1 x2 => enc 29%N ++ enc x0 ++ enc x1 ++ enc x2
  | NetworkAttempted x0 x1 x2 x3 => enc 30%N ++ enc x0 ++ enc x1 ++ enc x2 ++ enc x3
  | PolicyViolationAttempt x0 x1 => enc 31%N ++ enc x0 ++ enc x1
  | SandboxKilled x0 x1 => enc 32%N ++ enc x0 ++ enc x1
  | EvidenceCreated x0 x1 => enc 33%N ++ enc x0 ++ enc x1
  | ClaimCreated x0 x1 => enc 34%N ++ enc x0 ++ enc x1
  | VerificationStarted x0 x1 => enc 35%N ++ enc x0 ++ enc x1
  | VerificationSucceeded x0 x1 => enc 36%N ++ enc x0 ++ enc x1
  | VerificationFailed x0 x1 x2 => enc 37%N ++ enc x0 ++ enc x1 ++ enc x2
  | CertificateIssued x0 x1 x2 => enc 38%N ++ enc x0 ++ enc x1 ++ enc x2
  | CampaignCompleted x0 x1 => enc 39%N ++ enc x0 ++ enc x1
  | CampaignFailed x0 x1 => enc 40%N ++ enc x0 ++ enc x1
  end;
  dec l := '(tag, l) ← dec l;
  match tag with
  | 0%N => '(x0, l) ← dec l; '(x1, l) ← dec l; Some (TargetRegistered x0 x1, l)
  | 1%N => '(x0, l) ← dec l; '(x1, l) ← dec l; '(x2, l) ← dec l; Some (TargetSnapshotted x0 x1 x2, l)
  | 2%N => '(x0, l) ← dec l; '(x1, l) ← dec l; Some (CampaignStarted x0 x1, l)
  | 3%N => '(x0, l) ← dec l; '(x1, l) ← dec l; Some (CampaignStateChanged x0 x1, l)
  | 4%N => '(x0, l) ← dec l; '(x1, l) ← dec l; Some (SurfaceMapped x0 x1, l)
  | 5%N => '(x0, l) ← dec l; '(x1, l) ← dec l; Some (AssumptionCreated x0 x1, l)
  | 6%N => '(x0, l) ← dec l; '(x1, l) ← dec l; '(x2, l) ← dec l; Some (HypothesisCreated x0 x1 x2, l)
  | 7%N => '(x0, l) ← dec l; '(x1, l) ← dec l; '(x2, l) ← dec l; Some (HypothesisPrioritized x0 x1 x2, l)
  | 8%N => '(x0, l) ← dec l; '(x1, l) ← dec l; '(x2, l) ← dec l; Some (HypothesisRefuted x0 x1 x2, l)
  | 9%N => '(x0, l) ← dec l; '(x1, l) ← dec l; '(x2, l) ← dec l; Some (ExperimentStarted x0 x1 x2, l)
  | 10%N => '(x0, l) ← dec l; '(x1, l) ← dec l; Some (ExperimentFinished x0 x1, l)
  | 11%N => '(x0, l) ← dec l; '(x1, l) ← dec l; '(x2, l) ← dec l; Some (ObservationRecorded x0 x1 x2, l)
  | 12%N => '(x0, l) ← dec l; '(x1, l) ← dec l; Some (AnomalyRecorded x0 x1, l)
  | 13%N => '(x0, l) ← dec l; '(x1, l) ← dec l; Some (PrimitiveSupported x0 x1, l)
  | 14%N => '(x0, l) ← dec l; '(x1, l) ← dec l; Some (PrimitiveVerified x0 x1, l)
  | 15%N => '(x0, l) ← dec l; '(x1, l) ← dec l; Some (AttackChainCreated x0 x1, l)
  | 16%N => '(x0, l) ← dec l; '(x1, l) ← dec l; '(x2, l) ← dec l; Some (FindingCandidateCreated x0 x1 x2, l)
  | 17%N => '(x0, l) ← dec l; '(x1, l) ← dec l; '(x2, l) ← dec l; Some (FindingVerified x0 x1 x2, l)
  | 18%N => '(x0, l) ← dec l; '(x1, l) ← dec l; '(x2, l) ← dec l; Some (FindingFalsified x0 x1 x2, l)
  | 19%N => '(x0, l) ← dec l; '(x1, l) ← dec l; '(x2, l) ← dec l; Some (PatchCandidateCreated x0 x1 x2, l)
  | 20%N => '(x0, l) ← dec l; '(x1, l) ← dec l; Some (ReattackStarted x0 x1, l)
  | 21%N => '(x0, l) ← dec l; '(x1, l) ← dec l; '(x2, l) ← dec l; Some (ReattackCompleted x0 x1 x2, l)
  | 22%N => '(x0, l) ← dec l; '(x1, l) ← dec l; '(x2, l) ← dec l; Some (RegressionCreated x0 x1 x2, l)
  | 23%N => '(x0, l) ← dec l; '(x1, l) ← dec l; Some (AgentStarted x0 x1, l)
  | 24%N => '(x0, l) ← dec l; '(x1, l) ← dec l; Some (AgentStopped x0 x1, l)
  | 25%N => '(x0, l) ← dec l; '(x1, l) ← dec l; '(x2, l) ← dec l; Some (ToolRequested x0 x1 x2, l)
  | 26%N => '(x0, l) ← dec l; '(x1, l) ← dec l; Some (ToolAllowed x0 x1, l)
  | 27%N => '(x0, l) ← dec l; '(x1, l) ← dec l; '(x2, l) ← dec l; Some (ToolDenied x0 x1 x2, l)
  | 28%N => '(x0, l) ← dec l; '(x1, l) ← dec l; Some (ProcessStarted x0 x1, l)
  | 29%N => '(x0, l) ← dec l; '(x1, l) ← dec l; '(x2, l) ← dec l; Some (ProcessFinished x0 x1 x2, l)
  | 30%N => '(x0, l) ← dec l; '(x1, l) ← dec l; '(x2, l) ← dec l; '(x3, l) ← dec l; Some (NetworkAttempted x0 x1 x2 x3, l)
  | 31%N => '(x0, l) ← dec l; '(x1, l) ← dec l; Some (PolicyViolationAttempt x0 x1, l)
  | 32%N => '(x0, l) ← dec l; '(x1, l) ← dec l; Some (SandboxKilled x0 x1, l)
  | 33%N => '(x0, l) ← dec l; '(x1, l) ← dec l; Some (EvidenceCreated x0 x1, l)
  | 34%N => '(x0, l) ← dec l; '(x1, l) ← dec l; Some (ClaimCreated x0 x1, l)
  | 35%N => '(x0, l) ← dec l; '(x1, l) ← dec l; Some (VerificationStarted x0 x1, l)
  | 36%N => '(x0, l) ← dec l; '(x1, l) ← dec l; Some (VerificationSucceeded x0 x1, l)
  | 37%N => '(x0, l) ← dec l; '(x1, l) ← dec l; '(x2, l) ← dec l; Some (VerificationFailed x0 x1 x2, l)
  | 38%N => '(x0, l) ← dec l; '(x1, l) ← dec l; '(x2, l) ← dec l; Some (CertificateIssued x0 x1 x2, l)
  | 39%N => '(x0, l) ← dec l; '(x1, l) ← dec l; Some (CampaignCompleted x0 x1, l)
  | 40%N => '(x0, l) ← dec l; '(x1, l) ← dec l; Some (CampaignFailed x0 x1, l)
  | _ => None
  end }.
Next Obligation. intros [] l; cbn -[enc dec]; by decode_fields. Qed.

#[export, program] Instance EventRecord_codec : Codec EventRecord := {
  enc x := enc (occurred_unix_ms x) ++ enc (event x);
  dec l := '(x0, l) ← dec l; '(x1, l) ← dec l; Some (mkEventRecord x0 x1, l) }.
Next Obligation. intros [] l; cbn -[enc dec]; by decode_fields. Qed.

#[export, program] Instance LedgerEntry_codec : Codec LedgerEntry := {
  enc x := enc (index x) ++ enc (previous_hash x) ++ enc (event_hash x) ++ enc (entry_campaign_id x) ++ enc (payload_digest x) ++ enc (artifact_digests x) ++ enc (record x);
  dec l := '(x0, l) ← dec l; '(x1, l) ← dec l; '(x2, l) ← dec l; '(x3, l) ← dec l; '(x4, l) ← dec l; '(x5, l) ← dec l; '(x6, l) ← dec l; Some (mkLedgerEntry x0 x1 x2 x3 x4 x5 x6, l) }.
Next Obligation. intros [] l; cbn -[enc dec]; by decode_fields. Qed.

#[export, program] Instance Campaign_codec : Codec Campaign := {
  enc x := enc (campaign_id x) ++ enc (campaign_target_id x) ++ enc (campaign_snapshot_id x) ++ enc (campaign_manifest_hash x) ++ enc (campaign_state x) ++ enc (created_unix_ms x) ++ enc (updated_unix_ms x);
  dec l := '(x0, l) ← dec l; '(x1, l) ← dec l; '(x2, l) ← dec l; '(x3, l) ← dec l; '(x4, l) ← dec l; '(x5, l) ← dec l; '(x6, l) ← dec l; Some (mkCampaign x0 x1 x2 x3 x4 x5 x6, l) }.
Next Obligation. intros [] l; cbn -[enc dec]; by decode_fields. Qed.

#[export, program] Instance GraphNode_codec : Codec GraphNode := {
  enc x := enc (node_id x) ++ enc (node_campaign_id x) ++ enc (node_graph x) ++ enc (node_kind x) ++ enc (node_label x) ++ enc (node_epistemic x) ++ enc (node_payload x) ++ enc (node_provenance x) ++ enc (node_artifact_refs x) ++ enc (node_created_unix_ms x);
  dec l := '(x0, l) ← dec l; '(x1, l) ← dec l; '(x2, l) ← dec l; '(x3, l) ← dec l; '(x4, l) ← dec l; '(x5, l) ← dec l; '(x6, l) ← dec l; '(x7, l) ← dec l; '(x8, l) ← dec l; '(x9, l) ← dec l; Some (mkGraphNode x0 x1 x2 x3 x4 x5 x6 x7 x8 x9, l) }.
Next Obligation. intros [] l; cbn -[enc dec]; by decode_fields. Qed.

#[export, program] Instance GraphEdge_codec : Codec GraphEdge := {
  enc x := enc (edge_id x) ++ enc (edge_campaign_id x) ++ enc (edge_graph x) ++ enc (edge_from x) ++ enc (edge_to x) ++ enc (edge_kind x) ++ enc (edge_epistemic x) ++ enc (edge_confidence x) ++ enc (edge_provenance x) ++ enc (edge_artifact_refs x) ++ enc (edge_created_unix_ms x);
  dec l := '(x0, l) ← dec l; '(x1, l) ← dec l; '(x2, l) ← dec l; '(x3, l) ← dec l; '(x4, l) ← dec l; '(x5, l) ← dec l; '(x6, l) ← dec l; '(x7, l) ← dec l; '(x8, l) ← dec l; '(x9, l) ← dec l; '(x10, l) ← dec l; Some (mkGraphEdge x0 x1 x2 x3 x4 x5 x6 x7 x8 x9 x10, l) }.
Next Obligation. intros [] l; cbn -[enc dec]; by decode_fields. Qed.

#[export, program] Instance EvidenceBundle_codec : Codec EvidenceBundle := {
  enc x := enc (bundle_finding_id x) ++ enc (bundle_campaign_id x) ++ enc (bundle_manifest_hash x) ++ enc (bundle_snapshot_id x) ++ enc (bundle_sandbox_id x) ++ enc (bundle_claim x) ++ enc (bundle_artifact_digests x) ++ enc (bundle_level x);
  dec l := '(x0, l) ← dec l; '(x1, l) ← dec l; '(x2, l) ← dec l; '(x3, l) ← dec l; '(x4, l) ← dec l; '(x5, l) ← dec l; '(x6, l) ← dec l; '(x7, l) ← dec l; Some (mkEvidenceBundle x0 x1 x2 x3 x4 x5 x6 x7, l) }.
Next Obligation. intros [] l; cbn -[enc dec]; by decode_fields. Qed.

#[export, program] Instance ResearchFailureCard_codec : Codec ResearchFailureCard := {
  enc x := enc (card_campaign_id x) ++ enc (card_run_id x) ++ enc (card_category x) ++ enc (card_detail x) ++ enc (card_spec_id x);
  dec l := '(x0, l) ← dec l; '(x1, l) ← dec l; '(x2, l) ← dec l; '(x3, l) ← dec l; '(x4, l) ← dec l; Some (mkResearchFailureCard x0 x1 x2 x3 x4, l) }.
Next Obligation. intros [] l; cbn -[enc dec]; by decode_fields. Qed.

#[export, program] Instance EvidenceCertificate_codec : Codec EvidenceCertificate := {
  enc x := enc (cert_schema x) ++ enc (cert_campaign_id x) ++ enc (cert_spec_id x) ++ enc (cert_state x) ++ enc (cert_evidence_level x) ++ enc (cert_verified_finding x) ++ enc (cert_original_digest x) ++ enc (cert_original_digest_after x) ++ enc (cert_original_unmodified x) ++ enc (cert_harness_digest x) ++ enc (cert_independent_reproduced x) ++ enc (cert_twin_holds x) ++ enc (cert_variant_holds x) ++ enc (cert_regression_relpath x) ++ enc (cert_regression_digest x) ++ enc (cert_minimized_relpath x) ++ enc (cert_minimized_digest x) ++ enc (cert_contained x) ++ enc (cert_required_evidence_met x) ++ enc (cert_ledger_head x) ++ enc (cert_ledger_events x) ++ enc (cert_release_eligible x) ++ enc (cert_limits x) ++ enc (cert_digest x);
  dec l := '(x0, l) ← dec l; '(x1, l) ← dec l; '(x2, l) ← dec l; '(x3, l) ← dec l; '(x4, l) ← dec l; '(x5, l) ← dec l; '(x6, l) ← dec l; '(x7, l) ← dec l; '(x8, l) ← dec l; '(x9, l) ← dec l; '(x10, l) ← dec l; '(x11, l) ← dec l; '(x12, l) ← dec l; '(x13, l) ← dec l; '(x14, l) ← dec l; '(x15, l) ← dec l; '(x16, l) ← dec l; '(x17, l) ← dec l; '(x18, l) ← dec l; '(x19, l) ← dec l; '(x20, l) ← dec l; '(x21, l) ← dec l; '(x22, l) ← dec l; '(x23, l) ← dec l; Some (mkCertificate x0 x1 x2 x3 x4 x5 x6 x7 x8 x9 x10 x11 x12 x13 x14 x15 x16 x17 x18 x19 x20 x21 x22 x23, l) }.
Next Obligation. intros [] l; cbn -[enc dec]; by decode_fields. Qed.

(** ** Text *)

(** A token is written as its characters, each behind an [x], then a period. *)
Fixpoint quote (s rest : string) : string :=
  match s with
  | EmptyString => String "." rest
  | String c s => String "x" (String c (quote s rest))
  end.
Fixpoint text (l : list string) : string :=
  match l with
  | [] => ""
  | s :: l => quote s (text l)
  end.
Fixpoint untext (acc s : string) : list string :=
  match s with
  | String "."%char s => acc :: untext "" s
  | String _ (String c s) => untext (acc +:+ String c "") s
  | _ => []
  end.
Lemma untext_quote acc s rest : untext acc (quote s rest) = (acc +:+ s) :: untext "" rest.
Proof.
  revert acc. induction s as [|c s IH]; intros acc; cbn; [by rewrite sapp_nil_r|].
  rewrite IH. f_equal. rewrite sapp_assoc. done.
Qed.
Lemma untext_text l : untext "" (text l) = l.
Proof. induction l as [|s l IH]; [done|]. cbn [text]. rewrite untext_quote, IH. done. Qed.

Definition to_txt {A} `{Codec A} (a : A) : string := text (enc a).
Definition of_txt {A} `{Codec A} (s : string) : option A := fst <$> dec (untext "" s).
Lemma of_to_txt {A} `{Codec A} (a : A) : of_txt (to_txt a) = Some a.
Proof.
  unfold of_txt, to_txt. rewrite untext_text, <- (app_nil_r (enc a)), dec_enc. done.
Qed.

(** ** The interfaces *)

#[export] Instance codec_JsonText {A} `{Codec A} : JsonText A :=
  { to_text a := Some (to_txt a); from_text := of_txt }.
#[export] Instance codec_JsonTextLaws {A} `{Codec A} : JsonTextLaws A.
Proof. split; [by eexists|]. intros x s [= <-]. apply of_to_txt. Qed.

#[export] Instance toy_uuid : UuidLib :=
  { uuid_display u := N_text (uuid_val u); uuid_parse s := n ← N_untext s; Uuid_of n }.
#[export] Instance toy_uuid_laws : UuidLaws toy_uuid.
Proof.
  split. intros u. cbn -[Uuid_of N_untext N_text]. rewrite N_untext_text. apply Uuid_of_val.
Qed.

#[export] Instance toy_json : JsonLib := { json_to_vec := to_txt; json_from_slice := of_txt }.
#[export] Instance toy_json_laws : JsonLaws toy_json.
Proof. split. intros v _. apply of_to_txt. Qed.

#[export] Instance codec_Serialize {A} `{Codec A} : Serialize A | 10 :=
  { to_value a := Ok (JString (to_txt a)) }.
#[export] Instance codec_Deserialize {A} `{Codec A} : Deserialize A | 10 :=
  { from_value v := match v with JString s => of_txt s | _ => None end }.
#[export] Instance codec_SerializeLaws {A} `{Codec A} : SerializeLaws A.
Proof.
  split; [by intros x v [= <-]|]. intros x v w [= <-] Hw. inversion Hw; subst. apply of_to_txt.
Qed.

(** A polynomial hash, printed as 64 hexadecimal digits. *)
Definition mix (s : string) : N :=
  foldl (λ h c, N.land (h * 65599 + byte_val c + 1) (N.ones 64))%N 1%N (String.list_ascii_of_string s).
Definition hex_of (n : N) : ascii :=
  ascii_of_N (if n <? 10 then 48 + n else 87 + n)%N.
Fixpoint hex_digits (k : nat) (n : N) : string :=
  match k with
  | 0 => ""
  | Datatypes.S k => String (hex_of (N.land n 15)) (hex_digits k (N.shiftr n 4))
  end.
#[export] Instance toy_hash : HashLib :=
  { blake3_hex s := hex_digits 64 (mix s); sha256_hex s := hex_digits 64 (mix (String "s" s)) }.

Lemma hex_of_digit n : (n < 16)%N → hex_digit (hex_of n) = true.
Proof.
  intros Hn. assert (forallb (λ k, hex_digit (hex_of (N.of_nat k))) (seq 0 16) = true) as H
    by (vm_compute; done).
  rewrite forallb_true_iff in H. rewrite <- (N2Nat.id n). apply H, elem_of_seq. lia.
Qed.
Lemma hex_digits_shape k n :
  String.length (hex_digits k n) = k ∧ all_bytes hex_digit (hex_digits k n) = true.
Proof.
  revert n. induction k as [|k IH]; intros n; [done|]. destruct (IH (N.shiftr n 4)) as [Hl Ha].
  split; cbn -[N.land N.shiftr]; [by rewrite Hl|]. rewrite hex_of_digit; [done|].
  change 15%N with (N.ones 4). rewrite N.land_ones. by apply N.mod_lt.
Qed.
#[export] Instance toy_hash_laws : HashLaws toy_hash.
Proof.
  split. intros bytes. unfold is_digest. destruct (hex_digits_shape 64 (mix bytes)) as [Hl Ha].
  cbn [blake3_hex toy_hash]. by rewrite Hl, Ha.
Qed.

(** IP prefixes; a host prefix compares whole addresses. *)
Definition ip_number (ip : IpAddr) : N :=
  match ip with
  | V4 a => ((o1 a * 256 + o2 a) * 256 + o3 a) * 256 + o4 a
  | V6 segs => foldl (λ n s, n * 65536 + s)%N 0%N segs
  end.
#[export] Instance toy_ipnet : IpNetLib := {
  IpNet := IpAddr * N;
  ipnet_contains net ip :=
    if (net.2 =? host_bits net.1)%N then bool_decide (ip = net.1)
    else eqb (is_ipv4 ip) (is_ipv4 net.1) &&
         (N.shiftr (ip_number ip) (host_bits ip - net.2) =?
          N.shiftr (ip_number net.1) (host_bits ip - net.2))%N;
  ipnet_new ip bits := if (bits <=? host_bits ip)%N then Some (ip, bits) else None;
  ipnet_from_str s :=
    '(a, b) ← split_once "/" s; ip ← IpAddr_from_str a; bits ← parse_uint 255 b;
    if (bits <=? host_bits ip)%N then Some (ip, bits) else None }.
#[export] Instance toy_ipnet_laws : IpNetLaws toy_ipnet.
Proof.
  split.
  - intros ip. cbn. by rewrite N.leb_refl.
  - intros ip net. cbn. rewrite N.leb_refl. intros [= <-] ip'. cbn.
    by rewrite N.eqb_refl, bool_decide_eq_true.
  - by vm_compute.
Qed.

(** Directed graphs as lists of nodes and edges. A path uses the first edge of
    the list or does not: if it does, then up to its first use and after its last
    use it does not. *)
Record toy_dg := mkToyDg { toy_nodes : list GraphNode; toy_edges : list (nat * nat * GraphEdge) }.

Fixpoint toy_path (es : list (nat * nat * GraphEdge)) (a b : nat) : bool :=
  match es with
  | [] => bool_decide (a = b)
  | (u, v, _) :: es => toy_path es a b || toy_path es a u && toy_path es v b
  end.

#[export] Instance toy_digraph : DiGraph := {
  DG := toy_dg;
  dg_new := mkToyDg [] [];
  dg_add_node n g := mkToyDg (toy_nodes g ++ [n]) (toy_edges g);
  dg_add_edge a b e g := mkToyDg (toy_nodes g) (toy_edges g ++ [(a, b, e)]);
  dg_nodes := toy_nodes;
  dg_edges := toy_edges;
  dg_outgoing a g := snd <$> filter (λ x, x.1.1 = a) (toy_edges g);
  dg_has_path g a b := toy_path (toy_edges g) a b }.

Definition edge_step (es : list (nat * nat * GraphEdge)) (a b : nat) : Prop := ∃ e, (a, b, e) ∈ es.

Lemma toy_path_spec es a b : toy_path es a b = true ↔ rtc (edge_step es) a b.
Proof.
  revert a b. induction es as [|[[u v] w] es IH]; intros a b; cbn.
  - rewrite bool_decide_eq_true. split; [by intros ->|].
    intros Hp. destruct Hp as [|? ? ? [e He] _]; [done|]. set_solver.
  - rewrite orb_true_iff, andb_true_iff, !IH.
    assert (Hsub : ∀ x y, rtc (edge_step es) x y → rtc (edge_step ((u, v, w) :: es)) x y).
    { intros x y. apply rtc_subrel. intros ? ? [e He]. exists e. set_solver. }
    split.
    + intros [Hp|[Hp Hq]]; [by apply Hsub|]. etrans; [by apply Hsub|].
      apply rtc_l with v; [exists w; set_solver|by apply Hsub].
    + induction 1 as [x|x y z [e He] _ Hyz]; [by left|].
      apply elem_of_cons in He as [[= -> -> ->]|He].
      * right. split; [done|]. by destruct Hyz as [?|[_ ?]].
      * assert (rtc (edge_step es) x y) by (apply rtc_once; by exists e).
        destruct Hyz as [?|[? ?]]; [left|right; split; [|done]]; by etrans.
Qed.

#[export] Instance toy_digraph_laws : DiGraphLaws toy_digraph.
Proof. split; try done. intros g a b _ _. apply toy_path_spec. Qed.

(** A manifest is written as its campaign and whether it requires containment. *)
#[export] Instance toy_manifest_serialize : Serialize AuthorizationManifest := {
  to_value m := Ok (JObject [("campaign_id", JString (id_to_string (manifest_campaign_id m)));
                             ("require_containment", JBool (require_containment m))]) }.
