(* ===== verification/RuntimeInstances.v ===== *)
(** * Instances for the processes around a campaign

    Codecs, in the sense of [Instances.v], for the messages and records that cross
    a process boundary or are stored by the daemon and the fixture campaign, and a
    protocol-buffer stand-in with its laws. Nothing here models program code. *)

From S2P Require Import Prelude RustStr Json Types Store Ipc Verifier Daemon.
From S2P Require Import Fixture Instances.

#[local] Unset Program Cases.

(** ** Messages *)

Import Ipc.

#[export, program] Instance Hello_codec : Codec Hello := {
  enc x := enc (worker_kind x) ++ enc (python_version x) ++ enc (token x);
  dec l := '(x0, l) ← dec l; '(x1, l) ← dec l; '(x2, l) ← dec l; Some (mkHello x0 x1 x2, l) }.
Next Obligation. intros [] l; cbn -[enc dec]; by decode_fields. Qed.

#[export, program] Instance HelloAck_codec : Codec HelloAck := {
  enc x := enc (daemon_version x) ++ enc (max_frame_bytes x) ++ enc (ack_campaign_id x) ++ enc (ack_manifest_hash x);
  dec l := '(x0, l) ← dec l; '(x1, l) ← dec l; '(x2, l) ← dec l; '(x3, l) ← dec l; Some (mkHelloAck x0 x1 x2 x3, l) }.
Next Obligation. intros [] l; cbn -[enc dec]; by decode_fields. Qed.

#[export, program] Instance ToolIntentMsg_codec : Codec ToolIntentMsg := {
  enc x := enc (msg_capability x) ++ enc (msg_argv x) ++ enc (msg_cwd x) ++ enc (msg_path x) ++ enc (msg_host x) ++ enc (msg_port x) ++ enc (msg_protocol x) ++ enc (msg_timeout_ms x) ++ enc (msg_http_target x) ++ enc (msg_http_cookie x);
  dec l := '(x0, l) ← dec l; '(x1, l) ← dec l; '(x2, l) ← dec l; '(x3, l) ← dec l; '(x4, l) ← dec l; '(x5, l) ← dec l; '(x6, l) ← dec l; '(x7, l) ← dec l; '(x8, l) ← dec l; '(x9, l) ← dec l; Some (mkToolIntentMsg x0 x1 x2 x3 x4 x5 x6 x7 x8 x9, l) }.
Next Obligation. intros [] l; cbn -[enc dec]; by decode_fields. Qed.

#[export, program] Instance IntentResult_codec : Codec IntentResult := {
  enc x := enc (ir_decision x) ++ enc (ir_reason x) ++ enc (ir_exit_status x) ++ enc (ir_stdout_digest x);
  dec l := '(x0, l) ← dec l; '(x1, l) ← dec l; '(x2, l) ← dec l; '(x3, l) ← dec l; Some (mkIntentResult x0 x1 x2 x3, l) }.
Next Obligation. intros [] l; cbn -[enc dec]; by decode_fields. Qed.

#[export, program] Instance Heartbeat_codec : Codec Heartbeat := {
  enc x := enc (unix_ms x);
  dec l := '(x0, l) ← dec l; Some (mkHeartbeat x0, l) }.
Next Obligation. intros [] l; cbn -[enc dec]; by decode_fields. Qed.

#[export, program] Instance ErrorMsg_codec : Codec ErrorMsg := {
  enc x := enc (code x) ++ enc (message x);
  dec l := '(x0, l) ← dec l; '(x1, l) ← dec l; Some (mkErrorMsg x0 x1, l) }.
Next Obligation. intros [] l; cbn -[enc dec]; by decode_fields. Qed.

#[export, program] Instance Shutdown_codec : Codec Shutdown := {
  enc x := enc (shutdown_reason x);
  dec l := '(x0, l) ← dec l; Some (mkShutdown x0, l) }.
Next Obligation. intros [] l; cbn -[enc dec]; by decode_fields. Qed.

#[export, program] Instance Kind_codec : Codec Kind := {
  enc x := match x with
  | KHello x => enc 0%N ++ enc x
  | KHelloAck x => enc 1%N ++ enc x
  | KToolIntent x => enc 2%N ++ enc x
  | KIntentResult x => enc 3%N ++ enc x
  | KHeartbeat x => enc 4%N ++ enc x
  | KError x => enc 5%N ++ enc x
  | KShutdown x => enc 6%N ++ enc x
  end;
  dec l := '(tag, l) ← dec l;
  match tag with
  | 0%N => '(x, l) ← dec l; Some (KHello x, l)
  | 1%N => '(x, l) ← dec l; Some (KHelloAck x, l)
  | 2%N => '(x, l) ← dec l; Some (KToolIntent x, l)
  | 3%N => '(x, l) ← dec l; Some (KIntentResult x, l)
  | 4%N => '(x, l) ← dec l; Some (KHeartbeat x, l)
  | 5%N => '(x, l) ← dec l; Some (KError x, l)
  | 6%N => '(x, l) ← dec l; Some (KShutdown x, l)
  | _ => None
  end }.
Next Obligation. intros [] l; cbn -[enc dec]; by decode_fields. Qed.

#[export, program] Instance Envelope_codec : Codec Envelope := {
  enc x := enc (protocol_version x) ++ enc (request_id x) ++ enc (kind x);
  dec l := '(x0, l) ← dec l; '(x1, l) ← dec l; '(x2, l) ← dec l; Some (mkEnvelope x0 x1 x2, l) }.
Next Obligation. intros [] l; cbn -[enc dec]; by decode_fields. Qed.

#[export] Instance toy_prost : Prost := {
  encode e := Some (to_txt e);
  decode_message s := if is_empty s then Some Envelope_default else of_txt s }.
#[export] Instance toy_prost_laws : ProstLaws toy_prost.
Proof.
  split; [|done]. intros e b _ [= <-]. cbn [decode_message toy_prost].
  assert (is_empty (to_txt e) = false) as -> by (unfold to_txt; cbn; by destruct (N_text _)).
  apply of_to_txt.
Qed.

(** ** The verifier *)

Import Verifier.

#[export, program] Instance FixtureReplayKind_codec : Codec FixtureReplayKind := {
  enc x := match x with
  | ReplayAuthz => enc 0%N
  | ReplayPath => enc 1%N
  end;
  dec l := '(tag, l) ← dec l;
  match tag with
  | 0%N => Some (ReplayAuthz, l)
  | 1%N => Some (ReplayPath, l)
  | _ => None
  end }.
Next Obligation. intros [] l; by decode_fields. Qed.

#[export, program] Instance VerifierOracle_codec : Codec VerifierOracle := {
  enc x := enc (expected_status x) ++ enc (body_contains x) ++ enc (body_not_contains x);
  dec l := '(x0, l) ← dec l; '(x1, l) ← dec l; '(x2, l) ← dec l; Some (mkVerifierOracle x0 x1 x2, l) }.
Next Obligation. intros [] l; cbn -[enc dec]; by decode_fields. Qed.

#[export, program] Instance VerifierReplay_codec : Codec VerifierReplay := {
  enc x := enc (target_root x) ++ enc (expected_tree_digest x) ++ enc (replay_kind x) ++ enc (request_path x) ++ enc (cookie x) ++ enc (replay_oracle x) ++ enc (containment_required x);
  dec l := '(x0, l) ← dec l; '(x1, l) ← dec l; '(x2, l) ← dec l; '(x3, l) ← dec l; '(x4, l) ← dec l; '(x5, l) ← dec l; '(x6, l) ← dec l; Some (mkVerifierReplay x0 x1 x2 x3 x4 x5 x6, l) }.
Next Obligation. intros [] l; cbn -[enc dec]; by decode_fields. Qed.

#[export, program] Instance VerifierInput_codec : Codec VerifierInput := {
  enc x := enc (input_claim x) ++ enc (input_snapshot_id x) ++ enc (oracle_contract x) ++ enc (input_invariant x) ++ enc (replay x);
  dec l := '(x0, l) ← dec l; '(x1, l) ← dec l; '(x2, l) ← dec l; '(x3, l) ← dec l; '(x4, l) ← dec l; Some (mkVerifierInput x0 x1 x2 x3 x4, l) }.
Next Obligation. intros [] l; cbn -[enc dec]; by decode_fields. Qed.

#[export, program] Instance VerifierProcessResult_codec : Codec VerifierProcessResult := {
  enc x := enc (result_text x) ++ enc (accepted x) ++ enc (reason x) ++ enc (target_digest_observed x) ++ enc (oracle_observed x);
  dec l := '(x0, l) ← dec l; '(x1, l) ← dec l; '(x2, l) ← dec l; '(x3, l) ← dec l; '(x4, l) ← dec l; Some (mkVerifierProcessResult x0 x1 x2 x3 x4, l) }.
Next Obligation. intros [] l; cbn -[enc dec]; by decode_fields. Qed.

(** ** The registry and the fixture campaign *)

Import Registry Fixture.

#[export, program] Instance FixtureCampaignResponse_codec : Codec FixtureCampaignResponse := {
  enc x := enc (fr_campaign_id x) ++ enc (fr_state x) ++ enc (fr_verified x) ++ enc (fr_deceptive_rejected x) ++ enc (fr_evidence_level x) ++ enc (fr_original_digest x) ++ enc (fr_original_digest_after x) ++ enc (fr_original_unmodified x) ++ enc (fr_claim x) ++ enc (fr_live_reattack_confirmed x) ++ enc (fr_research_card_id x) ++ enc (fr_verifier_isolated x);
  dec l := '(x0, l) ← dec l; '(x1, l) ← dec l; '(x2, l) ← dec l; '(x3, l) ← dec l; '(x4, l) ← dec l; '(x5, l) ← dec l; '(x6, l) ← dec l; '(x7, l) ← dec l; '(x8, l) ← dec l; '(x9, l) ← dec l; '(x10, l) ← dec l; '(x11, l) ← dec l; Some (mkFixtureCampaignResponse x0 x1 x2 x3 x4 x5 x6 x7 x8 x9 x10 x11, l) }.
Next Obligation. intros [] l; cbn -[enc dec]; by decode_fields. Qed.

#[export, program] Instance CampaignRecord_codec : Codec CampaignRecord := {
  enc x := enc (record_response x) ++ enc (record_stored_unix_ms x);
  dec l := '(x0, l) ← dec l; '(x1, l) ← dec l; Some (mkCampaignRecord x0 x1, l) }.
Next Obligation. intros [] l; cbn -[enc dec]; by decode_fields. Qed.

#[export, program] Instance WorkerResearchTurn_codec : Codec WorkerResearchTurn := {
  enc x := enc (turn_session_id x) ++ enc (turn_request_id x) ++ enc (turn_capability x) ++ enc (turn_path x) ++ enc (turn_host x) ++ enc (turn_port x) ++ enc (turn_decision x) ++ enc (turn_reason x) ++ enc (turn_exit_status x) ++ enc (turn_stdout_digest x) ++ enc (turn_stored_unix_ms x);
  dec l := '(x0, l) ← dec l; '(x1, l) ← dec l; '(x2, l) ← dec l; '(x3, l) ← dec l; '(x4, l) ← dec l; '(x5, l) ← dec l; '(x6, l) ← dec l; '(x7, l) ← dec l; '(x8, l) ← dec l; '(x9, l) ← dec l; '(x10, l) ← dec l; Some (mkWorkerResearchTurn x0 x1 x2 x3 x4 x5 x6 x7 x8 x9 x10, l) }.
Next Obligation. intros [] l; cbn -[enc dec]; by decode_fields. Qed.

#[export, program] Instance HypothesisRec_codec : Codec HypothesisRec := {
  enc x := enc (hypothesis_id x) ++ enc (hypothesis_campaign_id x) ++ enc (hypothesis_claim x) ++ enc (supporting_facts x) ++ enc (historical_analogues x) ++ enc (affected_components x) ++ enc (security_invariant x) ++ enc (possible_impact x) ++ enc (cheapest_experiment x) ++ enc (estimated_cost x) ++ enc (hypothesis_epistemic x);
  dec l := '(x0, l) ← dec l; '(x1, l) ← dec l; '(x2, l) ← dec l; '(x3, l) ← dec l; '(x4, l) ← dec l; '(x5, l) ← dec l; '(x6, l) ← dec l; '(x7, l) ← dec l; '(x8, l) ← dec l; '(x9, l) ← dec l; '(x10, l) ← dec l; Some (mkHypothesis x0 x1 x2 x3 x4 x5 x6 x7 x8 x9 x10, l) }.
Next Obligation. intros [] l; cbn -[enc dec]; by decode_fields. Qed.

#[export, program] Instance ResearchCard_codec : Codec ResearchCard := {
  enc x := enc (rc_id x) ++ enc (rc_campaign_id x) ++ enc (rc_finding_id x) ++ enc (rc_symptom x) ++ enc (rc_root_cause x) ++ enc (rc_exploit_primitive x) ++ enc (rc_violated_invariant x);
  dec l := '(x0, l) ← dec l; '(x1, l) ← dec l; '(x2, l) ← dec l; '(x3, l) ← dec l; '(x4, l) ← dec l; '(x5, l) ← dec l; '(x6, l) ← dec l; Some (mkResearchCard x0 x1 x2 x3 x4 x5 x6, l) }.
Next Obligation. intros [] l; cbn -[enc dec]; by decode_fields. Qed.

