(* ===== verification/Witnesses.v ===== *)
(** * Witnesses

    Concrete inputs at which the hypotheses of the properties hold, run with the
    instances of [Instances.v]. *)

From S2P Require Import Prelude RustStr Net Json Types PathScope Policy Ledger.
From S2P Require Import Cas Authority Store HttpLab Broker Shrink Graph Spec.
From S2P Require Import Claims Snapshot Declared Sandbox Engine Certificate World Campaign RunLaws.
From S2P Require Import EndToEnd Instances.

Definition uid (n : N) (H : (n <? 2 ^ 128)%N = true) {k} : Id k := mkId (mkUuid n H).
Definition cid1 : CampaignId := uid 1 eq_refl.
Definition tid1 : TargetId := uid 2 eq_refl.
Definition rid1 : RequestId := uid 3 eq_refl.

(** Conclusions that depend on the hash are left to the theorem. *)
Ltac run := vm_compute; reflexivity.

(** ** Policy *)

Definition contained : SandboxIdentity := mkSandboxIdentity (uid 4 eq_refl) true.
Definition manifest1 : AuthorizationManifest := default_deny_local cid1 tid1 "/srv/lab".
Definition manifest2 : AuthorizationManifest :=
  set_scope manifest1 {["fixture-target"; "lab"]} [] ({[RunTests]} ∪ tool_allowlist manifest1) true.
Definition read_intent (p : string) : ToolIntent :=
  {| request_id := rid1; capability := ReadFile; argv := []; cwd := None; env := ∅; path := Some p;
     content_glob := None; network := None; http_target := None; http_cookie := None;
     timeout_ms := 1000 |}.
Definition http_intent : ToolIntent :=
  {| request_id := rid1; capability := HttpRequest; argv := []; cwd := None; env := ∅; path := None;
     content_glob := None; network := Some (mkNetworkIntent "127.0.0.1" 8080 Http);
     http_target := Some "/health"; http_cookie := None; timeout_ms := 1000 |}.

Lemma evaluate_monotone_witness :
  decision (evaluate manifest2 None contained (read_intent "/srv/lab/app.py")) = Allow.
Proof.
  apply (evaluate_monotone manifest1 manifest2); [|reflexivity|run].
  split; [done|cbn; set_solver..].
Defined.

Lemma default_deny_local_safe_witness :
  PathScope.confined "/srv/lab/app.py" ["/srv/lab"] ∧ containment_demonstrated contained = true.
Proof.
  destruct (default_deny_local_safe cid1 tid1 "/srv/lab" None contained (read_intent "/srv/lab/app.py"))
    as (_ & _ & _ & Hc & Hp); [by vm_compute|].
  split; [by apply Hp|exact Hc].
Defined.

Lemma fixture_manifest_one_destination_witness :
  port (mkNetworkIntent "127.0.0.1" 8080 Http) = 8080%N.
Proof.
  apply (fixture_manifest_one_destination cid1 tid1 "/srv/lab" "127.0.0.1" 8080 false None contained
           http_intent); [by vm_compute|reflexivity].
Defined.

(** A host without a container runtime. *)
Definition no_oci : Sandbox.OciHost :=
  Sandbox.mkOciHost (Sandbox.mkRuntime (λ _ _, None) (λ _, None) (λ _, false) None false) (λ _, "") (λ _, "") None.

Lemma containment_never_synthetic_witness :
  Engine.waive_containment (Engine.with_bound_sandbox contained) = false.
Proof.
  apply (Engine.containment_never_synthetic (Engine.with_bound_sandbox contained) (uid 9 eq_refl)
           no_oci manifest1 [] [] contained None (read_intent "/srv/lab/app.py"));
    [reflexivity|reflexivity|by vm_compute].
Defined.

(** ** The ledger *)

Import Ledger.

Definition anomaly (s : string) : ResearchEvent := AnomalyRecorded cid1 s.
Definition ledger_of (evs : list (ResearchEvent * list string)) : EventLedger :=
  foldl (λ l ev, match append 7 l ev.1 ev.2 with Ok (l', _) => l' | Err _ => l end) [] evs.
Definition ledger1 : EventLedger := Eval vm_compute in
  ledger_of [(CampaignStarted cid1 "mh", []); (anomaly "first", ["aa"])].
Definition appended : EventLedger * LedgerEntry := Eval vm_compute in
  match append 8 ledger1 (anomaly "second") [] with
  | Ok x => x
  | Err _ => ([], mkLedgerEntry 0 "" "" None "" [] (mkEventRecord 0 (anomaly "")))
  end.
Definition ledger2 : EventLedger := Eval vm_compute in appended.1.
Definition entry2 : LedgerEntry := Eval vm_compute in appended.2.

Lemma append_preserves_chain_witness : verify ledger2 = Ok ().
Proof. apply (append_preserves_chain 8 ledger1 (anomaly "second") [] ledger2 entry2); run. Defined.

Lemma verified_head_determines_history_witness :
  Forall2 same_content ledger2 ledger2 ∨
  (∃ x y, x ∈ chain_inputs ledger2 ∧ y ∈ chain_inputs ledger2 ∧ x ≠ y ∧ blake3_hex x = blake3_hex y) ∨
  (∃ x, x ∈ chain_inputs ledger2 ++ chain_inputs ledger2 ∧ blake3_hex x = GENESIS).
Proof. apply (verified_head_determines_history ledger2 ledger2); run. Defined.

Lemma tampering_is_detected_witness :
  verify (tamper_payload_for_test ledger2 2 "forged") = Err (Tampered 2) ∨
  (∃ err, verify (tamper_payload_for_test ledger2 2 "forged") = Err (LeJson err)) ∨
  (∃ x y, to_canonical_json (record entry2) = Ok x ∧
     to_canonical_json (tampered_record entry2 "forged") = Ok y ∧ x ≠ y ∧
     blake3_hex x = blake3_hex y).
Proof. apply (tampering_is_detected ledger2 2 entry2 cid1 "second" "forged"); [run..|done]. Defined.

(** ** The content-addressed store *)

Definition cas1 : Cas.ContentAddressedStore := Cas.mkCas "/work/cas" 1024.

Lemma empty_cas_wf : Cas.cas_wf cas1 ∅.
Proof. intros d b _ H. by rewrite lookup_empty in H. Defined.

Lemma put_crash_safe_witness :
  Cas.cas_wf cas1 (Cas.put cas1 (Some (Cas.FWrite 2)) "0aff" (uid 5 eq_refl) ∅ "payload" "text/plain").1.
Proof.
  apply (Cas.put_crash_safe cas1 (Some (Cas.FWrite 2)) "0aff" (uid 5 eq_refl) ∅ "payload" "text/plain");
    [reflexivity|apply empty_cas_wf].
Defined.

Definition artifact1 : EvidenceArtifact := Eval vm_compute in
  mkEvidenceArtifact (uid 5 eq_refl) (blake3_hex "payload") (sha256_hex "payload") "text/plain" 7.
Definition stored1 : gmap string string :=
  (Cas.put cas1 None "0aff" (uid 5 eq_refl) ∅ "payload" "text/plain").1.

(** Only the result of a call is evaluated, not its map. *)
Lemma pair_eq {A B} (x : A * B) (b : B) : x.2 = b → x = (x.1, b).
Proof. by destruct x; cbn; intros ->. Defined.

Lemma put_get_witness :
  ∃ stored, Cas.get cas1 stored1 (digest_blake3 artifact1) = Ok stored.
Proof.
  destruct (Cas.put_get cas1 None "0aff" (uid 5 eq_refl) ∅ stored1 "payload" "text/plain" artifact1)
    as (_ & _ & stored & Hg & _); [apply empty_cas_wf|apply pair_eq; run|].
  exists stored. exact Hg.
Defined.

(** ** The evidence authority *)

Definition bundle1 : EvidenceBundle :=
  mkEvidenceBundle (uid 20 eq_refl) cid1 "mh" (uid 21 eq_refl) None "claim" ["aa"] E4IndependentReproduction.
Definition run1 : VerifierRun :=
  mkVerifierRun (uid 22 eq_refl) (uid 20 eq_refl) cid1 "mh" ReproduceCandidate ArVerified "".
Definition reply1 (_ : N) (_ : string) : result string string :=
  Ok ("HTTP/1.1 200 OK" +:+ Authority.crlf +:+ Authority.crlf +:+
      json_to_vec (JString (to_txt ArVerified))).
Definition adapter1 : Authority.TheustadAdapter := Authority.mkTheustad (Some "http://127.0.0.1:9/x").

Lemma remote_authority_fails_closed_witness :
  ArVerified = ArInsufficientEvidence ∨
  ∃ host port path raw request body status,
    Authority.loopback_target "http://127.0.0.1:9/x" = Ok (host, port, path) ∧
    (host = "127.0.0.1" ∨ host = "localhost") ∧
    reply1 port request = Ok raw ∧ Authority.parse_http_reply raw = (status, body) ∧
    (200 <= status < 300)%N ∧ Authority.parse_authority_body body = Some ArVerified.
Proof.
  apply (Authority.remote_authority_fails_closed reply1 adapter1 "http://127.0.0.1:9/x" bundle1 run1
           ArVerified); run.
Defined.

(** ** The store *)

Definition no_text {A} (_ : A) : string := "".
Definition no_fault (_ : nat) : bool := false.

Definition saved : Store.Db * result Store.StoreError unit :=
  Store.persist_ledger_for no_text no_fault cid1 ledger1 Store.Db_empty.
Definition db1 : Store.Db := Eval vm_compute in saved.1.

Lemma persist_load_roundtrip_witness : Store.load_ledger_for no_text cid1 db1 = Ok ledger1.
Proof.
  apply (Store.persist_load_roundtrip no_text no_fault cid1 ledger1 Store.Db_empty db1);
    [run|done|by vm_compute].
Defined.

Lemma persist_all_or_nothing_witness :
  (Store.persist_ledger_for no_text (λ n, n =? 2) cid1 ledger1 Store.Db_empty).1 = Store.Db_empty.
Proof.
  apply (Store.persist_all_or_nothing no_text (λ n, n =? 2) cid1 ledger1 Store.Db_empty _
           (Err Store.Sqlite)); [run|done].
Defined.

Lemma append_entry_refines_witness :
  ∃ db', Store.append_entry_for false cid1 entry2 db1 = Ok db' ∧ Store.represents db' cid1 ledger2 ∧
    Store.load_ledger_for no_text cid1 db' = Ok ledger2.
Proof.
  apply (Store.append_entry_refines no_text 8 cid1 ledger1 (anomaly "second") [] ledger2 entry2 db1);
    [run|run|by vm_compute|run].
Defined.

Definition campaign1 : Campaign := Campaign_new 5 cid1 tid1 (uid 21 eq_refl) "mh".
Definition db2 : Store.Db := Eval vm_compute in
  match Store.put_campaign false campaign1 db1 with Ok db => db | Err _ => db1 end.

Lemma put_get_campaign_witness : Store.get_campaign cid1 db2 = Ok campaign1.
Proof. apply (Store.put_get_campaign false campaign1 db1 db2); run. Defined.

Definition node1 (n : N) (H : (n <? 2 ^ 128)%N = true) : GraphNode :=
  mkGraphNode (uid n H) cid1 Research "finding" "label" Observed JNull "here" [] 1.
Definition edge1 : GraphEdge :=
  mkGraphEdge (uid 40 eq_refl) cid1 Research (uid 30 eq_refl) (uid 31 eq_refl) "supports" Observed None
    "here" [] 1.
Definition db3 : Store.Db := Eval vm_compute in
  (Store.persist_graph no_fault cid1 [node1 30 eq_refl; node1 31 eq_refl] [edge1] db2).1.

Lemma persist_graph_roundtrip_witness :
  Store.load_graph_nodes cid1 db3 = Ok [node1 30 eq_refl; node1 31 eq_refl] ∧
  Store.load_graph_edges cid1 db3 = Ok [edge1].
Proof.
  apply (Store.persist_graph_roundtrip no_fault cid1 _ _ db2); [run|..];
    repeat constructor; eexists; (split; [reflexivity|apply of_to_txt]).
Defined.

(** ** The HTTP client and the broker *)

Lemma http_get_lines_witness :
  split_char newline (HttpLab.request_head "127.0.0.1" 8080 "GET" "/notes/1" None
    (HttpLab.cookie_header (Some "user=alice"))) =
  [("GET " +:+ "/notes/1" +:+ " HTTP/1.1") +:+ HttpLab.cr;
   ("Host: " +:+ "127.0.0.1" +:+ ":" +:+ display_N 8080) +:+ HttpLab.cr;
   "Connection: close" +:+ HttpLab.cr] ++ [("Cookie: " +:+ "user=alice") +:+ HttpLab.cr] ++
  [HttpLab.cr; ""].
Proof.
  apply (HttpLab.http_get_lines "127.0.0.1" 8080 "/notes/1" (Some "user=alice")); [run| |run].
  intros c [= <-]. run.
Defined.

(** A directory [/srv/lab] with one file. *)
Definition lab_fs : Broker.HostFs := {|
  Broker.symlink_metadata p :=
    if String.eqb p "/srv/lab" then Some Broker.FtDir
    else if String.eqb p "/srv/lab/app.py" then Some Broker.FtFile else None;
  Broker.canonicalize p := Some p;
  Broker.read p := if String.eqb p "/srv/lab/app.py" then Some "print(1)" else None;
  Broker.read_to_string p := if String.eqb p "/srv/lab/app.py" then Some "print(1)" else None;
  Broker.read_dir p := if String.eqb p "/srv/lab" then Some [("app.py", Some Broker.FtFile)] else None |}.
Definition offline (_ : string) (_ : N) (_ : string) : option string := None.
Definition broker1 : Broker.ToolBroker :=
  Broker.mkToolBroker _ cid1 manifest1 "mh" None contained cas1 false.
Definition draws1 : Broker.Draws :=
  Broker.mkDraws (λ n, N.of_nat n) (λ _, "0aff") (λ _, uid 5 eq_refl) (λ _, None).
Definition state0 : Broker.BrokerState := Broker.mkBrokerState [] ∅.
Definition executed (i : ToolIntent) : Broker.BrokerState * result Broker.BrokerError ExecutionReceipt :=
  Broker.execute lab_fs offline id broker1 draws1 i state0.
Definition receipt_or (r : result Broker.BrokerError ExecutionReceipt) (d : ExecutionReceipt) :=
  match r with Ok r => r | Err _ => d end.
Definition receipt1 : ExecutionReceipt := Eval vm_compute in
  receipt_or (executed (read_intent "/srv/lab/app.py")).2
    (mkExecutionReceipt rid1 ReadFile Deny None [] None None 0 0 None None None "" None).

Lemma execute_mediated_witness :
  Broker.events (Broker.ledger (executed (read_intent "/srv/lab/app.py")).1) =
  [ToolRequested cid1 rid1 ReadFile; ToolAllowed cid1 rid1].
Proof.
  apply (Broker.execute_mediated lab_fs offline id broker1 draws1 (read_intent "/srv/lab/app.py")
           state0 _ receipt1), pair_eq. run.
Defined.

Lemma outside_not_permitted : ¬ permitted manifest1 contained (read_intent "/etc/passwd").
Proof.
  intros Hp. apply (evaluate_permitted _ None) in Hp.
  assert (Hd : decision (evaluate manifest1 None contained (read_intent "/etc/passwd")) = Deny) by run.
  rewrite Hp in Hd. by case_decide.
Qed.

Lemma execute_denied_witness :
  ∃ e, (executed (read_intent "/etc/passwd")).2 = Err e.
Proof.
  apply (Broker.execute_denied lab_fs offline id broker1 draws1 (read_intent "/etc/passwd") state0
           (executed (read_intent "/etc/passwd")).1); [|by apply pair_eq].
  intros [Hp _]. by apply outside_not_permitted.
Defined.

Lemma read_file_confined_witness :
  Broker.read lab_fs "/srv/lab/app.py" = Some "print(1)".
Proof.
  destruct (Broker.read_file_confined lab_fs offline id broker1 (read_intent "/srv/lab/app.py") 0
              "print(1)" "") as (c & [= <-] & _ & _ & Hr & _); [run|by left|exact Hr].
Defined.

Definition list_intent : ToolIntent :=
  {| request_id := rid1; capability := ListTree; argv := []; cwd := None; env := ∅;
     path := Some "/srv/lab"; content_glob := None; network := None; http_target := None;
     http_cookie := None; timeout_ms := 1000 |}.
Definition listed : string := Eval vm_compute in
  match Broker.dispatch lab_fs offline id broker1 list_intent with Ok (_, out, _) => out | Err _ => "" end.

Lemma list_tree_confined_witness :
  ∃ canonical ps, Broker.canonicalize lab_fs "/srv/lab" = Some canonical ∧
    listed = Broker.listing ps ∧ Forall (Broker.below canonical) ps.
Proof.
  destruct (Broker.list_tree_confined lab_fs offline id broker1 list_intent 0 listed "")
    as (c & ps & Hc & _ & Hl & Hb); [run|reflexivity|]. exists c, ps. done.
Defined.

Lemma receipt_binds_output_witness :
  ∃ x out err, Broker.dispatch lab_fs offline id broker1 (read_intent "/srv/lab/app.py") =
    Ok (x, out, err) ∧ stdout_digest receipt1 = Some (blake3_hex out).
Proof.
  destruct (Broker.receipt_binds_output lab_fs offline id broker1 draws1
              (read_intent "/srv/lab/app.py") state0 (executed (read_intent "/srv/lab/app.py")).1
              receipt1) as (x & out & err & Hd & _ & Ho & _);
    [done|apply empty_cas_wf|apply pair_eq; run|].
  exists x, out, err. split; [exact Hd|exact Ho].
Defined.

(** ** Shrinking and graphs *)

Definition has_five (l : list nat) : bool := existsb (Nat.eqb 5) l.

Lemma shrink_bytes_one_minimal_witness :
  has_five (shrink_bytes has_five [1; 2; 5; 7]) = true.
Proof. apply (shrink_bytes_one_minimal has_five [1; 2; 5; 7]); [done|reflexivity]. Defined.

Definition graph1 : Graph.ActiveGraph :=
  Graph.add_edge (Graph.add_node (Graph.add_node (Graph.ActiveGraph_new cid1) (node1 30 eq_refl)).1
                    (node1 31 eq_refl)).1 edge1.

Lemma reachable_spec_witness : rtc (Graph.id_step graph1) (uid 30 eq_refl) (uid 31 eq_refl).
Proof.
  apply (Graph.reachable_spec cid1 graph1 (uid 30 eq_refl) (uid 31 eq_refl)); [|run].
  repeat constructor.
Defined.

(** ** Specifications and claims *)

Definition claim1 : Claims.ProjectClaim := Claims.mkProjectClaim "user=alice" "/notes/bob" "bob-secret".

Lemma claim_roundtrip_witness :
  Claims.parse_project_claim (Claims.render_claim claim1) = Some claim1.
Proof. apply (Claims.claim_roundtrip claim1); run. Defined.

(** ** Snapshots *)

Definition tree1 : Snapshot.tree :=
  Snapshot.Dir [("src", Snapshot.Dir [("main.rs", Snapshot.File "fn main() {}")]);
                ("README", Snapshot.File "hello"); (".git", Snapshot.Dir [])].
Definition digest1 : string := Eval vm_compute in
  match Snapshot.tree_digest "/a" tree1 with Ok d => d | Err _ => "" end.
Definition replica1 : Snapshot.tree := Eval vm_compute in
  match Snapshot.copy_source_tree tree1 None with Ok t => t | Err _ => Snapshot.Link end.

Lemma replica_digest_witness : Snapshot.tree_digest "/b" replica1 = Ok digest1.
Proof.
  apply (Snapshot.replica_digest "/a" "/b" tree1 replica1 digest1); [..|run|run].
  - split; [apply (bool_decide_unpack _); run|]. repeat split; apply (bool_decide_unpack _); run.
  - cbn. repeat first [done|split|by left|right].
Defined.

Import Snapshot.

Definition files1 : list (list string * string) := Eval vm_compute in
  match Snapshot.collect_files "/a" tree1 [] with Ok fs => fs | Err _ => [] end.

Lemma tree_digest_determines_witness :
  files1 ≡ₚ files1 ∨
  (∃ x y, x = Snapshot.joined (merge_sort Snapshot.path_le files1) ∧
     y = Snapshot.joined (merge_sort Snapshot.path_le files1) ∧ x ≠ y ∧ blake3_hex x = blake3_hex y) ∨
  (∃ x y, x ∈ files1.*2 ∧ y ∈ files1.*2 ∧ x ≠ y ∧ blake3_hex x = blake3_hex y).
Proof.
  assert (Hok : Forall file_ok files1) by (repeat first [done|constructor]).
  assert (Hutf8 : Forall utf8_path files1) by (repeat constructor).
  destruct (Snapshot.tree_digest_determines (H:=toy_hash) (λ b, proj1 (hex_digits_shape 64 (mix b)))
              "/a" "/a" tree1 tree1 files1 files1 digest1) as [[_ Hu]|Hcol]; [run|run|done|done|run|run|left|by right].
  by apply Hu.
Defined.

(** ** Declared campaigns and certificates *)

Definition generator1 : Spec.CampaignGenerator :=
  Spec.mkCampaignGenerator Spec.Harness "python3 probe.py --deep" None None ∅.
Definition oracle1 : Spec.CampaignOracle :=
  Spec.mkCampaignOracle Spec.StdoutContains "the secret leaks" (Some "LEAK") None.
Definition spec1 : Spec.CampaignSpec :=
  {| Spec.spec_id := "http-idor"; Spec.schema_version := None; Spec.target := None;
     Spec.security_class := Spec.Confidentiality;
     Spec.historical_pattern := Spec.mkHistoricalPattern "" [];
     Spec.surface := Spec.mkCampaignSurface ["server.py"] [] None; Spec.invariant := "notes stay private";
     Spec.attacker_capabilities := ["sends requests"]; Spec.prerequisites := [];
     Spec.resource_limits := Spec.mkResourceLimits 5 64 None Spec.NetNone;
     Spec.assigned_roles := []; Spec.generator := generator1; Spec.oracle := oracle1;
     Spec.expected_outcome := Spec.ExpInvariantBroken; Spec.required_evidence := ["E4"];
     Spec.severity_rationale := ""; Spec.surfaces := []; Spec.structural_control := None |}.

Definition measured1 : Declared.Measured :=
  Declared.mkMeasured Declared.AttackSucceeded false false true false.
Definition measured2 : Declared.Measured :=
  Declared.mkMeasured Declared.AttackSucceeded false true false true.

Lemma conclude_justified_witness :
  true = true ↔ true = true ∧ Declared.judgement measured1 = Declared.AttackSucceeded.
Proof.
  apply (Declared.conclude_justified spec1 measured1 CsVerified true true); [|run]. by split.
Defined.

Lemma generator_argv_safe_witness :
  PathScope.Shell.argv_contains_shell_metacharacters ["python3"; "probe.py"; "--deep"] = false.
Proof.
  apply (Declared.generator_argv_safe "python3 probe.py --deep" ["python3"; "probe.py"; "--deep"]); run.
Defined.

Import Certificate Engine.

Definition meta1 (m : Declared.Measured) (regression : option string) : DeclaredRunMeta :=
  mkDeclaredRunMeta (Some "aa") true true "security" None None [] None None true None None None None
    (Declared.independent m) (Declared.twin_holds m) (Declared.e7_ok m) None regression None.
Definition outcome1 (m : Declared.Measured) : CampaignOutcome :=
  mkCampaignOutcome campaign1 None (Some (Declared.raw_level m)) "dd" "dd" false None false None false
    (meta1 m None).
Definition issued1 : EventLedger := Eval vm_compute in
  ledger_of [(EvidenceCreated cid1 "aa", ["aa"]); (CertificateIssued cid1 true true, [])].
Definition db4 : Store.Db := Eval vm_compute in
  (Store.persist_ledger_for no_text no_fault cid1 issued1 Store.Db_empty).1.
Definition work0 : WorkDir := mkWorkDir ∅ (DbTables db4).
Definition work1 : WorkDir := (write_certificate None work0 "http-idor" (outcome1 measured1) issued1).1.

Definition check1 : CertificateCheck :=
  mkCheck true true "E4IndependentReproduction" (id_to_string cid1) [] [].

Lemma release_check_sound_witness :
  ∃ c ledger, cert_contained c = true ∧ verify ledger = Ok () ∧ issued_flags ledger = Some (true, true).
Proof.
  destruct (release_check_sound no_text no_text no_text "" "" no_text work1 work1 check1)
    as (_ & raw & c & cid & db & l & _ & _ & _ & Hc & _ & _ & _ & _ & _ & _ & _ & Hv & _ & _ & _ & Hi & _);
    [|reflexivity|by exists c, l].
  rewrite (pair_eq (verify_certificate no_text no_text no_text "" "" no_text work1) (Ok check1)); run.
Defined.

Definition certificate1 : EvidenceCertificate := certificate_of "http-idor" (outcome1 measured1) issued1.

Lemma digest_covers_claims_witness :
  set_digest certificate1 "" = set_digest (set_digest certificate1 "x") "" ∨
  (∃ x y, to_canonical_json (JObject (claims certificate1)) = Ok x ∧
     to_canonical_json (JObject (claims (set_digest certificate1 "x"))) = Ok y ∧ x ≠ y ∧
     blake3_hex x = blake3_hex y).
Proof.
  destruct (certificate_digest_total certificate1) as [d Hd].
  apply (digest_covers_claims certificate1 (set_digest certificate1 "x") d);
    [exact Hd|by rewrite certificate_digest_set].
Defined.

Lemma certificate_refused_iff_witness :
  (write_certificate None work0 "http-idor" (outcome1 measured2) issued1).2 = Err refusal.
Proof.
  apply (certificate_refused_iff None work0 "http-idor" (outcome1 measured2) issued1 measured2);
    [by split|reflexivity..|by split].
Defined.

(** ** A whole campaign

    The target leaks on every run, the patched twin does not, and the variant
    with the encoded path leaks too: the run reaches level E7. *)

Definition lab_tree (c : string) : Snapshot.tree := Snapshot.Dir [("server.py", Snapshot.File c)].
(** Its processes write to the work directory and drop the blobs. *)
Definition scribble (d : World.Disk) : World.Disk :=
  World.mkDisk (World.d_trees d) ∅
    (mkWorkDir (<[["scratch.txt"] := "x"]> (files (World.d_work d))) (database (World.d_work d))).
Definition lab_env : World.Env := {|
  World.env_clock n := N.of_nat n;
  World.env_uuid n := default (mkUuid 0 eq_refl) (Uuid_of (N.of_nat n));
  World.env_tmp _ := "0aff";
  World.env_cas_fault _ := None;
  World.env_db_fault _ _ := false;
  World.env_write_fault _ := None;
  World.env_io_fault _ := false;
  World.env_catalog _ := None;
  World.env_file _ _ rel := if String.eqb rel "probe.py" then Some "probe" else None;
  World.env_exec _ s d := (scribble d, Ok (if contains (World.start_root s) "twin" then "quiet" else "LEAK"));
  World.env_python_var := None;
  World.env_version _ candidate := String.eqb candidate "python3";
  World.env_status _ _ d := (scribble d, Some true);
  World.env_cfg := Declared.mkHostCfg false true false true false |}.

Definition attack_generator : Spec.CampaignGenerator :=
  Spec.mkCampaignGenerator Spec.Harness "python3 probe.py" None None
    {["attack_path" := "/files/../secret"]}.
Definition attack_spec : Spec.CampaignSpec :=
  Claims.set_generator spec1 attack_generator.
Definition engine1 : CampaignEngine := with_twin (CampaignEngine_new false) "/twin".
Definition world0 : World.World :=
  World.mkWorld {["/srv/lab" := lab_tree "leaky"; "/twin" := lab_tree "patched"]} ∅
    (mkWorkDir ∅ DbMissing) [] [] 0.
Definition run2 : World.World * result EngineError CampaignOutcome :=
  Campaign.run_declared_campaign no_text lab_env "/work" "regression script" to_txt engine1 attack_spec
    "/srv/lab" manifest1 world0.
Definition outcome2 : CampaignOutcome := Eval vm_compute in
  match run2.2 with Ok o => o | Err _ => outcome1 measured1 end.

Lemma run2_Ok : run2 = (run2.1, Ok outcome2).
Proof. apply pair_eq. run. Qed.

Lemma lab_keeps : RunLaws.processes_keep lab_env artifact_keys.
Proof.
  intros k Hk n s d. unfold artifact_keys, minimized_key, regression_key in Hk. cbn.
  rewrite lookup_insert_ne; [done|]. set_solver.
Qed.

Lemma run_leaves_checkable_certificate_witness :
  certificate_checks no_text no_text no_text no_text "" "" cid1 outcome2 run2.1.
Proof.
  destruct (run_leaves_checkable_certificate no_text lab_env "/work" "regression script" to_txt no_text
              no_text no_text "" "" engine1 attack_spec "/srv/lab" manifest1 world0 run2.1 outcome2)
    as [Hkeep Hchecks]; [exact run2_Ok|reflexivity|].
  apply Hchecks; [|by vm_compute]. apply Hkeep, lab_keeps.
Defined.

Lemma run2_artifacts : artifacts_present outcome2 (World.work run2.1).
Proof.
  apply (run_checks no_text lab_env "/work" "regression script" to_txt no_text no_text no_text "" "" engine1
           attack_spec "/srv/lab" manifest1 world0 run2.1 outcome2 run2_Ok eq_refl), lab_keeps.
Defined.

(** In this contained run, certified as contained, one process ran on the host. *)
Lemma contained_run_starts_host_process :
  meta_contained (out_declared outcome2) = true ∧ Certificate.limits_of outcome2 = [] ∧
  existsb (λ r, negb (World.start_contained (World.run_start r))) (World.runs run2.1) = true.
Proof. split_and!; run. Qed.

Definition finding2 : Finding := Eval vm_compute in
  default (mkFinding (uid 1 eq_refl) cid1 (uid 1 eq_refl) "" E0HypothesisOnly "" false)
    (out_finding outcome2).

Lemma verdict_rests_on_observations_witness :
  ∃ c plan, campaign_id c = cid1 ∧ plan ∈ Spec.attack_plans (bound_spec lab_env attack_spec "/srv/lab" world0) ∧
    observed world0 (bound_spec lab_env attack_spec "/srv/lab" world0) true "/srv/lab" c
      Declared.AttackSucceeded run2.1 plan.
Proof.
  destruct (verdict_rests_on_observations no_text lab_env "/work" "regression script" to_txt engine1
              attack_spec "/srv/lab" manifest1 world0 run2.1 outcome2 finding2 run2_Ok eq_refl)
    as (c & Hc & _ & Hv & _).
  destruct (Hv eq_refl) as (_ & _ & plan & Hp & Ho). by exists c, plan.
Defined.

