(* ===== verification/RuntimeWitnesses.v ===== *)
(** * Witnesses for the processes around a campaign

    Concrete inputs at which the hypotheses of the properties of the worker
    protocol, the daemon, the verifier, the sandbox, the executions behind a declared
    campaign and the fixture campaign hold,
    run with the instances of [Instances.v] and [RuntimeInstances.v]. *)

From S2P Require Import Prelude RustStr Net Json Types Policy Ledger Cas.
From S2P Require Import Store HttpLab Ipc Broker Lab Graph Snapshot Verifier.
From S2P Require Import Sandbox CampaignOci Engine Certificate Daemon Serving World Fixture.
From S2P Require Import FixtureLaws Authority Spec Declared Campaign EndToEnd Processes Execution.
From S2P Require Import Instances RuntimeInstances Witnesses.

(** ** The worker protocol *)

Module Protocol.
Import Ipc.

Definition hello1 : Envelope := mkEnvelope 1 "r0" (Some (KHello (mkHello "research" "3.12" "tok"))).
Definition read_msg (p : string) : ToolIntentMsg :=
  mkToolIntentMsg "read_file" [] None (Some p) None None None 0 None None.
Definition intent1 : Envelope := mkEnvelope 1 "r1" (Some (KToolIntent (read_msg "/srv/lab/app.py"))).
Definition stop1 : Envelope := mkEnvelope 1 "r2" (Some (KShutdown (mkShutdown "done"))).
Definition sent1 : Conn := Eval vm_compute in (send_all 4096 [hello1; intent1; stop1] (mkConn "" "")).1.
Definition wire1 : string := Eval vm_compute in outbound sent1.

Lemma sendable1 : Forall sendable [hello1; intent1; stop1].
Proof.
  repeat apply Forall_cons_2; try apply Forall_nil_2; (split_and!; [run|done..|]);
    intros b [= <-]; by vm_compute.
Qed.

Lemma frames_in_order_witness :
  ∃ bytes, sent1 = send (mkConn "" "") bytes ∧
    receive 4096 3 (mkConn (bytes +:+ "!") "") = (mkConn "!" "", Ok [hello1; intent1; stop1]).
Proof.
  destruct (frames_in_order 4096 [hello1; intent1; stop1] (mkConn "" "") sent1 sendable1)
    as (bytes & Hb & Hr); [run|].
  exists bytes. split; [exact Hb|apply Hr].
Defined.

Lemma read_envelope_bounded_witness :
  ∃ taken, wire1 = taken +:+ inbound (read_envelope 64 (mkConn wire1 "")).1 ∧
    (N.of_nat (str_len taken) <= 4 + 64)%N.
Proof.
  destruct (read_envelope_bounded 64 (mkConn wire1 "") (read_envelope 64 (mkConn wire1 "")).1
              (read_envelope 64 (mkConn wire1 "")).2) as (taken & Hin & _ & Hb & _); [run|].
  by exists taken.
Defined.

Definition supervisor0 : WorkerSupervisor := mkSupervisor "127.0.0.1:9" "tok" (EndTcp "127.0.0.1:9") None None.
Definition greeting : AcceptEvent := Accepted (mkConn wire1 "") true.
Definition supervisor1 : WorkerSupervisor := Eval vm_compute in (accept_hello "1.0" greeting None supervisor0).1.
Definition supervisor2 : WorkerSupervisor := Eval vm_compute in (read_next supervisor1).1.

Lemma exchange_authenticated_witness : handshaken "tok" [LAccept greeting (Ok "3.12")].
Proof.
  apply (exchange_authenticated "1.0" supervisor0 [LAccept greeting (Ok "3.12")]
           (LRead (Ok intent1)) [] supervisor2); [reflexivity| |left; by exists intent1].
  apply (session_snoc _ _ [LAccept greeting (Ok "3.12")] supervisor1).
  - apply (session_snoc _ _ [] supervisor0); [constructor|]. apply (step_accept _ _ None). run.
  - apply step_read. run.
Defined.

End Protocol.

(** ** The lab runtime and the daemon *)

Import Ledger Lab Daemon.

Definition lab_manifest1 (rc : bool) : AuthorizationManifest :=
  match lab_manifest_from_root Ok cid1 tid1 "/srv/lab" rc with Ok m => m | Err _ => manifest1 end.
Definition lab1 (rc : bool) : LabRuntime :=
  mkLabRuntime (lab_manifest1 rc) (match manifest_hash (lab_manifest1 rc) with Ok h => h | Err _ => "" end)
    (mkSandboxIdentity (uid 4 eq_refl) false) (Cas.mkCas "/data/cas" (32 * 1024 * 1024)) EventLedger_new ∅.
Definition lab_run (rc : bool) : LabRuntime * ToolIntentResponse :=
  Lab.execute lab_fs offline id no_text (lab1 rc) draws1 (read_intent "/srv/lab/app.py").
Definition allowed_answer : ToolIntentResponse := Eval vm_compute in (lab_run false).2.

Lemma no_blobs_wf c : Cas.cas_wf c ∅.
Proof. intros d b _ H. by rewrite lookup_empty in H. Qed.

Lemma lab_execution_mediated_witness :
  Broker.events (rt_ledger (lab_run false).1) =
  [ToolRequested cid1 rid1 ReadFile; ToolAllowed cid1 rid1].
Proof.
  destruct (lab_execution_mediated lab_fs offline id no_text (lab1 false) draws1
              (read_intent "/srv/lab/app.py") (lab_run false).1 allowed_answer) as [Ha _].
  - done.
  - apply no_blobs_wf.
  - apply pair_eq. run.
  - apply Ha. reflexivity.
Defined.

Definition turn1 : Turn := mkTurn rid1 draws1 None 9 false None.
Definition app0 (rc : bool) : AppState :=
  mkAppState Protocol.supervisor1 0 0 (lab1 rc) Certificate.DbMissing "session" "secret".
Definition request1 : ToolIntentRequest :=
  mkToolIntentRequest "read_file" [] (Some "/srv/lab/app.py") None None None None None 0.
Definition bearer : option string := Some "Bearer secret".

(** A campaign service that refuses every request. *)
#[export] Instance campaigns1 : CampaignService :=
  {| CampaignRequest := string; ServiceState := unit;
     serve_campaign root v := (v, Unprocessable ("fixture root is not a directory: " +:+ root)) |}.

Definition serves1 (rc : bool) := serves lab_fs offline id no_text id no_text "" Some "0.1" (app0 rc).
Definition step1 (th : Thread) (s : AppState) : AppState * Thread :=
  thread_step lab_fs offline id no_text id no_text "" Some "0.1" turn1 th s.

(** A client's request runs between two steps of the worker loop. *)
Definition app1 (rc : bool) : AppState := (step1 WRead (app0 rc)).1.
Definition app2 (rc : bool) : AppState := (step1 (HStart bearer request1) (app1 rc)).1.
Definition msg1 : Ipc.ToolIntentMsg := Protocol.read_msg "/srv/lab/app.py".
Definition app3 (rc : bool) : AppState := (step1 (WIntent "r1" msg1) (app2 rc)).1.
Definition answer1 (rc : bool) : ToolIntentResponse :=
  match (step1 (HStart bearer request1) (app1 rc)).2 with HCount _ _ resp => resp | _ => denied "" end.
Definition answer2 (rc : bool) : ToolIntentResponse :=
  match (step1 (WIntent "r1" msg1) (app2 rc)).2 with WRecord _ _ resp => resp | _ => denied "" end.

Lemma serving1 rc :
  serves1 rc (app3 rc) [WRecord "r1" msg1 (answer2 rc); HCount bearer request1 (answer1 rc)].
Proof.
  assert (H1 : serves1 rc (app1 rc) [WIntent "r1" msg1]).
  { apply (serves_step _ _ _ _ _ _ _ _ _ (app0 rc) (app0 rc) [WRead] 0 WRead turn1); [exact (serves_init _ _ _ _ _ _ _ _ _ _ true)|done|].
    apply (pair_eq (step1 WRead (app0 rc)) (WIntent "r1" msg1)). run. }
  assert (H2 : serves1 rc (app2 rc) [WIntent "r1" msg1; HCount bearer request1 (answer1 rc)]).
  { apply (serves_step _ _ _ _ _ _ _ _ _ (app0 rc) (app1 rc) [WIntent "r1" msg1; HStart bearer request1]
             1 (HStart bearer request1) turn1); [|done|].
    - by apply (serves_request _ _ _ _ _ _ _ _ _ (app0 rc) (app1 rc) [WIntent "r1" msg1]).
    - apply (pair_eq (step1 (HStart bearer request1) (app1 rc)) (HCount bearer request1 (answer1 rc))).
      destruct rc; run. }
  apply (serves_step _ _ _ _ _ _ _ _ _ (app0 rc) (app2 rc)
           [WIntent "r1" msg1; HCount bearer request1 (answer1 rc)] 0 (WIntent "r1" msg1) turn1);
    [exact H2|done|].
  apply (pair_eq (step1 (WIntent "r1" msg1) (app2 rc)) (WRecord "r1" msg1 (answer2 rc))).
  destruct rc; run.
Qed.

Lemma daemon_serves_safely_witness :
  verify (rt_ledger (app_lab (app3 false))) = Ok () ∧
  Forall (justified id Some (app3 false))
    [WRecord "r1" msg1 (answer2 false); HCount bearer request1 (answer1 false)].
Proof.
  destruct (daemon_serves_safely lab_fs offline id no_text id no_text "" Some "0.1" (app0 false) (app3 false)
              [WRecord "r1" msg1 (answer2 false); HCount bearer request1 (answer1 false)]
              (serving1 false) eq_refl eq_refl) as (_ & _ & _ & _ & Hv & Hj & _).
  split; [exact Hv|exact Hj].
Defined.

Lemma daemon_contained_inert_witness : rt_blobs (app_lab (app3 true)) = ∅.
Proof.
  apply (daemon_contained_inert lab_fs offline id no_text id no_text "" Some no_text "0.1" (app0 true)
           (app3 true) [WRecord "r1" msg1 (answer2 true); HCount bearer request1 (answer1 true)]
           (Ok ()) "/data" (uid 4 eq_refl) ∅ (lab_manifest1 true));
    [reflexivity|reflexivity|reflexivity|apply serving1].
Defined.

Lemma worker_loop_terminates_witness :
  ∃ s answers, handle_worker_intents lab_fs offline id no_text id no_text "" 5000 (λ _, turn1)
    (app0 false) = (s, Some answers) ∧ 5 * length answers <= unread (app0 false).
Proof.
  apply (worker_loop_terminates lab_fs offline id no_text id no_text "" 5000 (λ _, turn1) (app0 false)).
  apply Nat.ltb_lt. run.
Defined.

(** ** The verifier *)

Module Verifying.
Import Verifier Snapshot HttpLab.

Definition server_tree : tree := Dir [("server.py", File "VULN_IDOR = True")].
Definition raw_ok (b : string) : string :=
  "HTTP/1.1 200 OK" +:+ Authority.crlf +:+ Authority.crlf +:+ b.
(** A vulnerable server: everything it is asked for contains the secret. *)
Definition launch1 : Launch :=
  mkLaunch (λ _, Ok 9092%N) (Some "python3") (Ok 9090%N) (Ok ()) [PollRunning (Some (raw_ok "ok"))]
    (λ _ _ _, Some (raw_ok "bob-secret")) id.
Definition host1 : Host := mkHost (λ _, false) 1 (uid 50 eq_refl) (uid 51 eq_refl) "/tmp/v" None launch1.
Definition tree_digest1 : string := Eval vm_compute in
  match tree_digest "/fixture" server_tree with Ok d => d | Err _ => "" end.
Definition replay1 : VerifierReplay :=
  mkVerifierReplay "/fixture" tree_digest1 ReplayAuthz "/users/2" (Some "user=1")
    (mkVerifierOracle (Some 200%N) (Some "bob-secret") None) false.
Definition input1 : VerifierInput := mkVerifierInput "claim" "snapshot" "contract" "invariant" (Some replay1).
Definition trees1 : gmap string tree := {["/fixture" := server_tree]}.
Definition adjudicated : gmap string tree * VerifierProcessResult :=
  reproduce_and_adjudicate no_text no_text host1 input1 trees1.
Definition verdict1 : VerifierProcessResult := Eval vm_compute in adjudicated.2.

Lemma verifier_accepts_only_reproductions_witness :
  ∃ copy resp, observed host1 replay1 copy resp ∧ tree_digest "/tmp/v" copy = Ok tree_digest1.
Proof.
  destruct (verifier_accepts_only_reproductions no_text no_text host1 input1 trees1 adjudicated.1 verdict1)
    as (r & t & copy & resp & [= <-] & _ & _ & _ & Hd & Ho & _);
    [apply (pair_eq adjudicated verdict1); run|reflexivity|].
  exists copy, resp. split; [exact Ho|exact Hd].
Defined.

Lemma verifier_accepts_reproductions_witness :
  accepted (reproduce_and_adjudicate no_text no_text host1 input1 trees1).2 = true.
Proof.
  rewrite (verifier_accepts_reproductions no_text no_text host1 input1 trees1 replay1
             [("server.py", File "VULN_IDOR = True")] server_tree (mkHttpResponse 200 "bob-secret"));
    [reflexivity|reflexivity|done|done|reflexivity| |run|reflexivity|reflexivity|run|run|run|reflexivity].
  split; [apply (bool_decide_unpack _); run|]. repeat split; apply (bool_decide_unpack _); run.
Defined.

End Verifying.

(** ** The sandbox *)

Module Contained.
Import Sandbox CampaignOci.

Definition json_text (k : string) : string := quote +:+ k +:+ quote +:+ ": true".
(** A runtime with everything installed, on whose networks the outside is not
    reachable. *)
Definition outside (args : list string) : bool :=
  existsb (λ a, existsb (String.eqb a) args) ["1.1.1.1"; "8.8.8.8"; "one.one.one.one"; "2001:4860:4860::8888"].
Definition podman1 (_ : nat) (args : list string) : option Output :=
  Some match args with
       | "network" :: "inspect" :: _ => mkOutput true (json_text "internal") ""
       | _ => mkOutput (negb (outside args)) "c0ffee" ""
       end%string.
Definition runtime1 : Runtime :=
  mkRuntime podman1 (λ _, None) (String.eqb "/usr/bin/podman") (Some ["/bin"; "/usr/bin"]) false.
Definition host1 (connects : list bool) : Host :=
  mkHost runtime1 Some (λ _, true) (uid 4 eq_refl) "p1" (Some 18081%N) connects (λ _, "exit status: 1").
Definition launch_run (connects : list bool) : list Call * result SandboxError CampaignOciTarget :=
  start (host1 connects) "/srv/lab" [].
Definition target1 : CampaignOciTarget := Eval vm_compute in
  match (launch_run [false; true]).2 with
  | Ok t => t
  | Err _ => mkTarget (uid 4 eq_refl) "" 0 (mkReport false false false false false false false false false false
               Proven Proven Proven Proven Proven false []) "" "" "" true
  end.

Lemma contained_target_isolated_witness :
  ∃ calls, isolated (network_name target1) calls ∧ live_oci_claimable (containment_report target1) = true.
Proof.
  destruct (contained_target_isolated (host1 [false; true]) "/srv/lab" [] (launch_run [false; true]).1
              target1) as (calls & root & image & out & _ & _ & _ & Hi & Hc & _);
    [apply (pair_eq (launch_run [false; true]) (Ok target1)); run|].
  exists calls. split; [exact Hi|exact Hc].
Defined.

Definition failure1 : SandboxError := Eval vm_compute in
  match (launch_run [false]).2 with Ok _ => SandboxIo | Err e => e end.

Lemma failed_start_removed_witness :
  (∃ calls last, (launch_run [false]).1 = [] ++ calls ++ last ∧
     cleaned (container_of (uid 4 eq_refl)) (network_of (uid 4 eq_refl)) last) ∨
  (∃ calls, (launch_run [false]).1 = [] ++ calls ∧
     ∀ out, mkCall ["network"; "create"; "--internal"; network_of (uid 4 eq_refl)] (Some out) ∈ calls →
       success out = false).
Proof.
  apply (failed_start_removed (host1 [false]) "/srv/lab" [] (launch_run [false]).1 failure1),
    (pair_eq (launch_run [false]) (Err failure1)). run.
Defined.

Definition generator_run : list Call * result SandboxError string :=
  exec_generator_ex (host1 []) "/srv/lab" ["python3"; "probe.py"] 64 None [].

Lemma contained_generator_isolated_witness :
  ∃ calls network, isolated network calls.
Proof.
  destruct (contained_generator_isolated (host1 []) "/srv/lab" ["python3"; "probe.py"] 64 None []
              generator_run.1 "c0ffee") as (calls & root & image & network & ctr & out & last & _ & _ & Hi & _);
    [apply (pair_eq generator_run (Ok "c0ffee")); run|].
  exists calls, network. exact Hi.
Defined.

End Contained.

(** ** Executions

    The campaign of [Witnesses.run2] with its arms in containers, and once more with
    containment waived and its arms children of the host. *)

Module Executed.
Import Sandbox CampaignOci World Campaign Execution.

(** The runtime of [Contained], whose generators leak on trees that are not the twin. *)
Definition podman2 (n : nat) (args : list string) : option Output :=
  match args with
  | "run" :: "--rm" :: "--name" :: _ =>
    Some (mkOutput true (if existsb (λ a, contains a "twin") args then "quiet" else "LEAK") "")
  | _ => Contained.podman1 n args
  end%string.
Definition runtime2 : Runtime :=
  mkRuntime podman2 (λ _, None) (String.eqb "/usr/bin/podman") (Some ["/bin"; "/usr/bin"]) false.
(** A child that exits at its second poll. *)
Definition child2 (text : string) : Processes.Child :=
  Processes.mkChild (λ n, if n =? 0 then Processes.PRunning else Processes.PExited true)
    (λ n, N.of_nat n * 20)%N text "" (Some 25%N) true.
Definition machinery2 : Machinery :=
  mkMachinery (λ _, mkHost runtime2 Some (λ _, true) (uid 4 eq_refl) "p1" None [] (λ _, "exit status: 1"))
    (λ _ s _ _, Ok (child2 (if contains (start_root s) "twin" then "quiet" else "LEAK")))
    (λ _ _ d, scribble d).
Definition env2 : Env := with_machinery no_text lab_env machinery2.
#[local] Instance env2_realises : Realises no_text machinery2 env2.
Proof.
  apply with_machinery_realises. intros n s d vars c [= <-] k. unfold child2. cbn [Processes.clock]. lia.
Qed.

Definition engine2 (waived : bool) : Engine.CampaignEngine :=
  Engine.with_twin (Engine.CampaignEngine_new waived) "/twin".
Definition executed_run (waived : bool) : World * result Engine.EngineError Engine.CampaignOutcome :=
  run_declared_campaign no_text env2 "/work" "regression script" to_txt (engine2 waived) attack_spec
    "/srv/lab" manifest1 world0.
Definition outcome_of (waived : bool) : Engine.CampaignOutcome :=
  match (executed_run waived).2 with Ok o => o | Err _ => outcome1 measured1 end.
Definition contained_outcome : Engine.CampaignOutcome := Eval vm_compute in outcome_of false.
Definition waived_outcome : Engine.CampaignOutcome := Eval vm_compute in outcome_of true.
Definition finding_of (o : Engine.CampaignOutcome) : Finding := default finding2 (Engine.out_finding o).

Lemma verdict_rests_on_executions_witness :
  (∃ plan, execution_judged machinery2 world0 (executed_run false).1
     (bound_spec env2 attack_spec "/srv/lab" world0) true "/srv/lab" Declared.AttackSucceeded plan) ∧
  ∃ plan, execution_judged machinery2 world0 (executed_run true).1
     (bound_spec env2 attack_spec "/srv/lab" world0) false "/srv/lab" Declared.AttackSucceeded plan.
Proof.
  split.
  - destruct (verdict_rests_on_executions no_text env2 "/work" "regression script" to_txt no_text machinery2
                (engine2 false) attack_spec "/srv/lab" manifest1 world0 (executed_run false).1
                (Ok contained_outcome)) as [_ Hv]; [apply (pair_eq (executed_run false)); run|].
    destruct (Hv contained_outcome (finding_of contained_outcome) eq_refl eq_refl) as [Ha _].
    destruct (Ha eq_refl) as (plan & _ & Hp). exists plan. exact Hp.
  - destruct (verdict_rests_on_executions no_text env2 "/work" "regression script" to_txt no_text machinery2
                (engine2 true) attack_spec "/srv/lab" manifest1 world0 (executed_run true).1
                (Ok waived_outcome)) as [_ Hv]; [apply (pair_eq (executed_run true)); run|].
    destruct (Hv waived_outcome (finding_of waived_outcome) eq_refl eq_refl) as [Ha _].
    destruct (Ha eq_refl) as (plan & _ & Hp). exists plan. exact Hp.
Defined.

End Executed.

(** ** The fixture campaign

    The vulnerable target gives the secret to everyone, its patched twin to its
    owner only, and the verifier process is the program itself. *)

Module FixtureRun.
Import Verifier Snapshot Engine World Fixture Certificate.

Definition fixture_fs : Broker.HostFs := {|
  Broker.symlink_metadata p :=
    if String.eqb p "/fixture" then Some Broker.FtDir
    else if String.eqb p "/fixture/server.py" then Some Broker.FtFile else None;
  Broker.canonicalize p := Some p;
  Broker.read _ := None;
  Broker.read_to_string _ := None;
  Broker.read_dir p := if String.eqb p "/fixture" then Some [("server.py", Some Broker.FtFile)] else None |}.

Definition reply (b : bool) : option string := Some (Verifying.raw_ok (if b then "bob-secret" else "no")).
Definition answers (leaks : bool) (_ : nat) (_ : string) (port : N) (request : string) : option string :=
  reply (if (port =? 9091)%N then contains request "user=2" else leaks && contains request "/users/2").

Definition spawn1 : Spawn :=
  mkSpawn (mkLookup (λ _, Some "/bin/aros-verifier") (λ _, true) None None) (Ok ()) None [ChildExited] (Ok ())
    (λ _ payload ts,
       let '(ts', (code, out)) :=
         run_verifier_child_main no_text no_text Verifying.host1 (Some payload) true ts in
       (ts', (code, out, ""))).

Definition fx_env (leaks : bool) : FxEnv := {|
  fx_fs _ := fixture_fs; fx_draws _ := draws1; fx_exchange := answers leaks; fx_effect _ := id;
  fx_spawn _ := spawn1; fx_port _ := Some 9091%N; fx_started _ := true;
  fx_polls _ := [PollRunning (Some (Verifying.raw_ok "ok"))]; fx_authority := None;
  fx_authority_exchange _ _ _ := Err ""; 
  fx_oci := Sandbox.mkOciHost Contained.runtime1 (λ n, display_N (N.of_nat n)) (λ _, "") (Some "/usr/bin/podman") |}.

Definition fixture_manifest1 : AuthorizationManifest :=
  fixture_manifest cid1 tid1 "/fixture" "127.0.0.1" 8080 false.
Definition fx0 : Fx :=
  mkFx (mkWorld {["/fixture" := Verifying.server_tree]} ∅ (mkWorkDir ∅ DbMissing) [] [] 0) [].
Definition campaign (leaks : bool) : Fx * result Stop CampaignOutcome :=
  FixtureLaws.run no_text id no_text "" lab_env (fx_env leaks) "/work" "/fixture" "127.0.0.1" 8080 Authz
    (CampaignEngine_new true) fixture_manifest1 fx0.
Definition outcome_of (leaks : bool) : CampaignOutcome :=
  match (campaign leaks).2 with Ok o => o | Err _ => outcome1 measured1 end.
Definition verified1 : CampaignOutcome := Eval vm_compute in outcome_of true.
Definition refuted1 : CampaignOutcome := Eval vm_compute in outcome_of false.

Lemma campaign_verified : campaign true = ((campaign true).1, Ok verified1).
Proof. apply (pair_eq (campaign true) (Ok verified1)). run. Qed.
Lemma campaign_refuted : campaign false = ((campaign false).1, Ok refuted1).
Proof. apply (pair_eq (campaign false) (Ok refuted1)). run. Qed.

Lemma fixture_verified_grounded_witness :
  ∃ t, trees (world fx0) !! "/fixture" = Some t ∧
    tree_digest "/fixture" t = Ok (out_original_digest verified1).
Proof.
  destruct (fixture_verified_grounded no_text id no_text "" lab_env (fx_env true) "/work" "/fixture"
              "127.0.0.1" 8080 Authz (CampaignEngine_new true) fixture_manifest1 fx0 (campaign true).1
              verified1 campaign_verified eq_refl) as (_ & sb & orig & c & t & rid & obs & l & rest & Ht & Hd & _).
  exists t. split; [exact Ht|exact Hd].
Defined.

Lemma fixture_refuted_grounded_witness : refuted_run Authz refuted1.
Proof.
  apply (fixture_refuted_grounded no_text id no_text "" lab_env (fx_env false) "/work" "/fixture"
           "127.0.0.1" 8080 Authz (CampaignEngine_new true) fixture_manifest1 fx0 (campaign false).1
           refuted1 campaign_refuted). by vm_compute.
Defined.

Lemma fixture_reproduced_independently_witness :
  ∃ r copy resp, Verifier.observed Verifying.host1 r copy resp ∧ violated Authz resp = true.
Proof.
  destruct (fixture_reproduced_independently no_text id no_text "" lab_env (fx_env true) "/work" "/fixture"
              "127.0.0.1" 8080 Authz no_text no_text (λ _, Verifying.host1) (CampaignEngine_new true)
              fixture_manifest1 fx0 (campaign true).1 verified1)
    as (n & ts & t & r & copy & resp & _ & _ & _ & _ & _ & Ho & Hv);
    [by intros n bin payload ts|exact campaign_verified|reflexivity|].
  exists r, copy, resp. split; [exact Ho|exact Hv].
Defined.

End FixtureRun.
