(* ===== verification/DriverWitnesses.v ===== *)
(** * Witnesses for the drivers of campaigns

    Concrete inputs at which the hypotheses of the properties of the surface map,
    the release gate, the crew and the evaluation pack hold. The lab leaks on every
    run: one class of campaigns finds the leak, the other looks for something
    else. *)

From S2P Require Import Prelude RustStr Net Json Types Ledger Cas Store Graph Spec.
From S2P Require Import Ipc Snapshot Surface Claims Declared Engine Certificate World.
From S2P Require Import Planner Pddl EndToEnd Gate Drivers Cli Instances Witnesses.
Import Gate Drivers.

(** ** A host *)

Definition idor_spec : Spec.CampaignSpec := attack_spec.
Definition quiet_spec : Spec.CampaignSpec :=
  let s := attack_spec in
  Spec.mkCampaignSpec "http-quiet" (Spec.schema_version s) (Spec.target s) (Spec.security_class s)
    (Spec.historical_pattern s) (Spec.surface s) (Spec.invariant s) (Spec.attacker_capabilities s)
    (Spec.prerequisites s) (Spec.resource_limits s) (Spec.assigned_roles s) (Spec.generator s)
    (Spec.mkCampaignOracle Spec.StdoutContains "another secret leaks" (Some "OTHER") None)
    (Spec.expected_outcome s) (Spec.required_evidence s) (Spec.severity_rationale s) (Spec.surfaces s)
    (Spec.structural_control s).

(** The campaign files hold the names of their specifications. *)
#[export] Instance spec_text : Store.JsonText Spec.CampaignSpec := {
  Store.to_text s := Some (Spec.spec_id s);
  Store.from_text s := if String.eqb s "http-idor" then Some idor_spec
                       else if String.eqb s "http-quiet" then Some quiet_spec else None }.
#[export] Instance surface_text : Store.JsonText Surface.SurfaceMap := {
  Store.to_text m := Some (join " " (Surface.source_paths m)); Store.from_text _ := None }.
Definition poc_manifest : EvalManifest :=
  mkEvalManifest "poc-or-nothing" ""
    [mkEvalCase "case-idor" "lab" "http-idor" "verified";
     mkEvalCase "case-quiet" "lab" "http-quiet" "held";
     mkEvalCase "case-missed" "lab" "http-quiet" "verified";
     mkEvalCase "case-broken" "lab" "http-none" "verified"].
#[export] Instance manifest_text : Store.JsonText EvalManifest := {
  Store.to_text _ := Some "cases"; Store.from_text s := if String.eqb s "cases" then Some poc_manifest else None }.

Definition calm_disk : Surface.Disk :=
  Surface.mkDisk (λ _, Surface.Listed) (λ _, true) (λ _, true) (λ _, true) (λ _, true).
Definition no_planner : Pddl.PlanHost :=
  Pddl.mkPlanHost (λ _, None) (λ _, false) (λ _, false) None (λ _ _ wd, (wd, None)) (λ _, false).
Definition lab_host (live : bool) : GateHost := {|
  gh_var _ := None;
  gh_read p := if ends_with p "cases.json" then Some "cases"
               else if ends_with p "/http-idor.campaign.json" then Some "http-idor"
               else if ends_with p "/http-quiet.campaign.json" then Some "http-quiet" else None;
  gh_is_file p := String.eqb p "/srv/evaluation/poc-or-nothing/cases.json";
  gh_is_dir p := String.eqb p "/srv/campaign-loader/classes";
  gh_list _ := Some [Some "http-quiet.campaign.json"; Some "README.md"; Some "http-idor.campaign.json"];
  gh_crate := "/build/aros-core";
  gh_cwd := Some ["srv"; "work"];
  gh_disk := calm_disk;
  gh_plan := no_planner;
  gh_live_oci := live;
  gh_python p := String.eqb p "python3" |}.
Definition site0 : Site := mkSite world0 ∅.

#[local] Abbreviation gate1 live :=
  (run_release_gate no_text no_text lab_env (lab_host live) "regression script" to_txt "" no_text 100
     "/srv/lab" "/work" "http-" false site0).
#[local] Abbreviation poc1 :=
  (run_poc_eval_pack no_text no_text lab_env (lab_host true) "regression script" to_txt "" no_text "/work" false
     site0).

Definition gate_result (live : bool) : GateResult := Eval vm_compute in
  mkGateResult live live (negb live) (if live then ["http-idor"] else []) (if live then ["http-quiet"] else [])
    (if live then [] else ["containment cannot be shown"]) "/work/gate-report.html" "/work/surface.json".
Lemma gate1_Ok live : gate1 live = ((gate1 live).1, Ok (gate_result live)).
Proof. apply pair_eq. destruct live; run. Qed.

(** ** The release gate *)

Lemma gate_accounts_for_every_class_witness :
  verified (gate_result true) = ["http-idor"] ∧ gate_passes (Ok (gate_result true)) = false ∧
  ∃ c, was_verified c = true ∧ cr_id c = "http-idor" ∧
    ∃ campaign plan, plan ∈ Spec.attack_plans (bound_spec lab_env (cr_spec c) "/srv/lab" (cr_before c)) ∧
      observed (cr_before c) (bound_spec lab_env (cr_spec c) "/srv/lab" (cr_before c)) true "/srv/lab" campaign
        Declared.AttackSucceeded (cr_after c) plan.
Proof.
  destruct (gate_accounts_for_every_class no_text no_text lab_env (lab_host true) "regression script" to_txt ""
              no_text 100 "/srv/lab" "/work" "http-" false site0 _ _ (gate1_Ok true) eq_refl)
    as (surface & dir & planned & files & log & s1 & s2 & s3 & _ & _ & _ & _ & _ & _ & _ & _ & _ & _ & _ & _ & _ &
      Hv & _ & _ & _ & Hob & _).
  split_and!; [done..|]. destruct (List.filter was_verified log) as [|c l] eqn:E; [done|].
  injection Hv as Hc _. assert (List.In c (List.filter was_verified log)) as Hin by (rewrite E; by left).
  apply List.filter_In in Hin as [Hin Hw]. exists c. split_and!; [done..|].
  apply Hob; [by apply list_elem_of_In|done].
Defined.

Lemma gate_starts_declared_witness :
  started (gate_process lab_env (lab_host true) "" no_text "/work" "/srv/lab" false) world0
    (top (gate1 true).1).
Proof.
  apply (gate_starts_declared no_text no_text lab_env (lab_host true) "regression script" to_txt "" no_text 100
           "/srv/lab" "/work" "http-" false site0 _ _ (gate1_Ok true)).
Defined.

Lemma blocked_gate_runs_nothing_witness :
  gate_passes (Ok (gate_result false)) = false ∧ World.runs (top (gate1 false).1) = [] ∧
  dirs (gate1 false).1 = ∅.
Proof.
  destruct (blocked_gate_runs_nothing no_text no_text lab_env (lab_host false) "regression script" to_txt ""
              no_text 100 "/srv/lab" "/work" "http-" site0 _ _ (gate1_Ok false) eq_refl)
    as (_ & ? & _ & _ & ? & _ & ?). by split_and!.
Defined.

(** ** The crew and the evaluation pack *)

#[local] Abbreviation crew1 :=
  (run_deterministic_crew no_text no_text lab_env (lab_host true) "regression script" to_txt "" no_text 100
     "/srv/lab" "/work" "http-" false site0).
Definition crew_report : CrewReport :=
  mkCrewReport ["mapper"; "planner"; "runner"; "shrinker"; "scribe"] []
    (Surface.mkSurfaceMap [] [] {["health_path" := "/health"]}) (gate_result true).
Lemma crew1_Ok : crew1 = (crew1.1, Ok crew_report).
Proof. apply pair_eq. run. Qed.

Lemma crew_decides_as_gate_witness :
  ∃ s1, run_release_gate no_text no_text lab_env (lab_host true) "regression script" to_txt "" no_text 100
          "/srv/lab" "/work" "http-" false s1 = (crew1.1, Ok (crew_gate crew_report)) ∧
    crew_passes (Ok crew_report) = gate_passes (Ok (crew_gate crew_report)).
Proof.
  destruct (crew_decides_as_gate no_text no_text lab_env (lab_host true) "regression script" to_txt "" no_text
              100 "/srv/lab" "/work" "http-" false site0 _ _ crew1_Ok) as [_ H].
  destruct (H crew_report eq_refl) as (s1 & Hg & _ & Hp). exists s1. exact (conj Hg Hp).
Defined.

Definition poc_report : EvalReport :=
  mkEvalReport "poc-or-nothing" 2 4 false ["case-missed"; "case-broken"]
    [mkEvalCaseResult "case-idor" "verified" "verified" true None;
     mkEvalCaseResult "case-quiet" "held" "held" true None;
     mkEvalCaseResult "case-missed" "verified" "held" false None;
     mkEvalCaseResult "case-broken" "verified" "error" false (Some "")].
Lemma poc1_Ok : poc1 = (poc1.1, Ok poc_report).
Proof. apply pair_eq. run. Qed.

Lemma eval_points_are_oracle_matches_witness :
  poc_passes (Ok poc_report) = false ∧
  ∃ start finish loaded campaign plan,
    plan ∈ Spec.attack_plans (bound_spec lab_env (with_python (lab_host true) loaded) "/srv/lab" start) ∧
    observed start (bound_spec lab_env (with_python (lab_host true) loaded) "/srv/lab" start) true "/srv/lab"
      campaign Declared.AttackSucceeded finish plan.
Proof.
  destruct (eval_points_are_oracle_matches no_text no_text lab_env (lab_host true) "regression script" to_txt ""
              no_text "/work" false site0 _ _ poc1_Ok)
    as [(? & _)|(root & dir & manifest & log & _ & Hroot & _ & Hman & Hcases & _ & Hrows & _ & _ & _ & _ & Hhit)];
    [done|].
  split; [done|]. assert (root = "/srv") as -> by (by injection Hroot as <-).
  assert (manifest = poc_manifest) as -> by (by injection Hman as <-).
  destruct log as [|c log]; [done|]. injection Hcases as Hc _. injection Hrows as Hrow _.
  destruct (Hhit c) as (_ & _ & Hv); [by left|by rewrite <- Hrow|].
  destruct Hv as (loaded & campaign & plan & _ & Hp & Ho); [by rewrite Hc|].
  assert (cr_target "/srv" c = "/srv/lab") as Ht by (unfold cr_target; by rewrite Hc).
  rewrite Ht in Hp, Ho. by exists (cr_start c), (cr_end c), loaded, campaign, plan.
Defined.

Definition lost_host : GateHost := {|
  gh_var _ := None; gh_read _ := None; gh_is_file _ := false; gh_is_dir _ := false; gh_list _ := None;
  gh_crate := "/"; gh_cwd := None; gh_disk := calm_disk; gh_plan := no_planner; gh_live_oci := true;
  gh_python _ := false |}.

Lemma eval_pack_finishes_witness :
  Halted (Engine.EeFailClosed "evaluation/poc-or-nothing/cases.json not found") = Halted Engine.EeIo ∨
  repo_root lost_host = None ∨ class_campaign_dir lost_host = None ∨
  ∃ root e, repo_root lost_host = Some root ∧
    load_eval_manifest lost_host (Gate.below root cases_file) = Err e.
Proof.
  apply (eval_pack_finishes no_text no_text lab_env lost_host "regression script" to_txt "" no_text "/work" false
           site0 (run_poc_eval_pack no_text no_text lab_env lost_host "regression script" to_txt "" no_text
                    "/work" false site0).1).
  by apply pair_eq.
Defined.

(** ** The surface walk *)

Definition dq : string := String "034" "".
Definition lab_sources : Snapshot.tree :=
  Snapshot.Dir
    [("server.py", Snapshot.File ("route(" +:+ dq +:+ "/users/7" +:+ dq +:+ ")"));
     ("node_modules", Snapshot.Dir [("x.js", Snapshot.File ("get(" +:+ dq +:+ "/hidden" +:+ dq +:+ ")"))]);
     ("web", Snapshot.Dir [("app.js", Snapshot.File ("get('/health'); get('/a b')"))])].
Definition lab_paths : list string := Eval vm_compute in
  match Surface.extract_http_paths_from_tree calm_disk lab_sources with Ok l => l | Err _ => [] end.

Lemma surface_walk_exact_witness :
  lab_paths = ["/health"; "/users/7"] ∧
  ∀ p, p ∈ lab_paths ↔ ∃ text, text ∈ Surface.sources lab_sources ∧ Ipc.is_utf8 text = true ∧
    p ∈ Surface.extract_http_paths text.
Proof.
  split; [run|]. apply (Surface.surface_walk_exact calm_disk lab_sources lab_paths); [run| |run || by vm_compute; lia].
  by intros path.
Defined.

Lemma surface_walk_bounded_witness : 2 <= 401 + Surface.height lab_sources.
Proof.
  apply (Surface.surface_walk_bounded calm_disk lab_sources [] {["/health"; "/users/7"]}). run.
Defined.

(** ** The command line *)

Lemma finished_run_verifies_witness :
  ∃ chk, Cli.verify_ledger no_text no_text no_text no_text "" "" (λ _, "check")
      (Some (id_to_string cid1)) (World.work run2.1) =
    (World.work run2.1,
     Cli.mkExit Cli.SUCCESS ["ledger ok (" +:+ display_N (N.of_nat (length (World.ledger run2.1))) +:+ " events)";
                             "check"] []) ∧
    Certificate.check_release_eligible chk = true.
Proof.
  destruct (Cli.finished_run_verifies no_text lab_env "/work" "regression script" to_txt no_text no_text no_text ""
              "" (λ _, "check") engine1 attack_spec "/srv/lab" manifest1 world0 run2.1 outcome2 run2_Ok eq_refl)
    as (chk & Hv & _ & Hr); [exact run2_artifacts|by vm_compute|]. exists chk. split; [exact Hv|]. rewrite Hr. run.
Defined.

Lemma evidence_verify_sound_witness :
  ∃ c cid l, Certificate.bundle_intact no_text work1 c cid l.
Proof.
  destruct (Cli.evidence_verify_sound no_text no_text no_text no_text "" "" (λ _, "check")
              (Some (id_to_string cid1)) work1
              (Cli.verify_ledger no_text no_text no_text no_text "" "" (λ _, "check")
                 (Some (id_to_string cid1)) work1).1
              (Cli.verify_ledger no_text no_text no_text no_text "" "" (λ _, "check")
                 (Some (id_to_string cid1)) work1).2)
    as (_ & db & l & _ & _ & _ & [Hf|Hb]); [apply surjective_pairing|run| |exact Hb].
  exfalso. revert Hf. by vm_compute.
Defined.

(** ** Missed cases *)

(** A printer of JSON values that uses hexadecimal digits only. *)
Fixpoint hex_text (s : string) : string :=
  match s with
  | EmptyString => ""
  | String c s => String (hex_of (byte_val c / 16)) (String (hex_of (byte_val c mod 16)) (hex_text s))
  end.
Definition hex_val (c : ascii) : N :=
  if (byte_val c <? 58)%N then byte_val c - 48 else byte_val c - 87.
Fixpoint unhex_text (s : string) : string :=
  match s with
  | String a (String b s) => String (ascii_of_N (hex_val a * 16 + hex_val b)) (unhex_text s)
  | _ => ""
  end.

Lemma hex_byte c :
  ascii_of_N (hex_val (hex_of (byte_val c / 16)) * 16 + hex_val (hex_of (byte_val c mod 16))) = c ∧
  printable (hex_of (byte_val c / 16)) = true ∧ printable (hex_of (byte_val c mod 16)) = true.
Proof. destruct c as [[] [] [] [] [] [] [] []]; by vm_compute. Qed.
Lemma unhex_hex s : unhex_text (hex_text s) = s.
Proof. induction s as [|c s IH]; [done|]. cbn [hex_text unhex_text]. by rewrite IH, (proj1 (hex_byte c)). Qed.

#[local] Instance hex_json : JsonLib :=
  { json_to_vec v := hex_text (to_txt v); json_from_slice s := of_txt (unhex_text s) }.
#[local] Instance hex_json_laws : JsonLaws hex_json.
Proof. split. intros v _. cbn [json_to_vec json_from_slice hex_json]. rewrite unhex_hex. apply of_to_txt. Qed.
#[local] Instance hex_json_lines : JsonLineLaws hex_json.
Proof.
  split. intros v _. cbn [json_to_vec hex_json]. unfold printable_text. generalize (to_txt v). intros s.
  induction s as [|c s IH]; [done|]. destruct (hex_byte c) as (_ & H1 & H2).
  cbn [hex_text all_bytes]. by rewrite H1, H2, IH.
Qed.

Definition misses : list Miss := [mkMiss "case-1" "http-idor" "held"; mkMiss "case-2" "http-traversal" "error"].

Lemma miss_cards_remembered_witness :
  ∃ w1 rows, Pddl.load_failure_memory no_planner (write_misses lab_env misses world0).1 =
    (w1, Ok (rows ++ [Planner.mkFailureMemory "http-idor" "EXPERIMENT_INADEQUATE";
                      Planner.mkFailureMemory "http-traversal" "EXPERIMENT_INADEQUATE"])).
Proof.
  destruct (miss_cards_remembered lab_env no_planner misses [] world0 (write_misses lab_env misses world0).1)
    as (w1 & rows & Hload & _); [by apply pair_eq; run|run|constructor|by repeat constructor|].
  exists w1, rows. exact Hload.
Defined.
