(* ===== verification/ServiceWitnesses.v ===== *)
(** * Witnesses for the daemon's start, its campaign service and the commands

    Concrete inputs at which the hypotheses of the properties of [Service],
    [Startup], [Budget] and [Commands] hold: a contained fixture campaign whose
    finding is verified, a daemon started for a lab with its worker in a container,
    and a declared campaign run and checked from the command line. *)

From S2P Require Import Prelude RustStr Net Json Types Policy Ledger Cas Authority Store HttpLab Ipc Broker Lab.
From S2P Require Import Graph Spec Claims Snapshot Surface Declared Verifier Sandbox CampaignOci Remains Engine Certificate.
From S2P Require Import Daemon Serving World Fixture FixtureLaws FixtureServers Campaign RunLaws Planner Pddl EndToEnd Gate.
From S2P Require Import Drivers Service Startup Budget Processes Cli Commands Instances RuntimeInstances Witnesses.
From S2P Require Import RuntimeWitnesses DriverWitnesses.

(** ** The campaign service *)

Module Serviced.
Import Service Fixture.

Definition svc_host : SvcHost := {|
  sv_is_dir _ := true; sv_is_file _ := true; sv_create_dir := Ok (); sv_var _ := None;
  sv_answers p := String.eqb p "python3"; sv_port := Ok 8080%N; sv_spawn := Ok ();
  sv_polls := [Verifier.PollRunning (Some (Verifying.raw_ok "ok"))];
  sv_oci := Contained.host1 [false; true] |}.
Definition svc0 : Svc := mkSvc FixtureRun.fx0 [] [] [] None.
Definition request (waive : bool) : FixtureCampaignRequest := mkRequest "/fixture" "/work" PAuthz waive.

#[local] Abbreviation served waive :=
  (Service.run_fixture_campaign no_text id no_text "" lab_env (FixtureRun.fx_env true) svc_host no_text no_text
     (request waive) svc0).

Definition contained_response : Daemon.Registry.FixtureCampaignResponse := Eval vm_compute in
  match (served false).2 with
  | Ok r => r
  | Err _ => Daemon.Registry.response_from FixtureRun.refuted1
  end.
Lemma served_contained : served false = ((served false).1, Ok contained_response).
Proof. apply pair_eq. run. Qed.

Lemma served_campaign_contained_witness :
  Daemon.Registry.fr_verified contained_response = true ∧ svc_launched (served false).1 = [] ∧
  ∃ calls, CampaignOci.isolated (CampaignOci.network_of (uid 4 eq_refl)) calls.
Proof.
  destruct (served_campaign_contained no_text id no_text "" lab_env (FixtureRun.fx_env true) svc_host no_text
              no_text (request false) svc0 _ _ served_contained eq_refl) as (Hl & _ & _ & H).
  destruct (H contained_response eq_refl)
    as (oci & calls & root & image & out & removal & cid & tid & orig & c & rid & obs & l & rest & _ & _ & _ & _ & Hi & _).
  split_and!; [done|exact Hl|]. exists calls. exact Hi.
Defined.


End Serviced.

(** ** A daemon with a contained worker *)

Module Started.
Import Startup Daemon.Daemon Lab.

Definition daemon_key : string := "0123456789abcdef0123456789abcdef".
Definition start_var (rc name : string) : option string :=
  if String.eqb name "AROS_DAEMON_TOKEN" then Some daemon_key
  else if String.eqb name "AROS_LAB_ROOT" then Some "/srv/lab"
  else if String.eqb name "AROS_REQUIRE_CONTAINMENT" then Some rc
  else if String.eqb name "AROS_WORKER_CONTAINER_IMAGE" then Some "aros/worker:1"
  else None.
Definition start1 (rc : string) : Start := {|
  st_var := start_var rc; st_canonicalize := Ok; st_data_root := Ok (); st_registry_dir := Ok ();
  st_blobs := ∅; st_db := Certificate.DbMissing; st_socket_ok := true; st_campaign := cid1; st_target := tid1;
  st_sandbox := uid 4 eq_refl; st_session := "session"; st_worker_token := "tok";
  st_host := Ipc.mkHost Some (λ _, true) true; st_accept := Protocol.greeting; st_write := None;
  st_http_ok := true |}.

#[local] Abbreviation main1 rc := (main id no_text no_text "0.1" (start1 rc)).
Definition app (rc : string) : AppState := match main1 rc with Ok (s, _) => s | Err _ => app0 true end.

Lemma main1_Ok rc : rc = "0" ∨ rc = "1" → main1 rc = Ok (app rc, true).
Proof. intros [-> | ->]; reflexivity. Qed.

Lemma daemon_starts_fail_closed_witness :
  is_Some (Ipc.child (app_supervisor (app "1"))) ∧
  ∀ c, Ipc.child (app_supervisor (app "1")) = Some c → worker_child (start1 "1") "tok" c.
Proof.
  destruct (daemon_starts_fail_closed id no_text no_text "0.1" (start1 "1") (app "1") true
              (main1_Ok _ (or_intror eq_refl))) as (_ & _ & _ & Hc & Hw & _).
  split; [exact Hw|exact Hc].
Defined.

(** A client asks for a file of the lab. *)
Definition header : option string := Some ("Bearer " +:+ daemon_key).
#[local] Abbreviation asked rc :=
  (alone lab_fs offline id no_text id no_text "" Some "0.1" 3 turn1 (HStart header request1) (app rc)).
Definition asked_answer : ToolIntentResponse := Eval vm_compute in
  match (asked "0").2 with HDone _ _ (Json r) => r | _ => denied "" end.

Lemma asked_runs :
  serves lab_fs offline id no_text id no_text "" Some "0.1" (app "0") (asked "0").1
    [WRead; HDone header request1 (Json asked_answer)].
Proof.
  apply (serves_alone lab_fs offline id no_text id no_text "" Some "0.1" 3 turn1 (app "0") (app "0")
           [WRead; HStart header request1] 1 (HStart header request1)); [|done|apply pair_eq; run].
  apply (serves_request _ _ _ _ _ _ _ _ _ (app "0") (app "0") [WRead]); [|done].
  exact (serves_init _ _ _ _ _ _ _ _ _ _ true).
Qed.

Lemma started_daemon_confined_witness :
  resp_decision asked_answer = "ALLOW" ∧ containment_waived (start1 "0") = true ∧
  ∃ fresh i, intent_from_request id fresh request1 = Ok i ∧ in_lab id (start1 "0") i.
Proof.
  destruct (started_daemon_confined id no_text no_text "0.1" lab_fs offline id no_text "" Some (start1 "0")
              (app "0") true (asked "0").1 [WRead; HDone header request1 (Json asked_answer)]
              (main1_Ok _ (or_introl eq_refl)) asked_runs) as (H & _ & _).
  destruct (H header request1 asked_answer) as (Hw & _ & Hi); [by right; left|reflexivity|].
  split_and!; [reflexivity|exact Hw|exact Hi].
Defined.

End Started.

(** ** The command line *)

Module Commanded.
Import Commands Cli.

Definition machine (daemon : option string) : Machine := {|
  mc_var name := if String.eqb name "AROS_DAEMON_URL" then daemon else None;
  mc_is_file _ := false; mc_read _ := None; mc_run _ _ := None; mc_uuid := "u1"; mc_fault := false;
  mc_removed _ := None; mc_report := Sandbox.mkReport true true true true true true true true true true
    Sandbox.Proven Sandbox.Proven Sandbox.Proven Sandbox.Proven Sandbox.Proven true [];
  mc_runtime := Some "/usr/bin/podman" |}.
Definition shell0 : Shell := mkShell site0 ∅ [] ∅.
Definition run_args (spec fixture : option string) : RunArgs :=
  mkRunArgs fixture spec (Some "/srv/lab") "authz" "/work" "127.0.0.1" 8080 false None false.

#[local] Abbreviation aros cmd s :=
  (main no_text no_text no_text no_text no_text no_text id no_text "" "" "" "regression script" to_txt no_text
     (λ _, "check") no_text no_text no_text no_text lab_env (lab_host true) (machine None) 100
     (FixtureRun.fx_env true) (λ _ _ _ _, None) offline cmd s).

Definition declared_cmd : Command :=
  CampaignC (CmdRun (run_args (Some "/srv/campaign-loader/classes/http-idor.campaign.json") None)).

Lemma run_then_verify_witness :
  ∃ out w', (aros declared_cmd shell0).2 = success (to_txt (json_out out)) ∧
    Gate.dirs (disk (aros declared_cmd shell0).1) !! "/work" = Some (World.blobs w', World.work w').
Proof.
  destruct (run_then_verify no_text no_text no_text no_text no_text no_text id no_text "" "" ""
              "regression script" to_txt no_text (λ _, "check") no_text no_text no_text no_text lab_env
              (lab_host true) (machine None) 100 (FixtureRun.fx_env true) (λ _ _ _ _, None) offline
              (run_args (Some "/srv/campaign-loader/classes/http-idor.campaign.json") None)
              "/srv/campaign-loader/classes/http-idor.campaign.json" shell0
              (aros declared_cmd shell0).1 (aros declared_cmd shell0).2)
    as (spec & target & cid & tid & w & w' & out & _ & _ & _ & _ & _ & _ & He & Hd & _);
    [apply surjective_pairing|reflexivity|run|].
  exists out, w'. split; [exact He|exact Hd].
Defined.

(** The whole path, computed: the campaign is run and its evidence checked. *)
Lemma declared_checked :
  (aros (EvidenceC (EvidenceVerify "/work" None)) (aros declared_cmd shell0).1).2 =
  mkExit SUCCESS ["ledger ok (5 events)"; "check"] [].
Proof. run. Qed.


End Commanded.

(** ** Budgets *)

Module Budgeted.
Import Budget.

(** A semaphore that counts. *)
#[local] Instance counting : SemaphoreLib := {
  sem := N; sem_new := id; try_acquire n := if (n =? 0)%N then None else Some (N.pred n);
  release := N.succ; available_permits := id }.
#[local] Instance counting_laws : SemaphoreLaws counting.
Proof.
  split; cbn; [done| | |done].
  - intros s s'. destruct (N.eqb_spec s 0); [done|]. intros [= <-]. unfold id. lia.
  - intros s. by destruct (N.eqb_spec s 0).
Qed.

Definition governor1 : BudgetGovernor := (acquire_experiment (BudgetGovernor_new ResourceBudgets_default)).1.

Lemma budget_enforced_witness : remaining_experiments governor1 = 3%N.
Proof.
  assert (Hg : governed ResourceBudgets_default governor1 1).
  { apply (governed_acquired _ (BudgetGovernor_new ResourceBudgets_default) governor1 0); [constructor|reflexivity]. }
  destruct (budget_enforced ResourceBudgets_default governor1 1 Hg) as (Hn & _). cbn in Hn |- *. lia.
Defined.

End Budgeted.

(** ** Waiting for a generator *)

Module Waited.
Import Processes.

(** A child that exits at its third poll; what it leaves behind closes its streams, or
    holds them open for ever. *)
Definition prompt_child (closes : option N) : Child :=
  mkChild (λ n, if (n =? 2)%nat then PExited true else PRunning) (λ n, N.of_nat n * 25)%N "leaked" "" closes true.

Lemma generator_wait_ends_witness :
  run_generator (turns 1000 20) (λ _, Ok (prompt_child (Some 90%N))) 1000 "/srv/lab" None =
    Some (Returned Reaped (Ok "leaked") 90%N) ∧
  run_generator (turns 1000 20) (λ _, Ok (prompt_child None)) 1000 "/srv/lab" None = Some Blocked.
Proof.
  split.
  - destruct (generator_wait_ends (λ _, Ok (prompt_child (Some 90%N))) 1000 "/srv/lab" None) as (w & Hr & _).
    { intros c [= <-] n. unfold prompt_child. cbn. lia. }
    rewrite Hr. revert Hr. vm_compute. congruence.
  - destruct (generator_wait_ends (λ _, Ok (prompt_child None)) 1000 "/srv/lab" None) as (w & Hr & _).
    { intros c [= <-] n. unfold prompt_child. cbn. lia. }
    rewrite Hr. revert Hr. vm_compute. congruence.
Defined.

End Waited.
